(* ===== verification/_CoqProject ===== *)
-Q . S2P
Prelude.v
Platform.v
Radio.v
State.v
LocalSession.v
Mdns.v
PairedList.v
DevicePassword.v
PairingEvents.v
EncFrame.v
Discovery.v
AccessPolicy.v
PakeHandler.v
LocalAuth.v
OwnerCommands.v
ResponseFifo.v
ClientList.v
Flash.v
WifiPairing.v
Provisioning.v
WifiTrial.v
UdpScan.v
Station.v
BlePairing.v
TcpServer.v
HttpOta.v
Backoff.v
MqttTypes.v
MqttState.v
MqttSerializer.v
MqttCore.v
NetworkTransport.v
AwsIot.v
Boot.v
Application.v
DeviceConfig.v
Invariant.v
System.v
SimPlatform.v
SimDevices.v
SimRadio.v
BootProps.v
ResetProps.v
BeaconProps.v
BleProps.v
MqttStateProps.v
MqttWire.v
MqttTopics.v
MqttCoreProps.v
MqttFrame.v
MqttClient.v
MqttTime.v
MqttRig.v
AwsFrame.v
AwsProps.v
LinkProps.v
AuthProps.v
ListProps.v
SystemProps.v
LoginProps.v
EnrolProps.v
PasswordProps.v
ListStore.v
QueueProps.v
BroadcastProps.v
FifoProps.v
ChainProps.v
AppProps.v
ConnProps.v
AwsSession.v
FlowProps.v
ProvProps.v
TypedProps.v
AwsTopics.v
AwsRig.v
