(* ===== verification/Prelude.v ===== *)
(** * CyThing firmware: verification development

    The firmware of a Wi-Fi controlled device (ESP-IDF, FreeRTOS, C under
    [src/src/]). A phone pairs with it, gives it Wi-Fi credentials over TCP or
    Bluetooth, provisions it with a certificate and talks to it over encrypted
    lines on the local network, or through an MQTT broker. This library models
    its components as executable functions and proves what makes them correct.
    Paths below are relative to [src/src/].

    ** Parts, files and sources

    Foundations. [Prelude]: bytes, machine widths, C strings and formatted
    printing, decimal numbers, the state monad [ST] with [exec] and [eval].
    [Platform], [Radio]: the classes of everything the firmware calls and does
    not contain (mbedTLS, NVS, partitions, timers, SRP, the Wi-Fi driver, NimBLE,
    build-time settings), and the laws of it the theorems use. [State]: one
    record per file's static variables, and [Dev], all of them together with the
    outside [World] and the trace [out] of what was sent.

    Local link. [LocalSession] ([security/local_session.c]): the pool of
    sessions, one per socket. [EncFrame] ([security/enc_frame.c]): encrypted
    lines with counters. [AccessPolicy] ([security/access_policy.c]): the gate in
    front of the dispatcher. [PakeHandler], [LocalAuth], [OwnerCommands],
    [PairedList], [DevicePassword], [PairingEvents] ([security/], the files of
    those names): enrolment and login, the accounts and their persistence, the
    password and its lockout, events for the backend. [ClientList],
    [ResponseFifo], [TcpServer] ([tcp_server/], [common/response_fifo.c]): sockets,
    queued replies, the receive and send tasks, the dispatch chain.

    Getting on the network. [WifiPairing] ([tcp_server/pairing.c]) and
    [BlePairing] ([ble/ble_pairing.c]): credentials over TCP and Bluetooth;
    [WifiTrial] ([wifi/wifi_trial.c]): trying them; [Station] ([wifi/]): bringing
    the station up; [Discovery], [Mdns], [UdpScan] ([ble/discovery_mode.c],
    [ble/ble_beacon.c], [mdns/], [udp_socket/]): being found; [Flash]
    ([memory_handler/], [ota_lib/ota_handler.c]): raw partitions; [Boot]
    ([cything.c]): the order of initialisation; [HttpOta]
    ([ota_lib/http_ota_handler.c]): the firmware download; [Provisioning]
    ([aws/provisioning.c]): the certificate handshake.

    Broker. [MqttTypes], [MqttState], [MqttSerializer], [MqttCore] ([coreMQTT/]):
    the MQTT client, over any transport, clock and callback ([MqttNet],
    [MqttApp]). [NetworkTransport] ([coreMQTT/network_transport.c],
    [posix_compat/clock_esp.c]): TLS and time below it. [Backoff]
    ([backoffAlgorithm/]). [AwsIot] ([aws/aws_iot_handler.c]): the task that
    connects, subscribes, publishes the queues and answers commands; it runs the
    client on its own state, so the instances [aws_net] and [aws_app] discharge
    the client's interfaces, and [aws_laws] the laws they come with.

    Applications. [Application] ([../main/app_main.c],
    [../components/cything/examples/on_off_pin/]): the two C applications as
    the hooks they define, linked into the firmware by [with_application]. A hook
    answers what it asks the library to send ([app_call]), and the task that runs
    it carries the calls out. [DeviceConfig] ([device_config/]): the build-time
    settings the library ships with.

    A C function is the definition of the same name. A loop that is not bounded
    by a structure is a definition of its own, an endless task is a step function
    or a step relation ([System.step], [ble_step], [aws_iot_task_step]), and the
    interleaving of tasks is the interleaving of steps. A failed C operation is a
    value; a read or write outside memory is [None] in the serialisers and
    [Fault] in the client and the broker task, where a failed [assert] is [Fault]
    too.

    ** What is proved

    - [Invariant], [System], [SystemProps]: in every reachable state the list of
      accounts is well formed and each session points at its own entry with its
      role; an owner session is the owner's.
    - [TypedProps]: every reachable state stays inside the C types and arrays it
      models, counters, indices and buffer lengths included.
    - [AuthProps], [LinkProps], [ListProps], [PasswordProps]: who gets in, and
      that nobody else does; replay protection; the effect of each owner command
      on accounts and sessions; the lockout. [EnrolProps], [LoginProps]: a
      phone that knows the password is enrolled, and an enrolled phone is let in,
      whatever the other clients do meanwhile; an enrolment that fails changes no
      account.
    - [BootProps], [ResetProps]: what a power cycle keeps and what five of them
      in a row do: credentials are found again, the fifth start resets the unit.
    - [BeaconProps], [FifoProps]: refinements: the beacon shows the present
      address exactly when it should; the response FIFO is a queue of lines.
    - [ListStore], [ProvProps], [QueueProps], [FlowProps], [BleProps]: reboot
      round trips, the certificate put together from its chunks, the bounds of
      the provisioning buffers, queues and routing, the pairing machine as a
      refinement, credentials tried before they are kept.
    - [BroadcastProps]: a line queued for the phones arrives at each of them, in a
      frame under its own key, and nowhere else.
    - [MqttStateProps]: the record arrays refine two logs of publishes in flight.
      [MqttWire]: serialisers and parsers against the packets as byte lists.
      [MqttTopics]: the topic matcher against matching level by level.
      [MqttCoreProps], [MqttClient]: weakest preconditions, memory safety of the
      receive path, framing of the byte stream, one delivery per publish, what
      each request puts on the wire. [MqttTime]: the transfer loops end.
      [MqttFrame]: what the client leaves alone.
    - [AwsFrame], [AwsProps], [AwsSession], [AwsTopics]: the broker cannot change
      the local side; sessions start clean; the session runs only when
      subscribed; events leave their queue once they are sent; identity and
      routing of topics; and the faults found.
    - [ConnProps]: every socket the two servers open is a session's, the discovery
      server's, or closed once. [ChainProps]: the handlers of the dispatcher
      cannot take each other's lines, so their order is free.
    - [AppProps]: a phone's encrypted command switches the pin, the broker's does
      the same, and for anyone else the firmware behaves as if it had no
      application.
    - [SimPlatform], [SimDevices], [SimRadio], [MqttRig], [AwsRig]: concrete
      platforms, devices and networks that keep the laws, on which the theorems
      are tried.

    ** Bounds and fuel

    The client and the broker task take [fuel], the number of turns of each loop
    whose end depends on the clock or the network. Safety theorems hold for every
    fuel. [MqttTime.transfers_end] gives the fuel that is enough for a transfer:
    one turn per millisecond of the 20 s deadline when sending, ten per byte and
    ten when receiving. [AwsSession.at_most_six_attempts] shows that the retry
    loop needs six turns. Other fuels are structural: a list's length, or the
    number of digits.

    ** Not modelled

    FreeRTOS scheduling inside a step and its mutexes: an operation that holds a
    lock is one step. Socket, NimBLE, driver and TLS set-up calls without effect
    on the modelled state; logging; the GPIO driver; the Arduino
    sketch under [../examples/], which is not C. Cryptography is a parameter with the laws of [Platform]. Pointers into
    buffers that were reused after a publish are kept as the bytes they pointed
    to, which nothing reads again: [AwsProps.reconnects_never_resend]. *)

From Stdlib Require Import ZArith Lia Ascii.
From stdpp Require Import base list sets strings numbers.

(** ** Notation scope and machine types *)

Declare Scope cything_scope.
Delimit Scope cything_scope with cy.

(** A byte is a [Z] in [0, 256); a buffer is a list of them. *)
Abbreviation byte := Z (only parsing).
Abbreviation bytes := (list Z).

Definition is_byte (z : Z) : Prop := (0 <= z < 256)%Z.

Definition wrap (w : Z) (z : Z) : Z := (z mod 2 ^ w)%Z.
Abbreviation u8 := (wrap 8).
Abbreviation u16 := (wrap 16).
Abbreviation u32 := (wrap 32).
Abbreviation u64 := (wrap 64).

(** String literals of the source, as bytes. *)
Fixpoint str (s : string) : bytes :=
  match s with
  | EmptyString => []
  | String c s' => Z.of_N (N_of_ascii c) :: str s'
  end.

Definition NUL : Z := 0.
Definition NL : Z := 10.
Definition CR : Z := 13.
Definition SP : Z := 32.
Definition COMMA : Z := 44.
Definition COLON : Z := 58.

(** ** C string and memory routines used by the firmware *)

(** The C string stored in a buffer: everything before the first NUL. *)
Fixpoint cstr (l : bytes) : bytes :=
  match l with
  | [] => []
  | c :: l' => if bool_decide (c = 0%Z) then [] else c :: cstr l'
  end.

(** [memcmp(buf, p, strlen(p)) == 0]. Past the end of the buffer there is no
    byte to compare equal. *)
Definition memcmp_eq (buf p : bytes) : bool :=
  bool_decide (take (length p) buf = p).

(** [len >= strlen(p) && memcmp(line, p, strlen(p)) == 0]. *)
Definition has_prefix (line p : bytes) : bool :=
  bool_decide (length p <= length line) && memcmp_eq line p.

(** A received line as the handlers see it in [rx_buffer]: the line, the
    ['\n'] that ended it and the NUL the receive task appends. *)
Definition cbuf (line : bytes) : bytes := line ++ [NL; NUL].

(** [memchr]: what precedes and what follows the first [c]. *)
Fixpoint split_at (c : Z) (l : bytes) : option (bytes * bytes) :=
  match l with
  | [] => None
  | x :: l' =>
      if bool_decide (x = c) then Some ([], l')
      else match split_at c l' with
           | Some (a, b) => Some (x :: a, b)
           | None => None
           end
  end.

(** [strncmp(a, b, n) == 0] on buffers that hold C strings. *)
Fixpoint strncmp_eq (n : nat) (a b : bytes) : bool :=
  match n with
  | O => true
  | S n' =>
      let x := default 0%Z (head a) in
      let y := default 0%Z (head b) in
      if bool_decide (x = y)
      then if bool_decide (x = 0%Z) then true else strncmp_eq n' (tail a) (tail b)
      else false
  end.

(** [snprintf(buf, n, "%s", s)]: the stored string. *)
Definition snprintf_s (n : nat) (s : bytes) : bytes := take (n - 1) s.

Definition zeros (n : nat) : bytes := replicate n 0%Z.

(** ** Decimal printing and parsing ([%d], [%u], [atoi], [strtol]) *)

Fixpoint digits (fuel : nat) (n : Z) : bytes :=
  match fuel with
  | O => []
  | S f => (if bool_decide (n < 10)%Z then [] else digits f (n / 10)%Z) ++ [48 + n mod 10]%Z
  end.

(** [log2 z + 1] digits of fuel are more than the decimal digits of [z]. *)
Definition dec_u (z : Z) : bytes := digits (S (Z.to_nat (Z.log2 z))) z.

Definition dec (z : Z) : bytes :=
  if bool_decide (z < 0)%Z then 45%Z :: dec_u (- z) else dec_u z.

Definition is_digit (c : Z) : bool := bool_decide (48 <= c <= 57)%Z.

(** Leading digits of [l], their value and the rest. *)
Fixpoint scan_digits (acc : Z) (l : bytes) : Z * bytes :=
  match l with
  | c :: l' => if is_digit c then scan_digits (acc * 10 + (c - 48))%Z l' else (acc, l)
  | [] => (acc, [])
  end.

Definition is_space (c : Z) : bool := bool_decide (c = 32 \/ 9 <= c <= 13)%Z.

Fixpoint skip_space (l : bytes) : bytes :=
  match l with
  | c :: l' => if is_space c then skip_space l' else l
  | [] => []
  end.

(** [strtol(l, &end, 10)]: the value and what [end] points at. With no digit
    to convert, [end] is the start of the string. *)
Definition strtol (l : bytes) : Z * bytes :=
  let l1 := skip_space l in
  let '(neg, l2) :=
    match l1 with
    | 45%Z :: r => (true, r)
    | 43%Z :: r => (false, r)
    | _ => (false, l1)
    end in
  match l2 with
  | c :: _ =>
      if is_digit c then
        let '(v, rest) := scan_digits 0 l2 in ((if neg then - v else v)%Z, rest)
      else (0%Z, l)
  | [] => (0%Z, l)
  end.

Definition atoi (l : bytes) : Z := fst (strtol (cstr l)).

(** ** The state monad of the stateful code *)

Definition ST (S A : Type) : Type := S -> A * S.

Definition ret {S A} (a : A) : ST S A := fun s => (a, s).
Definition bind {S A B} (m : ST S A) (k : A -> ST S B) : ST S B :=
  fun s => let '(a, s') := m s in k a s'.
Definition gets {S A} (f : S -> A) : ST S A := fun s => (f s, s).
Definition modify {S} (f : S -> S) : ST S unit := fun s => (tt, f s).
Definition exec {S A} (m : ST S A) (s : S) : S := snd (m s).
Definition eval {S A} (m : ST S A) (s : S) : A := fst (m s).

Notation "'let*' x ':=' m 'in' k" := (bind m (fun x => k))
  (at level 10, x pattern, m at level 100, k at level 200,
   format "'[v' 'let*'  x  ':='  m  'in'  '/' k ']'") : cything_scope.
Notation "m ;; k" := (bind m (fun _ => k))
  (at level 100, k at level 200, right associativity,
   format "'[v' m ;;  '/' k ']'") : cything_scope.

Definition when {S} (b : bool) (m : ST S unit) : ST S unit :=
  if b then m else ret tt.

Fixpoint for_each {S A} (l : list A) (f : A -> ST S unit) : ST S unit :=
  match l with
  | [] => ret tt
  | a :: l' => fun s => for_each l' f (snd (f a s))
  end.

Lemma exec_bind {S A B} (m : ST S A) (k : A -> ST S B) s :
  exec (bind m k) s = exec (k (eval m s)) (exec m s).
Proof. unfold exec, eval, bind. by destruct (m s). Qed.
(** Run a statement whose outcome is known. *)
Lemma exec_to {S A B} (m : ST S A) (k : A -> ST S B) s a s' : m s = (a, s') -> exec (bind m k) s = exec (k a) s'.
Proof. intros E. unfold exec, bind. by rewrite E. Qed.
Lemma eval_bind {S A B} (m : ST S A) (k : A -> ST S B) s :
  eval (bind m k) s = eval (k (eval m s)) (exec m s).
Proof. unfold exec, eval, bind. by destruct (m s). Qed.
Lemma exec_ret {S A} (a : A) (s : S) : exec (ret a) s = s.
Proof. done. Qed.
Lemma eval_ret {S A} (a : A) (s : S) : eval (ret a) s = a.
Proof. done. Qed.
Lemma exec_gets {S A} (f : S -> A) s : exec (gets f) s = s.
Proof. done. Qed.
Lemma eval_gets {S A} (f : S -> A) s : eval (gets f) s = f s.
Proof. done. Qed.
Lemma exec_modify {S} (f : S -> S) s : exec (modify f) s = f s.
Proof. done. Qed.
Lemma exec_eval {S A} (m : ST S A) s : m s = (eval m s, exec m s).
Proof. unfold exec, eval. by destruct (m s). Qed.

(** A projection that every iteration keeps, the loop keeps. *)
Lemma for_each_frame {S A X} (proj : S -> X) (l : list A) f :
  (forall a s, proj (exec (f a) s) = proj s) ->
  forall s, proj (exec (for_each l f) s) = proj s.
Proof.
  intros Hf. induction l as [|a l IH]; intros s; cbn; [done|].
  unfold exec in *. cbn. by rewrite IH, Hf.
Qed.

(** A property that every iteration keeps, the loop keeps. *)
Lemma for_each_inv {S A} (Inv : S -> Prop) (l : list A) f :
  (forall a s, Inv s -> Inv (exec (f a) s)) ->
  forall s, Inv s -> Inv (exec (for_each l f) s).
Proof.
  intros Hf. induction l as [|a l IH]; intros s Hs; [done|].
  apply (IH (exec (f a) s)). by apply Hf.
Qed.

(** ** Dense C arrays *)

(** [for(k = i; k < i + n; k++) a[k] = a[k + 1];] *)
Fixpoint shift_down {A} (l : list A) (i n : nat) : list A :=
  match n with
  | O => l
  | S n' =>
      shift_down (match l !! S i with Some x => <[i := x]> l | None => l end) (S i) n'
  end.

(** [snprintf] into a row that already holds bytes: the text, its NUL, and
    whatever the row held behind them. *)
Definition row_write (row s : bytes) : bytes := s ++ NUL :: drop (S (length s)) row.

(** ** Development tactics *)

Create HintDb cything.
Create Rewrite HintDb cything.
#[export] Hint Rewrite @exec_bind @eval_bind @exec_ret @eval_ret @exec_gets @eval_gets
  @exec_modify : cything.

(** Unfold the monad and compute. *)
Ltac st_unfold :=
  cbv beta iota zeta delta [bind ret gets modify when exec eval fst snd] in *.

(** Split on the first stuck match or test of the goal. *)
Ltac st_case :=
  match goal with
  | |- context [match ?x with _ => _ end] => destruct x eqn:?
  end.

Ltac bool_hyps :=
  repeat match goal with
  | H : bool_decide _ = true |- _ => apply bool_decide_eq_true_1 in H
  | H : bool_decide _ = false |- _ => apply bool_decide_eq_false_1 in H
  | H : _ && _ = true |- _ => apply andb_true_iff in H; destruct H
  | H : _ || _ = false |- _ => apply orb_false_iff in H; destruct H
  | H : negb _ = true |- _ => apply negb_true_iff in H
  | H : negb _ = false |- _ => apply negb_false_iff in H
  end.

(** ** Shared lemmas *)

Lemma cstr_app_nul a b :
  Forall (fun c => c <> 0%Z) a -> cstr (a ++ 0%Z :: b) = a.
Proof.
  induction 1 as [|c a Hc Ha IH]; cbn.
  - reflexivity.
  - rewrite bool_decide_eq_false_2 by assumption. by rewrite IH.
Qed.

Lemma cstr_nonzero l : Forall (fun c => c <> 0%Z) (cstr l).
Proof.
  induction l as [|c l IH]; cbn; [constructor|].
  case_bool_decide; constructor; auto.
Qed.

Lemma cstr_length l : length (cstr l) <= length l.
Proof. induction l; cbn; [lia|]. case_bool_decide; cbn; lia. Qed.

Lemma cstr_id l : Forall (fun c => c <> 0%Z) l -> cstr l = l.
Proof.
  induction 1; cbn; [done|]. rewrite bool_decide_eq_false_2 by done. by f_equal.
Qed.

Lemma cstr_app_zeros a n :
  Forall (fun c => c <> 0%Z) a -> cstr (a ++ zeros n) = a.
Proof.
  intros Ha. destruct n as [|n]; cbn [zeros replicate].
  - by rewrite app_nil_r, cstr_id.
  - by apply cstr_app_nul.
Qed.

Lemma strncmp_eq_refl n a : strncmp_eq n a a = true.
Proof.
  revert a. induction n as [|n IH]; intros a; cbn; [done|].
  rewrite bool_decide_eq_true_2 by done. case_bool_decide; auto.
Qed.

Lemma strncmp_eq_sym n a b : strncmp_eq n a b = strncmp_eq n b a.
Proof.
  revert a b. induction n as [|n IH]; intros a b; cbn; [done|].
  repeat case_bool_decide; congruence || apply IH.
Qed.

Lemma strncmp_eq_trans n a b c :
  strncmp_eq n a b = true -> strncmp_eq n b c = true -> strncmp_eq n a c = true.
Proof.
  revert a b c. induction n as [|n IH]; intros a b c; cbn; [done|].
  intros H1 H2.
  destruct (bool_decide (default 0%Z (head a) = default 0%Z (head b))) eqn:E1; [|done].
  destruct (bool_decide (default 0%Z (head b) = default 0%Z (head c))) eqn:E2; [|done].
  bool_hyps. rewrite E1, E2 in *. rewrite bool_decide_eq_true_2 by done.
  case_bool_decide; [done|]. eauto.
Qed.

(** On buffers that fit the bound, [strncmp] decides equality of the C strings. *)
Lemma strncmp_eq_iff n a b :
  length (cstr a) <= n -> length (cstr b) <= n ->
  strncmp_eq n a b = true <-> cstr a = cstr b.
Proof.
  revert a b. induction n as [|n IH]; intros a b Ha Hb.
  - destruct (cstr a), (cstr b); cbn in *; try lia. done.
  - destruct a as [|x a], b as [|y b]; cbn in *;
      repeat case_bool_decide; cbn in *; subst; try done; try congruence.
    all: try (rewrite IH by lia); split; congruence.
Qed.

Lemma has_prefix_spec line p :
  has_prefix line p = true <-> exists r, line = p ++ r.
Proof.
  unfold has_prefix, memcmp_eq. split.
  - intros H. bool_hyps. exists (drop (length p) line).
    rewrite <- H0 at 1. by rewrite take_drop.
  - intros [r ->]. rewrite length_app, take_app_length.
    rewrite !bool_decide_eq_true_2 by (done || lia). done.
Qed.

(** The receive task always leaves ['\n'] after the line, so an unguarded
    [memcmp] against a prefix without ['\n'] is the guarded test. *)
Lemma memcmp_cbuf line p :
  Forall (fun c => c <> NL) p -> memcmp_eq (cbuf line) p = has_prefix line p.
Proof.
  intros Hp. apply eq_true_iff_eq. rewrite has_prefix_spec.
  unfold memcmp_eq, cbuf. split.
  - intros H. bool_hyps.
    destruct (decide (length p <= length line)) as [Hl|Hl].
    + exists (drop (length p) line). rewrite take_app_le in H by lia.
      by rewrite <- H at 1; rewrite take_drop.
    + exfalso. rewrite Forall_forall in Hp. apply (Hp NL); [|done].
      rewrite <- H. rewrite take_app_ge by lia.
      destruct (length p - length line) eqn:E; [lia|].
      cbn [take]. apply in_or_app. right. by left.
  - intros [r ->]. rewrite <- app_assoc, take_app_length.
    by apply bool_decide_eq_true_2.
Qed.

Lemma split_at_Some c l a b :
  split_at c l = Some (a, b) -> l = a ++ c :: b /\ ~ c ∈ a.
Proof.
  revert a b. induction l as [|x l IH]; intros a b; cbn; [done|].
  case_bool_decide; intros Hs.
  - simplify_eq. split; [done|]. set_solver.
  - destruct (split_at c l) as [[a1 b1]|] eqn:E; [|done]. injection Hs as <- <-.
    destruct (IH a1 b1 eq_refl) as [-> Hn]. split; [done|]. set_solver.
Qed.

Lemma split_at_None c l : split_at c l = None <-> ~ c ∈ l.
Proof.
  induction l as [|x l IH]; cbn; [set_solver|].
  case_bool_decide; subst; [set_solver|].
  destruct (split_at c l) as [[]|]; set_solver.
Qed.

Lemma split_at_app c a b : ~ c ∈ a -> split_at c (a ++ c :: b) = Some (a, b).
Proof.
  induction a as [|x a IH]; cbn; intros Hn.
  - by rewrite bool_decide_eq_true_2.
  - rewrite bool_decide_eq_false_2 by set_solver.
    by rewrite IH by set_solver.
Qed.

Lemma wrap_range w z : (0 <= w)%Z -> (0 <= wrap w z < 2 ^ w)%Z.
Proof. intros. apply Z.mod_pos_bound. lia. Qed.

Lemma wrap_small w z : (0 <= z < 2 ^ w)%Z -> wrap w z = z.
Proof. apply Z.mod_small. Qed.

(** Or-ing a small word under a shifted one is addition. *)
Lemma lor_add a b k : (0 <= k)%Z -> (0 <= b < 2 ^ k)%Z -> Z.lor (a * 2 ^ k) b = (a * 2 ^ k + b)%Z.
Proof.
  intros Hk Hb. symmetry. rewrite <- Z.lxor_lor; [apply Z.add_nocarry_lxor|];
    apply Z.bits_inj'; intros i Hi; rewrite Z.land_spec, Z.bits_0;
    (destruct (decide (i < k)%Z);
     [rewrite Z.mul_pow2_bits_low by lia; done
     |replace (Z.testbit b i) with false; [apply andb_false_r|];
      symmetry; destruct (decide (b = 0)%Z) as [->|]; [apply Z.bits_0|];
      apply Z.bits_above_log2; [lia|]; assert (Z.log2 b < k)%Z by (apply Z.log2_lt_pow2; lia); lia]).
Qed.

Lemma zeros_length n : length (zeros n) = n.
Proof. apply length_replicate. Qed.
#[export] Hint Rewrite zeros_length : cything.

Lemma scan_digits_digits fuel n r :
  (0 <= n < 2 ^ Z.of_nat fuel)%Z ->
  scan_digits 0 (digits fuel n ++ r) = scan_digits n r.
Proof.
  revert n r. induction fuel as [|f IH]; intros n r Hn; cbn [digits].
  - assert (n = 0)%Z as -> by (cbn in Hn; lia). done.
  - rewrite <- app_assoc. case_bool_decide as Hlt.
    + cbn [app scan_digits]. unfold is_digit. rewrite Z.mod_small by lia.
      rewrite bool_decide_eq_true_2 by lia. f_equal. lia.
    + rewrite IH.
      2:{ split; [apply Z.div_pos; lia|]. apply Z.div_lt_upper_bound; [lia|].
          rewrite Nat2Z.inj_succ, Z.pow_succ_r in Hn by lia. lia. }
      cbn [app scan_digits]. unfold is_digit.
      rewrite bool_decide_eq_true_2 by (pose proof (Z.mod_pos_bound n 10); lia).
      f_equal. pose proof (Z.div_mod n 10). lia.
Qed.

Lemma scan_digits_dec_u z r :
  (0 <= z)%Z -> scan_digits 0 (dec_u z ++ r) = scan_digits z r.
Proof.
  intros Hz. unfold dec_u. apply scan_digits_digits. split; [done|].
  rewrite Nat2Z.inj_succ, Z2Nat.id by apply Z.log2_nonneg.
  destruct (decide (z = 0)%Z) as [->|]; [cbn; lia|].
  apply Z.log2_spec. lia.
Qed.

Lemma digits_all_digits fuel n :
  (0 <= n)%Z -> Forall (fun c => is_digit c = true) (digits fuel n).
Proof.
  revert n. induction fuel as [|f IH]; intros n Hn; cbn [digits]; [constructor|].
  apply Forall_app; split.
  - case_bool_decide; [constructor|]. apply IH, Z.div_pos; lia.
  - constructor; [|constructor]. unfold is_digit.
    apply bool_decide_eq_true_2. pose proof (Z.mod_pos_bound n 10). lia.
Qed.

Lemma digits_nonempty fuel n : digits (S fuel) n <> [].
Proof. cbn. destruct (if bool_decide (n < 10)%Z then [] else _); done. Qed.

(** [strtol] reads back what [%d] printed, up to the first non-digit. *)
Lemma strtol_dec z c r :
  is_digit c = false -> strtol (dec z ++ c :: r) = (z, c :: r).
Proof.
  intros Hc. unfold dec.
  assert (forall y, (0 <= y)%Z -> exists x l, dec_u y = x :: l /\ is_digit x = true) as Hd.
  { intros y Hy. unfold dec_u.
    pose proof (digits_all_digits (S (Z.to_nat (Z.log2 y))) y Hy) as HF.
    destruct (digits (S (Z.to_nat (Z.log2 y))) y) as [|x l] eqn:E.
    - by apply digits_nonempty in E.
    - inversion HF; eauto. }
  assert (forall y, (0 <= y)%Z -> scan_digits 0 (dec_u y ++ c :: r) = (y, c :: r)) as Hs.
  { intros y Hy. rewrite scan_digits_dec_u by done. cbn. by rewrite Hc. }
  case_bool_decide as Hz.
  - destruct (Hd (- z)%Z) as (x & l & E & Hx); [lia|].
    unfold strtol. cbn [app skip_space].
    change (is_space 45) with false. cbn iota.
    specialize (Hs (- z)%Z ltac:(lia)). rewrite E in *. cbn [app] in *.
    rewrite Hx, Hs. f_equal. lia.
  - destruct (Hd z) as (x & l & E & Hx); [lia|].
    specialize (Hs z ltac:(lia)). unfold strtol. rewrite E in *. cbn [app] in *.
    unfold is_digit in Hx. bool_hyps.
    assert (is_space x = false) as Hsp.
    { unfold is_space. apply bool_decide_eq_false_2. lia. }
    cbn [skip_space]. rewrite Hsp.
    destruct (decide (x = 45)%Z); [lia|]. destruct (decide (x = 43)%Z); [lia|].
    assert (is_digit x = true) as Hx' by (unfold is_digit; by apply bool_decide_eq_true_2).
    replace (match x :: l ++ c :: r with
             | 45%Z :: r0 => (true, r0) | 43%Z :: r0 => (false, r0)
             | _ => (false, x :: l ++ c :: r) end) with (false, x :: l ++ c :: r).
    + cbn iota. by rewrite Hx', Hs.
    + assert (48 <= x <= 57)%Z as Hr by done.
      clear -Hr. assert (x = 48 \/ x = 49 \/ x = 50 \/ x = 51 \/ x = 52 \/ x = 53 \/ x = 54
        \/ x = 55 \/ x = 56 \/ x = 57)%Z as Hx by lia.
      by repeat destruct Hx as [->|Hx]; [..|subst].
Qed.

Lemma length_shift_down {A} (l : list A) i n : length (shift_down l i n) = length l.
Proof.
  revert l i. induction n as [|n IH]; intros l i; cbn; [done|].
  rewrite IH. case_match; [apply length_insert|done].
Qed.
#[export] Hint Rewrite @length_shift_down : cything.

Lemma lookup_shift_down {A} (l : list A) i n j :
  i + n < length l ->
  shift_down l i n !! j = if decide (i <= j < i + n) then l !! S j else l !! j.
Proof.
  revert l i. induction n as [|n IH]; intros l i Hl; cbn.
  - case_decide; [lia|done].
  - destruct (l !! S i) as [x|] eqn:E.
    2:{ apply lookup_ge_None in E. lia. }
    rewrite IH by (rewrite length_insert; lia).
    repeat case_decide; try lia.
    + by rewrite list_lookup_insert_ne by lia.
    + assert (j = i) as -> by lia. by rewrite list_lookup_insert_eq by lia.
    + by rewrite list_lookup_insert_ne by lia.
Qed.

(** Compacting a dense prefix is deletion from it. *)
Lemma take_shift_down {A} (l : list A) i n :
  i < n -> n <= length l ->
  take (n - 1) (shift_down l i (n - 1 - i)) = delete i (take n l).
Proof.
  intros Hi Hn. apply list_eq. intros j.
  destruct (decide (j < n - 1)) as [Hj|Hj].
  - rewrite lookup_take_lt by done. rewrite lookup_shift_down by lia.
    destruct (decide (i <= j)).
    + rewrite decide_True by lia. rewrite list_lookup_delete_ge by done.
      by rewrite lookup_take_lt by lia.
    + rewrite decide_False by lia. rewrite list_lookup_delete_lt by lia.
      by rewrite lookup_take_lt by lia.
  - rewrite lookup_take_ge by lia. symmetry. apply lookup_ge_None.
    rewrite length_delete; [rewrite length_take; lia|].
    apply lookup_lt_is_Some. rewrite length_take. lia.
Qed.

Lemma length_row_write row s :
  length s < length row -> length (row_write row s) = length row.
Proof.
  intros. unfold row_write. rewrite length_app. cbn. rewrite length_drop. lia.
Qed.

Lemma cstr_row_write row s :
  Forall (fun c => c <> 0%Z) s -> cstr (row_write row s) = s.
Proof. apply cstr_app_nul. Qed.

Lemma alter_alter {A} (f g : A -> A) (i : nat) (l : list A) :
  alter g i (alter f i l) = alter (fun x => g (f x)) i l.
Proof.
  revert i. induction l as [|x l IH]; intros [|i]; cbn; [done..|]. f_equal. apply IH.
Qed.

Lemma alter_ext_at {A} (f g : A -> A) (i : nat) (l : list A) :
  (forall x, l !! i = Some x -> f x = g x) -> alter f i l = alter g i l.
Proof.
  revert i. induction l as [|x l IH]; intros [|i] H; cbn; [done..| |].
  - f_equal. by apply H.
  - f_equal. apply IH. intros y Hy. by apply H.
Qed.

Lemma alter_as_insert {A} (f : A -> A) (i : nat) (l : list A) x :
  l !! i = Some x -> alter f i l = <[i := f x]> l.
Proof.
  revert i. induction l as [|y l IH]; intros [|i] H; cbn in *; simplify_eq; [done|].
  f_equal. by apply IH.
Qed.

(** Writing the old value back undoes an update. *)
Lemma alter_restore {A} (i : nat) (l : list A) x y :
  l !! i = Some y -> alter (fun _ => y) i (<[i := x]> l) = l.
Proof.
  revert i. induction l as [|z l IH]; intros [|i] H; cbn in *; simplify_eq; [done|].
  f_equal. by apply IH.
Qed.

(** [strncmp] only looks at the bytes within its bound. *)
Lemma strncmp_eq_take n a b m :
  n <= m -> strncmp_eq n (take m a) b = strncmp_eq n a b.
Proof.
  revert a b m. induction n as [|n IH]; intros a b m Hm; [done|].
  destruct m as [|m]; [lia|]. destruct a as [|x a]; [done|]. cbn.
  repeat case_bool_decide; [done| |done]. apply IH. lia.
Qed.

Lemma strncmp_eq_cstr n a b : strncmp_eq n (cstr a) b = strncmp_eq n a b.
Proof.
  revert a b. induction n as [|n IH]; intros a b; [done|].
  destruct a as [|x a]; [done|]. cbn [cstr].
  destruct (decide (x = 0)%Z) as [->|Hx].
  - rewrite bool_decide_eq_true_2 by done. cbn. by destruct (bool_decide _).
  - rewrite bool_decide_eq_false_2 by done. cbn. by rewrite IH.
Qed.

Lemma cstr_take n l : cstr (take n l) = take n (cstr l).
Proof.
  revert n. induction l as [|x l IH]; intros [|n]; cbn; [done..| |].
  - by case_bool_decide.
  - case_bool_decide; [done|]. cbn. by rewrite IH.
Qed.

Lemma cstr_idem l : cstr (cstr l) = cstr l.
Proof. apply cstr_id, cstr_nonzero. Qed.

(** [memcpy(buf + off, data, length data)] *)
Definition blit (off : nat) (data buf : bytes) : bytes :=
  take off buf ++ data ++ drop (off + length data) buf.

Lemma length_blit off data buf :
  off + length data <= length buf -> length (blit off data buf) = length buf.
Proof. intros H. unfold blit. rewrite !length_app, length_take, length_drop. lia. Qed.

Lemma take_blit off data buf :
  off <= length buf -> take (off + length data) (blit off data buf) = take off buf ++ data.
Proof.
  intros H. unfold blit. rewrite app_assoc.
  replace (off + length data) with (length (take off buf ++ data))
    by (rewrite length_app, length_take; lia).
  by rewrite take_app_length.
Qed.

Lemma drop_blit off data buf :
  off <= length buf ->
  drop (off + length data) (blit off data buf) = drop (off + length data) buf.
Proof.
  intros H. unfold blit at 1. rewrite app_assoc.
  rewrite drop_app_length'; [done|]. rewrite length_app, length_take. lia.
Qed.

(** [cbn] stops at the C routines. *)
#[global] Arguments str : simpl never.
#[global] Arguments zeros : simpl never.
#[global] Arguments cstr : simpl never.
#[global] Arguments strncmp_eq : simpl never.
#[global] Arguments has_prefix : simpl never.
#[global] Arguments memcmp_eq : simpl never.
#[global] Arguments wrap : simpl never.
#[global] Arguments split_at : simpl never.
#[global] Arguments dec : simpl never.
#[global] Arguments dec_u : simpl never.
#[global] Arguments strtol : simpl never.
#[global] Arguments atoi : simpl never.
#[global] Arguments snprintf_s : simpl never.
#[global] Arguments row_write : simpl never.
#[global] Arguments shift_down : simpl never.
