(* ===== verification/Platform.v ===== *)
(** * Platform: what the firmware calls outside the repository

    ESP-IDF (NVS, RNG, timers), mbedTLS (base64, HMAC, AES-GCM), [esp_srp] and
    the application hooks are not part of the repository. Each is an operation
    of the class [Platform]; what the firmware relies on is stated in the law
    classes below, which quote the documented behaviour of those libraries.
    The per-channel configuration of [device_config/cy_config.h] and the
    compile-time switches [LOCAL_AUTH_ENFORCE] (and its like) are the class [Config]. *)

From S2P Require Import Prelude.
From stdpp Require Import base list strings numbers.
From Stdlib Require Import ZArith Lia.

(** ** Error codes *)

Inductive esp_err_t :=
  | ESP_OK
  | ESP_FAIL
  | ESP_ERR_NO_MEM
  | ESP_ERR_INVALID_ARG
  | ESP_ERR_INVALID_SIZE
  | ESP_ERR_NOT_FOUND
  | ESP_ERR_NVS_NOT_FOUND
  | ESP_ERR_NVS_INVALID_LENGTH
  | ESP_OTHER (code : Z).

#[export] Instance esp_err_eq_dec : EqDecision esp_err_t.
Proof. solve_decision. Defined.

Definition is_ok (e : esp_err_t) : bool := match e with ESP_OK => true | _ => false end.

Lemma is_ok_true e : is_ok e = true <-> e = ESP_OK.
Proof. by destruct e. Qed.

Inductive wifi_mode := WIFI_MODE_STA | WIFI_MODE_AP | WIFI_MODE_APSTA.

Inductive nvs_mode := NVS_READONLY | NVS_READWRITE.

(** ** Operations *)

(** [World] is everything behind those APIs: flash contents, RNG state,
    clocks, the SRP contexts on the heap. An NVS handle is named by the
    namespace it was opened on. *)
Class Platform := {
  World : Type;
  (* nvs.h *)
  nvs_open : string -> nvs_mode -> World -> esp_err_t * World;
  nvs_get_blob : string -> string -> nat -> World -> esp_err_t * bytes;
  nvs_set_blob : string -> string -> bytes -> World -> esp_err_t * World;
  nvs_erase_key : string -> string -> World -> esp_err_t * World;
  nvs_get_u8 : string -> string -> World -> esp_err_t * Z;
  nvs_set_u8 : string -> string -> Z -> World -> esp_err_t * World;
  nvs_get_u32 : string -> string -> World -> esp_err_t * Z;
  nvs_set_u32 : string -> string -> Z -> World -> esp_err_t * World;
  nvs_get_str : string -> string -> nat -> World -> esp_err_t * bytes;
  nvs_set_str : string -> string -> bytes -> World -> esp_err_t * World;
  nvs_commit : string -> World -> esp_err_t * World;
  nvs_close : string -> World -> World;
  (* esp_random.h, esp_timer.h, time.h *)
  esp_fill_random : nat -> World -> bytes * World;
  esp_timer_get_time : World -> Z;
  time_now : World -> Z;
  calloc_ok : nat -> World -> bool;
  (* mbedtls *)
  mbedtls_md_hmac : bytes -> bytes -> bytes;
  base64_encode : bytes -> bytes;
  base64_decode : nat -> bytes -> option bytes;
  gcm_setkey : bytes -> Z;
  gcm_crypt_and_tag : bytes -> bytes -> bytes -> Z * (bytes * bytes);
  gcm_auth_decrypt : bytes -> bytes -> bytes -> bytes -> Z * bytes;
  (* esp_srp.h *)
  srp_handle : Type;
  esp_srp_init : World -> option srp_handle * World;
  esp_srp_free : srp_handle -> World -> World;
  esp_srp_set_salt_verifier : srp_handle -> bytes -> bytes -> World -> esp_err_t * World;
  esp_srp_srv_pubkey : srp_handle -> World -> (esp_err_t * option bytes) * World;
  esp_srp_get_session_key : srp_handle -> bytes -> World -> (esp_err_t * option bytes) * World;
  esp_srp_exchange_proofs : srp_handle -> bytes -> bytes -> World -> (esp_err_t * bytes) * World;
  esp_srp_gen_salt_verifier : bytes -> bytes -> nat -> World -> (esp_err_t * (bytes * bytes)) * World;
  (* esp_partition.h, esp_ota_ops.h: a partition is its type and subtype *)
  esp_partition_read : Z * Z -> Z -> nat -> World -> esp_err_t * bytes;
  esp_partition_write : Z * Z -> Z -> bytes -> World -> esp_err_t * World;
  esp_partition_erase_range : Z * Z -> Z -> Z -> World -> esp_err_t * World;
  esp_ota_set_boot_partition : Z * Z -> World -> esp_err_t * World;
  (* memory the C code reads without having written it: what follows a string
     literal in flash, and an uninitialised stack buffer *)
  rodata_behind : bytes -> bytes;
  uninit_stack : nat -> bytes;
  (* esp_mac.h, task.h *)
  esp_efuse_mac : bytes;
  xTaskCreate_ok : string -> World -> bool;
  (* NimBLE *)
  ble_gap_adv_stop : World -> Z * World;
  ble_gap_adv_set_fields : bytes -> World -> Z * World;
  ble_gap_adv_rsp_set_fields : bytes -> bool -> World -> Z * World;
  ble_gap_adv_start : World -> Z * World;
  ble_hs_util_ensure_addr : World -> Z;
  ble_hs_id_infer_auto : World -> Z;
  nimble_port_init : World -> esp_err_t * World;
  (* mbedtls/pk.h, md.h, x509_csr.h *)
  md_sha256 : bytes -> Z * bytes;
  pk_parse_key : bytes -> Z;
  pk_gen_key_pem : nat -> World -> (Z * bytes) * World;
  pk_sign : bytes -> bytes -> World -> (Z * bytes) * World;
  csr_write_der : bytes -> bytes -> nat -> World -> (Z * bytes) * World;
}.

(** ** Configuration and application hooks *)

(** What an application hook asks the library to send. *)
Inductive app_call :=
  | SendData (target : Z) (data : bytes)  (* [send_data_to_clients(target, data, n)] *)
  | SendRaw (sock : Z) (text : bytes)  (* [send_raw_to_client(sock, text)] *)
  | PublishResponse (text : bytes).  (* [mqtt_publish_response(text)] *)

Class Config {P : Platform} := {
  local_auth_enforce : bool;
  is_remote_con_enable : bool;
  response_fifo_overwrite_oldest : bool;
  cy_scan_command : bytes;
  cy_router_ssid_prefix : bytes;
  cy_router_pass_prefix : bytes;
  cy_device_name : bytes;
  cy_device_type : bytes;
  cy_firmware_version : bytes;
  cy_hardware_version : bytes;
  cy_initial_password : bytes;
  cy_ap_ssid_prefix : bytes;
  cy_scan_response : bytes;
  cy_ble_base_uuid128 : bytes;
  cy_tcp_port : Z;
  cy_udp_port : Z;
  ble_scan_beacon_enabled : bool;
  cy_mdns_channel_tag : bytes;
  claim_cert_pem : bytes;
  claim_key_pem : bytes;
  app_command_is_public : bytes -> bool;
  app_command_handle_line : bytes -> Z -> World -> (bool * list app_call) * World;
}.

(** ** Laws *)

(** RFC 4648 base64 as mbedTLS documents it: decoding inverts encoding when
    the output fits, and fails rather than overrun the output. *)
Class Base64Laws (P : Platform) := {
  base64_decode_encode : forall cap x,
    Forall is_byte x -> length x <= cap -> base64_decode cap (base64_encode x) = Some x;
  base64_decode_cap : forall cap s x, base64_decode cap s = Some x -> length x <= cap;
  base64_encode_length : forall x, length (base64_encode x) = 4 * ((length x + 2) / 3);
  base64_encode_clean : forall x,
    Forall is_byte x -> Forall (fun c => c <> COMMA /\ c <> NL /\ c <> NUL) (base64_encode x);
  base64_encode_bytes : forall x, Forall is_byte x -> Forall is_byte (base64_encode x);
}.

(** The hash output is the 32 bytes of SHA-256's; the RNG fills what it was asked
    to fill. *)
Class CryptoLaws (P : Platform) := {
  hmac_length : forall k m, length (mbedtls_md_hmac k m) = 32;
  hmac_bytes : forall k m, Forall is_byte (mbedtls_md_hmac k m);
  random_length : forall n w, length (fst (esp_fill_random n w)) = n;
}.

(** AES-256-GCM: a 256-bit key is accepted, the ciphertext is as long as the
    plaintext, the tag is 16 bytes and authenticated decryption inverts
    encryption under the same key and nonce. *)
Class GcmLaws (P : Platform) := {
  gcm_setkey_ok : forall k, length k = 32 -> gcm_setkey k = 0%Z;
  gcm_enc_length : forall k n pt rc ct tag,
    gcm_crypt_and_tag k n pt = (rc, (ct, tag)) -> length ct = length pt /\ length tag = 16;
  gcm_enc_bytes : forall k n pt rc ct tag,
    Forall is_byte pt -> gcm_crypt_and_tag k n pt = (rc, (ct, tag)) -> Forall is_byte (ct ++ tag);
  gcm_dec_enc : forall k n pt ct tag,
    Forall is_byte pt -> gcm_crypt_and_tag k n pt = (0%Z, (ct, tag)) ->
    gcm_auth_decrypt k n tag ct = (0%Z, pt);
}.

(** AES-GCM fails on bad parameters only. *)
Class GcmReliable (P : Platform) := {
  gcm_enc_ok : forall k n pt, length k = 32 -> fst (gcm_crypt_and_tag k n pt) = 0%Z;
}.

(** NimBLE takes what the beacon asks for. *)
Class BleReliable (P : Platform) := {
  adv_fields_ok : forall v w, fst (ble_gap_adv_set_fields v w) = 0%Z;
  adv_rsp_ok : forall v b w, fst (ble_gap_adv_rsp_set_fields v b w) = 0%Z;
  adv_start_ok : forall w, fst (ble_gap_adv_start w) = 0%Z;
  ensure_addr_ok : forall w, ble_hs_util_ensure_addr w = 0%Z;
  infer_auto_ok : forall w, ble_hs_id_infer_auto w = 0%Z;
}.

(** SRP-6a as [esp_srp] implements it, seen from a phone that knows the password.
    From its own secret, and from the salt and the public value it is sent, it
    computes the session key of the device and the proof the device waits for. *)
Class SrpLaws (P : Platform) := {
  srp_verifier : bytes -> bytes -> bytes -> bytes;  (* identity, password, salt *)
  srp_phone_public : bytes -> bytes;  (* secret *)
  srp_phone_key : bytes -> bytes -> bytes -> bytes -> bytes -> bytes;  (* identity, password, secret, salt, B *)
  srp_phone_proof : bytes -> bytes -> bytes -> bytes -> bytes -> bytes;
  srp_expects : srp_handle -> bytes -> bytes -> World -> Prop;  (* identity, proof *)
  srp_agree : forall hd id password a salt w0 w1 w2 w3 B K,
    esp_srp_set_salt_verifier hd salt (srp_verifier id password salt) w0 = (ESP_OK, w1) ->
    esp_srp_srv_pubkey hd w1 = ((ESP_OK, Some B), w2) ->
    esp_srp_get_session_key hd (srp_phone_public a) w2 = ((ESP_OK, Some K), w3) ->
    K = srp_phone_key id password a salt B /\ srp_expects hd id (srp_phone_proof id password a salt B) w3;
  srp_accept : forall hd id m1 w, srp_expects hd id m1 w ->
    fst (fst (esp_srp_exchange_proofs hd id m1 w)) = ESP_OK;
  srp_public_size : forall a, 0 < length (srp_phone_public a) <= 384;
  srp_public_bytes : forall a, Forall is_byte (srp_phone_public a);
  srp_proof_size : forall id password a salt B, length (srp_phone_proof id password a salt B) = 64;
  srp_proof_bytes : forall id password a salt B, Forall is_byte (srp_phone_proof id password a salt B);
}.

(** [esp_srp] finds the memory it needs; the group is the 3072-bit one and the
    hash SHA-512. *)
Class SrpReliable (P : Platform) := {
  srp_init_ok : forall w, exists hd, fst (esp_srp_init w) = Some hd;
  srp_set_ok : forall hd salt ver w, fst (esp_srp_set_salt_verifier hd salt ver w) = ESP_OK;
  srp_pubkey_ok : forall hd w, exists B, fst (esp_srp_srv_pubkey hd w) = (ESP_OK, Some B) /\ length B <= 384;
  srp_session_key_ok : forall hd A w, exists K, fst (esp_srp_get_session_key hd A w) = (ESP_OK, Some K) /\ length K = 64;
}.

(** The flash chip works: no partition operation fails. *)
Class FlashReliable (P : Platform) := {
  part_read_ok : forall p off n w, fst (esp_partition_read p off n w) = ESP_OK;
  part_write_ok : forall p off v w, fst (esp_partition_write p off v w) = ESP_OK;
  part_erase_ok : forall p off n w, fst (esp_partition_erase_range p off n w) = ESP_OK;
}.

(** NVS writes succeed: the partition is mounted, not full and not worn out. *)
Class NvsReliable (P : Platform) := {
  nvs_open_ok : forall ns w, fst (nvs_open ns NVS_READWRITE w) = ESP_OK;
  nvs_set_blob_ok : forall ns k v w, fst (nvs_set_blob ns k v w) = ESP_OK;
  nvs_erase_key_ok : forall ns k w,
    fst (nvs_erase_key ns k w) = ESP_OK \/ fst (nvs_erase_key ns k w) = ESP_ERR_NVS_NOT_FOUND;
  nvs_set_u8_ok : forall ns k v w, fst (nvs_set_u8 ns k v w) = ESP_OK;
  nvs_set_u32_ok : forall ns k v w, fst (nvs_set_u32 ns k v w) = ESP_OK;
  nvs_commit_ok : forall ns w, fst (nvs_commit ns w) = ESP_OK;
}.

(** NVS is storage: a blob that was set is read back after the namespace was
    committed and closed. *)
Class NvsReadsBack (P : Platform) := {
  nvs_reads_back : forall ns k v cap w w1,
    nvs_set_blob ns k v w = (ESP_OK, w1) -> length v <= cap ->
    let w2 := nvs_close ns (snd (nvs_commit ns w1)) in
    fst (nvs_open ns NVS_READONLY w2) = ESP_OK /\
    nvs_get_blob ns k cap (snd (nvs_open ns NVS_READONLY w2)) = (ESP_OK, v);
}.

(** NOR flash as ESP-IDF documents it: a write clears bits, an erase sets every
    byte of its range to 0xFF, a read answers what is there. *)
Class FlashLaws (P : Platform) := {
  part_mem : World -> Z * Z -> Z -> Z;
  part_read : forall p off n w b,
    esp_partition_read p off n w = (ESP_OK, b) ->
    b = (fun i => part_mem w p (off + Z.of_nat i)%Z) <$> seq 0 n;
  part_write : forall p off v w w',
    esp_partition_write p off v w = (ESP_OK, w') -> forall q i,
    part_mem w' q i = match (if bool_decide (q = p /\ (off <= i)%Z) then v !! Z.to_nat (i - off) else None) with
                      | Some c => Z.land (part_mem w q i) c
                      | None => part_mem w q i
                      end;
  part_erase : forall p off n w w',
    esp_partition_erase_range p off n w = (ESP_OK, w') -> forall q i,
    part_mem w' q i = if bool_decide (q = p /\ (off <= i < off + n)%Z) then 255%Z else part_mem w q i;
}.
