(* ===== verification/Radio.v ===== *)
(** * Radio: the radio and network libraries

    The Wi-Fi driver, the event groups and network interfaces of ESP-IDF, the
    mDNS component, NimBLE's GATT server and [esp_https_ota]: libraries the
    firmware calls, as operations of a class like [Platform]. *)

From S2P Require Import Prelude Platform.
From stdpp Require Import base list strings numbers.
From Stdlib Require Import ZArith Lia.

(** What the firmware fills in of [wifi_sta_config_t]: the SSID field (32
    bytes), the password field (64 bytes) and whether the threshold is WPA2. *)
Record sta_config := Build_sta_config {
  sc_ssid : bytes;
  sc_password : bytes;
  sc_wpa2 : bool;
}.

Class Radio (P : Platform) := {
  (* esp_wifi.h *)
  esp_wifi_set_mode : wifi_mode -> World -> esp_err_t * World;
  esp_wifi_set_config : sta_config -> World -> esp_err_t * World;
  esp_wifi_connect : World -> esp_err_t * World;
  esp_wifi_disconnect : World -> esp_err_t * World;
  WIFI_REASON_AUTH_EXPIRE : Z;
  WIFI_REASON_MIC_FAILURE : Z;
  WIFI_REASON_4WAY_HANDSHAKE_TIMEOUT : Z;
  WIFI_REASON_NO_AP_FOUND : Z;
  WIFI_REASON_AUTH_FAIL : Z;
  WIFI_REASON_HANDSHAKE_TIMEOUT : Z;
  (* the three reasons the source lists under an #ifdef; [] when it is off *)
  wifi_reasons_no_ap_threshold : list Z;
  (* esp_netif.h, esp_event.h, event_groups.h *)
  netif_sta_ip : World -> Z;
  netif_ap_ip : World -> Z;
  esp_netif_create_default_wifi_sta : World -> bool * World;
  xEventGroupCreate : World -> bool * World;
  esp_event_handler_instance_register : string -> World -> esp_err_t * World;
  (* mdns.h *)
  mdns_init : World -> esp_err_t * World;
  mdns_hostname_set : bytes -> World -> esp_err_t * World;
  mdns_instance_name_set : bytes -> World -> esp_err_t * World;
  mdns_service_add : bytes -> Z -> list (bytes * bytes) -> World -> esp_err_t * World;
  mdns_free : World -> World;
  (* NimBLE: GATT server and mbufs *)
  ble_gatts_count_cfg : World -> Z * World;
  ble_gatts_add_svcs : World -> Z * World;
  ble_hs_mbuf_to_flat : World -> Z;
  os_mbuf_append : bytes -> World -> Z;
  (* esp_https_ota.h; the download is what its calls answer one after the other *)
  esp_https_ota_begin : bytes -> World -> esp_err_t * World;
  esp_https_ota_get_image_size : World -> Z;
  esp_https_ota_perform : World -> (bool * Z) * World;
  esp_https_ota_is_complete : World -> bool;
  esp_https_ota_finish : World -> World;
  esp_https_ota_abort : World -> World;
}.

(** A download makes progress: each piece that is not the last leaves less to
    come, so [perform] stops answering IN_PROGRESS. *)
Class OtaEnds {P : Platform} (R : Radio P) := {
  ota_left : World -> nat;
  ota_perform_decreases : forall w w' n,
    esp_https_ota_perform w = ((true, n), w') -> ota_left w' < ota_left w;
}.
