(* ===== verification/State.v ===== *)
(** * State: the firmware's global variables

    One record per source file's [static] state, and [Dev], the whole device.
    Fixed-size [char] arrays that the code compares or stores byte by byte
    ([paired_list.c], [pairing_events.c], [response_fifo.c]) are kept as raw
    arrays; buffers the code only uses as C strings or with a separate length
    are the bytes in use. FreeRTOS mutexes are not part of the state: every
    operation below runs as one step. *)

From S2P Require Import Prelude Platform.
From stdpp Require Import base list strings numbers.
From Stdlib Require Import ZArith Lia.

(** ** Constants of the headers *)

Definition LOCAL_SESSION_MAX : nat := 8.

Definition PAIRED_LIST_MAX : nat := 16.
Definition PAIRED_SUB_MAX : nat := 40.
Definition PAIRED_EMAIL_MAX : nat := 64.
Definition PAIRED_KEY_LEN : nat := 32.

Definition PAIRED_ROLE_USER : Z := 1.
Definition PAIRED_ROLE_OWNER : Z := 2.

Definition DEVICE_PW_MIN_LEN : nat := 8.
Definition DEVICE_PW_MAX_LEN : nat := 64.
Definition DEVICE_PW_SALT_LEN : nat := 16.
Definition DEVICE_PW_VERIFIER_MAX : nat := 384.
Definition DEVICE_PW_IP_MAX_FAILS : Z := 5.
Definition DEVICE_PW_GLOBAL_MAX_FAILS : Z := 20.
Definition DEVICE_PW_LOCK_BASE_S : Z := 60.
Definition DEVICE_PW_LOCK_MAX_S : Z := 3600.
Definition DEVICE_PW_SRP_IDENTITY : bytes := str "cy-device".
Definition IP_SLOTS : nat := 8.

Definition PAIRING_EVENTS_MAX : nat := 8.
Definition PAIRING_EVENT_JSON_MAX : nat := 256.

Definition ENC_FRAME_NONCE_LEN : nat := 12.
Definition ENC_FRAME_TAG_LEN : nat := 16.
Definition ENC_FRAME_DIR_TO_DEV : Z := 1.
Definition ENC_FRAME_DIR_TO_APP : Z := 2.
Definition ENC_FRAME_PLAIN_MAX : nat := 768.

Definition LOCAL_AUTH_NONCE_LEN : nat := 16.
Definition LOCAL_AUTH_MAC_LEN : nat := 32.
Definition LOCAL_AUTH_HKDF_INFO : bytes := str "cy-local-v1".

Definition RESPONSE_FIFO_SIZE : nat := 5 * 1024.
Definition RESPONSE_LINE_MAX : nat := 256.
Definition SEND_TO_ALL : Z := -2.
Definition SEND_TO_ALL_PUBLIC : Z := -3.
Definition RESPONSE_TARGET_ALL : Z := 0.
Definition RESPONSE_TARGET_EVERYONE : Z := -1.
Definition ACCOUNT_MAX : nat := 100.
Definition TCP_CLIENT_MAX : nat := 3.
Definition TCP_RECEIVE_DATA_LENGTH : nat := 5 * 1024.

Definition DISCOVERY_WIFI : Z := 1.
Definition DISCOVERY_BLE : Z := 2.
Definition DISCOVERY_BOTH : Z := 3.

(** ** Enumerations *)

Inductive local_session_state_t :=
  | LS_NEW | LS_PAKE_WAIT_PROOF | LS_PAKE_OK | LS_AUTH_WAIT_PROOF | LS_AUTH_OK.

Inductive local_session_role_t := LS_ROLE_NONE | LS_ROLE_USER | LS_ROLE_OWNER.

Inductive handshake_state_t := HS_IDLE | HS_GOT_PROV | HS_SENT_CSR | HS_RECEIVING_CERT.

Inductive wifi_trial_result_t :=
  | WIFI_TRIAL_OK | WIFI_TRIAL_NOT_FOUND | WIFI_TRIAL_AUTH_FAIL | WIFI_TRIAL_TIMEOUT | WIFI_TRIAL_ERROR.

#[export] Instance wifi_trial_eq_dec : EqDecision wifi_trial_result_t.
Proof. solve_decision. Defined.
#[export] Instance ls_state_eq_dec : EqDecision local_session_state_t.
Proof. solve_decision. Defined.
#[export] Instance ls_role_eq_dec : EqDecision local_session_role_t.
Proof. solve_decision. Defined.
#[export] Instance hs_eq_dec : EqDecision handshake_state_t.
Proof. solve_decision. Defined.

(** What leaves the device: bytes on a socket, socket teardown, an armed
    reboot, a task started, an mDNS TXT update, beacon on/off,
    a BLE status notification, the hint that the Info characteristic changed,
    an immediate restart, a UDP datagram, and what the Wi-Fi driver is told. *)
Inductive event :=
  | EvSend (sock : Z) (data : bytes)
  | EvShutdown (sock : Z)
  | EvClose (sock : Z)
  | EvReboot (ms : Z)
  | EvTask (name : string) (arg : Z)
  | EvTxt (items : list (bytes * bytes))
  | EvAdvStart (mfg : bytes)
  | EvAdvStop
  | EvNotify (state detail : Z)
  | EvInfo
  | EvRestart
  | EvDatagram (data : bytes)
  | EvWifiMode (m : wifi_mode)
  | EvWifiConnect
  | EvWifiDisconnect.

Section State.
Context {P : Platform}.

(** ** Component state *)

Record local_session_t := Build_session {
  ls_sock : Z;  (* -1 = free slot *)
  ls_peer_ip : Z;
  ls_rx_len : nat;
  ls_state : local_session_state_t;
  ls_role : local_session_role_t;
  ls_paired_index : Z;  (* -1 until known *)
  ls_srp : option srp_handle;
  ls_key : bytes;  (* K_pake or K_session *)
  ls_nonce_dev : bytes;
  ls_nonce_phone : bytes;
  ls_tx_ctr : Z;
  ls_rx_ctr : Z;
  ls_rx_encrypted : bool;
}.

Definition set_ls_sock (v : Z) (r : local_session_t) : local_session_t :=
  Build_session v (ls_peer_ip r) (ls_rx_len r) (ls_state r) (ls_role r) (ls_paired_index r) (ls_srp r) (ls_key r) (ls_nonce_dev r) (ls_nonce_phone r) (ls_tx_ctr r) (ls_rx_ctr r) (ls_rx_encrypted r).
Definition set_ls_peer_ip (v : Z) (r : local_session_t) : local_session_t :=
  Build_session (ls_sock r) v (ls_rx_len r) (ls_state r) (ls_role r) (ls_paired_index r) (ls_srp r) (ls_key r) (ls_nonce_dev r) (ls_nonce_phone r) (ls_tx_ctr r) (ls_rx_ctr r) (ls_rx_encrypted r).
Definition set_ls_rx_len (v : nat) (r : local_session_t) : local_session_t :=
  Build_session (ls_sock r) (ls_peer_ip r) v (ls_state r) (ls_role r) (ls_paired_index r) (ls_srp r) (ls_key r) (ls_nonce_dev r) (ls_nonce_phone r) (ls_tx_ctr r) (ls_rx_ctr r) (ls_rx_encrypted r).
Definition set_ls_state (v : local_session_state_t) (r : local_session_t) : local_session_t :=
  Build_session (ls_sock r) (ls_peer_ip r) (ls_rx_len r) v (ls_role r) (ls_paired_index r) (ls_srp r) (ls_key r) (ls_nonce_dev r) (ls_nonce_phone r) (ls_tx_ctr r) (ls_rx_ctr r) (ls_rx_encrypted r).
Definition set_ls_role (v : local_session_role_t) (r : local_session_t) : local_session_t :=
  Build_session (ls_sock r) (ls_peer_ip r) (ls_rx_len r) (ls_state r) v (ls_paired_index r) (ls_srp r) (ls_key r) (ls_nonce_dev r) (ls_nonce_phone r) (ls_tx_ctr r) (ls_rx_ctr r) (ls_rx_encrypted r).
Definition set_ls_paired_index (v : Z) (r : local_session_t) : local_session_t :=
  Build_session (ls_sock r) (ls_peer_ip r) (ls_rx_len r) (ls_state r) (ls_role r) v (ls_srp r) (ls_key r) (ls_nonce_dev r) (ls_nonce_phone r) (ls_tx_ctr r) (ls_rx_ctr r) (ls_rx_encrypted r).
Definition set_ls_srp (v : option srp_handle) (r : local_session_t) : local_session_t :=
  Build_session (ls_sock r) (ls_peer_ip r) (ls_rx_len r) (ls_state r) (ls_role r) (ls_paired_index r) v (ls_key r) (ls_nonce_dev r) (ls_nonce_phone r) (ls_tx_ctr r) (ls_rx_ctr r) (ls_rx_encrypted r).
Definition set_ls_key (v : bytes) (r : local_session_t) : local_session_t :=
  Build_session (ls_sock r) (ls_peer_ip r) (ls_rx_len r) (ls_state r) (ls_role r) (ls_paired_index r) (ls_srp r) v (ls_nonce_dev r) (ls_nonce_phone r) (ls_tx_ctr r) (ls_rx_ctr r) (ls_rx_encrypted r).
Definition set_ls_nonce_dev (v : bytes) (r : local_session_t) : local_session_t :=
  Build_session (ls_sock r) (ls_peer_ip r) (ls_rx_len r) (ls_state r) (ls_role r) (ls_paired_index r) (ls_srp r) (ls_key r) v (ls_nonce_phone r) (ls_tx_ctr r) (ls_rx_ctr r) (ls_rx_encrypted r).
Definition set_ls_nonce_phone (v : bytes) (r : local_session_t) : local_session_t :=
  Build_session (ls_sock r) (ls_peer_ip r) (ls_rx_len r) (ls_state r) (ls_role r) (ls_paired_index r) (ls_srp r) (ls_key r) (ls_nonce_dev r) v (ls_tx_ctr r) (ls_rx_ctr r) (ls_rx_encrypted r).
Definition set_ls_tx_ctr (v : Z) (r : local_session_t) : local_session_t :=
  Build_session (ls_sock r) (ls_peer_ip r) (ls_rx_len r) (ls_state r) (ls_role r) (ls_paired_index r) (ls_srp r) (ls_key r) (ls_nonce_dev r) (ls_nonce_phone r) v (ls_rx_ctr r) (ls_rx_encrypted r).
Definition set_ls_rx_ctr (v : Z) (r : local_session_t) : local_session_t :=
  Build_session (ls_sock r) (ls_peer_ip r) (ls_rx_len r) (ls_state r) (ls_role r) (ls_paired_index r) (ls_srp r) (ls_key r) (ls_nonce_dev r) (ls_nonce_phone r) (ls_tx_ctr r) v (ls_rx_encrypted r).
Definition set_ls_rx_encrypted (v : bool) (r : local_session_t) : local_session_t :=
  Build_session (ls_sock r) (ls_peer_ip r) (ls_rx_len r) (ls_state r) (ls_role r) (ls_paired_index r) (ls_srp r) (ls_key r) (ls_nonce_dev r) (ls_nonce_phone r) (ls_tx_ctr r) (ls_rx_ctr r) v.

Record paired_entry_t := Build_entry {
  pe_user_sub : bytes;  (* char[41] *)
  pe_user_email : bytes;  (* char[65] *)
  pe_key : bytes;  (* 32 bytes *)
  pe_paired_at : Z;
  pe_role : Z;  (* paired_role_t *)
}.

Definition set_pe_user_sub (v : bytes) (r : paired_entry_t) : paired_entry_t :=
  Build_entry v (pe_user_email r) (pe_key r) (pe_paired_at r) (pe_role r).
Definition set_pe_user_email (v : bytes) (r : paired_entry_t) : paired_entry_t :=
  Build_entry (pe_user_sub r) v (pe_key r) (pe_paired_at r) (pe_role r).
Definition set_pe_key (v : bytes) (r : paired_entry_t) : paired_entry_t :=
  Build_entry (pe_user_sub r) (pe_user_email r) v (pe_paired_at r) (pe_role r).
Definition set_pe_paired_at (v : Z) (r : paired_entry_t) : paired_entry_t :=
  Build_entry (pe_user_sub r) (pe_user_email r) (pe_key r) v (pe_role r).
Definition set_pe_role (v : Z) (r : paired_entry_t) : paired_entry_t :=
  Build_entry (pe_user_sub r) (pe_user_email r) (pe_key r) (pe_paired_at r) v.

Record paired_blob_t := Build_blob {
  pb_version : Z;
  pb_count : nat;
  pb_owner_sub : bytes;  (* char[41] *)
  pb_entries : list paired_entry_t;  (* 16 rows *)
}.

Definition set_pb_version (v : Z) (r : paired_blob_t) : paired_blob_t :=
  Build_blob v (pb_count r) (pb_owner_sub r) (pb_entries r).
Definition set_pb_count (v : nat) (r : paired_blob_t) : paired_blob_t :=
  Build_blob (pb_version r) v (pb_owner_sub r) (pb_entries r).
Definition set_pb_owner_sub (v : bytes) (r : paired_blob_t) : paired_blob_t :=
  Build_blob (pb_version r) (pb_count r) v (pb_entries r).
Definition set_pb_entries (v : list paired_entry_t) (r : paired_blob_t) : paired_blob_t :=
  Build_blob (pb_version r) (pb_count r) (pb_owner_sub r) v.

Record ip_slot_t := Build_ip_slot {
  ip_ip : Z;
  ip_fails : Z;
  ip_until_us : Z;
}.

Definition set_ip_ip (v : Z) (r : ip_slot_t) : ip_slot_t :=
  Build_ip_slot v (ip_fails r) (ip_until_us r).
Definition set_ip_fails (v : Z) (r : ip_slot_t) : ip_slot_t :=
  Build_ip_slot (ip_ip r) v (ip_until_us r).
Definition set_ip_until_us (v : Z) (r : ip_slot_t) : ip_slot_t :=
  Build_ip_slot (ip_ip r) (ip_fails r) v.

Record pw_state := Build_pw {
  pw_salt : bytes;  (* s_salt[0 .. s_salt_len) *)
  pw_verifier : bytes;  (* s_verifier[0 .. s_verifier_len) *)
  pw_init_salt : bytes;
  pw_init_verifier : bytes;
  pw_ip : list ip_slot_t;
  pw_global_fails : Z;
  pw_global_until_us : Z;
}.

Definition set_pw_salt (v : bytes) (r : pw_state) : pw_state :=
  Build_pw v (pw_verifier r) (pw_init_salt r) (pw_init_verifier r) (pw_ip r) (pw_global_fails r) (pw_global_until_us r).
Definition set_pw_verifier (v : bytes) (r : pw_state) : pw_state :=
  Build_pw (pw_salt r) v (pw_init_salt r) (pw_init_verifier r) (pw_ip r) (pw_global_fails r) (pw_global_until_us r).
Definition set_pw_init_salt (v : bytes) (r : pw_state) : pw_state :=
  Build_pw (pw_salt r) (pw_verifier r) v (pw_init_verifier r) (pw_ip r) (pw_global_fails r) (pw_global_until_us r).
Definition set_pw_init_verifier (v : bytes) (r : pw_state) : pw_state :=
  Build_pw (pw_salt r) (pw_verifier r) (pw_init_salt r) v (pw_ip r) (pw_global_fails r) (pw_global_until_us r).
Definition set_pw_ip (v : list ip_slot_t) (r : pw_state) : pw_state :=
  Build_pw (pw_salt r) (pw_verifier r) (pw_init_salt r) (pw_init_verifier r) v (pw_global_fails r) (pw_global_until_us r).
Definition set_pw_global_fails (v : Z) (r : pw_state) : pw_state :=
  Build_pw (pw_salt r) (pw_verifier r) (pw_init_salt r) (pw_init_verifier r) (pw_ip r) v (pw_global_until_us r).
Definition set_pw_global_until_us (v : Z) (r : pw_state) : pw_state :=
  Build_pw (pw_salt r) (pw_verifier r) (pw_init_salt r) (pw_init_verifier r) (pw_ip r) (pw_global_fails r) v.

Record queue_t := Build_queue {
  q_count : nat;
  q_json : list bytes;  (* 8 rows of 256 bytes *)
}.

Definition set_q_count (v : nat) (r : queue_t) : queue_t :=
  Build_queue v (q_json r).
Definition set_q_json (v : list bytes) (r : queue_t) : queue_t :=
  Build_queue (q_count r) v.

Record response_fifo_t := Build_fifo {
  f_buf : bytes;  (* 5120 bytes *)
  f_len : nat;  (* index of the first free byte *)
  f_ready : bool;  (* data_ready semaphore *)
}.

Definition set_f_buf (v : bytes) (r : response_fifo_t) : response_fifo_t :=
  Build_fifo v (f_len r) (f_ready r).
Definition set_f_len (v : nat) (r : response_fifo_t) : response_fifo_t :=
  Build_fifo (f_buf r) v (f_ready r).
Definition set_f_ready (v : bool) (r : response_fifo_t) : response_fifo_t :=
  Build_fifo (f_buf r) (f_len r) v.

Record account_list := Build_accounts {
  ac_list : list Z;  (* account_struct_list[100].sock *)
  ac_size : nat;  (* account_list_size *)
}.

Definition set_ac_list (v : list Z) (r : account_list) : account_list :=
  Build_accounts v (ac_size r).
Definition set_ac_size (v : nat) (r : account_list) : account_list :=
  Build_accounts (ac_list r) v.

Record pairing_state := Build_pairing {
  wp_step : Z;  (* pairing_step *)
  wp_ssid : bytes;  (* temp_ssid *)
  wp_password : bytes;  (* temp_password *)
  wp_timer : bool;  (* pairing_timer armed *)
}.

Definition set_wp_step (v : Z) (r : pairing_state) : pairing_state :=
  Build_pairing v (wp_ssid r) (wp_password r) (wp_timer r).
Definition set_wp_ssid (v : bytes) (r : pairing_state) : pairing_state :=
  Build_pairing (wp_step r) v (wp_password r) (wp_timer r).
Definition set_wp_password (v : bytes) (r : pairing_state) : pairing_state :=
  Build_pairing (wp_step r) (wp_ssid r) v (wp_timer r).
Definition set_wp_timer (v : bool) (r : pairing_state) : pairing_state :=
  Build_pairing (wp_step r) (wp_ssid r) (wp_password r) v.

Record prov_state := Build_prov {
  pr_device_id : bytes;
  pr_source_terminal_id : bytes;
  pr_iot_endpoint : bytes;
  pr_cert_pem : bytes;
  pr_key_pem : bytes;
  pr_active : bool;
  pr_state : handshake_state_t;
  pr_pending_source : bytes;
  pr_pending_endpoint : bytes;
  pr_pending_device_id : bytes;
  pr_cert_b64 : bytes;  (* s_cert_b64[0 .. s_cert_b64_len) *)
  pr_total_chunks : Z;
  pr_next_seq : Z;
}.

Definition set_pr_device_id (v : bytes) (r : prov_state) : prov_state :=
  Build_prov v (pr_source_terminal_id r) (pr_iot_endpoint r) (pr_cert_pem r) (pr_key_pem r) (pr_active r) (pr_state r) (pr_pending_source r) (pr_pending_endpoint r) (pr_pending_device_id r) (pr_cert_b64 r) (pr_total_chunks r) (pr_next_seq r).
Definition set_pr_source_terminal_id (v : bytes) (r : prov_state) : prov_state :=
  Build_prov (pr_device_id r) v (pr_iot_endpoint r) (pr_cert_pem r) (pr_key_pem r) (pr_active r) (pr_state r) (pr_pending_source r) (pr_pending_endpoint r) (pr_pending_device_id r) (pr_cert_b64 r) (pr_total_chunks r) (pr_next_seq r).
Definition set_pr_iot_endpoint (v : bytes) (r : prov_state) : prov_state :=
  Build_prov (pr_device_id r) (pr_source_terminal_id r) v (pr_cert_pem r) (pr_key_pem r) (pr_active r) (pr_state r) (pr_pending_source r) (pr_pending_endpoint r) (pr_pending_device_id r) (pr_cert_b64 r) (pr_total_chunks r) (pr_next_seq r).
Definition set_pr_cert_pem (v : bytes) (r : prov_state) : prov_state :=
  Build_prov (pr_device_id r) (pr_source_terminal_id r) (pr_iot_endpoint r) v (pr_key_pem r) (pr_active r) (pr_state r) (pr_pending_source r) (pr_pending_endpoint r) (pr_pending_device_id r) (pr_cert_b64 r) (pr_total_chunks r) (pr_next_seq r).
Definition set_pr_key_pem (v : bytes) (r : prov_state) : prov_state :=
  Build_prov (pr_device_id r) (pr_source_terminal_id r) (pr_iot_endpoint r) (pr_cert_pem r) v (pr_active r) (pr_state r) (pr_pending_source r) (pr_pending_endpoint r) (pr_pending_device_id r) (pr_cert_b64 r) (pr_total_chunks r) (pr_next_seq r).
Definition set_pr_active (v : bool) (r : prov_state) : prov_state :=
  Build_prov (pr_device_id r) (pr_source_terminal_id r) (pr_iot_endpoint r) (pr_cert_pem r) (pr_key_pem r) v (pr_state r) (pr_pending_source r) (pr_pending_endpoint r) (pr_pending_device_id r) (pr_cert_b64 r) (pr_total_chunks r) (pr_next_seq r).
Definition set_pr_state (v : handshake_state_t) (r : prov_state) : prov_state :=
  Build_prov (pr_device_id r) (pr_source_terminal_id r) (pr_iot_endpoint r) (pr_cert_pem r) (pr_key_pem r) (pr_active r) v (pr_pending_source r) (pr_pending_endpoint r) (pr_pending_device_id r) (pr_cert_b64 r) (pr_total_chunks r) (pr_next_seq r).
Definition set_pr_pending_source (v : bytes) (r : prov_state) : prov_state :=
  Build_prov (pr_device_id r) (pr_source_terminal_id r) (pr_iot_endpoint r) (pr_cert_pem r) (pr_key_pem r) (pr_active r) (pr_state r) v (pr_pending_endpoint r) (pr_pending_device_id r) (pr_cert_b64 r) (pr_total_chunks r) (pr_next_seq r).
Definition set_pr_pending_endpoint (v : bytes) (r : prov_state) : prov_state :=
  Build_prov (pr_device_id r) (pr_source_terminal_id r) (pr_iot_endpoint r) (pr_cert_pem r) (pr_key_pem r) (pr_active r) (pr_state r) (pr_pending_source r) v (pr_pending_device_id r) (pr_cert_b64 r) (pr_total_chunks r) (pr_next_seq r).
Definition set_pr_pending_device_id (v : bytes) (r : prov_state) : prov_state :=
  Build_prov (pr_device_id r) (pr_source_terminal_id r) (pr_iot_endpoint r) (pr_cert_pem r) (pr_key_pem r) (pr_active r) (pr_state r) (pr_pending_source r) (pr_pending_endpoint r) v (pr_cert_b64 r) (pr_total_chunks r) (pr_next_seq r).
Definition set_pr_cert_b64 (v : bytes) (r : prov_state) : prov_state :=
  Build_prov (pr_device_id r) (pr_source_terminal_id r) (pr_iot_endpoint r) (pr_cert_pem r) (pr_key_pem r) (pr_active r) (pr_state r) (pr_pending_source r) (pr_pending_endpoint r) (pr_pending_device_id r) v (pr_total_chunks r) (pr_next_seq r).
Definition set_pr_total_chunks (v : Z) (r : prov_state) : prov_state :=
  Build_prov (pr_device_id r) (pr_source_terminal_id r) (pr_iot_endpoint r) (pr_cert_pem r) (pr_key_pem r) (pr_active r) (pr_state r) (pr_pending_source r) (pr_pending_endpoint r) (pr_pending_device_id r) (pr_cert_b64 r) v (pr_next_seq r).
Definition set_pr_next_seq (v : Z) (r : prov_state) : prov_state :=
  Build_prov (pr_device_id r) (pr_source_terminal_id r) (pr_iot_endpoint r) (pr_cert_pem r) (pr_key_pem r) (pr_active r) (pr_state r) (pr_pending_source r) (pr_pending_endpoint r) (pr_pending_device_id r) (pr_cert_b64 r) (pr_total_chunks r) v.

Record beacon_state := Build_beacon {
  bc_lock : bool;  (* lock != NULL *)
  bc_host_ready : bool;
  bc_have_ip : bool;
  bc_advertising : bool;
  bc_mfg_data : bytes;  (* 7 bytes *)
  bc_adv_name : bytes;
  bc_adv_name_complete : bool;
}.

Definition set_bc_lock (v : bool) (r : beacon_state) : beacon_state :=
  Build_beacon v (bc_host_ready r) (bc_have_ip r) (bc_advertising r) (bc_mfg_data r) (bc_adv_name r) (bc_adv_name_complete r).
Definition set_bc_host_ready (v : bool) (r : beacon_state) : beacon_state :=
  Build_beacon (bc_lock r) v (bc_have_ip r) (bc_advertising r) (bc_mfg_data r) (bc_adv_name r) (bc_adv_name_complete r).
Definition set_bc_have_ip (v : bool) (r : beacon_state) : beacon_state :=
  Build_beacon (bc_lock r) (bc_host_ready r) v (bc_advertising r) (bc_mfg_data r) (bc_adv_name r) (bc_adv_name_complete r).
Definition set_bc_advertising (v : bool) (r : beacon_state) : beacon_state :=
  Build_beacon (bc_lock r) (bc_host_ready r) (bc_have_ip r) v (bc_mfg_data r) (bc_adv_name r) (bc_adv_name_complete r).
Definition set_bc_mfg_data (v : bytes) (r : beacon_state) : beacon_state :=
  Build_beacon (bc_lock r) (bc_host_ready r) (bc_have_ip r) (bc_advertising r) v (bc_adv_name r) (bc_adv_name_complete r).
Definition set_bc_adv_name (v : bytes) (r : beacon_state) : beacon_state :=
  Build_beacon (bc_lock r) (bc_host_ready r) (bc_have_ip r) (bc_advertising r) (bc_mfg_data r) v (bc_adv_name_complete r).
Definition set_bc_adv_name_complete (v : bool) (r : beacon_state) : beacon_state :=
  Build_beacon (bc_lock r) (bc_host_ready r) (bc_have_ip r) (bc_advertising r) (bc_mfg_data r) (bc_adv_name r) v.

Record flash_state := Build_flash {
  fs_write : Z * Z;  (* new_write_partition: type, subtype *)
  fs_erase : Z * Z;  (* new_erase_partition *)
  fs_read : Z * Z;  (* new_read_partition *)
  fs_erase_write : Z * Z;  (* new_erase_write_partition *)
  fs_last_erase_offset : Z;
  fs_reset_counter : Z;  (* registeration_reset_counter *)
  fs_wifi_mode : bytes;  (* 256 bytes *)
  fs_router_ssid : bytes;  (* 256 bytes *)
  fs_router_password : bytes;  (* 256 bytes *)
}.

Definition set_fs_write (v : Z * Z) (r : flash_state) : flash_state :=
  Build_flash v (fs_erase r) (fs_read r) (fs_erase_write r) (fs_last_erase_offset r) (fs_reset_counter r) (fs_wifi_mode r) (fs_router_ssid r) (fs_router_password r).
Definition set_fs_erase (v : Z * Z) (r : flash_state) : flash_state :=
  Build_flash (fs_write r) v (fs_read r) (fs_erase_write r) (fs_last_erase_offset r) (fs_reset_counter r) (fs_wifi_mode r) (fs_router_ssid r) (fs_router_password r).
Definition set_fs_read (v : Z * Z) (r : flash_state) : flash_state :=
  Build_flash (fs_write r) (fs_erase r) v (fs_erase_write r) (fs_last_erase_offset r) (fs_reset_counter r) (fs_wifi_mode r) (fs_router_ssid r) (fs_router_password r).
Definition set_fs_erase_write (v : Z * Z) (r : flash_state) : flash_state :=
  Build_flash (fs_write r) (fs_erase r) (fs_read r) v (fs_last_erase_offset r) (fs_reset_counter r) (fs_wifi_mode r) (fs_router_ssid r) (fs_router_password r).
Definition set_fs_last_erase_offset (v : Z) (r : flash_state) : flash_state :=
  Build_flash (fs_write r) (fs_erase r) (fs_read r) (fs_erase_write r) v (fs_reset_counter r) (fs_wifi_mode r) (fs_router_ssid r) (fs_router_password r).
Definition set_fs_reset_counter (v : Z) (r : flash_state) : flash_state :=
  Build_flash (fs_write r) (fs_erase r) (fs_read r) (fs_erase_write r) (fs_last_erase_offset r) v (fs_wifi_mode r) (fs_router_ssid r) (fs_router_password r).
Definition set_fs_wifi_mode (v : bytes) (r : flash_state) : flash_state :=
  Build_flash (fs_write r) (fs_erase r) (fs_read r) (fs_erase_write r) (fs_last_erase_offset r) (fs_reset_counter r) v (fs_router_ssid r) (fs_router_password r).
Definition set_fs_router_ssid (v : bytes) (r : flash_state) : flash_state :=
  Build_flash (fs_write r) (fs_erase r) (fs_read r) (fs_erase_write r) (fs_last_erase_offset r) (fs_reset_counter r) (fs_wifi_mode r) v (fs_router_password r).
Definition set_fs_router_password (v : bytes) (r : flash_state) : flash_state :=
  Build_flash (fs_write r) (fs_erase r) (fs_read r) (fs_erase_write r) (fs_last_erase_offset r) (fs_reset_counter r) (fs_wifi_mode r) (fs_router_ssid r) v.

Record ble_state := Build_ble {
  bl_conn_handle : Z;  (* conn_handle_saved *)
  bl_commit_in_progress : bool;
  bl_status : Z * Z;  (* status_value *)
  bl_cred_ssid : bytes;
  bl_cred_pass : bytes;
  bl_have_ssid : bool;
}.

Definition set_bl_conn_handle (v : Z) (r : ble_state) : ble_state :=
  Build_ble v (bl_commit_in_progress r) (bl_status r) (bl_cred_ssid r) (bl_cred_pass r) (bl_have_ssid r).
Definition set_bl_commit_in_progress (v : bool) (r : ble_state) : ble_state :=
  Build_ble (bl_conn_handle r) v (bl_status r) (bl_cred_ssid r) (bl_cred_pass r) (bl_have_ssid r).
Definition set_bl_status (v : Z * Z) (r : ble_state) : ble_state :=
  Build_ble (bl_conn_handle r) (bl_commit_in_progress r) v (bl_cred_ssid r) (bl_cred_pass r) (bl_have_ssid r).
Definition set_bl_cred_ssid (v : bytes) (r : ble_state) : ble_state :=
  Build_ble (bl_conn_handle r) (bl_commit_in_progress r) (bl_status r) v (bl_cred_pass r) (bl_have_ssid r).
Definition set_bl_cred_pass (v : bytes) (r : ble_state) : ble_state :=
  Build_ble (bl_conn_handle r) (bl_commit_in_progress r) (bl_status r) (bl_cred_ssid r) v (bl_have_ssid r).
Definition set_bl_have_ssid (v : bool) (r : ble_state) : ble_state :=
  Build_ble (bl_conn_handle r) (bl_commit_in_progress r) (bl_status r) (bl_cred_ssid r) (bl_cred_pass r) v.

Record trial_state := Build_trial {
  tr_events : bool;  (* trial_events != NULL *)
  tr_netif : bool;  (* p_netif_trial != NULL *)
  tr_active : bool;  (* trial_active *)
  tr_failure : wifi_trial_result_t;  (* trial_failure *)
  tr_retries : Z;  (* trial_retries *)
  tr_got_ip : bool;  (* TRIAL_GOT_IP_BIT *)
  tr_failed : bool;  (* TRIAL_FAILED_BIT *)
}.

Definition set_tr_events (v : bool) (r : trial_state) : trial_state :=
  Build_trial v (tr_netif r) (tr_active r) (tr_failure r) (tr_retries r) (tr_got_ip r) (tr_failed r).
Definition set_tr_netif (v : bool) (r : trial_state) : trial_state :=
  Build_trial (tr_events r) v (tr_active r) (tr_failure r) (tr_retries r) (tr_got_ip r) (tr_failed r).
Definition set_tr_active (v : bool) (r : trial_state) : trial_state :=
  Build_trial (tr_events r) (tr_netif r) v (tr_failure r) (tr_retries r) (tr_got_ip r) (tr_failed r).
Definition set_tr_failure (v : wifi_trial_result_t) (r : trial_state) : trial_state :=
  Build_trial (tr_events r) (tr_netif r) (tr_active r) v (tr_retries r) (tr_got_ip r) (tr_failed r).
Definition set_tr_retries (v : Z) (r : trial_state) : trial_state :=
  Build_trial (tr_events r) (tr_netif r) (tr_active r) (tr_failure r) v (tr_got_ip r) (tr_failed r).
Definition set_tr_got_ip (v : bool) (r : trial_state) : trial_state :=
  Build_trial (tr_events r) (tr_netif r) (tr_active r) (tr_failure r) (tr_retries r) v (tr_failed r).
Definition set_tr_failed (v : bool) (r : trial_state) : trial_state :=
  Build_trial (tr_events r) (tr_netif r) (tr_active r) (tr_failure r) (tr_retries r) (tr_got_ip r) v.

Record station_state := Build_station {
  sn_connected : bool;  (* isConnectedToWifi *)
  sn_retry_num : Z;  (* s_retry_num *)
  sn_sockets : bool;  (* all_sockets_init *)
  sn_ssid_arg : bytes;
  sn_pass_arg : bytes;
  sn_if_mode : Z;  (* wifi_if_mode *)
  sn_connected_bit : bool;  (* WIFI_CONNECTED_BIT *)
}.

Definition set_sn_connected (v : bool) (r : station_state) : station_state :=
  Build_station v (sn_retry_num r) (sn_sockets r) (sn_ssid_arg r) (sn_pass_arg r) (sn_if_mode r) (sn_connected_bit r).
Definition set_sn_retry_num (v : Z) (r : station_state) : station_state :=
  Build_station (sn_connected r) v (sn_sockets r) (sn_ssid_arg r) (sn_pass_arg r) (sn_if_mode r) (sn_connected_bit r).
Definition set_sn_sockets (v : bool) (r : station_state) : station_state :=
  Build_station (sn_connected r) (sn_retry_num r) v (sn_ssid_arg r) (sn_pass_arg r) (sn_if_mode r) (sn_connected_bit r).
Definition set_sn_ssid_arg (v : bytes) (r : station_state) : station_state :=
  Build_station (sn_connected r) (sn_retry_num r) (sn_sockets r) v (sn_pass_arg r) (sn_if_mode r) (sn_connected_bit r).
Definition set_sn_pass_arg (v : bytes) (r : station_state) : station_state :=
  Build_station (sn_connected r) (sn_retry_num r) (sn_sockets r) (sn_ssid_arg r) v (sn_if_mode r) (sn_connected_bit r).
Definition set_sn_if_mode (v : Z) (r : station_state) : station_state :=
  Build_station (sn_connected r) (sn_retry_num r) (sn_sockets r) (sn_ssid_arg r) (sn_pass_arg r) v (sn_connected_bit r).
Definition set_sn_connected_bit (v : bool) (r : station_state) : station_state :=
  Build_station (sn_connected r) (sn_retry_num r) (sn_sockets r) (sn_ssid_arg r) (sn_pass_arg r) (sn_if_mode r) v.

Record Dev := Build_dev {
  pool : list local_session_t;
  plist : paired_blob_t;
  pw : pw_state;
  evq : queue_t;
  tcp_fifo : response_fifo_t;
  mqtt_fifo : response_fifo_t;
  accounts : account_list;
  response_id : Z;
  wpair : pairing_state;
  prov : prov_state;
  disc_mode : Z;
  beacon : beacon_state;
  mdns_started : bool;
  firmwareUrl : bytes;
  flash : flash_state;
  blep : ble_state;
  trial : trial_state;
  station : station_state;
  device_ip : Z;
  mqtt_period : Z;
  world : World;
  out : list event;  (* trace, oldest first *)
}.

Definition set_pool (v : list local_session_t) (r : Dev) : Dev :=
  Build_dev v (plist r) (pw r) (evq r) (tcp_fifo r) (mqtt_fifo r) (accounts r) (response_id r) (wpair r) (prov r) (disc_mode r) (beacon r) (mdns_started r) (firmwareUrl r) (flash r) (blep r) (trial r) (station r) (device_ip r) (mqtt_period r) (world r) (out r).
Definition set_plist (v : paired_blob_t) (r : Dev) : Dev :=
  Build_dev (pool r) v (pw r) (evq r) (tcp_fifo r) (mqtt_fifo r) (accounts r) (response_id r) (wpair r) (prov r) (disc_mode r) (beacon r) (mdns_started r) (firmwareUrl r) (flash r) (blep r) (trial r) (station r) (device_ip r) (mqtt_period r) (world r) (out r).
Definition set_pw (v : pw_state) (r : Dev) : Dev :=
  Build_dev (pool r) (plist r) v (evq r) (tcp_fifo r) (mqtt_fifo r) (accounts r) (response_id r) (wpair r) (prov r) (disc_mode r) (beacon r) (mdns_started r) (firmwareUrl r) (flash r) (blep r) (trial r) (station r) (device_ip r) (mqtt_period r) (world r) (out r).
Definition set_evq (v : queue_t) (r : Dev) : Dev :=
  Build_dev (pool r) (plist r) (pw r) v (tcp_fifo r) (mqtt_fifo r) (accounts r) (response_id r) (wpair r) (prov r) (disc_mode r) (beacon r) (mdns_started r) (firmwareUrl r) (flash r) (blep r) (trial r) (station r) (device_ip r) (mqtt_period r) (world r) (out r).
Definition set_tcp_fifo (v : response_fifo_t) (r : Dev) : Dev :=
  Build_dev (pool r) (plist r) (pw r) (evq r) v (mqtt_fifo r) (accounts r) (response_id r) (wpair r) (prov r) (disc_mode r) (beacon r) (mdns_started r) (firmwareUrl r) (flash r) (blep r) (trial r) (station r) (device_ip r) (mqtt_period r) (world r) (out r).
Definition set_mqtt_fifo (v : response_fifo_t) (r : Dev) : Dev :=
  Build_dev (pool r) (plist r) (pw r) (evq r) (tcp_fifo r) v (accounts r) (response_id r) (wpair r) (prov r) (disc_mode r) (beacon r) (mdns_started r) (firmwareUrl r) (flash r) (blep r) (trial r) (station r) (device_ip r) (mqtt_period r) (world r) (out r).
Definition set_accounts (v : account_list) (r : Dev) : Dev :=
  Build_dev (pool r) (plist r) (pw r) (evq r) (tcp_fifo r) (mqtt_fifo r) v (response_id r) (wpair r) (prov r) (disc_mode r) (beacon r) (mdns_started r) (firmwareUrl r) (flash r) (blep r) (trial r) (station r) (device_ip r) (mqtt_period r) (world r) (out r).
Definition set_response_id (v : Z) (r : Dev) : Dev :=
  Build_dev (pool r) (plist r) (pw r) (evq r) (tcp_fifo r) (mqtt_fifo r) (accounts r) v (wpair r) (prov r) (disc_mode r) (beacon r) (mdns_started r) (firmwareUrl r) (flash r) (blep r) (trial r) (station r) (device_ip r) (mqtt_period r) (world r) (out r).
Definition set_wpair (v : pairing_state) (r : Dev) : Dev :=
  Build_dev (pool r) (plist r) (pw r) (evq r) (tcp_fifo r) (mqtt_fifo r) (accounts r) (response_id r) v (prov r) (disc_mode r) (beacon r) (mdns_started r) (firmwareUrl r) (flash r) (blep r) (trial r) (station r) (device_ip r) (mqtt_period r) (world r) (out r).
Definition set_prov (v : prov_state) (r : Dev) : Dev :=
  Build_dev (pool r) (plist r) (pw r) (evq r) (tcp_fifo r) (mqtt_fifo r) (accounts r) (response_id r) (wpair r) v (disc_mode r) (beacon r) (mdns_started r) (firmwareUrl r) (flash r) (blep r) (trial r) (station r) (device_ip r) (mqtt_period r) (world r) (out r).
Definition set_disc_mode (v : Z) (r : Dev) : Dev :=
  Build_dev (pool r) (plist r) (pw r) (evq r) (tcp_fifo r) (mqtt_fifo r) (accounts r) (response_id r) (wpair r) (prov r) v (beacon r) (mdns_started r) (firmwareUrl r) (flash r) (blep r) (trial r) (station r) (device_ip r) (mqtt_period r) (world r) (out r).
Definition set_beacon (v : beacon_state) (r : Dev) : Dev :=
  Build_dev (pool r) (plist r) (pw r) (evq r) (tcp_fifo r) (mqtt_fifo r) (accounts r) (response_id r) (wpair r) (prov r) (disc_mode r) v (mdns_started r) (firmwareUrl r) (flash r) (blep r) (trial r) (station r) (device_ip r) (mqtt_period r) (world r) (out r).
Definition set_mdns_started (v : bool) (r : Dev) : Dev :=
  Build_dev (pool r) (plist r) (pw r) (evq r) (tcp_fifo r) (mqtt_fifo r) (accounts r) (response_id r) (wpair r) (prov r) (disc_mode r) (beacon r) v (firmwareUrl r) (flash r) (blep r) (trial r) (station r) (device_ip r) (mqtt_period r) (world r) (out r).
Definition set_firmwareUrl (v : bytes) (r : Dev) : Dev :=
  Build_dev (pool r) (plist r) (pw r) (evq r) (tcp_fifo r) (mqtt_fifo r) (accounts r) (response_id r) (wpair r) (prov r) (disc_mode r) (beacon r) (mdns_started r) v (flash r) (blep r) (trial r) (station r) (device_ip r) (mqtt_period r) (world r) (out r).
Definition set_flash (v : flash_state) (r : Dev) : Dev :=
  Build_dev (pool r) (plist r) (pw r) (evq r) (tcp_fifo r) (mqtt_fifo r) (accounts r) (response_id r) (wpair r) (prov r) (disc_mode r) (beacon r) (mdns_started r) (firmwareUrl r) v (blep r) (trial r) (station r) (device_ip r) (mqtt_period r) (world r) (out r).
Definition set_blep (v : ble_state) (r : Dev) : Dev :=
  Build_dev (pool r) (plist r) (pw r) (evq r) (tcp_fifo r) (mqtt_fifo r) (accounts r) (response_id r) (wpair r) (prov r) (disc_mode r) (beacon r) (mdns_started r) (firmwareUrl r) (flash r) v (trial r) (station r) (device_ip r) (mqtt_period r) (world r) (out r).
Definition set_trial (v : trial_state) (r : Dev) : Dev :=
  Build_dev (pool r) (plist r) (pw r) (evq r) (tcp_fifo r) (mqtt_fifo r) (accounts r) (response_id r) (wpair r) (prov r) (disc_mode r) (beacon r) (mdns_started r) (firmwareUrl r) (flash r) (blep r) v (station r) (device_ip r) (mqtt_period r) (world r) (out r).
Definition set_station (v : station_state) (r : Dev) : Dev :=
  Build_dev (pool r) (plist r) (pw r) (evq r) (tcp_fifo r) (mqtt_fifo r) (accounts r) (response_id r) (wpair r) (prov r) (disc_mode r) (beacon r) (mdns_started r) (firmwareUrl r) (flash r) (blep r) (trial r) v (device_ip r) (mqtt_period r) (world r) (out r).
Definition set_device_ip (v : Z) (r : Dev) : Dev :=
  Build_dev (pool r) (plist r) (pw r) (evq r) (tcp_fifo r) (mqtt_fifo r) (accounts r) (response_id r) (wpair r) (prov r) (disc_mode r) (beacon r) (mdns_started r) (firmwareUrl r) (flash r) (blep r) (trial r) (station r) v (mqtt_period r) (world r) (out r).
Definition set_mqtt_period (v : Z) (r : Dev) : Dev :=
  Build_dev (pool r) (plist r) (pw r) (evq r) (tcp_fifo r) (mqtt_fifo r) (accounts r) (response_id r) (wpair r) (prov r) (disc_mode r) (beacon r) (mdns_started r) (firmwareUrl r) (flash r) (blep r) (trial r) (station r) (device_ip r) v (world r) (out r).
Definition set_world (v : World) (r : Dev) : Dev :=
  Build_dev (pool r) (plist r) (pw r) (evq r) (tcp_fifo r) (mqtt_fifo r) (accounts r) (response_id r) (wpair r) (prov r) (disc_mode r) (beacon r) (mdns_started r) (firmwareUrl r) (flash r) (blep r) (trial r) (station r) (device_ip r) (mqtt_period r) v (out r).
Definition set_out (v : list event) (r : Dev) : Dev :=
  Build_dev (pool r) (plist r) (pw r) (evq r) (tcp_fifo r) (mqtt_fifo r) (accounts r) (response_id r) (wpair r) (prov r) (disc_mode r) (beacon r) (mdns_started r) (firmwareUrl r) (flash r) (blep r) (trial r) (station r) (device_ip r) (mqtt_period r) (world r) v.

(** ** The device monad *)

Definition M (A : Type) : Type := ST Dev A.

Definition emit (e : event) : M unit := modify (fun d => set_out (out d ++ [e]) d).

(** [send(sock, data, len, 0)]; the firmware never looks at the result. *)
Definition send (sock : Z) (data : bytes) : M unit := emit (EvSend sock data).

(** Run an operation of the outside world. *)
Definition io {A} (f : World -> A * World) : M A :=
  fun d => let '(a, w) := f (world d) in (a, set_world w d).
Definition io_ (f : World -> World) : M unit :=
  modify (fun d => set_world (f (world d)) d).
Definition ask {A} (f : World -> A) : M A := gets (fun d => f (world d)).

(** A session pointer is the index of its slot, which never moves. *)
Definition null_session : local_session_t :=
  Build_session (-1) 0 0 LS_NEW LS_ROLE_NONE (-1) None (zeros 32) (zeros 16) (zeros 16) 0 0 false.

#[global] Instance session_inhabited : Inhabited local_session_t := populate null_session.

Definition sess (si : nat) (d : Dev) : local_session_t := pool d !!! si.
Definition upd_sess (si : nat) (f : local_session_t -> local_session_t) : M unit :=
  modify (fun d => set_pool (alter f si (pool d)) d).

Definition null_entry : paired_entry_t := Build_entry (zeros 41) (zeros 65) (zeros 32) 0 0.

#[global] Instance entry_inhabited : Inhabited paired_entry_t := populate null_entry.

Definition null_ip_slot : ip_slot_t := Build_ip_slot 0 0 0.

#[global] Instance ip_slot_inhabited : Inhabited ip_slot_t := populate null_ip_slot.

(** Only the outside world moved; only the trace moved; only those two. *)
Definition same_but_world (d d' : Dev) : Prop := d' = set_world (world d') d.
Definition same_but_out (d d' : Dev) : Prop := d' = set_out (out d') d.
Definition same_but_io (d d' : Dev) : Prop := d' = set_out (out d') (set_world (world d') d).

Lemma same_but_world_io d d' : same_but_world d d' -> same_but_io d d'.
Proof. intros ->. by destruct d. Qed.
Lemma same_but_out_io d d' : same_but_out d d' -> same_but_io d d'.
Proof. intros ->. by destruct d. Qed.
Lemma same_but_io_refl d : same_but_io d d.
Proof. by destruct d. Qed.
Lemma same_but_io_trans d1 d2 d3 :
  same_but_io d1 d2 -> same_but_io d2 d3 -> same_but_io d1 d3.
Proof. unfold same_but_io. intros H1 H2. rewrite H2, H1. done. Qed.

(** Reading back through an update of the session array. *)
Lemma sess_alter_eq (l : list local_session_t) si f :
  si < length l -> alter f si l !!! si = f (l !!! si).
Proof.
  intros H. destruct (lookup_lt_is_Some_2 l si H) as [s Hs].
  rewrite !list_lookup_total_alt, list_lookup_alter_eq, Hs. done.
Qed.

Lemma sess_alter_ne (l : list local_session_t) si sj f :
  si <> sj -> alter f si l !!! sj = l !!! sj.
Proof. intros H. rewrite !list_lookup_total_alt, list_lookup_alter_ne; done. Qed.

End State.

#[export] Hint Rewrite @length_alter : cything.
