(* ===== verification/LocalSession.v ===== *)
(** * LocalSession: the per-socket session pool ([security/local_session.c])

    The pool is the array [pool d]; a slot is named by its index. The
    operations keep the source's order of writes inside a slot, and the loops
    over the pool run over the slot indices. *)

From S2P Require Import Prelude Platform State.
From stdpp Require Import base list strings numbers.
From Stdlib Require Import ZArith Lia.

Local Open Scope cything_scope.

Section LocalSession.
Context {P : Platform}.

(** ** Operations *)

(** [if(s->srp != NULL){ esp_srp_free(s->srp); s->srp = NULL; }] *)
Definition free_srp (si : nat) : M unit :=
  let* s := gets (sess si) in
  match ls_srp s with
  | Some h => io_ (esp_srp_free h) ;; upd_sess si (set_ls_srp None)
  | None => ret tt
  end.

Definition wipe (si : nat) : M unit :=
  free_srp si ;;
  upd_sess si (set_ls_key (zeros 32)) ;;
  upd_sess si (set_ls_nonce_dev (zeros 16)) ;;
  upd_sess si (set_ls_nonce_phone (zeros 16)) ;;
  upd_sess si (fun s => set_ls_tx_ctr 0 (set_ls_rx_ctr 0 s)) ;;
  upd_sess si (set_ls_rx_encrypted false) ;;
  upd_sess si (set_ls_state LS_NEW) ;;
  upd_sess si (set_ls_role LS_ROLE_NONE) ;;
  upd_sess si (set_ls_paired_index (-1)) ;;
  upd_sess si (set_ls_rx_len 0) ;;
  upd_sess si (set_ls_peer_ip 0) ;;
  upd_sess si (set_ls_sock (-1)).

Definition local_session_init : M unit :=
  modify (set_pool (replicate LOCAL_SESSION_MAX null_session)).

(** The first slot whose [sock] field is [k]. *)
Definition slot_of (k : Z) (l : list local_session_t) : option nat :=
  fst <$> list_find (fun s => ls_sock s = k) l.

Definition local_session_acquire (sock peer_ip : Z) : M (option nat) :=
  let* o := gets (fun d => slot_of (-1) (pool d)) in
  match o with
  | Some si =>
      wipe si ;;
      upd_sess si (set_ls_sock sock) ;;
      upd_sess si (set_ls_peer_ip peer_ip) ;;
      ret (Some si)
  | None => ret None
  end.

Definition local_session_find (sock : Z) : M (option nat) :=
  if bool_decide (sock < 0)%Z then ret None
  else gets (fun d => slot_of sock (pool d)).

Definition local_session_release (sock : Z) : M unit :=
  let* o := gets (fun d => slot_of sock (pool d)) in
  match o with
  | Some si => wipe si
  | None => ret tt
  end.

Definition drop_auth (si : nat) : M unit :=
  free_srp si ;;
  upd_sess si (set_ls_key (zeros 32)) ;;
  upd_sess si (fun s => set_ls_tx_ctr 0 (set_ls_rx_ctr 0 s)) ;;
  upd_sess si (set_ls_state LS_NEW) ;;
  upd_sess si (set_ls_role LS_ROLE_NONE) ;;
  upd_sess si (set_ls_paired_index (-1)).

Definition local_session_on_paired_removed (index : Z) : M unit :=
  for_each (seq 0 LOCAL_SESSION_MAX) (fun i =>
    let* s := gets (sess i) in
    if bool_decide (ls_sock s = -1)%Z then ret tt
    else if bool_decide (ls_paired_index s = index) then drop_auth i
    else if bool_decide (index < ls_paired_index s)%Z
         then upd_sess i (fun s => set_ls_paired_index (ls_paired_index s - 1)%Z s)
         else ret tt).

Definition local_session_reset_handshake (si : nat) : M unit :=
  free_srp si ;;
  upd_sess si (set_ls_key (zeros 32)) ;;
  upd_sess si (set_ls_nonce_dev (zeros 16)) ;;
  upd_sess si (set_ls_nonce_phone (zeros 16)) ;;
  upd_sess si (fun s => set_ls_tx_ctr 0 (set_ls_rx_ctr 0 s)) ;;
  upd_sess si (set_ls_rx_encrypted false) ;;
  upd_sess si (set_ls_state LS_NEW) ;;
  upd_sess si (set_ls_role LS_ROLE_NONE) ;;
  upd_sess si (set_ls_paired_index (-1)).

Definition local_session_drop_all_auth : M unit :=
  for_each (seq 0 LOCAL_SESSION_MAX) (fun i =>
    let* s := gets (sess i) in
    if bool_decide (ls_sock s = -1)%Z then ret tt else drop_auth i).

Definition local_session_count : M nat :=
  gets (fun d => length (filter (fun s => ls_sock s <> -1)%Z (pool d))).

(** [shutdown(sock, SHUT_RDWR)] for every live socket of [peer_ip]. *)
Fixpoint shutdown_matching (peer_ip : Z) (l : list local_session_t) : M nat :=
  match l with
  | [] => ret 0
  | s :: l' =>
      if bool_decide (ls_sock s <> -1)%Z && bool_decide (ls_peer_ip s = peer_ip)
      then emit (EvShutdown (ls_sock s)) ;;
           let* n := shutdown_matching peer_ip l' in ret (S n)
      else shutdown_matching peer_ip l'
  end.

Definition local_session_shutdown_peer (peer_ip : Z) : M nat :=
  if bool_decide (peer_ip = 0)%Z then ret 0
  else let* l := gets pool in shutdown_matching peer_ip l.

(** ** What the slot operations do to a slot *)

Definition dropped (s : local_session_t) : local_session_t :=
  Build_session (ls_sock s) (ls_peer_ip s) (ls_rx_len s) LS_NEW LS_ROLE_NONE (-1) None
    (zeros 32) (ls_nonce_dev s) (ls_nonce_phone s) 0 0 (ls_rx_encrypted s).

Definition restarted (s : local_session_t) : local_session_t :=
  Build_session (ls_sock s) (ls_peer_ip s) (ls_rx_len s) LS_NEW LS_ROLE_NONE (-1) None
    (zeros 32) (zeros 16) (zeros 16) 0 0 false.

Definition after_removal (index : Z) (s : local_session_t) : local_session_t :=
  if bool_decide (ls_sock s = -1)%Z then s
  else if bool_decide (ls_paired_index s = index) then dropped s
  else if bool_decide (index < ls_paired_index s)%Z
       then set_ls_paired_index (ls_paired_index s - 1)%Z s
       else s.

Lemma sess_lookup d si s : pool d !! si = Some s -> sess si d = s.
Proof. intros H. unfold sess. by rewrite list_lookup_total_alt, H. Qed.

(** Everything but the pool and the heap behind the SRP handles is kept. *)
Definition same_but_pool (d d' : Dev) : Prop :=
  d' = set_pool (pool d') (set_world (world d') d).

Lemma same_but_pool_refl d : same_but_pool d d.
Proof. by destruct d. Qed.

Lemma same_but_pool_trans d1 d2 d3 :
  same_but_pool d1 d2 -> same_but_pool d2 d3 -> same_but_pool d1 d3.
Proof. unfold same_but_pool. intros H1 H2. rewrite H2, H1. done. Qed.

(** [m] changes slot [si] by [f] and nothing else but the heap. *)
Definition slot_op (m : M unit) (si : nat) (f : local_session_t -> local_session_t) : Prop :=
  forall d, pool (exec m d) = alter f si (pool d) /\ same_but_pool d (exec m d).

Lemma slot_op_upd si f : slot_op (upd_sess si f) si f.
Proof. intros d. split; [done|]. by destruct d. Qed.

Lemma slot_op_seq m1 m2 si f g :
  slot_op m1 si f -> slot_op m2 si g -> slot_op (m1 ;; m2) si (fun s => g (f s)).
Proof.
  intros H1 H2 d. rewrite exec_bind.
  destruct (H1 d) as [E1 F1]. destruct (H2 (exec m1 d)) as [E2 F2].
  split; [by rewrite E2, E1, alter_alter | by eapply same_but_pool_trans].
Qed.

Lemma slot_op_ext m si f g :
  (forall s, f s = g s) -> slot_op m si f -> slot_op m si g.
Proof.
  intros Hfg H d. destruct (H d) as [E F]. split; [|done].
  rewrite E. by apply alter_ext_at.
Qed.

Lemma slot_op_free_srp si : slot_op (free_srp si) si (set_ls_srp None).
Proof.
  intros d. unfold free_srp. rewrite exec_bind, eval_gets, exec_gets.
  destruct (ls_srp (sess si d)) as [h|] eqn:E.
  - split; [done|]. by destruct d.
  - split; [|apply same_but_pool_refl]. rewrite exec_ret.
    symmetry. rewrite (alter_ext_at _ (fun s => s)); [by apply list_alter_id|]. intros s Hs.
    rewrite (sess_lookup _ _ _ Hs) in E. destruct s; cbn in *. by subst.
Qed.

Ltac slot_ops :=
  repeat first [ apply slot_op_upd | apply slot_op_free_srp | eapply slot_op_seq ].

Lemma wipe_slot si : slot_op (wipe si) si (fun _ => null_session).
Proof. eapply slot_op_ext; [|unfold wipe; slot_ops]. by intros []. Qed.

Lemma drop_auth_slot si : slot_op (drop_auth si) si dropped.
Proof. eapply slot_op_ext; [|unfold drop_auth; slot_ops]. by intros []. Qed.

Lemma reset_handshake_slot si : slot_op (local_session_reset_handshake si) si restarted.
Proof.
  eapply slot_op_ext; [|unfold local_session_reset_handshake; slot_ops]. by intros [].
Qed.

(** A branch taken on the slot's own contents is still a change of that slot. *)
Lemma slot_op_read si (k : local_session_t -> M unit) f :
  (forall s, slot_op (k s) si (fun _ => f s)) \/
  (forall s, exists g, slot_op (k s) si g /\ g s = f s) ->
  slot_op (let* s := gets (sess si) in k s) si f.
Proof.
  intros H d. rewrite exec_bind, eval_gets, exec_gets.
  assert (exists g, slot_op (k (sess si d)) si g /\ g (sess si d) = f (sess si d)) as (g & Hg & E).
  { destruct H as [H|H]; [by exists (fun _ => f (sess si d))|apply H]. }
  destruct (Hg d) as [E1 F1]. split; [|done]. rewrite E1.
  apply alter_ext_at. intros s Hs. by rewrite (sess_lookup _ _ _ Hs) in E.
Qed.

Lemma slot_op_ret si : slot_op (ret tt) si (fun s => s).
Proof. intros d. split; [|apply same_but_pool_refl]. by rewrite list_alter_id. Qed.

Lemma for_each_slots (g : nat -> M unit) f n a d :
  (forall i, slot_op (g i) i f) ->
  (forall j, pool (exec (for_each (seq a n) g) d) !! j
             = if decide (a <= j < a + n) then f <$> (pool d !! j) else pool d !! j)
  /\ same_but_pool d (exec (for_each (seq a n) g) d).
Proof.
  intros Hg. revert a d. induction n as [|n IH]; intros a d.
  - split; [|apply same_but_pool_refl]. intros j. by rewrite decide_False by lia.
  - destruct (Hg a d) as [E F]. destruct (IH (S a) (exec (g a) d)) as [E' F'].
    split; [|by eapply same_but_pool_trans].
    intros j. change (for_each (seq a (S n)) g) with
      (fun s => for_each (seq (S a) n) g (snd (g a s))).
    unfold exec at 1. cbn beta. fold (exec (g a) d).
    change (snd (for_each (seq (S a) n) g (exec (g a) d)))
      with (exec (for_each (seq (S a) n) g) (exec (g a) d)).
    rewrite E', E. destruct (decide (j = a)) as [->|].
    + rewrite decide_False, decide_True by lia. by rewrite list_lookup_alter_eq.
    + rewrite list_lookup_alter_ne by done. repeat case_decide; try lia; done.
Qed.

Lemma pool_loop (g : nat -> M unit) f d :
  (forall i, slot_op (g i) i f) -> length (pool d) = LOCAL_SESSION_MAX ->
  pool (exec (for_each (seq 0 LOCAL_SESSION_MAX) g) d) = f <$> pool d
  /\ same_but_pool d (exec (for_each (seq 0 LOCAL_SESSION_MAX) g) d).
Proof.
  intros Hg Hl. destruct (for_each_slots g f LOCAL_SESSION_MAX 0 d Hg) as [E F].
  split; [|done]. apply list_eq. intros j. rewrite E, list_lookup_fmap.
  case_decide; [done|]. by rewrite lookup_ge_None_2 by lia.
Qed.

(** The removal loop is a map over the pool. *)
Lemma on_paired_removed_spec index d :
  length (pool d) = LOCAL_SESSION_MAX ->
  pool (exec (local_session_on_paired_removed index) d) = after_removal index <$> pool d
  /\ same_but_pool d (exec (local_session_on_paired_removed index) d).
Proof.
  apply pool_loop. intros i. apply slot_op_read. right. intros s. unfold after_removal.
  repeat case_bool_decide.
  - eexists; split; [apply slot_op_ret|done].
  - eexists; split; [apply drop_auth_slot|done].
  - eexists; split; [apply slot_op_upd|done].
  - eexists; split; [apply slot_op_ret|done].
Qed.

Lemma drop_all_auth_spec d :
  length (pool d) = LOCAL_SESSION_MAX ->
  pool (exec local_session_drop_all_auth d)
  = (fun s => if bool_decide (ls_sock s = -1)%Z then s else dropped s) <$> pool d
  /\ same_but_pool d (exec local_session_drop_all_auth d).
Proof.
  apply pool_loop. intros i. apply slot_op_read. right. intros s.
  case_bool_decide; eexists; (split; [apply slot_op_ret || apply drop_auth_slot|done]).
Qed.

(** ** Well-formed sessions

    [roles] are the roles of the paired-list entries, in order: what a
    session's [paired_index] points into. *)

Definition role_of (r : Z) : local_session_role_t :=
  if bool_decide (r = PAIRED_ROLE_OWNER) then LS_ROLE_OWNER else LS_ROLE_USER.

(** How much a session's index is known to say. [paired_list_remove] takes the
    entry out of RAM also when it cannot store the list, and its callers then do
    not tell the sessions. So what always holds is the loose reading: the index
    may be stale, but it is 0 for the owner's sessions and for no other. In the
    exact reading the index is that of an entry, and the session has its role. *)
Class Reading := exactly : bool.

Definition role_at (roles : list Z) (i : nat) : local_session_role_t :=
  match roles !! i with Some r => role_of r | None => LS_ROLE_USER end.

Context {RD : Reading}.

Definition points (roles : list Z) (i : Z) : Prop :=
  (0 <= i)%Z /\ if exactly then (i < Z.of_nat (length roles))%Z else i = 0%Z -> roles <> [].

(** The session stands for the entry it points at, with that entry's role. *)
Definition bound (roles : list Z) (s : local_session_t) : Prop :=
  points roles (ls_paired_index s) /\ ls_role s = role_at roles (Z.to_nat (ls_paired_index s)).

(** The owner comes first. *)
Definition owner_first (roles : list Z) : Prop :=
  exactly = true \/ forall j r, roles !! j = Some r -> role_of r = if decide (j = 0) then LS_ROLE_OWNER else LS_ROLE_USER.

Definition unbound (s : local_session_t) : Prop :=
  ls_paired_index s = (-1)%Z /\ ls_role s = LS_ROLE_NONE.

Definition handshake_ok (roles : list Z) (s : local_session_t) : Prop :=
  match ls_state s with
  | LS_NEW => ls_srp s = None /\ unbound s /\ ls_key s = zeros 32
  | LS_PAKE_WAIT_PROOF => ls_srp s <> None /\ unbound s
  | LS_PAKE_OK => ls_srp s = None /\ (unbound s \/ bound roles s)
  | LS_AUTH_WAIT_PROOF =>
      ls_srp s = None /\ ls_role s = LS_ROLE_NONE /\ points roles (ls_paired_index s)
  | LS_AUTH_OK => ls_srp s = None /\ bound roles s
  end.

Definition session_ok (roles : list Z) (s : local_session_t) : Prop :=
  (ls_sock s = (-1)%Z -> s = null_session) /\
  ((ls_sock s < 0)%Z -> ls_sock s = (-1)%Z) /\
  handshake_ok roles s.

(** The pool: eight slots, each well-formed, one slot per live socket. *)
Definition pool_ok (roles : list Z) (l : list local_session_t) : Prop :=
  length l = LOCAL_SESSION_MAX /\ Forall (session_ok roles) l /\
  forall i j si sj, l !! i = Some si -> l !! j = Some sj ->
    ls_sock si = ls_sock sj -> (0 <= ls_sock si)%Z -> i = j.

Lemma null_session_ok roles : session_ok roles null_session.
Proof. done. Qed.

Lemma dropped_ok roles s : ls_sock s <> (-1)%Z -> (0 <= ls_sock s)%Z -> session_ok roles (dropped s).
Proof. intros. split_and!; cbn; done || lia. Qed.

Lemma slot_of_Some k l si :
  slot_of k l = Some si -> exists s, l !! si = Some s /\ ls_sock s = k.
Proof.
  unfold slot_of. intros H. apply fmap_Some in H as [[i s] [H ->]].
  apply list_find_Some in H as (? & ? & ?). eauto.
Qed.

Lemma slot_of_unique roles l k i s :
  pool_ok roles l -> (0 <= k)%Z -> l !! i = Some s -> ls_sock s = k -> slot_of k l = Some i.
Proof.
  intros (_ & _ & Hu) Hk Hi Hs. unfold slot_of.
  destruct (list_find (fun s => ls_sock s = k) l) as [[j s']|] eqn:E; cbn.
  - apply list_find_Some in E as (Hj & Hs' & _). f_equal. cbn.
    symmetry. eapply Hu; eauto; congruence || lia.
  - exfalso. apply list_find_None in E. rewrite Forall_lookup in E. by eapply E.
Qed.

(** Updating one slot in place. *)
Lemma pool_ok_alter roles l si f :
  pool_ok roles l ->
  (forall s, l !! si = Some s -> session_ok roles s ->
     ls_sock (f s) = ls_sock s /\ session_ok roles (f s)) ->
  pool_ok roles (alter f si l).
Proof.
  intros (Hl & Ho & Hu) Hf. split_and!.
  - by rewrite length_alter.
  - apply Forall_lookup. intros j s Hj.
    destruct (decide (si = j)) as [<-|Hne].
    + rewrite list_lookup_alter_eq in Hj. apply fmap_Some in Hj as (s0 & Hs0 & ->).
      apply Hf; [done|]. by eapply Forall_lookup_1.
    + rewrite list_lookup_alter_ne in Hj by done. by eapply Forall_lookup_1.
  - assert (forall j s, alter f si l !! j = Some s ->
              exists s0, l !! j = Some s0 /\ ls_sock s = ls_sock s0) as Hs.
    { intros j s Hj. destruct (decide (si = j)) as [<-|Hne].
      - rewrite list_lookup_alter_eq in Hj. apply fmap_Some in Hj as (s0 & Hs0 & ->).
        exists s0. split; [done|]. apply Hf; [done|]. by eapply Forall_lookup_1.
      - rewrite list_lookup_alter_ne in Hj by done. eauto. }
    intros i j s1 s2 Hi Hj E Hp.
    destruct (Hs _ _ Hi) as (? & ? & ?), (Hs _ _ Hj) as (? & ? & ?).
    eapply Hu; eauto; congruence.
Qed.

(** Updating every slot, for a changed paired list. *)
Lemma pool_ok_fmap roles roles' l f :
  pool_ok roles l ->
  (forall s, session_ok roles s -> ls_sock (f s) = ls_sock s /\ session_ok roles' (f s)) ->
  pool_ok roles' (f <$> l).
Proof.
  intros (Hl & Ho & Hu) Hf. split_and!.
  - by rewrite length_fmap.
  - apply Forall_fmap. eapply Forall_impl; [|exact Ho]. intros s Hs. by apply Hf.
  - intros i j s1 s2 Hi Hj E Hp. rewrite list_lookup_fmap in Hi, Hj.
    apply fmap_Some in Hi as (s1' & Hi & ->). apply fmap_Some in Hj as (s2' & Hj & ->).
    pose proof (Forall_lookup_1 _ _ _ _ Ho Hi) as O1.
    pose proof (Forall_lookup_1 _ _ _ _ Ho Hj) as O2.
    destruct (Hf _ O1) as [E1 _], (Hf _ O2) as [E2 _].
    eapply Hu; eauto; congruence.
Qed.

Lemma points_lookup roles i r : (0 <= i)%Z -> roles !! Z.to_nat i = Some r -> points roles i.
Proof.
  intros H0 Hr. split; [done|]. destruct exactly; [|by intros ? ->]. apply lookup_lt_Some in Hr. lia.
Qed.

Lemma points_range roles i : (0 <= i < Z.of_nat (length roles))%Z -> points roles i.
Proof. intros H. split; [lia|]. destruct exactly; [lia|]. intros _ ->. cbn in H. lia. Qed.

Lemma bound_lookup roles s r :
  (0 <= ls_paired_index s)%Z -> roles !! Z.to_nat (ls_paired_index s) = Some r -> ls_role s = role_of r -> bound roles s.
Proof. intros H0 Hr Hs. split; [by eapply points_lookup|]. unfold role_at. by rewrite Hr. Qed.

(** A row behind the owner's goes. *)
Definition removable (roles : list Z) (i : nat) : Prop := i < length roles /\ (exactly = false -> 0 < i).

Lemma points_delete roles i k :
  points roles k -> removable roles i -> k <> Z.of_nat i ->
  points (delete i roles) (if bool_decide (Z.of_nat i < k)%Z then k - 1 else k)%Z.
Proof.
  intros [H0 Hk] [Hi Hp] Hne. assert (length (delete i roles) = length roles - 1) as Hlen
    by (apply length_delete, lookup_lt_is_Some; lia).
  split; [case_bool_decide; lia|]. destruct exactly; [case_bool_decide; lia|]. specialize (Hp eq_refl).
  intros Hz E. rewrite E in Hlen. case_bool_decide; [lia|]. specialize (Hk Hz). destruct roles as [|a [|b l]]; cbn in *; [done|lia|lia].
Qed.

Lemma bound_delete roles s i :
  bound roles s -> removable roles i -> ls_paired_index s <> Z.of_nat i ->
  bound (delete i roles)
    (if bool_decide (Z.of_nat i < ls_paired_index s)%Z
     then set_ls_paired_index (ls_paired_index s - 1)%Z s else s).
Proof.
  intros [Hp Hr] Hrm Hne. pose proof (points_delete _ _ _ Hp Hrm Hne) as Hd. destruct Hp as [H0 _].
  case_bool_decide; (split; [exact Hd|]); cbn; rewrite Hr; unfold role_at.
  - rewrite list_lookup_delete_ge by lia. replace (S (Z.to_nat (ls_paired_index s - 1))) with (Z.to_nat (ls_paired_index s)) by lia. done.
  - by rewrite list_lookup_delete_lt by lia.
Qed.

(** Sessions follow the compacted list: the removed entry's sessions lose
    their authentication, the others keep pointing at their own entry. *)
Lemma after_removal_ok roles i s :
  session_ok roles s -> removable roles i ->
  session_ok (delete i roles) (after_removal (Z.of_nat i) s).
Proof.
  intros (Hf & Hs & Hh) Hi. unfold after_removal.
  case_bool_decide as Hfree; [by rewrite Hf|].
  assert (0 <= ls_sock s)%Z by (destruct (decide (ls_sock s < 0)%Z); [tauto|lia]).
  case_bool_decide as Heq; [by apply dropped_ok|].
  pose proof (fun Hb => bound_delete roles s i Hb Hi Heq) as Hb.
  pose proof (fun Hq => points_delete roles i (ls_paired_index s) Hq Hi Heq) as Hq. unfold handshake_ok in *.
  case_bool_decide as Hlt; (split_and!; cbn; [congruence|by auto|]);
    unfold handshake_ok, unbound in *; cbn;
    destruct (ls_state s); cbn in *; destruct_and?; split_and!; try done; try lia; auto;
    try (intuition (try lia)).
Qed.

(** The row goes and nobody is told. *)
Lemma points_stale roles i k : exactly = false -> points roles k -> removable roles i -> points (delete i roles) k.
Proof.
  intros He [H0 Hk] [Hi Hp]. unfold points. rewrite He in *. split; [done|]. intros Hz E. specialize (Hk Hz). specialize (Hp eq_refl).
  apply (f_equal length) in E. rewrite length_delete in E by (apply lookup_lt_is_Some; lia). cbn in E. lia.
Qed.

Lemma role_at_first roles j :
  exactly = false -> owner_first roles -> (j = 0 -> roles <> []) ->
  role_at roles j = if decide (j = 0) then LS_ROLE_OWNER else LS_ROLE_USER.
Proof.
  intros He [?|Ho] Hj; [congruence|]. unfold role_at. destruct (roles !! j) as [r|] eqn:E; [by apply Ho|].
  case_decide as Hz; [|done]. subst j. destruct roles; [by specialize (Hj eq_refl)|done].
Qed.

Lemma bound_stale roles i s :
  exactly = false -> owner_first roles -> owner_first (delete i roles) -> bound roles s -> removable roles i -> bound (delete i roles) s.
Proof.
  intros He Ho Ho' [Hp Hr] Hi. pose proof (points_stale _ _ _ He Hp Hi) as Hp'. split; [done|].
  destruct Hp as [H0 Hp], Hp' as [_ Hp']. rewrite He in *.
  rewrite Hr, !role_at_first by (done || intros ?; (apply Hp || apply Hp'); lia). done.
Qed.

Lemma session_stale roles i s :
  exactly = false -> owner_first roles -> owner_first (delete i roles) -> session_ok roles s -> removable roles i ->
  session_ok (delete i roles) s.
Proof.
  intros He Ho Ho' (? & ? & Hh) Hi. split_and!; [done..|]. unfold handshake_ok in *.
  pose proof (fun Hb => bound_stale roles i s He Ho Ho' Hb Hi). pose proof (fun Hq => points_stale roles i (ls_paired_index s) He Hq Hi).
  destruct (ls_state s); intuition.
Qed.

(** ** The pool operations *)

Lemma acquire_ok roles d sock ip si :
  pool_ok roles (pool d) -> (0 <= sock)%Z -> slot_of sock (pool d) = None ->
  eval (local_session_acquire sock ip) d = Some si ->
  let d' := exec (local_session_acquire sock ip) d in
  pool_ok roles (pool d') /\ same_but_pool d d' /\
  pool d' !! si = Some (set_ls_peer_ip ip (set_ls_sock sock null_session)).
Proof.
  intros Hp Hs Hn. unfold local_session_acquire.
  rewrite eval_bind, exec_bind, eval_gets, exec_gets.
  destruct (slot_of (-1) (pool d)) as [i|] eqn:E; [|done].
  autorewrite with cything. intros [= <-]. cbn zeta.
  set (f := fun _ : local_session_t => set_ls_peer_ip ip (set_ls_sock sock null_session)).
  assert (slot_op (wipe i ;; upd_sess i (set_ls_sock sock) ;; upd_sess i (set_ls_peer_ip ip)) i f)
    as Hop.
  { eapply slot_op_ext; [|eapply slot_op_seq; [apply wipe_slot|slot_ops]]. done. }
  specialize (Hop d). autorewrite with cything in Hop. destruct Hop as [Ep F].
  destruct (slot_of_Some _ _ _ E) as (s & Hi & Hsk).
  rewrite Ep. split_and!; [|done|].
  - destruct Hp as (Hl & Ho & Hu). split_and!; [by rewrite length_alter| |].
    + apply Forall_alter; [done|]. intros ? _ _. split_and!; cbn; done || lia.
    + assert (forall j t, alter f i (pool d) !! j = Some t ->
                j = i /\ ls_sock t = sock \/ pool d !! j = Some t /\ ls_sock t <> sock) as Hc.
      { intros j t Hj. destruct (decide (i = j)) as [<-|].
        - rewrite list_lookup_alter_eq in Hj. apply fmap_Some in Hj as (? & _ & ->). by left.
        - rewrite list_lookup_alter_ne in Hj by done. right. split; [done|]. intros Ht.
          by rewrite (slot_of_unique roles (pool d) sock j t) in Hn. }
      intros a b sa sb Ha Hb Eab Hpos.
      destruct (Hc _ _ Ha) as [[-> ?]|[? ?]], (Hc _ _ Hb) as [[-> ?]|[? ?]];
        try congruence. by eapply Hu.
  - rewrite list_lookup_alter_eq, Hi. done.
Qed.

(** A refused acquisition means every slot is in use, and changes nothing. *)
Lemma acquire_full d sock ip :
  eval (local_session_acquire sock ip) d = None <->
  Forall (fun s => ls_sock s <> (-1)%Z) (pool d).
Proof.
  unfold local_session_acquire, slot_of. rewrite eval_bind, eval_gets, exec_gets.
  destruct (list_find (fun s => ls_sock s = (-1)%Z) (pool d)) as [[i s]|] eqn:E; cbn.
  - autorewrite with cything. split; [done|]. intros HF. exfalso.
    apply list_find_Some in E as (Hi & Hs & _). by apply (Forall_lookup_1 _ _ _ _ HF Hi).
  - by apply list_find_None in E.
Qed.

(** Releasing a socket leaves its slot wiped and every other slot alone. *)
Lemma release_ok roles d sock :
  pool_ok roles (pool d) -> (0 <= sock)%Z ->
  let d' := exec (local_session_release sock) d in
  pool_ok roles (pool d') /\ same_but_pool d d' /\ slot_of sock (pool d') = None /\
  forall j s, pool d !! j = Some s -> ls_sock s <> sock -> pool d' !! j = Some s.
Proof.
  intros Hp Hs. unfold local_session_release. rewrite exec_bind, eval_gets, exec_gets.
  destruct (slot_of sock (pool d)) as [i|] eqn:E; cbn zeta.
  - destruct (wipe_slot i d) as [Ep F]. rewrite Ep.
    destruct (slot_of_Some _ _ _ E) as (s & Hi & Hsk).
    assert (forall j t, alter (fun _ => null_session) i (pool d) !! j = Some t ->
              t = null_session \/ (j <> i /\ pool d !! j = Some t)) as Hc.
    { intros j t Hj. destruct (decide (i = j)) as [<-|].
      - rewrite list_lookup_alter_eq in Hj. apply fmap_Some in Hj as (? & _ & ->). by left.
      - rewrite list_lookup_alter_ne in Hj by done. by right. }
    destruct Hp as (Hl & Ho & Hu). split_and!; [|done| |].
    + split_and!; [by rewrite length_alter| |].
      * apply Forall_alter; [done|]. intros. apply null_session_ok.
      * intros a b sa sb Ha Hb Eab Hpos.
        destruct (Hc _ _ Ha) as [->|[? ?]]; [cbn in Hpos; lia|].
        destruct (Hc _ _ Hb) as [->|[? ?]]; [rewrite Eab in Hpos; cbn in Hpos; lia|].
        by eapply Hu.
    + unfold slot_of. destruct (list_find _ _) as [[j t]|] eqn:Ef; [|done]. exfalso.
      apply list_find_Some in Ef as (Hj & Ht & _).
      destruct (Hc _ _ Hj) as [->|[Hne Hj']]; [cbn in Ht; lia|].
      apply Hne. eapply Hu; eauto; congruence || lia.
    + intros j t Hj Ht. rewrite list_lookup_alter_ne; [done|]. intros <-. congruence.
  - rewrite exec_ret. split_and!; [done|apply same_but_pool_refl|done|done].
Qed.

End LocalSession.
