(* ===== verification/Mdns.v ===== *)
(** * Mdns: the discovery TXT record ([mdns/mdns_discovery.c])

    Also the read-only accessors of other components the TXT record reports:
    they only look at the state, so they live below the components that call
    [mdns_discovery_refresh]. *)

From S2P Require Import Prelude Platform State.
From stdpp Require Import base list strings numbers.
From Stdlib Require Import ZArith Lia.

Local Open Scope cything_scope.

Section Mdns.
Context {P : Platform} {C : Config}.

(** ** Accessors *)

(** [security/device_password.c] *)
Definition device_password_is_set (d : Dev) : bool :=
  bool_decide (0 < length (pw_salt (pw d))) && bool_decide (0 < length (pw_verifier (pw d))).

(** [security/paired_list.c] *)
Definition paired_list_count (d : Dev) : nat := pb_count (plist d).

(** [aws/provisioning.c] *)
Definition provisioning_is_active (d : Dev) : bool := pr_active (prov d).

(** [(source_terminal_id, device_id, provision_state)], each cut to its buffer. *)
Definition provisioning_get_scan_fields (nsrc ndev nstate : nat) (d : Dev) : bytes * bytes * bytes :=
  if pr_active (prov d)
  then (snprintf_s nsrc (pr_source_terminal_id (prov d)),
        snprintf_s ndev (pr_device_id (prov d)), snprintf_s nstate (str "claimed"))
  else ([], [], snprintf_s nstate (str "unprovisioned")).

(** ** The TXT record *)

Definition MDNS_TAG_MAX : nat := 16.

Definition load_channel_tag : bytes := snprintf_s (MDNS_TAG_MAX + 1) cy_mdns_channel_tag.

Definition flag (b : bool) : bytes := if b then str "1" else str "0".

Definition build_txt (d : Dev) : list (bytes * bytes) :=
  let '(_, device_id, _) := provisioning_get_scan_fields 40 40 16 d in
  [ (str "id", device_id);
    (str "ch", load_channel_tag);
    (str "v", cy_firmware_version);
    (str "type", cy_device_type);
    (str "paired", flag (bool_decide (0 < paired_list_count d)));
    (str "pw", flag (device_password_is_set d));
    (str "prov", flag (provisioning_is_active d)) ].

Definition mdns_discovery_refresh : M unit :=
  let* started := gets mdns_started in
  if started then let* txt := gets build_txt in emit (EvTxt txt) else ret tt.

(** The refresh only writes the trace. *)
Lemma refresh_frame d : same_but_out d (exec mdns_discovery_refresh d).
Proof.
  unfold mdns_discovery_refresh. rewrite exec_bind, eval_gets, exec_gets.
  destruct (mdns_started d) eqn:E; by destruct d.
Qed.

#[global] Arguments mdns_discovery_refresh : simpl never.

End Mdns.
