(* ===== verification/PairedList.v ===== *)
(** * PairedList: the enrolled accounts ([security/paired_list.c])

    The list is the array [pb_entries] with its fill count, as in the source:
    the freed tail is part of the state, so that "no key lingers past the
    count" is a theorem. The NVS blob is the memory image of the structure on
    the device (little-endian, 4-byte alignment). *)

From S2P Require Import Prelude Platform State Mdns.
From stdpp Require Import base list strings numbers.
From Stdlib Require Import ZArith Lia.

Local Open Scope cything_scope.

Section PairedList.
Context {P : Platform} {C : Config}.

Definition NVS_NS : string := "cy_sec".
Definition NVS_KEY_LIST : string := "paired".
Definition BLOB_VERSION : Z := 3.

(** ** The blob *)

Definition le32 (z : Z) : bytes :=
  [u8 z; u8 (Z.shiftr z 8); u8 (Z.shiftr z 16); u8 (Z.shiftr z 24)].

Definition le32_get (l : bytes) : Z :=
  match l with
  | [a; b; c; d] => (a + b * 2 ^ 8 + c * 2 ^ 16 + d * 2 ^ 24)%Z
  | _ => 0%Z
  end.

(** [sizeof(paired_entry_t)] = 41 + 65 + 32 + (2) + 4 + 1 + (3). *)
Definition SIZEOF_ENTRY : nat := 148.
(** [offsetof(paired_blob_t, entries)] = 4 + 41 + (3). *)
Definition OFFSETOF_ENTRIES : nat := 48.
Definition SIZEOF_BLOB : nat := OFFSETOF_ENTRIES + PAIRED_LIST_MAX * SIZEOF_ENTRY.

Definition entry_bytes (e : paired_entry_t) : bytes :=
  pe_user_sub e ++ pe_user_email e ++ pe_key e ++ zeros 2 ++ le32 (pe_paired_at e)
  ++ [u8 (pe_role e)] ++ zeros 3.

Definition slice (off len : nat) (l : bytes) : bytes := take len (drop off l).
Definition byte_at (off : nat) (l : bytes) : Z := default 0%Z (l !! off).

Definition entry_of_bytes (l : bytes) : paired_entry_t :=
  Build_entry (slice 0 41 l) (slice 41 65 l) (slice 106 32 l)
    (le32_get (slice 140 4 l)) (byte_at 144 l).

Definition active (l : paired_blob_t) : list paired_entry_t := take (pb_count l) (pb_entries l).

(** [&s_list], the first [n] bytes that [nvs_store] writes. *)
Definition blob_bytes (l : paired_blob_t) : bytes :=
  [u8 (pb_version l); u8 (Z.of_nat (pb_count l)); 0; 0]%Z ++ pb_owner_sub l ++ zeros 3
  ++ mjoin (entry_bytes <$> active l).

(** The structure after [nvs_get_blob] copied [data] over a zeroed [s_list]. *)
Definition blob_of_bytes (data : bytes) : paired_blob_t :=
  let mem := data ++ zeros (SIZEOF_BLOB - length data) in
  Build_blob (byte_at 0 mem) (Z.to_nat (byte_at 1 mem)) (slice 4 41 mem)
    ((fun i => entry_of_bytes (slice (OFFSETOF_ENTRIES + i * SIZEOF_ENTRY) SIZEOF_ENTRY mem))
       <$> seq 0 PAIRED_LIST_MAX).

(** The v2 layout: user_sub[41], install_id[33], display_name[33], key[32],
    (1), paired_at, role, (3): also 148 bytes. *)
Definition SIZEOF_ENTRY_V2 : nat := 148.

Definition null_blob : paired_blob_t :=
  Build_blob 0 0 (zeros 41) (replicate PAIRED_LIST_MAX null_entry).

Definition empty_list : paired_blob_t := set_pb_version BLOB_VERSION null_blob.

(** ** Internal routines *)

Definition copy_field (dst_size : nat) (src : bytes) : bytes :=
  let s := take (dst_size - 1) (cstr src) in s ++ zeros (dst_size - length s).

Definition nvs_store : M esp_err_t :=
  let* err := io (nvs_open NVS_NS NVS_READWRITE) in
  if negb (is_ok err) then ret err else
  let* l := gets plist in
  let* err :=
    (if bool_decide (pb_count l = 0)
     then let* e := io (nvs_erase_key NVS_NS NVS_KEY_LIST) in
          ret (if bool_decide (e = ESP_ERR_NVS_NOT_FOUND) then ESP_OK else e)
     else io (nvs_set_blob NVS_NS NVS_KEY_LIST (blob_bytes l))) in
  let* err := (if is_ok err then io (nvs_commit NVS_NS) else ret err) in
  io_ (nvs_close NVS_NS) ;;
  ret err.

Definition migrate_entry_v2 (l : bytes) : paired_entry_t :=
  Build_entry (slice 0 41 l) (copy_field 65 (slice 74 33 l)) (slice 107 32 l)
    (le32_get (slice 140 4 l)) (byte_at 144 l).

Definition migrate_v2 : M bool :=
  let* mem_ok := ask (calloc_ok (48 + 16 * SIZEOF_ENTRY_V2)) in
  if negb mem_ok then ret false else
  let* (err, data) := ask (nvs_get_blob NVS_NS NVS_KEY_LIST (48 + 16 * SIZEOF_ENTRY_V2)) in
  let count := Z.to_nat (byte_at 1 data) in
  let ok := is_ok err && bool_decide (byte_at 0 data = 2)%Z
            && bool_decide (count <= PAIRED_LIST_MAX)
            && bool_decide (length data = 48 + count * SIZEOF_ENTRY_V2) in
  if ok then
    modify (set_plist
      (Build_blob BLOB_VERSION count (slice 4 41 data)
         (((fun i => migrate_entry_v2 (slice (48 + i * SIZEOF_ENTRY_V2) SIZEOF_ENTRY_V2 data))
             <$> seq 0 count) ++ replicate (PAIRED_LIST_MAX - count) null_entry))) ;;
    ret true
  else ret false.

Definition nvs_load : M bool :=
  modify (set_plist empty_list) ;;
  let* err := io (nvs_open NVS_NS NVS_READONLY) in
  if negb (is_ok err) then ret false else
  let* (err, data) := ask (nvs_get_blob NVS_NS NVS_KEY_LIST SIZEOF_BLOB) in
  when (is_ok err) (modify (set_plist (blob_of_bytes data))) ;;
  let* l := gets plist in
  let* migrated :=
    (if bool_decide (err = ESP_ERR_NVS_INVALID_LENGTH) || (is_ok err && bool_decide (pb_version l = 2)%Z)
     then migrate_v2 else ret false) in
  io_ (nvs_close NVS_NS) ;;
  let* l := gets plist in
  when (negb migrated &&
        (negb (is_ok err) || negb (bool_decide (pb_version l = BLOB_VERSION))
         || bool_decide (PAIRED_LIST_MAX < pb_count l)
         || negb (bool_decide (length data = OFFSETOF_ENTRIES + pb_count l * SIZEOF_ENTRY))))
    (modify (set_plist empty_list)) ;;
  ret migrated.

Definition sub_eq (a b : bytes) : bool := strncmp_eq PAIRED_SUB_MAX a b.

Definition role_for_locked (l : paired_blob_t) (user_sub : bytes) : Z :=
  if negb (bool_decide (byte_at 0 (pb_owner_sub l) = 0)%Z) && sub_eq user_sub (pb_owner_sub l)
  then PAIRED_ROLE_OWNER else PAIRED_ROLE_USER.

Definition find_locked (l : paired_blob_t) (user_sub : bytes) : Z :=
  match list_find (fun e => sub_eq (pe_user_sub e) user_sub = true) (active l) with
  | Some (i, _) => Z.of_nat i
  | None => (-1)%Z
  end.

(** Shift the tail down over row [j], zero the freed last row, [count--]. *)
Definition remove_row (j : nat) (l : paired_blob_t) : paired_blob_t :=
  let n := pb_count l in
  Build_blob (pb_version l) (n - 1) (pb_owner_sub l)
    (<[n - 1 := null_entry]> (shift_down (pb_entries l) j (n - 1 - j))).

(** The inner [while(j < count)]; each turn removes a row or advances [j], so
    [count - j] turns are enough. *)
Fixpoint dedupe_inner (fuel i j : nat) (l : paired_blob_t) : paired_blob_t * bool :=
  match fuel with
  | O => (l, false)
  | S f =>
      if bool_decide (j < pb_count l) then
        if sub_eq (pe_user_sub (pb_entries l !!! j)) (pe_user_sub (pb_entries l !!! i))
        then let '(l', _) := dedupe_inner f i j (remove_row j l) in (l', true)
        else dedupe_inner f i (S j) l
      else (l, false)
  end.

Fixpoint dedupe_outer (fuel i : nat) (l : paired_blob_t) : paired_blob_t * bool :=
  match fuel with
  | O => (l, false)
  | S f =>
      if bool_decide (i < pb_count l) then
        let '(l1, c1) := dedupe_inner (pb_count l - S i) i (S i) l in
        let '(l2, c2) := dedupe_outer f (S i) l1 in (l2, c1 || c2)
      else (l, false)
  end.

Definition dedupe_accounts_locked : M bool :=
  let* l := gets plist in
  let '(l', changed) := dedupe_outer (pb_count l) 0 l in
  modify (set_plist l') ;;
  ret changed.

(** ** Public operations *)

Definition paired_list_init : M unit :=
  let* dirty := nvs_load in
  let* changed := dedupe_accounts_locked in
  when (changed || dirty) (nvs_store ;; ret tt).

Definition paired_list_find (user_sub : bytes) : M Z :=
  gets (fun d => find_locked (plist d) user_sub).

Definition paired_list_get (index : Z) : M (option paired_entry_t) :=
  gets (fun d =>
    if bool_decide (0 <= index)%Z && bool_decide (index < Z.of_nat (pb_count (plist d)))%Z
    then Some (pb_entries (plist d) !!! Z.to_nat index) else None).

(** [&s_list.entries[i]] is updated in place. *)
Definition upd_entry (i : nat) (f : paired_entry_t -> paired_entry_t) : M unit :=
  modify (fun d => set_plist (set_pb_entries (alter f i (pb_entries (plist d))) (plist d)) d).

Definition upd_list (f : paired_blob_t -> paired_blob_t) : M unit :=
  modify (fun d => set_plist (f (plist d)) d).

(** [s_list.owner_sub[0] = 0] *)
Definition clear_owner (l : paired_blob_t) : paired_blob_t :=
  set_pb_owner_sub (<[0 := 0%Z]> (pb_owner_sub l)) l.

(** Result: the index (or -1), the caller's key buffer, the role. *)
Definition paired_list_add (user_sub user_email key : bytes) (paired_at : Z) : M (Z * (bytes * Z)) :=
  if bool_decide (user_sub = []) then ret (-1, (key, 0))%Z else
  let* l := gets plist in
  let i := find_locked l user_sub in
  let claimed_owner := bool_decide (byte_at 0 (pb_owner_sub l) = 0)%Z in
  when claimed_owner (upd_list (set_pb_owner_sub (copy_field 41 user_sub))) ;;
  if bool_decide (i < 0)%Z && bool_decide (PAIRED_LIST_MAX <= pb_count l) then
    when claimed_owner (upd_list clear_owner) ;;
    ret (-1, (key, 0))%Z
  else
  let appended := bool_decide (i < 0)%Z in
  let n := if appended then pb_count l else Z.to_nat i in
  let before := pb_entries l !!! n in
  let key' := if appended then key else pe_key before in
  when appended
    (upd_entry n (fun _ => set_pe_key key (set_pe_user_sub (copy_field 41 user_sub) null_entry)) ;;
     upd_list (fun l => set_pb_count (S (pb_count l)) l)) ;;
  when (negb (bool_decide (user_email = [])))
    (upd_entry n (set_pe_user_email (copy_field 65 user_email))) ;;
  upd_entry n (set_pe_paired_at paired_at) ;;
  let* l' := gets plist in
  upd_entry n (set_pe_role (role_for_locked l' user_sub)) ;;
  let* err := nvs_store in
  if negb (is_ok err) then
    (if appended
     then upd_entry n (fun _ => null_entry) ;; upd_list (fun l => set_pb_count (pb_count l - 1) l)
     else upd_entry n (fun _ => before)) ;;
    when claimed_owner (upd_list clear_owner) ;;
    ret (-1, (key', 0))%Z
  else
    let* l' := gets plist in
    mdns_discovery_refresh ;;
    ret (Z.of_nat n, (key', pe_role (pb_entries l' !!! n))).

Definition paired_list_remove (index : Z) : M esp_err_t :=
  let* l := gets plist in
  if bool_decide (index < 0)%Z || bool_decide (Z.of_nat (pb_count l) <= index)%Z
  then ret ESP_ERR_NOT_FOUND
  else
    upd_list (remove_row (Z.to_nat index)) ;;
    let* err := nvs_store in
    mdns_discovery_refresh ;;
    ret err.

Definition paired_list_rotate_owner_key : M esp_err_t :=
  let* l := gets plist in
  match list_find (fun e => pe_role e = PAIRED_ROLE_OWNER) (active l) with
  | None => ret ESP_OK
  | Some (i, e) =>
      let* k := io (esp_fill_random PAIRED_KEY_LEN) in
      upd_entry i (set_pe_key k) ;;
      let* err := nvs_store in
      when (negb (is_ok err)) (upd_entry i (set_pe_key (pe_key e))) ;;
      ret err
  end.

Definition paired_list_clear : M esp_err_t :=
  modify (set_plist empty_list) ;;
  let* err := nvs_store in
  mdns_discovery_refresh ;;
  ret err.

#[global] Arguments copy_field : simpl never.
#[global] Arguments sub_eq : simpl never.
#[global] Arguments byte_at : simpl never.
#[global] Arguments role_for_locked : simpl never.
#[global] Arguments find_locked : simpl never.
#[global] Arguments active : simpl never.
#[global] Arguments blob_bytes : simpl never.
#[global] Arguments blob_of_bytes : simpl never.

#[global] Arguments nvs_store : simpl never.

(** ** Storing only touches flash *)

Lemma nvs_store_run d : exists e w, nvs_store d = (e, set_world w d).
Proof.
  destruct d as [? l0 ? ? ? ? ? ? ? ? ? ? ? ? ? ? ? ? ? ? w0 ?]. unfold nvs_store, io, io_.
  st_unfold. cbn. repeat (case_match; simplify_eq; cbn in * ); eauto.
Qed.

Lemma nvs_store_ok `{!NvsReliable P} d : exists w, nvs_store d = (ESP_OK, set_world w d).
Proof.
  destruct (nvs_store_run d) as (e & w & H). exists w. rewrite H. f_equal.
  revert H. destruct d as [? l0 ? ? ? ? ? ? ? ? ? ? ? ? ? ? ? ? ? ? w0 ?]. unfold nvs_store, io, io_.
  st_unfold. cbn. pose proof (nvs_open_ok NVS_NS w0) as Ho.
  destruct (nvs_open NVS_NS NVS_READWRITE w0) as [e1 w1]. cbn in Ho. subst e1. cbn.
  case_bool_decide; cbn.
  - pose proof (nvs_erase_key_ok NVS_NS NVS_KEY_LIST w1) as He.
    destruct (nvs_erase_key NVS_NS NVS_KEY_LIST w1) as [e2 w2]. cbn in *.
    pose proof (nvs_commit_ok NVS_NS w2) as Hc.
    destruct He as [-> | ->]; case_bool_decide; try done; cbn;
      destruct (nvs_commit NVS_NS w2) as [e3 w3]; cbn in *; congruence.
  - pose proof (nvs_set_blob_ok NVS_NS NVS_KEY_LIST (blob_bytes l0) w1) as Hs.
    destruct (nvs_set_blob NVS_NS NVS_KEY_LIST _ w1) as [e2 w2]. cbn in Hs. subst e2. cbn.
    pose proof (nvs_commit_ok NVS_NS w2) as Hc.
    destruct (nvs_commit NVS_NS w2) as [e3 w3]. cbn in Hc. subst e3. cbn. congruence.
Qed.

(** ** Well-formed lists *)

Definition entry_wf (e : paired_entry_t) : Prop :=
  length (pe_user_sub e) = 41 /\ length (pe_user_email e) = 65 /\ length (pe_key e) = 32 /\
  cstr (pe_user_sub e) <> [].

(** One entry per account. *)
Definition distinct_subs (es : list paired_entry_t) : Prop :=
  forall i j ei ej, es !! i = Some ei -> es !! j = Some ej ->
    sub_eq (pe_user_sub ei) (pe_user_sub ej) = true -> i = j.

Record list_ok (l : paired_blob_t) : Prop := {
  ok_version : pb_version l = BLOB_VERSION;
  ok_rows : length (pb_entries l) = PAIRED_LIST_MAX;
  ok_count : pb_count l <= PAIRED_LIST_MAX;
  ok_tail : forall i, pb_count l <= i < PAIRED_LIST_MAX -> pb_entries l !! i = Some null_entry;
  ok_owner_len : length (pb_owner_sub l) = 41;
  ok_entries : Forall entry_wf (active l);
  ok_distinct : distinct_subs (active l);
  ok_roles : Forall (fun e => pe_role e = role_for_locked l (pe_user_sub e)) (active l);
}.

Lemma empty_list_ok : list_ok empty_list.
Proof.
  constructor; cbn; try done; try lia; try (unfold active; cbn; constructor).
  intros i Hi. do 16 (destruct i as [|i]; [done|]). unfold PAIRED_LIST_MAX in Hi. lia.
Qed.

Lemma active_length l : list_ok l -> length (active l) = pb_count l.
Proof.
  intros H. unfold active. rewrite length_take, (ok_rows l H).
  pose proof (ok_count l H). lia.
Qed.

Lemma active_lookup l i : i < pb_count l -> active l !! i = pb_entries l !! i.
Proof. intros. unfold active. by rewrite lookup_take_lt. Qed.

(** ** Account names *)

Lemma length_copy_field n s : 0 < n -> length (copy_field n s) = n.
Proof.
  intros. unfold copy_field. cbv zeta.
  rewrite length_app, zeros_length, !length_take. lia.
Qed.

Lemma cstr_copy_field n s : cstr (copy_field n s) = take (n - 1) (cstr s).
Proof.
  unfold copy_field. apply cstr_app_zeros.
  apply Forall_take, cstr_nonzero.
Qed.

Lemma sub_eq_copy_field s x : sub_eq (copy_field 41 s) x = sub_eq s x.
Proof.
  unfold sub_eq. rewrite <- strncmp_eq_cstr, cstr_copy_field.
  by rewrite strncmp_eq_take, strncmp_eq_cstr by (unfold PAIRED_SUB_MAX; lia).
Qed.

Lemma sub_eq_copy_field_r s x : sub_eq x (copy_field 41 s) = sub_eq x s.
Proof. unfold sub_eq. rewrite strncmp_eq_sym. fold (sub_eq (copy_field 41 s) x).
  rewrite sub_eq_copy_field. apply strncmp_eq_sym. Qed.

Lemma byte_at_copy_field s : cstr s <> [] -> byte_at 0 (copy_field 41 s) <> 0%Z.
Proof.
  intros Hs. pose proof (cstr_nonzero s) as Hn. unfold copy_field, byte_at.
  destruct (cstr s) as [|c r]; [done|]. inversion Hn; subst. done.
Qed.

Lemma role_for_locked_ext l l' s :
  pb_owner_sub l = pb_owner_sub l' -> role_for_locked l s = role_for_locked l' s.
Proof. unfold role_for_locked. by intros ->. Qed.

Lemma role_for_locked_sub l s s' :
  sub_eq s s' = true -> role_for_locked l s = role_for_locked l s'.
Proof.
  intros H. unfold role_for_locked. f_equal. f_equal.
  destruct (sub_eq s' (pb_owner_sub l)) eqn:E.
  - unfold sub_eq in *. by rewrite (strncmp_eq_trans _ s s').
  - destruct (sub_eq s (pb_owner_sub l)) eqn:E'; [|done].
    unfold sub_eq in *. rewrite strncmp_eq_sym in H.
    by rewrite (strncmp_eq_trans _ s' s) in E.
Qed.

(** ** Finding *)

Lemma find_locked_Some l s :
  (0 <= find_locked l s)%Z ->
  exists e, active l !! Z.to_nat (find_locked l s) = Some e /\ sub_eq (pe_user_sub e) s = true.
Proof.
  unfold find_locked. destruct (list_find _ (active l)) as [[i e]|] eqn:E; [|lia].
  intros _. rewrite Nat2Z.id. apply list_find_Some in E as (? & ? & ?). eauto.
Qed.

Lemma find_locked_None l s :
  (find_locked l s < 0)%Z -> forall i e, active l !! i = Some e -> sub_eq (pe_user_sub e) s = false.
Proof.
  unfold find_locked. destruct (list_find _ (active l)) as [[i e]|] eqn:E; [lia|].
  intros _ i e Hi. apply list_find_None in E.
  apply not_true_is_false. by apply (Forall_lookup_1 _ _ _ _ E Hi).
Qed.

Lemma find_locked_range l s :
  list_ok l -> (find_locked l s = -1 \/ 0 <= find_locked l s < Z.of_nat (pb_count l))%Z.
Proof.
  intros Hl. destruct (decide (0 <= find_locked l s)%Z) as [H|H].
  - right. destruct (find_locked_Some l s H) as (e & He & _).
    apply lookup_lt_Some in He. rewrite active_length in He by done. lia.
  - left. unfold find_locked in *. destruct (list_find _ _) as [[? ?]|]; lia.
Qed.

(** ** Removing a row *)

Lemma active_remove_row l j :
  list_ok l -> j < pb_count l -> active (remove_row j l) = delete j (active l).
Proof.
  intros Hl Hj. unfold active, remove_row. cbn.
  rewrite take_insert_ge by lia. apply take_shift_down; [done|].
  rewrite (ok_rows l Hl). apply (ok_count l Hl).
Qed.

Lemma remove_row_ok l j : list_ok l -> j < pb_count l -> list_ok (remove_row j l).
Proof.
  intros Hl Hj. pose proof (active_remove_row l j Hl Hj) as Ha.
  pose proof (ok_rows l Hl) as Hr. pose proof (ok_count l Hl) as Hc.
  constructor; [apply Hl| | | |apply Hl| | |].
  - cbn. by rewrite length_insert, length_shift_down.
  - cbn. lia.
  - cbn. intros i Hi. destruct (decide (i = pb_count l - 1)) as [->|Hne].
    + apply list_lookup_insert_eq. rewrite length_shift_down. lia.
    + rewrite list_lookup_insert_ne by lia. rewrite lookup_shift_down by lia.
      rewrite decide_False by lia. apply (ok_tail l Hl). lia.
  - rewrite Ha. apply Forall_delete, (ok_entries l Hl).
  - rewrite Ha. intros a b ea eb Hea Heb E.
    rewrite list_lookup_delete in Hea, Heb.
    assert (forall x y, (if decide (x < j) then x else S x) = (if decide (y < j) then y else S y) -> x = y)
      as Hinj by (intros x y; repeat case_decide; lia).
    apply Hinj. eapply (ok_distinct l Hl); [ | |exact E]; repeat case_decide; done.
  - rewrite Ha. apply Forall_delete. apply (ok_roles l Hl).
Qed.

(** ** Enrolling *)

(** Line the state handed to [nvs_store] up with the one of hypothesis [H]. *)
Ltac use_store H :=
  match type of H with nvs_store ?y = _ =>
    match goal with |- context [nvs_store ?x] => change x with y end
  end.

Definition unowned (l : paired_blob_t) : bool := bool_decide (byte_at 0 (pb_owner_sub l) = 0)%Z.

(** The first account to pair claims ownership. *)
Definition claim (user_sub : bytes) (l : paired_blob_t) : paired_blob_t :=
  if unowned l then set_pb_owner_sub (copy_field 41 user_sub) l else l.

Definition fresh_entry (user_sub key : bytes) : paired_entry_t :=
  set_pe_key key (set_pe_user_sub (copy_field 41 user_sub) null_entry).

Definition enrolled (l : paired_blob_t) (user_sub user_email : bytes) (paired_at : Z)
    (e : paired_entry_t) : paired_entry_t :=
  set_pe_role (role_for_locked (claim user_sub l) user_sub)
    (set_pe_paired_at paired_at
       (if bool_decide (user_email = []) then e
        else set_pe_user_email (copy_field 65 user_email) e)).

(** The list after a successful enrolment of a new, or of a known, account. *)
Definition add_new (user_sub user_email key : bytes) (paired_at : Z) (l : paired_blob_t) :=
  Build_blob (pb_version l) (S (pb_count l)) (pb_owner_sub (claim user_sub l))
    (<[pb_count l := enrolled l user_sub user_email paired_at (fresh_entry user_sub key)]>
       (pb_entries l)).

Definition add_known (user_sub user_email : bytes) (paired_at : Z) (i : nat) (l : paired_blob_t) :=
  Build_blob (pb_version l) (pb_count l) (pb_owner_sub (claim user_sub l))
    (alter (enrolled l user_sub user_email paired_at) i (pb_entries l)).

(** What a failed store leaves: the claim of ownership is taken back by
    writing the first byte of [owner_sub]. *)
Definition unclaim (user_sub : bytes) (l : paired_blob_t) : paired_blob_t :=
  if unowned l then clear_owner (claim user_sub l) else l.

Lemma add_new_run d user_sub user_email key at_ :
  user_sub <> [] -> list_ok (plist d) ->
  (find_locked (plist d) user_sub < 0)%Z -> pb_count (plist d) < PAIRED_LIST_MAX ->
  let l' := add_new user_sub user_email key at_ (plist d) in
  exists err w,
    nvs_store (set_plist l' d) = (err, set_world w (set_plist l' d)) /\
    paired_list_add user_sub user_email key at_ d =
      if is_ok err
      then (Z.of_nat (pb_count (plist d)), (key, role_for_locked l' user_sub),
            exec mdns_discovery_refresh (set_world w (set_plist l' d)))
      else ((-1)%Z, (key, 0%Z), set_world w (set_plist (unclaim user_sub (plist d)) d)).
Proof.
  intros Hs Hl Hf Hc l'. destruct (nvs_store_run (set_plist l' d)) as (err & w & Hst).
  exists err, w. split; [done|].
  pose proof (ok_tail _ Hl (pb_count (plist d)) ltac:(lia)) as Ht.
  unfold paired_list_add, upd_entry, upd_list. st_unfold. cbv zeta.
  rewrite bool_decide_eq_false_2 by done.
  rewrite (bool_decide_eq_true_2 (find_locked _ _ < 0)%Z) by done.
  rewrite (bool_decide_eq_false_2 (PAIRED_LIST_MAX <= _)) by lia. cbn [andb negb].
  clear Hl Hf. subst l'. unfold add_new, unclaim, enrolled, claim, unowned in *.
  destruct d as [? [ver cnt own ents] ? ? ? ? ? ? ? ? ? ? ? ? ? ? ? ? ? ? w0 ?].
  destruct (bool_decide (byte_at 0 (pb_owner_sub _) = 0%Z)) eqn:Eo; cbn in *;
    (destruct (bool_decide (user_email = [])); cbn in *;
     rewrite ?alter_alter; rewrite (alter_as_insert _ _ _ _ Ht) at 1;
     use_store Hst; rewrite Hst; cbn;
     (destruct (is_ok err); cbn;
     [ rewrite list_lookup_total_alt, list_lookup_insert_eq by (by apply lookup_lt_Some in Ht);
       unfold set_world; cbn; by destruct (mdns_discovery_refresh _) as [[] ?]
     | rewrite (alter_restore _ _ _ _ Ht), Nat.sub_0_r; done ])).
Qed.

Lemma add_known_run d user_sub user_email key at_ e i :
  user_sub <> [] -> find_locked (plist d) user_sub = Z.of_nat i ->
  pb_entries (plist d) !! i = Some e ->
  let l' := add_known user_sub user_email at_ i (plist d) in
  exists err w,
    nvs_store (set_plist l' d) = (err, set_world w (set_plist l' d)) /\
    paired_list_add user_sub user_email key at_ d =
      if is_ok err
      then (Z.of_nat i, (pe_key e, role_for_locked l' user_sub),
            exec mdns_discovery_refresh (set_world w (set_plist l' d)))
      else ((-1)%Z, (pe_key e, 0%Z), set_world w (set_plist (unclaim user_sub (plist d)) d)).
Proof.
  intros Hs Hf He l'. destruct (nvs_store_run (set_plist l' d)) as (err & w & Hst).
  exists err, w. split; [done|].
  unfold paired_list_add, upd_entry, upd_list. st_unfold. cbv zeta.
  rewrite bool_decide_eq_false_2 by done. rewrite Hf, Nat2Z.id.
  rewrite (bool_decide_eq_false_2 (Z.of_nat i < 0)%Z) by lia. cbn [andb negb].
  rewrite (list_lookup_total_correct _ _ _ He).
  clear Hf. subst l'. unfold add_known, unclaim, enrolled, claim, unowned in *.
  destruct d as [? [ver cnt own ents] ? ? ? ? ? ? ? ? ? ? ? ? ? ? ? ? ? ? w0 ?].
  destruct (bool_decide (byte_at 0 (pb_owner_sub _) = 0%Z)) eqn:Eo; cbn in *;
    (destruct (bool_decide (user_email = [])); cbn in *;
     rewrite ?alter_alter; use_store Hst; rewrite Hst; cbn;
     (destruct (is_ok err); cbn;
     [ rewrite list_lookup_total_alt, list_lookup_alter_eq, He; cbn;
       unfold set_world; cbn; by destruct (mdns_discovery_refresh _) as [[] ?]
     | rewrite (alter_as_insert _ _ _ _ He), (alter_restore _ _ _ _ He); done ])).
Qed.

(** A list with no room refuses a new account and is left as it was, up to
    the bytes of an unclaimed [owner_sub]. *)
Lemma add_full_run d user_sub user_email key at_ :
  user_sub <> [] -> (find_locked (plist d) user_sub < 0)%Z ->
  PAIRED_LIST_MAX <= pb_count (plist d) ->
  paired_list_add user_sub user_email key at_ d =
    ((-1)%Z, (key, 0%Z), set_plist (unclaim user_sub (plist d)) d).
Proof.
  intros Hs Hf Hc. unfold paired_list_add, upd_list. st_unfold. cbv zeta.
  rewrite bool_decide_eq_false_2 by done.
  rewrite (bool_decide_eq_true_2 (find_locked _ _ < 0)%Z) by done.
  rewrite (bool_decide_eq_true_2 (PAIRED_LIST_MAX <= _)) by done. cbn [andb negb].
  unfold unclaim, claim, unowned. clear.
  destruct d as [? [ver cnt own ents] ? ? ? ? ? ? ? ? ? ? ? ? ? ? ? ? ? ? w0 ?]. cbn.
  destruct (bool_decide (byte_at 0 own = 0%Z)); done.
Qed.

(** ** Enrolling keeps the list well-formed *)

Lemma claim_owned user_sub l :
  cstr user_sub <> [] -> unowned (claim user_sub l) = false.
Proof.
  intros Hs. unfold claim. destruct (unowned l) eqn:E; [|done].
  unfold unowned. cbn. apply bool_decide_eq_false_2. by apply byte_at_copy_field.
Qed.

(** Claiming an unowned list makes the claiming account the only owner. *)
Lemma role_claim l user_sub s :
  role_for_locked (claim user_sub l) s <> role_for_locked l s ->
  unowned l = true /\ sub_eq s user_sub = true.
Proof.
  unfold claim. destruct (unowned l) eqn:E; [|done]. intros H. split; [done|].
  unfold role_for_locked, unowned in *. rewrite E in H. cbn in H.
  rewrite sub_eq_copy_field_r in H.
  destruct (sub_eq s user_sub); [done|]. by rewrite andb_false_r in H.
Qed.

Lemma enrolled_wf l user_sub user_email at_ e :
  entry_wf e -> entry_wf (enrolled l user_sub user_email at_ e).
Proof.
  intros (H1 & H2 & H3 & H4). unfold enrolled, entry_wf. case_bool_decide; cbn; [done|].
  by rewrite length_copy_field by lia.
Qed.

Lemma fresh_entry_wf user_sub key :
  cstr user_sub <> [] -> length key = 32 -> entry_wf (fresh_entry user_sub key).
Proof.
  intros Hs Hk. unfold entry_wf. cbn. rewrite length_copy_field, cstr_copy_field by lia.
  split_and!; try done. by destruct (cstr user_sub).
Qed.

Lemma sub_of_enrolled l user_sub user_email at_ e :
  pe_user_sub (enrolled l user_sub user_email at_ e) = pe_user_sub e.
Proof. unfold enrolled. by case_bool_decide. Qed.

Lemma role_of_enrolled l user_sub user_email at_ e :
  pe_role (enrolled l user_sub user_email at_ e) = role_for_locked (claim user_sub l) user_sub.
Proof. done. Qed.

Lemma key_of_enrolled l user_sub user_email at_ e :
  pe_key (enrolled l user_sub user_email at_ e) = pe_key e.
Proof. unfold enrolled. by case_bool_decide. Qed.

Lemma length_claim_owner user_sub l :
  length (pb_owner_sub l) = 41 -> length (pb_owner_sub (claim user_sub l)) = 41.
Proof. unfold claim. destruct (unowned l); [|done]. intros _. by apply length_copy_field; lia. Qed.

Lemma active_add_new user_sub user_email key at_ l :
  list_ok l -> pb_count l < PAIRED_LIST_MAX ->
  active (add_new user_sub user_email key at_ l)
  = active l ++ [enrolled l user_sub user_email at_ (fresh_entry user_sub key)].
Proof.
  intros Hl Hc. unfold active, add_new. cbn [pb_count pb_entries].
  rewrite (take_S_r _ _ (enrolled l user_sub user_email at_ (fresh_entry user_sub key))).
  - by rewrite take_insert_ge by lia.
  - apply list_lookup_insert_eq. rewrite (ok_rows l Hl). lia.
Qed.

Lemma add_new_ok user_sub user_email key at_ l :
  list_ok l -> cstr user_sub <> [] -> length key = 32 ->
  (find_locked l user_sub < 0)%Z -> pb_count l < PAIRED_LIST_MAX ->
  list_ok (add_new user_sub user_email key at_ l).
Proof.
  intros Hl Hs Hk Hf Hc. pose proof (active_add_new user_sub user_email key at_ l Hl Hc) as Ha.
  pose proof (find_locked_None l user_sub Hf) as Hno.
  set (e := enrolled l user_sub user_email at_ (fresh_entry user_sub key)) in *.
  assert (sub_eq (pe_user_sub e) user_sub = true) as Hse.
  { unfold e. rewrite sub_of_enrolled. cbn. rewrite sub_eq_copy_field. apply strncmp_eq_refl. }
  constructor; cbn [add_new pb_version pb_count pb_entries pb_owner_sub]; try rewrite Ha.
  - apply Hl.
  - rewrite length_insert. apply Hl.
  - lia.
  - intros i Hi. rewrite list_lookup_insert_ne by lia. apply (ok_tail l Hl). lia.
  - apply length_claim_owner, Hl.
  - apply Forall_app. split; [apply Hl|]. constructor; [|done].
    by apply enrolled_wf, fresh_entry_wf.
  - intros i j ei ej Hi Hj E.
    assert (forall k ek, (active l ++ [e]) !! k = Some ek ->
              active l !! k = Some ek \/ (k = length (active l) /\ ek = e)) as Hc'.
    { intros k ek Hek. apply lookup_app_Some in Hek as [?|[? Hek]]; [by left|].
      apply list_lookup_singleton_Some in Hek as [? ?]. right. split; [lia|done]. }
    destruct (Hc' _ _ Hi) as [Hi'|[-> ->]], (Hc' _ _ Hj) as [Hj'|[-> ->]]; [|exfalso..|done].
    + by eapply (ok_distinct l Hl).
    + pose proof (Hno _ _ Hi') as Hn. unfold sub_eq in *.
      by rewrite (strncmp_eq_trans _ _ _ _ E Hse) in Hn.
    + pose proof (Hno _ _ Hj') as Hn. unfold sub_eq in *. rewrite strncmp_eq_sym in E.
      by rewrite (strncmp_eq_trans _ _ _ _ E Hse) in Hn.
  - apply Forall_app. split.
    + apply Forall_lookup. intros i ei Hi.
      rewrite (Forall_lookup_1 _ _ _ _ (ok_roles l Hl) Hi).
      rewrite (role_for_locked_ext (add_new _ _ _ _ _) (claim user_sub l)) by done.
      destruct (decide (role_for_locked (claim user_sub l) (pe_user_sub ei)
                        = role_for_locked l (pe_user_sub ei))) as [->|Hne]; [done|].
      destruct (role_claim _ _ _ Hne) as [_ Hsub]. by rewrite (Hno _ _ Hi) in Hsub.
    + constructor; [|done]. rewrite (role_for_locked_ext _ (claim user_sub l)) by done.
      unfold e. rewrite role_of_enrolled. apply role_for_locked_sub.
      unfold sub_eq in *. by rewrite strncmp_eq_sym.
Qed.

Lemma active_add_known user_sub user_email at_ i l :
  i < pb_count l ->
  active (add_known user_sub user_email at_ i l)
  = alter (enrolled l user_sub user_email at_) i (active l).
Proof.
  intros Hi. unfold active, add_known. cbn [pb_count pb_entries].
  apply list_eq. intros j. destruct (decide (j < pb_count l)).
  - rewrite lookup_take_lt by done. destruct (decide (i = j)) as [->|].
    + by rewrite !list_lookup_alter_eq, lookup_take_lt by lia.
    + by rewrite !list_lookup_alter_ne, lookup_take_lt by (done || lia).
  - rewrite lookup_take_ge by lia. rewrite list_lookup_alter_ne by lia.
    by rewrite lookup_take_ge by lia.
Qed.

Lemma add_known_ok user_sub user_email at_ i l :
  list_ok l -> cstr user_sub <> [] -> find_locked l user_sub = Z.of_nat i ->
  list_ok (add_known user_sub user_email at_ i l).
Proof.
  intros Hl Hs Hf.
  destruct (find_locked_Some l user_sub) as (e & He & Hsub); [lia|].
  rewrite Hf, Nat2Z.id in He. pose proof (lookup_lt_Some _ _ _ He) as Hi.
  rewrite active_length in Hi by done.
  pose proof (active_add_known user_sub user_email at_ i l Hi) as Ha.
  constructor; cbn [add_known pb_version pb_count pb_entries pb_owner_sub]; try rewrite Ha.
  - apply Hl.
  - rewrite length_alter. apply Hl.
  - apply Hl.
  - intros j Hj. rewrite list_lookup_alter_ne by lia. by apply (ok_tail l Hl).
  - apply length_claim_owner, Hl.
  - apply Forall_alter; [apply Hl|]. intros. by apply enrolled_wf.
  - assert (forall j ej, alter (enrolled l user_sub user_email at_) i (active l) !! j = Some ej ->
              exists e0, active l !! j = Some e0 /\ pe_user_sub ej = pe_user_sub e0) as Hc.
    { intros j ej Hj. destruct (decide (i = j)) as [<-|].
      - rewrite list_lookup_alter_eq in Hj. apply fmap_Some in Hj as (e0 & ? & ->).
        exists e0. split; [done|]. apply sub_of_enrolled.
      - rewrite list_lookup_alter_ne in Hj by done. eauto. }
    intros a b ea eb Hea Heb E.
    destruct (Hc _ _ Hea) as (? & ? & Ea), (Hc _ _ Heb) as (? & ? & Eb). rewrite Ea, Eb in E.
    by eapply (ok_distinct l Hl).
  - apply Forall_lookup. intros j ej Hj.
    rewrite (role_for_locked_ext _ (claim user_sub l)) by done.
    destruct (decide (i = j)) as [<-|Hij].
    + rewrite list_lookup_alter_eq, He in Hj. injection Hj as <-.
      rewrite role_of_enrolled, sub_of_enrolled. symmetry. by apply role_for_locked_sub.
    + rewrite list_lookup_alter_ne in Hj by done.
      rewrite (Forall_lookup_1 _ _ _ _ (ok_roles l Hl) Hj).
      destruct (decide (role_for_locked (claim user_sub l) (pe_user_sub ej)
                        = role_for_locked l (pe_user_sub ej))) as [->|Hne]; [done|].
      destruct (role_claim _ _ _ Hne) as [_ Hsub']. exfalso. apply Hij.
      eapply (ok_distinct l Hl); [done|done|].
      unfold sub_eq in *. rewrite strncmp_eq_sym in Hsub'. by eapply strncmp_eq_trans.
Qed.

(** Taking a claim back leaves the list unowned again. *)
Lemma unclaim_ok user_sub l : list_ok l -> list_ok (unclaim user_sub l).
Proof.
  intros Hl. unfold unclaim, claim. destruct (unowned l) eqn:E; [|done].
  assert (forall s, role_for_locked (clear_owner (set_pb_owner_sub (copy_field 41 user_sub) l)) s
                    = role_for_locked l s) as Hr.
  { intros s. unfold role_for_locked, unowned in *. rewrite E. cbn.
    by destruct (copy_field 41 user_sub). }
  constructor; try apply Hl.
  - cbn. rewrite length_insert. by apply length_copy_field; lia.
  - eapply Forall_impl; [|apply (ok_roles l Hl)]. intros e He. by rewrite Hr.
Qed.

(** ** Removing, rotating, clearing *)

Lemma remove_run d index :
  (0 <= index < Z.of_nat (pb_count (plist d)))%Z ->
  let l' := remove_row (Z.to_nat index) (plist d) in
  exists err w, (NvsReliable P -> err = ESP_OK) /\
    paired_list_remove index d
    = (err, exec mdns_discovery_refresh (set_world w (set_plist l' d))).
Proof.
  intros Hi l'. destruct (nvs_store_run (set_plist l' d)) as (err & w & Hst). exists err, w. split.
  { intros HR. destruct (nvs_store_ok (set_plist l' d)) as (w' & E). congruence. }
  unfold paired_list_remove, upd_list. st_unfold. cbv zeta.
  rewrite !bool_decide_eq_false_2 by lia. cbn [orb]. fold l'. rewrite Hst.
  by destruct (mdns_discovery_refresh _) as [[] ?].
Qed.

Lemma remove_none_run d index :
  ~ (0 <= index < Z.of_nat (pb_count (plist d)))%Z -> paired_list_remove index d = (ESP_ERR_NOT_FOUND, d).
Proof.
  intros Hi. unfold paired_list_remove. st_unfold.
  destruct (decide (index < 0)%Z); [by rewrite bool_decide_eq_true_2|].
  rewrite (bool_decide_eq_true_2 (_ <= index)%Z) by lia. by rewrite orb_true_r.
Qed.

Lemma clear_run d :
  exists err w, (NvsReliable P -> err = ESP_OK) /\
    paired_list_clear d = (err, exec mdns_discovery_refresh (set_world w (set_plist empty_list d))).
Proof.
  destruct (nvs_store_run (set_plist empty_list d)) as (err & w & Hst). exists err, w. split.
  { intros HR. destruct (nvs_store_ok (set_plist empty_list d)) as (w' & E). congruence. }
  unfold paired_list_clear. st_unfold. rewrite Hst.
  by destruct (mdns_discovery_refresh _) as [[] ?].
Qed.

(** A new key for the owner's entry; the rest of the list stays. *)
Definition rekey (i : nat) (k : bytes) (l : paired_blob_t) : paired_blob_t :=
  set_pb_entries (alter (set_pe_key k) i (pb_entries l)) l.

Lemma rotate_run d :
  match list_find (fun e => pe_role e = PAIRED_ROLE_OWNER) (active (plist d)) with
  | None => paired_list_rotate_owner_key d = (ESP_OK, d)
  | Some (i, e) =>
      exists err w k,
        k = fst (esp_fill_random PAIRED_KEY_LEN (world d)) /\ (NvsReliable P -> err = ESP_OK) /\
        paired_list_rotate_owner_key d
        = (err, set_world w (set_plist (if is_ok err then rekey i k (plist d) else plist d) d))
  end.
Proof.
  unfold paired_list_rotate_owner_key, upd_entry, io. st_unfold.
  destruct (list_find _ (active (plist d))) as [[i e]|] eqn:E; [|done].
  destruct (esp_fill_random PAIRED_KEY_LEN (world d)) as [k w1] eqn:Er. cbn [fst].
  set (d1 := set_plist (rekey i k (plist d)) (set_world w1 d)).
  destruct (nvs_store_run d1) as (err & w & Hst). exists err, w, k. split; [done|]. split.
  { intros HR. destruct (nvs_store_ok d1) as (w' & E'). congruence. }
  change (set_plist _ (set_world w1 d)) with d1. rewrite Hst.
  destruct (is_ok err); cbn [negb]; [by destruct d|]. f_equal. subst d1.
  apply list_find_Some in E as (Hi & _ & _). unfold active in Hi.
  apply lookup_take_Some in Hi as [Hi _]. destruct d as [? [ver cnt own ents] ? ? ? ? ? ? ? ? ? ? ? ? ? ? ? ? ? ? w0 ?].
  cbn in *. unfold set_plist, set_world, set_pb_entries, rekey, set_pb_entries. cbn.
  rewrite alter_alter. do 2 f_equal.
  rewrite (alter_ext_at _ (fun x => x)); [by apply list_alter_id|].
  intros x Hx. rewrite Hi in Hx. injection Hx as <-. by destruct e.
Qed.

Lemma active_rekey i k l : active (rekey i k l) = alter (set_pe_key k) i (active l).
Proof.
  unfold active, rekey. cbn. apply list_eq. intros j. destruct (decide (j < pb_count l)).
  - rewrite lookup_take_lt by done. destruct (decide (i = j)) as [->|].
    + by rewrite !list_lookup_alter_eq, lookup_take_lt.
    + by rewrite !list_lookup_alter_ne, lookup_take_lt.
  - rewrite lookup_take_ge by lia. symmetry. apply lookup_ge_None.
    rewrite length_alter, length_take. lia.
Qed.

Lemma rekey_ok i k l : list_ok l -> i < pb_count l -> length k = 32 -> list_ok (rekey i k l).
Proof.
  intros Hl Hi Hk. pose proof (active_rekey i k l) as Ha.
  constructor; try apply Hl.
  - cbn. rewrite length_alter. apply Hl.
  - cbn. intros j Hj. rewrite list_lookup_alter_ne by lia. by apply Hl.
  - rewrite Ha. apply Forall_alter; [apply Hl|]. intros x _ (? & ? & ? & ?). done.
  - rewrite Ha. intros a b ea eb H1 H2 Hs.
    assert (forall j e, alter (set_pe_key k) i (active l) !! j = Some e ->
              exists e0, active l !! j = Some e0 /\ pe_user_sub e = pe_user_sub e0) as Hb.
    { intros j e Hj. destruct (decide (i = j)) as [->|].
      - rewrite list_lookup_alter_eq in Hj. apply fmap_Some in Hj as (e0 & ? & ->). by exists e0.
      - rewrite list_lookup_alter_ne in Hj by done. by exists e. }
    destruct (Hb _ _ H1) as (e1 & ? & E1), (Hb _ _ H2) as (e2 & ? & E2).
    eapply (ok_distinct _ Hl); eauto. congruence.
  - rewrite Ha. apply Forall_alter; [|by intros]. by apply (ok_roles _ Hl).
Qed.

End PairedList.
