(* ===== verification/DevicePassword.v ===== *)
(** * DevicePassword: salt/verifier storage and guess rate limiting
    ([security/device_password.c])

    Times are the [esp_timer] microseconds as unbounded [Z]; the counters are
    the saturating [uint8_t] of the source. *)

From S2P Require Import Prelude Platform State Mdns.
From stdpp Require Import base list strings numbers.
From Stdlib Require Import ZArith Lia.

Local Open Scope cything_scope.

Section DevicePassword.
Context {P : Platform} {C : Config}.

Definition NVS_NS : string := "cy_sec".
Definition NVS_KEY_SALT : string := "pw_salt".
Definition NVS_KEY_VER : string := "pw_ver".
Definition NVS_KEY_FAILS : string := "pw_fails".
Definition NVS_KEY_LOCK : string := "pw_lock".

(** ** Lock arithmetic *)

(** [for(i = threshold; i < fails && s < MAX; i++) s *= 2;]: one turn of fuel
    per increment of [i]. *)
Fixpoint lock_loop (fuel : nat) (i fails s : Z) : Z :=
  match fuel with
  | O => s
  | S f =>
      if bool_decide (i < fails)%Z && bool_decide (s < DEVICE_PW_LOCK_MAX_S)%Z
      then lock_loop f (u8 (i + 1)) fails (u32 (s * 2))
      else s
  end.

Definition lock_seconds (fails threshold : Z) : Z :=
  if bool_decide (fails < threshold)%Z then 0%Z
  else
    let s := lock_loop (Z.to_nat (fails - threshold)) threshold fails DEVICE_PW_LOCK_BASE_S in
    if bool_decide (DEVICE_PW_LOCK_MAX_S < s)%Z then DEVICE_PW_LOCK_MAX_S else s.

Definition remaining_s (until_us now_us : Z) : Z :=
  let d := (until_us - now_us)%Z in
  if bool_decide (d <= 0)%Z then 0%Z else u32 ((d + 999999) / 1000000)%Z.

(** ** NVS *)

Definition upd_pw (f : pw_state -> pw_state) : M unit :=
  modify (fun d => set_pw (f (pw d)) d).

Definition nvs_load : M esp_err_t :=
  let* err := io (nvs_open NVS_NS NVS_READONLY) in
  if negb (is_ok err) then ret err else
  let* (e1, salt) := ask (nvs_get_blob NVS_NS NVS_KEY_SALT DEVICE_PW_SALT_LEN) in
  when (is_ok e1)
    (let* (e2, ver) := ask (nvs_get_blob NVS_NS NVS_KEY_VER DEVICE_PW_VERIFIER_MAX) in
     if is_ok e2 then upd_pw (fun p => set_pw_verifier ver (set_pw_salt salt p))
     else upd_pw (set_pw_salt [])) ;;
  let* (e3, fails) := ask (nvs_get_u8 NVS_NS NVS_KEY_FAILS) in
  let* (e4, lock_s) := ask (nvs_get_u32 NVS_NS NVS_KEY_LOCK) in
  let fails := if is_ok e3 then fails else 0%Z in
  let lock_s := if is_ok e4 then lock_s else 0%Z in
  upd_pw (set_pw_global_fails fails) ;;
  let* now := ask esp_timer_get_time in
  when (bool_decide (0 < lock_s)%Z)
    (upd_pw (set_pw_global_until_us (now + lock_s * 1000000)%Z)) ;;
  io_ (nvs_close NVS_NS) ;;
  ret ESP_OK.

(** [pair = None] is [salt == NULL]. *)
Definition nvs_store_pair (pair : option (bytes * bytes)) : M esp_err_t :=
  let* err := io (nvs_open NVS_NS NVS_READWRITE) in
  if negb (is_ok err) then ret err else
  let* err :=
    match pair with
    | None =>
        let* _ := io (nvs_erase_key NVS_NS NVS_KEY_SALT) in
        let* _ := io (nvs_erase_key NVS_NS NVS_KEY_VER) in
        ret ESP_OK
    | Some (salt, ver) =>
        let* e := io (nvs_set_blob NVS_NS NVS_KEY_SALT salt) in
        if is_ok e then io (nvs_set_blob NVS_NS NVS_KEY_VER ver) else ret e
    end in
  let* err := (if is_ok err then io (nvs_set_u8 NVS_NS NVS_KEY_FAILS 0) else ret err) in
  let* err := (if is_ok err then io (nvs_set_u32 NVS_NS NVS_KEY_LOCK 0) else ret err) in
  let* err := (if is_ok err then io (nvs_commit NVS_NS) else ret err) in
  io_ (nvs_close NVS_NS) ;;
  ret err.

Definition nvs_store_lockout : M unit :=
  let* err := io (nvs_open NVS_NS NVS_READWRITE) in
  if negb (is_ok err) then ret tt else
  let* p := gets pw in
  let* now := ask esp_timer_get_time in
  let* _ := io (nvs_set_u8 NVS_NS NVS_KEY_FAILS (pw_global_fails p)) in
  let* _ := io (nvs_set_u32 NVS_NS NVS_KEY_LOCK (remaining_s (pw_global_until_us p) now)) in
  let* _ := io (nvs_commit NVS_NS) in
  io_ (nvs_close NVS_NS).

(** ** Public operations *)

Definition zero_ip_slots : list ip_slot_t := replicate IP_SLOTS null_ip_slot.

Definition device_password_init : M unit :=
  upd_pw (set_pw_ip zero_ip_slots) ;;
  let* _ := nvs_load in ret tt.

(** New pair in RAM, counters cleared. *)
Definition install_pair (salt ver : bytes) (p : pw_state) : pw_state :=
  Build_pw salt ver (pw_init_salt p) (pw_init_verifier p) zero_ip_slots 0 0.

Definition device_password_set (password : bytes) : M esp_err_t :=
  if bool_decide (length password < DEVICE_PW_MIN_LEN)
     || bool_decide (DEVICE_PW_MAX_LEN < length password)
  then ret ESP_ERR_INVALID_SIZE
  else
    let* (err, (salt, ver)) :=
      io (esp_srp_gen_salt_verifier DEVICE_PW_SRP_IDENTITY password DEVICE_PW_SALT_LEN) in
    if negb (is_ok err) then ret err else
    if bool_decide (length ver = 0) || bool_decide (DEVICE_PW_VERIFIER_MAX < length ver)
    then ret ESP_ERR_INVALID_SIZE
    else
      let salt := take DEVICE_PW_SALT_LEN salt in
      let* err := nvs_store_pair (Some (salt, ver)) in
      when (is_ok err) (upd_pw (install_pair salt ver)) ;;
      when (is_ok err) mdns_discovery_refresh ;;
      ret err.

Definition device_password_clear : M esp_err_t :=
  let* err := nvs_store_pair None in
  upd_pw (install_pair [] []) ;;
  mdns_discovery_refresh ;;
  ret err.

Definition derive_initial_locked : M bool :=
  let* p := gets pw in
  if bool_decide (0 < length (pw_init_verifier p)) then ret true else
  let* (err, (salt, ver)) :=
    io (esp_srp_gen_salt_verifier DEVICE_PW_SRP_IDENTITY cy_initial_password DEVICE_PW_SALT_LEN) in
  let ok := is_ok err && bool_decide (0 < length ver)
            && bool_decide (length ver <= DEVICE_PW_VERIFIER_MAX) in
  when ok (upd_pw (fun p => set_pw_init_verifier ver
                              (set_pw_init_salt (take DEVICE_PW_SALT_LEN salt) p))) ;;
  ret ok.

(** The (salt, verifier) PAKE should use. *)
Definition device_password_get : M (option (bytes * bytes)) :=
  let* set := gets device_password_is_set in
  if set then gets (fun d => Some (pw_salt (pw d), pw_verifier (pw d)))
  else
    let* ok := derive_initial_locked in
    if negb ok then ret None
    else gets (fun d => Some (pw_init_salt (pw d), pw_init_verifier (pw d))).

(** ** Rate limiting *)

(** The scan of [ip_slot]: [inl i] is the slot that already holds [ip],
    [inr v] the slot to evict. [rest] is the table from index [i] on. *)
Fixpoint ip_scan (ip : Z) (tbl rest : list ip_slot_t) (i victim : nat) : nat + nat :=
  match rest with
  | [] => inr victim
  | s :: rest' =>
      if bool_decide (ip_ip s = ip) then inl i
      else if bool_decide (ip_ip s = 0)%Z then inr i
      else if bool_decide (ip_until_us s < ip_until_us (tbl !!! victim))%Z
           then ip_scan ip tbl rest' (S i) i
           else ip_scan ip tbl rest' (S i) victim
  end.

(** The table after [ip_slot(ip)] and the index of the slot it returned. *)
Definition ip_slot (ip : Z) (tbl : list ip_slot_t) : nat * list ip_slot_t :=
  match ip_scan ip tbl tbl 0 0 with
  | inl i => (i, tbl)
  | inr v => (v, <[v := Build_ip_slot ip 0 0]> tbl)
  end.

Definition first_slot (ip : Z) (tbl : list ip_slot_t) : option (nat * ip_slot_t) :=
  list_find (fun s => ip_ip s = ip) tbl.

Definition device_password_lock_remaining_s (peer_ip : Z) : M Z :=
  let* set := gets device_password_is_set in
  if negb set then ret 0%Z else
  let* p := gets pw in
  let* now := ask esp_timer_get_time in
  let g := remaining_s (pw_global_until_us p) now in
  let q := match first_slot peer_ip (pw_ip p) with
           | Some (_, s) => remaining_s (ip_until_us s) now
           | None => 0%Z
           end in
  ret (if bool_decide (q < g)%Z then g else q).

Definition sat_inc (n : Z) : Z := if bool_decide (n < 255)%Z then (n + 1)%Z else n.

(** One failure recorded in a slot. *)
Definition slot_failure (now : Z) (s : ip_slot_t) : ip_slot_t :=
  let fails := sat_inc (ip_fails s) in
  let ls := lock_seconds fails DEVICE_PW_IP_MAX_FAILS in
  Build_ip_slot (ip_ip s) fails
    (if bool_decide (ls = 0)%Z then ip_until_us s else (now + ls * 1000000)%Z).

Definition device_password_note_failure (peer_ip : Z) : M unit :=
  let* set := gets device_password_is_set in
  if negb set then ret tt else
  let* now := ask esp_timer_get_time in
  upd_pw (fun p => let '(i, tbl) := ip_slot peer_ip (pw_ip p) in
                   set_pw_ip (alter (slot_failure now) i tbl) p) ;;
  upd_pw (fun p =>
    let fails := sat_inc (pw_global_fails p) in
    let gs := lock_seconds fails DEVICE_PW_GLOBAL_MAX_FAILS in
    let p := set_pw_global_fails fails p in
    if bool_decide (gs = 0)%Z then p
    else set_pw_global_until_us (now + gs * 1000000)%Z p) ;;
  nvs_store_lockout.

Definition device_password_note_success (peer_ip : Z) : M unit :=
  let* p := gets pw in
  upd_pw (fun p => match first_slot peer_ip (pw_ip p) with
                   | Some (i, _) => set_pw_ip (<[i := null_ip_slot]> (pw_ip p)) p
                   | None => p
                   end) ;;
  let dirty := negb (bool_decide (pw_global_fails p = 0)%Z)
               || negb (bool_decide (pw_global_until_us p = 0)%Z) in
  upd_pw (fun p => set_pw_global_until_us 0 (set_pw_global_fails 0 p)) ;;
  when dirty nvs_store_lockout.

#[global] Arguments lock_seconds : simpl never.
#[global] Arguments remaining_s : simpl never.

(** ** The lock length *)

Lemma lock_loop_spec fuel i fails s :
  (0 <= i <= fails)%Z -> (fails <= 255)%Z -> (fails - i <= Z.of_nat fuel)%Z -> (0 < s < 7200)%Z ->
  exists j, (i <= j <= fails)%Z /\ lock_loop fuel i fails s = (s * 2 ^ (j - i))%Z /\
            (j = fails \/ (DEVICE_PW_LOCK_MAX_S <= lock_loop fuel i fails s)%Z).
Proof.
  revert i s. induction fuel as [|f IH]; intros i s Hi Hf Hu Hs; cbn [lock_loop].
  - exists i. rewrite Z.sub_diag. split_and!; try lia.
  - destruct (bool_decide (i < fails)%Z) eqn:E1; bool_hyps; cbn [andb].
    2:{ exists i. rewrite Z.sub_diag. split_and!; try lia. }
    destruct (bool_decide (s < DEVICE_PW_LOCK_MAX_S)%Z) eqn:E2; bool_hyps.
    2:{ exists i. rewrite Z.sub_diag. split_and!; try lia. }
    unfold DEVICE_PW_LOCK_MAX_S in E2. rewrite !wrap_small by lia.
    destruct (IH (i + 1)%Z (s * 2)%Z) as (j & Hj & -> & Hor); try lia.
    exists j. split_and!; [lia..| |].
    + rewrite <- Z.mul_assoc, <- Z.pow_succ_r by lia. do 2 f_equal. lia.
    + done.
Qed.

Lemma lock_seconds_spec fails threshold :
  (0 <= threshold <= fails)%Z -> (fails <= 255)%Z ->
  lock_seconds fails threshold
  = Z.min DEVICE_PW_LOCK_MAX_S (DEVICE_PW_LOCK_BASE_S * 2 ^ (fails - threshold)).
Proof.
  intros Ht Hf. unfold lock_seconds. rewrite bool_decide_eq_false_2 by lia. cbv zeta.
  destruct (lock_loop_spec (Z.to_nat (fails - threshold)) threshold fails DEVICE_PW_LOCK_BASE_S)
    as (j & Hj & E & Hor); try (unfold DEVICE_PW_LOCK_BASE_S; lia).
  assert (DEVICE_PW_LOCK_BASE_S * 2 ^ (j - threshold)
          <= DEVICE_PW_LOCK_BASE_S * 2 ^ (fails - threshold))%Z as Hm.
  { apply Z.mul_le_mono_nonneg_l; [unfold DEVICE_PW_LOCK_BASE_S; lia|].
    apply Z.pow_le_mono_r; lia. }
  rewrite E in *. case_bool_decide.
  - symmetry. apply Z.min_l. lia.
  - destruct Hor as [->|Hge]; [symmetry; apply Z.min_r; lia|].
    rewrite Z.min_l by lia. lia.
Qed.

Lemma lock_seconds_zero fails threshold :
  (0 <= threshold)%Z -> (fails <= 255)%Z ->
  lock_seconds fails threshold = 0%Z <-> (fails < threshold)%Z.
Proof.
  intros Ht Hf. split.
  - intros H. destruct (decide (fails < threshold)%Z) as [|Hn]; [done|].
    rewrite lock_seconds_spec in H by lia.
    pose proof (Z.pow_pos_nonneg 2 (fails - threshold) ltac:(lia) ltac:(lia)).
    unfold DEVICE_PW_LOCK_MAX_S, DEVICE_PW_LOCK_BASE_S in *. lia.
  - intros H. unfold lock_seconds. by rewrite bool_decide_eq_true_2.
Qed.

Lemma remaining_s_pos until now :
  (now < until)%Z -> (until - now <= 3600 * 1000000)%Z ->
  (0 < remaining_s until now)%Z /\ (until <= now + remaining_s until now * 1000000)%Z.
Proof.
  intros H1 H2. unfold remaining_s. rewrite bool_decide_eq_false_2 by lia. cbv zeta.
  pose proof (Z.div_mod (until - now + 999999) 1000000 ltac:(lia)) as Hd.
  pose proof (Z.mod_pos_bound (until - now + 999999) 1000000 ltac:(lia)) as Hm.
  rewrite wrap_small; lia.
Qed.

(** ** The per-address table *)

Definition no_stop (ip : Z) (tbl : list ip_slot_t) (k : nat) : Prop :=
  forall j s, j < k -> tbl !! j = Some s -> ip_ip s <> ip /\ ip_ip s <> 0%Z.

Lemma ip_scan_spec ip tbl rest i victim :
  drop i tbl = rest -> i <= length tbl -> victim < length tbl -> victim <= i -> no_stop ip tbl i ->
  match ip_scan ip tbl rest i victim with
  | inl k => exists s, tbl !! k = Some s /\ ip_ip s = ip /\ no_stop ip tbl k
  | inr v => v < length tbl /\ no_stop ip tbl v
  end.
Proof.
  revert i victim. induction rest as [|s rest IH]; intros i victim Hd Hi Hv Hvi Hn; cbn.
  - split; [done|]. intros j t Hj. apply Hn. lia.
  - assert (tbl !! i = Some s) as Hs.
    { rewrite <- (Nat.add_0_r i), <- lookup_drop, Hd. done. }
    pose proof (lookup_lt_Some _ _ _ Hs) as Hlt.
    case_bool_decide as E1; [by exists s|].
    case_bool_decide as E2; [done|].
    assert (drop (S i) tbl = rest) as Hd'.
    { replace (S i) with (i + 1) by lia. rewrite <- drop_drop, Hd. done. }
    assert (no_stop ip tbl (S i)) as Hn'.
    { intros j t Hj Ht. destruct (decide (j = i)) as [->|]; [|apply (Hn j); lia || done].
      rewrite Hs in Ht. by injection Ht as <-. }
    case_bool_decide; apply IH; try done; lia.
Qed.

Lemma ip_slot_spec ip tbl :
  0 < length tbl ->
  let '(i, tbl') := ip_slot ip tbl in
  length tbl' = length tbl /\ no_stop ip tbl' i /\
  exists s, tbl' !! i = Some s /\ ip_ip s = ip /\
    (tbl !! i = Some s \/ s = Build_ip_slot ip 0 0).
Proof.
  intros Hl. pose proof (ip_scan_spec ip tbl tbl 0 0 eq_refl ltac:(lia) Hl ltac:(lia)) as H.
  unfold ip_slot. destruct (ip_scan ip tbl tbl 0 0) as [k|v].
  - destruct H as (s & Hs & Hip & Hn); [intros ? ? ?; lia|]. split_and!; [done..|]. eauto.
  - destruct H as (Hv & Hn); [intros ? ? ?; lia|]. rewrite length_insert. split_and!; [done| |].
    + intros j s Hj Hs. rewrite list_lookup_insert_ne in Hs by lia. by apply (Hn j).
    + exists (Build_ip_slot ip 0 0). rewrite list_lookup_insert_eq by done. auto.
Qed.

Lemma first_slot_of ip tbl i s :
  tbl !! i = Some s -> ip_ip s = ip -> no_stop ip tbl i -> first_slot ip tbl = Some (i, s).
Proof.
  intros Hs Hip Hn. unfold first_slot. apply list_find_Some. split_and!; [done..|].
  intros j t Ht Hj. by apply (Hn j).
Qed.

(** The slot found again is the slot that was charged. *)
Lemma ip_slot_again ip tbl i s :
  tbl !! i = Some s -> ip_ip s = ip -> no_stop ip tbl i -> ip_slot ip tbl = (i, tbl).
Proof.
  intros Hs Hip Hn. unfold ip_slot.
  pose proof (ip_scan_spec ip tbl tbl 0 0 eq_refl ltac:(lia)) as H.
  pose proof (lookup_lt_Some _ _ _ Hs) as Hlt.
  specialize (H ltac:(lia) ltac:(lia) ltac:(intros ? ? ?; lia)).
  destruct (ip_scan ip tbl tbl 0 0) as [k|v] eqn:E.
  - destruct H as (t & Ht & Hipt & Hnk).
    destruct (Nat.lt_trichotomy k i) as [Hlk|[->|Hlk]]; [|done|].
    + by destruct (Hn k t Hlk Ht).
    + by destruct (Hnk i s Hlk Hs).
  - exfalso. clear H. assert (forall rest j w v', drop j tbl = rest -> j <= i ->
      ip_scan ip tbl rest j w <> inr v') as Hc; [|by apply (Hc tbl 0 0 v); [|lia|]].
    clear E v. induction rest as [|t rest IH]; intros j w v' Hd Hj.
    { apply (f_equal length) in Hd. rewrite length_drop in Hd. cbn in Hd. lia. }
    cbn. assert (tbl !! j = Some t) as Ht.
    { rewrite <- (Nat.add_0_r j), <- lookup_drop, Hd. done. }
    case_bool_decide; [done|]. destruct (decide (j = i)) as [->|]; [congruence|].
    destruct (Hn j t ltac:(lia) Ht). rewrite bool_decide_eq_false_2 by done.
    assert (drop (S j) tbl = rest) as Hd'.
    { replace (S j) with (j + 1) by lia. rewrite <- drop_drop, Hd. done. }
    case_bool_decide; apply IH; try done; lia.
Qed.

(** ** Recording a failure *)

Lemma store_pair_run p d : exists e w, nvs_store_pair p d = (e, set_world w d).
Proof.
  unfold nvs_store_pair, io, io_. st_unfold. destruct d. cbn.
  repeat (case_match; simplify_eq; cbn in * ); eauto.
Qed.

Lemma pw_clear_run d :
  exists err w, device_password_clear d
    = (err, exec mdns_discovery_refresh (set_pw (install_pair [] [] (pw d)) (set_world w d))).
Proof.
  destruct (store_pair_run None d) as (err & w & E). exists err, w. unfold device_password_clear, upd_pw. st_unfold.
  rewrite E. cbn. by destruct (mdns_discovery_refresh _) as [[] ?].
Qed.

Lemma store_lockout_run d : exists w, exec nvs_store_lockout d = set_world w d.
Proof.
  unfold nvs_store_lockout, io, io_, ask. st_unfold.
  destruct d. cbn. repeat (case_match; simplify_eq; cbn in * ); eauto.
Qed.

(** The RAM state after a failure from [ip] at time [now]. *)
Definition fail_pw (now ip : Z) (p : pw_state) : pw_state :=
  let '(i, tbl) := ip_slot ip (pw_ip p) in
  let fails := sat_inc (pw_global_fails p) in
  let gs := lock_seconds fails DEVICE_PW_GLOBAL_MAX_FAILS in
  Build_pw (pw_salt p) (pw_verifier p) (pw_init_salt p) (pw_init_verifier p)
    (alter (slot_failure now) i tbl) fails
    (if bool_decide (gs = 0)%Z then pw_global_until_us p else (now + gs * 1000000)%Z).

Lemma note_failure_run d ip :
  device_password_is_set d = true ->
  exists w, exec (device_password_note_failure ip) d
            = set_world w (set_pw (fail_pw (esp_timer_get_time (world d)) ip (pw d)) d).
Proof.
  intros Hset. unfold device_password_note_failure, upd_pw, ask. autorewrite with cything.
  rewrite Hset. cbn [negb]. autorewrite with cything.
  match goal with |- exists w, exec nvs_store_lockout ?x = _ =>
    destruct (store_lockout_run x) as (w & ->) end.
  exists w. unfold fail_pw. destruct d as [? ? [] ? ? ? ? ? ? ? ? ? ? ? ? ? ? ? ? ? ? ?]. cbn.
  destruct (ip_slot ip pw_ip) as [i tbl]. cbn. by case_bool_decide.
Qed.

Lemma note_failure_is_set d ip :
  device_password_is_set (exec (device_password_note_failure ip) d) = device_password_is_set d.
Proof.
  destruct (device_password_is_set d) eqn:E.
  - destruct (note_failure_run d ip E) as (w & ->). rewrite <- E. unfold fail_pw.
    by destruct (ip_slot _ _).
  - unfold device_password_note_failure. autorewrite with cything. by rewrite E.
Qed.

(** [ip] is charged in a slot every later lookup finds first. *)
Definition charged (ip f : Z) (p : pw_state) : Prop :=
  exists i s, pw_ip p !! i = Some s /\ ip_ip s = ip /\ ip_fails s = f /\ no_stop ip (pw_ip p) i.

Lemma no_stop_alter ip tbl i f :
  no_stop ip tbl i -> no_stop ip (alter f i tbl) i.
Proof. intros Hn j s Hj Hs. rewrite list_lookup_alter_ne in Hs by lia. by apply (Hn j). Qed.

Lemma fail_charged now ip f p :
  charged ip f p -> charged ip (sat_inc f) (fail_pw now ip p).
Proof.
  intros (i & s & Hs & Hip & Hf & Hn). unfold fail_pw.
  rewrite (ip_slot_again ip (pw_ip p) i s) by done. exists i, (slot_failure now s). cbn.
  split_and!; [by rewrite list_lookup_alter_eq, Hs|done|by rewrite Hf|by apply no_stop_alter].
Qed.

(** A first failure charges the address, with at least one failure. *)
Lemma fail_charges now ip p :
  0 < length (pw_ip p) -> Forall (fun s => 0 <= ip_fails s <= 255)%Z (pw_ip p) ->
  exists f, (1 <= f <= 255)%Z /\ charged ip f (fail_pw now ip p).
Proof.
  intros Hl Hb. pose proof (ip_slot_spec ip (pw_ip p) Hl) as H. unfold fail_pw.
  destruct (ip_slot ip (pw_ip p)) as [i tbl]. destruct H as (_ & Hn & s & Hs & Hip & Hor).
  exists (sat_inc (ip_fails s)). split.
  - assert (0 <= ip_fails s <= 255)%Z.
    { destruct Hor as [H| ->]; [by apply (Forall_lookup_1 _ _ _ _ Hb H)|cbn; lia]. }
    unfold sat_inc. case_bool_decide; lia.
  - exists i, (slot_failure now s). cbn.
    split_and!; [by rewrite list_lookup_alter_eq, Hs|done|done|by apply no_stop_alter].
Qed.

Definition failures (ips : list Z) : M unit := for_each ips device_password_note_failure.

Lemma failures_is_set ips d :
  device_password_is_set (exec (failures ips) d) = device_password_is_set d.
Proof. apply for_each_frame. intros. apply note_failure_is_set. Qed.

Lemma exec_for_each_cons {S A} (a : A) l (f : A -> ST S unit) s :
  exec (for_each (a :: l) f) s = exec (for_each l f) (exec (f a) s).
Proof. done. Qed.

Lemma failures_charged n ip f d :
  device_password_is_set d = true -> (0 <= f <= 255)%Z -> charged ip f (pw d) ->
  charged ip (Z.min 255 (f + Z.of_nat n)) (pw (exec (failures (replicate n ip)) d)).
Proof.
  revert f d. induction n as [|n IH]; intros f d Hset Hf Hc.
  - replace (Z.min 255 (f + Z.of_nat 0)) with f by lia. exact Hc.
  - unfold failures. cbn [replicate]. rewrite exec_for_each_cons.
    replace (Z.min 255 (f + Z.of_nat (S n))) with (Z.min 255 (sat_inc f + Z.of_nat n)).
    2:{ unfold sat_inc. case_bool_decide; lia. }
    apply IH.
    + by rewrite note_failure_is_set.
    + unfold sat_inc. case_bool_decide; lia.
    + destruct (note_failure_run d ip Hset) as (w & ->). cbn. by apply fail_charged.
Qed.

Lemma failures_global ips d :
  device_password_is_set d = true -> (0 <= pw_global_fails (pw d) <= 255)%Z ->
  pw_global_fails (pw (exec (failures ips) d))
  = Z.min 255 (pw_global_fails (pw d) + Z.of_nat (length ips)).
Proof.
  revert d. induction ips as [|ip ips IH]; intros d Hset Hg.
  - cbn. lia.
  - unfold failures. rewrite exec_for_each_cons.
    destruct (note_failure_run d ip Hset) as (w & E).
    assert (pw_global_fails (pw (exec (device_password_note_failure ip) d))
            = sat_inc (pw_global_fails (pw d))) as Ef.
    { rewrite E. cbn. unfold fail_pw. by destruct (ip_slot _ _). }
    rewrite IH; rewrite ?Ef.
    + cbn [length]. unfold sat_inc. case_bool_decide; lia.
    + by rewrite note_failure_is_set.
    + unfold sat_inc. case_bool_decide; lia.
Qed.

End DevicePassword.
