(* ===== verification/PairingEvents.v ===== *)
(** * PairingEvents: the queue of pairing events for the backend
    ([security/pairing_events.c])

    The queue is the array of eight 256-byte rows with its count; the
    abstract view [events] is the list of queued JSON strings. *)

From S2P Require Import Prelude Platform State.
From stdpp Require Import base list strings numbers.
From Stdlib Require Import ZArith Lia.

Local Open Scope cything_scope.

Section PairingEvents.
Context {P : Platform}.

Definition NVS_NS : string := "cy_sec".
Definition NVS_KEY_QUEUE : string := "pevents".

Definition QUOTE : Z := 34.
Definition BACKSLASH : Z := 92.

(** ** Storage *)

Definition queue_bytes (q : queue_t) : bytes :=
  [u8 (Z.of_nat (q_count q)); 0; 0; 0]%Z ++ mjoin (take (q_count q) (q_json q)).

Definition null_queue : queue_t :=
  Build_queue 0 (replicate PAIRING_EVENTS_MAX (zeros PAIRING_EVENT_JSON_MAX)).

Definition SIZEOF_QUEUE : nat := 4 + PAIRING_EVENTS_MAX * PAIRING_EVENT_JSON_MAX.

Definition queue_of_bytes (data : bytes) : queue_t :=
  let mem := data ++ zeros (SIZEOF_QUEUE - length data) in
  Build_queue (Z.to_nat (default 0%Z (mem !! 0)))
    ((fun i => take PAIRING_EVENT_JSON_MAX (drop (4 + i * PAIRING_EVENT_JSON_MAX) mem))
       <$> seq 0 PAIRING_EVENTS_MAX).

Definition nvs_store : M unit :=
  let* err := io (nvs_open NVS_NS NVS_READWRITE) in
  if negb (is_ok err) then ret tt else
  let* q := gets evq in
  let* err :=
    (if bool_decide (q_count q = 0)
     then let* e := io (nvs_erase_key NVS_NS NVS_KEY_QUEUE) in
          ret (if bool_decide (e = ESP_ERR_NVS_NOT_FOUND) then ESP_OK else e)
     else io (nvs_set_blob NVS_NS NVS_KEY_QUEUE (queue_bytes q))) in
  let* _ := (if is_ok err then io (nvs_commit NVS_NS) else ret err) in
  io_ (nvs_close NVS_NS).

Definition nvs_load : M unit :=
  modify (set_evq null_queue) ;;
  let* err := io (nvs_open NVS_NS NVS_READONLY) in
  if negb (is_ok err) then ret tt else
  let* (err, data) := ask (nvs_get_blob NVS_NS NVS_KEY_QUEUE SIZEOF_QUEUE) in
  when (is_ok err) (modify (set_evq (queue_of_bytes data))) ;;
  io_ (nvs_close NVS_NS) ;;
  let* q := gets evq in
  when (negb (is_ok err) || bool_decide (PAIRING_EVENTS_MAX < q_count q)
        || negb (bool_decide (length data = 4 + q_count q * PAIRING_EVENT_JSON_MAX)))
    (modify (set_evq null_queue)).

Definition pairing_events_init : M unit := nvs_load.

(** ** JSON text *)

(** The escaping loop, at write position [o] of an [out_size] buffer. *)
Fixpoint json_escape_from (o out_size : nat) (s : bytes) : bytes :=
  match s with
  | [] => []
  | c :: s' =>
      if bool_decide (o + 2 < out_size) then
        if bool_decide (c = QUOTE) || bool_decide (c = BACKSLASH)
        then BACKSLASH :: c :: json_escape_from (o + 2) out_size s'
        else c :: json_escape_from (o + 1) out_size s'
      else []
  end.

Definition json_escape (s : bytes) (out_size : nat) : bytes := json_escape_from 0 out_size (cstr s).

Definition event_json (event user_sub role : bytes) (at_ : Z) : bytes :=
  [123; 34]%Z ++ str "event" ++ [34; 58; 34]%Z ++ json_escape event 16
  ++ [34; 44; 34]%Z ++ str "userSub" ++ [34; 58; 34]%Z ++ json_escape user_sub 81
  ++ [34; 44; 34]%Z ++ str "role" ++ [34; 58; 34]%Z ++ json_escape role 16
  ++ [34; 44; 34]%Z ++ str "at" ++ [34; 58]%Z ++ dec_u at_ ++ [125]%Z.

(** ** Operations *)

(** [memmove(json[0], json[1], 7 * 256)]: the last row stays. *)
Definition move_up (rows : list bytes) : list bytes :=
  take (PAIRING_EVENTS_MAX - 1) (drop 1 rows) ++ drop (PAIRING_EVENTS_MAX - 1) rows.

Definition drop_oldest (q : queue_t) : queue_t :=
  Build_queue (q_count q - 1) (move_up (q_json q)).

Definition push_row (text : bytes) (q : queue_t) : queue_t :=
  let q := if bool_decide (PAIRING_EVENTS_MAX <= q_count q) then drop_oldest q else q in
  Build_queue (S (q_count q))
    (alter (fun row => row_write row (snprintf_s PAIRING_EVENT_JSON_MAX text))
       (q_count q) (q_json q)).

Definition pairing_events_push (event user_sub role : bytes) : M unit :=
  let* t := ask time_now in
  let at_ := if bool_decide (1600000000 < t)%Z then u32 t else 0%Z in
  modify (fun d => set_evq (push_row (event_json event user_sub role at_) (evq d)) d) ;;
  nvs_store.

Definition pairing_events_pending : M nat := gets (fun d => q_count (evq d)).

Definition pairing_events_peek (out_size : nat) : M (option bytes) :=
  gets (fun d =>
    if bool_decide (0 < q_count (evq d))
    then Some (take (out_size - 1) (cstr (default [] (q_json (evq d) !! 0)))) else None).

Definition pop_row (q : queue_t) : queue_t :=
  let q := drop_oldest q in
  Build_queue (q_count q) (<[q_count q := zeros PAIRING_EVENT_JSON_MAX]> (q_json q)).

Definition pairing_events_pop : M unit :=
  let* q := gets evq in
  if bool_decide (0 < q_count q)
  then modify (fun d => set_evq (pop_row (evq d)) d) ;; nvs_store
  else ret tt.

#[global] Arguments nvs_store : simpl never.
#[global] Arguments event_json : simpl never.
#[global] Arguments push_row : simpl never.
#[global] Arguments move_up : simpl never.

Lemma nvs_store_frame d : exists w, exec nvs_store d = set_world w d.
Proof.
  unfold nvs_store, io, io_. st_unfold. destruct d. cbn.
  repeat (case_match; simplify_eq; cbn in * ); eauto.
Qed.

(** ** Escaping *)

Fixpoint json_unescape (s : bytes) : bytes :=
  match s with
  | [] => []
  | c :: s' =>
      if bool_decide (c = BACKSLASH) then
        match s' with [] => [] | d :: s'' => d :: json_unescape s'' end
      else c :: json_unescape s'
  end.

Lemma json_escape_from_length o n s :
  0 < n -> o < n -> o + length (json_escape_from o n s) < n.
Proof.
  revert o. induction s as [|c s IH]; intros o Hn Ho; cbn; [lia|].
  case_bool_decide; [|cbn; lia].
  destruct (_ || _); cbn; [pose proof (IH (o + 2) Hn)|pose proof (IH (o + 1) Hn)]; lia.
Qed.

Lemma json_unescape_escape_from o n s :
  o + 2 * length s < n -> json_unescape (json_escape_from o n s) = s.
Proof.
  revert o. induction s as [|c s IH]; intros o Ho; cbn in *; [done|].
  rewrite bool_decide_eq_true_2 by lia.
  destruct (bool_decide (c = QUOTE) || bool_decide (c = BACKSLASH)) eqn:E.
  - cbn. f_equal. apply IH. lia.
  - bool_hyps. cbn. rewrite bool_decide_eq_false_2 by done. f_equal. apply IH. lia.
Qed.

Lemma json_escape_nonzero s n : Forall (fun c => c <> 0%Z) (json_escape s n).
Proof.
  unfold json_escape. generalize 0. pose proof (cstr_nonzero s) as H.
  induction H as [|c l Hc Hl IH]; intros o; cbn; [constructor|].
  case_bool_decide; [|constructor]. case_match; repeat constructor; done.
Qed.

(** The digits of a number below [10^k] are at most [k]. *)
Lemma length_digits_le fuel k n :
  (0 <= n < 10 ^ Z.of_nat k)%Z -> 0 < k -> length (digits fuel n) <= k.
Proof.
  revert k n. induction fuel as [|f IH]; intros k n Hn Hk; cbn [digits]; [cbn; lia|].
  rewrite length_app. cbn [length]. case_bool_decide; cbn [length]; [lia|].
  destruct k as [|[|k]]; [lia| |].
  - cbn in Hn. lia.
  - assert (length (digits f (n / 10)) <= S k); [|lia].
    apply IH; [|lia]. split; [apply Z.div_pos; lia|].
    apply Z.div_lt_upper_bound; [lia|].
    rewrite Nat2Z.inj_succ, Z.pow_succ_r in Hn by lia. lia.
Qed.

Lemma dec_u_nonzero n : (0 <= n)%Z -> Forall (fun c => c <> 0%Z) (dec_u n).
Proof.
  intros Hn. eapply Forall_impl; [|by apply digits_all_digits].
  intros c Hc. unfold is_digit in Hc. bool_hyps. lia.
Qed.

Lemma event_json_length event user_sub role at_ :
  (0 <= at_ < 2 ^ 32)%Z -> length (event_json event user_sub role at_) < PAIRING_EVENT_JSON_MAX.
Proof.
  intros Ha. unfold event_json, json_escape. rewrite !length_app. cbn [length].
  pose proof (json_escape_from_length 0 16 (cstr event) ltac:(lia) ltac:(lia)).
  pose proof (json_escape_from_length 0 16 (cstr role) ltac:(lia) ltac:(lia)).
  pose proof (json_escape_from_length 0 81 (cstr user_sub) ltac:(lia) ltac:(lia)).
  assert (length (dec_u at_) <= 10).
  { apply length_digits_le; [|lia]. change (10 ^ Z.of_nat 10)%Z with 10000000000%Z. lia. }
  change (length (str "event")) with 5. change (length (str "userSub")) with 7.
  change (length (str "role")) with 4. change (length (str "at")) with 2.
  unfold PAIRING_EVENT_JSON_MAX. lia.
Qed.

Lemma event_json_nonzero event user_sub role at_ :
  (0 <= at_)%Z -> Forall (fun c => c <> 0%Z) (event_json event user_sub role at_).
Proof.
  intros Ha. pose proof (dec_u_nonzero at_ Ha) as Hat. unfold event_json.
  generalize dependent (dec_u at_). intros ds Hds.
  repeat (apply Forall_app; split);
    try apply json_escape_nonzero; try exact Hds;
    apply (bool_decide_unpack _); by vm_compute.
Qed.

(** ** The array is a bounded queue *)

Definition events (q : queue_t) : list bytes := cstr <$> take (q_count q) (q_json q).

Definition queue_ok (q : queue_t) : Prop :=
  length (q_json q) = PAIRING_EVENTS_MAX /\ q_count q <= PAIRING_EVENTS_MAX /\
  Forall (fun row => length row = PAIRING_EVENT_JSON_MAX) (q_json q).

Lemma move_up_spec rows :
  length rows = PAIRING_EVENTS_MAX ->
  length (move_up rows) = PAIRING_EVENTS_MAX /\
  (forall n, n < PAIRING_EVENTS_MAX -> take n (move_up rows) = tail (take (S n) rows)) /\
  (forall Q : bytes -> Prop, Forall Q rows -> Forall Q (move_up rows)).
Proof.
  intros Hl. unfold move_up. split_and!.
  - rewrite length_app, length_take, !length_drop, Hl. done.
  - intros n Hn. rewrite take_app_le by (rewrite length_take, length_drop; lia).
    rewrite take_take. rewrite Nat.min_l by lia. destruct rows as [|r rows]; [done|].
    cbn. by rewrite drop_0.
  - intros Q H. apply Forall_app. split; [by apply Forall_take, Forall_drop|by apply Forall_drop].
Qed.

Lemma drop_oldest_ok q :
  queue_ok q -> 0 < q_count q ->
  queue_ok (drop_oldest q) /\ events (drop_oldest q) = tail (events q).
Proof.
  intros (Hl & Hc & Hr) Hp. destruct (move_up_spec (q_json q) Hl) as (H1 & H2 & H3).
  split; [split_and!; cbn; [done|lia|by apply H3]|].
  unfold events, drop_oldest. cbn. rewrite H2 by lia.
  replace (S (q_count q - 1)) with (q_count q) by lia.
  by destruct (take (q_count q) (q_json q)).
Qed.

Lemma push_row_ok text q :
  queue_ok q -> length text < PAIRING_EVENT_JSON_MAX -> Forall (fun c => c <> 0%Z) text ->
  queue_ok (push_row text q) /\
  events (push_row text q)
  = (if bool_decide (PAIRING_EVENTS_MAX <= q_count q) then tail (events q) else events q) ++ [text].
Proof.
  intros Hq Ht Hz. unfold push_row.
  set (q0 := if bool_decide (PAIRING_EVENTS_MAX <= q_count q) then drop_oldest q else q).
  assert (queue_ok q0 /\ q_count q0 < PAIRING_EVENTS_MAX /\
          events q0 = (if bool_decide (PAIRING_EVENTS_MAX <= q_count q)
                       then tail (events q) else events q)) as ((Hl & Hc & Hr) & Hlt & <-).
  { unfold q0. destruct Hq as (Hl & Hc & Hr). case_bool_decide.
    - destruct (drop_oldest_ok q) as [? ?]; [done|unfold PAIRING_EVENTS_MAX in *; lia|].
      split_and!; try done. cbn. unfold PAIRING_EVENTS_MAX in *. lia.
    - split_and!; try done. lia. }
  clearbody q0. unfold snprintf_s. rewrite take_ge by lia.
  destruct (lookup_lt_is_Some_2 (q_json q0) (q_count q0)) as [row Hrow]; [lia|].
  pose proof (Forall_lookup_1 _ _ _ _ Hr Hrow) as Hrl. cbn in Hrl.
  rewrite (alter_as_insert _ _ _ _ Hrow). split.
  - split_and!; cbn; [by rewrite length_insert|lia|].
    apply Forall_insert; [done|]. rewrite length_row_write; lia.
  - unfold events. cbn [q_count q_json].
    rewrite (take_S_r _ _ (row_write row text)) by (apply list_lookup_insert_eq; lia).
    rewrite fmap_app, take_insert_ge by lia. cbn. by rewrite cstr_row_write.
Qed.

Lemma pop_row_ok q :
  queue_ok q -> 0 < q_count q -> queue_ok (pop_row q) /\ events (pop_row q) = tail (events q).
Proof.
  intros Hq Hp. destruct (drop_oldest_ok q Hq Hp) as [(Hl & Hc & Hr) He].
  split; [split_and!; cbn in *; [by rewrite length_insert|lia|]|].
  - apply Forall_insert; [done|]. apply zeros_length.
  - rewrite <- He. unfold events, pop_row. cbn. by rewrite take_insert_ge by lia.
Qed.

End PairingEvents.
