(* ===== verification/EncFrame.v ===== *)
(** * EncFrame: encrypted lines on the local link ([security/enc_frame.c])

    [aead] is the [mbedtls_gcm_*] branch of the source. A received line is
    passed as the bytes before its ['\n']; [enc_frame_unwrap] answers the line
    to dispatch, or [None] where the source returns [false] and the caller
    drops the line. The mutex of the send path is not part of the model: one
    [enc_frame_send] is one step. *)

From S2P Require Import Prelude Platform State LocalSession.
From stdpp Require Import base list strings numbers.
From Stdlib Require Import ZArith Lia.

Local Open Scope cything_scope.

Section EncFrame.
Context {P : Platform}.

(** ** Operations *)

(** Return code, output buffer, [*out_len] (0 as the callers initialise it). *)
Definition aead (encrypt : bool) (key nonce in_ : bytes) (out_size : nat) : Z * bytes * nat :=
  let rc := gcm_setkey key in
  if bool_decide (rc = 0%Z) then
    if encrypt then
      if bool_decide (out_size < length in_ + ENC_FRAME_TAG_LEN) then ((-1)%Z, [], 0)
      else let '(rc, (ct, tag)) := gcm_crypt_and_tag key nonce in_ in
           (rc, ct ++ tag, length in_ + ENC_FRAME_TAG_LEN)
    else
      let plain_len := length in_ - ENC_FRAME_TAG_LEN in
      if bool_decide (length in_ < ENC_FRAME_TAG_LEN) || bool_decide (out_size < plain_len)
      then ((-1)%Z, [], 0)
      else let '(rc, pt) := gcm_auth_decrypt key nonce (drop plain_len in_) (take plain_len in_) in
           (rc, pt, plain_len)
  else (rc, [], 0).

Definition ENC_PREFIX : bytes := str "ENC:".
Definition ENC_PREFIX_LEN : nat := 4.
Definition B64_MAX (n : nat) : nat := ((n + 2) / 3) * 4 + 1.
Definition ENC_FRAME_BUF : nat :=
  ENC_PREFIX_LEN + B64_MAX ENC_FRAME_NONCE_LEN + 1
  + B64_MAX (ENC_FRAME_PLAIN_MAX + ENC_FRAME_TAG_LEN) + 1.

Definition session_keyed (s : local_session_t) : bool :=
  bool_decide (ls_state s = LS_PAKE_OK) || bool_decide (ls_state s = LS_AUTH_OK).

Definition put_u32 (v : Z) : bytes :=
  [u8 (Z.shiftr v 24); u8 (Z.shiftr v 16); u8 (Z.shiftr v 8); u8 v].
Definition put_u64 (v : Z) : bytes := put_u32 (u32 (Z.shiftr v 32)) ++ put_u32 (u32 v).

Definition get_u32 (p : bytes) : Z :=
  Z.lor (Z.lor (Z.lor (Z.shiftl (p !!! 0) 24) (Z.shiftl (p !!! 1) 16)) (Z.shiftl (p !!! 2) 8))
        (p !!! 3).
Definition get_u64 (p : bytes) : Z := Z.lor (Z.shiftl (get_u32 p) 32) (get_u32 (drop 4 p)).

(** [snprintf(buf, 32, "%s\n", text); send(sock, buf, n, 0)] *)
Definition send_plain_err (sock : Z) (text : bytes) : M unit := send sock (text ++ [NL]).

Definition ERR_ENC : bytes := str "ERR:ENC".

Definition enc_frame_unwrap (line : bytes) (sock : Z) (capacity : nat) : M (option bytes) :=
  let* s := local_session_find sock in
  let is_enc := bool_decide (ENC_PREFIX_LEN < length line) && memcmp_eq line ENC_PREFIX in
  let err := send_plain_err sock ERR_ENC ;; ret None in
  if negb is_enc then
    match s with
    | Some si => upd_sess si (set_ls_rx_encrypted false)
    | None => ret tt
    end ;;
    ret (Some line)
  else
  match s with
  | None => err
  | Some si =>
    let* ss := gets (sess si) in
    if negb (session_keyed ss) then err else
    match split_at COMMA (drop ENC_PREFIX_LEN line) with
    | None => err
    | Some (p, c) =>
      match base64_decode (ENC_FRAME_NONCE_LEN + 1) p with
      | None => err
      | Some nonce =>
        if bool_decide (length nonce <> ENC_FRAME_NONCE_LEN) then err else
        match base64_decode capacity c with
        | None => err
        | Some ct =>
          if bool_decide (length ct < ENC_FRAME_TAG_LEN) then err else
          let plain_len := length ct - ENC_FRAME_TAG_LEN in
          let ctr := get_u64 (drop 4 nonce) in
          if bool_decide (get_u32 nonce <> ENC_FRAME_DIR_TO_DEV)
             || bool_decide (ctr <= ls_rx_ctr ss)%Z then err
          else if bool_decide (ENC_FRAME_PLAIN_MAX < plain_len) then err
          else
            let '(rc, plain, got) := aead false (ls_key ss) nonce ct ENC_FRAME_PLAIN_MAX in
            if bool_decide (rc <> 0%Z) || bool_decide (got <> plain_len) then err
            else
              upd_sess si (set_ls_rx_ctr ctr) ;;
              upd_sess si (set_ls_rx_encrypted true) ;;
              ret (Some plain)
        end
      end
    end
  end.

(** [while(plain_len > 0 && (payload[plain_len - 1] == '\n' || ... '\r')) plain_len--;] *)
Fixpoint strip_eol (rev : bytes) : bytes :=
  match rev with
  | c :: r => if bool_decide (c = NL \/ c = CR) then strip_eol r else rev
  | [] => []
  end.
Definition line_of_payload (payload : bytes) : bytes := rev (strip_eol (rev payload)).

Definition frame_text (nonce ct : bytes) : bytes :=
  ENC_PREFIX ++ base64_encode nonce ++ [COMMA] ++ base64_encode ct ++ [NL].

Definition app_nonce (ctr : Z) : bytes := put_u32 ENC_FRAME_DIR_TO_APP ++ put_u64 ctr.

Definition enc_frame_send (sock : Z) (payload : bytes) : M unit :=
  let* s := local_session_find sock in
  match s with
  | None => send sock payload
  | Some si =>
    let* ss := gets (sess si) in
    if negb (session_keyed ss) then send sock payload else
    let plain := line_of_payload payload in
    if bool_decide (ENC_FRAME_PLAIN_MAX < length plain) then ret tt else
    if negb (session_keyed ss) || bool_decide (ls_sock ss <> sock) then ret tt else
    upd_sess si (fun x => set_ls_tx_ctr (u64 (ls_tx_ctr x + 1)) x) ;;
    let* ss := gets (sess si) in
    let nonce := app_nonce (ls_tx_ctr ss) in
    let '(rc, ct, _) := aead true (ls_key ss) nonce plain (ENC_FRAME_PLAIN_MAX + ENC_FRAME_TAG_LEN) in
    if bool_decide (rc = 0%Z) then send sock (frame_text nonce ct)
    else ret tt
  end.

(** ** Byte order *)

Lemma put_u32_length v : length (put_u32 v) = 4.
Proof. done. Qed.
Lemma put_u64_length v : length (put_u64 v) = 8.
Proof. done. Qed.

Lemma put_u32_bytes v : Forall is_byte (put_u32 v).
Proof. repeat constructor; apply (wrap_range 8); lia. Qed.
Lemma put_u64_bytes v : Forall is_byte (put_u64 v).
Proof. apply Forall_app; split; apply put_u32_bytes. Qed.

Lemma get_u32_spec p :
  Forall is_byte (take 4 p) -> 4 <= length p ->
  get_u32 p = (p !!! 0%nat * 2 ^ 24 + p !!! 1%nat * 2 ^ 16 + p !!! 2%nat * 2 ^ 8 + p !!! 3%nat)%Z.
Proof.
  destruct p as [|a [|b [|c [|e p]]]]; cbn [length]; try lia. intros H _.
  repeat (apply Forall_cons_1 in H as [? H]). unfold is_byte, get_u32 in *.
  cbn [lookup_total list_lookup_total]. rewrite !Z.shiftl_mul_pow2 by lia.
  rewrite lor_add by lia.
  replace (a * 2 ^ 24 + b * 2 ^ 16)%Z with ((a * 2 ^ 8 + b) * 2 ^ 16)%Z by lia.
  rewrite lor_add by lia.
  replace ((a * 2 ^ 8 + b) * 2 ^ 16 + c * 2 ^ 8)%Z
    with ((a * 2 ^ 16 + b * 2 ^ 8 + c) * 2 ^ 8)%Z by lia.
  rewrite lor_add by lia. lia.
Qed.

Lemma get_put_u32 v r : (0 <= v < 2 ^ 32)%Z -> get_u32 (put_u32 v ++ r) = v.
Proof.
  intros Hv. rewrite get_u32_spec.
  - unfold put_u32, wrap. cbn [app lookup_total list_lookup_total].
    rewrite !Z.shiftr_div_pow2 by lia. change (2 ^ 8)%Z with 256%Z.
    change (2 ^ 16)%Z with 65536%Z. change (2 ^ 24)%Z with 16777216%Z.
    change (2 ^ 32)%Z with 4294967296%Z in Hv. Z.to_euclidean_division_equations. lia.
  - apply put_u32_bytes.
  - rewrite length_app, put_u32_length. lia.
Qed.

(** The counter the nonce carries is read back exactly. *)
Lemma get_put_u64 v r : (0 <= v < 2 ^ 64)%Z -> get_u64 (put_u64 v ++ r) = v.
Proof.
  intros Hv. unfold get_u64, put_u64. rewrite <- app_assoc.
  change (drop 4 (put_u32 ?a ++ ?b)) with b.
  pose proof (wrap_range 32 (Z.shiftr v 32) ltac:(lia)).
  pose proof (wrap_range 32 v ltac:(lia)).
  rewrite !get_put_u32 by done. rewrite Z.shiftl_mul_pow2, lor_add by lia.
  unfold wrap in *. rewrite Z.shiftr_div_pow2 in * by lia.
  rewrite (Z.mod_small (v / 2 ^ 32)) by (split; [apply Z.div_pos|apply Z.div_lt_upper_bound]; lia).
  pose proof (Z.div_mod v (2 ^ 32)). lia.
Qed.

(** ** Receiving *)

Definition is_enc (line : bytes) : bool :=
  bool_decide (ENC_PREFIX_LEN < length line) && memcmp_eq line ENC_PREFIX.

(** What a frame must be for the session [ss] to accept it as [plain]: a
    12-byte nonce of the right direction with a counter above the last one
    accepted, and a ciphertext that authenticates under the session key. *)
Definition opens (ss : local_session_t) (line : bytes) (cap : nat) (ctr : Z) (plain : bytes) : Prop :=
  exists p c nonce ct,
    split_at COMMA (drop ENC_PREFIX_LEN line) = Some (p, c) /\
    base64_decode (ENC_FRAME_NONCE_LEN + 1) p = Some nonce /\
    length nonce = ENC_FRAME_NONCE_LEN /\
    base64_decode cap c = Some ct /\
    ENC_FRAME_TAG_LEN <= length ct <= ENC_FRAME_PLAIN_MAX + ENC_FRAME_TAG_LEN /\
    get_u32 nonce = ENC_FRAME_DIR_TO_DEV /\
    ctr = get_u64 (drop 4 nonce) /\ (ls_rx_ctr ss < ctr)%Z /\
    gcm_setkey (ls_key ss) = 0%Z /\
    gcm_auth_decrypt (ls_key ss) nonce (drop (length ct - ENC_FRAME_TAG_LEN) ct)
      (take (length ct - ENC_FRAME_TAG_LEN) ct) = (0%Z, plain).

Definition accepted_frame (ctr : Z) (s : local_session_t) : local_session_t :=
  set_ls_rx_encrypted true (set_ls_rx_ctr ctr s).

Definition clear_rx (o : option nat) (d : Dev) : Dev :=
  match o with
  | Some si => set_pool (alter (set_ls_rx_encrypted false) si (pool d)) d
  | None => d
  end.

Lemma find_run sock d :
  local_session_find sock d
  = (if bool_decide (sock < 0)%Z then None else slot_of sock (pool d), d).
Proof. unfold local_session_find. by case_bool_decide. Qed.

(** The slot [local_session_find] answers. *)
Definition slot_for (sock : Z) (d : Dev) : option nat :=
  if bool_decide (sock < 0)%Z then None else slot_of sock (pool d).

Lemma slot_for_Some sock d si :
  slot_for sock d = Some si ->
  exists s, pool d !! si = Some s /\ sess si d = s /\ ls_sock s = sock /\ (0 <= sock)%Z.
Proof.
  unfold slot_for. case_bool_decide; [done|]. intros H'.
  destruct (slot_of_Some _ _ _ H') as (s & Hs & E). exists s.
  split_and!; [done|by apply sess_lookup|done|lia].
Qed.

Lemma aead_dec_ok key nonce ct size plain got :
  aead false key nonce ct size = (0%Z, plain, got) ->
  gcm_setkey key = 0%Z /\ ENC_FRAME_TAG_LEN <= length ct /\
  gcm_auth_decrypt key nonce (drop (length ct - ENC_FRAME_TAG_LEN) ct)
    (take (length ct - ENC_FRAME_TAG_LEN) ct) = (0%Z, plain).
Proof.
  unfold aead. repeat case_bool_decide; cbn [orb]; try done.
  - case_match; intros; simplify_eq. split_and!; [done|lia|done].
  - intros; simplify_eq.
Qed.

(** The three ways [enc_frame_unwrap] ends. *)
Lemma unwrap_cases line sock cap d :
  let r := enc_frame_unwrap line sock cap d in
  (is_enc line = false /\ r = (Some line, clear_rx (slot_for sock d) d)) \/
  (is_enc line = true /\ r = (None, exec (send sock (ERR_ENC ++ [NL])) d)) \/
  (is_enc line = true /\ exists si plain ctr,
     slot_for sock d = Some si /\ session_keyed (sess si d) = true /\
     opens (sess si d) line cap ctr plain /\
     r = (Some plain, set_pool (alter (accepted_frame ctr) si (pool d)) d)).
Proof.
  cbn zeta. unfold enc_frame_unwrap. st_unfold. rewrite find_run. fold (slot_for sock d).
  fold (is_enc line). destruct (is_enc line); cbn [negb]; [right|left; split; [done|by destruct (slot_for sock d)]].
  destruct (slot_for sock d) as [si|]; [|by left].
  destruct (session_keyed (sess si d)) eqn:Ek; cbn [negb]; [|by left].
  destruct (split_at COMMA (drop ENC_PREFIX_LEN line)) as [[p c]|] eqn:Es; [|by left].
  destruct (base64_decode (ENC_FRAME_NONCE_LEN + 1) p) as [nonce|] eqn:En; [|by left].
  case_bool_decide as Hnl; [by left|].
  destruct (base64_decode cap c) as [ct|] eqn:Ec; [|by left].
  case_bool_decide as Hcl; [by left|].
  case_bool_decide as Hdir; cbn [orb]; [by left|].
  case_bool_decide as Hctr; cbn [orb]; [by left|].
  case_bool_decide as Hpl; [by left|].
  destruct (aead false (ls_key (sess si d)) nonce ct ENC_FRAME_PLAIN_MAX) as [[rc plain] got] eqn:Ea.
  case_bool_decide as Hrc; cbn [orb]; [by left|].
  case_bool_decide as Hgot; cbn [orb]; [by left|].
  right. split; [done|]. subst rc. apply aead_dec_ok in Ea as (Hk & Hl & Hd).
  exists si, plain, (get_u64 (drop 4 nonce)). split_and!; [done|done| |].
  - exists p, c, nonce, ct. split_and!; try done; lia.
  - f_equal. destruct d; cbn. by rewrite alter_alter.
Qed.

(** Every frame that opens is accepted. *)
Lemma unwrap_opens line sock cap d si ctr plain :
  is_enc line = true -> slot_for sock d = Some si -> session_keyed (sess si d) = true ->
  opens (sess si d) line cap ctr plain ->
  enc_frame_unwrap line sock cap d
  = (Some plain, set_pool (alter (accepted_frame ctr) si (pool d)) d).
Proof.
  intros He Hs Hk (p & c & n & ct & Hsp & Hn & Hnl & Hc & Hcl & Hd & -> & Hlt & Hkey & Hdec).
  unfold enc_frame_unwrap. st_unfold. rewrite find_run. fold (slot_for sock d).
  fold (is_enc line). rewrite He, Hs. cbn [negb].
  rewrite Hk, Hsp. cbn [negb]. rewrite Hn. cbn iota. rewrite Hc. cbn iota.
  rewrite !(bool_decide_eq_false_2 (length n <> _)) by tauto.
  rewrite !(bool_decide_eq_false_2 (length ct < _)) by lia.
  rewrite !(bool_decide_eq_false_2 (get_u32 n <> _)) by tauto.
  rewrite !(bool_decide_eq_false_2 (_ <= _)%Z) by lia.
  rewrite !(bool_decide_eq_false_2 (ENC_FRAME_PLAIN_MAX < _)) by lia.
  unfold aead. rewrite (bool_decide_eq_true_2 _ Hkey).
  rewrite !(bool_decide_eq_false_2 (length ct < _)) by lia.
  rewrite !(bool_decide_eq_false_2 (ENC_FRAME_PLAIN_MAX < _)) by lia.
  cbn [orb]. rewrite Hdec. rewrite !bool_decide_eq_false_2 by tauto. cbn [orb].
  f_equal. destruct d; cbn. by rewrite alter_alter.
Qed.

Lemma opens_ctr ss line cap ctr plain ctr' plain' ss' :
  opens ss line cap ctr plain -> opens ss' line cap ctr' plain' ->
  ctr = ctr' /\ (ls_rx_ctr ss < ctr)%Z.
Proof.
  intros (p & c & n & ct & H1 & H2 & _ & H4 & _ & _ & -> & Hlt & _)
         (p' & c' & n' & ct' & H1' & H2' & _ & H4' & _ & _ & -> & _ & _).
  rewrite H1 in H1'. simplify_eq. split; [done|lia].
Qed.

(** A frame the session accepted is refused by every later state of that
    session whose counter has not gone back. *)
Lemma unwrap_replay line sock cap d d' si x :
  is_enc line = true -> eval (enc_frame_unwrap line sock cap) d = Some x ->
  slot_for sock d = Some si -> slot_for sock d' = Some si ->
  (ls_rx_ctr (sess si (exec (enc_frame_unwrap line sock cap) d)) <= ls_rx_ctr (sess si d'))%Z ->
  enc_frame_unwrap line sock cap d' = (None, exec (send sock (ERR_ENC ++ [NL])) d').
Proof.
  intros He Hx Hs Hs' Hle. unfold eval in Hx. unfold exec at 1 in Hle.
  destruct (unwrap_cases line sock cap d) as [[? _]|[[_ E]|(_ & i & pl & ctr & Hi & _ & Ho & E)]];
    [congruence|by rewrite E in Hx|].
  assert (i = si) as -> by congruence.
  destruct (unwrap_cases line sock cap d') as [[? _]|[[_ E']|(_ & j & pl' & ctr' & Hj & _ & Ho' & E')]];
    [congruence|done|]. exfalso.
  assert (j = si) as -> by congruence.
  destruct (opens_ctr _ _ _ _ _ _ _ _ Ho Ho') as [-> _].
  destruct (opens_ctr _ _ _ _ _ _ _ _ Ho' Ho') as [_ Hlt].
  rewrite E in Hle. cbn in Hle. destruct (slot_for_Some _ _ _ Hs) as (s & Hl & _).
  change (sess si (set_pool ?l ?x)) with (l !!! si) in Hle.
  rewrite sess_alter_eq in Hle by (by eapply lookup_lt_Some). cbn in Hle. lia.
Qed.

(** ** Sending *)

Lemma line_of_payload_length payload : length (line_of_payload payload) <= length payload.
Proof.
  unfold line_of_payload. rewrite length_rev, <- (length_rev payload).
  induction (rev payload) as [|c r IH]; cbn; [done|]. case_bool_decide; cbn; lia.
Qed.

Lemma strip_eol_id r : match r with c :: _ => c <> NL /\ c <> CR | [] => True end -> strip_eol r = r.
Proof. destruct r; [done|]. intros [? ?]. cbn. rewrite bool_decide_eq_false_2; tauto. Qed.

(** A line that does not itself end in a line terminator is what is sent. *)
Lemma line_of_payload_nl l c :
  c <> NL -> c <> CR -> line_of_payload ((l ++ [c]) ++ [NL]) = l ++ [c].
Proof.
  intros. unfold line_of_payload. rewrite !rev_app_distr. cbn.
  rewrite (bool_decide_eq_true_2 (NL = NL \/ NL = CR)) by (by left).
  rewrite bool_decide_eq_false_2 by tauto. cbn. by rewrite rev_involutive.
Qed.

Definition bump_tx (s : local_session_t) : local_session_t :=
  set_ls_tx_ctr (u64 (ls_tx_ctr s + 1)) s.

(** A frame for [sock]: nonce counter [ctr], the encryption of [plain]. *)
Definition sealed (key : bytes) (ctr : Z) (plain frame : bytes) : Prop :=
  exists ct tag, gcm_crypt_and_tag key (app_nonce ctr) plain = (0%Z, (ct, tag)) /\
    frame = frame_text (app_nonce ctr) (ct ++ tag).

Lemma send_unkeyed sock payload d :
  (forall si, slot_for sock d = Some si -> session_keyed (sess si d) = false) ->
  enc_frame_send sock payload d = send sock payload d.
Proof.
  intros H. unfold enc_frame_send. st_unfold. rewrite find_run. fold (slot_for sock d).
  destruct (slot_for sock d) as [si|]; [|done]. by rewrite H.
Qed.

(** On a keyed socket a send either drops the line, or bumps the counter and
    puts at most one encrypted frame on the wire. *)
Lemma send_keyed sock payload d si :
  slot_for sock d = Some si -> session_keyed (sess si d) = true ->
  let s := sess si d in
  let plain := line_of_payload payload in
  let d1 := set_pool (alter bump_tx si (pool d)) d in
  (ENC_FRAME_PLAIN_MAX < length plain /\ exec (enc_frame_send sock payload) d = d) \/
  (length plain <= ENC_FRAME_PLAIN_MAX /\
   (exec (enc_frame_send sock payload) d = d1 \/
    exists frame, sealed (ls_key s) (u64 (ls_tx_ctr s + 1)) plain frame /\
      exec (enc_frame_send sock payload) d = exec (send sock frame) d1)).
Proof.
  intros Hs Hk. cbn zeta. destruct (slot_for_Some _ _ _ Hs) as (s & Hl & Es & Esk & _).
  unfold enc_frame_send. st_unfold. rewrite find_run. fold (slot_for sock d).
  rewrite Hs, Hk. cbn [negb]. case_bool_decide as Hlen; [by left|]. right. split; [lia|].
  rewrite bool_decide_eq_false_2 by (rewrite Es; tauto). cbn [orb].
  change (upd_sess si ?f ?x) with (tt, set_pool (alter f si (pool x)) x). cbn beta iota.
  fold bump_tx.
  assert (sess si (set_pool (alter bump_tx si (pool d)) d) = bump_tx (sess si d)) as ->
    by (apply sess_alter_eq; by eapply lookup_lt_Some).
  change (ls_tx_ctr (bump_tx ?x)) with (u64 (ls_tx_ctr x + 1)).
  change (ls_key (bump_tx ?x)) with (ls_key x).
  unfold aead. case_bool_decide; [|by left; rewrite bool_decide_eq_false_2].
  rewrite bool_decide_eq_false_2 by lia.
  destruct (gcm_crypt_and_tag _ _ _) as [rc [ct tag]] eqn:Eg.
  case_bool_decide; [|by left]. right. subst rc. eexists.
  split; [exists ct, tag; split; [exact Eg|reflexivity]|done].
Qed.

Context {B : Base64Laws P} {G : GcmLaws P}.

(** The frame of [line] with counter [ctr], or nothing if AES-GCM fails. *)
Definition sealed_events (key : bytes) (ctr : Z) (line : bytes) (sock : Z) : list event :=
  let '(rc, (ct, tag)) := gcm_crypt_and_tag key (app_nonce ctr) line in
  if bool_decide (rc = 0%Z) then [EvSend sock (frame_text (app_nonce ctr) (ct ++ tag))] else [].

(** What a keyed socket is sent, exactly. *)
Lemma send_sealed sock payload d si :
  slot_for sock d = Some si -> session_keyed (sess si d) = true -> length (ls_key (sess si d)) = 32 ->
  length (line_of_payload payload) <= ENC_FRAME_PLAIN_MAX ->
  exec (enc_frame_send sock payload) d
  = set_out (out d ++ sealed_events (ls_key (sess si d)) (u64 (ls_tx_ctr (sess si d) + 1)) (line_of_payload payload) sock)
      (set_pool (alter bump_tx si (pool d)) d).
Proof.
  intros Hs Hk Hkey Hl. destruct (slot_for_Some _ _ _ Hs) as (s & Hp & Es & Esk & _).
  unfold enc_frame_send. st_unfold. rewrite find_run. fold (slot_for sock d).
  rewrite Hs, Hk. cbn [negb]. rewrite bool_decide_eq_false_2 by lia.
  rewrite bool_decide_eq_false_2 by (rewrite Es; tauto). cbn [orb].
  change (upd_sess si ?f ?x) with (tt, set_pool (alter f si (pool x)) x). cbn beta iota. fold bump_tx.
  assert (sess si (set_pool (alter bump_tx si (pool d)) d) = bump_tx (sess si d)) as ->
    by (apply sess_alter_eq; by eapply lookup_lt_Some).
  change (ls_tx_ctr (bump_tx ?x)) with (u64 (ls_tx_ctr x + 1)). change (ls_key (bump_tx ?x)) with (ls_key x).
  unfold aead, sealed_events. rewrite (bool_decide_eq_true_2 (gcm_setkey _ = _)) by (by apply gcm_setkey_ok).
  rewrite bool_decide_eq_false_2 by lia.
  destruct (gcm_crypt_and_tag _ _ _) as [rc [ct tag]]. case_bool_decide; [done|]. rewrite app_nil_r. by destruct d.
Qed.

Lemma app_nonce_length ctr : length (app_nonce ctr) = ENC_FRAME_NONCE_LEN.
Proof. done. Qed.
Lemma app_nonce_bytes ctr : Forall is_byte (app_nonce ctr).
Proof. apply Forall_app; split; [apply put_u32_bytes|apply put_u64_bytes]. Qed.

(** The frame buffer is large enough for every frame that is sent. *)
Lemma sealed_fits key ctr plain frame :
  sealed key ctr plain frame -> length plain <= ENC_FRAME_PLAIN_MAX ->
  length frame <= ENC_FRAME_BUF.
Proof.
  intros (ct & tag & E & ->) Hl. destruct (gcm_enc_length _ _ _ _ _ _ E) as [Hc Ht].
  unfold frame_text. rewrite !length_app, !base64_encode_length.
  rewrite length_app, Hc, Ht, app_nonce_length. unfold ENC_FRAME_BUF, B64_MAX, ENC_PREFIX_LEN.
  change (length ENC_PREFIX) with 4. change (length [COMMA]) with 1. change (length [NL]) with 1.
  assert ((length plain + 16 + 2) / 3 <= (ENC_FRAME_PLAIN_MAX + ENC_FRAME_TAG_LEN + 2) / 3).
  { apply Nat.Div0.div_le_mono. unfold ENC_FRAME_TAG_LEN. lia. }
  change ((ENC_FRAME_NONCE_LEN + 2) / 3) with 4. lia.
Qed.

(** ** A frame built for the device opens to its line *)

Definition dev_nonce (ctr : Z) : bytes := put_u32 ENC_FRAME_DIR_TO_DEV ++ put_u64 ctr.

(** The line the phone sends (without the ['\n'] the receive task strips). *)
Definition phone_frame (nonce ct : bytes) : bytes :=
  ENC_PREFIX ++ base64_encode nonce ++ [COMMA] ++ base64_encode ct.

Lemma split_phone_frame nonce ct :
  Forall is_byte nonce ->
  split_at COMMA (drop ENC_PREFIX_LEN (phone_frame nonce ct)) = Some (base64_encode nonce, base64_encode ct).
Proof.
  intros Hn. change (drop ENC_PREFIX_LEN (phone_frame nonce ct))
    with (base64_encode nonce ++ COMMA :: base64_encode ct).
  apply split_at_app. intros Hin. pose proof (base64_encode_clean nonce Hn) as HF.
  rewrite Forall_forall in HF. apply list_elem_of_In in Hin. by destruct (HF _ Hin).
Qed.

Lemma is_enc_phone_frame nonce ct : is_enc (phone_frame nonce ct) = true.
Proof.
  unfold is_enc, phone_frame, memcmp_eq. rewrite take_app_length.
  rewrite !bool_decide_eq_true_2; [done|done|]. rewrite !length_app.
  change (length ENC_PREFIX) with 4. cbn [length]. unfold ENC_PREFIX_LEN. lia.
Qed.

Lemma dev_nonce_dir ctr : get_u32 (dev_nonce ctr) = ENC_FRAME_DIR_TO_DEV.
Proof. apply get_put_u32. unfold ENC_FRAME_DIR_TO_DEV. lia. Qed.
Lemma app_nonce_dir ctr : get_u32 (app_nonce ctr) = ENC_FRAME_DIR_TO_APP.
Proof. apply get_put_u32. unfold ENC_FRAME_DIR_TO_APP. lia. Qed.

Lemma phone_frame_opens ss ctr plain ct tag cap :
  length (ls_key ss) = 32 -> (ls_rx_ctr ss < ctr)%Z -> (0 <= ctr < 2 ^ 64)%Z ->
  length plain <= ENC_FRAME_PLAIN_MAX -> length plain + ENC_FRAME_TAG_LEN <= cap ->
  Forall is_byte plain ->
  gcm_crypt_and_tag (ls_key ss) (dev_nonce ctr) plain = (0%Z, (ct, tag)) ->
  opens ss (phone_frame (dev_nonce ctr) (ct ++ tag)) cap ctr plain.
Proof.
  intros Hk Hlt Hr Hl Hcap Hpl E. destruct (gcm_enc_length _ _ _ _ _ _ E) as [Hc Ht].
  pose proof (gcm_enc_bytes _ _ _ _ _ _ Hpl E) as HB. change 16 with ENC_FRAME_TAG_LEN in Ht.
  assert (Forall is_byte (dev_nonce ctr)) as Hn
    by (apply Forall_app; split; [apply put_u32_bytes|apply put_u64_bytes]).
  exists (base64_encode (dev_nonce ctr)), (base64_encode (ct ++ tag)), (dev_nonce ctr), (ct ++ tag).
  assert (length (ct ++ tag) - ENC_FRAME_TAG_LEN = length ct) as El by (rewrite length_app; lia).
  rewrite El, take_app_length, drop_app_length. split_and!; try done; try apply dev_nonce_dir.
  - by apply split_phone_frame.
  - by apply base64_decode_encode; [|unfold ENC_FRAME_NONCE_LEN; cbn; lia].
  - apply base64_decode_encode; [done|]. rewrite length_app. lia.
  - rewrite length_app. lia.
  - rewrite length_app. lia.
  - symmetry. change (drop 4 (dev_nonce ctr)) with (put_u64 ctr).
    rewrite <- (app_nil_r (put_u64 ctr)). by apply get_put_u64.
  - by apply gcm_setkey_ok.
  - by eapply gcm_dec_enc.
Qed.

(** What the device sent is never accepted back: the direction differs. *)
Lemma app_frame_never_opens ss ctr ct cap c' plain :
  ~ opens ss (phone_frame (app_nonce ctr) ct) cap c' plain.
Proof.
  intros (p & c & n & ct' & Hsp & Hn & _ & _ & _ & Hd & _).
  rewrite split_phone_frame in Hsp by apply app_nonce_bytes. simplify_eq.
  rewrite base64_decode_encode in Hn; [|apply app_nonce_bytes|cbn; lia]. simplify_eq.
Qed.

(** Counters below the wrap-around give distinct nonces. *)
Lemma app_nonce_inj a b :
  (0 <= a < 2 ^ 64)%Z -> (0 <= b < 2 ^ 64)%Z -> app_nonce a = app_nonce b -> a = b.
Proof.
  intros Ha Hb H. apply app_inv_head in H.
  rewrite <- (get_put_u64 a [] Ha), <- (get_put_u64 b [] Hb). by rewrite H.
Qed.

End EncFrame.
