(* ===== verification/Discovery.v ===== *)
(** * Discovery: how a station-mode device is found

    [ble/discovery_mode.c] keeps which of Wi-Fi and BLE the device answers on;
    [ble/ble_beacon.c] runs the scan beacon, which advertises only while the
    BLE host is up, the station holds an address and the mode includes BLE. *)

From S2P Require Import Prelude Platform State Mdns.
From stdpp Require Import base list strings numbers.
From Stdlib Require Import ZArith Lia.

Local Open Scope cything_scope.

Section Discovery.
Context {P : Platform} {C : Config}.

(** ** [ble/discovery_mode.c] *)

Definition NVS_NS : string := "cy_ble".
Definition NVS_KEY_MODE : string := "disc_mode".

Definition discovery_mode_init : M unit :=
  let* err := io (nvs_open NVS_NS NVS_READONLY) in
  if negb (is_ok err) then ret tt else
  let* (err, mode) := ask (nvs_get_u8 NVS_NS NVS_KEY_MODE) in
  when (is_ok err && bool_decide (DISCOVERY_WIFI <= mode)%Z && bool_decide (mode <= DISCOVERY_BOTH)%Z)
    (modify (set_disc_mode mode)) ;;
  io_ (nvs_close NVS_NS).

Definition discovery_mode_get (d : Dev) : Z := disc_mode d.

Definition discovery_mode_set (mode : Z) : M esp_err_t :=
  if bool_decide (mode < DISCOVERY_WIFI)%Z || bool_decide (DISCOVERY_BOTH < mode)%Z
  then ret ESP_ERR_INVALID_ARG
  else
    let* err := io (nvs_open NVS_NS NVS_READWRITE) in
    if negb (is_ok err) then ret err else
    let* err := io (nvs_set_u8 NVS_NS NVS_KEY_MODE mode) in
    let* err :=
      (if is_ok err then
         let* err := io (nvs_commit NVS_NS) in
         when (is_ok err) (modify (set_disc_mode mode)) ;;
         ret err
       else ret err) in
    io_ (nvs_close NVS_NS) ;;
    ret err.

Definition discovery_mode_should_advertise_ble (d : Dev) : bool :=
  bool_decide (discovery_mode_get d = DISCOVERY_BLE)
  || bool_decide (discovery_mode_get d = DISCOVERY_BOTH).

(** ** [ble/ble_host.c] and the unit name *)

Definition BEACON_NAME_MAX : nat := 29.
Definition BLE_PAIRING_NAME_PREFIX : bytes := str "Cy_".

Definition hex_digit (n : Z) : Z := if bool_decide (n < 10)%Z then (48 + n)%Z else (55 + n)%Z.
Definition hex2 (b : Z) : bytes := [hex_digit (b / 16); hex_digit (b mod 16)].

(** [snprintf(out, 7, "%02X%02X%02X", mac[3], mac[4], mac[5])] *)
Definition wifi_get_unit_suffix : bytes :=
  hex2 (esp_efuse_mac !!! 3%nat) ++ hex2 (esp_efuse_mac !!! 4%nat) ++ hex2 (esp_efuse_mac !!! 5%nat).

Definition ble_host_init : M Z :=
  let* err := io nimble_port_init in
  ret (if is_ok err then 0 else -1)%Z.

Definition ble_host_resolve_addr : M Z :=
  let* rc := ask ble_hs_util_ensure_addr in
  if bool_decide (rc <> 0)%Z then ret rc else ask ble_hs_id_infer_auto.

(** Little-endian base UUID with the 16-bit slot at bytes 12/13. *)
Definition ble_uuid128_from_base (base : bytes) (id : Z) : bytes :=
  <[13%nat := Z.land (Z.shiftr id 8) 255]> (<[12%nat := Z.land id 255]> base).

(** ** [ble/ble_beacon.c] *)

Definition upd_beacon (f : beacon_state -> beacon_state) : M unit :=
  modify (fun d => set_beacon (f (beacon d)) d).

Definition build_name : M unit :=
  let* f := gets (provisioning_get_scan_fields 40 40 16) in
  let '(_, device_id, _) := f in
  if bool_decide (device_id = [])
  then upd_beacon (fun b => set_bc_adv_name_complete true
         (set_bc_adv_name (snprintf_s (BEACON_NAME_MAX + 1) (BLE_PAIRING_NAME_PREFIX ++ wifi_get_unit_suffix)) b))
  else upd_beacon (fun b => set_bc_adv_name (take BEACON_NAME_MAX device_id)
         (set_bc_adv_name_complete (bool_decide (length device_id <= BEACON_NAME_MAX)) b)).

Definition stop_advertising_locked : M unit :=
  let* b := gets beacon in
  if negb (bc_advertising b) then ret tt else
  let* rc := io ble_gap_adv_stop in
  emit EvAdvStop ;;
  upd_beacon (set_bc_advertising false).

Definition start_advertising_locked : M unit :=
  let* b := gets beacon in
  if negb (bc_host_ready b) || negb (bc_have_ip b) then ret tt else
  let* on := gets discovery_mode_should_advertise_ble in
  if negb on then stop_advertising_locked else
  stop_advertising_locked ;;
  let* b := gets beacon in
  let* rc := io (ble_gap_adv_set_fields (bc_mfg_data b)) in
  if bool_decide (rc <> 0)%Z then ret tt else
  let* rc := io (ble_gap_adv_rsp_set_fields (bc_adv_name b) (bc_adv_name_complete b)) in
  if bool_decide (rc <> 0)%Z then ret tt else
  let* rc := io ble_gap_adv_start in
  if bool_decide (rc <> 0)%Z then ret tt else
  emit (EvAdvStart (bc_mfg_data b)) ;;
  upd_beacon (set_bc_advertising true).

(** [BLE_GAP_EVENT_ADV_COMPLETE]; every other event is ignored. *)
Definition beacon_adv_complete : M unit :=
  upd_beacon (set_bc_advertising false) ;;
  start_advertising_locked.

Definition beacon_on_reset : M unit :=
  upd_beacon (set_bc_host_ready false) ;;
  upd_beacon (set_bc_advertising false).

Definition beacon_on_sync : M unit :=
  let* rc := ble_host_resolve_addr in
  if bool_decide (rc <> 0)%Z then ret tt else
  upd_beacon (set_bc_host_ready true) ;;
  start_advertising_locked.

Definition ble_beacon_start : M unit :=
  upd_beacon (set_bc_lock true) ;;
  let* rc := ble_host_init in
  if bool_decide (rc <> 0)%Z then ret tt else
  build_name.

Definition ble_beacon_on_ip (a1 a2 a3 a4 : Z) : M unit :=
  let* b := gets beacon in
  if negb (bc_lock b) then ret tt else
  upd_beacon (fun b => set_bc_mfg_data (take 3 (bc_mfg_data b) ++ [a1; a2; a3; a4]) b) ;;
  upd_beacon (set_bc_have_ip true) ;;
  start_advertising_locked.

Definition ble_beacon_on_ip_lost : M unit :=
  let* b := gets beacon in
  if negb (bc_lock b) then ret tt else
  upd_beacon (set_bc_have_ip false) ;;
  stop_advertising_locked.

Definition ble_beacon_apply_discovery_mode : M unit :=
  let* b := gets beacon in
  if negb (bc_lock b) then ret tt else start_advertising_locked.

End Discovery.
