(* ===== verification/AccessPolicy.v ===== *)
(** * AccessPolicy: who may send what on the local link ([security/access_policy.c])

    [local_auth_enforce] is the compile-time switch [LOCAL_AUTH_ENFORCE]. *)

From S2P Require Import Prelude Platform State LocalSession Mdns EncFrame.
From stdpp Require Import base list strings numbers.
From Stdlib Require Import ZArith Lia.

Local Open Scope cything_scope.

Section AccessPolicy.
Context {P : Platform} {C : Config}.

Definition is_handshake (line : bytes) : bool :=
  has_prefix line (str "PAKE1:") || has_prefix line (str "PAKE3:") ||
  has_prefix line (str "AUTH1:") || has_prefix line (str "AUTH3:") ||
  has_prefix line (str "ENROLL:").

Definition is_public (line : bytes) (d : Dev) : bool :=
  if has_prefix line cy_scan_command then true
  else if negb (device_password_is_set d) then true
  else app_command_is_public line.

Definition authenticated (s : local_session_t) : bool :=
  bool_decide (ls_state s = LS_AUTH_OK)
  || (bool_decide (ls_state s = LS_PAKE_OK) && bool_decide (0 <= ls_paired_index s)%Z).

Definition access_policy_sock_authenticated (sock : Z) : M bool :=
  let* o := local_session_find sock in
  match o with
  | None => ret false
  | Some si => gets (fun d => authenticated (sess si d))
  end.

Definition send_plain (sock : Z) (text : bytes) : M unit := send sock (text ++ [NL]).

Definition ERR_AUTH : bytes := str "ERR:AUTH".

Definition access_policy_allow (line : bytes) (sock : Z) : M bool :=
  let* public := gets (is_public line) in
  if is_handshake line || public then ret true else
  let* o := local_session_find sock in
  let* authed := access_policy_sock_authenticated sock in
  let* encrypted := gets (fun d => match o with
                                   | Some si => ls_rx_encrypted (sess si d)
                                   | None => false
                                   end) in
  if authed && encrypted then ret true
  else if local_auth_enforce then
    (if negb authed then send_plain sock ERR_AUTH else send_plain sock ERR_ENC) ;;
    ret false
  else ret true.

End AccessPolicy.
