(* ===== verification/PakeHandler.v ===== *)
(** * PakeHandler: password pairing, PAKE1..PAKE4 ([security/pake_handler.c])

    The SRP-6a arithmetic is [esp_srp]'s; the handler owns the order of the
    steps, the lockout checks and what happens to the session. *)

From S2P Require Import Prelude Platform State LocalSession Mdns EncFrame DevicePassword.
From stdpp Require Import base list strings numbers.
From Stdlib Require Import ZArith Lia.

Local Open Scope cything_scope.

Section PakeHandler.
Context {P : Platform} {C : Config}.

Definition PAKE1_PREFIX : bytes := str "PAKE1:".
Definition PAKE3_PREFIX : bytes := str "PAKE3:".
Definition SRP_BYTES_MAX : nat := 384.
Definition SRP_PROOF_LEN : nat := 64.

(** [char buf[64]; n = snprintf(buf, 64, "%s\n", text)] *)
Definition security_send_line (sock : Z) (text : bytes) : M unit :=
  if bool_decide (length text + 1 < 64) then enc_frame_send sock (text ++ [NL])
  else send sock text ;; send sock [NL].

(** [char buf[32]; snprintf(buf, 32, "ERR:%s", code)] *)
Definition send_err (sock : Z) (code : bytes) : M unit :=
  security_send_line sock (snprintf_s 32 (str "ERR:" ++ code)).

(** [None] where the source returns -1. *)
Definition decode_payload (line prefix : bytes) (out_size : nat) : option bytes :=
  if bool_decide (length line <= length prefix) then None
  else match base64_decode out_size (drop (length prefix) line) with
       | Some x => if bool_decide (length x = 0) then None else Some x
       | None => None
       end.

Definition abort_pake (si : nat) : M unit :=
  free_srp si ;;
  upd_sess si (set_ls_key (zeros 32)) ;;
  upd_sess si (set_ls_state LS_NEW).

(** The SRP set-up of PAKE1: [err], [B], [K]. *)
Definition srp_setup (hd : srp_handle) (salt ver A : bytes)
    : M (esp_err_t * (option bytes * option bytes)) :=
  let* err := io (esp_srp_set_salt_verifier hd salt ver) in
  if negb (is_ok err) then ret (err, (None, None)) else
  let* (err, B) := io (esp_srp_srv_pubkey hd) in
  if negb (is_ok err) then ret (err, (B, None)) else
  let* (err, K) := io (esp_srp_get_session_key hd A) in
  ret (err, (B, K)).

Definition pake2_line (salt B : bytes) : bytes :=
  str "PAKE2:" ++ base64_encode salt ++ [COMMA] ++ base64_encode B.

Definition handle_pake1 (si : nat) (line : bytes) : M unit :=
  local_session_reset_handshake si ;;
  let* s := gets (sess si) in
  let sock := ls_sock s in
  let* lock := device_password_lock_remaining_s (ls_peer_ip s) in
  if bool_decide (0 < lock)%Z then
    send_err sock (snprintf_s 24 (str "LOCKED," ++ dec_u lock))
  else
  match decode_payload line PAKE1_PREFIX SRP_BYTES_MAX with
  | None => send_err sock (str "BADFMT")
  | Some A =>
    let* vp := device_password_get in
    match vp with
    | None => send_err sock (str "NOPW")
    | Some (salt, ver) =>
      let* h := io esp_srp_init in
      match h with
      | None => send_err sock (str "NOMEM")
      | Some hd =>
        let* (err, (B, K)) := srp_setup hd salt ver A in
        match is_ok err, B, K with
        | true, Some B, Some K =>
          if bool_decide (length K < 32) || bool_decide (SRP_BYTES_MAX < length B) then
            io_ (esp_srp_free hd) ;; send_err sock (str "NOMEM")
          else
            upd_sess si (set_ls_key (take 32 K)) ;;
            upd_sess si (set_ls_srp (Some hd)) ;;
            upd_sess si (set_ls_state LS_PAKE_WAIT_PROOF) ;;
            security_send_line sock (pake2_line salt B)
        | _, _, _ => io_ (esp_srp_free hd) ;; send_err sock (str "NOMEM")
        end
      end
    end
  end.

Definition handle_pake3 (si : nat) (line : bytes) : M unit :=
  let* s := gets (sess si) in
  let sock := ls_sock s in
  match bool_decide (ls_state s <> LS_PAKE_WAIT_PROOF), ls_srp s with
  | false, Some hd =>
    match decode_payload line PAKE3_PREFIX SRP_PROOF_LEN with
    | Some M1 =>
      if bool_decide (length M1 <> SRP_PROOF_LEN) then
        abort_pake si ;; send_err sock (str "BADFMT")
      else
        let* (err, M2) := io (esp_srp_exchange_proofs hd DEVICE_PW_SRP_IDENTITY M1) in
        if negb (is_ok err) then
          device_password_note_failure (ls_peer_ip s) ;;
          abort_pake si ;;
          send_err sock (str "BADPW")
        else
          free_srp si ;;
          device_password_note_success (ls_peer_ip s) ;;
          security_send_line sock (str "PAKE4:" ++ base64_encode M2) ;;
          upd_sess si (fun s => set_ls_tx_ctr 0 (set_ls_rx_ctr 0 s)) ;;
          upd_sess si (set_ls_state LS_PAKE_OK)
    | None => abort_pake si ;; send_err sock (str "BADFMT")
    end
  | _, _ => send_err sock (str "SEQ")
  end.

Definition pake_handle_line (line : bytes) (sock : Z) : M bool :=
  let is1 := has_prefix line PAKE1_PREFIX in
  let is3 := has_prefix line PAKE3_PREFIX in
  if negb is1 && negb is3 then ret false else
  let* o := local_session_find sock in
  match o with
  | None => send_err sock (str "NOSESSION") ;; ret true
  | Some si => (if is1 then handle_pake1 si line else handle_pake3 si line) ;; ret true
  end.

End PakeHandler.
