(* ===== verification/LocalAuth.v ===== *)
(** * LocalAuth: enrollment and reconnect authentication ([security/local_auth.c])

    ENROLL inside a PAKE session, and the AUTH1..AUTH3 challenge-response that
    turns an account key into a session key. *)

From S2P Require Import Prelude Platform State LocalSession Mdns EncFrame PairedList PairingEvents.
From S2P Require Import DevicePassword PakeHandler.
From stdpp Require Import base list strings numbers.
From Stdlib Require Import ZArith Lia.

Local Open Scope cything_scope.

Section LocalAuth.
Context {P : Platform} {C : Config}.

Definition ENROLL_PREFIX : bytes := str "ENROLL:".
Definition AUTH1_PREFIX : bytes := str "AUTH1:".
Definition AUTH3_PREFIX : bytes := str "AUTH3:".

(** ** Crypto helpers *)

Definition local_auth_hmac (key msg : bytes) : bytes := mbedtls_md_hmac key msg.

(** RFC 5869 with L = 32; [info] is cut to the 63 bytes the block holds. *)
Definition local_auth_hkdf32 (ikm salt info : bytes) : bytes :=
  let prk := local_auth_hmac salt ikm in
  let info_len := if bool_decide (63 < length info) then 63 else length info in
  local_auth_hmac prk (take info_len info ++ [1%Z]).

(** [for(i = 0; i < n; i++) d |= a[i] ^ b[i]; return d == 0;] with [uint8_t d]. *)
Fixpoint ct_diff (n : nat) (a b : bytes) (d : Z) : Z :=
  match n with
  | O => d
  | S n' => ct_diff n' (tail a) (tail b)
              (u8 (Z.lor d (Z.lxor (default 0%Z (head a)) (default 0%Z (head b)))))
  end.
Definition local_auth_ct_equal (a b : bytes) (n : nat) : bool :=
  bool_decide (ct_diff n a b 0 = 0%Z).

Definition proof (key label first second : bytes) : bytes :=
  local_auth_hmac key (take 3 label ++ take LOCAL_AUTH_NONCE_LEN first
                       ++ take LOCAL_AUTH_NONCE_LEN second).

(** ** Line helpers *)

(** The loop over the fields: [sizes] are the capacities of the buffers. *)
Fixpoint decode_loop (p : bytes) (sizes : list nat) : option (list bytes) :=
  match sizes with
  | [] => Some []
  | [size] =>
      match split_at COMMA p with
      | Some _ => None
      | None => (fun x => [x]) <$> base64_decode size p
      end
  | size :: sizes' =>
      match split_at COMMA p with
      | None => None
      | Some (f, rest) =>
          match base64_decode size f with
          | None => None
          | Some x => cons x <$> decode_loop rest sizes'
          end
      end
  end.

Definition decode_fields (line prefix : bytes) (sizes : list nat) : option (list bytes) :=
  if bool_decide (length line <= length prefix) then None
  else decode_loop (drop (length prefix) line) sizes.

Definition count_fields (line prefix : bytes) : nat :=
  if bool_decide (length line <= length prefix) then 0
  else S (length (filter (fun c => c = COMMA) (drop (length prefix) line))).

Definition to_cstr (in_ : bytes) (out_size : nat) : option bytes :=
  if bool_decide (length in_ = 0) || bool_decide (out_size <= length in_) then None
  else if forallb (fun c => negb (bool_decide (c < 32)%Z || bool_decide (c = 127)%Z)) in_
  then Some in_ else None.

Definition now_unix (w : World) : Z :=
  let t := time_now w in if bool_decide (1600000000 < t)%Z then u32 t else 0%Z.

(** ** ENROLL *)

Definition REPLACE_SUFFIX : bytes := str ",replace".

Definition strip_replace (line : bytes) : bytes :=
  let n := length REPLACE_SUFFIX in
  if bool_decide (n < length line) && bool_decide (drop (length line - n) line = REPLACE_SUFFIX)
  then take (length line - n) line else line.

Definition ENROLL_SIZES (n : nat) : list nat :=
  take n [PAIRED_SUB_MAX + 1; PAIRED_EMAIL_MAX + 1; PAIRED_SUB_MAX + 1].

(** The account and its label, or [None] for ERR:BADFMT. *)
Definition parse_enroll (line : bytes) : option (bytes * bytes) :=
  let line := strip_replace line in
  let nfields := count_fields line ENROLL_PREFIX in
  if negb (bool_decide (nfields = 2)) && negb (bool_decide (nfields = 3)) then None else
  match decode_fields line ENROLL_PREFIX (ENROLL_SIZES nfields) with
  | Some (f_sub :: f_email :: _) =>
      match to_cstr f_sub (PAIRED_SUB_MAX + 1), to_cstr f_email (PAIRED_EMAIL_MAX + 1) with
      | Some user_sub, Some email => Some (user_sub, email)
      | _, _ => None
      end
  | _ => None
  end.

Definition role_text (role : Z) : bytes :=
  if bool_decide (role = PAIRED_ROLE_OWNER) then str "owner" else str "user".

(** [char reply[sizeof("ENROLLED:") + B64_MAX(32) + sizeof(",owner")]]: 62 bytes. *)
Definition enrolled_line (k : bytes) (role : Z) : bytes :=
  str "ENROLLED:" ++ base64_encode k ++ [COMMA] ++ role_text role.

Definition handle_enroll (si : nat) (line : bytes) : M unit :=
  let* s := gets (sess si) in
  let sock := ls_sock s in
  if bool_decide (ls_state s <> LS_PAKE_OK) || negb (ls_rx_encrypted s) then
    send_err sock (str "SEQ")
  else
  match parse_enroll line with
  | None => send_err sock (str "BADFMT")
  | Some (user_sub, email) =>
    let* k := io (esp_fill_random PAIRED_KEY_LEN) in
    let* now := ask now_unix in
    let* (index, (k_account, role)) := paired_list_add user_sub email k now in
    if bool_decide (index < 0)%Z then send_err sock (str "FULL") else
    upd_sess si (set_ls_paired_index index) ;;
    upd_sess si (set_ls_role (role_of role)) ;;
    security_send_line sock (enrolled_line k_account role) ;;
    pairing_events_push (str "paired") user_sub (role_text role)
  end.

(** ** AUTH1 / AUTH3 *)

Definition AUTH1_SIZES (n : nat) : list nat :=
  if bool_decide (n = 3) then [PAIRED_SUB_MAX + 1; PAIRED_SUB_MAX + 1; LOCAL_AUTH_NONCE_LEN + 1]
  else [PAIRED_SUB_MAX + 1; LOCAL_AUTH_NONCE_LEN + 1].

(** The account and the phone's nonce. *)
Definition parse_auth1 (line : bytes) : option (bytes * bytes) :=
  let nfields := count_fields line AUTH1_PREFIX in
  if negb (bool_decide (nfields = 2)) && negb (bool_decide (nfields = 3)) then None else
  match decode_fields line AUTH1_PREFIX (AUTH1_SIZES nfields) with
  | Some fs =>
      match to_cstr (fs !!! 0%nat) (PAIRED_SUB_MAX + 1) with
      | Some user_sub =>
          let f_np := fs !!! (nfields - 1)%nat in
          if bool_decide (length f_np = LOCAL_AUTH_NONCE_LEN) then Some (user_sub, f_np) else None
      | None => None
      end
  | None => None
  end.

Definition auth2_line (nonce_dev mac : bytes) : bytes :=
  str "AUTH2:" ++ base64_encode nonce_dev ++ [COMMA] ++ base64_encode mac.

Definition handle_auth1 (si : nat) (line : bytes) : M unit :=
  local_session_reset_handshake si ;;
  let* s := gets (sess si) in
  let sock := ls_sock s in
  match parse_auth1 line with
  | None => send_err sock (str "BADFMT")
  | Some (user_sub, f_np) =>
    let* index := paired_list_find user_sub in
    let* e := (if bool_decide (index < 0)%Z then ret None else paired_list_get index) in
    match e with
    | None => send_err sock (str "UNKNOWN")
    | Some entry =>
      upd_sess si (set_ls_nonce_phone f_np) ;;
      let* nd := io (esp_fill_random LOCAL_AUTH_NONCE_LEN) in
      upd_sess si (set_ls_nonce_dev nd) ;;
      upd_sess si (set_ls_key (pe_key entry)) ;;
      upd_sess si (set_ls_paired_index index) ;;
      upd_sess si (set_ls_state LS_AUTH_WAIT_PROOF) ;;
      let* s := gets (sess si) in
      let mac := proof (ls_key s) (str "dev") (ls_nonce_phone s) (ls_nonce_dev s) in
      security_send_line sock (auth2_line (ls_nonce_dev s) mac)
    end
  end.

(** [decode_fields(..., 1) && lens[0] == 32] *)
Definition parse_auth3 (line : bytes) : option bytes :=
  match decode_fields line AUTH3_PREFIX [LOCAL_AUTH_MAC_LEN + 1] with
  | Some [got] => if bool_decide (length got = LOCAL_AUTH_MAC_LEN) then Some got else None
  | _ => None
  end.

Definition expected_proof (s : local_session_t) : bytes :=
  proof (ls_key s) (str "phn") (ls_nonce_dev s) (ls_nonce_phone s).

Definition session_key (s : local_session_t) : bytes :=
  local_auth_hkdf32 (ls_key s)
    (take LOCAL_AUTH_NONCE_LEN (ls_nonce_phone s) ++ take LOCAL_AUTH_NONCE_LEN (ls_nonce_dev s))
    LOCAL_AUTH_HKDF_INFO.

Definition handle_auth3 (si : nat) (line : bytes) : M unit :=
  let* s := gets (sess si) in
  let sock := ls_sock s in
  if bool_decide (ls_state s <> LS_AUTH_WAIT_PROOF) then send_err sock (str "SEQ") else
  match parse_auth3 line with
  | None => send_err sock (str "BADFMT")
  | Some got =>
    if negb (local_auth_ct_equal got (expected_proof s) LOCAL_AUTH_MAC_LEN) then
      upd_sess si (set_ls_key (zeros 32)) ;;
      upd_sess si (set_ls_paired_index (-1)) ;;
      upd_sess si (set_ls_state LS_NEW) ;;
      send_err sock (str "BADAUTH")
    else
      upd_sess si (set_ls_key (session_key s)) ;;
      upd_sess si (set_ls_role LS_ROLE_USER) ;;
      let* e := paired_list_get (ls_paired_index s) in
      match e with
      | Some entry => when (bool_decide (pe_role entry = PAIRED_ROLE_OWNER))
                        (upd_sess si (set_ls_role LS_ROLE_OWNER))
      | None => ret tt
      end ;;
      let* s := gets (sess si) in
      security_send_line sock (if bool_decide (ls_role s = LS_ROLE_OWNER)
                               then str "AUTHOK:owner" else str "AUTHOK:user") ;;
      upd_sess si (fun s => set_ls_tx_ctr 0 (set_ls_rx_ctr 0 s)) ;;
      upd_sess si (set_ls_state LS_AUTH_OK)
  end.

(** ** Dispatch *)

Definition local_auth_handle_line (line : bytes) (sock : Z) : M bool :=
  let is_enroll := has_prefix line ENROLL_PREFIX in
  let is_auth1 := has_prefix line AUTH1_PREFIX in
  let is_auth3 := has_prefix line AUTH3_PREFIX in
  if negb is_enroll && negb is_auth1 && negb is_auth3 then ret false else
  let* o := local_session_find sock in
  match o with
  | None => send_err sock (str "NOSESSION") ;; ret true
  | Some si =>
      (if is_enroll then handle_enroll si line
       else if is_auth1 then handle_auth1 si line
       else handle_auth3 si line) ;;
      ret true
  end.

End LocalAuth.
