(* ===== verification/OwnerCommands.v ===== *)
(** * OwnerCommands: paired-list and password management ([security/owner_commands.c]) *)

From S2P Require Import Prelude Platform State LocalSession Mdns EncFrame PairedList PairingEvents.
From S2P Require Import DevicePassword PakeHandler LocalAuth Discovery.
From stdpp Require Import base list strings numbers.
From Stdlib Require Import ZArith Lia.

Local Open Scope cything_scope.

Section OwnerCommands.
Context {P : Platform} {C : Config}.

Definition is_exact (line cmd : bytes) : bool := bool_decide (line = cmd).

(** ** Session checks *)

Definition is_owner_session (s : local_session_t) : bool :=
  if negb (ls_rx_encrypted s) || bool_decide (ls_role s <> LS_ROLE_OWNER) then false
  else bool_decide (ls_state s = LS_AUTH_OK)
       || (bool_decide (ls_state s = LS_PAKE_OK) && bool_decide (0 <= ls_paired_index s)%Z).

Definition is_authed_session (s : local_session_t) : bool :=
  if negb (ls_rx_encrypted s) || bool_decide (ls_paired_index s < 0)%Z then false
  else bool_decide (ls_state s = LS_AUTH_OK) || bool_decide (ls_state s = LS_PAKE_OK).

(** The decoded field and what [*p] points at afterwards; [None] for -1. *)
Definition next_b64_field (p : bytes) (out_size : nat) (last : bool) : option (bytes * bytes) :=
  match split_at COMMA p with
  | Some (f, rest) =>
      if last then None else (fun x => (x, rest)) <$> base64_decode out_size f
  | None =>
      if last then (fun x => (x, [])) <$> base64_decode out_size p else None
  end.

(** ** LIST *)

(** [sizeof("PAIRED:") + B64_MAX(40) + B64_MAX(64) + 2 + 10 + 1 + 6] *)
Definition LIST_LINE : nat := 8 + B64_MAX PAIRED_SUB_MAX + B64_MAX PAIRED_EMAIL_MAX + 2 + 10 + 1 + 6.

Definition paired_line (e : paired_entry_t) : bytes :=
  let head := str "PAIRED:" ++ base64_encode (cstr (pe_user_sub e)) ++ [COMMA]
              ++ base64_encode (cstr (pe_user_email e)) in
  head ++ snprintf_s (LIST_LINE - length head)
            ([COMMA] ++ dec_u (pe_paired_at e) ++ [COMMA] ++ role_text (pe_role e)).

Fixpoint list_loop (sock : Z) (n i : nat) : M unit :=
  match n with
  | O => ret tt
  | S n' =>
      let* e := paired_list_get (Z.of_nat i) in
      match e with
      | None => ret tt
      | Some e => security_send_line sock (paired_line e) ;; list_loop sock n' (S i)
      end
  end.

Definition handle_list (si : nat) : M unit :=
  let* s := gets (sess si) in
  let* count := gets paired_list_count in
  list_loop (ls_sock s) count 0 ;;
  security_send_line (ls_sock s) (snprintf_s 24 (str "PAIREND:" ++ dec_u (Z.of_nat count))).

(** ** REVOKE *)

(** The account to revoke; a trailing installId is only checked. *)
Definition parse_revoke (line : bytes) : option bytes :=
  let p := drop (length (str "REVOKE:")) line in
  let has_install := match split_at COMMA p with Some _ => true | None => false end in
  match next_b64_field p (PAIRED_SUB_MAX + 1) (negb has_install) with
  | None => None
  | Some (f_sub, p) =>
      match to_cstr f_sub (PAIRED_SUB_MAX + 1) with
      | None => None
      | Some user_sub =>
          if has_install then
            match next_b64_field p (PAIRED_SUB_MAX + 1) true with
            | None => None
            | Some (f_inst, _) =>
                match to_cstr f_inst (PAIRED_SUB_MAX + 1) with
                | None => None
                | Some _ => Some user_sub
                end
            end
          else Some user_sub
      end
  end.

Definition handle_revoke (si : nat) (line : bytes) : M unit :=
  let* s := gets (sess si) in
  let sock := ls_sock s in
  match parse_revoke line with
  | None => send_err sock (str "BADFMT")
  | Some user_sub =>
    let* index := paired_list_find user_sub in
    let* e := (if bool_decide (index < 0)%Z then ret None else paired_list_get index) in
    match e with
    | None => send_err sock (str "UNKNOWN")
    | Some e =>
      if bool_decide (index = ls_paired_index s) then send_err sock (str "OWNER") else
      let* err := paired_list_remove index in
      if negb (is_ok err) then send_err sock (str "STORE") else
      local_session_on_paired_removed index ;;
      pairing_events_push (str "unpaired") user_sub (role_text (pe_role e)) ;;
      security_send_line sock (str "ACK")
    end
  end.

(** ** PWSET *)

(** [while(i < paired_list_count())]: each turn removes an entry or advances
    [i], so [count] turns are enough. *)
Fixpoint revoke_loop (fuel i : nat) : M unit :=
  match fuel with
  | O => ret tt
  | S f =>
      let* count := gets paired_list_count in
      if bool_decide (count <= i) then ret tt else
      let* e := paired_list_get (Z.of_nat i) in
      match e with
      | None => ret tt
      | Some e =>
          if bool_decide (pe_role e <> PAIRED_ROLE_OWNER) then
            let sub := snprintf_s (PAIRED_SUB_MAX + 1) (cstr (pe_user_sub e)) in
            let* err := paired_list_remove (Z.of_nat i) in
            if is_ok err then
              local_session_on_paired_removed (Z.of_nat i) ;;
              pairing_events_push (str "unpaired") sub (str "user") ;;
              revoke_loop f i
            else revoke_loop f (S i)
          else revoke_loop f (S i)
      end
  end.

Definition revoke_all_non_owner : M unit :=
  let* count := gets paired_list_count in revoke_loop count 0.

Definition handle_pwset (si : nat) (line : bytes) : M unit :=
  let* s := gets (sess si) in
  let sock := ls_sock s in
  match next_b64_field (drop (length (str "PWSET:")) line) (DEVICE_PW_MAX_LEN + 1) true with
  | None => send_err sock (str "BADFMT")
  | Some (pw, _) =>
    if bool_decide (length pw < DEVICE_PW_MIN_LEN) || bool_decide (DEVICE_PW_MAX_LEN < length pw)
    then send_err sock (str "BADFMT") else
    let* err := device_password_set pw in
    if negb (is_ok err) then send_err sock (str "STORE") else
    revoke_all_non_owner ;;
    paired_list_rotate_owner_key ;;
    security_send_line sock (str "ACK")
  end.

(** ** PWCLEAR, RESET *)

Definition handle_pwclear (si : nat) : M unit :=
  let* s := gets (sess si) in
  let* err := device_password_clear in
  if negb (is_ok err) then send_err (ls_sock s) (str "STORE")
  else security_send_line (ls_sock s) (str "ACK").

Definition handle_reset (si : nat) : M unit :=
  let* s := gets (sess si) in
  security_send_line (ls_sock s) (str "ACK") ;;
  paired_list_clear ;;
  device_password_clear ;;
  local_session_drop_all_auth ;;
  pairing_events_push (str "reset") [] [].

(** ** DISCOVERYMODE *)

Definition handle_discoverymode (si : nat) (line : bytes) : M unit :=
  let* s := gets (sess si) in
  match drop (length (str "DISCOVERYMODE:")) line with
  | [c] =>
      if bool_decide (c < 49)%Z || bool_decide (51 < c)%Z then send_err (ls_sock s) (str "BADFMT") else
      let* err := discovery_mode_set (c - 48) in
      if negb (is_ok err) then send_err (ls_sock s) (str "STORE") else
      ble_beacon_apply_discovery_mode ;;
      security_send_line (ls_sock s) (str "ACK")
  | _ => send_err (ls_sock s) (str "BADFMT")
  end.

Definition handle_discoverymode_get (si : nat) : M unit :=
  let* s := gets (sess si) in
  let* m := gets discovery_mode_get in
  security_send_line (ls_sock s) (snprintf_s 24 (str "DISCOVERYMODE:" ++ dec m)).

(** ** UNPAIR *)

Definition handle_unpair (si : nat) : M unit :=
  let* s := gets (sess si) in
  let sock := ls_sock s in
  let* e := paired_list_get (ls_paired_index s) in
  match e with
  | None => send_err sock (str "UNKNOWN")
  | Some e =>
    if bool_decide (pe_role e = PAIRED_ROLE_OWNER) then send_err sock (str "OWNER") else
    security_send_line sock (str "ACK") ;;
    let* s := gets (sess si) in
    let index := ls_paired_index s in
    let* err := paired_list_remove index in
    if is_ok err then
      local_session_on_paired_removed index ;;
      pairing_events_push (str "unpaired") (cstr (pe_user_sub e)) (str "user")
    else ret tt
  end.

(** ** Dispatch *)

Definition owner_commands_handle_line (line : bytes) (sock : Z) : M bool :=
  let is_list := is_exact line (str "LIST") in
  let is_revoke := has_prefix line (str "REVOKE:") in
  let is_pwset := has_prefix line (str "PWSET:") in
  let is_pwclear := is_exact line (str "PWCLEAR") in
  let is_reset := is_exact line (str "RESET") in
  let is_discoverymode := has_prefix line (str "DISCOVERYMODE:") in
  let is_discoverymode_q := is_exact line (str "DISCOVERYMODE?") in
  let is_unpair := is_exact line (str "UNPAIR") in
  if negb (is_list || is_revoke || is_pwset || is_pwclear || is_reset || is_discoverymode
           || is_discoverymode_q || is_unpair) then ret false else
  let* o := local_session_find sock in
  match o with
  | None => send_err sock (str "NOSESSION") ;; ret true
  | Some si =>
    let* s := gets (sess si) in
    if is_unpair then
      (if negb (is_authed_session s) then send_err sock (str "AUTH") else handle_unpair si) ;;
      ret true
    else if negb (is_owner_session s) then send_err sock (str "AUTH") ;; ret true
    else
      (if is_list then handle_list si
       else if is_revoke then handle_revoke si line
       else if is_pwset then handle_pwset si line
       else if is_pwclear then handle_pwclear si
       else if is_discoverymode then handle_discoverymode si line
       else if is_discoverymode_q then handle_discoverymode_get si
       else handle_reset si) ;;
      ret true
  end.

End OwnerCommands.
