(* ===== verification/ResponseFifo.v ===== *)
(** * ResponseFifo: the byte FIFO of outgoing lines ([common/response_fifo.c])

    The buffer is the raw 5120-byte array with its fill level, so that what a
    drain or a discard leaves behind is visible. [data_ready] is the binary
    semaphore. [response_fifo_overwrite_oldest] is the compile-time choice
    [RESPONSE_FIFO_ON_FULL]. *)

From S2P Require Import Prelude Platform State.
From stdpp Require Import base list strings numbers.
From Stdlib Require Import ZArith Lia.

Local Open Scope cything_scope.

Section ResponseFifo.
Context {P : Platform} {C : Config}.

(** ** Operations *)

Definition response_fifo_init : response_fifo_t := Build_fifo (zeros RESPONSE_FIFO_SIZE) 0 false.

(** [memmove(buf, buf + n, len - n); len -= n; memset(buf + len, 0, n);] *)
Definition drop_head (n : nat) (f : response_fifo_t) : response_fifo_t :=
  let rest := f_len f - n in
  let buf := blit 0 (take rest (drop n (f_buf f))) (f_buf f) in
  Build_fifo (blit rest (zeros n) buf) rest (f_ready f).

(** How many head bytes the discard loop gives up; each turn takes a line, so
    [len] turns are enough. *)
Fixpoint discard_loop (fuel discard need : nat) (f : response_fifo_t) : nat :=
  match fuel with
  | O => discard
  | S fuel' =>
      if bool_decide (RESPONSE_FIFO_SIZE - (f_len f - discard) < need)
         && bool_decide (discard < f_len f)
      then let pending := take (f_len f - discard) (drop discard (f_buf f)) in
           let discard' := match split_at NL pending with
                           | Some (l, _) => discard + length l + 1
                           | None => f_len f
                           end in
           discard_loop fuel' discard' need f
      else discard
  end.

Definition discard_oldest (need : nat) (f : response_fifo_t) : response_fifo_t :=
  let discard := discard_loop (f_len f) 0 need f in
  if bool_decide (0 < discard) then drop_head discard f else f.

Definition ends_nl (data : bytes) : bool :=
  match rev data with c :: _ => bool_decide (c = NL) | [] => false end.

Definition response_fifo_push (data : bytes) (f : response_fifo_t) : bool * response_fifo_t :=
  let add_nl := negb (ends_nl data) in
  let need := length data + (if add_nl then 1 else 0) in
  if bool_decide (RESPONSE_FIFO_SIZE < need) then (false, f) else
  let full := bool_decide (RESPONSE_FIFO_SIZE < f_len f + need) in
  if full && negb response_fifo_overwrite_oldest then (false, f) else
  let f := if full then discard_oldest need f else f in
  let buf := blit (f_len f) data (f_buf f) in
  let len := f_len f + length data in
  if add_nl then (true, Build_fifo (blit len [NL] buf) (S len) true)
  else (true, Build_fifo buf len true).

Definition response_fifo_drain (out_cap : nat) (f : response_fifo_t) : bytes * response_fifo_t :=
  let n := if bool_decide (f_len f < out_cap) then f_len f else out_cap in
  (take n (f_buf f), drop_head n f).

Definition response_fifo_is_empty (f : response_fifo_t) : bool := bool_decide (f_len f = 0).

(** Whether there is data without blocking, and the semaphore afterwards. *)
Definition response_fifo_wait (f : response_fifo_t) : bool * response_fifo_t :=
  if negb (response_fifo_is_empty f) then (true, f)
  else (f_ready f, set_f_ready false f).

(** ** The FIFO is a bounded byte queue *)

Definition contents (f : response_fifo_t) : bytes := take (f_len f) (f_buf f).

(** The array keeps its size and everything past the fill level is zero. *)
Definition fifo_ok (f : response_fifo_t) : Prop :=
  length (f_buf f) = RESPONSE_FIFO_SIZE /\ f_len f <= RESPONSE_FIFO_SIZE /\
  drop (f_len f) (f_buf f) = zeros (RESPONSE_FIFO_SIZE - f_len f).

(** What a push stores for [data]. *)
Definition stored (data : bytes) : bytes := if ends_nl data then data else data ++ [NL].

Lemma drop_zeros k n : drop k (zeros n) = zeros (n - k).
Proof. apply drop_replicate. Qed.

Lemma fifo_init_ok : fifo_ok response_fifo_init /\ contents response_fifo_init = [].
Proof. split; [split_and!|]; [apply zeros_length|cbn; lia|done|done]. Qed.

(** Appending at the fill level. *)
Lemma append_ok f data ready :
  fifo_ok f -> f_len f + length data <= RESPONSE_FIFO_SIZE ->
  let f' := Build_fifo (blit (f_len f) data (f_buf f)) (f_len f + length data) ready in
  fifo_ok f' /\ contents f' = contents f ++ data.
Proof.
  intros (Hl & Hn & Hz) Hd. cbn zeta. split; [split_and!; cbn [f_buf f_len f_ready]|].
  - by rewrite length_blit by lia.
  - done.
  - rewrite drop_blit by lia. rewrite <- drop_drop, Hz, drop_zeros. f_equal. lia.
  - unfold contents. cbn [f_buf f_len]. by rewrite take_blit by lia.
Qed.

Lemma drop_head_ok f n :
  fifo_ok f -> n <= f_len f ->
  fifo_ok (drop_head n f) /\ contents (drop_head n f) = drop n (contents f).
Proof.
  intros (Hl & Hn & Hz) Hd. set (rest := f_len f - n).
  set (keep := take rest (drop n (f_buf f))).
  assert (length keep = rest) as Hk by (subst keep rest; rewrite length_take, length_drop; lia).
  assert (keep = drop n (contents f)) as Ek.
  { subst keep rest. unfold contents. rewrite take_drop_commute. f_equal. f_equal. lia. }
  set (buf := blit 0 keep (f_buf f)).
  assert (length buf = RESPONSE_FIFO_SIZE) as Hb by (subst buf; rewrite length_blit by lia; done).
  assert (take rest buf = keep) as Et.
  { subst buf. rewrite <- Hk. by rewrite (take_blit 0 keep) by lia. }
  assert (drop (rest + n) buf = zeros (RESPONSE_FIFO_SIZE - f_len f)) as Ed.
  { subst buf. pose proof (drop_blit 0 keep (f_buf f) ltac:(lia)) as E. cbn in E. rewrite Hk in E.
    rewrite <- drop_drop, E, drop_drop. replace (rest + n) with (f_len f) by (subst rest; lia). done. }
  split; [split_and!|].
  - unfold drop_head. cbn [f_buf f_len f_ready]. fold rest keep buf. rewrite length_blit; rewrite ?zeros_length; subst rest; lia.
  - unfold drop_head. cbn [f_len]. lia.
  - unfold drop_head. cbn [f_buf f_len f_ready]. fold rest keep buf. unfold blit.
    rewrite drop_app_length' by (rewrite length_take; lia).
    rewrite zeros_length, Ed. unfold zeros. rewrite <- replicate_add. f_equal. subst rest. lia.
  - unfold drop_head, contents at 1. cbn [f_buf f_len f_ready]. fold rest keep buf. unfold blit.
    rewrite take_app_le by (rewrite length_take; lia). rewrite take_take, Nat.min_id. congruence.
Qed.

Lemma length_stored data : length (stored data) = length data + (if ends_nl data then 0 else 1).
Proof. unfold stored. destruct (ends_nl data); rewrite ?length_app; cbn; lia. Qed.

Lemma ends_nl_app data : ends_nl (data ++ [NL]) = true.
Proof. unfold ends_nl. rewrite rev_app_distr. cbn. by apply bool_decide_eq_true_2. Qed.

Lemma stored_ends data : ends_nl (stored data) = true.
Proof. unfold stored. destruct (ends_nl data) eqn:E; [done|apply ends_nl_app]. Qed.

(** Writing the line (and its ['\n']) behind the contents. *)
Lemma store_ok f data :
  fifo_ok f -> f_len f + length (stored data) <= RESPONSE_FIFO_SIZE ->
  let f' := (if negb (ends_nl data)
             then Build_fifo (blit (f_len f + length data) [NL] (blit (f_len f) data (f_buf f)))
                    (S (f_len f + length data)) true
             else Build_fifo (blit (f_len f) data (f_buf f)) (f_len f + length data) true) in
  fifo_ok f' /\ contents f' = contents f ++ stored data.
Proof.
  intros Hf Hl. rewrite length_stored in Hl. unfold stored.
  destruct (append_ok f data true Hf) as [H1 E1]; [lia|].
  destruct (ends_nl data); cbn [negb]; [done|].
  destruct (append_ok _ [NL] true H1) as [H2 E2]; [cbn [f_len length]; lia|].
  cbn [f_len f_buf length] in *. rewrite Nat.add_1_r in *. split; [done|].
  by rewrite E2, E1, app_assoc.
Qed.

(** The discard loop ends at a line boundary with enough room, or empty. *)
Lemma discard_loop_spec fuel k need f :
  f_len f - k <= fuel -> k <= f_len f -> f_len f <= length (f_buf f) ->
  let r := discard_loop fuel k need f in
  k <= r <= f_len f /\
  (need <= RESPONSE_FIFO_SIZE - (f_len f - r) \/ r = f_len f) /\
  (r = k \/ r = f_len f \/ contents f !! (r - 1) = Some NL).
Proof.
  revert k. induction fuel as [|fuel IH]; intros k Hf Hk Hb; cbn [discard_loop]; cbv zeta; [lia|].
  case_bool_decide as H1; cbn [andb]; [|lia]. case_bool_decide as H2; cbn [andb]; [|lia].
  set (pending := take (f_len f - k) (drop k (f_buf f))).
  assert (pending = drop k (contents f)) as Ep.
  { subst pending. unfold contents. rewrite take_drop_commute. do 2 f_equal. lia. }
  destruct (split_at NL pending) as [[l r]|] eqn:Es.
  - apply split_at_Some in Es as [Es _].
    assert (contents f !! (k + length l) = Some NL) as Hnl.
    { rewrite <- lookup_drop, <- Ep, Es. by rewrite list_lookup_middle. }
    assert (k + length l < f_len f).
    { apply lookup_lt_Some in Hnl. unfold contents in Hnl. rewrite length_take in Hnl. lia. }
    destruct (IH (k + length l + 1)) as (R1 & R2 & R3); [lia..|].
    split_and!; [lia|lia|done|]. destruct R3 as [->|[?|?]]; [|by eauto..].
    right; right. by replace (k + length l + 1 - 1) with (k + length l) by lia.
  - destruct (IH (f_len f)) as (R1 & R2 & R3); [lia..|]. split_and!; [lia|lia|done|].
    right; left. lia.
Qed.

(** The head that was given up is a run of whole lines. *)
Definition whole_lines (pre : bytes) : Prop := pre = [] \/ ends_nl pre = true.

Lemma ends_nl_take l k : l !! (k - 1) = Some NL -> 0 < k -> ends_nl (take k l) = true.
Proof.
  intros H Hk. destruct k as [|k]; [lia|]. replace (S k - 1) with k in H by lia.
  rewrite (take_S_r _ _ _ H). apply ends_nl_app.
Qed.

(** Pushing, whatever the full policy is. *)
Lemma push_spec data f :
  fifo_ok f ->
  let need := length (stored data) in
  let fits := bool_decide (f_len f + need <= RESPONSE_FIFO_SIZE) in
  let '(ok, f') := response_fifo_push data f in
  fifo_ok f' /\
  ok = fits || (response_fifo_overwrite_oldest && bool_decide (need <= RESPONSE_FIFO_SIZE)) /\
  if ok then exists k, contents f' = drop k (contents f) ++ stored data /\ f_ready f' = true /\
                       (fits = true -> k = 0) /\
                       (k = length (contents f) \/ whole_lines (take k (contents f)))
  else f' = f.
Proof.
  intros Hf. pose proof Hf as (Hl & Hn & _). cbv zeta. unfold response_fifo_push.
  assert (length data + (if negb (ends_nl data) then 1 else 0) = length (stored data)) as ->
    by (rewrite length_stored; by destruct (ends_nl data)).
  assert (length (contents f) = f_len f) as Hc by (unfold contents; rewrite length_take; lia).
  set (need := length (stored data)).
  case_bool_decide as H1.
  { rewrite !bool_decide_eq_false_2 by lia. by rewrite andb_false_r. }
  destruct (bool_decide (RESPONSE_FIFO_SIZE < f_len f + need)) eqn:E; bool_hyps; cbn [andb negb].
  - rewrite (bool_decide_eq_false_2 (f_len f + need <= _)) by lia.
    destruct response_fifo_overwrite_oldest; cbn [negb andb orb]; [|done].
    rewrite bool_decide_eq_true_2 by lia.
    destruct (discard_loop_spec (f_len f) 0 need f) as (R1 & R2 & R3); [lia..|].
    set (k := discard_loop (f_len f) 0 need f) in *. unfold discard_oldest. fold k.
    destruct (drop_head_ok f k Hf) as [Hd Ed]; [lia|].
    rewrite (bool_decide_eq_true_2 (0 < k)) by lia.
    assert (f_len (drop_head k f) = f_len f - k) as El by done.
    pose proof (store_ok (drop_head k f) data Hd) as Hs. fold need in Hs. rewrite El in *.
    destruct Hs as [Hs Es]; [lia|]. destruct (ends_nl data); cbn [negb] in *.
    all: split_and!; [done|done|exists k; split_and!; [congruence|done|done|]].
    all: rewrite Hc; destruct R3 as [?|[?|?]]; [lia|by left|].
    all: right; right; apply ends_nl_take; [done|lia].
  - rewrite bool_decide_eq_true_2 by lia. cbn [orb].
    destruct (store_ok f data Hf) as [Hs Es]; [lia|]. destruct (ends_nl data); cbn [negb] in *.
    all: split_and!; [done|done|exists 0; split_and!; [by rewrite drop_0|done|done|right; by left]].
Qed.

(** Draining with a buffer of at least the FIFO's size empties it. *)
Lemma drain_spec cap f :
  fifo_ok f ->
  let '(data, f') := response_fifo_drain cap f in
  fifo_ok f' /\ contents f = data ++ contents f' /\ length data = Nat.min cap (f_len f).
Proof.
  intros Hf. pose proof Hf as (Hl & Hn & _). unfold response_fifo_drain.
  assert ((if bool_decide (f_len f < cap) then f_len f else cap) = Nat.min cap (f_len f)) as ->
    by (case_bool_decide; lia).
  destruct (drop_head_ok f (Nat.min cap (f_len f)) Hf) as [Hd Ed]; [lia|]. split_and!; [done| |].
  - rewrite Ed. unfold contents. rewrite <- (take_drop (Nat.min cap (f_len f)) (take (f_len f) (f_buf f))) at 1.
    f_equal. rewrite take_take. f_equal. lia.
  - rewrite length_take. lia.
Qed.

End ResponseFifo.
