(* ===== verification/ClientList.v ===== *)
(** * ClientList: connected sockets and outgoing lines ([tcp_server/tcp_client_list.c])

    Producers put ["<target>:<payload>\n"] lines on the TCP FIFO;
    [tcp_response_send_task] drains it and routes each line to its sockets. *)

From S2P Require Import Prelude Platform State LocalSession Mdns EncFrame AccessPolicy ResponseFifo.
From stdpp Require Import base list sets strings numbers.
From Stdlib Require Import ZArith Lia.

Local Open Scope cything_scope.

Section ClientList.
Context {P : Platform} {C : Config}.

(** ** The registry *)

Definition update_response_id : M Z :=
  modify (fun d => set_response_id (response_id d + 1)%Z d) ;;
  let* id := gets response_id in
  when (bool_decide (255 <= id)%Z) (modify (set_response_id 10)) ;;
  gets response_id.

Definition connected (a : account_list) : list Z := take (ac_size a) (ac_list a).

Definition drop_account (sock : Z) (a : account_list) : account_list :=
  match list_find (fun s => s = sock) (connected a) with
  | Some (i, _) => Build_accounts (shift_down (ac_list a) i (ac_size a - 1 - i)) (ac_size a - 1)
  | None => a
  end.

Definition remove_account (sock : Z) : M unit :=
  modify (fun d => set_accounts (drop_account sock (accounts d)) d).

Definition add_account (sock : Z) : M bool :=
  let* a := gets accounts in
  if bool_decide (ACCOUNT_MAX <= ac_size a) then ret false
  else modify (set_accounts (Build_accounts (<[ac_size a := sock]> (ac_list a)) (S (ac_size a)))) ;;
       ret true.

Definition is_client_connected (sock : Z) (d : Dev) : bool :=
  bool_decide (sock ∈ connected (accounts d)).

(** ** Producers *)

(** [vsnprintf] into 256 bytes; a line that does not fit keeps its ['\n']. *)
Definition tcp_line (text : bytes) : bytes :=
  if bool_decide (RESPONSE_LINE_MAX <= length text) then take (RESPONSE_LINE_MAX - 2) text ++ [NL]
  else text.

Definition push_tcp_line (text : bytes) : M bytes :=
  let line := tcp_line text in
  modify (fun d => set_tcp_fifo (snd (response_fifo_push line (tcp_fifo d))) d) ;;
  ret line.

Definition target_of (sock : Z) : Z :=
  if bool_decide (sock = SEND_TO_ALL) then RESPONSE_TARGET_ALL
  else if bool_decide (sock = SEND_TO_ALL_PUBLIC) then RESPONSE_TARGET_EVERYONE else sock.

Definition send_data_to_clients (sock : Z) (data : bytes) : M unit :=
  let* id := update_response_id in
  let* line := push_tcp_line (dec (target_of sock) ++ [COLON] ++ dec id ++ [COLON] ++ cstr data) in
  when (is_remote_con_enable
        && (bool_decide (sock = SEND_TO_ALL) || bool_decide (sock = SEND_TO_ALL_PUBLIC)))
    match split_at COLON line with
    | Some (_, mqtt_line) =>
        modify (fun d => set_mqtt_fifo (snd (response_fifo_push mqtt_line (mqtt_fifo d))) d)
    | None => ret tt
    end.

Definition send_raw_to_client (sock : Z) (text : bytes) : M unit :=
  push_tcp_line (dec sock ++ [COLON] ++ text ++ [NL]) ;; ret tt.

(** A call of an application hook that runs on a task of the library other than
    the broker's: there [mqtt_publish_response] finds no session and drops the
    text. *)
Definition run_app_call (c : app_call) : M unit :=
  match c with
  | SendData target data => send_data_to_clients target data
  | SendRaw sock text => send_raw_to_client sock text
  | PublishResponse _ => ret tt
  end.

(** ** The send task *)

(** The lines of the staging buffer, each with its ['\n']. *)
Fixpoint lines_from (acc l : bytes) : list bytes :=
  match l with
  | [] => match acc with [] => [] | _ => [rev acc] end
  | c :: l' => if bool_decide (c = NL) then rev (c :: acc) :: lines_from [] l'
               else lines_from (c :: acc) l'
  end.

(** ["<target>:<payload>"], or [None] for a line the task drops. *)
Definition parse_target (line : bytes) : option (Z * bytes) :=
  match split_at COLON line with
  | None => None
  | Some (pre, payload) =>
      let '(target, rest) := strtol line in
      if bool_decide (length rest <> S (length payload)) || bool_decide (pre = [])
      then None else Some (target, payload)
  end.

Definition send_one (target : Z) (payload : bytes) (dst : Z) : M unit :=
  let* set := gets device_password_is_set in
  let* ok := access_policy_sock_authenticated dst in
  if local_auth_enforce && bool_decide (target = RESPONSE_TARGET_ALL) && set && negb ok then ret tt
  else enc_frame_send dst payload.

Definition route_line (line : bytes) : M unit :=
  match parse_target line with
  | None => ret tt
  | Some (target, payload) =>
      if bool_decide (target = RESPONSE_TARGET_ALL) || bool_decide (target = RESPONSE_TARGET_EVERYONE)
      then let* a := gets accounts in for_each (connected a) (send_one target payload)
      else let* here := gets (is_client_connected target) in
           when here (enc_frame_send target payload)
  end.

(** One turn of [tcp_response_send_task] that found data. *)
Definition tcp_response_send_step : M unit :=
  let* data := (fun d => let '(data, f) := response_fifo_drain RESPONSE_FIFO_SIZE (tcp_fifo d) in
                         (data, set_tcp_fifo f d)) in
  for_each (lines_from [] data) route_line.

(** ** What the registry keeps *)

(** The lines a buffer of newline-terminated lines splits into. *)
Lemma lines_from_app acc l r :
  ~ NL ∈ l -> lines_from acc (l ++ NL :: r) = (rev acc ++ l ++ [NL]) :: lines_from [] r.
Proof.
  revert acc. induction l as [|c l IH]; intros acc Hn; cbn.
  - rewrite bool_decide_eq_true_2 by done. done.
  - rewrite bool_decide_eq_false_2 by set_solver. rewrite IH by set_solver. cbn.
    by rewrite <- app_assoc.
Qed.

(** Splitting gives back the lines that were queued. *)
Lemma lines_from_mjoin ls :
  Forall (fun l => ~ NL ∈ l) ls -> lines_from [] (mjoin ((fun l => l ++ [NL]) <$> ls)) = (fun l => l ++ [NL]) <$> ls.
Proof.
  induction 1 as [|l ls Hl _ IH]; [done|].
  rewrite fmap_cons. change (mjoin ((l ++ [NL]) :: ?x)) with ((l ++ [NL]) ++ mjoin x).
  rewrite <- app_assoc. cbn [app]. rewrite lines_from_app by done. by rewrite IH.
Qed.

Lemma dec_no_colon z : ~ COLON ∈ dec z.
Proof.
  assert (forall n, (0 <= n)%Z -> ~ COLON ∈ dec_u n) as Hu.
  { intros n Hn Hin. pose proof (digits_all_digits (S (Z.to_nat (Z.log2 n))) n Hn) as HF.
    rewrite Forall_forall in HF. apply list_elem_of_In in Hin. specialize (HF _ Hin).
    unfold is_digit, COLON in HF. bool_hyps. lia. }
  unfold dec. case_bool_decide; [|apply Hu; lia].
  intros Hin. apply elem_of_cons in Hin as [?|?]; [done|]. eapply Hu; [|done]. lia.
Qed.

Lemma dec_nonempty z : dec z <> [].
Proof. unfold dec. case_bool_decide; [done|]. apply digits_nonempty. Qed.

(** The prefix the producers print is the target the send task reads. *)
Lemma parse_target_dec target payload :
  parse_target (dec target ++ [COLON] ++ payload) = Some (target, payload).
Proof.
  unfold parse_target. cbn [app]. rewrite split_at_app by apply dec_no_colon.
  rewrite strtol_dec by done.
  rewrite !bool_decide_eq_false_2; [done|apply dec_nonempty|cbn; lia].
Qed.

(** The id handed out is always in [10, 254]. *)
Lemma update_response_id_range d :
  (10 <= response_id d <= 254)%Z ->
  let id := eval update_response_id d in
  (10 <= id <= 254)%Z /\ exec update_response_id d = set_response_id id d /\ id <> response_id d /\
  id = (if bool_decide (response_id d = 254) then 10 else response_id d + 1)%Z.
Proof.
  intros H. unfold update_response_id. st_unfold. cbn.
  destruct d; cbn in *. repeat case_bool_decide; cbn; split_and!; done || lia.
Qed.

Definition accounts_ok (a : account_list) : Prop :=
  length (ac_list a) = ACCOUNT_MAX /\ ac_size a <= ACCOUNT_MAX.

Lemma add_account_spec sock d :
  accounts_ok (accounts d) ->
  if eval (add_account sock) d
  then accounts_ok (accounts (exec (add_account sock) d)) /\
       connected (accounts (exec (add_account sock) d)) = connected (accounts d) ++ [sock]
  else exec (add_account sock) d = d /\ ac_size (accounts d) = ACCOUNT_MAX.
Proof.
  intros (Hl & Hs). unfold add_account. st_unfold. case_bool_decide as H; [split; [done|lia]|].
  cbn. unfold accounts_ok, connected. cbn. rewrite length_insert. split; [split; [done|lia]|].
  rewrite (take_S_r _ _ sock); [by rewrite take_insert_ge by lia|].
  apply list_lookup_insert_eq. lia.
Qed.

Lemma remove_account_spec sock d :
  accounts_ok (accounts d) -> NoDup (connected (accounts d)) ->
  let a := accounts (exec (remove_account sock) d) in
  accounts_ok a /\ NoDup (connected a) /\
  (forall s, s ∈ connected a <-> s ∈ connected (accounts d) /\ s <> sock).
Proof.
  intros (Hl & Hs) Hd. cbn. unfold drop_account.
  destruct (list_find (fun s => s = sock) (connected (accounts d))) as [[i s]|] eqn:E.
  - apply list_find_Some in E as (Hi & -> & _).
    pose proof (lookup_lt_Some _ _ _ Hi) as Hlt. unfold connected in Hlt. rewrite length_take in Hlt.
    assert (connected (Build_accounts (shift_down (ac_list (accounts d)) i (ac_size (accounts d) - 1 - i))
              (ac_size (accounts d) - 1)) = delete i (connected (accounts d))) as Ec.
    { unfold connected. cbn. apply take_shift_down; lia. }
    split_and!.
    + split; cbn; [by rewrite length_shift_down|lia].
    + rewrite Ec. eapply sublist_NoDup; [exact Hd|apply sublist_delete].
    + intros t. rewrite Ec.
      rewrite (delete_take_drop (connected (accounts d)) i).
      rewrite <- (take_drop_middle _ _ _ Hi) in Hd at 1.
      rewrite <- (take_drop_middle _ _ _ Hi) at 3.
      apply list.NoDup_app in Hd as (_ & H1 & H2). apply list.NoDup_cons in H2 as [H2 _]. set_solver.
  - split_and!; [done..|]. intros t. apply list_find_None in E.
    rewrite Forall_forall in E. split; [|tauto]. intros Ht. split; [done|].
    apply E. by apply list_elem_of_In.
Qed.

End ClientList.
