(* ===== verification/Flash.v ===== *)
(** * Flash: raw partitions, the power-cycle reset and the boot slot

    [ota_lib/ota_handler.c] (partition pointers, erase-then-write),
    [memory_handler/flash_wifi_info_handler.c], [memory_handler/flash_reset_handler.c],
    [ota_lib/flash_boot_handler.c] and [common/reset_handler.c]. *)

From S2P Require Import Prelude Platform State Mdns PairedList PairingEvents DevicePassword.
From stdpp Require Import base list strings numbers.
From Stdlib Require Import ZArith Lia.

Local Open Scope cything_scope.

Section Flash.
Context {P : Platform} {C : Config}.

(** ** [common/partitions.h] and the layouts *)

Definition BOOT_PARTITION : Z * Z := (0x59, 0x0B)%Z.
Definition WIFI_INFO_PARTITION : Z * Z := (0x41, 0x05)%Z.
Definition RESET_COUNTER_PARTITION : Z * Z := (0x42, 0x06)%Z.
Definition ESP_PARTITION_TYPE_APP : Z := 0.
Definition ESP_PARTITION_SUBTYPE_APP_OTA_0 : Z := 0x10.
Definition ESP_PARTITION_SUBTYPE_APP_OTA_1 : Z := 0x11.
Definition FLASH_EMPTY_VALUE : Z := 0xFF.

Definition FLASH_WIFI_MODE_OFFSET : Z := 0x000.
Definition FLASH_ROUTER_SSID_OFFSET : Z := 0x100.
Definition FLASH_ROUTER_PASSWORD_OFFSET : Z := 0x400.
Definition FLASH_WIFI_MODE_SIZE : nat := 256.
Definition FLASH_ROUTER_SSID_SIZE : nat := 256.
Definition FLASH_ROUTER_PASSWORD_SIZE : nat := 256.

Definition RESET_COUNTER_OFFSET : Z := 0.
Definition RESET_COUNTER_SIZE : nat := 2.
Definition RESET_COUNTER_KEY : Z := 67.  (* 'C' *)
Definition FLASH_BOOT_PARTITION_OFFSET : Z := 0.
Definition FLASH_BOOT_PARTITION_SIZE : nat := 2.
Definition FLASH_BOOT_PARTITION_KEY : Z := 66.  (* 'B' *)

Definition WIFI_STA_MODE : bytes := str "WiMStA" ++ [CR; NL].
Definition WIFI_AP_MODE : bytes := str "WiMAcP" ++ [CR; NL].

Definition upd_flash (f : flash_state -> flash_state) : M unit :=
  modify (fun d => set_flash (f (flash d)) d).

(** ** [ota_lib/ota_handler.c] *)

Definition ota_set_new_write_partition (p : Z * Z) : M unit := upd_flash (set_fs_write p).
Definition ota_set_new_erase_partition (p : Z * Z) : M unit := upd_flash (set_fs_erase p).
Definition ota_set_new_read_partition (p : Z * Z) : M unit := upd_flash (set_fs_read p).
Definition ota_set_new_erase_write_partition (p : Z * Z) : M unit := upd_flash (set_fs_erase_write p).

Definition ota_write (offset : Z) (data : bytes) : M esp_err_t :=
  let* p := gets (fun d => fs_write (flash d)) in io (esp_partition_write p offset data).

Definition ota_erase (offset length : Z) : M esp_err_t :=
  let* p := gets (fun d => fs_erase (flash d)) in io (esp_partition_erase_range p offset length).

Definition ota_read (offset : Z) (len : nat) : M (esp_err_t * bytes) :=
  let* p := gets (fun d => fs_read (flash d)) in ask (esp_partition_read p offset len).

Definition ota_set_boot_firmware (partition : Z) : M esp_err_t :=
  ota_set_new_erase_write_partition (ESP_PARTITION_TYPE_APP, partition) ;;
  let* p := gets (fun d => fs_erase_write (flash d)) in
  io (esp_ota_set_boot_partition p).

(** [do { erase 4096 at last_erase_offset; last_erase_offset += 4096; }
    while(end >= last_erase_offset)]: each turn moves 4096 closer. *)
Fixpoint erase_loop (fuel : nat) (end_ : Z) : M esp_err_t :=
  match fuel with
  | O => ret ESP_OK
  | S fuel' =>
      let* f := gets flash in
      if bool_decide (fs_last_erase_offset f <= end_)%Z then
        let* err := io (esp_partition_erase_range (fs_erase_write f) (fs_last_erase_offset f) 4096) in
        if negb (is_ok err) then ret err else
        upd_flash (fun f => set_fs_last_erase_offset (fs_last_erase_offset f + 4096)%Z f) ;;
        erase_loop fuel' end_
      else ret ESP_OK
  end.

Definition erase_fuel (end_ last : Z) : nat := S (Z.to_nat ((end_ - last) / 4096 + 1)).

Definition ota_erase_write (offset : Z) (data : bytes) : M esp_err_t :=
  let end_ := (offset + Z.of_nat (length data))%Z in
  let* last := gets (fun d => fs_last_erase_offset (flash d)) in
  let* err := erase_loop (erase_fuel end_ last) end_ in
  if negb (is_ok err) then ret err else
  let* p := gets (fun d => fs_erase_write (flash d)) in
  io (esp_partition_write p offset data).

(** ** [memory_handler/flash_wifi_info_handler.c] *)

Definition flash_read_wifi_router_info : M esp_err_t :=
  ota_set_new_read_partition WIFI_INFO_PARTITION ;;
  let* (e, b) := ota_read FLASH_WIFI_MODE_OFFSET FLASH_WIFI_MODE_SIZE in
  if negb (is_ok e) then ret e else
  upd_flash (set_fs_wifi_mode b) ;;
  let* (e, b) := ota_read FLASH_ROUTER_SSID_OFFSET FLASH_ROUTER_SSID_SIZE in
  if negb (is_ok e) then ret e else
  upd_flash (set_fs_router_ssid b) ;;
  let* (e, b) := ota_read FLASH_ROUTER_PASSWORD_OFFSET FLASH_ROUTER_PASSWORD_SIZE in
  if negb (is_ok e) then ret e else
  upd_flash (set_fs_router_password b) ;;
  ret e.

(** [ssid] and [password] are written with their NUL; [new_wifi_mode] is a
    string literal of which the code reads 256 bytes. *)
Definition flash_store_wifi_router_info (ssid password new_wifi_mode : bytes) : M esp_err_t :=
  ota_set_new_erase_partition WIFI_INFO_PARTITION ;;
  ota_set_new_write_partition WIFI_INFO_PARTITION ;;
  let* e := flash_read_wifi_router_info in
  if negb (is_ok e) then ret e else
  let* e := ota_erase FLASH_WIFI_MODE_OFFSET 4096 in
  if negb (is_ok e) then ret e else
  let* e := ota_write FLASH_WIFI_MODE_OFFSET
              (take FLASH_WIFI_MODE_SIZE (new_wifi_mode ++ NUL :: rodata_behind new_wifi_mode)) in
  if negb (is_ok e) then ret e else
  let* e := ota_write FLASH_ROUTER_SSID_OFFSET (ssid ++ [NUL]) in
  if negb (is_ok e) then ret e else
  ota_write FLASH_ROUTER_PASSWORD_OFFSET (password ++ [NUL]).

(** ** [memory_handler/flash_reset_handler.c] *)

Definition flash_read_reset_counter : M esp_err_t :=
  ota_set_new_read_partition RESET_COUNTER_PARTITION ;;
  let* (e, b) := ota_read RESET_COUNTER_OFFSET RESET_COUNTER_SIZE in
  if negb (is_ok e) then ret e else
  let c := b !!! 1%nat in
  upd_flash (set_fs_reset_counter
    (if bool_decide (b !!! 0%nat = RESET_COUNTER_KEY) && bool_decide (c <> FLASH_EMPTY_VALUE)
     then c else 0%Z)) ;;
  ret e.

Definition flash_erase_write_reset_counter (new_reset_counter : Z) : M esp_err_t :=
  ota_set_new_erase_write_partition RESET_COUNTER_PARTITION ;;
  let* e := ota_erase_write RESET_COUNTER_OFFSET [RESET_COUNTER_KEY; Z.land new_reset_counter 255] in
  if negb (is_ok e) then ret e else
  upd_flash (set_fs_reset_counter new_reset_counter) ;;
  ret e.

(** ** [ota_lib/flash_boot_handler.c] *)

Definition flash_erase_boot_partition : M esp_err_t :=
  ota_set_new_erase_partition BOOT_PARTITION ;;
  ota_erase FLASH_BOOT_PARTITION_OFFSET 4096.

Definition esp_restart : M unit := emit EvRestart.

Definition flash_read_boot_partition : M esp_err_t :=
  ota_set_new_read_partition BOOT_PARTITION ;;
  let* (e, b) := ota_read FLASH_BOOT_PARTITION_OFFSET FLASH_BOOT_PARTITION_SIZE in
  if negb (is_ok e) then ret e else
  when (bool_decide (b !!! 0%nat = FLASH_BOOT_PARTITION_KEY))
    (let slot := b !!! 1%nat in
     if bool_decide (slot = ESP_PARTITION_SUBTYPE_APP_OTA_0)
        || bool_decide (slot = ESP_PARTITION_SUBTYPE_APP_OTA_1)
     then let* e := ota_set_boot_firmware slot in
          when (is_ok e) (flash_erase_boot_partition ;; esp_restart)
     else flash_erase_boot_partition ;; ret tt) ;;
  ret ESP_OK.

Definition flash_erase_write_boot_partition (boot_partition : Z) : M esp_err_t :=
  ota_set_new_erase_write_partition BOOT_PARTITION ;;
  ota_erase_write FLASH_BOOT_PARTITION_OFFSET [FLASH_BOOT_PARTITION_KEY; boot_partition].

(** ** [common/reset_handler.c] *)

(** The one-shot timer is armed; it fires [esp_restart] after [ms]. *)
Definition reboot_after_ms (ms : Z) : M unit := emit (EvReboot ms).

(** What happens in front of the two-second wait; [true] when it restarted the
    chip. *)
Definition count_power_on : M bool :=
  let* e := flash_read_reset_counter in
  if is_ok e then
    upd_flash (fun f => set_fs_reset_counter (fs_reset_counter f + 1)%Z f) ;;
    let* n := gets (fun d => fs_reset_counter (flash d)) in
    if bool_decide (4 < n)%Z then
      paired_list_clear ;;
      device_password_clear ;;
      pairing_events_push (str "reset") [] [] ;;
      flash_store_wifi_router_info (str "0") (str "0") WIFI_AP_MODE ;;
      upd_flash (set_fs_reset_counter 0%Z) ;;
      flash_erase_write_reset_counter 0 ;;
      esp_restart ;;
      ret true
    else flash_erase_write_reset_counter n ;; ret false
  else ret false.

(** [true] when the routine returned, [false] when it restarted the chip. *)
Definition reset_handler : M bool :=
  let* restarted := count_power_on in
  if restarted then ret false else
  upd_flash (set_fs_reset_counter 0%Z) ;;
  flash_erase_write_reset_counter 0 ;;
  ret true.

End Flash.
