(* ===== verification/WifiPairing.v ===== *)
(** * WifiPairing: Wi-Fi credentials over the soft-AP ([tcp_server/pairing.c])

    StartP, the SSID, the password and FinishP, with the inactivity timer. The
    handler reads the line as a C string with its ['\n'] attached. *)

From S2P Require Import Prelude Platform State LocalSession Mdns EncFrame AccessPolicy ResponseFifo.
From S2P Require Import ClientList PairedList PairingEvents DevicePassword Flash.
From stdpp Require Import base list strings numbers.
From Stdlib Require Import ZArith Lia.

Local Open Scope cything_scope.

Section WifiPairing.
Context {P : Platform} {C : Config}.

Definition START_PAIRING : bytes := str "StartP".
Definition FINISH_PAIRING : bytes := str "FinishP".
Definition PAIR_ACK_RESPONSE : bytes := str "ACK".

Definition START_PAIRING_IND : Z := 0.
Definition SET_ROUTER_SSID_IND : Z := 1.
Definition SET_ROUTER_PASS_IND : Z := 2.
Definition FINISH_PAIRING_IND : Z := 3.

Definition SET_ROUTER_SUFFIX : bytes := [NL].
Definition TEMP_SIZE : nat := 128.

Definition upd_wpair (f : pairing_state -> pairing_state) : M unit :=
  modify (fun d => set_wpair (f (wpair d)) d).

(** ** The watchdog *)

(** The timer service runs the callback once the armed timer expires. *)
Definition pairing_timeout_cb : M unit :=
  upd_wpair (fun p => set_wp_timer false
    (if bool_decide (wp_step p <> START_PAIRING_IND) then set_wp_step START_PAIRING_IND p else p)).

Definition pairing_touch : M unit := upd_wpair (set_wp_timer true).
Definition pairing_done : M unit := upd_wpair (set_wp_timer false).

(** ** Parsing *)

Definition is_pairing_command_valid (line prefix suffix : bytes) : bool :=
  let n := length line in
  if bool_decide (n < length prefix + length suffix) then false
  else memcmp_eq line prefix && memcmp_eq (drop (n - length suffix) line) suffix.

Definition copy_pairing_value (line prefix suffix : bytes) (out_size : nat) : bytes :=
  let len := length line - length prefix - length suffix in
  let len := if bool_decide (out_size <= len) then out_size - 1 else len in
  take len (drop (length prefix) line).

(** ** Commit and state machine *)

Definition pairing_commit (ssid password : bytes) : M esp_err_t :=
  let* err := flash_store_wifi_router_info ssid password WIFI_STA_MODE in
  if negb (is_ok err) then ret err else
  reboot_after_ms 1000 ;;
  ret ESP_OK.

Definition ack (sock : Z) : M unit := send_raw_to_client sock PAIR_ACK_RESPONSE.

Definition pairing_handle_line (line : bytes) (sock : Z) : M bool :=
  let buf := cbuf line in
  let cl := cstr buf in
  let* step := gets (fun d => wp_step (wpair d)) in
  if memcmp_eq buf START_PAIRING then
    upd_wpair (set_wp_step SET_ROUTER_SSID_IND) ;;
    pairing_touch ;;
    ack sock ;;
    ret true
  else if is_pairing_command_valid cl cy_router_ssid_prefix SET_ROUTER_SUFFIX then
    when (bool_decide (step = SET_ROUTER_SSID_IND))
      (upd_wpair (set_wp_ssid (copy_pairing_value cl cy_router_ssid_prefix SET_ROUTER_SUFFIX TEMP_SIZE)) ;;
       upd_wpair (set_wp_step SET_ROUTER_PASS_IND) ;;
       pairing_touch ;;
       ack sock) ;;
    ret true
  else if is_pairing_command_valid cl cy_router_pass_prefix SET_ROUTER_SUFFIX then
    when (bool_decide (step = SET_ROUTER_PASS_IND))
      (upd_wpair (set_wp_password (copy_pairing_value cl cy_router_pass_prefix SET_ROUTER_SUFFIX TEMP_SIZE)) ;;
       upd_wpair (set_wp_step FINISH_PAIRING_IND) ;;
       pairing_touch ;;
       ack sock) ;;
    ret true
  else if memcmp_eq buf FINISH_PAIRING then
    when (bool_decide (step = FINISH_PAIRING_IND))
      (let* p := gets wpair in
       pairing_commit (wp_ssid p) (wp_password p) ;;
       upd_wpair (set_wp_step START_PAIRING_IND) ;;
       pairing_done ;;
       ack sock) ;;
    ret true
  else ret false.

End WifiPairing.
