(* ===== verification/Provisioning.v ===== *)
(** * Provisioning: the per-device certificate handshake ([aws/provisioning.c])

    REQID, PROV, CSRREQ, DEVID, CERT chunks and PFIN. Key generation, the CSR
    and signatures are mbedTLS's. [send_line] of this file writes the socket
    directly. *)

From S2P Require Import Prelude Platform State Mdns Flash.
From stdpp Require Import base list strings numbers.
From Stdlib Require Import ZArith Lia.

Local Open Scope cything_scope.

Section Provisioning.
Context {P : Platform} {C : Config}.

Definition PROV_NVS_NAMESPACE : string := "prov".
Definition PROV_NVS_KEY_DEVID : string := "devid".
Definition PROV_NVS_KEY_SRCTERMID : string := "srctermid".
Definition PROV_NVS_KEY_EP : string := "ep".
Definition PROV_NVS_KEY_CERT : string := "cert".
Definition PROV_NVS_KEY_OPKEY : string := "opkey".

Definition PROV_DEVICE_ID_MAX : nat := 40.
Definition PROV_SOURCE_TERMINAL_ID_MAX : nat := 40.
Definition PROV_ENDPOINT_MAX : nat := 128.
Definition PROV_CERT_PEM_MAX : nat := 2048.
Definition PROV_KEY_PEM_MAX : nat := 512.
Definition CSR_DER_BUF_LEN : nat := 256.
Definition CERT_B64_BUF_LEN : nat := 2732.

Definition upd_prov (f : prov_state -> prov_state) : M unit :=
  modify (fun d => set_prov (f (prov d)) d).

(** ** NVS *)

Definition nvs_get_string (key : string) (out_size : nat) : M (esp_err_t * bytes) :=
  let* err := io (nvs_open PROV_NVS_NAMESPACE NVS_READONLY) in
  if negb (is_ok err) then ret (err, []) else
  let* r := ask (nvs_get_str PROV_NVS_NAMESPACE key out_size) in
  io_ (nvs_close PROV_NVS_NAMESPACE) ;;
  ret r.

Definition nvs_set_string (key : string) (value : bytes) : M esp_err_t :=
  let* err := io (nvs_open PROV_NVS_NAMESPACE NVS_READWRITE) in
  if negb (is_ok err) then ret err else
  let* err := io (nvs_set_str PROV_NVS_NAMESPACE key value) in
  let* err := (if is_ok err then io (nvs_commit PROV_NVS_NAMESPACE) else ret err) in
  io_ (nvs_close PROV_NVS_NAMESPACE) ;;
  ret err.

Fixpoint strip_ws (rev : bytes) : bytes :=
  match rev with
  | c :: r => if bool_decide (c = NL \/ c = CR \/ c = SP) then strip_ws r else rev
  | [] => []
  end.
Definition trim_trailing_ws (s : bytes) : bytes := rev (strip_ws (rev s)).

(** Read one string into a global; the flag says whether it was there. *)
Definition load_string (key : string) (size : nat) (set : bytes -> prov_state -> prov_state) : M bool :=
  let* (e, v) := nvs_get_string key size in
  when (is_ok e) (upd_prov (set v)) ;;
  ret (is_ok e).

Definition provisioning_init : M unit :=
  let* have_devid := load_string PROV_NVS_KEY_DEVID PROV_DEVICE_ID_MAX set_pr_device_id in
  let* have_src := load_string PROV_NVS_KEY_SRCTERMID PROV_SOURCE_TERMINAL_ID_MAX set_pr_source_terminal_id in
  let* have_ep := load_string PROV_NVS_KEY_EP PROV_ENDPOINT_MAX set_pr_iot_endpoint in
  let* have_cert := load_string PROV_NVS_KEY_CERT PROV_CERT_PEM_MAX set_pr_cert_pem in
  let* have_key := load_string PROV_NVS_KEY_OPKEY PROV_KEY_PEM_MAX set_pr_key_pem in
  upd_prov (fun p => set_pr_device_id (trim_trailing_ws (pr_device_id p)) p) ;;
  upd_prov (fun p => set_pr_source_terminal_id (trim_trailing_ws (pr_source_terminal_id p)) p) ;;
  upd_prov (fun p => set_pr_iot_endpoint (trim_trailing_ws (pr_iot_endpoint p)) p) ;;
  upd_prov (set_pr_active (have_devid && have_src && have_ep && have_cert && have_key)).

(** ** Key and CSR *)

(** [mbedtls_base64_encode] into [cap] bytes: it also needs room for a NUL. *)
Definition b64_into (cap : nat) (x : bytes) : option bytes :=
  if bool_decide (cap < length (base64_encode x) + 1) then None else Some (base64_encode x).

Definition load_or_generate_keypair : M Z :=
  let* (e, pem) := nvs_get_string PROV_NVS_KEY_OPKEY PROV_KEY_PEM_MAX in
  when (is_ok e) (upd_prov (set_pr_key_pem pem)) ;;
  if is_ok e && bool_decide (pk_parse_key pem = 0)%Z then ret 0%Z else
  let* (rc, pem) := io (pk_gen_key_pem PROV_KEY_PEM_MAX) in
  upd_prov (set_pr_key_pem pem) ;;
  if bool_decide (rc <> 0)%Z then ret rc else
  let rc := pk_parse_key pem in
  if bool_decide (rc <> 0)%Z then ret rc else
  let* e := nvs_set_string PROV_NVS_KEY_OPKEY pem in
  ret (if is_ok e then 0 else -1)%Z.

(** The CSR text, or the error code. *)
Definition build_csr_base64 (cap : nat) : M (Z + bytes) :=
  let* rc := load_or_generate_keypair in
  if bool_decide (rc <> 0)%Z then ret (inl rc) else
  let* key := gets (fun d => pr_key_pem (prov d)) in
  let* (der_len, der) := io (csr_write_der key (str "CN=cyl-device") CSR_DER_BUF_LEN) in
  if bool_decide (der_len < 0)%Z then ret (inl der_len) else
  match b64_into cap der with
  | Some b => ret (inr b)
  | None => ret (inl (-42)%Z)
  end.

(** ** Lines *)

Definition send_line (sock : Z) (text : bytes) : M unit :=
  if bool_decide (length text + 1 < 64) then send sock (text ++ [NL])
  else send sock text ;; send sock [NL].

Definition ACK : bytes := str "ACK".

Definition reset_handshake : M unit :=
  upd_prov (set_pr_state HS_IDLE) ;;
  upd_prov (set_pr_pending_source []) ;;
  upd_prov (set_pr_pending_endpoint []) ;;
  upd_prov (set_pr_pending_device_id []) ;;
  upd_prov (set_pr_cert_b64 []) ;;
  upd_prov (set_pr_total_chunks 0%Z) ;;
  upd_prov (set_pr_next_seq 1%Z).

(** [strstr(hay, needle) != NULL] *)
Fixpoint strstr (hay needle : bytes) : bool :=
  memcmp_eq hay needle || match hay with [] => false | _ :: hay' => strstr hay' needle end.

(** [device_config/claim_credentials.c] *)
Definition claim_credentials_present : bool :=
  strstr claim_cert_pem (str "-----BEGIN") && strstr claim_key_pem (str "-----BEGIN").

(** [sig_b64] is 512 bytes on the stack; its encoding is not checked. *)
Definition sig_text (sig : bytes) : bytes :=
  match b64_into 512 sig with
  | Some b => b
  | None => take (length (base64_encode sig) + 1) (cstr (uninit_stack 512))
  end.

Definition handle_reqid (t : bytes) (sock : Z) : M unit :=
  let request_id := drop 6 t in
  if negb claim_credentials_present then send_line sock ACK else
  let '(rc, hash) := md_sha256 request_id in
  let rc := if bool_decide (rc = 0)%Z then pk_parse_key claim_key_pem else rc in
  let* (rc, sig) := (if bool_decide (rc = 0)%Z then io (pk_sign claim_key_pem hash) else ret (rc, [])) in
  if bool_decide (rc <> 0)%Z then send_line sock ACK else
  match b64_into 2800 claim_cert_pem with
  | None => send_line sock ACK
  | Some cert => send_line sock (snprintf_s 2900 (str "CLAIM:" ++ cert ++ [COMMA] ++ sig_text sig))
  end.

Definition handle_prov (t : bytes) (sock : Z) : M unit :=
  match split_at COMMA (drop 5 t) with
  | None => send_line sock ACK
  | Some (src, rest) =>
      match split_at COMMA rest with
      | None => send_line sock ACK
      | Some (_, endpoint) =>
          upd_prov (set_pr_pending_source (take (PROV_SOURCE_TERMINAL_ID_MAX - 1) src)) ;;
          upd_prov (set_pr_pending_endpoint (snprintf_s PROV_ENDPOINT_MAX endpoint)) ;;
          upd_prov (set_pr_state HS_GOT_PROV) ;;
          send_line sock ACK
      end
  end.

Definition handle_csrreq (sock : Z) : M unit :=
  let* r := build_csr_base64 400 in
  match r with
  | inl _ => send_line sock ACK
  | inr b64 =>
      send_line sock (snprintf_s 420 (str "CSR:" ++ b64)) ;;
      upd_prov (set_pr_state HS_SENT_CSR)
  end.

Definition handle_devid (t : bytes) (sock : Z) : M unit :=
  upd_prov (set_pr_pending_device_id (snprintf_s PROV_DEVICE_ID_MAX (drop 6 t))) ;;
  upd_prov (set_pr_state HS_RECEIVING_CERT) ;;
  upd_prov (set_pr_cert_b64 []) ;;
  upd_prov (set_pr_total_chunks 0%Z) ;;
  upd_prov (set_pr_next_seq 1%Z) ;;
  send_line sock ACK.

(** ["<seq>:<total>:<chunk>"] *)
Definition parse_cert (p : bytes) : option (Z * Z * bytes) :=
  match split_at COLON p with
  | None => None
  | Some (_, r1) =>
      match split_at COLON r1 with
      | None => None
      | Some (_, chunk) => Some (atoi p, atoi r1, chunk)
      end
  end.

Definition handle_cert (t : bytes) (sock : Z) : M unit :=
  match parse_cert (drop 5 t) with
  | None => send_line sock ACK
  | Some (seq, total, chunk) =>
    let* p := gets prov in
    if bool_decide (pr_state p <> HS_RECEIVING_CERT) || bool_decide (seq <> pr_next_seq p)
       || (bool_decide (pr_total_chunks p <> 0)%Z && bool_decide (total <> pr_total_chunks p))
    then send_line sock ACK
    else
      upd_prov (set_pr_total_chunks total) ;;
      if bool_decide (CERT_B64_BUF_LEN <= length (pr_cert_b64 p) + length chunk) then
        reset_handshake ;; send_line sock ACK
      else
        upd_prov (fun p => set_pr_cert_b64 (pr_cert_b64 p ++ chunk) p) ;;
        upd_prov (fun p => set_pr_next_seq (pr_next_seq p + 1)%Z p) ;;
        if bool_decide (seq = total) then
          let* p := gets prov in
          match base64_decode (PROV_CERT_PEM_MAX - 1) (pr_cert_b64 p) with
          | None => reset_handshake ;; send_line sock ACK
          | Some pem => upd_prov (set_pr_cert_pem pem) ;; send_line sock (str "CERTOK")
          end
        else send_line sock ACK
  end.

(** The four writes of PFIN; a failed one skips the rest. *)
Definition persist_identity : M bool :=
  let* p := gets prov in
  let* e := nvs_set_string PROV_NVS_KEY_DEVID (pr_device_id p) in
  if negb (is_ok e) then ret false else
  let* e := nvs_set_string PROV_NVS_KEY_SRCTERMID (pr_source_terminal_id p) in
  if negb (is_ok e) then ret false else
  let* e := nvs_set_string PROV_NVS_KEY_EP (pr_iot_endpoint p) in
  if negb (is_ok e) then ret false else
  let* e := nvs_set_string PROV_NVS_KEY_CERT (cstr (pr_cert_pem p)) in
  ret (is_ok e).

Definition handle_pfin (sock : Z) : M unit :=
  let* p := gets prov in
  if bool_decide (pr_state p <> HS_RECEIVING_CERT) || bool_decide (cstr (pr_cert_pem p) = [])
     || bool_decide (pr_pending_device_id p = [])
  then
    if pr_active p && negb (bool_decide (pr_pending_source p = [])) then
      upd_prov (fun p => set_pr_source_terminal_id
        (snprintf_s PROV_SOURCE_TERMINAL_ID_MAX (pr_pending_source p)) p) ;;
      let* p := gets prov in
      nvs_set_string PROV_NVS_KEY_SRCTERMID (pr_source_terminal_id p) ;;
      send_line sock ACK ;;
      reset_handshake
    else send_line sock ACK ;; reset_handshake
  else
    upd_prov (fun p => set_pr_device_id (snprintf_s PROV_DEVICE_ID_MAX (pr_pending_device_id p)) p) ;;
    upd_prov (fun p => set_pr_source_terminal_id
      (snprintf_s PROV_SOURCE_TERMINAL_ID_MAX (pr_pending_source p)) p) ;;
    upd_prov (fun p => set_pr_iot_endpoint (snprintf_s PROV_ENDPOINT_MAX (pr_pending_endpoint p)) p) ;;
    let* ok := persist_identity in
    if negb ok then reset_handshake ;; send_line sock ACK
    else send_line sock ACK ;; reset_handshake ;; reboot_after_ms 1000.

Definition is_provisioning_line (buf : bytes) : bool :=
  memcmp_eq buf (str "REQID:") || memcmp_eq buf (str "PROV:") || memcmp_eq buf (str "CSRREQ")
  || memcmp_eq buf (str "DEVID:") || memcmp_eq buf (str "CERT:") || memcmp_eq buf (str "PFIN").

(** The handlers work on the line as a C string with its trailing white space
    cut off in place. *)
Definition provisioning_handle_tcp_line (line : bytes) (sock : Z) : M bool :=
  let buf := cbuf line in
  if negb (is_provisioning_line buf) then ret false else
  let t := trim_trailing_ws (cstr buf) in
  if memcmp_eq t (str "REQID:") then handle_reqid t sock ;; ret true
  else if memcmp_eq t (str "PROV:") then handle_prov t sock ;; ret true
  else if memcmp_eq t (str "CSRREQ") then handle_csrreq sock ;; ret true
  else if memcmp_eq t (str "DEVID:") then handle_devid t sock ;; ret true
  else if memcmp_eq t (str "CERT:") then handle_cert t sock ;; ret true
  else if memcmp_eq t (str "PFIN") then handle_pfin sock ;; ret true
  else ret false.

End Provisioning.
