(* ===== verification/WifiTrial.v ===== *)
(** * WifiTrial: credentials are tried before they are stored ([wifi/wifi_trial.c])

    [wifi_trial_run] blocks on an event group while the event loop's task runs
    [trial_event]; it is given here as the part before the wait, the events,
    and the part behind it. *)

From S2P Require Import Prelude Platform Radio State.
From stdpp Require Import base list strings numbers.
From Stdlib Require Import ZArith Lia.

Local Open Scope cything_scope.

Section WifiTrial.
Context {P : Platform} {C : Config} {R : Radio P}.

Definition upd_trial (f : trial_state -> trial_state) : M unit :=
  modify (fun d => set_trial (f (trial d)) d).

(** [wifi/wifi_info_handler.c] *)
Definition wifi_update_device_ip (netif_ip : World -> Z) : M unit :=
  modify (fun d => set_device_ip (netif_ip (world d)) d).

(** Driver calls leave a mark on the trace. *)
Definition wifi_set_mode (m : wifi_mode) : M esp_err_t :=
  emit (EvWifiMode m) ;; io (esp_wifi_set_mode m).
Definition wifi_connect : M esp_err_t := emit EvWifiConnect ;; io esp_wifi_connect.
Definition wifi_disconnect : M esp_err_t := emit EvWifiDisconnect ;; io esp_wifi_disconnect.

Definition classify (reason : Z) : wifi_trial_result_t :=
  if bool_decide (reason = WIFI_REASON_NO_AP_FOUND) || bool_decide (reason ∈ wifi_reasons_no_ap_threshold)
  then WIFI_TRIAL_NOT_FOUND
  else if bool_decide (reason ∈ [WIFI_REASON_AUTH_EXPIRE; WIFI_REASON_AUTH_FAIL;
            WIFI_REASON_4WAY_HANDSHAKE_TIMEOUT; WIFI_REASON_HANDSHAKE_TIMEOUT; WIFI_REASON_MIC_FAILURE])
  then WIFI_TRIAL_AUTH_FAIL
  else WIFI_TRIAL_TIMEOUT.

(** What the event loop delivers: [WIFI_EVENT_STA_DISCONNECTED] with its
    reason, [IP_EVENT_STA_GOT_IP]. *)
Inductive trial_ev := TrDisconnected (reason : Z) | TrGotIp.

Definition trial_event (ev : trial_ev) : M unit :=
  let* t := gets trial in
  if negb (tr_active t) then ret tt else
  match ev with
  | TrDisconnected reason =>
      let why := classify reason in
      let retry := bool_decide (why = WIFI_TRIAL_TIMEOUT) in
      when retry (upd_trial (fun t => set_tr_retries (tr_retries t - 1) t)) ;;
      if retry && bool_decide (0 < tr_retries t)%Z then
        let* _ := wifi_connect in ret tt
      else
        upd_trial (set_tr_failure why) ;;
        upd_trial (set_tr_failed true)
  | TrGotIp =>
      wifi_update_device_ip netif_sta_ip ;;
      upd_trial (set_tr_got_ip true)
  end.

Definition trial_init_once : M esp_err_t :=
  let* t := gets trial in
  if tr_events t then ret ESP_OK else
  let* ok := io xEventGroupCreate in
  upd_trial (set_tr_events ok) ;;
  if negb ok then ret ESP_ERR_NO_MEM else
  let* ok := io esp_netif_create_default_wifi_sta in
  upd_trial (set_tr_netif ok) ;;
  if negb ok then ret ESP_FAIL else
  let* err := io (esp_event_handler_instance_register "WIFI_EVENT") in
  if is_ok err then io (esp_event_handler_instance_register "IP_EVENT") else ret err.

(** [strncpy] into a zeroed array of [n] bytes. *)
Definition strncpy_zero (n : nat) (s : bytes) : bytes :=
  take n (cstr s) ++ zeros (n - length (take n (cstr s))).

(** APSTA, the configuration, connect; a failed call skips the rest. *)
Definition trial_start (cfg : sta_config) : M esp_err_t :=
  let* err := wifi_set_mode WIFI_MODE_APSTA in
  let* err := (if is_ok err then io (esp_wifi_set_config cfg) else ret err) in
  if is_ok err then wifi_connect else ret err.

(** Up to the wait; an answer means it never got there. *)
Definition wifi_trial_begin (ssid password : bytes) : M (option wifi_trial_result_t) :=
  let* err := trial_init_once in
  if negb (is_ok err) then ret (Some WIFI_TRIAL_ERROR) else
  let cfg := Build_sta_config (strncpy_zero 32 ssid) (strncpy_zero 64 password)
               (negb (bool_decide (cstr password = []))) in
  upd_trial (fun t => set_tr_got_ip false (set_tr_failed false t)) ;;
  upd_trial (set_tr_failure WIFI_TRIAL_TIMEOUT) ;;
  upd_trial (set_tr_retries 2) ;;
  upd_trial (set_tr_active true) ;;
  let* err := trial_start cfg in
  if negb (is_ok err) then
    upd_trial (set_tr_active false) ;;
    let* _ := wifi_set_mode WIFI_MODE_AP in
    ret (Some WIFI_TRIAL_ERROR)
  else ret None.

(** The bits the waiter wakes up with are those of the first event that sets
    one, and are cleared with it; the events behind it are handled before the
    waiter runs again. *)
Fixpoint trial_wait (evs : list trial_ev) : M (bool * bool) :=
  let* t := gets trial in
  if tr_got_ip t || tr_failed t then
    upd_trial (fun t => set_tr_got_ip false (set_tr_failed false t)) ;;
    for_each evs trial_event ;;
    ret (tr_got_ip t, tr_failed t)
  else match evs with
       | [] => ret (false, false)
       | ev :: evs' => trial_event ev ;; trial_wait evs'
       end.

(** Behind the wait, which ended with these bits ([false, false]: timeout). *)
Definition wifi_trial_end (bits : bool * bool) : M wifi_trial_result_t :=
  upd_trial (set_tr_active false) ;;
  if fst bits then ret WIFI_TRIAL_OK else
  let* t := gets trial in
  let result := if snd bits then tr_failure t else WIFI_TRIAL_TIMEOUT in
  let* _ := wifi_disconnect in
  let* _ := wifi_set_mode WIFI_MODE_AP in
  wifi_update_device_ip netif_ap_ip ;;
  ret result.

(** The whole of it, with the events that arrive before the timeout. *)
Definition wifi_trial_run (ssid password : bytes) (evs : list trial_ev) : M wifi_trial_result_t :=
  let* r := wifi_trial_begin ssid password in
  match r with
  | Some r => ret r
  | None => let* bits := trial_wait evs in wifi_trial_end bits
  end.

End WifiTrial.
