(* ===== verification/UdpScan.v ===== *)
(** * UdpScan: the scan reply ([udp_socket/udp_response_handler.c],
    [udp_socket/udp_server.c])

    A CSV of nine fields that says who the device is and how it wants to be
    talked to; and the task that answers with it, turn by turn of its loops. *)

From S2P Require Import Prelude Platform Radio State Mdns Provisioning.
From stdpp Require Import base list strings numbers.
From Stdlib Require Import ZArith Lia.

Local Open Scope cything_scope.

Section UdpScan.
Context {P : Platform} {C : Config}.

Definition UDP_REPLY_MAX : nat := 512.

(** [IP2STR]: the address is a little-endian word. *)
Definition ip4_octet (ip : Z) (i : Z) : Z := Z.land (Z.shiftr ip (8 * i)) 255.
Definition DOT : Z := 46.

Definition get_device_wifi_info (d : Dev) : bytes :=
  let ip := device_ip d in
  dec_u (ip4_octet ip 0) ++ [DOT] ++ dec_u (ip4_octet ip 1) ++ [DOT]
  ++ dec_u (ip4_octet ip 2) ++ [DOT] ++ dec_u (ip4_octet ip 3).

(** [strlcat(dst, src, n)]: what [dst] holds afterwards. *)
Definition strlcat (dst src : bytes) (n : nat) : bytes :=
  if bool_decide (n <= length dst) then dst else take (n - 1) (dst ++ src).

Definition PROVISIONING_CAPS_SIZE : nat := 40.

Definition provisioning_caps (d : Dev) : bytes :=
  let add (b : bool) (s : string) (caps : bytes) :=
    if b then strlcat caps (str s) PROVISIONING_CAPS_SIZE else caps in
  let caps := str "pake" in
  let caps := add claim_credentials_present "|claim" caps in
  let caps := add (negb (device_password_is_set d)) "|nopw" caps in
  let caps := add (local_auth_enforce && device_password_is_set d) "|authreq" caps in
  add true "|email" caps.

(** The nine fields. *)
Definition scan_fields (d : Dev) : list bytes :=
  let '(source_terminal_id, device_id, provision_state) :=
    provisioning_get_scan_fields PROV_SOURCE_TERMINAL_ID_MAX PROV_DEVICE_ID_MAX 16 d in
  [ get_device_wifi_info d; source_terminal_id; cy_device_name; cy_device_type; device_id;
    provision_state; cy_firmware_version; cy_hardware_version; provisioning_caps d ].

Fixpoint join (sep : Z) (fields : list bytes) : bytes :=
  match fields with
  | [] => []
  | [f] => f
  | f :: fs => f ++ sep :: join sep fs
  end.

(** The text in [reply] and the length answered. *)
Definition udp_get_info_response (reply_size : nat) (d : Dev) : bytes * nat :=
  let text := join COMMA (scan_fields d) in
  let reply := snprintf_s reply_size text in
  let len := length text in
  (reply, if bool_decide (reply_size <= len) then reply_size - 1 else len).

(** [device_config/cy_config.c] *)
Definition cy_scan_command_len : nat :=
  let length := length cy_scan_command in
  if bool_decide (2 < length) then length - 2 else length.

Definition processData (rx_buffer : bytes) (reply_size : nat) (d : Dev) : bytes * nat :=
  if bool_decide (cy_scan_command_len <= length rx_buffer)
     && memcmp_eq rx_buffer (take cy_scan_command_len cy_scan_command)
  then udp_get_info_response reply_size d
  else ([], 0).

End UdpScan.

(** ** [udp_socket/udp_server.c] *)

(** The socket calls. [recvfrom] answers the bytes and who sent them, or an
    error. *)
Class UdpSockets {P : Platform} := {
  udp_socket : World -> Z * World;
  udp_bind : Z -> Z -> World -> Z * World;
  recvfrom : Z -> nat -> World -> option (bytes * Z) * World;
  sendto : Z -> bytes -> Z -> World -> Z * World;
}.

(** [socket] answers a descriptor or -1. *)
Class UdpSocketLaws {P : Platform} {U : UdpSockets} := {
  udp_socket_range : forall w, (-1 <= fst (udp_socket w))%Z;
}.

Section Server.
Context {P : Platform} {C : Config} {U : UdpSockets}.

Definition RX_BUFFER_SIZE : nat := 128.

(** [err], and [*sock]. The socket options have no effect here. *)
Definition create_udp_socket : M (Z * Z) :=
  let error_line (err sock : Z) :=
    if bool_decide (err < 0)%Z && bool_decide (sock <> -1)%Z then emit (EvClose sock) ;; ret (err, (-1)%Z)
    else ret (err, sock) in
  let* sock := io udp_socket in
  if bool_decide (sock < 0)%Z then error_line (-1)%Z sock else
  let* err := io (udp_bind sock cy_udp_port) in
  if bool_decide (err < 0)%Z then error_line err sock else ret (err, sock).

(** Where the task is: in front of [create_udp_socket], or in the inner loop. *)
Inductive udp_phase := Creating | Receiving (sock : Z).

(** Behind the inner loop. *)
Definition udp_restart (sock : Z) : M udp_phase :=
  when (bool_decide (sock <> -1)%Z) (emit (EvShutdown sock) ;; emit (EvClose sock)) ;; ret Creating.

(** One datagram; [false] leaves the inner loop. *)
Definition udp_receive (sock : Z) : M bool :=
  let* r := io (recvfrom sock (RX_BUFFER_SIZE - 1)) in
  match r with
  | None => ret false
  | Some (rx_buffer, source_addr) =>
      let* (reply, reply_len) := gets (processData rx_buffer UDP_REPLY_MAX) in
      if bool_decide (0 < reply_len) then
        emit (EvDatagram (take reply_len reply)) ;;
        let* err := io (sendto sock (take reply_len reply) source_addr) in
        ret (bool_decide (0 <= err)%Z)
      else ret true
  end.

(** One turn of the loop the task is in. *)
Definition udp_server_task_step (p : udp_phase) : M udp_phase :=
  match p with
  | Creating =>
      let* (err, sock) := create_udp_socket in
      if bool_decide (err < 0)%Z then ret Creating else ret (Receiving sock)
  | Receiving sock =>
      let* goes_on := udp_receive sock in
      if goes_on then ret (Receiving sock) else udp_restart sock
  end.
End Server.
