(* ===== verification/Station.v ===== *)
(** * Station: Wi-Fi bring-up ([wifi/station_mode.c], [wifi/access_point.c],
    [wifi/wifi_info_handler.c], [mdns/mdns_discovery.c])

    The station's event handler, the configuration [wifi_init_sta] hands to
    the driver, and the start of the mDNS responder. *)

From S2P Require Import Prelude Platform Radio State Mdns Discovery Provisioning Flash WifiTrial UdpScan.
From stdpp Require Import base list strings numbers.
From Stdlib Require Import ZArith Lia.

Local Open Scope cything_scope.

Section Station.
Context {P : Platform} {C : Config} {R : Radio P}.

Definition upd_sta (f : station_state -> station_state) : M unit :=
  modify (fun d => set_station (f (station d)) d).

(** ** [mdns/mdns_discovery.c]: the start *)

Definition MDNS_HOSTNAME_PREFIX : bytes := str "cything-".
Definition MDNS_INSTANCE_PREFIX : bytes := str "Cything ".

Definition tolower (c : Z) : Z := if bool_decide (65 <= c <= 90)%Z then (c + 32)%Z else c.

Definition mdns_hostname : bytes := tolower <$> (MDNS_HOSTNAME_PREFIX ++ wifi_get_unit_suffix).
Definition mdns_instance : bytes :=
  if bool_decide (load_channel_tag = []) then MDNS_INSTANCE_PREFIX ++ wifi_get_unit_suffix
  else MDNS_INSTANCE_PREFIX ++ wifi_get_unit_suffix ++ str " #" ++ load_channel_tag.

Definition mdns_discovery_start : M unit :=
  let* started := gets mdns_started in
  if started then ret tt else
  let* err := io mdns_init in
  if negb (is_ok err) then ret tt else
  let* txt := gets build_txt in
  let* err := io (mdns_hostname_set mdns_hostname) in
  let* err := (if is_ok err then io (mdns_instance_name_set mdns_instance) else ret err) in
  let* err := (if is_ok err then io (mdns_service_add mdns_instance cy_tcp_port txt) else ret err) in
  if negb (is_ok err) then io_ mdns_free else
  modify (set_mdns_started true) ;;
  emit (EvTxt txt).

(** ** The event handler *)

Inductive sta_ev := StaStart | StaDisconnected | StaGotIp (a1 a2 a3 a4 : Z).

Definition start_servers : M unit :=
  let* s := gets station in
  when (negb (sn_sockets s))
    (upd_sta (set_sn_sockets true) ;;
     emit (EvTask "tcp_server" 0) ;;
     emit (EvTask "udp_server" 0)).

Definition event_handler (ev : sta_ev) : M unit :=
  match ev with
  | StaStart =>
      upd_sta (set_sn_connected false) ;;
      let* _ := wifi_connect in ret tt
  | StaDisconnected =>
      upd_sta (set_sn_connected false) ;;
      when ble_scan_beacon_enabled ble_beacon_on_ip_lost ;;
      let* _ := wifi_connect in ret tt
  | StaGotIp a1 a2 a3 a4 =>
      wifi_update_device_ip netif_sta_ip ;;
      upd_sta (set_sn_connected true) ;;
      when ble_scan_beacon_enabled (ble_beacon_on_ip a1 a2 a3 a4) ;;
      start_servers ;;
      upd_sta (set_sn_retry_num 0) ;;
      upd_sta (set_sn_connected_bit true)
  end.

(** ** [wifi_init_sta] *)

Definition SSID_ARG_SIZE : nat := 128.

(** The length loops stop at the first NUL of the 128 bytes; with none the
    length stays 0. *)
Definition arg_len (arg : bytes) : nat :=
  if bool_decide (length (cstr (take SSID_ARG_SIZE arg)) < SSID_ARG_SIZE)
  then length (cstr (take SSID_ARG_SIZE arg)) else 0.

(** The two loops copy byte by byte into [ssid\[32\]] and [password\[64\]],
    which lie behind each other; [None]: a byte lands behind both of them. *)
Definition fill_config (ssid pass : bytes) : option bytes :=
  if bool_decide (96 < length ssid) || bool_decide (64 < length pass) then None else
  let mem := ssid ++ zeros (96 - length ssid) in
  Some (take 32 mem ++ pass ++ drop (32 + length pass) mem).

Definition wifi_sta_config (ssid_arg pass_arg : bytes) : option sta_config :=
  let ssid := take (arg_len ssid_arg) ssid_arg in
  let pass := take (arg_len pass_arg) pass_arg in
  match fill_config ssid pass with
  | None => None
  | Some mem =>
      Some (Build_sta_config (take 32 mem) (drop 32 mem) (negb (bool_decide (cstr (drop 32 mem) = []))))
  end.

(** Up to the wait for the connection; [None] is the overflow. *)
Definition wifi_init_sta_begin : M (option unit) :=
  let* s := gets station in
  match wifi_sta_config (sn_ssid_arg s) (sn_pass_arg s) with
  | None => ret None
  | Some cfg =>
      let* _ := wifi_set_mode WIFI_MODE_STA in
      let* _ := io (esp_wifi_set_config cfg) in
      ret (Some tt)
  end.

(** Behind it. [WIFI_FAIL_BIT] is never set: only a connection ends the wait. *)
Definition wifi_init_sta_connected : M unit :=
  upd_sta (set_sn_connected true) ;;
  mdns_discovery_start ;;
  when is_remote_con_enable
    (let* active := gets provisioning_is_active in
     when active (emit (EvTask "aws_iot_task" 0))).

(** ** [wifi/access_point.c] *)

Definition wifi_get_ap_ssid (out_size : nat) : bytes :=
  snprintf_s out_size (cy_ap_ssid_prefix ++ wifi_get_unit_suffix).

Definition wifi_init_accesspoint_mode : M unit :=
  let* _ := wifi_set_mode WIFI_MODE_AP in
  wifi_update_device_ip netif_ap_ip.

End Station.
