(* ===== verification/BlePairing.v ===== *)
(** * BlePairing: Wi-Fi credentials over BLE ([ble/ble_pairing.c])

    The GATT access callback, the Control opcode, the commit task with the
    Wi-Fi trial in its middle, and advertising. The callbacks run on the host
    task and the commit task on its own: [ble_step] lets them interleave. *)

From S2P Require Import Prelude Platform Radio State LocalSession Mdns Discovery Flash WifiPairing WifiTrial UdpScan.
From stdpp Require Import base list strings numbers.
From Stdlib Require Import ZArith Lia.

Local Open Scope cything_scope.

(** Where a commit task is: created, waiting for the trial, on its way to the
    store, or ended with the reboot to come. *)
Inductive commit_phase := Created | Waiting | Joined | Stored.

#[export] Instance commit_phase_eq_dec : EqDecision commit_phase.
Proof. solve_decision. Defined.

Section BlePairing.
Context {P : Platform} {C : Config} {R : Radio P}.

(** ** [ble_pairing.h] *)

Definition BLE_PAIR_CTRL_COMMIT : Z := 1.
Definition BLE_PAIR_STATE_IDLE : Z := 0.
Definition BLE_PAIR_STATE_READY : Z := 1.
Definition BLE_PAIR_STATE_STORED : Z := 2.
Definition BLE_PAIR_STATE_TRYING : Z := 3.
Definition BLE_PAIR_STATE_WIFI_JOINED : Z := 4.
Definition BLE_PAIR_STATE_ERROR : Z := 255.
Definition BLE_PAIR_ERR_NO_SSID : Z := 1.
Definition BLE_PAIR_ERR_FLASH : Z := 2.
Definition BLE_PAIR_ERR_BAD_OPCODE : Z := 3.
Definition BLE_PAIR_ERR_BUSY : Z := 4.
Definition BLE_PAIR_ERR_WIFI_NOT_FOUND : Z := 5.
Definition BLE_PAIR_ERR_WIFI_AUTH : Z := 6.
Definition BLE_PAIR_ERR_WIFI_TIMEOUT : Z := 7.
Definition BLE_PAIR_SSID_MAX : nat := 32.
Definition BLE_PAIR_PASS_MAX : nat := 64.

Definition upd_ble (f : ble_state -> ble_state) : M unit :=
  modify (fun d => set_blep (f (blep d)) d).

(** ** Status *)

Definition set_status (state detail : Z) : M unit :=
  upd_ble (set_bl_status (state, detail)) ;;
  emit (EvNotify state detail).

(** ** The commit task, in the parts the trial cuts it into *)

Definition trial_detail (trial : wifi_trial_result_t) : Z :=
  match trial with
  | WIFI_TRIAL_NOT_FOUND => BLE_PAIR_ERR_WIFI_NOT_FOUND
  | WIFI_TRIAL_AUTH_FAIL => BLE_PAIR_ERR_WIFI_AUTH
  | _ => BLE_PAIR_ERR_WIFI_TIMEOUT
  end.

Definition commit_begin : M (option wifi_trial_result_t) :=
  set_status BLE_PAIR_STATE_TRYING 0 ;;
  let* b := gets blep in
  wifi_trial_begin (bl_cred_ssid b) (bl_cred_pass b).

(** Says whether the task goes on to store. *)
Definition commit_tried (trial : wifi_trial_result_t) : M bool :=
  if negb (bool_decide (trial = WIFI_TRIAL_OK)) then
    set_status BLE_PAIR_STATE_ERROR (trial_detail trial) ;;
    upd_ble (set_bl_commit_in_progress false) ;;
    ret false
  else
    emit EvInfo ;;
    set_status BLE_PAIR_STATE_WIFI_JOINED 0 ;;
    ret true.

Definition commit_store : M unit :=
  let* b := gets blep in
  let* err := pairing_commit (cstr (bl_cred_ssid b)) (cstr (bl_cred_pass b)) in
  if is_ok err then set_status BLE_PAIR_STATE_STORED 0
  else
    set_status BLE_PAIR_STATE_ERROR BLE_PAIR_ERR_FLASH ;;
    upd_ble (set_bl_commit_in_progress false).

(** The task when nothing else runs but the event loop. *)
Definition ble_commit_task (evs : list trial_ev) : M unit :=
  let* r := commit_begin in
  let* trial := match r with
                | Some r => ret r
                | None => let* bits := trial_wait evs in wifi_trial_end bits
                end in
  let* go := commit_tried trial in
  when go commit_store.

Definition handle_control (opcode : Z) : M unit :=
  if bool_decide (opcode = BLE_PAIR_CTRL_COMMIT) then
    let* b := gets blep in
    if bl_commit_in_progress b then set_status BLE_PAIR_STATE_ERROR BLE_PAIR_ERR_BUSY
    else if negb (bl_have_ssid b) then set_status BLE_PAIR_STATE_ERROR BLE_PAIR_ERR_NO_SSID
    else
      upd_ble (set_bl_commit_in_progress true) ;;
      let* ok := ask (xTaskCreate_ok "ble_commit") in
      if ok then emit (EvTask "ble_commit" 0)
      else
        upd_ble (set_bl_commit_in_progress false) ;;
        set_status BLE_PAIR_STATE_ERROR BLE_PAIR_ERR_FLASH
  else set_status BLE_PAIR_STATE_ERROR BLE_PAIR_ERR_BAD_OPCODE.

(** ** The access callback *)

Definition BLE_ATT_ERR_READ_NOT_PERMITTED : Z := 2.
Definition BLE_ATT_ERR_WRITE_NOT_PERMITTED : Z := 3.
Definition BLE_ATT_ERR_INVALID_ATTR_VALUE_LEN : Z := 13.
Definition BLE_ATT_ERR_UNLIKELY : Z := 14.
Definition BLE_ATT_ERR_INSUFFICIENT_RES : Z := 17.

Inductive chr := CHR_SSID | CHR_PASS | CHR_CTRL | CHR_STATUS | CHR_INFO
  | CHR_DIS_MODEL | CHR_DIS_FW | CHR_DIS_HW.

(** The error code, or the value. *)
Definition take_write (om : bytes) (max_len min_len : nat) : M (Z + bytes) :=
  if bool_decide (length om < min_len) || bool_decide (max_len < length om)
  then ret (inl BLE_ATT_ERR_INVALID_ATTR_VALUE_LEN)
  else
    let* rc := ask ble_hs_mbuf_to_flat in
    if bool_decide (rc <> 0)%Z then ret (inl BLE_ATT_ERR_UNLIKELY) else ret (inr om).

Definition gatt_write (which : chr) (om : bytes) : M Z :=
  match which with
  | CHR_SSID =>
      let* r := take_write om BLE_PAIR_SSID_MAX 1 in
      match r with
      | inl rc => ret rc
      | inr v =>
          upd_ble (set_bl_cred_ssid v) ;;
          upd_ble (set_bl_have_ssid true) ;;
          let* b := gets blep in
          when (negb (bl_commit_in_progress b)) (set_status BLE_PAIR_STATE_READY 0) ;;
          ret 0%Z
      end
  | CHR_PASS =>
      let* r := take_write om BLE_PAIR_PASS_MAX 0 in
      match r with
      | inl rc => ret rc
      | inr v => upd_ble (set_bl_cred_pass v) ;; ret 0%Z
      end
  | CHR_CTRL =>
      let* r := take_write om 1 1 in
      match r with
      | inl rc => ret rc
      | inr v => handle_control (default 0%Z (head v)) ;; ret 0%Z
      end
  | _ => ret BLE_ATT_ERR_WRITE_NOT_PERMITTED
  end.

(** The value is appended to the reply, or there is no room for it. *)
Definition append_read (data : bytes) : M (Z * bytes) :=
  let* rc := ask (os_mbuf_append data) in
  if bool_decide (rc = 0)%Z then ret (0%Z, data) else ret (BLE_ATT_ERR_INSUFFICIENT_RES, []).

Definition gatt_read (which : chr) : M (Z * bytes) :=
  match which with
  | CHR_STATUS => let* b := gets blep in append_read [fst (bl_status b); snd (bl_status b)]
  | CHR_INFO =>
      let* (info, n) := gets (udp_get_info_response UDP_REPLY_MAX) in append_read (take n info)
  | CHR_DIS_MODEL => append_read cy_device_type
  | CHR_DIS_FW => append_read cy_firmware_version
  | CHR_DIS_HW => append_read cy_hardware_version
  | _ => ret (BLE_ATT_ERR_READ_NOT_PERMITTED, [])
  end.

(** ** Advertising and connections *)

Definition BLE_HS_CONN_HANDLE_NONE : Z := 65535.
Definition BLE_PAIRING_SVC_ID : Z := 1.

Definition pair_svc_uuid : bytes := ble_uuid128_from_base cy_ble_base_uuid128 BLE_PAIRING_SVC_ID.
Definition pairing_name : bytes := BLE_PAIRING_NAME_PREFIX ++ wifi_get_unit_suffix.

Definition start_advertising : M unit :=
  let* rc := io (ble_gap_adv_set_fields pair_svc_uuid) in
  if bool_decide (rc <> 0)%Z then ret tt else
  let* rc := io (ble_gap_adv_rsp_set_fields pairing_name true) in
  if bool_decide (rc <> 0)%Z then ret tt else
  let* rc := io ble_gap_adv_start in
  if bool_decide (rc <> 0)%Z then ret tt else
  emit (EvAdvStart pair_svc_uuid).

(** The events that do anything but log. *)
Inductive gap_ev := GapConnect (status conn_handle : Z) | GapDisconnect | GapAdvComplete.

Definition gap_event (ev : gap_ev) : M unit :=
  match ev with
  | GapConnect status h =>
      if bool_decide (status = 0)%Z then upd_ble (set_bl_conn_handle h) else start_advertising
  | GapDisconnect =>
      upd_ble (set_bl_conn_handle BLE_HS_CONN_HANDLE_NONE) ;;
      let* b := gets blep in
      when (negb (bl_commit_in_progress b)) start_advertising
  | GapAdvComplete =>
      let* b := gets blep in
      when (negb (bl_commit_in_progress b)) start_advertising
  end.

Definition on_sync : M unit :=
  let* rc := ble_host_resolve_addr in
  if bool_decide (rc <> 0)%Z then ret tt else start_advertising.

(** Says whether the host task runs; advertising starts from [on_sync]. *)
Definition ble_pairing_start : M bool :=
  let* rc := ble_host_init in
  if bool_decide (rc <> 0)%Z then ret false else
  let* rc := io ble_gatts_count_cfg in
  let* rc := (if bool_decide (rc = 0)%Z then io ble_gatts_add_svcs else ret rc) in
  ret (bool_decide (rc = 0)%Z).

(** ** The tasks together *)

Definition is_commit_task (e : event) : bool :=
  match e with EvTask n _ => bool_decide (n = "ble_commit") | _ => false end.

(** How many commit tasks a host callback created. *)
Definition created (d d' : Dev) : nat := length (List.filter is_commit_task (drop (length (out d)) (out d'))).

(** What happens, for the record. *)
Inductive ble_act := ActWrite | ActRead | ActGap | ActWifi (ev : trial_ev)
  | ActBegin        (* a task starts its trial *)
  | ActEnd          (* a task's trial is over *)
  | ActStore.       (* a task stores the credentials *)

(** A task that goes on, and one that is deleted. *)
Definition goes_on (b : bool) (ph : commit_phase) : list commit_phase := if b then [ph] else [].

(** The commit tasks there are, oldest first, share the module's variables, as
    the callbacks do; any of them may run next. *)
Inductive ble_step : list commit_phase * Dev -> ble_act -> list commit_phase * Dev -> Prop :=
  | step_write ts d which om :
      let d' := exec (gatt_write which om) d in
      ble_step (ts, d) ActWrite (ts ++ replicate (created d d') Created, d')
  | step_read ts d which : ble_step (ts, d) ActRead (ts, exec (gatt_read which) d)
  | step_gap ts d ev : ble_step (ts, d) ActGap (ts, exec (gap_event ev) d)
  | step_wifi ts d ev : ble_step (ts, d) (ActWifi ev) (ts, exec (trial_event ev) d)
  | step_begin l1 l2 d :
      eval commit_begin d = None ->
      ble_step (l1 ++ Created :: l2, d) ActBegin (l1 ++ Waiting :: l2, exec commit_begin d)
  | step_begin_failed l1 l2 d r :
      eval commit_begin d = Some r ->
      let d1 := exec commit_begin d in
      ble_step (l1 ++ Created :: l2, d) ActBegin
        (l1 ++ goes_on (eval (commit_tried r) d1) Joined ++ l2, exec (commit_tried r) d1)
  | step_wake l1 l2 d :
      tr_got_ip (trial d) || tr_failed (trial d) = true ->
      let m := let* bits := trial_wait [] in let* r := wifi_trial_end bits in commit_tried r in
      ble_step (l1 ++ Waiting :: l2, d) ActEnd (l1 ++ goes_on (eval m d) Joined ++ l2, exec m d)
  | step_timeout l1 l2 d :
      tr_got_ip (trial d) || tr_failed (trial d) = false ->
      let m := let* r := wifi_trial_end (false, false) in commit_tried r in
      ble_step (l1 ++ Waiting :: l2, d) ActEnd (l1 ++ goes_on (eval m d) Joined ++ l2, exec m d)
  | step_store l1 l2 d :
      ble_step (l1 ++ Joined :: l2, d) ActStore
        (l1 ++ goes_on (bl_commit_in_progress (blep (exec commit_store d))) Stored ++ l2, exec commit_store d).

(** Everything that can have happened since [d0], with its record. *)
Inductive ble_reachable (d0 : Dev) : list ble_act -> list commit_phase * Dev -> Prop :=
  | ble_init : ble_reachable d0 [] ([], d0)
  | ble_next h s a s' : ble_reachable d0 h s -> ble_step s a s' -> ble_reachable d0 (h ++ [a]) s'.

End BlePairing.
