(* ===== verification/TcpServer.v ===== *)
(** * TcpServer: lines in, handlers called, connections accepted

    [tcp_server/tcp_command.c] (dispatch), [tcp_server/tcp_client_recv.c] (one
    task per connection) and [tcp_server/tcp_server.c] (accept). The endless
    loops of the tasks are given as their steps: one received byte or event,
    one accepted socket. *)

From S2P Require Import Prelude Platform State LocalSession Mdns EncFrame PairedList PairingEvents.
From S2P Require Import DevicePassword Discovery AccessPolicy PakeHandler LocalAuth OwnerCommands.
From S2P Require Import ResponseFifo ClientList Flash WifiPairing Provisioning.
From stdpp Require Import base list strings numbers.
From Stdlib Require Import ZArith Lia.

Local Open Scope cything_scope.

Section TcpServer.
Context {P : Platform} {C : Config}.

(** ** [tcp_server/tcp_command.c] *)

Inductive UpdateFirmwareStep := UPDATE_FW_START | UPDATE_FW_CREDENTIAL | UPDATE_FW_UPDATING | UPDATE_FW_UPDATED.

(** [updateFirmwareSteps]: command, response. *)
Definition updateFirmwareSteps (s : UpdateFirmwareStep) : bytes * bytes :=
  match s with
  | UPDATE_FW_START => (str "startupdatecomm", str "startupdateres")
  | UPDATE_FW_CREDENTIAL => (str "credentialcomm", str "credentialres")
  | UPDATE_FW_UPDATING => (str "updatingcomm", str "updating:")
  | UPDATE_FW_UPDATED => (str "updatedcomm", str "updatedres")
  end.

Definition FIRMWARE_URL_SIZE : nat := 4096.

Definition ota_handle_line (line : bytes) (sock : Z) : M bool :=
  let buf := cbuf line in
  let start := updateFirmwareSteps UPDATE_FW_START in
  let cred := updateFirmwareSteps UPDATE_FW_CREDENTIAL in
  let upd := updateFirmwareSteps UPDATE_FW_UPDATING in
  if memcmp_eq buf (fst start) then send_raw_to_client sock (snd start) ;; ret true
  else if memcmp_eq buf (fst cred) then send_raw_to_client sock (snd cred) ;; ret true
  else if memcmp_eq buf (fst upd) then
    let cmd_len := length (fst upd) in
    let url_len := length line - cmd_len in
    let url_len := if bool_decide (FIRMWARE_URL_SIZE <= url_len) then FIRMWARE_URL_SIZE - 1 else url_len in
    modify (set_firmwareUrl (take url_len (drop cmd_len line))) ;;
    emit (EvTask "ota_task" sock) ;;
    send_raw_to_client sock (snprintf_s 32 (snd upd ++ str "2")) ;;
    ret true
  else ret false.

(** The application's hook and what it calls. *)
Definition app_command (line : bytes) (sock : Z) : M bool :=
  let* (handled, calls) := io (app_command_handle_line line sock) in
  for_each calls run_app_call ;;
  ret handled.

Definition tcp_dispatch_line (line : bytes) (sock : Z) : M unit :=
  let* ok := access_policy_allow line sock in
  if negb ok then ret tt else
  let* h := pake_handle_line line sock in
  if h then ret tt else
  let* h := local_auth_handle_line line sock in
  if h then ret tt else
  let* h := owner_commands_handle_line line sock in
  if h then ret tt else
  let* h := provisioning_handle_tcp_line line sock in
  if h then ret tt else
  let* h := ota_handle_line line sock in
  if h then ret tt else
  let* h := pairing_handle_line line sock in
  if h then ret tt else
  let* _ := app_command line sock in
  ret tt.

(** ** [tcp_server/tcp_client_recv.c] *)

(** What [recv] of one byte answers. *)
Inductive recv_result := RxByte (c : Z) | RxTimeout | RxError | RxClosed.

(** A complete line: decrypt, then dispatch. *)
Definition recv_line (line : bytes) (sock : Z) : M unit :=
  let* o := enc_frame_unwrap line sock TCP_RECEIVE_DATA_LENGTH in
  match o with
  | Some line => tcp_dispatch_line line sock
  | None => ret tt
  end.

(** One turn of the loop on the session slot [si]; [rx] is the task's
    [rx_buffer]. The flag is [false] when the loop is left. *)
Definition recv_step (si : nat) (sock : Z) (ev : recv_result) (rx : bytes) : M (bytes * bool) :=
  match ev with
  | RxError | RxClosed => ret (rx, false)
  | RxTimeout => upd_sess si (set_ls_rx_len 0) ;; ret (rx, true)
  | RxByte c =>
      let* s := gets (sess si) in
      let rx := <[ls_rx_len s := c]> rx in
      let len := S (ls_rx_len s) in
      upd_sess si (set_ls_rx_len len) ;;
      if bool_decide (TCP_RECEIVE_DATA_LENGTH <= len) then
        upd_sess si (set_ls_rx_len 0) ;; ret (rx, true)
      else if bool_decide (c = NL) then
        let line := take (len - 1) rx in
        upd_sess si (set_ls_rx_len 0) ;;
        recv_line line sock ;;
        ret (rx, true)
      else ret (rx, true)
  end.

(** After the loop. *)
Definition recv_exit (sock : Z) : M unit :=
  local_session_release sock ;;
  remove_account sock ;;
  emit (EvShutdown sock) ;;
  emit (EvClose sock).

(** ** [tcp_server/tcp_server.c] *)

Definition reject (sock : Z) : M unit := emit (EvShutdown sock) ;; emit (EvClose sock).

(** One socket out of [accept]; answers the session slot its task runs on. *)
Definition tcp_accept (sock peer_ip : Z) : M (option nat) :=
  let* count := local_session_count in
  let* refused := (if bool_decide (TCP_CLIENT_MAX <= count)
                   then let* n := local_session_shutdown_peer peer_ip in ret (bool_decide (n = 0))
                   else ret false) in
  if refused then reject sock ;; ret None else
  let* ok := add_account sock in
  if negb ok then reject sock ;; ret None else
  let* session := local_session_acquire sock peer_ip in
  match session with
  | None => remove_account sock ;; reject sock ;; ret None
  | Some si =>
      let* ok := ask (xTaskCreate_ok "tcp_client_recv") in
      if ok then emit (EvTask "tcp_client_recv" (Z.of_nat si)) ;; ret (Some si)
      else
        local_session_release sock ;;
        remove_account sock ;;
        reject sock ;;
        ret None
  end.

End TcpServer.
