(* ===== verification/HttpOta.v ===== *)
(** * HttpOta: the firmware download ([ota_lib/http_ota_handler.c])

    [ota_task] over [esp_https_ota]: progress lines to the socket that asked,
    then a reboot or an abort. *)

From S2P Require Import Prelude Platform Radio State LocalSession Mdns EncFrame ResponseFifo ClientList Flash.
From S2P Require Import TcpServer.
From stdpp Require Import base list strings numbers.
From Stdlib Require Import ZArith Lia.

Local Open Scope cything_scope.

Section HttpOta.
Context {P : Platform} {C : Config} {R : Radio P}.

Definition ota_percent (bytes_read total_size : Z) : Z := Z.quot (bytes_read * 100) total_size.

Definition progress_line (percent : Z) : bytes :=
  snprintf_s 32 (snd (updateFirmwareSteps UPDATE_FW_UPDATING) ++ dec percent).

(** The last percentage reported, after one more piece. *)
Definition ota_report (sock total_size last_percent bytes_read : Z) : M Z :=
  if bool_decide (0 < total_size)%Z then
    let percent := ota_percent bytes_read total_size in
    if bool_decide (percent <> last_percent) then
      send_raw_to_client sock (progress_line percent) ;; ret percent
    else ret last_percent
  else ret last_percent.

(** [while(1)]; [None] says that the fuel did not suffice. *)
Fixpoint ota_loop (fuel : nat) (sock total_size last_percent : Z) : M (option unit) :=
  match fuel with
  | O => ret None
  | S fuel' =>
      let* (in_progress, bytes_read) := io esp_https_ota_perform in
      if negb in_progress then ret (Some tt) else
      let* last := ota_report sock total_size last_percent bytes_read in
      ota_loop fuel' sock total_size last
  end.

(** Says whether the task got to its [vTaskDelete]. *)
Definition ota_task (fuel : nat) (sock : Z) : M bool :=
  let* url := gets firmwareUrl in
  let* err := io (esp_https_ota_begin url) in
  if negb (is_ok err) then ret false else
  let* total_size := ask esp_https_ota_get_image_size in
  let* _ := ota_loop fuel sock total_size (-1) in
  let* complete := ask esp_https_ota_is_complete in
  (if complete then
     io_ esp_https_ota_finish ;;
     send_raw_to_client sock (snd (updateFirmwareSteps UPDATE_FW_UPDATED)) ;;
     reboot_after_ms 2000
   else io_ esp_https_ota_abort) ;;
  ret true.

End HttpOta.
