(* ===== verification/Backoff.v ===== *)
(** * Backoff: exponential backoff with full jitter
    ([backoffAlgorithm/backoff_algorithm.c])

    The delays are 16 bits wide, the number of attempts 32. *)

From S2P Require Import Prelude.
From stdpp Require Import base list numbers.
From Stdlib Require Import ZArith Lia.

Local Open Scope Z_scope.

Definition BACKOFF_ALGORITHM_RETRY_FOREVER : Z := 2 ^ 32 - 1.

Inductive BackoffAlgorithmStatus_t := BackoffAlgorithmSuccess | BackoffAlgorithmRetriesExhausted.

Record BackoffAlgorithmContext_t := Build_backoff {
  maxBackoffDelay : Z;   (* uint16_t *)
  attemptsDone : Z;      (* uint32_t *)
  nextJitterMax : Z;     (* uint16_t *)
  maxRetryAttempts : Z;  (* uint32_t *)
}.

(** The status, the delay ([*pNextBackOff] when it is written) and the context. *)
Definition BackoffAlgorithm_GetNextBackoff (c : BackoffAlgorithmContext_t) (randomValue : Z)
    : BackoffAlgorithmStatus_t * option Z * BackoffAlgorithmContext_t :=
  if bool_decide (maxRetryAttempts c = BACKOFF_ALGORITHM_RETRY_FOREVER)
     || bool_decide (attemptsDone c < maxRetryAttempts c)
  then
    let next := u16 (randomValue mod (nextJitterMax c + 1)) in
    let jitter := if bool_decide (nextJitterMax c < maxBackoffDelay c / 2)
                  then u16 (nextJitterMax c + nextJitterMax c) else maxBackoffDelay c in
    (BackoffAlgorithmSuccess, Some next,
     Build_backoff (maxBackoffDelay c) (u32 (attemptsDone c + 1)) jitter (maxRetryAttempts c))
  else (BackoffAlgorithmRetriesExhausted, None, c).

Definition BackoffAlgorithm_InitializeParams (backOffBase maxBackOff maxAttempts : Z)
    : BackoffAlgorithmContext_t :=
  Build_backoff maxBackOff 0 backOffBase maxAttempts.

(** ** The context stays in its widths *)

Definition backoff_ok (c : BackoffAlgorithmContext_t) : Prop :=
  0 <= nextJitterMax c < 2 ^ 16 /\ 0 <= maxBackoffDelay c < 2 ^ 16 /\
  0 <= attemptsDone c < 2 ^ 32 /\ 0 <= maxRetryAttempts c < 2 ^ 32.

Lemma backoff_step c r st o c' :
  backoff_ok c -> 0 <= r -> BackoffAlgorithm_GetNextBackoff c r = (st, o, c') ->
  match st with
  | BackoffAlgorithmRetriesExhausted =>
      o = None /\ c' = c /\ maxRetryAttempts c <> BACKOFF_ALGORITHM_RETRY_FOREVER /\
      maxRetryAttempts c <= attemptsDone c
  | BackoffAlgorithmSuccess =>
      (exists n, o = Some n /\ 0 <= n <= nextJitterMax c) /\
      maxBackoffDelay c' = maxBackoffDelay c /\ maxRetryAttempts c' = maxRetryAttempts c /\
      attemptsDone c' = u32 (attemptsDone c + 1) /\
      nextJitterMax c' = (if bool_decide (nextJitterMax c < maxBackoffDelay c / 2)
                          then 2 * nextJitterMax c else maxBackoffDelay c)
  end.
Proof.
  intros (Hj & Hm & Ha & Hr) Hr0 E. unfold BackoffAlgorithm_GetNextBackoff in E.
  destruct (_ || _) eqn:Eb; injection E as <- <- <-.
  - pose proof (Z.mod_pos_bound r (nextJitterMax c + 1) ltac:(lia)).
    split; [exists (r mod (nextJitterMax c + 1)); rewrite wrap_small by lia; split; [done|lia]|].
    cbn [maxBackoffDelay attemptsDone nextJitterMax maxRetryAttempts].
    split_and!; [done..|]. clear Eb. case_bool_decide as H1; [|done]. rewrite wrap_small; [lia|].
    pose proof (Z.div_le_upper_bound (maxBackoffDelay c) 2 (2 ^ 15) ltac:(lia) ltac:(lia)). lia.
  - apply orb_false_iff in Eb as [E1 E2]. apply bool_decide_eq_false_1 in E1, E2.
    split_and!; [done|done|done|lia].
Qed.

Lemma backoff_step_ok c r st o c' :
  backoff_ok c -> 0 <= r -> BackoffAlgorithm_GetNextBackoff c r = (st, o, c') -> backoff_ok c'.
Proof.
  intros Hok Hr E. pose proof (backoff_step c r st o c' Hok Hr E) as H. pose proof Hok as (Hj & Hm & Ha & Hx).
  destruct st.
  - destruct H as (_ & H1 & H2 & H3 & H4). unfold backoff_ok. rewrite H1, H2, H3, H4. split_and!; try lia.
    + case_bool_decide; lia.
    + case_bool_decide as Hc; [|lia]. pose proof (Z.div_le_upper_bound (maxBackoffDelay c) 2 (2 ^ 15) ltac:(lia) ltac:(lia)). lia.
    + apply wrap_range. lia.
    + apply wrap_range. lia.
  - destruct H as (_ & -> & _). done.
Qed.

(** ** A run of attempts *)

(** The delays of one retry loop: it ends with [None] when the attempts are used up. *)
Fixpoint backoff_run (c : BackoffAlgorithmContext_t) (rs : list Z) : list (option Z) :=
  match rs with
  | [] => []
  | r :: rs =>
      match BackoffAlgorithm_GetNextBackoff c r with
      | (BackoffAlgorithmSuccess, o, c') => o :: backoff_run c' rs
      | (BackoffAlgorithmRetriesExhausted, _, _) => [None]
      end
  end.

(** The ceiling of the [k]-th delay: the base doubled [k] times until the next
    doubling would pass half the maximum, then the maximum. *)
Fixpoint jitter_max (base mx : Z) (k : nat) : Z :=
  match k with
  | O => base
  | S k' => let j := jitter_max base mx k' in if bool_decide (j < mx / 2) then 2 * j else mx
  end.

Lemma jitter_max_bound base mx k :
  0 <= base <= mx -> 0 <= jitter_max base mx k <= mx.
Proof.
  intros H. induction k as [|k IH]; [done|]. cbn. case_bool_decide as Hj; [|lia].
  pose proof (Z.mul_div_le mx 2 ltac:(lia)). lia.
Qed.

(** Where the context is after [k] attempts. *)
Definition after (base mx attempts : Z) (k : nat) : BackoffAlgorithmContext_t :=
  Build_backoff mx (Z.of_nat k) (jitter_max base mx k) attempts.

Lemma backoff_run_from base mx attempts k rs :
  0 <= base <= mx -> mx < 2 ^ 16 -> 0 <= attempts < BACKOFF_ALGORITHM_RETRY_FOREVER ->
  Z.of_nat k <= attempts -> Forall (fun r => 0 <= r) rs ->
  exists ds, backoff_run (after base mx attempts k) rs
    = (Some <$> ds) ++ (if bool_decide (attempts - Z.of_nat k < Z.of_nat (length rs)) then [None] else []) /\
    Z.of_nat (length ds) = Z.min (attempts - Z.of_nat k) (Z.of_nat (length rs)) /\
    forall i n, ds !! i = Some n -> 0 <= n <= jitter_max base mx (k + i).
Proof.
  intros Hb Hm Ha. revert k. induction rs as [|r rs IH]; intros k Hk Hrs.
  { exists []. cbn. rewrite bool_decide_eq_false_2 by lia. split_and!; [done|lia|done]. }
  apply Forall_cons_1 in Hrs as [Hr Hrs]. cbn [backoff_run length].
  assert (backoff_ok (after base mx attempts k)) as Hok.
  { pose proof (jitter_max_bound base mx k Hb). unfold backoff_ok, after, BACKOFF_ALGORITHM_RETRY_FOREVER in *. cbn.
    lia. }
  destruct (BackoffAlgorithm_GetNextBackoff (after base mx attempts k) r) as [[st o] c'] eqn:E.
  pose proof (backoff_step _ r st o c' Hok Hr E) as Hs. destruct st.
  - destruct Hs as ((n & -> & Hn) & H1 & H2 & H3 & H4).
    assert (Z.of_nat k < attempts) as Hlt.
    { unfold BackoffAlgorithm_GetNextBackoff in E. cbn in E. destruct (_ || _) eqn:Eb; [|done].
      apply orb_true_iff in Eb as [Eb|Eb]; apply bool_decide_eq_true_1 in Eb; lia. }
    assert (c' = after base mx attempts (S k)) as ->.
    { destruct c' as [m a j x]. unfold after in *. cbn [maxBackoffDelay attemptsDone nextJitterMax maxRetryAttempts jitter_max] in *.
      subst. f_equal. unfold BACKOFF_ALGORITHM_RETRY_FOREVER in Ha. rewrite wrap_small by lia. lia. }
    destruct (IH (S k) ltac:(lia) Hrs) as (ds & E1 & E2 & E3). exists (n :: ds). split_and!.
    + rewrite E1. cbn. do 2 f_equal. rewrite (bool_decide_ext (attempts - Z.of_nat (S k) < _) (attempts - Z.of_nat k < Z.of_nat (S (length rs)))) by lia. done.
    + cbn [length]. lia.
    + intros [|i] x Hx; cbn in Hx; simplify_eq.
      * rewrite Nat.add_0_r. done.
      * rewrite <- Nat.add_succ_comm. by apply E3.
  - destruct Hs as (-> & -> & _ & Hge). cbn [after attemptsDone maxRetryAttempts] in Hge.
    exists []. rewrite bool_decide_eq_true_2 by (cbn; lia). cbn. split_and!; [done|lia|done].
Qed.

(** a retry loop that starts from [InitializeParams] gets exactly
    [maxAttempts] delays and is then told to stop, whatever the random numbers;
    the ceiling of the delays starts at the base, doubles while it is below half
    the maximum and stays at the maximum from then on; nothing wraps. *)
Theorem backoff_bounded base mx attempts rs :
  0 <= base <= mx -> mx < 2 ^ 16 -> 0 <= attempts < BACKOFF_ALGORITHM_RETRY_FOREVER ->
  Forall (fun r => 0 <= r) rs -> attempts < Z.of_nat (length rs) ->
  exists ds, backoff_run (BackoffAlgorithm_InitializeParams base mx attempts) rs = (Some <$> ds) ++ [None] /\
    Z.of_nat (length ds) = attempts /\
    forall k n, ds !! k = Some n -> 0 <= n <= jitter_max base mx k /\ n <= mx.
Proof.
  intros Hb Hm Ha Hrs Hl. destruct (backoff_run_from base mx attempts 0 rs Hb Hm Ha ltac:(lia) Hrs) as (ds & E & H1 & H2).
  exists ds. rewrite bool_decide_eq_true_2 in E by lia. split_and!; [exact E|lia|].
  intros k n Hk. pose proof (H2 k n Hk). pose proof (jitter_max_bound base mx k Hb). cbn in *. lia.
Qed.

Example backoff_bounded_witness :
  exists ds, backoff_run (BackoffAlgorithm_InitializeParams 500 5000 3) [123456789; 7; 4000000000; 1] = (Some <$> ds) ++ [None] /\
    Z.of_nat (length ds) = 3 /\ forall k n, ds !! k = Some n -> 0 <= n <= jitter_max 500 5000 k /\ n <= 5000.
Proof.
  apply backoff_bounded; unfold BACKOFF_ALGORITHM_RETRY_FOREVER; cbn [length]; try lia.
  repeat constructor; lia.
Defined.
