(* ===== verification/MqttTypes.v ===== *)
(** * MqttTypes: the data of the MQTT client ([coreMQTT/core_mqtt.h],
    [coreMQTT/core_mqtt_serializer.h], [coreMQTT/core_mqtt_state.h])

    Enumerations and structures. A pointer with its length is an optional list
    of bytes ([None]: NULL) beside the length field; a fixed buffer is the list
    of its bytes. *)

From S2P Require Import Prelude.
From stdpp Require Import base list numbers.
From Stdlib Require Import ZArith Lia.

(** ** Enumerations *)

Inductive MQTTStatus_t :=
  | MQTTSuccess | MQTTBadParameter | MQTTNoMemory | MQTTSendFailed | MQTTRecvFailed
  | MQTTBadResponse | MQTTServerRefused | MQTTNoDataAvailable | MQTTIllegalState
  | MQTTStateCollision | MQTTKeepAliveTimeout | MQTTNeedMoreBytes.

Inductive MQTTQoS_t := MQTTQoS0 | MQTTQoS1 | MQTTQoS2.

Inductive MQTTConnectionStatus_t := MQTTNotConnected | MQTTConnected.

Inductive MQTTPublishState_t :=
  | MQTTStateNull | MQTTPublishSend | MQTTPubAckSend | MQTTPubRecSend | MQTTPubRelSend
  | MQTTPubCompSend | MQTTPubAckPending | MQTTPubRecPending | MQTTPubRelPending
  | MQTTPubCompPending | MQTTPublishDone.

Inductive MQTTPubAckType_t := MQTTPuback | MQTTPubrec | MQTTPubrel | MQTTPubcomp.

Inductive MQTTStateOperation_t := MQTT_SEND | MQTT_RECEIVE.

#[export] Instance mqtt_status_eq_dec : EqDecision MQTTStatus_t.
Proof. solve_decision. Defined.
#[export] Instance mqtt_qos_eq_dec : EqDecision MQTTQoS_t.
Proof. solve_decision. Defined.
#[export] Instance mqtt_conn_eq_dec : EqDecision MQTTConnectionStatus_t.
Proof. solve_decision. Defined.
#[export] Instance mqtt_state_eq_dec : EqDecision MQTTPublishState_t.
Proof. solve_decision. Defined.
#[export] Instance mqtt_ack_eq_dec : EqDecision MQTTPubAckType_t.
Proof. solve_decision. Defined.
#[export] Instance mqtt_op_eq_dec : EqDecision MQTTStateOperation_t.
Proof. solve_decision. Defined.

Definition mqtt_ok (s : MQTTStatus_t) : bool := bool_decide (s = MQTTSuccess).

(** The enumerators' values. *)
Definition qos_byte (q : MQTTQoS_t) : Z :=
  match q with MQTTQoS0 => 0 | MQTTQoS1 => 1 | MQTTQoS2 => 2 end.

Definition state_bit (s : MQTTPublishState_t) : Z :=
  match s with
  | MQTTStateNull => 0 | MQTTPublishSend => 1 | MQTTPubAckSend => 2 | MQTTPubRecSend => 3
  | MQTTPubRelSend => 4 | MQTTPubCompSend => 5 | MQTTPubAckPending => 6 | MQTTPubRecPending => 7
  | MQTTPubRelPending => 8 | MQTTPubCompPending => 9 | MQTTPublishDone => 10
  end.

(** ** Packet types *)

Definition MQTT_PACKET_TYPE_CONNECT : Z := 16.
Definition MQTT_PACKET_TYPE_CONNACK : Z := 32.
Definition MQTT_PACKET_TYPE_PUBLISH : Z := 48.
Definition MQTT_PACKET_TYPE_PUBACK : Z := 64.
Definition MQTT_PACKET_TYPE_PUBREC : Z := 80.
Definition MQTT_PACKET_TYPE_PUBREL : Z := 98.
Definition MQTT_PACKET_TYPE_PUBCOMP : Z := 112.
Definition MQTT_PACKET_TYPE_SUBSCRIBE : Z := 130.
Definition MQTT_PACKET_TYPE_SUBACK : Z := 144.
Definition MQTT_PACKET_TYPE_UNSUBSCRIBE : Z := 162.
Definition MQTT_PACKET_TYPE_UNSUBACK : Z := 176.
Definition MQTT_PACKET_TYPE_PINGREQ : Z := 192.
Definition MQTT_PACKET_TYPE_PINGRESP : Z := 208.
Definition MQTT_PACKET_TYPE_DISCONNECT : Z := 224.

Definition MQTT_PACKET_ID_INVALID : Z := 0.

(** ** Structures *)

Record MQTTPubAckInfo_t := Build_record {
  packetId : Z;  (* uint16_t *)
  qos : MQTTQoS_t;
  publishState : MQTTPublishState_t;
}.

#[export] Instance mqtt_record_eq_dec : EqDecision MQTTPubAckInfo_t.
Proof. solve_decision. Defined.

Record MQTTConnectInfo_t := Build_connect_info {
  cleanSession : bool;
  keepAliveSeconds : Z;
  pClientIdentifier : option bytes;
  clientIdentifierLength : Z;
  pUserName : option bytes;
  userNameLength : Z;
  pPassword : option bytes;
  passwordLength : Z;
}.

Record MQTTSubscribeInfo_t := Build_subscribe_info {
  sub_qos : MQTTQoS_t;
  pTopicFilter : option bytes;
  topicFilterLength : Z;
}.

Record MQTTPublishInfo_t := Build_publish_info {
  pub_qos : MQTTQoS_t;
  retain : bool;
  dup : bool;
  pTopicName : option bytes;
  topicNameLength : Z;
  pPayload : option bytes;
  payloadLength : Z;
}.

(** [pRemainingData] is the memory from there on; a [NULL] is [None]. *)
Record MQTTPacketInfo_t := Build_packet_info {
  pk_type : Z;
  pRemainingData : option bytes;
  remainingLength : Z;
  headerLength : Z;
}.

Record MQTTDeserializedInfo_t := Build_deserialized {
  packetIdentifier : Z;
  pPublishInfo : option MQTTPublishInfo_t;
  deserializationResult : MQTTStatus_t;
}.

Record MQTTContext_t := Build_context {
  outgoingPublishRecords : list MQTTPubAckInfo_t;  (* its length is outgoingPublishRecordMaxCount; [] is NULL *)
  incomingPublishRecords : list MQTTPubAckInfo_t;
  networkBuffer : bytes;  (* pBuffer[0 .. size) *)
  nextPacketId : Z;  (* uint16_t *)
  connectStatus : MQTTConnectionStatus_t;
  lastPacketTxTime : Z;  (* uint32_t *)
  lastPacketRxTime : Z;  (* uint32_t; no statement assigns it *)
  controlPacketSent : bool;
  index : nat;  (* bytes of networkBuffer in use *)
  keepAliveIntervalSec : Z;  (* uint16_t *)
  pingReqSendTimeMs : Z;  (* uint32_t *)
  waitingForPingResp : bool;
}.

(** One setter per field. *)
Definition set_outgoingPublishRecords (v : list MQTTPubAckInfo_t) (r : MQTTContext_t) : MQTTContext_t :=
  Build_context v (incomingPublishRecords r) (networkBuffer r) (nextPacketId r) (connectStatus r) (lastPacketTxTime r) (lastPacketRxTime r) (controlPacketSent r) (index r) (keepAliveIntervalSec r) (pingReqSendTimeMs r) (waitingForPingResp r).
Definition set_incomingPublishRecords (v : list MQTTPubAckInfo_t) (r : MQTTContext_t) : MQTTContext_t :=
  Build_context (outgoingPublishRecords r) v (networkBuffer r) (nextPacketId r) (connectStatus r) (lastPacketTxTime r) (lastPacketRxTime r) (controlPacketSent r) (index r) (keepAliveIntervalSec r) (pingReqSendTimeMs r) (waitingForPingResp r).
Definition set_networkBuffer (v : bytes) (r : MQTTContext_t) : MQTTContext_t :=
  Build_context (outgoingPublishRecords r) (incomingPublishRecords r) v (nextPacketId r) (connectStatus r) (lastPacketTxTime r) (lastPacketRxTime r) (controlPacketSent r) (index r) (keepAliveIntervalSec r) (pingReqSendTimeMs r) (waitingForPingResp r).
Definition set_nextPacketId (v : Z) (r : MQTTContext_t) : MQTTContext_t :=
  Build_context (outgoingPublishRecords r) (incomingPublishRecords r) (networkBuffer r) v (connectStatus r) (lastPacketTxTime r) (lastPacketRxTime r) (controlPacketSent r) (index r) (keepAliveIntervalSec r) (pingReqSendTimeMs r) (waitingForPingResp r).
Definition set_connectStatus (v : MQTTConnectionStatus_t) (r : MQTTContext_t) : MQTTContext_t :=
  Build_context (outgoingPublishRecords r) (incomingPublishRecords r) (networkBuffer r) (nextPacketId r) v (lastPacketTxTime r) (lastPacketRxTime r) (controlPacketSent r) (index r) (keepAliveIntervalSec r) (pingReqSendTimeMs r) (waitingForPingResp r).
Definition set_lastPacketTxTime (v : Z) (r : MQTTContext_t) : MQTTContext_t :=
  Build_context (outgoingPublishRecords r) (incomingPublishRecords r) (networkBuffer r) (nextPacketId r) (connectStatus r) v (lastPacketRxTime r) (controlPacketSent r) (index r) (keepAliveIntervalSec r) (pingReqSendTimeMs r) (waitingForPingResp r).
Definition set_lastPacketRxTime (v : Z) (r : MQTTContext_t) : MQTTContext_t :=
  Build_context (outgoingPublishRecords r) (incomingPublishRecords r) (networkBuffer r) (nextPacketId r) (connectStatus r) (lastPacketTxTime r) v (controlPacketSent r) (index r) (keepAliveIntervalSec r) (pingReqSendTimeMs r) (waitingForPingResp r).
Definition set_controlPacketSent (v : bool) (r : MQTTContext_t) : MQTTContext_t :=
  Build_context (outgoingPublishRecords r) (incomingPublishRecords r) (networkBuffer r) (nextPacketId r) (connectStatus r) (lastPacketTxTime r) (lastPacketRxTime r) v (index r) (keepAliveIntervalSec r) (pingReqSendTimeMs r) (waitingForPingResp r).
Definition set_index (v : nat) (r : MQTTContext_t) : MQTTContext_t :=
  Build_context (outgoingPublishRecords r) (incomingPublishRecords r) (networkBuffer r) (nextPacketId r) (connectStatus r) (lastPacketTxTime r) (lastPacketRxTime r) (controlPacketSent r) v (keepAliveIntervalSec r) (pingReqSendTimeMs r) (waitingForPingResp r).
Definition set_keepAliveIntervalSec (v : Z) (r : MQTTContext_t) : MQTTContext_t :=
  Build_context (outgoingPublishRecords r) (incomingPublishRecords r) (networkBuffer r) (nextPacketId r) (connectStatus r) (lastPacketTxTime r) (lastPacketRxTime r) (controlPacketSent r) (index r) v (pingReqSendTimeMs r) (waitingForPingResp r).
Definition set_pingReqSendTimeMs (v : Z) (r : MQTTContext_t) : MQTTContext_t :=
  Build_context (outgoingPublishRecords r) (incomingPublishRecords r) (networkBuffer r) (nextPacketId r) (connectStatus r) (lastPacketTxTime r) (lastPacketRxTime r) (controlPacketSent r) (index r) (keepAliveIntervalSec r) v (waitingForPingResp r).
Definition set_waitingForPingResp (v : bool) (r : MQTTContext_t) : MQTTContext_t :=
  Build_context (outgoingPublishRecords r) (incomingPublishRecords r) (networkBuffer r) (nextPacketId r) (connectStatus r) (lastPacketTxTime r) (lastPacketRxTime r) (controlPacketSent r) (index r) (keepAliveIntervalSec r) (pingReqSendTimeMs r) v.

(** [uint16_t] in network order, and back. *)
Definition UINT16_HIGH_BYTE (x : Z) : Z := u8 (Z.shiftr x 8).
Definition UINT16_LOW_BYTE (x : Z) : Z := Z.land x 255.
Definition be16 (x : Z) : bytes := [UINT16_HIGH_BYTE x; UINT16_LOW_BYTE x].
Definition UINT16_DECODE (p : bytes) : Z := Z.lor (Z.shiftl (p !!! 0%nat) 8) (p !!! 1%nat).

Lemma be16_eq x : (0 <= x < 2 ^ 16)%Z -> be16 x = [x / 256; x mod 256]%Z.
Proof.
  intros Hx. unfold be16, UINT16_HIGH_BYTE, UINT16_LOW_BYTE. rewrite Z.shiftr_div_pow2 by lia.
  change 255%Z with (Z.ones 8). rewrite Z.land_ones by lia. change (2 ^ 8)%Z with 256%Z.
  rewrite wrap_small; [done|]. split; [apply Z.div_pos; lia|apply Z.div_lt_upper_bound; lia].
Qed.

Lemma be16_bytes x : (0 <= x < 2 ^ 16)%Z -> Forall is_byte (be16 x).
Proof. intros Hx. rewrite be16_eq by done. repeat constructor; unfold is_byte; Z.to_euclidean_division_equations; lia. Qed.

Lemma be16_decode x r : (0 <= x < 2 ^ 16)%Z -> UINT16_DECODE (be16 x ++ r) = x.
Proof.
  intros Hx. unfold UINT16_DECODE. rewrite be16_eq by done. cbn.
  rewrite Z.shiftl_mul_pow2, (lor_add _ _ 8) by (Z.to_euclidean_division_equations; lia).
  Z.to_euclidean_division_equations; lia.
Qed.

Lemma decode_be16 p : Forall is_byte (take 2 p) -> 2 <= length p -> be16 (UINT16_DECODE p) = take 2 p.
Proof.
  destruct p as [|a [|b p]]; cbn [length]; [lia..|]. intros Hb _. cbn [take] in *.
  apply Forall_cons_1 in Hb as [Ha Hb]. apply Forall_cons_1 in Hb as [Hb _]. unfold is_byte in *.
  assert (UINT16_DECODE (a :: b :: p) = a * 256 + b)%Z as -> by (unfold UINT16_DECODE; cbn; by rewrite Z.shiftl_mul_pow2, (lor_add _ _ 8) by lia).
  rewrite be16_eq by lia. repeat f_equal; Z.to_euclidean_division_equations; lia.
Qed.

Lemma decode_range p : Forall is_byte (take 2 p) -> (0 <= UINT16_DECODE p < 2 ^ 16)%Z.
Proof.
  intros H. assert (forall i, i < 2 -> is_byte (p !!! i)) as Hb.
  { intros i Hi. rewrite list_lookup_total_alt. destruct (p !! i) eqn:E; cbn.
    - apply (Forall_lookup_1 _ _ i _ H). by rewrite lookup_take_lt by lia.
    - unfold is_byte, inhabitant. cbn. lia. }
  pose proof (Hb 0 ltac:(lia)). pose proof (Hb 1 ltac:(lia)). unfold UINT16_DECODE, is_byte in *.
  rewrite Z.shiftl_mul_pow2, (lor_add _ _ 8) by lia. lia.
Qed.
