(* ===== verification/MqttState.v ===== *)
(** * MqttState: the state of publishes in flight ([coreMQTT/core_mqtt_state.c])

    The record arrays keep one row per publish that is not yet acknowledged, in
    the order the publishes were made; a row with packet id 0 is free. The
    functions answer a status, and the context where they change it. *)

From S2P Require Import Prelude MqttTypes.
From stdpp Require Import base list numbers strings.
From Stdlib Require Import ZArith Lia.

(** ** Which transitions are allowed *)

Definition validateTransitionPublish (currentState newState : MQTTPublishState_t)
    (opType : MQTTStateOperation_t) (q : MQTTQoS_t) : bool :=
  match currentState with
  | MQTTStateNull =>
      match opType with
      | MQTT_RECEIVE => bool_decide (newState = MQTTPubAckSend) || bool_decide (newState = MQTTPubRecSend)
      | MQTT_SEND => false
      end
  | MQTTPublishSend =>
      match q with
      | MQTTQoS1 => bool_decide (newState = MQTTPubAckPending)
      | MQTTQoS2 => bool_decide (newState = MQTTPubRecPending)
      | MQTTQoS0 => false
      end
  | MQTTPubAckPending => bool_decide (newState = MQTTPubAckPending)
  | MQTTPubRecPending => bool_decide (newState = MQTTPubRecPending)
  | _ => false
  end.

Definition validateTransitionAck (currentState newState : MQTTPublishState_t) : bool :=
  match currentState with
  | MQTTPubAckSend | MQTTPubAckPending => bool_decide (newState = MQTTPublishDone)
  | MQTTPubRecSend => bool_decide (newState = MQTTPubRelPending)
  | MQTTPubRelPending =>
      bool_decide (newState = MQTTPubCompSend) || bool_decide (newState = MQTTPubRelPending)
  | MQTTPubCompSend =>
      bool_decide (newState = MQTTPublishDone) || bool_decide (newState = MQTTPubCompSend)
  | MQTTPubRecPending => bool_decide (newState = MQTTPubRelSend)
  | MQTTPubRelSend => bool_decide (newState = MQTTPubCompPending)
  | MQTTPubCompPending =>
      bool_decide (newState = MQTTPublishDone) || bool_decide (newState = MQTTPubCompPending)
  | _ => false
  end.

Definition isPublishOutgoing (packetType : MQTTPubAckType_t) (opType : MQTTStateOperation_t) : bool :=
  match packetType with
  | MQTTPuback | MQTTPubrec | MQTTPubcomp => bool_decide (opType = MQTT_RECEIVE)
  | MQTTPubrel => bool_decide (opType = MQTT_SEND)
  end.

Definition MQTT_CalculateStateAck (packetType : MQTTPubAckType_t) (opType : MQTTStateOperation_t)
    (q : MQTTQoS_t) : MQTTPublishState_t :=
  let '(qosValid, calculatedState) :=
    match packetType with
    | MQTTPuback => (bool_decide (q = MQTTQoS1), MQTTPublishDone)
    | MQTTPubrec =>
        (bool_decide (q = MQTTQoS2), if bool_decide (opType = MQTT_SEND) then MQTTPubRelPending else MQTTPubRelSend)
    | MQTTPubrel =>
        (bool_decide (q = MQTTQoS2), if bool_decide (opType = MQTT_SEND) then MQTTPubCompPending else MQTTPubCompSend)
    | MQTTPubcomp => (bool_decide (q = MQTTQoS2), MQTTPublishDone)
    end in
  if negb qosValid then MQTTStateNull else calculatedState.

Definition MQTT_CalculateStatePublish (opType : MQTTStateOperation_t) (q : MQTTQoS_t) : MQTTPublishState_t :=
  match q with
  | MQTTQoS0 => MQTTPublishDone
  | MQTTQoS1 => if bool_decide (opType = MQTT_SEND) then MQTTPubAckPending else MQTTPubAckSend
  | MQTTQoS2 => if bool_decide (opType = MQTT_SEND) then MQTTPubRecPending else MQTTPubRecSend
  end.

(** ** The record array *)

Definition null_record : MQTTPubAckInfo_t := Build_record MQTT_PACKET_ID_INVALID MQTTQoS0 MQTTStateNull.

Definition free (r : MQTTPubAckInfo_t) : bool := bool_decide (packetId r = MQTT_PACKET_ID_INVALID).

(** The index ([None]: MQTT_INVALID_STATE_COUNT), the QoS when it was found,
    the state. *)
Fixpoint find_from (records : list MQTTPubAckInfo_t) (id : Z) (index : nat)
    : option (nat * MQTTQoS_t * MQTTPublishState_t) :=
  match records with
  | [] => None
  | r :: rs =>
      if bool_decide (packetId r = id) then Some (index, qos r, publishState r)
      else find_from rs id (S index)
  end.

Definition findInRecord (records : list MQTTPubAckInfo_t) (id : Z)
    : option (nat * MQTTQoS_t * MQTTPublishState_t) := find_from records id 0.

(** [for(; index < recordCount; index++)]: [n] turns are left. *)
Fixpoint compact_loop (n index : nat) (emptyIndex : option nat) (records : list MQTTPubAckInfo_t)
    : list MQTTPubAckInfo_t :=
  match n with
  | O => records
  | S n' =>
      match records !! index with
      | None => records
      | Some r =>
          if free r then
            compact_loop n' (S index) (Some (default index emptyIndex)) records
          else
            match emptyIndex with
            | Some e => compact_loop n' (S index) (Some (S e)) (<[index := null_record]> (<[e := r]> records))
            | None => compact_loop n' (S index) None records
            end
      end
  end.

Definition compactRecords (records : list MQTTPubAckInfo_t) : list MQTTPubAckInfo_t :=
  compact_loop (length records) 0 None records.

(** [for(index = recordCount - 1; index >= 0; index--)], [n] is [index + 1];
    [inl]: the available index; [inr]: a collision. *)
Fixpoint add_scan (n : nat) (records : list MQTTPubAckInfo_t) (id : Z)
    (availableIndex : nat) (validEntryFound : bool) : nat + unit :=
  match n with
  | O => inl availableIndex
  | S index =>
      match records !! index with
      | None => add_scan index records id availableIndex validEntryFound
      | Some r =>
          if free r then
            add_scan index records id (if validEntryFound then availableIndex else index) validEntryFound
          else if bool_decide (packetId r = id) then inr tt
          else add_scan index records id availableIndex true
      end
  end.

(** The last row decides whether to compact. An empty array has none: addRecord
    would read in front of it, so that no caller may pass one. None does:
    handleIncomingPublish and validatePublishParams test the count first. *)
Definition last_used (records : list MQTTPubAckInfo_t) : bool :=
  match records !! (length records - 1) with Some r => negb (free r) | None => false end.

Definition addRecord (records : list MQTTPubAckInfo_t) (id : Z) (q : MQTTQoS_t)
    (st : MQTTPublishState_t) : MQTTStatus_t * list MQTTPubAckInfo_t :=
  let records := if last_used records then compactRecords records else records in
  match add_scan (length records) records id (length records) false with
  | inr _ => (MQTTStateCollision, records)
  | inl availableIndex =>
      if bool_decide (availableIndex < length records)
      then (MQTTSuccess, <[availableIndex := Build_record id q st]> records)
      else (MQTTNoMemory, records)
  end.

Definition updateRecord (records : list MQTTPubAckInfo_t) (recordIndex : nat)
    (newState : MQTTPublishState_t) (shouldDelete : bool) : list MQTTPubAckInfo_t :=
  if shouldDelete then <[recordIndex := null_record]> records
  else alter (fun r => Build_record (packetId r) (qos r) newState) recordIndex records.

Definition updateStateAck (records : list MQTTPubAckInfo_t) (recordIndex : nat) (id : Z)
    (currentState newState : MQTTPublishState_t) : MQTTStatus_t * list MQTTPubAckInfo_t :=
  let shouldDeleteRecord := bool_decide (newState = MQTTPublishDone) || bool_decide (newState = MQTTPubRelSend) in
  if validateTransitionAck currentState newState then
    if bool_decide (currentState <> newState) then
      let records := updateRecord records recordIndex newState shouldDeleteRecord in
      if bool_decide (newState = MQTTPubRelSend) then addRecord records id MQTTQoS2 MQTTPubRelSend
      else (MQTTSuccess, records)
    else (MQTTSuccess, records)
  else (MQTTIllegalState, records).

(** ** On the context *)

Definition updateStatePublish (c : MQTTContext_t) (recordIndex : nat) (id : Z)
    (opType : MQTTStateOperation_t) (q : MQTTQoS_t) (currentState newState : MQTTPublishState_t)
    : MQTTStatus_t * MQTTContext_t :=
  if validateTransitionPublish currentState newState opType q then
    match opType with
    | MQTT_RECEIVE =>
        let '(status, rs) := addRecord (incomingPublishRecords c) id q newState in
        (status, set_incomingPublishRecords rs c)
    | MQTT_SEND =>
        if bool_decide (currentState <> newState)
        then (MQTTSuccess, set_outgoingPublishRecords (updateRecord (outgoingPublishRecords c) recordIndex newState false) c)
        else (MQTTSuccess, c)
    end
  else (MQTTIllegalState, c).

Definition MQTT_ReserveState (c : MQTTContext_t) (id : Z) (q : MQTTQoS_t) : MQTTStatus_t * MQTTContext_t :=
  if bool_decide (q = MQTTQoS0) then (MQTTSuccess, c)
  else if bool_decide (id = MQTT_PACKET_ID_INVALID) then (MQTTBadParameter, c)
  else
    let '(status, rs) := addRecord (outgoingPublishRecords c) id q MQTTPublishSend in
    (status, set_outgoingPublishRecords rs c).

(** The new state, when it is written, comes with success. *)
Definition MQTT_UpdateStatePublish (c : MQTTContext_t) (id : Z) (opType : MQTTStateOperation_t)
    (q : MQTTQoS_t) : MQTTStatus_t * option MQTTPublishState_t * MQTTContext_t :=
  if bool_decide (q = MQTTQoS0) then (MQTTSuccess, Some MQTTPublishDone, c)
  else if bool_decide (id = MQTT_PACKET_ID_INVALID) then (MQTTBadParameter, None, c)
  else
    let found :=
      match opType with
      | MQTT_SEND =>
          match findInRecord (outgoingPublishRecords c) id with
          | Some (index, foundQoS, st) => if bool_decide (foundQoS <> q) then None else Some (index, st)
          | None => None
          end
      | MQTT_RECEIVE => Some (0, MQTTStateNull)
      end in
    match found with
    | None => (MQTTBadParameter, None, c)
    | Some (recordIndex, currentState) =>
        let newState := MQTT_CalculateStatePublish opType q in
        let '(status, c) := updateStatePublish c recordIndex id opType q currentState newState in
        (status, if mqtt_ok status then Some newState else None, c)
    end.

Definition MQTT_RemoveStateRecord (c : MQTTContext_t) (id : Z) : MQTTStatus_t * MQTTContext_t :=
  if bool_decide (outgoingPublishRecords c = []) then (MQTTBadParameter, c) else
  match findInRecord (outgoingPublishRecords c) id with
  | None => (MQTTBadParameter, c)
  | Some (recordIndex, q, currentState) =>
      if bool_decide (currentState = MQTTStateNull) then (MQTTBadParameter, c)
      else if bool_decide (q <> MQTTQoS1) && bool_decide (q <> MQTTQoS2) then (MQTTBadParameter, c)
      else (MQTTSuccess,
            set_outgoingPublishRecords (updateRecord (outgoingPublishRecords c) recordIndex MQTTStateNull true) c)
  end.

Definition MQTT_UpdateStateAck (c : MQTTContext_t) (id : Z) (packetType : MQTTPubAckType_t)
    (opType : MQTTStateOperation_t) : MQTTStatus_t * option MQTTPublishState_t * MQTTContext_t :=
  if bool_decide (id = MQTT_PACKET_ID_INVALID) then (MQTTBadParameter, None, c) else
  let outgoing := isPublishOutgoing packetType opType in
  let records := if outgoing then outgoingPublishRecords c else incomingPublishRecords c in
  match findInRecord records id with
  | None => (MQTTBadResponse, None, c)
  | Some (recordIndex, q, currentState) =>
      let newState := MQTT_CalculateStateAck packetType opType q in
      let '(status, records) := updateStateAck records recordIndex id currentState newState in
      let c := if outgoing then set_outgoingPublishRecords records c else set_incomingPublishRecords records c in
      (status, if mqtt_ok status then Some newState else None, c)
  end.

(** ** What to resend *)

(** [UINT16_SET_BIT], [UINT16_CHECK_BIT] *)
Definition UINT16_BITMAP_BIT_SET_AT (position : Z) : Z := Z.shiftl 1 position.
Definition UINT16_SET_BIT (x position : Z) : Z := u16 (Z.lor x (UINT16_BITMAP_BIT_SET_AT position)).
Definition UINT16_CHECK_BIT (x position : Z) : bool :=
  bool_decide (Z.land x (UINT16_BITMAP_BIT_SET_AT position) = UINT16_BITMAP_BIT_SET_AT position).

(** [while] below the record count: the rows from the cursor on. *)
Fixpoint select_loop (rows : list MQTTPubAckInfo_t) (searchStates : Z) (cursor : nat) : Z * nat :=
  match rows with
  | [] => (MQTT_PACKET_ID_INVALID, cursor)
  | r :: rows =>
      if UINT16_CHECK_BIT searchStates (state_bit (publishState r)) then (packetId r, S cursor)
      else select_loop rows searchStates (S cursor)
  end.

Definition stateSelect (c : MQTTContext_t) (searchStates : Z) (cursor : nat) : Z * nat :=
  select_loop (drop cursor (outgoingPublishRecords c)) searchStates cursor.

Definition pubrel_states : Z :=
  UINT16_SET_BIT (UINT16_SET_BIT 0 (state_bit MQTTPubCompPending)) (state_bit MQTTPubRelSend).

Definition publish_states : Z :=
  UINT16_SET_BIT (UINT16_SET_BIT (UINT16_SET_BIT 0 (state_bit MQTTPublishSend)) (state_bit MQTTPubAckPending))
    (state_bit MQTTPubRecPending).

(** The id, the state when it is written, the cursor. *)
Definition MQTT_PubrelToResend (c : MQTTContext_t) (cursor : nat) : Z * option MQTTPublishState_t * nat :=
  let '(id, cursor) := stateSelect c pubrel_states cursor in
  (id, if bool_decide (id <> MQTT_PACKET_ID_INVALID) then Some MQTTPubRelSend else None, cursor).

Definition MQTT_PublishToResend (c : MQTTContext_t) (cursor : nat) : Z * nat :=
  stateSelect c publish_states cursor.

(** The default of the switch is for values that are no state. *)
Definition MQTT_State_strerror (state : MQTTPublishState_t) : bytes :=
  match state with
  | MQTTStateNull => str "MQTTStateNull"
  | MQTTPublishSend => str "MQTTPublishSend"
  | MQTTPubAckSend => str "MQTTPubAckSend"
  | MQTTPubRecSend => str "MQTTPubRecSend"
  | MQTTPubRelSend => str "MQTTPubRelSend"
  | MQTTPubCompSend => str "MQTTPubCompSend"
  | MQTTPubAckPending => str "MQTTPubAckPending"
  | MQTTPubRecPending => str "MQTTPubRecPending"
  | MQTTPubRelPending => str "MQTTPubRelPending"
  | MQTTPubCompPending => str "MQTTPubCompPending"
  | MQTTPublishDone => str "MQTTPublishDone"
  end.
