(* ===== verification/MqttSerializer.v ===== *)
(** * MqttSerializer: packets to bytes and back ([coreMQTT/core_mqtt_serializer.c])

    Serialisers write through a cursor into a memory; a write outside the
    memory, or a read outside what a pointer leads to, is [None]. Sizes are
    [size_t], 32 bits on the device. *)

From S2P Require Import Prelude MqttTypes.
From stdpp Require Import base list numbers strings.
From Stdlib Require Import ZArith Lia.

(** ** Constants and bit macros *)

Definition MQTT_VERSION_3_1_1 : Z := 4.
Definition MQTT_PACKET_CONNECT_HEADER_SIZE : Z := 10.
Definition MQTT_CONNECT_FLAG_CLEAN : Z := 1.
Definition MQTT_CONNECT_FLAG_WILL : Z := 2.
Definition MQTT_CONNECT_FLAG_WILL_QOS1 : Z := 3.
Definition MQTT_CONNECT_FLAG_WILL_QOS2 : Z := 4.
Definition MQTT_CONNECT_FLAG_WILL_RETAIN : Z := 5.
Definition MQTT_CONNECT_FLAG_PASSWORD : Z := 6.
Definition MQTT_CONNECT_FLAG_USERNAME : Z := 7.
Definition MQTT_PUBLISH_FLAG_RETAIN : Z := 0.
Definition MQTT_PUBLISH_FLAG_QOS1 : Z := 1.
Definition MQTT_PUBLISH_FLAG_QOS2 : Z := 2.
Definition MQTT_PUBLISH_FLAG_DUP : Z := 3.
Definition MQTT_DISCONNECT_PACKET_SIZE : Z := 2.
Definition MQTT_PACKET_PINGREQ_SIZE : Z := 2.
Definition MQTT_PUBLISH_ACK_PACKET_SIZE : Z := 4.
Definition MQTT_PACKET_CONNACK_REMAINING_LENGTH : Z := 2.
Definition MQTT_PACKET_SIMPLE_ACK_REMAINING_LENGTH : Z := 2.
Definition MQTT_MAX_REMAINING_LENGTH : Z := 268435455.
Definition MQTT_REMAINING_LENGTH_INVALID : Z := 268435456.
Definition MQTT_MIN_PUBLISH_REMAINING_LENGTH_QOS0 : Z := 3.

Definition UINT8_SET_BIT (x position : Z) : Z := u8 (Z.lor x (Z.shiftl 1 position)).
Definition UINT8_CHECK_BIT (x position : Z) : bool :=
  bool_decide (Z.land x (Z.shiftl 1 position) = Z.shiftl 1 position).

(** ** Memory: a cursor that writes, reads below a bound *)

Record MQTTFixedBuffer_t := Build_fixed_buffer {
  pBuffer : option bytes;  (* None: NULL *)
  fb_size : Z;
}.

Definition cursor : Type := bytes * nat.
Definition writer : Type := cursor -> option cursor.

Definition poke (bs : bytes) : writer := fun '(mem, i) =>
  if bool_decide (i + length bs <= length mem)
  then Some (blit i bs mem, i + length bs)
  else None.

(** [pIndex = &pIndex[n]] *)
Definition advance (n : nat) : writer := fun '(mem, i) => Some (mem, i + n).

Definition wseq (w1 w2 : writer) : writer := fun c => c ← w1 c; w2 c.
Notation "w1 '>>w' w2" := (wseq w1 w2) (at level 62, right associativity).
Definition wif (b : bool) (w : writer) : writer := if b then w else Some.

(** [n] bytes at [off] of what a pointer leads to. *)
Definition peek (p : bytes) (off n : nat) : option bytes :=
  if bool_decide (off + n <= length p) then Some (take n (drop off p)) else None.

Definition memcpy (p : option bytes) (n : nat) : writer := fun c =>
  src ← p; bs ← peek src 0 n; poke bs c.

(** ** Remaining length *)

Definition remainingLengthEncodedSize (length : Z) : Z :=
  if bool_decide (length < 128)%Z then 1
  else if bool_decide (length < 16384)%Z then 2
  else if bool_decide (length < 2097152)%Z then 3
  else 4.

(** [do { ... } while( remainingLength > 0U )]; 32 bits are at most five
    groups of seven. *)
Fixpoint encode_loop (fuel : nat) (remainingLength : Z) : writer :=
  match fuel with
  | O => fun _ => None
  | S fuel =>
      let lengthByte := u8 (remainingLength mod 128) in
      let remainingLength := (remainingLength / 128)%Z in
      if bool_decide (remainingLength > 0)%Z
      then poke [UINT8_SET_BIT lengthByte 7] >>w encode_loop fuel remainingLength
      else poke [lengthByte]
  end.

Definition encodeRemainingLength (length : Z) : writer := encode_loop 5 length.

Definition encodeString (pSource : option bytes) (sourceLength : Z) : writer :=
  poke [UINT16_HIGH_BYTE sourceLength] >>w poke [UINT16_LOW_BYTE sourceLength] >>w
  match pSource with
  | Some _ => memcpy pSource (Z.to_nat sourceLength)
  | None => advance (Z.to_nat sourceLength)
  end.

(** ** PUBLISH *)

(** The remaining length and the packet's size, when they fit. *)
Definition calculatePublishPacketSize (p : MQTTPublishInfo_t) : option (Z * Z) :=
  let packetSize := u32 (topicNameLength p + 2) in
  let packetSize := if bool_decide (pub_qos p <> MQTTQoS0) then u32 (packetSize + 2) else packetSize in
  let payloadLimit := u32 (MQTT_MAX_REMAINING_LENGTH - packetSize - 1) in
  if bool_decide (payloadLength p > payloadLimit)%Z then None else
  let packetSize := u32 (packetSize + payloadLength p) in
  let payloadLimit := u32 (payloadLimit - remainingLengthEncodedSize packetSize) in
  if bool_decide (payloadLength p > payloadLimit)%Z then None
  else Some (packetSize, u32 (packetSize + (1 + remainingLengthEncodedSize packetSize))).

(** The first byte, the same statements in both of its writers. *)
Definition publish_flags (p : MQTTPublishInfo_t) : Z :=
  let publishFlags := MQTT_PACKET_TYPE_PUBLISH in
  let publishFlags :=
    match pub_qos p with
    | MQTTQoS1 => UINT8_SET_BIT publishFlags MQTT_PUBLISH_FLAG_QOS1
    | MQTTQoS2 => UINT8_SET_BIT publishFlags MQTT_PUBLISH_FLAG_QOS2
    | MQTTQoS0 => publishFlags
    end in
  let publishFlags := if retain p then UINT8_SET_BIT publishFlags MQTT_PUBLISH_FLAG_RETAIN else publishFlags in
  if dup p then UINT8_SET_BIT publishFlags MQTT_PUBLISH_FLAG_DUP else publishFlags.

(** The header's size is set beside. *)
Definition MQTT_SerializePublishHeaderWithoutTopic (p : MQTTPublishInfo_t) (remainingLength : Z) : writer :=
  poke [publish_flags p] >>w encodeRemainingLength remainingLength >>w
  poke [UINT16_HIGH_BYTE (topicNameLength p)] >>w poke [UINT16_LOW_BYTE (topicNameLength p)].

Definition publish_header_length (remainingLength : Z) : Z :=
  u32 (1 + remainingLengthEncodedSize remainingLength + 2).

Definition serializePublishCommon (p : MQTTPublishInfo_t) (remainingLength packetIdentifier : Z)
    (serializePayload : bool) : writer :=
  poke [publish_flags p] >>w encodeRemainingLength remainingLength >>w
  encodeString (pTopicName p) (topicNameLength p) >>w
  wif (bool_decide (pub_qos p <> MQTTQoS0))
    (poke [UINT16_HIGH_BYTE packetIdentifier; UINT16_LOW_BYTE packetIdentifier]) >>w
  wif (bool_decide (payloadLength p > 0)%Z && serializePayload)
    (memcpy (pPayload p) (Z.to_nat (payloadLength p))).

(** What a serialiser leaves in its buffer. *)
Definition write_fixed (fb : MQTTFixedBuffer_t) (mem : bytes) (w : writer)
    : option (MQTTStatus_t * option MQTTFixedBuffer_t) :=
  '(mem, _) ← w (mem, 0); Some (MQTTSuccess, Some (Build_fixed_buffer (Some mem) (fb_size fb))).

(** ** Reading the remaining length *)

Section recv.
Context {S : Type} (recvFunc : nat -> S -> Z * bytes * S).

(** [do { ... } while( ( encodedByte & 0x80U ) != 0U )]: the length and how
    many bytes it took. *)
Fixpoint getRemainingLength_loop (fuel : nat) (remainingLength multiplier : Z) (bytesDecoded encodedByte : Z)
    (s : S) : Z * Z * S :=
  match fuel with
  | O => (MQTT_REMAINING_LENGTH_INVALID, bytesDecoded, s)
  | Datatypes.S fuel =>
      if bool_decide (multiplier > 2097152)%Z then (MQTT_REMAINING_LENGTH_INVALID, bytesDecoded, s) else
      let '(bytesReceived, data, s) := recvFunc 1 s in
      if bool_decide (bytesReceived = 1)%Z then
        let encodedByte := default encodedByte (data !! 0) in
        let remainingLength := u32 (remainingLength + Z.land encodedByte 127 * multiplier) in
        let multiplier := u32 (multiplier * 128) in
        let bytesDecoded := (bytesDecoded + 1)%Z in
        if bool_decide (remainingLength = MQTT_REMAINING_LENGTH_INVALID) then (remainingLength, bytesDecoded, s)
        else if bool_decide (Z.land encodedByte 128 <> 0)%Z
        then getRemainingLength_loop fuel remainingLength multiplier bytesDecoded encodedByte s
        else (remainingLength, bytesDecoded, s)
      else (MQTT_REMAINING_LENGTH_INVALID, bytesDecoded, s)
  end.

Definition getRemainingLength (s : S) : Z * S :=
  let '(remainingLength, bytesDecoded, s) := getRemainingLength_loop 5 0 1 0 0 s in
  if bool_decide (remainingLength <> MQTT_REMAINING_LENGTH_INVALID)
     && bool_decide (bytesDecoded <> remainingLengthEncodedSize remainingLength)
  then (MQTT_REMAINING_LENGTH_INVALID, s) else (remainingLength, s).
End recv.

(** From the network buffer, of which [pIndex] bytes are received. *)
Fixpoint processRemainingLength_loop (fuel : nat) (pBuffer : bytes) (pIndex : Z)
    (remainingLength multiplier bytesDecoded : Z) : option (MQTTStatus_t * Z * Z) :=
  match fuel with
  | O => None
  | S fuel =>
      if bool_decide (multiplier > 2097152)%Z
      then Some (MQTTBadResponse, MQTT_REMAINING_LENGTH_INVALID, bytesDecoded)
      else if bool_decide (pIndex > bytesDecoded + 1)%Z then
        encodedByte ← pBuffer !! Z.to_nat (bytesDecoded + 1);
        let remainingLength := u32 (remainingLength + Z.land encodedByte 127 * multiplier) in
        let multiplier := u32 (multiplier * 128) in
        let bytesDecoded := (bytesDecoded + 1)%Z in
        if bool_decide (remainingLength = MQTT_REMAINING_LENGTH_INVALID)
        then Some (MQTTSuccess, remainingLength, bytesDecoded)
        else if bool_decide (Z.land encodedByte 128 <> 0)%Z
        then processRemainingLength_loop fuel pBuffer pIndex remainingLength multiplier bytesDecoded
        else Some (MQTTSuccess, remainingLength, bytesDecoded)
      else Some (MQTTNeedMoreBytes, remainingLength, bytesDecoded)
  end.

Definition processRemainingLength (pBuffer : bytes) (pIndex : Z) (pk : MQTTPacketInfo_t)
    : option (MQTTStatus_t * MQTTPacketInfo_t) :=
  '(status, remainingLength, bytesDecoded) ← processRemainingLength_loop 5 pBuffer pIndex 0 1 0;
  if mqtt_ok status then
    if bool_decide (bytesDecoded <> remainingLengthEncodedSize remainingLength)
    then Some (MQTTBadResponse, pk)
    else Some (MQTTSuccess, Build_packet_info (pk_type pk) (pRemainingData pk) remainingLength (bytesDecoded + 1))
  else Some (status, pk).

Definition incomingPacketValid (packetType : Z) : bool :=
  let ty := Z.land packetType 240 in
  if bool_decide (ty ∈ [MQTT_PACKET_TYPE_CONNACK; MQTT_PACKET_TYPE_PUBLISH; MQTT_PACKET_TYPE_PUBACK;
                        MQTT_PACKET_TYPE_PUBREC; MQTT_PACKET_TYPE_PUBCOMP; MQTT_PACKET_TYPE_SUBACK;
                        MQTT_PACKET_TYPE_UNSUBACK; MQTT_PACKET_TYPE_PINGRESP]) then true
  else if bool_decide (ty = Z.land MQTT_PACKET_TYPE_PUBREL 240) then bool_decide (Z.land packetType 2 > 0)%Z
  else false.

(** ** Reading packets *)

Definition checkPublishRemainingLength (remainingLength : Z) (q : MQTTQoS_t) (qos0Minimum : Z) : MQTTStatus_t :=
  match q with
  | MQTTQoS0 => if bool_decide (remainingLength < qos0Minimum)%Z then MQTTBadResponse else MQTTSuccess
  | _ => if bool_decide (remainingLength < u32 (qos0Minimum + 2))%Z then MQTTBadResponse else MQTTSuccess
  end.

(** QoS, retain and dup, [None] for QoS 3. *)
Definition processPublishFlags (publishFlags : Z) : option (MQTTQoS_t * bool * bool) :=
  let flags q := Some (q, UINT8_CHECK_BIT publishFlags MQTT_PUBLISH_FLAG_RETAIN,
                          UINT8_CHECK_BIT publishFlags MQTT_PUBLISH_FLAG_DUP) in
  if UINT8_CHECK_BIT publishFlags MQTT_PUBLISH_FLAG_QOS2 then
    if UINT8_CHECK_BIT publishFlags MQTT_PUBLISH_FLAG_QOS1 then None else flags MQTTQoS2
  else if UINT8_CHECK_BIT publishFlags MQTT_PUBLISH_FLAG_QOS1 then flags MQTTQoS1
  else flags MQTTQoS0.

Definition decode16 (p : bytes) (off : nat) : option Z := w ← peek p off 2; Some (UINT16_DECODE w).

(** The session-present flag is written beside the status. *)
Definition deserializeConnack (p : bytes) (remaining : Z) (sessionPresent : bool) : option (MQTTStatus_t * bool) :=
  if bool_decide (remaining <> MQTT_PACKET_CONNACK_REMAINING_LENGTH) then Some (MQTTBadResponse, sessionPresent) else
  b0 ← p !! 0;
  if bool_decide (Z.lor b0 1 <> 1)%Z then Some (MQTTBadResponse, sessionPresent) else
  b1 ← p !! 1;
  let sessionPresent := bool_decide (Z.land b0 1 = 1)%Z in
  if sessionPresent && bool_decide (b1 <> 0)%Z then Some (MQTTBadResponse, sessionPresent)
  else if bool_decide (b1 > 5)%Z then Some (MQTTBadResponse, sessionPresent)
  else if bool_decide (b1 > 0)%Z then Some (MQTTServerRefused, sessionPresent)
  else Some (MQTTSuccess, sessionPresent).

(** A refused filter is remembered, a bad code ends the loop. *)
Fixpoint readSubackStatus (statuses : bytes) (status : MQTTStatus_t) : MQTTStatus_t :=
  match statuses with
  | [] => status
  | b :: statuses =>
      if bool_decide (b = 0)%Z || bool_decide (b = 1)%Z || bool_decide (b = 2)%Z then readSubackStatus statuses status
      else if bool_decide (b = 128)%Z then readSubackStatus statuses MQTTServerRefused
      else MQTTBadResponse
  end.

Definition deserializeSuback (p : bytes) (remaining packetId : Z) : option (MQTTStatus_t * Z) :=
  if bool_decide (remaining < 3)%Z then Some (MQTTBadResponse, packetId) else
  packetId ← decode16 p 0;
  if bool_decide (packetId = 0)%Z then Some (MQTTBadResponse, packetId) else
  statuses ← peek p 2 (Z.to_nat (remaining - 2));
  Some (readSubackStatus statuses MQTTSuccess, packetId).

Definition deserializeSimpleAck (p : bytes) (remaining packetId : Z) : option (MQTTStatus_t * Z) :=
  if bool_decide (remaining <> MQTT_PACKET_SIMPLE_ACK_REMAINING_LENGTH) then Some (MQTTBadResponse, packetId) else
  packetId ← decode16 p 0;
  Some (if bool_decide (packetId = 0)%Z then MQTTBadResponse else MQTTSuccess, packetId).

Definition deserializePingresp (remaining : Z) : MQTTStatus_t :=
  if bool_decide (remaining <> 0)%Z then MQTTBadResponse else MQTTSuccess.

(** The status, the packet id and the publish as far as it was written. *)
Definition deserializePublish (pk : MQTTPacketInfo_t) (p : bytes) (packetId : Z) (info : MQTTPublishInfo_t)
    : option (MQTTStatus_t * Z * MQTTPublishInfo_t) :=
  match processPublishFlags (Z.land (pk_type pk) 15) with
  | None => Some (MQTTBadResponse, packetId, info)
  | Some (q, r, d) =>
      let info := Build_publish_info q r d (pTopicName info) (topicNameLength info) (pPayload info) (payloadLength info) in
      let status := checkPublishRemainingLength (remainingLength pk) q MQTT_MIN_PUBLISH_REMAINING_LENGTH_QOS0 in
      if negb (mqtt_ok status) then Some (status, packetId, info) else
      topicLength ← decode16 p 0;
      let info := Build_publish_info q r d (pTopicName info) topicLength (pPayload info) (payloadLength info) in
      let status := checkPublishRemainingLength (remainingLength pk) q (u32 (topicLength + 2)) in
      if negb (mqtt_ok status) then Some (status, packetId, info) else
      let info := Build_publish_info q r d (Some (drop 2 p)) topicLength (pPayload info) (payloadLength info) in
      let off := 2 + Z.to_nat topicLength in
      '(status, packetId, off) ←
        (if bool_decide (q <> MQTTQoS0) then
           packetId ← decode16 p off;
           Some (if bool_decide (packetId = 0)%Z then MQTTBadResponse else MQTTSuccess, packetId, off + 2)
         else Some (MQTTSuccess, packetId, off));
      if negb (mqtt_ok status) then Some (status, packetId, info) else
      let n := u32 (remainingLength pk - topicLength - 2) in
      let n := if bool_decide (q <> MQTTQoS0) then u32 (n - 2) else n in
      Some (MQTTSuccess, packetId,
            Build_publish_info q r d (Some (drop 2 p)) topicLength
              (if bool_decide (n <> 0)%Z then Some (drop off p) else None) n)
  end.

Definition MQTT_DeserializePublish (pk : option MQTTPacketInfo_t) (pPacketId : option Z) (pPublishInfo : option MQTTPublishInfo_t)
    : option (MQTTStatus_t * option Z * option MQTTPublishInfo_t) :=
  match pk, pPacketId, pPublishInfo with
  | Some k, Some packetId, Some info =>
      if bool_decide (Z.land (pk_type k) 240 <> MQTT_PACKET_TYPE_PUBLISH) then Some (MQTTBadParameter, pPacketId, pPublishInfo)
      else match pRemainingData k with
      | None => Some (MQTTBadParameter, pPacketId, pPublishInfo)
      | Some p =>
          '(status, packetId, info) ← deserializePublish k p packetId info;
          Some (status, Some packetId, Some info)
      end
  | _, _, _ => Some (MQTTBadParameter, pPacketId, pPublishInfo)
  end.

(** [pPacketId] and [pSessionPresent] are [None] when the caller passes NULL. *)
Definition MQTT_DeserializeAck (pk : option MQTTPacketInfo_t) (pPacketId : option Z) (pSessionPresent : option bool)
    : option (MQTTStatus_t * option Z * option bool) :=
  let refused status := Some (status, pPacketId, pSessionPresent) in
  match pk with
  | None => refused MQTTBadParameter
  | Some k =>
      let ty := pk_type k in
      let n := remainingLength k in
      if bool_decide (pPacketId = None) && bool_decide (ty <> MQTT_PACKET_TYPE_CONNACK) && bool_decide (ty <> MQTT_PACKET_TYPE_PINGRESP)
      then refused MQTTBadParameter
      else if bool_decide (pSessionPresent = None) && bool_decide (ty = MQTT_PACKET_TYPE_CONNACK)
      then refused MQTTBadParameter
      else if bool_decide (ty = MQTT_PACKET_TYPE_PINGRESP) then refused (deserializePingresp n)
      else match pRemainingData k with
      | None => refused MQTTBadParameter
      | Some p =>
          if bool_decide (ty = MQTT_PACKET_TYPE_CONNACK) then
            sp ← pSessionPresent;
            '(status, sp) ← deserializeConnack p n sp; Some (status, pPacketId, Some sp)
          else if bool_decide (ty = MQTT_PACKET_TYPE_SUBACK) then
            id ← pPacketId;
            '(status, id) ← deserializeSuback p n id; Some (status, Some id, pSessionPresent)
          else if bool_decide (ty ∈ [MQTT_PACKET_TYPE_UNSUBACK; MQTT_PACKET_TYPE_PUBACK; MQTT_PACKET_TYPE_PUBREC;
                                     MQTT_PACKET_TYPE_PUBREL; MQTT_PACKET_TYPE_PUBCOMP]) then
            id ← pPacketId;
            '(status, id) ← deserializeSimpleAck p n id; Some (status, Some id, pSessionPresent)
          else refused MQTTBadResponse
      end
  end.

Definition MQTT_GetIncomingPacketTypeAndLength {S} (readFunc : nat -> S -> Z * bytes * S)
    (pk : option MQTTPacketInfo_t) (s : S) : MQTTStatus_t * option MQTTPacketInfo_t * S :=
  match pk with
  | None => (MQTTBadParameter, None, s)
  | Some k =>
      let '(bytesReceived, data, s) := readFunc 1 s in
      let k := Build_packet_info (default (pk_type k) (data !! 0)) (pRemainingData k) (remainingLength k) (headerLength k) in
      if bool_decide (bytesReceived = 1)%Z then
        if incomingPacketValid (pk_type k) then
          let '(n, s) := getRemainingLength readFunc s in
          (if bool_decide (n = MQTT_REMAINING_LENGTH_INVALID) then MQTTBadResponse else MQTTSuccess,
           Some (Build_packet_info (pk_type k) (pRemainingData k) n (headerLength k)), s)
        else (MQTTBadResponse, Some k, s)
      else if bool_decide (bytesReceived = 0)%Z then (MQTTNoDataAvailable, Some k, s)
      else (MQTTRecvFailed, Some k, s)
  end.

Definition MQTT_ProcessIncomingPacketTypeAndLength (pBuffer : option bytes) (pIndex : option Z)
    (pk : option MQTTPacketInfo_t) : option (MQTTStatus_t * option MQTTPacketInfo_t) :=
  match pk, pIndex, pBuffer with
  | Some k, Some n, Some buf =>
      if bool_decide (n < 1)%Z then Some (MQTTNoDataAvailable, pk) else
      ty ← buf !! 0;
      let k := Build_packet_info ty (pRemainingData k) (remainingLength k) (headerLength k) in
      if incomingPacketValid ty then
        '(status, k) ← processRemainingLength buf n k; Some (status, Some k)
      else Some (MQTTBadResponse, Some k)
  | _, _, _ => Some (MQTTBadParameter, pk)
  end.

(** ** CONNECT *)

Definition connect_flags (ci : MQTTConnectInfo_t) (will : option MQTTPublishInfo_t) : Z :=
  let connectFlags := 0%Z in
  let connectFlags := if cleanSession ci then UINT8_SET_BIT connectFlags MQTT_CONNECT_FLAG_CLEAN else connectFlags in
  let connectFlags := if bool_decide (pUserName ci <> None) then UINT8_SET_BIT connectFlags MQTT_CONNECT_FLAG_USERNAME else connectFlags in
  let connectFlags := if bool_decide (pPassword ci <> None) then UINT8_SET_BIT connectFlags MQTT_CONNECT_FLAG_PASSWORD else connectFlags in
  match will with
  | None => connectFlags
  | Some w =>
      let connectFlags := UINT8_SET_BIT connectFlags MQTT_CONNECT_FLAG_WILL in
      let connectFlags :=
        match pub_qos w with
        | MQTTQoS1 => UINT8_SET_BIT connectFlags MQTT_CONNECT_FLAG_WILL_QOS1
        | MQTTQoS2 => UINT8_SET_BIT connectFlags MQTT_CONNECT_FLAG_WILL_QOS2
        | MQTTQoS0 => connectFlags
        end in
      if retain w then UINT8_SET_BIT connectFlags MQTT_CONNECT_FLAG_WILL_RETAIN else connectFlags
  end.

Definition MQTT_SerializeConnectFixedHeader (ci : MQTTConnectInfo_t) (will : option MQTTPublishInfo_t)
    (remainingLength : Z) : writer :=
  poke [MQTT_PACKET_TYPE_CONNECT] >>w encodeRemainingLength remainingLength >>w
  encodeString (Some (str "MQTT")) 4 >>w
  poke [MQTT_VERSION_3_1_1] >>w
  poke [connect_flags ci will] >>w
  poke [UINT16_HIGH_BYTE (keepAliveSeconds ci); UINT16_LOW_BYTE (keepAliveSeconds ci)].

Definition serializeConnectPacket (ci : MQTTConnectInfo_t) (will : option MQTTPublishInfo_t)
    (remainingLength : Z) : writer :=
  MQTT_SerializeConnectFixedHeader ci will remainingLength >>w
  encodeString (pClientIdentifier ci) (clientIdentifierLength ci) >>w
  match will with
  | None => Some
  | Some w => encodeString (pTopicName w) (topicNameLength w) >>w encodeString (pPayload w) (u16 (payloadLength w))
  end >>w
  wif (bool_decide (pUserName ci <> None)) (encodeString (pUserName ci) (userNameLength ci)) >>w
  wif (bool_decide (pPassword ci <> None)) (encodeString (pPassword ci) (passwordLength ci)).

(** A size function answers the remaining length and the packet's size with
    success. *)
Definition MQTT_GetConnectPacketSize (ci : option MQTTConnectInfo_t) (will : option MQTTPublishInfo_t)
    : MQTTStatus_t * option (Z * Z) :=
  match ci with
  | None => (MQTTBadParameter, None)
  | Some ci =>
      if bool_decide (clientIdentifierLength ci = 0)%Z || bool_decide (pClientIdentifier ci = None)
      then (MQTTBadParameter, None)
      else if match will with Some w => bool_decide (payloadLength w > 65535)%Z | None => false end
      then (MQTTBadParameter, None)
      else
        let n := u32 (MQTT_PACKET_CONNECT_HEADER_SIZE + (clientIdentifierLength ci + 2)) in
        let n := match will with Some w => u32 (n + (topicNameLength w + 2 + payloadLength w + 2)) | None => n end in
        let n := if bool_decide (pUserName ci <> None) then u32 (n + (userNameLength ci + 2)) else n in
        let n := if bool_decide (pPassword ci <> None) then u32 (n + (passwordLength ci + 2)) else n in
        (MQTTSuccess, Some (n, u32 (n + (1 + remainingLengthEncodedSize n))))
  end.

Definition serialized : Type := option (MQTTStatus_t * option MQTTFixedBuffer_t).

Definition MQTT_SerializeConnect (ci : option MQTTConnectInfo_t) (will : option MQTTPublishInfo_t)
    (remainingLength : Z) (fb : option MQTTFixedBuffer_t) : serialized :=
  match ci, fb with
  | Some ci, Some b =>
      match pBuffer b with
      | None => Some (MQTTBadParameter, fb)
      | Some mem =>
          if match will with Some w => bool_decide (pTopicName w = None) | None => false end
          then Some (MQTTBadParameter, fb)
          else if bool_decide (u32 (remainingLength + remainingLengthEncodedSize remainingLength + 1) > fb_size b)%Z
          then Some (MQTTNoMemory, fb)
          else write_fixed b mem (serializeConnectPacket ci will remainingLength)
      end
  | _, _ => Some (MQTTBadParameter, fb)
  end.

(** ** SUBSCRIBE and UNSUBSCRIBE

    A list of subscriptions comes with its count: it is a list. *)

Inductive MQTTSubscriptionType_t := MQTT_SUBSCRIBE | MQTT_UNSUBSCRIBE.

#[export] Instance mqtt_subtype_eq_dec : EqDecision MQTTSubscriptionType_t.
Proof. solve_decision. Defined.

Fixpoint subscription_size (l : list MQTTSubscribeInfo_t) (ty : MQTTSubscriptionType_t)
    (packetSize : Z) (status : MQTTStatus_t) : Z * MQTTStatus_t :=
  match l with
  | [] => (packetSize, status)
  | s :: l =>
      let packetSize := u32 (packetSize + (topicFilterLength s + 2)) in
      let packetSize := if bool_decide (ty = MQTT_SUBSCRIBE) then u32 (packetSize + 1) else packetSize in
      let status :=
        if bool_decide (topicFilterLength s = 0)%Z || bool_decide (pTopicFilter s = None) then MQTTBadParameter else status in
      subscription_size l ty packetSize status
  end.

Definition calculateSubscriptionPacketSize (l : list MQTTSubscribeInfo_t) (ty : MQTTSubscriptionType_t)
    : MQTTStatus_t * option (Z * Z) :=
  let '(packetSize, status) := subscription_size l ty 2 MQTTSuccess in
  let status := if bool_decide (packetSize > MQTT_MAX_REMAINING_LENGTH)%Z then MQTTBadParameter else status in
  (status, if mqtt_ok status then Some (packetSize, u32 (packetSize + (1 + remainingLengthEncodedSize packetSize))) else None).

Definition validateSubscriptionSerializeParams (l : option (list MQTTSubscribeInfo_t)) (packetId remainingLength : Z)
    (fb : option MQTTFixedBuffer_t) : MQTTStatus_t :=
  match fb, l with
  | Some b, Some l =>
      if bool_decide (pBuffer b = None) then MQTTBadParameter
      else if bool_decide (l = []) then MQTTBadParameter
      else if bool_decide (packetId = 0)%Z then MQTTBadParameter
      else if bool_decide (u32 (1 + remainingLengthEncodedSize remainingLength + remainingLength) > fb_size b)%Z
      then MQTTNoMemory else MQTTSuccess
  | _, _ => MQTTBadParameter
  end.

Definition subscription_guard (l : option (list MQTTSubscribeInfo_t)) (ty : MQTTSubscriptionType_t)
    : MQTTStatus_t * option (Z * Z) :=
  match l with
  | None => (MQTTBadParameter, None)
  | Some l => if bool_decide (l = []) then (MQTTBadParameter, None) else calculateSubscriptionPacketSize l ty
  end.

Definition MQTT_GetSubscribePacketSize (l : option (list MQTTSubscribeInfo_t)) : MQTTStatus_t * option (Z * Z) :=
  subscription_guard l MQTT_SUBSCRIBE.

Definition MQTT_GetUnsubscribePacketSize (l : option (list MQTTSubscribeInfo_t)) : MQTTStatus_t * option (Z * Z) :=
  subscription_guard l MQTT_UNSUBSCRIBE.

Definition MQTT_SerializeSubscribeHeader (remainingLength packetId : Z) : writer :=
  poke [MQTT_PACKET_TYPE_SUBSCRIBE] >>w encodeRemainingLength remainingLength >>w
  poke [UINT16_HIGH_BYTE packetId; UINT16_LOW_BYTE packetId].

Definition MQTT_SerializeUnsubscribeHeader (remainingLength packetId : Z) : writer :=
  poke [MQTT_PACKET_TYPE_UNSUBSCRIBE] >>w encodeRemainingLength remainingLength >>w
  poke [UINT16_HIGH_BYTE packetId; UINT16_LOW_BYTE packetId].

Fixpoint write_subscriptions (l : list MQTTSubscribeInfo_t) : writer :=
  match l with
  | [] => Some
  | s :: l =>
      encodeString (pTopicFilter s) (topicFilterLength s) >>w poke [qos_byte (sub_qos s)] >>w write_subscriptions l
  end.

Fixpoint write_unsubscriptions (l : list MQTTSubscribeInfo_t) : writer :=
  match l with
  | [] => Some
  | s :: l => encodeString (pTopicFilter s) (topicFilterLength s) >>w write_unsubscriptions l
  end.

Definition serialize_list (l : option (list MQTTSubscribeInfo_t)) (packetId remainingLength : Z)
    (fb : option MQTTFixedBuffer_t) (w : list MQTTSubscribeInfo_t -> writer) : serialized :=
  let status := validateSubscriptionSerializeParams l packetId remainingLength fb in
  if mqtt_ok status then
    b ← fb; mem ← pBuffer b; l ← l; write_fixed b mem (w l)
  else Some (status, fb).

Definition MQTT_SerializeSubscribe (l : option (list MQTTSubscribeInfo_t)) (packetId remainingLength : Z)
    (fb : option MQTTFixedBuffer_t) : serialized :=
  serialize_list l packetId remainingLength fb
    (fun l => MQTT_SerializeSubscribeHeader remainingLength packetId >>w write_subscriptions l).

Definition MQTT_SerializeUnsubscribe (l : option (list MQTTSubscribeInfo_t)) (packetId remainingLength : Z)
    (fb : option MQTTFixedBuffer_t) : serialized :=
  serialize_list l packetId remainingLength fb
    (fun l => MQTT_SerializeUnsubscribeHeader remainingLength packetId >>w write_unsubscriptions l).

(** ** PUBLISH, acknowledgements, PINGREQ, DISCONNECT *)

Definition MQTT_GetPublishPacketSize (p : option MQTTPublishInfo_t) : MQTTStatus_t * option (Z * Z) :=
  match p with
  | None => (MQTTBadParameter, None)
  | Some p =>
      if bool_decide (pTopicName p = None) || bool_decide (topicNameLength p = 0)%Z then (MQTTBadParameter, None)
      else match calculatePublishPacketSize p with
           | None => (MQTTBadParameter, None)
           | Some sizes => (MQTTSuccess, Some sizes)
           end
  end.

(** What both PUBLISH serialisers refuse about the message. *)
Definition publish_refused (p : MQTTPublishInfo_t) (packetId : Z) : bool :=
  bool_decide (pTopicName p = None) || bool_decide (topicNameLength p = 0)%Z
  || (bool_decide (pub_qos p <> MQTTQoS0) && bool_decide (packetId = 0)%Z)
  || (dup p && bool_decide (pub_qos p = MQTTQoS0)).

Definition MQTT_SerializePublish (p : option MQTTPublishInfo_t) (packetId remainingLength : Z)
    (fb : option MQTTFixedBuffer_t) : serialized :=
  match fb, p with
  | Some b, Some p =>
      match pBuffer b with
      | None => Some (MQTTBadParameter, fb)
      | Some mem =>
          if bool_decide (payloadLength p > 0)%Z && bool_decide (pPayload p = None) then Some (MQTTBadParameter, fb)
          else if publish_refused p packetId then Some (MQTTBadParameter, fb)
          else if bool_decide (u32 (1 + remainingLengthEncodedSize remainingLength + remainingLength) > fb_size b)%Z
          then Some (MQTTNoMemory, fb)
          else write_fixed b mem (serializePublishCommon p remainingLength packetId true)
      end
  | _, _ => Some (MQTTBadParameter, fb)
  end.

(** The header's size beside. *)
Definition MQTT_SerializePublishHeader (p : option MQTTPublishInfo_t) (packetId remainingLength : Z)
    (fb : option MQTTFixedBuffer_t) : option (MQTTStatus_t * option MQTTFixedBuffer_t * option Z) :=
  match fb, p with
  | Some b, Some p =>
      match pBuffer b with
      | None => Some (MQTTBadParameter, fb, None)
      | Some mem =>
          if publish_refused p packetId then Some (MQTTBadParameter, fb, None) else
          let packetSize := u32 (1 + remainingLengthEncodedSize remainingLength + remainingLength - payloadLength p) in
          if bool_decide (packetSize > fb_size b)%Z then Some (MQTTNoMemory, fb, None)
          else
            '(status, fb) ← write_fixed b mem (serializePublishCommon p remainingLength packetId false);
            Some (status, fb, Some packetSize)
      end
  | _, _ => Some (MQTTBadParameter, fb, None)
  end.

Definition fixed_packet (fb : option MQTTFixedBuffer_t) (n : Z) (k : MQTTFixedBuffer_t -> bytes -> serialized) : serialized :=
  match fb with
  | None => Some (MQTTBadParameter, fb)
  | Some b =>
      match pBuffer b with
      | None => Some (MQTTBadParameter, fb)
      | Some mem => if bool_decide (fb_size b < n)%Z then Some (MQTTNoMemory, fb) else k b mem
      end
  end.

Definition MQTT_SerializeAck (fb : option MQTTFixedBuffer_t) (packetType packetId : Z) : serialized :=
  fixed_packet fb MQTT_PUBLISH_ACK_PACKET_SIZE (fun b mem =>
    if bool_decide (packetId = 0)%Z then Some (MQTTBadParameter, fb)
    else if bool_decide (packetType ∈ [MQTT_PACKET_TYPE_PUBACK; MQTT_PACKET_TYPE_PUBREC;
                                       MQTT_PACKET_TYPE_PUBREL; MQTT_PACKET_TYPE_PUBCOMP])
    then write_fixed b mem
           (poke [packetType; MQTT_PACKET_SIMPLE_ACK_REMAINING_LENGTH; UINT16_HIGH_BYTE packetId; UINT16_LOW_BYTE packetId])
    else Some (MQTTBadParameter, fb)).

Definition MQTT_GetDisconnectPacketSize : MQTTStatus_t * Z := (MQTTSuccess, MQTT_DISCONNECT_PACKET_SIZE).

Definition MQTT_SerializeDisconnect (fb : option MQTTFixedBuffer_t) : serialized :=
  fixed_packet fb MQTT_DISCONNECT_PACKET_SIZE (fun b mem => write_fixed b mem (poke [MQTT_PACKET_TYPE_DISCONNECT; 0%Z])).

Definition MQTT_GetPingreqPacketSize : MQTTStatus_t * Z := (MQTTSuccess, MQTT_PACKET_PINGREQ_SIZE).

Definition MQTT_SerializePingreq (fb : option MQTTFixedBuffer_t) : serialized :=
  fixed_packet fb MQTT_PACKET_PINGREQ_SIZE (fun b mem => write_fixed b mem (poke [MQTT_PACKET_TYPE_PINGREQ; 0%Z])).
