(* ===== verification/MqttCore.v ===== *)
(** * MqttCore: the MQTT client ([coreMQTT/core_mqtt.c])

    The client's functions over any state that carries its context, a transport
    and a clock (class [MqttNet]), and, where they receive, the application's
    callback (class [MqttApp]). A function answers a result, or says that its
    loops ran out of fuel, or that it would have touched memory it does not own.

    The checks of [pContext], [getTime] and the buffers against NULL have no
    counterpart: a context is always there. *)

From S2P Require Import Prelude MqttTypes MqttState MqttSerializer.
From stdpp Require Import base list numbers strings.
From Stdlib Require Import ZArith Lia.

(** ** Constants ([core_mqtt_config.h], [core_mqtt_config_defaults.h]) *)

Definition MQTT_SUB_UNSUB_MAX_VECTORS : nat := 4.
Definition MQTT_MAX_CONNACK_RECEIVE_RETRY_COUNT : nat := 5.
Definition MQTT_PINGRESP_TIMEOUT_MS : Z := 5000.
Definition PACKET_TX_TIMEOUT_MS : Z := 30000.
Definition PACKET_RX_TIMEOUT_MS : Z := 30000.
Definition MQTT_RECV_POLLING_TIMEOUT_MS : Z := 10.
Definition MQTT_SEND_TIMEOUT_MS : Z := 20000.

(** ** Results *)

Inductive outcome (A : Type) : Type :=
  | Done (a : A)
  | NoFuel
  | Fault.
Arguments Done {A} a.
Arguments NoFuel {A}.
Arguments Fault {A}.

Definition PT (S A : Type) : Type := S -> outcome (A * S).

Section monad.
Context {S : Type}.
Definition pret {A} (a : A) : PT S A := fun s => Done (a, s).
Definition pbind {A B} (m : PT S A) (k : A -> PT S B) : PT S B := fun s =>
  match m s with
  | Done (a, s) => k a s
  | NoFuel => NoFuel
  | Fault => Fault
  end.
Definition run {A} (m : S -> A * S) : PT S A := fun s => Done (m s).
Definition no_fuel {A} : PT S A := fun _ => NoFuel.
(** A memory access that may be out of bounds. *)
Definition access {A} (o : option A) : PT S A := fun s =>
  match o with Some a => Done (a, s) | None => Fault end.
End monad.

Notation "'let!' x ':=' m 'in' k" := (pbind m (fun x => k))
  (at level 10, x pattern, m at level 100, k at level 200,
   format "'[v' 'let!'  x  ':='  m  'in'  '/' k ']'") : cything_scope.
Notation "m ;! k" := (pbind m (fun _ => k))
  (at level 100, k at level 200, right associativity,
   format "'[v' m ;!  '/' k ']'") : cything_scope.
Local Open Scope cything_scope.

(** ** Interfaces *)

(** The transport's [send], [writev] and [recv] answer a count or a negative
    error; what [recv] stored comes with it. *)
Class MqttNet (S : Type) := {
  ctx : S -> MQTTContext_t;
  set_ctx : MQTTContext_t -> S -> S;
  tsend : bytes -> S -> Z * S;
  twritev : option (list bytes -> S -> Z * S);
  trecv : nat -> S -> Z * bytes * S;
  getTime : S -> Z * S;
}.

(** Transport and clock keep the context; [recv] stores the bytes it counts and
    no more than it was asked for. [wire] is what went over the connection so
    far, out and in: it grows by what [send] and [writev] say they took, and by
    what [recv] stored. The clock is a [uint32_t]. *)
Class MqttNetLaws (S : Type) {N : MqttNet S} := {
  wire : S -> bytes * bytes;
  ctx_set : forall c s, ctx (set_ctx c s) = c;
  wire_set : forall c s, wire (set_ctx c s) = wire s;
  tsend_ctx : forall b s, ctx (tsend b s).2 = ctx s;
  tsend_wire : forall b s, let '(r, s') := tsend b s in
    (r <= Z.of_nat (length b))%Z /\ wire s' = ((wire s).1 ++ take (Z.to_nat r) b, (wire s).2);
  twritev_ctx : forall w v s, twritev = Some w -> ctx (w v s).2 = ctx s;
  twritev_wire : forall w v s, twritev = Some w -> let '(r, s') := w v s in
    (r <= Z.of_nat (length (mjoin v)))%Z /\ wire s' = ((wire s).1 ++ take (Z.to_nat r) (mjoin v), (wire s).2);
  trecv_ctx : forall n s, ctx (trecv n s).2 = ctx s;
  trecv_wire : forall n s, let '(r, data, s') := trecv n s in
    (r <= Z.of_nat n)%Z /\ length data = Z.to_nat r /\ Forall is_byte data /\ wire s' = ((wire s).1, (wire s).2 ++ data);
  clock_ctx : forall s, ctx (getTime s).2 = ctx s;
  clock_wire : forall s, wire (getTime s).2 = wire s;
  clock_u32 : forall s, (0 <= (getTime s).1 < 2 ^ 32)%Z;
}.
Definition sent {S} `{MqttNetLaws S} (s : S) : bytes := (wire s).1.
Definition arrived {S} `{MqttNetLaws S} (s : S) : bytes := (wire s).2.

(** The application's event callback. *)
Class MqttApp (S : Type) := {
  appCallback : MQTTPacketInfo_t -> MQTTDeserializedInfo_t -> PT S unit;
}.

Section Core.
Context {S : Type} {N : MqttNet S}.

(** Turns of each loop. *)
Context (fuel : nat).

Definition getctx : PT S MQTTContext_t := fun s => Done (ctx s, s).
Definition modctx (f : MQTTContext_t -> MQTTContext_t) : PT S unit := fun s => Done (tt, set_ctx (f (ctx s)) s).
(** A function of the state machine: its result, and its context. *)
Definition onctx {A} (f : MQTTContext_t -> A * MQTTContext_t) : PT S A := fun s =>
  let '(a, c) := f (ctx s) in Done (a, set_ctx c s).

Definition buffer_size (c : MQTTContext_t) : nat := length (networkBuffer c).

(** What arrives is stored at [off] of the network buffer. *)
Definition store (off : nat) (data : bytes) : PT S unit :=
  modctx (fun c => set_networkBuffer (blit off data (networkBuffer c)) c).

Definition clear_buffer (c : MQTTContext_t) : MQTTContext_t :=
  set_networkBuffer (zeros (buffer_size c)) c.

Definition calculateElapsedTime (later start : Z) : Z := u32 (later - start).

(** ** Sending *)

(** The vectors that are left after [n] bytes went out. *)
Fixpoint advance_vec (vec : list bytes) (n : Z) : list bytes :=
  match vec with
  | [] => []
  | v :: vs =>
      if bool_decide (Z.of_nat (length v) <= n)%Z then advance_vec vs (n - Z.of_nat (length v))
      else if bool_decide (n > 0)%Z then drop (Z.to_nat n) v :: vs
      else v :: vs
  end.

(** [if( sendResult > 0 ) ... else if( sendResult < 0 ) ...] *)
Definition account (sendResult bytesSentOrError : Z) : PT S Z :=
  if bool_decide (sendResult > 0)%Z then
    let! now := run getTime in
    modctx (set_lastPacketTxTime now) ;!
    pret (bytesSentOrError + sendResult)%Z
  else if bool_decide (sendResult < 0)%Z then pret sendResult
  else pret bytesSentOrError.

Definition keeps_sending (bytesSentOrError bytesToSend : Z) : bool :=
  bool_decide (bytesSentOrError < bytesToSend)%Z && bool_decide (bytesSentOrError >= 0)%Z.

Fixpoint sendMessageVector_loop (n : nat) (vec : list bytes) (bytesToSend bytesSentOrError timeoutMs : Z) : PT S Z :=
  if keeps_sending bytesSentOrError bytesToSend then
    match n with
    | O => no_fuel
    | Datatypes.S n =>
        let! sendResult := run (match twritev with Some w => w vec | None => tsend (default [] (head vec)) end) in
        let! bytesSentOrError := account sendResult bytesSentOrError in
        let! now := run getTime in
        if bool_decide (now >= timeoutMs)%Z then pret bytesSentOrError
        else sendMessageVector_loop n (advance_vec vec sendResult) bytesToSend bytesSentOrError timeoutMs
    end
  else pret bytesSentOrError.

Definition vec_length (vec : list bytes) : Z := Z.of_nat (length (mjoin vec)).

Definition sendMessageVector (vec : list bytes) : PT S Z :=
  let! now := run getTime in
  sendMessageVector_loop fuel vec (vec_length vec) 0 (u32 (now + MQTT_SEND_TIMEOUT_MS)).

Fixpoint sendBuffer_loop (n : nat) (buf : bytes) (bytesToSend bytesSentOrError timeoutMs : Z) : PT S Z :=
  if keeps_sending bytesSentOrError bytesToSend then
    match n with
    | O => no_fuel
    | Datatypes.S n =>
        let! sendResult := run (tsend buf) in
        let! bytesSentOrError := account sendResult bytesSentOrError in
        let! now := run getTime in
        if bool_decide (now >= timeoutMs)%Z then pret bytesSentOrError
        else sendBuffer_loop n (drop (Z.to_nat sendResult) buf) bytesToSend bytesSentOrError timeoutMs
    end
  else pret bytesSentOrError.

Definition sendBuffer (buf : bytes) : PT S Z :=
  let! now := run getTime in
  sendBuffer_loop fuel buf (Z.of_nat (length buf)) 0 (u32 (now + MQTT_SEND_TIMEOUT_MS)).

(** ** Receiving into the network buffer *)

Fixpoint recvExact_loop (n : nat) (off bytesRemaining : nat) (totalBytesRecvd lastDataRecvTimeMs : Z) : PT S Z :=
  if bool_decide (0 < bytesRemaining) then
    match n with
    | O => no_fuel
    | Datatypes.S n =>
        let! (bytesRecvd, data) := run (trecv bytesRemaining) in
        store off data ;!
        if bool_decide (bytesRecvd < 0)%Z then pret bytesRecvd
        else if bool_decide (bytesRecvd > 0)%Z then
          let! now := run getTime in
          recvExact_loop n (off + Z.to_nat bytesRecvd) (bytesRemaining - Z.to_nat bytesRecvd)
            (totalBytesRecvd + bytesRecvd) now
        else
          let! now := run getTime in
          if bool_decide (calculateElapsedTime now lastDataRecvTimeMs >= MQTT_RECV_POLLING_TIMEOUT_MS)%Z
          then pret totalBytesRecvd
          else recvExact_loop n off bytesRemaining totalBytesRecvd lastDataRecvTimeMs
    end
  else pret totalBytesRecvd.

Definition recvExact (bytesToRecv : nat) : PT S Z :=
  let! now := run getTime in
  recvExact_loop fuel 0 bytesToRecv 0 now.

(** [elapsed] is the test of the time limit, where there is one. *)
Fixpoint discard_loop (n : nat) (remainingLength total bytesToReceive : nat) (late : PT S bool) : PT S MQTTStatus_t :=
  if bool_decide (total < remainingLength) then
    match n with
    | O => no_fuel
    | Datatypes.S n =>
        let bytesToReceive := if bool_decide (remainingLength - total < bytesToReceive) then remainingLength - total else bytesToReceive in
        let! bytesReceived := recvExact bytesToReceive in
        if bool_decide (bytesReceived <> Z.of_nat bytesToReceive) then pret MQTTRecvFailed
        else
          let total := total + bytesToReceive in
          let! stop := late in
          if stop then pret (if bool_decide (total = remainingLength) then MQTTNoDataAvailable else MQTTRecvFailed)
          else discard_loop n remainingLength total bytesToReceive late
    end
  else pret (if bool_decide (total = remainingLength) then MQTTNoDataAvailable else MQTTRecvFailed).

Definition discardPacket (remainingLength : nat) (timeoutMs : Z) : PT S MQTTStatus_t :=
  let! c := getctx in
  let! entryTimeMs := run getTime in
  discard_loop fuel remainingLength 0 (buffer_size c)
    (let! now := run getTime in pret (bool_decide (calculateElapsedTime now entryTimeMs >= timeoutMs)%Z)).

Definition packet_total (pk : MQTTPacketInfo_t) : Z := u32 (remainingLength pk + headerLength pk).

Definition discardStoredPacket (pk : MQTTPacketInfo_t) : PT S MQTTStatus_t :=
  let! c := getctx in
  let! status := discard_loop fuel (Z.to_nat (u32 (packet_total pk - Z.of_nat (index c)))) 0 (buffer_size c) (pret false) in
  modctx (fun c => set_index 0 (clear_buffer c)) ;!
  pret status.

Definition receivePacket (pk : MQTTPacketInfo_t) (remainingTimeMs : Z) : PT S MQTTStatus_t :=
  let! c := getctx in
  let n := Z.to_nat (remainingLength pk) in
  if bool_decide (buffer_size c < n) then discardPacket n remainingTimeMs
  else
    let! bytesReceived := recvExact n in
    pret (if bool_decide (bytesReceived = Z.of_nat n) then MQTTSuccess else MQTTRecvFailed).

(** ** Acknowledgements *)

Definition getAckFromPacketType (packetType : Z) : MQTTPubAckType_t :=
  if bool_decide (packetType = MQTT_PACKET_TYPE_PUBACK) then MQTTPuback
  else if bool_decide (packetType = MQTT_PACKET_TYPE_PUBREC) then MQTTPubrec
  else if bool_decide (packetType = MQTT_PACKET_TYPE_PUBREL) then MQTTPubrel
  else MQTTPubcomp.

Definition getAckTypeToSend (state : MQTTPublishState_t) : Z :=
  match state with
  | MQTTPubAckSend => MQTT_PACKET_TYPE_PUBACK
  | MQTTPubRecSend => MQTT_PACKET_TYPE_PUBREC
  | MQTTPubRelSend => MQTT_PACKET_TYPE_PUBREL
  | MQTTPubCompSend => MQTT_PACKET_TYPE_PUBCOMP
  | _ => 0
  end.

(** A serialiser into a buffer of the function's own. *)
Definition local_packet (n : nat) (w : option MQTTFixedBuffer_t -> serialized) : PT S (MQTTStatus_t * bytes) :=
  let! (status, fb) := access (w (Some (Build_fixed_buffer (Some (zeros n)) (Z.of_nat n)))) in
  let! b := access fb in
  let! mem := access (pBuffer b) in
  pret (status, mem).

Definition sendPublishAcks (packetId : Z) (publishState : MQTTPublishState_t) : PT S MQTTStatus_t :=
  let packetTypeByte := getAckTypeToSend publishState in
  if bool_decide (packetTypeByte = 0)%Z then pret MQTTSuccess else
  let packetType := getAckFromPacketType packetTypeByte in
  let! (status, pubAckPacket) := local_packet 4 (fun fb => MQTT_SerializeAck fb packetTypeByte packetId) in
  let! sendResult := (if mqtt_ok status then sendBuffer pubAckPacket else pret 0%Z) in
  if bool_decide (sendResult = MQTT_PUBLISH_ACK_PACKET_SIZE) then
    modctx (set_controlPacketSent true) ;!
    onctx (fun c => let '(status, _, c) := MQTT_UpdateStateAck c packetId packetType MQTT_SEND in (status, c))
  else pret MQTTSendFailed.

(** ** Keep-alive *)

Definition MQTT_Ping : PT S MQTTStatus_t :=
  let '(status, packetSize) := MQTT_GetPingreqPacketSize in
  let! (status, pingreqPacket) := local_packet 2 MQTT_SerializePingreq in
  if mqtt_ok status then
    let! sendResult := sendBuffer pingreqPacket in
    if bool_decide (sendResult < packetSize)%Z then pret MQTTSendFailed
    else
      modctx (fun c => set_waitingForPingResp true (set_pingReqSendTimeMs (lastPacketTxTime c) c)) ;!
      pret MQTTSuccess
  else pret status.

Definition handleKeepAlive : PT S MQTTStatus_t :=
  let! now := run getTime in
  let! c := getctx in
  let packetTxTimeoutMs := Z.min PACKET_TX_TIMEOUT_MS (u32 (1000 * keepAliveIntervalSec c)) in
  if waitingForPingResp c then
    pret (if bool_decide (calculateElapsedTime now (pingReqSendTimeMs c) > MQTT_PINGRESP_TIMEOUT_MS)%Z
          then MQTTKeepAliveTimeout else MQTTSuccess)
  else if bool_decide (packetTxTimeoutMs <> 0)%Z
          && bool_decide (calculateElapsedTime now (lastPacketTxTime c) >= packetTxTimeoutMs)%Z
  then MQTT_Ping
  else
    let timeElapsed := calculateElapsedTime now (lastPacketRxTime c) in
    if bool_decide (timeElapsed <> 0)%Z && bool_decide (timeElapsed >= PACKET_RX_TIMEOUT_MS)%Z then MQTT_Ping
    else pret MQTTSuccess.

(** ** Messages sent without copying *)

(** The vectors of a string field: its length, then the string when there is
    one. *)
Definition addEncodedStringToVector (string : option bytes) (length : Z) : option (list bytes) :=
  match string with
  | Some src =>
      if bool_decide (length <> 0)%Z
      then s ← peek src 0 (Z.to_nat length); Some [[UINT16_HIGH_BYTE length; UINT16_LOW_BYTE length]; s]
      else Some [[UINT16_HIGH_BYTE length; UINT16_LOW_BYTE length]]
  | None => Some [[UINT16_HIGH_BYTE length; UINT16_LOW_BYTE length]]
  end.

(** A header serialised into an array of [n] bytes: the bytes written. *)
Definition header_bytes (n : nat) (w : writer) : PT S bytes :=
  let! (mem, size) := access (w (zeros n, 0)) in pret (take size mem).

(** [sendMessageVector(...) != ( int32_t ) totalPacketLength] *)
Definition send_all (vec : list bytes) : PT S MQTTStatus_t :=
  let! sent := sendMessageVector vec in
  pret (if bool_decide (sent = vec_length vec) then MQTTSuccess else MQTTSendFailed).

(** The inner loop: as many subscriptions as there are free vectors; what is
    left goes into the next message. [slots] vectors each, [with_qos] for
    SUBSCRIBE. *)
Fixpoint subscription_vectors (slots : nat) (with_qos : bool) (l : list MQTTSubscribeInfo_t) (ioVectorLength : nat)
    : option (list bytes * list MQTTSubscribeInfo_t) :=
  match l with
  | [] => Some ([], [])
  | s :: l' =>
      if bool_decide (ioVectorLength <= MQTT_SUB_UNSUB_MAX_VECTORS - slots) then
        v ← addEncodedStringToVector (pTopicFilter s) (topicFilterLength s);
        let v := v ++ (if with_qos then [[qos_byte (sub_qos s)]] else []) in
        '(vs, rest) ← subscription_vectors slots with_qos l' (ioVectorLength + length v);
        Some (v ++ vs, rest)
      else Some ([], l)
  end.

(** The outer loop: every message carries at least one subscription, so the
    list's length is enough turns. *)
Fixpoint send_subscriptions (n slots : nat) (with_qos : bool) (vectors : list bytes) (l : list MQTTSubscribeInfo_t)
    : PT S MQTTStatus_t :=
  match l with
  | [] => pret MQTTSuccess
  | _ =>
      match n with
      | O => no_fuel
      | Datatypes.S n =>
          let! (vs, rest) := access (subscription_vectors slots with_qos l (length vectors)) in
          let! status := send_all (vectors ++ vs) in
          if mqtt_ok status then send_subscriptions n slots with_qos [] rest else pret status
      end
  end.

Definition sendSubscribeWithoutCopy (l : list MQTTSubscribeInfo_t) (packetId remainingLength : Z) : PT S MQTTStatus_t :=
  let! subscribeheader := header_bytes 7 (MQTT_SerializeSubscribeHeader remainingLength packetId) in
  send_subscriptions (length l) 3 true [subscribeheader] l.

Definition sendUnsubscribeWithoutCopy (l : list MQTTSubscribeInfo_t) (packetId remainingLength : Z) : PT S MQTTStatus_t :=
  let! unsubscribeheader := header_bytes 7 (MQTT_SerializeUnsubscribeHeader remainingLength packetId) in
  send_subscriptions (length l) 2 false [unsubscribeheader] l.

Definition sendPublishWithoutCopy (p : MQTTPublishInfo_t) (header : bytes) (packetId : Z) : PT S MQTTStatus_t :=
  let! topic := access (src ← pTopicName p; peek src 0 (Z.to_nat (topicNameLength p))) in
  let! payload :=
    (if bool_decide (payloadLength p > 0)%Z
     then access (src ← pPayload p; m ← peek src 0 (Z.to_nat (payloadLength p)); Some [m])
     else pret []) in
  send_all ([header; topic]
            ++ (if bool_decide (pub_qos p <> MQTTQoS0) then [[UINT16_HIGH_BYTE packetId; UINT16_LOW_BYTE packetId]] else [])
            ++ payload).

(** Client identifier, will, user name and password, after the header. *)
Definition connect_vectors (ci : MQTTConnectInfo_t) (will : option MQTTPublishInfo_t) : option (list bytes) :=
  id ← addEncodedStringToVector (pClientIdentifier ci) (clientIdentifierLength ci);
  w ← match will with
      | None => Some []
      | Some w =>
          t ← addEncodedStringToVector (pTopicName w) (topicNameLength w);
          m ← addEncodedStringToVector (pPayload w) (u16 (payloadLength w));
          Some (t ++ m)
      end;
  u ← (if bool_decide (pUserName ci <> None) then addEncodedStringToVector (pUserName ci) (userNameLength ci) else Some []);
  p ← (if bool_decide (pPassword ci <> None) then addEncodedStringToVector (pPassword ci) (passwordLength ci) else Some []);
  Some (id ++ w ++ u ++ p).

Definition sendConnectWithoutCopy (ci : MQTTConnectInfo_t) (will : option MQTTPublishInfo_t) (remainingLength : Z)
    : PT S MQTTStatus_t :=
  if match will with Some w => bool_decide (pTopicName w = None) | None => false end then pret MQTTBadParameter else
  let! connectPacketHeader := header_bytes 15 (MQTT_SerializeConnectFixedHeader ci will remainingLength) in
  let! vectors := access (connect_vectors ci will) in
  send_all (connectPacketHeader :: vectors).

(** ** CONNECT and CONNACK *)

(** [do { ... } while( ( status == MQTTNoDataAvailable ) && ( breakFromLoop == false ) )] *)
Fixpoint connack_loop (n : nat) (timeoutMs entryTimeMs : Z) (loopCount : nat) (pk : MQTTPacketInfo_t)
    : PT S (MQTTStatus_t * MQTTPacketInfo_t) :=
  match n with
  | O => no_fuel
  | Datatypes.S n =>
      let! (status, opk) := run (fun s =>
        let '(status, opk, s) := MQTT_GetIncomingPacketTypeAndLength trecv (Some pk) s in (status, opk, s)) in
      let pk := default pk opk in
      if bool_decide (timeoutMs > 0)%Z then
        let! now := run getTime in
        if bool_decide (status = MQTTNoDataAvailable)
           && negb (bool_decide (calculateElapsedTime now entryTimeMs >= timeoutMs)%Z)
        then connack_loop n timeoutMs entryTimeMs loopCount pk else pret (status, pk)
      else if bool_decide (status = MQTTNoDataAvailable)
              && negb (bool_decide (MQTT_MAX_CONNACK_RECEIVE_RETRY_COUNT <= loopCount))
      then connack_loop n timeoutMs entryTimeMs (loopCount + 1) pk
      else pret (status, pk)
  end.

(** The status, the packet and the session-present flag. *)
Definition receiveConnack (timeoutMs : Z) (cleanSession : bool) (pk : MQTTPacketInfo_t) (sessionPresent : bool)
    : PT S (MQTTStatus_t * MQTTPacketInfo_t * bool) :=
  let! entryTimeMs := run getTime in
  let! (status, pk) := connack_loop fuel timeoutMs entryTimeMs 0 pk in
  if negb (mqtt_ok status) then pret (status, pk, sessionPresent) else
  let! now := run getTime in
  let timeTakenMs := calculateElapsedTime now entryTimeMs in
  let remainingTimeMs := if bool_decide (timeTakenMs < timeoutMs)%Z then (timeoutMs - timeTakenMs)%Z else 0%Z in
  let! status := (if bool_decide (pk_type pk = MQTT_PACKET_TYPE_CONNACK)
                  then receivePacket pk remainingTimeMs else pret MQTTBadResponse) in
  if negb (mqtt_ok status) then pret (status, pk, sessionPresent) else
  let! c := getctx in
  let pk := Build_packet_info (pk_type pk) (Some (networkBuffer c)) (remainingLength pk) (headerLength pk) in
  let! (status, _, sp) := access (MQTT_DeserializeAck (Some pk) None (Some sessionPresent)) in
  let sessionPresent := default sessionPresent sp in
  pret (if mqtt_ok status && cleanSession && sessionPresent then MQTTBadResponse else status, pk, sessionPresent).

(** [while( ( packetId != MQTT_PACKET_ID_INVALID ) && ( status == MQTTSuccess ) )] *)
Fixpoint resend_pubrels (n : nat) (next : Z * option MQTTPublishState_t * nat) (state : MQTTPublishState_t)
    : PT S MQTTStatus_t :=
  let '(packetId, st, cursor) := next in
  let state := default state st in
  if bool_decide (packetId <> MQTT_PACKET_ID_INVALID) then
    match n with
    | O => no_fuel
    | Datatypes.S n =>
        let! status := sendPublishAcks packetId state in
        let! c := getctx in
        if mqtt_ok status then resend_pubrels n (MQTT_PubrelToResend c cursor) state else pret status
    end
  else pret MQTTSuccess.

Definition handleSessionResumption (sessionPresent : bool) : PT S MQTTStatus_t :=
  modctx (fun c => clear_buffer (set_index 0 c)) ;!
  if sessionPresent then
    let! c := getctx in
    resend_pubrels fuel (MQTT_PubrelToResend c 0) MQTTStateNull
  else
    modctx (fun c =>
      set_incomingPublishRecords (replicate (length (incomingPublishRecords c)) null_record)
        (set_outgoingPublishRecords (replicate (length (outgoingPublishRecords c)) null_record) c)) ;!
    pret MQTTSuccess.

Definition MQTT_Connect (ci : MQTTConnectInfo_t) (will : option MQTTPublishInfo_t) (timeoutMs : Z) (sessionPresent : bool)
    : PT S (MQTTStatus_t * bool) :=
  let '(status, sizes) := MQTT_GetConnectPacketSize (Some ci) will in
  if negb (mqtt_ok status) then pret (status, sessionPresent) else
  let! (remainingLength, _) := access sizes in
  let! status := sendConnectWithoutCopy ci will remainingLength in
  if negb (mqtt_ok status) then pret (status, sessionPresent) else
  let! (status, _, sessionPresent) :=
    receiveConnack timeoutMs (cleanSession ci) (Build_packet_info 0 None 0 0) sessionPresent in
  if negb (mqtt_ok status) then pret (status, sessionPresent) else
  let! status := handleSessionResumption sessionPresent in
  if mqtt_ok status then
    modctx (fun c => set_pingReqSendTimeMs 0 (set_waitingForPingResp false
      (set_keepAliveIntervalSec (keepAliveSeconds ci) (set_connectStatus MQTTConnected c)))) ;!
    pret (status, sessionPresent)
  else pret (status, sessionPresent).

(** ** The client's requests *)

(** Only the first subscription's QoS is looked at. *)
Definition validateSubscribeUnsubscribeParams (c : MQTTContext_t) (l : option (list MQTTSubscribeInfo_t)) (packetId : Z)
    : MQTTStatus_t :=
  match l with
  | None => MQTTBadParameter
  | Some l =>
      if bool_decide (l = []) then MQTTBadParameter
      else if bool_decide (packetId = 0)%Z then MQTTBadParameter
      else if bool_decide (incomingPublishRecords c = []) then
        match l with
        | s :: _ => if bool_decide (sub_qos s <> MQTTQoS0) then MQTTBadParameter else MQTTSuccess
        | [] => MQTTSuccess
        end
      else MQTTSuccess
  end.

Definition MQTT_Subscribe (l : option (list MQTTSubscribeInfo_t)) (packetId : Z) : PT S MQTTStatus_t :=
  let! c := getctx in
  let status := validateSubscribeUnsubscribeParams c l packetId in
  if negb (mqtt_ok status) then pret status else
  let '(status, sizes) := MQTT_GetSubscribePacketSize l in
  if negb (mqtt_ok status) then pret status else
  let! (remainingLength, _) := access sizes in
  let! l := access l in
  sendSubscribeWithoutCopy l packetId remainingLength.

Definition MQTT_Unsubscribe (l : option (list MQTTSubscribeInfo_t)) (packetId : Z) : PT S MQTTStatus_t :=
  let! c := getctx in
  let status := validateSubscribeUnsubscribeParams c l packetId in
  if negb (mqtt_ok status) then pret status else
  let '(status, sizes) := MQTT_GetUnsubscribePacketSize l in
  if negb (mqtt_ok status) then pret status else
  let! (remainingLength, _) := access sizes in
  let! l := access l in
  sendUnsubscribeWithoutCopy l packetId remainingLength.

Definition validatePublishParams (c : MQTTContext_t) (p : option MQTTPublishInfo_t) (packetId : Z) : MQTTStatus_t :=
  match p with
  | None => MQTTBadParameter
  | Some p =>
      if bool_decide (pub_qos p <> MQTTQoS0) && bool_decide (packetId = 0)%Z then MQTTBadParameter
      else if bool_decide (payloadLength p > 0)%Z && bool_decide (pPayload p = None) then MQTTBadParameter
      else if bool_decide (outgoingPublishRecords c = []) && bool_decide (pub_qos p <> MQTTQoS0) then MQTTBadParameter
      else MQTTSuccess
  end.

Definition MQTT_Publish (po : option MQTTPublishInfo_t) (packetId : Z) : PT S MQTTStatus_t :=
  let! c := getctx in
  let status := validatePublishParams c po packetId in
  if negb (mqtt_ok status) then pret status else
  let '(status, sizes) := MQTT_GetPublishPacketSize po in
  if negb (mqtt_ok status) then pret status else
  let! (remainingLength, _) := access sizes in
  let! p := access po in
  let! mqttHeader := header_bytes 7 (MQTT_SerializePublishHeaderWithoutTopic p remainingLength) in
  let! status :=
    (if bool_decide (pub_qos p <> MQTTQoS0) then
       let! status := onctx (fun c => MQTT_ReserveState c packetId (pub_qos p)) in
       pret (if bool_decide (status = MQTTStateCollision) && dup p then MQTTSuccess else status)
     else pret MQTTSuccess) in
  if negb (mqtt_ok status) then pret status else
  let! status := sendPublishWithoutCopy p mqttHeader packetId in
  if mqtt_ok status && bool_decide (pub_qos p <> MQTTQoS0) then
    onctx (fun c => let '(status, _, c) := MQTT_UpdateStatePublish c packetId MQTT_SEND (pub_qos p) in (status, c))
  else pret status.

Definition MQTT_Disconnect : PT S MQTTStatus_t :=
  let '(status, packetSize) := MQTT_GetDisconnectPacketSize in
  let! (status, disconnectPacket) := local_packet 2 MQTT_SerializeDisconnect in
  if negb (mqtt_ok status) then pret status else
  let! sendResult := sendBuffer disconnectPacket in
  if bool_decide (sendResult < packetSize)%Z then pret MQTTSendFailed
  else
    modctx (fun c => clear_buffer (set_index 0 (set_connectStatus MQTTNotConnected c))) ;!
    pret MQTTSuccess.

Definition MQTT_GetPacketId : PT S Z :=
  onctx (fun c =>
    (nextPacketId c,
     set_nextPacketId (if bool_decide (nextPacketId c = 65535)%Z then 1 else u16 (nextPacketId c + 1)) c)).

Definition MQTT_CancelCallback (packetId : Z) : PT S MQTTStatus_t :=
  let! c := getctx in
  if bool_decide (outgoingPublishRecords c = []) then pret MQTTBadParameter
  else onctx (fun c => MQTT_RemoveStateRecord c packetId).

(** The transport and the callback are there (the other branches of the C
    code refuse NULL pointers); the context is zeroed. *)
Definition MQTT_Init (pNetworkBuffer : bytes) : PT S MQTTStatus_t :=
  modctx (fun _ => Build_context [] [] pNetworkBuffer 1 MQTTNotConnected 0 0 false 0 0 0 false) ;!
  pret MQTTSuccess.

(** An array and its count agree, as lists. *)
Definition MQTT_InitStatefulQoS (outgoing incoming : list MQTTPubAckInfo_t) : PT S MQTTStatus_t :=
  modctx (fun c => set_outgoingPublishRecords outgoing (set_incomingPublishRecords incoming c)) ;!
  pret MQTTSuccess.

(** The status codes of a SUBACK and their number. *)
Definition MQTT_GetSubAckStatusCodes (pk : option MQTTPacketInfo_t) : MQTTStatus_t * option (bytes * Z) :=
  match pk with
  | None => (MQTTBadParameter, None)
  | Some pk =>
      if bool_decide (pk_type pk <> MQTT_PACKET_TYPE_SUBACK) then (MQTTBadParameter, None)
      else match pRemainingData pk with
      | None => (MQTTBadParameter, None)
      | Some p =>
          if bool_decide (remainingLength pk < 3)%Z then (MQTTBadParameter, None)
          else (MQTTSuccess, Some (drop 2 p, (remainingLength pk - 2)%Z))
      end
  end.

(** ** Incoming packets *)

Section Receive.
Context {A : MqttApp S}.

(** The fields of a local that the deserialiser has not written yet. *)
Definition uninit_publish : MQTTPublishInfo_t := Build_publish_info MQTTQoS0 false false None 0 None 0.

Definition handleIncomingPublish (pk : MQTTPacketInfo_t) : PT S MQTTStatus_t :=
  let! (status, id, info) := access (MQTT_DeserializePublish (Some pk) (Some 0%Z) (Some uninit_publish)) in
  let packetIdentifier := default 0%Z id in
  let publishInfo := default uninit_publish info in
  let! c := getctx in
  let status := if mqtt_ok status && bool_decide (incomingPublishRecords c = []) && bool_decide (pub_qos publishInfo <> MQTTQoS0)
                then MQTTRecvFailed else status in
  if negb (mqtt_ok status) then pret status else
  let! (status, state) := onctx (fun c =>
    let '(status, state, c) := MQTT_UpdateStatePublish c packetIdentifier MQTT_RECEIVE (pub_qos publishInfo) in
    ((status, default MQTTStateNull state), c)) in
  (* a packet id already in flight: acknowledged again, not delivered again *)
  let duplicatePublish := bool_decide (status = MQTTStateCollision) in
  let state := if duplicatePublish then MQTT_CalculateStatePublish MQTT_RECEIVE (pub_qos publishInfo) else state in
  let status := if duplicatePublish then MQTTSuccess else status in
  if mqtt_ok status then
    (if duplicatePublish then pret tt
     else appCallback pk (Build_deserialized packetIdentifier (Some publishInfo) status)) ;!
    sendPublishAcks packetIdentifier state
  else pret status.

Definition handlePublishAcks (pk : MQTTPacketInfo_t) : PT S MQTTStatus_t :=
  let ackType := getAckFromPacketType (pk_type pk) in
  let! (status, id, _) := access (MQTT_DeserializeAck (Some pk) (Some 0%Z) None) in
  let packetIdentifier := default 0%Z id in
  if negb (mqtt_ok status) then pret status else
  let! (status, state) := onctx (fun c =>
    let '(status, state, c) := MQTT_UpdateStateAck c packetIdentifier ackType MQTT_RECEIVE in
    ((status, default MQTTStateNull state), c)) in
  if mqtt_ok status then
    appCallback pk (Build_deserialized packetIdentifier None status) ;!
    sendPublishAcks packetIdentifier state
  else pret status.

Definition handleIncomingAck (pk : MQTTPacketInfo_t) (manageKeepAlive : bool) : PT S MQTTStatus_t :=
  let ty := pk_type pk in
  if bool_decide (ty ∈ [MQTT_PACKET_TYPE_PUBACK; MQTT_PACKET_TYPE_PUBREC; MQTT_PACKET_TYPE_PUBREL; MQTT_PACKET_TYPE_PUBCOMP])
  then handlePublishAcks pk
  else if bool_decide (ty ∈ [MQTT_PACKET_TYPE_PINGRESP; MQTT_PACKET_TYPE_SUBACK; MQTT_PACKET_TYPE_UNSUBACK]) then
    let! (status, id, _) := access (MQTT_DeserializeAck (Some pk) (Some MQTT_PACKET_ID_INVALID) None) in
    let packetIdentifier := default MQTT_PACKET_ID_INVALID id in
    let! invokeAppCallback :=
      (if bool_decide (ty = MQTT_PACKET_TYPE_PINGRESP) then
         (if mqtt_ok status && manageKeepAlive then modctx (set_waitingForPingResp false) else pret tt) ;!
         pret (mqtt_ok status && negb manageKeepAlive)
       else pret (mqtt_ok status || bool_decide (status = MQTTServerRefused))) in
    if invokeAppCallback then
      appCallback pk (Build_deserialized packetIdentifier None status) ;!
      pret MQTTSuccess
    else pret status
  else pret MQTTBadResponse.

Definition blank_incoming : MQTTPacketInfo_t := Build_packet_info 0 None 0 0.

(** What a receive attempt makes of the bytes in the buffer. *)
Definition parse_buffered (recvBytes : Z) : PT S (MQTTStatus_t * MQTTPacketInfo_t) :=
  let! c := getctx in
  if bool_decide (recvBytes < 0)%Z then pret (MQTTRecvFailed, blank_incoming)
  else if bool_decide (recvBytes = 0)%Z && bool_decide (index c = 0) then pret (MQTTNoDataAvailable, blank_incoming)
  else
    modctx (fun c => set_index (index c + Z.to_nat recvBytes) c) ;!
    let! c := getctx in
    let! (status, pk) := access (MQTT_ProcessIncomingPacketTypeAndLength (Some (networkBuffer c)) (Some (Z.of_nat (index c))) (Some blank_incoming)) in
    pret (status, default blank_incoming pk).

(** A complete packet: handled, then taken off the front of the buffer. *)
Definition handle_buffered (pk : MQTTPacketInfo_t) (manageKeepAlive : bool) : PT S MQTTStatus_t :=
  let! c := getctx in
  let total := Z.to_nat (packet_total pk) in
  let pk := Build_packet_info (pk_type pk) (Some (drop (Z.to_nat (headerLength pk)) (networkBuffer c)))
              (remainingLength pk) (headerLength pk) in
  let! status := (if bool_decide (Z.land (pk_type pk) 240 = MQTT_PACKET_TYPE_PUBLISH)
                  then handleIncomingPublish pk else handleIncomingAck pk manageKeepAlive) in
  modctx (fun c => set_index (index c - total) c) ;!
  modctx (fun c => set_networkBuffer (blit 0 (take (index c) (drop total (networkBuffer c))) (networkBuffer c)) c) ;!
  pret status.

Definition receiveSingleIteration (manageKeepAlive : bool) : PT S MQTTStatus_t :=
  let! c := getctx in
  let! (recvBytes, data) := run (trecv (buffer_size c - index c)) in
  store (index c) data ;!
  let! (status, pk) := parse_buffered recvBytes in
  let total := packet_total pk in
  let! status :=
    (if bool_decide (recvBytes = 0)%Z && manageKeepAlive then
       let! keepAlive := handleKeepAlive in
       pret (if mqtt_ok keepAlive then status else keepAlive)
     else pret status) in
  let! c := getctx in
  let! status :=
    (if negb (mqtt_ok status) then pret status
     else if bool_decide (total > Z.of_nat (buffer_size c))%Z then discardStoredPacket pk
     else if bool_decide (total > Z.of_nat (index c))%Z then pret MQTTNeedMoreBytes
     else pret MQTTSuccess) in
  let! status := (if mqtt_ok status then handle_buffered pk manageKeepAlive else pret status) in
  pret (if bool_decide (status = MQTTNoDataAvailable) then MQTTSuccess else status).

Definition MQTT_ProcessLoop : PT S MQTTStatus_t :=
  modctx (set_controlPacketSent false) ;! receiveSingleIteration true.

Definition MQTT_ReceiveLoop : PT S MQTTStatus_t := receiveSingleIteration false.

End Receive.
End Core.

(** ** Topic filters *)

Definition PLUS : Z := 43.
Definition HASH : Z := 35.
Definition SLASH : Z := 47.
Definition DOLLAR : Z := 36.

Definition char_at (s : bytes) (i : nat) (c : Z) : bool := bool_decide (s !! i = Some c).

Definition matchEndWildcardsSpecialCases (filter : bytes) (filterIndex : nat) : bool :=
  let n := length filter in
  let matchFound :=
    bool_decide (3 <= n) && bool_decide (filterIndex = n - 3)
    && char_at filter (filterIndex + 1) SLASH && char_at filter (filterIndex + 2) HASH in
  if bool_decide (filterIndex + 2 = n) && char_at filter filterIndex SLASH
  then char_at filter (filterIndex + 1) PLUS || char_at filter (filterIndex + 1) HASH
  else matchFound.

(** [while( *pNameIndex < topicNameLength )]: the next separator, if any. *)
Fixpoint skip_level (n : nat) (name : bytes) (nameIndex : nat) : nat * bool :=
  match n with
  | O => (nameIndex, false)
  | S n =>
      if bool_decide (nameIndex < length name) then
        if char_at name nameIndex SLASH then (nameIndex, true) else skip_level n name (nameIndex + 1)
      else (nameIndex, false)
  end.

(** The indices, whether matching stops, and the match when it was decided. *)
Definition matchWildcards (name filter : bytes) (nameIndex filterIndex : nat) (pMatch : bool)
    : nat * nat * bool * bool :=
  let valid := bool_decide (filterIndex = 0) || char_at filter (filterIndex - 1) SLASH in
  if char_at filter filterIndex PLUS && valid then
    let '(nameIndex, nextLevelExistsInTopicName) := skip_level (length name) name nameIndex in
    let nextLevelExistsinTopicFilter :=
      bool_decide (filterIndex + 1 < length filter) && char_at filter (filterIndex + 1) SLASH in
    if nextLevelExistsInTopicName && negb nextLevelExistsinTopicFilter
    then (nameIndex, filterIndex, true, false)
    else if nextLevelExistsInTopicName then (nameIndex, filterIndex + 1, false, pMatch)
    else (nameIndex - 1, filterIndex, false, pMatch)
  else if char_at filter filterIndex HASH && bool_decide (filterIndex + 1 = length filter) && valid
  then (nameIndex, filterIndex, true, true)
  else (nameIndex, filterIndex, true, false).

Fixpoint match_loop (n : nat) (name filter : bytes) (nameIndex filterIndex : nat) (matchFound : bool)
    : option (nat * nat * bool) :=
  if bool_decide (nameIndex < length name) && bool_decide (filterIndex < length filter) then
    match n with
    | O => None
    | S n =>
        let '(nameIndex, filterIndex, stop, matchFound) :=
          if bool_decide (name !! nameIndex = filter !! filterIndex) then
            (nameIndex, filterIndex, false,
             if bool_decide (nameIndex + 1 = length name) then matchEndWildcardsSpecialCases filter filterIndex else matchFound)
          else matchWildcards name filter nameIndex filterIndex matchFound in
        if matchFound || stop then Some (nameIndex, filterIndex, matchFound)
        else match_loop n name filter (nameIndex + 1) (filterIndex + 1) matchFound
    end
  else Some (nameIndex, filterIndex, matchFound).

(** The filter index grows with every turn. *)
Definition matchTopicFilter (name filter : bytes) : bool :=
  match match_loop (length filter) name filter 0 0 false with
  | Some (nameIndex, filterIndex, matchFound) =>
      matchFound || (bool_decide (nameIndex = length name) && bool_decide (filterIndex = length filter))
  | None => false
  end.

Definition MQTT_MatchTopic (pTopicName pTopicFilter : option bytes) : MQTTStatus_t * option bool :=
  match pTopicName, pTopicFilter with
  | Some name, Some filter =>
      if bool_decide (name = []) || bool_decide (filter = []) then (MQTTBadParameter, None) else
      let matchStatus := bool_decide (length name = length filter) && strncmp_eq (length name) name filter in
      let starts_wild := char_at filter 0 PLUS || char_at filter 0 HASH in
      (MQTTSuccess, Some (matchStatus || (negb (char_at name 0 DOLLAR && starts_wild) && matchTopicFilter name filter)))
  | _, _ => (MQTTBadParameter, None)
  end.

(** [MQTTNeedMoreBytes] has no case of its own. *)
Definition MQTT_Status_strerror (status : MQTTStatus_t) : bytes :=
  match status with
  | MQTTSuccess => str "MQTTSuccess"
  | MQTTBadParameter => str "MQTTBadParameter"
  | MQTTNoMemory => str "MQTTNoMemory"
  | MQTTSendFailed => str "MQTTSendFailed"
  | MQTTRecvFailed => str "MQTTRecvFailed"
  | MQTTBadResponse => str "MQTTBadResponse"
  | MQTTServerRefused => str "MQTTServerRefused"
  | MQTTNoDataAvailable => str "MQTTNoDataAvailable"
  | MQTTIllegalState => str "MQTTIllegalState"
  | MQTTStateCollision => str "MQTTStateCollision"
  | MQTTKeepAliveTimeout => str "MQTTKeepAliveTimeout"
  | _ => str "Invalid MQTT Status code"
  end.
