(* ===== verification/NetworkTransport.v ===== *)
(** * NetworkTransport: TLS under the MQTT client
    ([coreMQTT/network_transport.c], [posix_compat/clock_esp.c])

    The functions over esp-tls. The mutex around each call is not modelled: one
    task uses the connection. *)

From S2P Require Import Prelude.
From stdpp Require Import base list numbers.
From Stdlib Require Import ZArith Lia.

Local Open Scope cything_scope.

(** ** What the transport and the task around it call *)

(** The fields of [esp_tls_cfg_t] that are filled in. *)
Record esp_tls_cfg_t := Build_tls_cfg {
  cacert_buf : bytes;
  clientcert_buf : option bytes;
  clientcert_bytes : Z;
  clientkey_buf : option bytes;
  clientkey_bytes : Z;
  skip_common_name : bool;
  alpn_protos : option (list bytes);
  timeout_ms : Z;
}.

(** esp_tls.h, esp_timer.h, FreeRTOS, the C library. [NetWorld] is the network,
    the timers and the scheduler. *)
Class EspTls := {
  NetWorld : Type;
  esp_tls_t : Type;
  esp_tls_init : NetWorld -> option esp_tls_t * NetWorld;
  esp_tls_conn_new_sync : bytes -> Z -> esp_tls_cfg_t -> option esp_tls_t -> NetWorld -> Z * NetWorld;
  esp_tls_conn_destroy : esp_tls_t -> NetWorld -> Z * NetWorld;
  esp_tls_conn_write : esp_tls_t -> bytes -> NetWorld -> Z * NetWorld;
  esp_tls_conn_read : esp_tls_t -> nat -> NetWorld -> Z * bytes * NetWorld;
  ESP_TLS_ERR_SSL_WANT_READ : Z;
  ESP_TLS_ERR_SSL_WANT_WRITE : Z;
  esp_timer_us : NetWorld -> Z * NetWorld;
  xTaskGetTickCount : NetWorld -> Z * NetWorld;
  pdMS_TO_TICKS : Z -> Z;
  vTaskDelay : Z -> NetWorld -> NetWorld;
  sleep : Z -> NetWorld -> NetWorld;
  rand : NetWorld -> Z * NetWorld;
}.

(** A read stores the bytes it counts and no more than it was asked for, a
    write takes no more than it was given; the error codes are negative; the
    timer does not run backwards. [tls_wire] is what went over the
    connections so far, out and in. *)
Class EspTlsLaws {N : EspTls} := {
  tls_wire : NetWorld -> bytes * bytes;
  tls_write_wire : forall h b w, let '(r, w') := esp_tls_conn_write h b w in
    (r <= Z.of_nat (length b))%Z /\ tls_wire w' = ((tls_wire w).1 ++ take (Z.to_nat r) b, (tls_wire w).2);
  tls_read_wire : forall h n w, let '(r, data, w') := esp_tls_conn_read h n w in
    (r <= Z.of_nat n)%Z /\ length data = Z.to_nat r /\ Forall is_byte data /\
    tls_wire w' = ((tls_wire w).1, (tls_wire w).2 ++ data);
  want_negative : (ESP_TLS_ERR_SSL_WANT_READ < 0)%Z /\ (ESP_TLS_ERR_SSL_WANT_WRITE < 0)%Z;
  timer_wire : forall w, tls_wire (esp_timer_us w).2 = tls_wire w;
  ticks_wire : forall w, tls_wire (xTaskGetTickCount w).2 = tls_wire w;
  delay_wire : forall t w, tls_wire (vTaskDelay t w) = tls_wire w;
}.

(** ** [network_transport.h] *)

Inductive TlsTransportStatus_t :=
  | TLS_TRANSPORT_SUCCESS
  | TLS_TRANSPORT_INVALID_PARAMETER
  | TLS_TRANSPORT_INSUFFICIENT_MEMORY
  | TLS_TRANSPORT_INVALID_CREDENTIALS
  | TLS_TRANSPORT_HANDSHAKE_FAILED
  | TLS_TRANSPORT_INTERNAL_ERROR
  | TLS_TRANSPORT_CONNECT_FAILURE
  | TLS_TRANSPORT_DISCONNECT_FAILURE.

#[export] Instance tls_status_eq_dec : EqDecision TlsTransportStatus_t.
Proof. solve_decision. Defined.

Section Transport.
Context {N : EspTls}.

(** The secure element is not used. *)
Record NetworkContext_t := Build_network_context {
  pxTls : option esp_tls_t;
  pcHostname : bytes;
  xPort : Z;
  pcServerRootCA : bytes;
  pcClientCert : option bytes;
  pcClientCertSize : Z;
  pcClientKey : option bytes;
  pcClientKeySize : Z;
  pAlpnProtos : option (list bytes);
  disableSni : bool;
}.

Definition set_pxTls (h : option esp_tls_t) (c : NetworkContext_t) : NetworkContext_t :=
  Build_network_context h (pcHostname c) (xPort c) (pcServerRootCA c) (pcClientCert c) (pcClientCertSize c)
    (pcClientKey c) (pcClientKeySize c) (pAlpnProtos c) (disableSni c).

(** [memset(&xNetworkContext, 0, ...)] *)
Definition null_network : NetworkContext_t := Build_network_context None [] 0 [] None 0 None 0 None false.

(** ** [network_transport.c] *)

Definition xEspTlsConfig (c : NetworkContext_t) : esp_tls_cfg_t :=
  Build_tls_cfg (pcServerRootCA c) (pcClientCert c) (pcClientCertSize c) (pcClientKey c) (pcClientKeySize c)
    (disableSni c) (pAlpnProtos c) 1000.

Definition xTlsConnect (c : NetworkContext_t) (w : NetWorld) : TlsTransportStatus_t * NetworkContext_t * NetWorld :=
  let '(tls, w) := esp_tls_init w in
  let c := set_pxTls tls c in
  let '(r, w) := esp_tls_conn_new_sync (pcHostname c) (xPort c) (xEspTlsConfig c) tls w in
  if bool_decide (r <= 0)%Z then
    match pxTls c with
    | Some h => let '(_, w) := esp_tls_conn_destroy h w in (TLS_TRANSPORT_CONNECT_FAILURE, set_pxTls None c, w)
    | None => (TLS_TRANSPORT_CONNECT_FAILURE, c, w)
    end
  else (TLS_TRANSPORT_SUCCESS, c, w).

Definition xTlsDisconnect (c : NetworkContext_t) (w : NetWorld) : TlsTransportStatus_t * NetworkContext_t * NetWorld :=
  match pxTls c with
  | Some h =>
      let '(r, w) := esp_tls_conn_destroy h w in
      (if bool_decide (r < 0)%Z then TLS_TRANSPORT_DISCONNECT_FAILURE else TLS_TRANSPORT_SUCCESS, set_pxTls None c, w)
  | None => (TLS_TRANSPORT_SUCCESS, set_pxTls None c, w)
  end.

Definition espTlsTransportSend (c : NetworkContext_t) (data : bytes) (w : NetWorld) : Z * NetWorld :=
  if bool_decide (length data = 0) then ((-1)%Z, w) else
  match pxTls c with
  | Some h => esp_tls_conn_write h data w
  | None => ((-1)%Z, w)
  end.

(** What was read comes with the result. *)
Definition espTlsTransportRecv (c : NetworkContext_t) (n : nat) (w : NetWorld) : Z * bytes * NetWorld :=
  if bool_decide (n = 0) then ((-1)%Z, [], w) else
  match pxTls c with
  | None => ((-1)%Z, [], w)
  | Some h =>
      let '(r, data, w) := esp_tls_conn_read h n w in
      if bool_decide (r = ESP_TLS_ERR_SSL_WANT_WRITE) || bool_decide (r = ESP_TLS_ERR_SSL_WANT_READ) then (0%Z, data, w)
      else if bool_decide (r < 0)%Z then (r, data, w)
      else if bool_decide (r = 0)%Z then ((-1)%Z, data, w)
      else (r, data, w)
  end.

(** ** [clock_esp.c] *)

Definition Clock_GetTimeMs (w : NetWorld) : Z * NetWorld :=
  let '(us, w) := esp_timer_us w in (u32 (us / 1000), w).

Definition portTICK_PERIOD_MS : Z := 1000 / pdMS_TO_TICKS 1000.

Definition Clock_SleepMs (sleepTimeMs : Z) (w : NetWorld) : NetWorld := vTaskDelay (sleepTimeMs / portTICK_PERIOD_MS) w.

(** ** The contract of the MQTT client's transport interface *)

Lemma transport_send_wire {L : EspTlsLaws} c b w :
  let '(r, w') := espTlsTransportSend c b w in
  (r <= Z.of_nat (length b))%Z /\ tls_wire w' = ((tls_wire w).1 ++ take (Z.to_nat r) b, (tls_wire w).2).
Proof.
  unfold espTlsTransportSend.
  assert ((-1 <= Z.of_nat (length b))%Z /\ tls_wire w = ((tls_wire w).1 ++ take (Z.to_nat (-1)) b, (tls_wire w).2)) as Hno.
  { split; [lia|]. cbn. rewrite app_nil_r. by destruct (tls_wire w). }
  case_bool_decide; [done|]. destruct (pxTls c) as [h|]; [|done]. apply tls_write_wire.
Qed.

Lemma transport_recv_wire {L : EspTlsLaws} c n w :
  let '(r, data, w') := espTlsTransportRecv c n w in
  (r <= Z.of_nat n)%Z /\ length data = Z.to_nat r /\ Forall is_byte data /\
  tls_wire w' = ((tls_wire w).1, (tls_wire w).2 ++ data).
Proof.
  unfold espTlsTransportRecv.
  assert ((-1 <= Z.of_nat n)%Z /\ length (@nil Z) = Z.to_nat (-1) /\ Forall is_byte (@nil Z) /\
    tls_wire w = ((tls_wire w).1, (tls_wire w).2 ++ [])) as Hno.
  { split_and!; [lia|done|constructor|]. rewrite app_nil_r. by destruct (tls_wire w). }
  case_bool_decide; [done|]. destruct (pxTls c) as [h|]; [|done].
  pose proof (tls_read_wire h n w) as Hr. destruct (esp_tls_conn_read h n w) as [[r data] w']. destruct Hr as (H1 & H2 & H3 & H4).
  pose proof want_negative as [Hw1 Hw2].
  destruct (bool_decide (r = ESP_TLS_ERR_SSL_WANT_WRITE) || bool_decide (r = ESP_TLS_ERR_SSL_WANT_READ)) eqn:E.
  - assert (r < 0)%Z by (apply orb_true_iff in E as [E|E]; apply bool_decide_eq_true_1 in E; lia). split_and!; [lia..|done|done].
  - clear E. destruct (decide (r < 0)%Z); [rewrite bool_decide_eq_true_2 by done; by split_and!|].
    rewrite bool_decide_eq_false_2 by done. destruct (decide (r = 0)%Z) as [->|];
      [rewrite bool_decide_eq_true_2 by done|rewrite bool_decide_eq_false_2 by done]; split_and!; first [lia|done].
Qed.
End Transport.
