(* ===== verification/AwsIot.v ===== *)
(** * AwsIot: the task that keeps the device on the MQTT broker
    ([aws/aws_iot_handler.c], [aws/mqtt_response_fifo.c])

    The task's globals and its locals are the record [aws], which carries the
    device, the client's context, the connection and the network. Its functions
    are programs of the client's monad, so the client runs on this state: the
    instances [aws_net] and [aws_app] are the transport, the clock and the
    event callback the task hands to [MQTT_Init]. The endless loops are given as
    steps between phases.

    [EXIT_SUCCESS] is [true]. Pointers to strings hold the bytes they pointed to
    when they were stored. *)

From S2P Require Import Prelude Platform Radio State Mdns Provisioning PairingEvents ResponseFifo ClientList UdpScan TcpServer Backoff.
From S2P Require Import MqttTypes MqttState MqttSerializer MqttCore NetworkTransport.
From stdpp Require Import base list strings numbers.
From Stdlib Require Import ZArith Lia.

Local Open Scope cything_scope.

(** ** Configuration ([aws/demo_config.h], [aws/aws_iot_handler.h]) *)

Definition AWS_MQTT_PORT : Z := 8883.
Definition NETWORK_BUFFER_SIZE : nat := 1024.
Definition SUBSCRIBE_TOPICS_SIZE : nat := 3.
Definition CONNECTION_RETRY_MAX_ATTEMPTS : Z := 5.
Definition CONNECTION_RETRY_MAX_BACKOFF_DELAY_MS : Z := 5000.
Definition CONNECTION_RETRY_BACKOFF_BASE_MS : Z := 500.
Definition CONNACK_RECV_TIMEOUT_MS : Z := 1000.
Definition MAX_OUTGOING_PUBLISHES : nat := 5.
Definition MQTT_PROCESS_LOOP_TIMEOUT_MS : Z := 5000.
Definition MQTT_KEEP_ALIVE_INTERVAL_SECONDS : Z := 60.
Definition MQTT_SUBPUB_LOOP_DELAY_SECONDS : Z := 2.
Definition OUTGOING_PUBLISH_RECORD_LEN : nat := 10.
Definition INCOMING_PUBLISH_RECORD_LEN : nat := 10.
Definition MQTTSubAckFailure : Z := 128.

(** The application's hook: whether it took the command, and what it called, in
    order; two build-time strings. *)
Class AwsConfig {P : Platform} := {
  app_mqtt_command_handle : bytes -> Z -> World -> (bool * list app_call) * World;
  METRICS_STRING : bytes;
  root_cert_auth_pem : bytes;
}.

Definition EXIT_SUCCESS : bool := true.
Definition EXIT_FAILURE : bool := false.

(** ** Data *)

Record PublishPackets_t := Build_packets {
  pp_id : Z;
  pubInfo : MQTTPublishInfo_t;
}.

(** [memset] of a table row. *)
Definition null_packet : PublishPackets_t := Build_packets 0 (Build_publish_info MQTTQoS0 false false None 0 None 0).
Definition null_subscription : MQTTSubscribeInfo_t := Build_subscribe_info MQTTQoS0 None 0.

(** A topic: the array's text and the stored length. *)
Record topic_t := Build_topic {
  t_text : bytes;
  t_len : Z;
}.

(** The certificate and the key are pointers into the provisioning module's
    memory: set or not. *)
Record mqtt_identity_t := Build_identity {
  client_id : bytes;
  client_id_len : Z;
  endpoint : bytes;
  cert_pem_set : bool;
  cert_pem_len : Z;
  key_pem_set : bool;
  key_pem_len : Z;
  command_topic : topic_t;
  get_info_command_topic : topic_t;
  update_fw_command_topic : topic_t;
  response_topic : topic_t;
  get_info_response_topic : topic_t;
  update_fw_response_topic : topic_t;
  pairing_topic : topic_t;
}.

Section AwsIot.
Context {P : Platform} {C : Config} {A : AwsConfig} {N : EspTls}.

Record aws := Build_aws {
  aw_dev : Dev;
  aw_ctx : MQTTContext_t;  (* mqttContext *)
  aw_nc : NetworkContext_t;  (* xNetworkContext *)
  aw_net : NetWorld;
  outgoingPublishPackets : list PublishPackets_t;
  pGlobalSubscriptionList : list MQTTSubscribeInfo_t;
  globalAckPacketIdentifier : Z;  (* uint16_t *)
  globalSubscribePacketIdentifier : Z;  (* uint16_t *)
  globalUnsubscribePacketIdentifier : Z;  (* uint16_t *)
  globalSubAckStatus : Z;  (* MQTTSubAckStatus_t, a byte of the packet *)
  is_connected_to_server : bool;
  mqtt_last_send_tick : Z;  (* TickType_t *)
  pairing_last_send_tick : Z;  (* TickType_t *)
  g_mqtt_identity : mqtt_identity_t;
  subscribeTopics : list (option bytes * Z);  (* with subscribeTopicLengths *)
  s_command_mqtt_context : bool;  (* not NULL *)
}.

(** One setter per field. *)
Definition set_aw_dev (v : Dev) (s : aws) : aws :=
  Build_aws v (aw_ctx s) (aw_nc s) (aw_net s) (outgoingPublishPackets s) (pGlobalSubscriptionList s) (globalAckPacketIdentifier s) (globalSubscribePacketIdentifier s) (globalUnsubscribePacketIdentifier s) (globalSubAckStatus s) (is_connected_to_server s) (mqtt_last_send_tick s) (pairing_last_send_tick s) (g_mqtt_identity s) (subscribeTopics s) (s_command_mqtt_context s).
Definition set_aw_ctx (v : MQTTContext_t) (s : aws) : aws :=
  Build_aws (aw_dev s) v (aw_nc s) (aw_net s) (outgoingPublishPackets s) (pGlobalSubscriptionList s) (globalAckPacketIdentifier s) (globalSubscribePacketIdentifier s) (globalUnsubscribePacketIdentifier s) (globalSubAckStatus s) (is_connected_to_server s) (mqtt_last_send_tick s) (pairing_last_send_tick s) (g_mqtt_identity s) (subscribeTopics s) (s_command_mqtt_context s).
Definition set_aw_nc (v : NetworkContext_t) (s : aws) : aws :=
  Build_aws (aw_dev s) (aw_ctx s) v (aw_net s) (outgoingPublishPackets s) (pGlobalSubscriptionList s) (globalAckPacketIdentifier s) (globalSubscribePacketIdentifier s) (globalUnsubscribePacketIdentifier s) (globalSubAckStatus s) (is_connected_to_server s) (mqtt_last_send_tick s) (pairing_last_send_tick s) (g_mqtt_identity s) (subscribeTopics s) (s_command_mqtt_context s).
Definition set_aw_net (v : NetWorld) (s : aws) : aws :=
  Build_aws (aw_dev s) (aw_ctx s) (aw_nc s) v (outgoingPublishPackets s) (pGlobalSubscriptionList s) (globalAckPacketIdentifier s) (globalSubscribePacketIdentifier s) (globalUnsubscribePacketIdentifier s) (globalSubAckStatus s) (is_connected_to_server s) (mqtt_last_send_tick s) (pairing_last_send_tick s) (g_mqtt_identity s) (subscribeTopics s) (s_command_mqtt_context s).
Definition set_outgoingPublishPackets (v : list PublishPackets_t) (s : aws) : aws :=
  Build_aws (aw_dev s) (aw_ctx s) (aw_nc s) (aw_net s) v (pGlobalSubscriptionList s) (globalAckPacketIdentifier s) (globalSubscribePacketIdentifier s) (globalUnsubscribePacketIdentifier s) (globalSubAckStatus s) (is_connected_to_server s) (mqtt_last_send_tick s) (pairing_last_send_tick s) (g_mqtt_identity s) (subscribeTopics s) (s_command_mqtt_context s).
Definition set_pGlobalSubscriptionList (v : list MQTTSubscribeInfo_t) (s : aws) : aws :=
  Build_aws (aw_dev s) (aw_ctx s) (aw_nc s) (aw_net s) (outgoingPublishPackets s) v (globalAckPacketIdentifier s) (globalSubscribePacketIdentifier s) (globalUnsubscribePacketIdentifier s) (globalSubAckStatus s) (is_connected_to_server s) (mqtt_last_send_tick s) (pairing_last_send_tick s) (g_mqtt_identity s) (subscribeTopics s) (s_command_mqtt_context s).
Definition set_globalAckPacketIdentifier (v : Z) (s : aws) : aws :=
  Build_aws (aw_dev s) (aw_ctx s) (aw_nc s) (aw_net s) (outgoingPublishPackets s) (pGlobalSubscriptionList s) v (globalSubscribePacketIdentifier s) (globalUnsubscribePacketIdentifier s) (globalSubAckStatus s) (is_connected_to_server s) (mqtt_last_send_tick s) (pairing_last_send_tick s) (g_mqtt_identity s) (subscribeTopics s) (s_command_mqtt_context s).
Definition set_globalSubscribePacketIdentifier (v : Z) (s : aws) : aws :=
  Build_aws (aw_dev s) (aw_ctx s) (aw_nc s) (aw_net s) (outgoingPublishPackets s) (pGlobalSubscriptionList s) (globalAckPacketIdentifier s) v (globalUnsubscribePacketIdentifier s) (globalSubAckStatus s) (is_connected_to_server s) (mqtt_last_send_tick s) (pairing_last_send_tick s) (g_mqtt_identity s) (subscribeTopics s) (s_command_mqtt_context s).
Definition set_globalUnsubscribePacketIdentifier (v : Z) (s : aws) : aws :=
  Build_aws (aw_dev s) (aw_ctx s) (aw_nc s) (aw_net s) (outgoingPublishPackets s) (pGlobalSubscriptionList s) (globalAckPacketIdentifier s) (globalSubscribePacketIdentifier s) v (globalSubAckStatus s) (is_connected_to_server s) (mqtt_last_send_tick s) (pairing_last_send_tick s) (g_mqtt_identity s) (subscribeTopics s) (s_command_mqtt_context s).
Definition set_globalSubAckStatus (v : Z) (s : aws) : aws :=
  Build_aws (aw_dev s) (aw_ctx s) (aw_nc s) (aw_net s) (outgoingPublishPackets s) (pGlobalSubscriptionList s) (globalAckPacketIdentifier s) (globalSubscribePacketIdentifier s) (globalUnsubscribePacketIdentifier s) v (is_connected_to_server s) (mqtt_last_send_tick s) (pairing_last_send_tick s) (g_mqtt_identity s) (subscribeTopics s) (s_command_mqtt_context s).
Definition set_is_connected_to_server (v : bool) (s : aws) : aws :=
  Build_aws (aw_dev s) (aw_ctx s) (aw_nc s) (aw_net s) (outgoingPublishPackets s) (pGlobalSubscriptionList s) (globalAckPacketIdentifier s) (globalSubscribePacketIdentifier s) (globalUnsubscribePacketIdentifier s) (globalSubAckStatus s) v (mqtt_last_send_tick s) (pairing_last_send_tick s) (g_mqtt_identity s) (subscribeTopics s) (s_command_mqtt_context s).
Definition set_mqtt_last_send_tick (v : Z) (s : aws) : aws :=
  Build_aws (aw_dev s) (aw_ctx s) (aw_nc s) (aw_net s) (outgoingPublishPackets s) (pGlobalSubscriptionList s) (globalAckPacketIdentifier s) (globalSubscribePacketIdentifier s) (globalUnsubscribePacketIdentifier s) (globalSubAckStatus s) (is_connected_to_server s) v (pairing_last_send_tick s) (g_mqtt_identity s) (subscribeTopics s) (s_command_mqtt_context s).
Definition set_pairing_last_send_tick (v : Z) (s : aws) : aws :=
  Build_aws (aw_dev s) (aw_ctx s) (aw_nc s) (aw_net s) (outgoingPublishPackets s) (pGlobalSubscriptionList s) (globalAckPacketIdentifier s) (globalSubscribePacketIdentifier s) (globalUnsubscribePacketIdentifier s) (globalSubAckStatus s) (is_connected_to_server s) (mqtt_last_send_tick s) v (g_mqtt_identity s) (subscribeTopics s) (s_command_mqtt_context s).
Definition set_g_mqtt_identity (v : mqtt_identity_t) (s : aws) : aws :=
  Build_aws (aw_dev s) (aw_ctx s) (aw_nc s) (aw_net s) (outgoingPublishPackets s) (pGlobalSubscriptionList s) (globalAckPacketIdentifier s) (globalSubscribePacketIdentifier s) (globalUnsubscribePacketIdentifier s) (globalSubAckStatus s) (is_connected_to_server s) (mqtt_last_send_tick s) (pairing_last_send_tick s) v (subscribeTopics s) (s_command_mqtt_context s).
Definition set_subscribeTopics (v : list (option bytes * Z)) (s : aws) : aws :=
  Build_aws (aw_dev s) (aw_ctx s) (aw_nc s) (aw_net s) (outgoingPublishPackets s) (pGlobalSubscriptionList s) (globalAckPacketIdentifier s) (globalSubscribePacketIdentifier s) (globalUnsubscribePacketIdentifier s) (globalSubAckStatus s) (is_connected_to_server s) (mqtt_last_send_tick s) (pairing_last_send_tick s) (g_mqtt_identity s) v (s_command_mqtt_context s).
Definition set_s_command_mqtt_context (v : bool) (s : aws) : aws :=
  Build_aws (aw_dev s) (aw_ctx s) (aw_nc s) (aw_net s) (outgoingPublishPackets s) (pGlobalSubscriptionList s) (globalAckPacketIdentifier s) (globalSubscribePacketIdentifier s) (globalUnsubscribePacketIdentifier s) (globalSubAckStatus s) (is_connected_to_server s) (mqtt_last_send_tick s) (pairing_last_send_tick s) (g_mqtt_identity s) (subscribeTopics s) v.

(** ** The client's environment *)

#[export] Instance aws_net : MqttNet aws := {|
  ctx := aw_ctx;
  set_ctx := set_aw_ctx;
  tsend b s := let '(r, w) := espTlsTransportSend (aw_nc s) b (aw_net s) in (r, set_aw_net w s);
  twritev := None;
  trecv n s := let '(r, data, w) := espTlsTransportRecv (aw_nc s) n (aw_net s) in (r, data, set_aw_net w s);
  getTime s := let '(t, w) := Clock_GetTimeMs (aw_net s) in (t, set_aw_net w s);
|}.

(** A function of the device, a read and an update of the globals, an
    operation of the network. *)
Definition on_dev {X} (m : M X) : PT aws X := fun s => let '(x, d) := m (aw_dev s) in Done (x, set_aw_dev d s).
Definition get {X} (f : aws -> X) : PT aws X := fun s => Done (f s, s).
Definition upd (f : aws -> aws) : PT aws unit := fun s => Done (tt, f s).
Definition on_net {X} (f : NetWorld -> X * NetWorld) : PT aws X := fun s =>
  let '(x, w) := f (aw_net s) in Done (x, set_aw_net w s).
Definition on_net_ (f : NetWorld -> NetWorld) : PT aws unit := upd (fun s => set_aw_net (f (aw_net s)) s).
Definition on_tls {X} (f : NetworkContext_t -> NetWorld -> X * NetworkContext_t * NetWorld) : PT aws X := fun s =>
  let '(x, c, w) := f (aw_nc s) (aw_net s) in Done (x, set_aw_net w (set_aw_nc c s)).

(** A failed [assert] stops the device, like a bad access. *)
Definition require (b : bool) : PT aws unit := access (if b then Some tt else None).

(** Turns of each loop that is not bounded by a counter. *)
Context (fuel : nat).

(** ** The table of outgoing publishes *)

Definition getNextFreeIndexForOutgoingPublishes (l : list PublishPackets_t) : option nat :=
  fst <$> list_find (fun p => pp_id p = MQTT_PACKET_ID_INVALID) l.

Definition cleanupOutgoingPublishAt (index : nat) : PT aws unit :=
  upd (fun s => set_outgoingPublishPackets (<[index := null_packet]> (outgoingPublishPackets s)) s).

Definition cleanupOutgoingPublishes : PT aws unit :=
  upd (set_outgoingPublishPackets (replicate MAX_OUTGOING_PUBLISHES null_packet)).

Definition cleanupOutgoingPublishWithPacketID (packetId : Z) : PT aws unit :=
  require (bool_decide (packetId <> MQTT_PACKET_ID_INVALID)) ;!
  let! l := get outgoingPublishPackets in
  match list_find (fun p => pp_id p = packetId) l with
  | Some (index, _) => cleanupOutgoingPublishAt index
  | None => pret tt
  end.

Definition set_packet (index : nat) (f : PublishPackets_t -> PublishPackets_t) : PT aws unit :=
  upd (fun s => set_outgoingPublishPackets (alter f index (outgoingPublishPackets s)) s).

(** [msg_topic] and [message] are C strings. *)
Definition publish_info (msg_topic message : bytes) : MQTTPublishInfo_t :=
  Build_publish_info MQTTQoS1 false false (Some msg_topic) (u16 (Z.of_nat (length msg_topic)))
    (Some message) (Z.of_nat (length message)).

Definition publishToTopic (msg_topic message : bytes) : PT aws bool :=
  let! l := get outgoingPublishPackets in
  match getNextFreeIndexForOutgoingPublishes l with
  | None => pret EXIT_FAILURE
  | Some publishIndex =>
      let info := publish_info msg_topic message in
      set_packet publishIndex (fun p => Build_packets (pp_id p) info) ;!
      let! id := MQTT_GetPacketId in
      set_packet publishIndex (fun p => Build_packets id (pubInfo p)) ;!
      let! mqttStatus := MQTT_Publish fuel (Some info) id in
      if mqtt_ok mqttStatus then pret EXIT_SUCCESS
      else cleanupOutgoingPublishAt publishIndex ;! pret EXIT_FAILURE
  end.

Definition mark_dup (p : PublishPackets_t) : PublishPackets_t :=
  let i := pubInfo p in
  Build_packets (pp_id p) (Build_publish_info (pub_qos i) (retain i) true (pTopicName i) (topicNameLength i) (pPayload i) (payloadLength i)).

(** The inner loop, over the rows from an index on: found, and whether all is
    well. *)
Fixpoint resend_rows (indices : list nat) (packetIdToResend : Z) (found ok : bool) : PT aws (bool * bool) :=
  match indices with
  | [] => pret (found, ok)
  | index :: indices =>
      let! l := get outgoingPublishPackets in
      match l !! index with
      | Some p =>
          if bool_decide (pp_id p = packetIdToResend) then
            set_packet index mark_dup ;!
            let! mqttStatus := MQTT_Publish fuel (Some (pubInfo (mark_dup p))) (pp_id p) in
            if mqtt_ok mqttStatus then resend_rows indices packetIdToResend true ok else pret (true, EXIT_FAILURE)
          else resend_rows indices packetIdToResend found ok
      | None => resend_rows indices packetIdToResend found ok
      end
  end.

Fixpoint resend_loop (n : nat) (packetIdToResend : Z) (cursor : nat) (ok : bool) : PT aws bool :=
  if bool_decide (packetIdToResend <> MQTT_PACKET_ID_INVALID) then
    match n with
    | O => no_fuel
    | S n =>
        let! (found, ok) := resend_rows (seq 0 MAX_OUTGOING_PUBLISHES) packetIdToResend false ok in
        if found then
          let! c := getctx in
          let '(id, cursor) := MQTT_PublishToResend c cursor in
          resend_loop n id cursor ok
        else pret EXIT_FAILURE
    end
  else pret ok.

Definition handlePublishResend : PT aws bool :=
  let! c := getctx in
  let '(id, cursor) := MQTT_PublishToResend c 0 in
  resend_loop fuel id cursor EXIT_SUCCESS.

(** ** Commands *)

(** [memcmp(p, pat, n) == 0]: [n] bytes behind the pointer are read. *)
Definition memcmp_at (p : option bytes) (pat : bytes) : PT aws bool :=
  access (src ← p; m ← peek src 0 (length pat); Some (bool_decide (m = pat))).

(** Memory of [calloc], written to. *)
Definition calloc (n : nat) : PT aws unit :=
  let! ok := get (fun s => calloc_ok n (world (aw_dev s))) in
  require ok.

Definition ssid_base64 (ssid_arg : bytes) : bytes :=
  let ssid := take 32 (cstr ssid_arg) in
  if bool_decide (0 < length ssid) then
    let text := base64_encode ssid in if bool_decide (length text < 48) then text else []
  else [].

Definition get_info_fields (d : Dev) : list bytes :=
  let '(source_terminal_id, device_id, _) :=
    provisioning_get_scan_fields PROV_SOURCE_TERMINAL_ID_MAX PROV_DEVICE_ID_MAX 16 d in
  let local_ip := if sn_connected (station d) then get_device_wifi_info d else [] in
  [ cy_scan_response; source_terminal_id; cy_device_type; device_id; local_ip;
    ssid_base64 (sn_ssid_arg (station d)); cy_hardware_version; cy_firmware_version ].

Definition process_aws_iot_get_info_command (command : option bytes) : PT aws unit :=
  let! matched := memcmp_at command (take cy_scan_command_len cy_scan_command) in
  if matched then
    calloc 320 ;!
    let! d := get aw_dev in
    let! id := get g_mqtt_identity in
    publishToTopic (t_text (get_info_response_topic id)) (snprintf_s 320 (UdpScan.join COMMA (get_info_fields d))) ;!
    pret tt
  else pret tt.

Definition process_aws_iot_update_fw_response (command : option bytes) (command_length : Z) : PT aws unit :=
  let start := updateFirmwareSteps UPDATE_FW_START in
  let cred := updateFirmwareSteps UPDATE_FW_CREDENTIAL in
  let upd_ := updateFirmwareSteps UPDATE_FW_UPDATING in
  let! id := get g_mqtt_identity in
  let respond (text : bytes) :=
    publishToTopic (t_text (update_fw_response_topic id)) text ;! pret tt in
  let! matched := memcmp_at command (fst start) in
  if matched then
    calloc 256 ;!
    on_net_ (vTaskDelay (100 / portTICK_PERIOD_MS)) ;!
    respond (snd start)
  else
  let! matched := memcmp_at command (fst cred) in
  if matched then
    calloc 256 ;!
    on_net_ (vTaskDelay (100 / portTICK_PERIOD_MS)) ;!
    respond (snd cred)
  else
  let! matched := memcmp_at command (fst upd_) in
  if matched then
    let n := Z.to_nat (u32 (command_length - 12)) in
    let! url := access (src ← command; peek src 12 n) in
    require (bool_decide (n < FIRMWARE_URL_SIZE)) ;!
    on_dev (modify (set_firmwareUrl (cstr url))) ;!
    calloc 256 ;!
    respond (snd upd_ ++ str "2" ++ [NL])
  else pret tt.

Definition mqtt_publish_response (text : bytes) : PT aws unit :=
  let! inside := get s_command_mqtt_context in
  if negb inside then pret tt else
  let! id := on_dev update_response_id in
  let! ident := get g_mqtt_identity in
  publishToTopic (t_text (response_topic ident)) (snprintf_s 256 (dec id ++ [58]%Z ++ text)) ;!
  pret tt.

(** What the hook calls while it handles a command of the broker. *)
Fixpoint run_hook_calls (calls : list app_call) : PT aws unit :=
  match calls with
  | [] => pret tt
  | c :: cs =>
      match c with
      | PublishResponse t => mqtt_publish_response t
      | _ => on_dev (run_app_call c)
      end ;!
      run_hook_calls cs
  end.

(** The hook is given the payload and its length. *)
Definition process_aws_iot_command (command : option bytes) (command_length : Z) : PT aws unit :=
  upd (set_s_command_mqtt_context true) ;!
  let! (_, calls) := on_dev (io (app_mqtt_command_handle (take (Z.to_nat command_length) (default [] command)) command_length)) in
  run_hook_calls calls ;!
  upd (set_s_command_mqtt_context false).

(** ** The event callback *)

(** [topicNameLength == len && strncmp(topic, pTopicName, topicNameLength) == 0] *)
Definition topic_is (t : topic_t) (p : MQTTPublishInfo_t) : PT aws bool :=
  if bool_decide (topicNameLength p = t_len t) then
    access (src ← pTopicName p; name ← peek src 0 (Z.to_nat (topicNameLength p));
            Some (bool_decide (cstr name = take (Z.to_nat (topicNameLength p)) (t_text t))))
  else pret false.

Definition handleIncomingPublish (p : MQTTPublishInfo_t) : PT aws unit :=
  let! id := get g_mqtt_identity in
  let! is_command := topic_is (command_topic id) p in
  if is_command then process_aws_iot_command (pPayload p) (payloadLength p) else
  let! is_get_info := topic_is (get_info_command_topic id) p in
  if is_get_info then process_aws_iot_get_info_command (pPayload p) else
  let! is_update := topic_is (update_fw_command_topic id) p in
  if is_update then process_aws_iot_update_fw_response (pPayload p) (payloadLength p) else
  pret tt.

Definition updateSubAckStatus (pk : MQTTPacketInfo_t) : PT aws unit :=
  let '(_, codes) := MQTT_GetSubAckStatusCodes (Some pk) in
  let! (payload, _) := access codes in
  let! first := access (head payload) in
  upd (set_globalSubAckStatus first).

Definition eventCallback (pk : MQTTPacketInfo_t) (d : MQTTDeserializedInfo_t) : PT aws unit :=
  let id := packetIdentifier d in
  if bool_decide (Z.land (pk_type pk) 240 = MQTT_PACKET_TYPE_PUBLISH) then
    let! p := access (pPublishInfo d) in handleIncomingPublish p
  else if bool_decide (pk_type pk = MQTT_PACKET_TYPE_SUBACK) then
    updateSubAckStatus pk ;!
    let! expected := get globalSubscribePacketIdentifier in
    require (bool_decide (expected = id)) ;!
    upd (set_globalAckPacketIdentifier id)
  else if bool_decide (pk_type pk = MQTT_PACKET_TYPE_UNSUBACK) then
    let! expected := get globalUnsubscribePacketIdentifier in
    require (bool_decide (expected = id)) ;!
    upd (set_globalAckPacketIdentifier id)
  else if bool_decide (pk_type pk = MQTT_PACKET_TYPE_PUBACK) then
    cleanupOutgoingPublishWithPacketID id ;!
    upd (set_globalAckPacketIdentifier id)
  else pret tt.

#[export] Instance aws_app : MqttApp aws := {| appCallback := eventCallback |}.

(** ** [mqtt_response_fifo.c] *)

Definition MQTT_RESPONSE_PERIOD_MS_DEFAULT : Z := 1000.
Definition MQTT_RESPONSE_PERIOD_MS_MIN : Z := 100.
Definition MQTT_RESPONSE_PERIOD_MS_MAX : Z := 3600000.

Definition mqtt_response_set_period_ms (period_ms : Z) : M unit :=
  let period_ms := if bool_decide (period_ms < MQTT_RESPONSE_PERIOD_MS_MIN)%Z then MQTT_RESPONSE_PERIOD_MS_MIN else period_ms in
  let period_ms := if bool_decide (period_ms > MQTT_RESPONSE_PERIOD_MS_MAX)%Z then MQTT_RESPONSE_PERIOD_MS_MAX else period_ms in
  modify (set_mqtt_period period_ms).

Definition mqtt_response_get_period_ms (d : Dev) : Z := mqtt_period d.

(** ** The session *)

(** The status, and [*pSessionPresent]. *)
Definition establishMqttSession (createCleanSession sessionPresent : bool) : PT aws (bool * bool) :=
  let! id := get g_mqtt_identity in
  let connectInfo := Build_connect_info createCleanSession MQTT_KEEP_ALIVE_INTERVAL_SECONDS
    (Some (client_id id)) (client_id_len id) (Some METRICS_STRING) (u16 (Z.of_nat (length METRICS_STRING))) None 0 in
  let! (mqttStatus, sessionPresent) := MQTT_Connect fuel connectInfo None CONNACK_RECV_TIMEOUT_MS sessionPresent in
  pret (if mqtt_ok mqttStatus then EXIT_SUCCESS else EXIT_FAILURE, sessionPresent).

Definition disconnectMqttSession : PT aws bool :=
  let! mqttStatus := MQTT_Disconnect fuel in
  pret (if mqtt_ok mqttStatus then EXIT_SUCCESS else EXIT_FAILURE).

(** The list both requests send. *)
Definition fill_subscriptions : PT aws unit :=
  upd (fun s => set_pGlobalSubscriptionList
    ((fun t => Build_subscribe_info MQTTQoS1 t.1 t.2) <$> take SUBSCRIBE_TOPICS_SIZE (subscribeTopics s)) s).

Definition subscribeToTopics : PT aws bool :=
  fill_subscriptions ;!
  let! id := MQTT_GetPacketId in
  upd (set_globalSubscribePacketIdentifier id) ;!
  let! l := get pGlobalSubscriptionList in
  let! mqttStatus := MQTT_Subscribe fuel (Some l) id in
  pret (if mqtt_ok mqttStatus then EXIT_SUCCESS else EXIT_FAILURE).

Definition unsubscribeFromTopics : PT aws bool :=
  fill_subscriptions ;!
  let! id := MQTT_GetPacketId in
  upd (set_globalUnsubscribePacketIdentifier id) ;!
  let! l := get pGlobalSubscriptionList in
  let! mqttStatus := MQTT_Unsubscribe fuel (Some l) id in
  pret (if mqtt_ok mqttStatus then EXIT_SUCCESS else EXIT_FAILURE).

Definition initializeMqtt : PT aws bool :=
  let! mqttStatus := MQTT_Init (zeros NETWORK_BUFFER_SIZE) in
  if negb (mqtt_ok mqttStatus) then pret EXIT_FAILURE else
  let! mqttStatus := MQTT_InitStatefulQoS (replicate OUTGOING_PUBLISH_RECORD_LEN null_record)
                                          (replicate INCOMING_PUBLISH_RECORD_LEN null_record) in
  pret (if mqtt_ok mqttStatus then EXIT_SUCCESS else EXIT_FAILURE).

Definition retry_params : BackoffAlgorithmContext_t :=
  BackoffAlgorithm_InitializeParams CONNECTION_RETRY_BACKOFF_BASE_MS CONNECTION_RETRY_MAX_BACKOFF_DELAY_MS CONNECTION_RETRY_MAX_ATTEMPTS.

Definition generateRandomNumber : PT aws Z := let! r := on_net rand in pret (u32 r).

(** The backoff of both retry loops: the status, and a pause when there is
    another attempt. *)
Definition next_attempt (params : BackoffAlgorithmContext_t) : PT aws (BackoffAlgorithmStatus_t * BackoffAlgorithmContext_t) :=
  let! r := generateRandomNumber in
  match BackoffAlgorithm_GetNextBackoff params r with
  | (BackoffAlgorithmSuccess, delay, params) =>
      on_net_ (Clock_SleepMs (default 0%Z delay)) ;! pret (BackoffAlgorithmSuccess, params)
  | (BackoffAlgorithmRetriesExhausted, _, params) => pret (BackoffAlgorithmRetriesExhausted, params)
  end.

(** What the TLS layer is given; the certificate and the key are read through
    the pointers. *)
Definition network_context (s : aws) : NetworkContext_t :=
  let id := g_mqtt_identity s in
  let d := aw_dev s in
  Build_network_context None (endpoint id) AWS_MQTT_PORT root_cert_auth_pem
    (if cert_pem_set id then Some (pr_cert_pem (prov d)) else None) (cert_pem_len id)
    (if key_pem_set id then Some (pr_key_pem (prov d)) else None) (key_pem_len id)
    (if bool_decide (AWS_MQTT_PORT = 443)%Z then Some [str "x-amzn-mqtt-ca"] else None) false.

(** [do { ... } while( ( returnStatus == EXIT_FAILURE ) && ( backoffAlgStatus == BackoffAlgorithmSuccess ) )] *)
Fixpoint connect_loop (n : nat) (params : BackoffAlgorithmContext_t) (clientSessionPresent brokerSessionPresent : bool)
    : PT aws (bool * bool) :=
  match n with
  | O => no_fuel
  | S n =>
      let! tlsStatus := on_tls xTlsConnect in
      let! (returnStatus, brokerSessionPresent) :=
        (if bool_decide (tlsStatus = TLS_TRANSPORT_SUCCESS) then
           let! (returnStatus, brokerSessionPresent) := establishMqttSession (negb clientSessionPresent) brokerSessionPresent in
           if returnStatus then pret (EXIT_SUCCESS, brokerSessionPresent)
           else on_tls xTlsDisconnect ;! pret (EXIT_FAILURE, brokerSessionPresent)
         else on_tls xTlsDisconnect ;! pret (EXIT_FAILURE, brokerSessionPresent)) in
      if returnStatus then pret (EXIT_SUCCESS, brokerSessionPresent) else
      let! (backoffAlgStatus, params) := next_attempt params in
      match backoffAlgStatus with
      | BackoffAlgorithmSuccess => connect_loop n params clientSessionPresent brokerSessionPresent
      | BackoffAlgorithmRetriesExhausted => pret (EXIT_FAILURE, brokerSessionPresent)
      end
  end.

(** The status, and [*pBrokerSessionPresent]. *)
Definition connectToServerWithBackoffRetries (clientSessionPresent brokerSessionPresent : bool) : PT aws (bool * bool) :=
  upd (fun s => set_aw_nc (network_context s) s) ;!
  connect_loop fuel retry_params clientSessionPresent brokerSessionPresent.

(** [eMqttStatus == MQTTSuccess || eMqttStatus == MQTTNeedMoreBytes] *)
Definition goes_on (status : MQTTStatus_t) : bool := mqtt_ok status || bool_decide (status = MQTTNeedMoreBytes).

Fixpoint wait_loop (n : nat) (usPacketIdentifier ulTimeoutTime ulCurrentTime : Z) (eMqttStatus : MQTTStatus_t)
    : PT aws MQTTStatus_t :=
  let! ack := get globalAckPacketIdentifier in
  if bool_decide (ack <> usPacketIdentifier) && bool_decide (ulCurrentTime < ulTimeoutTime)%Z && goes_on eMqttStatus then
    match n with
    | O => no_fuel
    | S n =>
        let! eMqttStatus := MQTT_ProcessLoop fuel in
        let! ulCurrentTime := run getTime in
        wait_loop n usPacketIdentifier ulTimeoutTime ulCurrentTime eMqttStatus
    end
  else pret eMqttStatus.

Definition waitForPacketAck (usPacketIdentifier ulTimeout : Z) : PT aws bool :=
  upd (set_globalAckPacketIdentifier 0%Z) ;!
  let! ulCurrentTime := run getTime in
  let! eMqttStatus := wait_loop fuel usPacketIdentifier (u32 (ulCurrentTime + ulTimeout)) ulCurrentTime MQTTSuccess in
  let! ack := get globalAckPacketIdentifier in
  pret (if negb (goes_on eMqttStatus) || bool_decide (ack <> usPacketIdentifier) then EXIT_FAILURE else EXIT_SUCCESS).

(** [( xTaskGetTickCount() - last ) >= pdMS_TO_TICKS( period )]; ticks are
    32 bits wide. *)
Definition period_over (last period_ms : Z) : PT aws bool :=
  let! now := on_net xTaskGetTickCount in
  pret (bool_decide (u32 (now - last) >= pdMS_TO_TICKS period_ms)%Z).

(** Publish the whole response FIFO as one message. *)
Definition drain_responses : PT aws unit :=
  let! connected := get is_connected_to_server in
  if negb connected then pret tt else
  let! last := get mqtt_last_send_tick in
  let! period := get (fun s => mqtt_response_get_period_ms (aw_dev s)) in
  let! due := period_over last period in
  if negb due then pret tt else
  let! fifo := get (fun s => mqtt_fifo (aw_dev s)) in
  if response_fifo_is_empty fifo then pret tt else
  let '(staging, fifo) := response_fifo_drain RESPONSE_FIFO_SIZE fifo in
  on_dev (modify (set_mqtt_fifo fifo)) ;!
  let! id := get g_mqtt_identity in
  publishToTopic (t_text (response_topic id)) (cstr staging) ;!
  let! now := on_net xTaskGetTickCount in
  upd (set_mqtt_last_send_tick now).

(** Publish the oldest pairing event. *)
Definition drain_pairing_event : PT aws unit :=
  let! connected := get is_connected_to_server in
  if negb connected then pret tt else
  let! last := get pairing_last_send_tick in
  let! due := period_over last 1000 in
  if negb due then pret tt else
  let! event := on_dev (pairing_events_peek PAIRING_EVENT_JSON_MAX) in
  match event with
  | None => pret tt
  | Some json =>
      let! id := get g_mqtt_identity in
      let! returnStatus := publishToTopic (t_text (pairing_topic id)) json in
      (if returnStatus then on_dev pairing_events_pop else pret tt) ;!
      let! now := on_net xTaskGetTickCount in
      upd (set_pairing_last_send_tick now)
  end.

Fixpoint process_loop (n : nat) (ulTimeoutTime ulCurrentTime : Z) (eMqttStatus : MQTTStatus_t) : PT aws MQTTStatus_t :=
  if bool_decide (ulCurrentTime < ulTimeoutTime)%Z && goes_on eMqttStatus then
    match n with
    | O => no_fuel
    | S n =>
        drain_responses ;!
        drain_pairing_event ;!
        let! eMqttStatus := MQTT_ProcessLoop fuel in
        let! ulCurrentTime := run getTime in
        process_loop n ulTimeoutTime ulCurrentTime eMqttStatus
    end
  else pret eMqttStatus.

Definition processLoopWithTimeout (ulTimeoutMs : Z) : PT aws MQTTStatus_t :=
  let! ulCurrentTime := run getTime in
  process_loop fuel (u32 (ulCurrentTime + ulTimeoutMs)) ulCurrentTime MQTTSuccess.

(** [do { ... } while( ( globalSubAckStatus == MQTTSubAckFailure ) && ( backoffAlgStatus == BackoffAlgorithmSuccess ) )] *)
Fixpoint resubscribe_loop (n : nat) (params : BackoffAlgorithmContext_t) : PT aws bool :=
  match n with
  | O => no_fuel
  | S n =>
      let! l := get pGlobalSubscriptionList in
      let! id := get globalSubscribePacketIdentifier in
      let! mqttStatus := MQTT_Subscribe fuel (Some l) id in
      if negb (mqtt_ok mqttStatus) then pret EXIT_FAILURE else
      let! returnStatus := waitForPacketAck id MQTT_PROCESS_LOOP_TIMEOUT_MS in
      if negb returnStatus then pret EXIT_FAILURE else
      let! subAck := get globalSubAckStatus in
      if bool_decide (subAck = MQTTSubAckFailure) then
        let! (backoffAlgStatus, params) := next_attempt params in
        match backoffAlgStatus with
        | BackoffAlgorithmSuccess => resubscribe_loop n params
        | BackoffAlgorithmRetriesExhausted => pret EXIT_FAILURE
        end
      else pret EXIT_SUCCESS
  end.

Definition handleResubscribe : PT aws bool := resubscribe_loop fuel retry_params.

(** ** The identity *)

(** [snprintf(dst, 160, "%s/%s", base, suffix)] and the length: of the text
    when it fitted, of what is stored otherwise. *)
Definition TOPIC_SIZE : nat := 160.

Definition set_topic (base suffix : bytes) : topic_t :=
  let text := base ++ [47]%Z ++ suffix in
  let dst := snprintf_s TOPIC_SIZE text in
  Build_topic dst (u16 (Z.of_nat (if bool_decide (0 < length text) && bool_decide (length text < TOPIC_SIZE)
                                  then length text else length dst))).

Definition topic_base (d : Dev) : bytes :=
  snprintf_s 128 (pr_source_terminal_id (prov d) ++ [47]%Z ++ cy_device_type ++ [47]%Z ++ pr_device_id (prov d)).

Definition identity_of (d : Dev) : mqtt_identity_t :=
  let id := take (48 - 1) (pr_device_id (prov d)) in
  let topic suffix := set_topic (topic_base d) (str suffix) in
  Build_identity id (u16 (Z.of_nat (length id))) (take (128 - 1) (pr_iot_endpoint (prov d)))
    true (Z.of_nat (length (pr_cert_pem (prov d))) + 1) true (Z.of_nat (length (pr_key_pem (prov d))) + 1)
    (topic "command") (topic "getInfoCommand") (topic "updateFwCommand") (topic "response")
    (topic "getInfoResponse") (topic "updateFwResponse") (topic "pairing").

Definition build_mqtt_identity : PT aws unit :=
  let! d := get aw_dev in
  if negb (provisioning_is_active d) then pret tt else
  let id := identity_of d in
  upd (set_g_mqtt_identity id) ;!
  upd (set_subscribeTopics ((fun t => (Some (t_text t), t_len t)) <$>
    [command_topic id; get_info_command_topic id; update_fw_command_topic id])).

(** ** The task *)

(** Where [aws_iot_task] is in its loops: before a connection, in the loop of
    connection attempts (with its two session flags), in the loop around
    [processLoopWithTimeout]. *)
Inductive phase :=
  | AtTop
  | Connecting (clientSessionPresent brokerSessionPresent : bool)
  | Running.

Definition end_session : PT aws phase := on_tls xTlsDisconnect ;! pret AtTop.

(** The globals and the locals at the head of the loop; the context's
    structure is zeroed by [MQTT_Init] too. *)
Definition reset_globals (s : aws) : aws :=
  set_is_connected_to_server false
  (set_globalAckPacketIdentifier 0%Z (set_globalSubscribePacketIdentifier 0%Z (set_globalUnsubscribePacketIdentifier 0%Z
  (set_outgoingPublishPackets (replicate MAX_OUTGOING_PUBLISHES null_packet)
  (set_pGlobalSubscriptionList (replicate SUBSCRIBE_TOPICS_SIZE null_subscription)
  (set_globalSubAckStatus 0%Z (set_aw_nc null_network s))))))).

Definition at_top : PT aws phase :=
  let! up := get (fun s => sn_connected (station (aw_dev s))) in
  on_net_ (sleep 2) ;!
  if negb up then pret AtTop else
  upd reset_globals ;!
  let! returnStatus := initializeMqtt in
  if returnStatus then pret (Connecting false false) else end_session.

(** After the loop of attempts. *)
Definition open_session (returnStatus : bool) : PT aws phase :=
  let! returnStatus := (if returnStatus then subscribeToTopics else pret returnStatus) in
  let! returnStatus :=
    (if returnStatus then
       let! id := get globalSubscribePacketIdentifier in waitForPacketAck id MQTT_PROCESS_LOOP_TIMEOUT_MS
     else pret returnStatus) in
  let! subAck := get globalSubAckStatus in
  let! returnStatus :=
    (if returnStatus && bool_decide (subAck = MQTTSubAckFailure) then handleResubscribe else pret returnStatus) in
  if returnStatus then pret Running else end_session.

Definition connecting (clientSessionPresent brokerSessionPresent : bool) : PT aws phase :=
  let! (returnStatus, brokerSessionPresent) := connectToServerWithBackoffRetries clientSessionPresent brokerSessionPresent in
  if negb returnStatus then
    on_net_ (sleep MQTT_SUBPUB_LOOP_DELAY_SECONDS) ;!
    pret (Connecting clientSessionPresent brokerSessionPresent)
  else
    let! returnStatus := (if brokerSessionPresent then handlePublishResend else cleanupOutgoingPublishes ;! pret EXIT_SUCCESS) in
    upd (set_is_connected_to_server true) ;!
    open_session returnStatus.

Definition running : PT aws phase :=
  let! status := processLoopWithTimeout MQTT_PROCESS_LOOP_TIMEOUT_MS in
  if bool_decide (status = MQTTRecvFailed) then
    on_net_ (sleep MQTT_SUBPUB_LOOP_DELAY_SECONDS) ;! end_session
  else pret Running.

(** One turn of the loop the task is in. *)
Definition aws_iot_task_step (p : phase) : PT aws phase :=
  match p with
  | AtTop => at_top
  | Connecting c b => connecting c b
  | Running => running
  end.

(** [n] turns, from the start of the task. *)
Fixpoint task_turns (n : nat) (p : phase) : PT aws phase :=
  match n with
  | O => pret p
  | S n => let! p := aws_iot_task_step p in task_turns n p
  end.

Definition aws_iot_task (n : nat) : PT aws phase := build_mqtt_identity ;! task_turns n AtTop.
End AwsIot.
