(* ===== verification/Boot.v ===== *)
(** * Boot: [cything_begin] ([cything.c])

    The order in which the modules come up, and which of the two modes the
    stored credentials choose. *)

From S2P Require Import Prelude Platform Radio State LocalSession Mdns PairedList PairingEvents DevicePassword.
From S2P Require Import Discovery ResponseFifo ClientList Flash Provisioning WifiTrial Station BlePairing.
From stdpp Require Import base list strings numbers.
From Stdlib Require Import ZArith Lia.

Local Open Scope cything_scope.

Section Boot.
Context {P : Platform} {C : Config} {R : Radio P}.

Definition STA_MODE : Z := 2.
Definition AP_MODE : Z := 1.
Definition PERCENT : Z := 37.

(** [sprintf(dst, text)] into [n] bytes: the text is the format, so this is
    only defined when it holds no conversion and fits. *)
Definition sprintf_as_format (n : nat) (text : bytes) : option bytes :=
  if bool_decide (PERCENT ∈ cstr text) || bool_decide (n <= length (cstr text)) then None
  else Some (cstr text).

Definition init_modules : M unit :=
  modify (set_tcp_fifo response_fifo_init) ;;
  modify (set_mqtt_fifo response_fifo_init) ;;
  local_session_init ;;
  emit (EvTask "tcp_response_send" 0) ;;
  provisioning_init ;;
  device_password_init ;;
  paired_list_init ;;
  discovery_mode_init ;;
  pairing_events_init.

(** Station mode or the soft-AP; [false]: [sprintf] went wrong. *)
Definition start_mode : M bool :=
  let* f := gets flash in
  if memcmp_eq (fs_wifi_mode f) (take 6 WIFI_STA_MODE) then
    match sprintf_as_format SSID_ARG_SIZE (fs_router_ssid f), sprintf_as_format SSID_ARG_SIZE (fs_router_password f) with
    | Some ssid, Some pass =>
        upd_sta (fun s => set_sn_ssid_arg (ssid ++ zeros (SSID_ARG_SIZE - length ssid)) s) ;;
        upd_sta (fun s => set_sn_pass_arg (pass ++ zeros (SSID_ARG_SIZE - length pass)) s) ;;
        when ble_scan_beacon_enabled ble_beacon_start ;;
        emit (EvTask "wifi_init_sta_task" 0) ;;
        upd_sta (set_sn_if_mode STA_MODE) ;;
        ret true
    | _, _ => ret false
    end
  else
    wifi_init_accesspoint_mode ;;
    upd_sta (set_sn_if_mode AP_MODE) ;;
    ble_pairing_start ;;
    emit (EvTask "udp_server" 0) ;;
    emit (EvTask "tcp_server" 0) ;;
    ret true.

Definition cything_begin : M bool :=
  init_modules ;;
  let* goes_on := reset_handler in
  if negb goes_on then ret false else
  flash_read_boot_partition ;;
  flash_read_wifi_router_info ;;
  start_mode.

End Boot.
