(* ===== verification/Application.v ===== *)
(** * Application: the two applications of the repository

    The firmware's own [main/app_main.c], which claims no command, and the
    example [on_off_pin], which drives one pin from either side. The GPIO driver
    is a parameter. *)

From S2P Require Import Prelude Platform Radio State ClientList TcpServer UdpScan AwsIot Boot.
From stdpp Require Import base list strings numbers.
From Stdlib Require Import ZArith.

Local Open Scope cything_scope.

(** [driver/gpio.h]. *)
Class Gpio {P : Platform} := {
  gpio_reset_pin : Z -> World -> World;
  gpio_set_direction : Z -> Z -> World -> World;
  gpio_set_level : Z -> Z -> World -> World;
}.

Definition GPIO_MODE_OUTPUT : Z := 2.

(** The hooks an application defines. *)
Record application {P : Platform} := Build_application {
  ap_is_public : bytes -> bool;
  ap_handle_line : bytes -> Z -> World -> (bool * list app_call) * World;
  ap_mqtt_handle : bytes -> Z -> World -> (bool * list app_call) * World;
}.

(** The firmware with an application's hooks linked in. *)
Definition with_application {P : Platform} (a : application) (C : Config) : Config := {|
  local_auth_enforce := @local_auth_enforce P C;
  is_remote_con_enable := @is_remote_con_enable P C;
  response_fifo_overwrite_oldest := @response_fifo_overwrite_oldest P C;
  cy_scan_command := @cy_scan_command P C;
  cy_router_ssid_prefix := @cy_router_ssid_prefix P C;
  cy_router_pass_prefix := @cy_router_pass_prefix P C;
  cy_device_name := @cy_device_name P C;
  cy_device_type := @cy_device_type P C;
  cy_firmware_version := @cy_firmware_version P C;
  cy_hardware_version := @cy_hardware_version P C;
  cy_initial_password := @cy_initial_password P C;
  cy_ap_ssid_prefix := @cy_ap_ssid_prefix P C;
  cy_scan_response := @cy_scan_response P C;
  cy_ble_base_uuid128 := @cy_ble_base_uuid128 P C;
  cy_tcp_port := @cy_tcp_port P C;
  cy_udp_port := @cy_udp_port P C;
  ble_scan_beacon_enabled := @ble_scan_beacon_enabled P C;
  cy_mdns_channel_tag := @cy_mdns_channel_tag P C;
  claim_cert_pem := @claim_cert_pem P C;
  claim_key_pem := @claim_key_pem P C;
  app_command_is_public := ap_is_public a;
  app_command_handle_line := ap_handle_line a;
|}.

Definition with_aws_application {P : Platform} (a : application) (A : AwsConfig) : AwsConfig := {|
  app_mqtt_command_handle := ap_mqtt_handle a;
  METRICS_STRING := @METRICS_STRING P A;
  root_cert_auth_pem := @root_cert_auth_pem P A;
|}.

(** ** [main/app_main.c] *)

Module AppMain.
Section AppMain.
Context {P : Platform}.

Definition app_command_handle_line (line : bytes) (sock : Z) (w : World) : (bool * list app_call) * World := ((false, []), w).
Definition app_command_is_public (line : bytes) : bool := false.
Definition app_mqtt_command_handle (command : bytes) (command_length : Z) (w : World) : (bool * list app_call) * World :=
  ((false, []), w).

Definition hooks : application :=
  Build_application P app_command_is_public app_command_handle_line app_mqtt_command_handle.

Definition app_main {C : Config} {R : Radio P} : M bool := cything_begin.
End AppMain.
End AppMain.

(** ** [examples/on_off_pin/main/on_off_pin.c] *)

Module OnOffPin.
Section OnOffPin.
Context {P : Platform} {G : Gpio}.

Definition LED_PIN : Z := 2.

(** [while (len > 0 && (cmd[len - 1] == '\n' || cmd[len - 1] == '\r')) len--] *)
Fixpoint trim_eol (cmd : bytes) (len : nat) : nat :=
  match len with
  | O => O
  | S n =>
      match cmd !! n with
      | Some c => if bool_decide (c = NL) || bool_decide (c = CR) then trim_eol cmd n else len
      | None => len
      end
  end.

Definition handle_on_off (cmd : bytes) (len : nat) (w : World) : (bool * list app_call) * World :=
  let len := trim_eol cmd len in
  if bool_decide (len = 6) && memcmp_eq cmd (str "on_cmd") then
    ((true, [SendData SEND_TO_ALL (str "on_res" ++ [NL])]), gpio_set_level LED_PIN 1 w)
  else if bool_decide (len = 7) && memcmp_eq cmd (str "off_cmd") then
    ((true, [SendData SEND_TO_ALL (str "off_res" ++ [NL])]), gpio_set_level LED_PIN 0 w)
  else ((false, []), w).

Definition app_command_handle_line (line : bytes) (sock : Z) (w : World) : (bool * list app_call) * World :=
  handle_on_off line (length line) w.

Definition app_command_is_public (line : bytes) : bool := false.

Definition app_mqtt_command_handle (command : bytes) (command_length : Z) (w : World) : (bool * list app_call) * World :=
  handle_on_off command (Z.to_nat command_length) w.

Definition hooks : application :=
  Build_application P app_command_is_public app_command_handle_line app_mqtt_command_handle.

Definition app_main {C : Config} {R : Radio P} : M bool :=
  io (fun w => (tt, gpio_reset_pin LED_PIN w)) ;;
  io (fun w => (tt, gpio_set_direction LED_PIN GPIO_MODE_OUTPUT w)) ;;
  cything_begin.
End OnOffPin.
End OnOffPin.
