(* ===== verification/DeviceConfig.v ===== *)
(** * DeviceConfig: the configuration the library ships with

    The values of [device_config/cy_config.c], [device_config/device_config.h]
    and the switches of [aws/aws_config.h], [common/response_fifo.h] and
    [ble/ble_config.h], as the instance of [Config] a build without overrides
    has; the application's hooks are whatever application is linked. *)

From S2P Require Import Prelude Platform Radio State ClientList TcpServer Application.
From stdpp Require Import base list strings numbers.
From Stdlib Require Import ZArith.

Local Open Scope cything_scope.

Definition HARDWARE_VERSION : bytes := str "1.0".
Definition FIRMWARE_VERSION : bytes := str "1.3.0".
Definition SET_ROUTER_SSID_PREFIX : bytes := str "ssid:".
Definition SET_ROUTER_PASS_PREFIX : bytes := str "pass:".
Definition TCP_PORT : Z := 1234.
Definition UDP_PORT : Z := 1234.
Definition MDNS_CHANNEL_TAG : bytes := [].
Definition SCAN_COMMAND : bytes := str "GET_INFO".
Definition AWS_SCAN_RESPONSE : bytes := str "ACK".
Definition DEVICE_NAME : bytes := str "dev1".
Definition DEVICE_TYPE : bytes := str "devtype1".
Definition ESP_AP_WIFI_SSID_PREFIX : bytes := str "Cy_WiFi_".
Definition LOCAL_AUTH_ENFORCE : bool := true.
Definition IS_REMOTE_CON_ENABLE : bool := true.
(** [RESPONSE_FIFO_ON_FULL == RESPONSE_FIFO_OVERWRITE_OLDEST]: a line that does
    not fit is dropped. *)
Definition RESPONSE_FIFO_OVERWRITES : bool := false.
Definition BLE_SCAN_BEACON_ENABLED : bool := true.

(** [BLE_PAIRING_UUID128_BYTES(id)] *)
Definition BLE_PAIRING_UUID128_BYTES (id : Z) : bytes :=
  [24; 228; 18; 58; 25; 100; 163; 161; 120; 76; 2; 220; Z.land id 255; Z.land (Z.shiftr id 8) 255; 72; 106]%Z.

Definition default_config {P : Platform} (a : application) : Config := {|
  local_auth_enforce := LOCAL_AUTH_ENFORCE;
  is_remote_con_enable := IS_REMOTE_CON_ENABLE;
  response_fifo_overwrite_oldest := RESPONSE_FIFO_OVERWRITES;
  cy_scan_command := SCAN_COMMAND;
  cy_router_ssid_prefix := SET_ROUTER_SSID_PREFIX;
  cy_router_pass_prefix := SET_ROUTER_PASS_PREFIX;
  cy_device_name := DEVICE_NAME;
  cy_device_type := DEVICE_TYPE;
  cy_firmware_version := FIRMWARE_VERSION;
  cy_hardware_version := HARDWARE_VERSION;
  cy_initial_password := str "12345678";
  cy_ap_ssid_prefix := ESP_AP_WIFI_SSID_PREFIX;
  cy_scan_response := AWS_SCAN_RESPONSE;
  cy_ble_base_uuid128 := BLE_PAIRING_UUID128_BYTES 0;
  cy_tcp_port := TCP_PORT;
  cy_udp_port := UDP_PORT;
  ble_scan_beacon_enabled := BLE_SCAN_BEACON_ENABLED;
  cy_mdns_channel_tag := MDNS_CHANNEL_TAG;
  claim_cert_pem := [];
  claim_key_pem := [];
  app_command_is_public := ap_is_public a;
  app_command_handle_line := ap_handle_line a;
|}.
