(* ===== verification/Invariant.v ===== *)
(** * Invariant: what every line keeps true of the paired list and the sessions

    The device invariant ties the session pool to the paired list: every
    session that stands for an account points at that account's entry with
    that entry's role. Most of the firmware touches neither; such operations
    are [calm]. The handlers that do are followed slot by slot with Hoare
    triples whose assertions speak about one session. *)

From S2P Require Import Prelude Platform State LocalSession Mdns EncFrame PairedList PairingEvents.
From S2P Require Import DevicePassword Discovery AccessPolicy PakeHandler LocalAuth OwnerCommands.
From S2P Require Import ResponseFifo ClientList Flash WifiPairing Provisioning TcpServer.
From stdpp Require Import base list strings numbers.
From Stdlib Require Import ZArith Lia.

Local Open Scope cything_scope.

Section Invariant.
Context {P : Platform} {C : Config} {RD : Reading}.

(** ** The invariant *)

Definition roles (l : paired_blob_t) : list Z := pe_role <$> active l.

(** Either nobody has paired yet, or there is an owner with an entry. *)
Definition owned (l : paired_blob_t) : Prop :=
  owner_first (roles l) /\
  ((pb_count l = 0 /\ unowned l = true) \/
   (unowned l = false /\ exists e, e ∈ active l /\ pe_role e = PAIRED_ROLE_OWNER)).

Record dev_inv (d : Dev) : Prop := {
  inv_list : list_ok (plist d);
  inv_owned : owned (plist d);
  inv_pool : pool_ok (roles (plist d)) (pool d);
}.

(** ** Calm operations *)

Record core := Core {
  c_state : local_session_state_t;
  c_role : local_session_role_t;
  c_index : Z;
  c_srp : option srp_handle;
  c_key : bytes;
}.

Definition ls_core (s : local_session_t) : core :=
  Core (ls_state s) (ls_role s) (ls_paired_index s) (ls_srp s) (ls_key s).

(** A slot may change its counters, nonces and receive state, no more; a free
    slot does not change. *)
Definition mild (s s' : local_session_t) : Prop :=
  (ls_sock s = (-1)%Z -> s' = s) /\ ls_sock s' = ls_sock s /\ ls_core s' = ls_core s.

Definition same_core (d d' : Dev) : Prop :=
  plist d' = plist d /\ Forall2 mild (pool d) (pool d').

Definition calm {A} (m : M A) : Prop := forall d, same_core d (exec m d).

Lemma mild_refl s : mild s s.
Proof. done. Qed.
Lemma mild_trans s1 s2 s3 : mild s1 s2 -> mild s2 s3 -> mild s1 s3.
Proof.
  intros (A1 & A2 & A3) (B1 & B2 & B3). split_and!; [|congruence..].
  intros H. rewrite B1 by congruence. by apply A1.
Qed.

Lemma same_core_refl d : same_core d d.
Proof. split; [done|]. induction (pool d); constructor; [apply mild_refl|done]. Qed.
Lemma same_core_trans d1 d2 d3 : same_core d1 d2 -> same_core d2 d3 -> same_core d1 d3.
Proof.
  intros [A1 A2] [B1 B2]. split; [congruence|].
  revert B2. generalize (pool d3). induction A2 as [|x y l k Hxy _ IH]; intros l3 HB.
  - by inversion HB.
  - inversion HB; subst. constructor; [by eapply mild_trans|by apply IH].
Qed.

(** Anything that leaves both untouched is calm. *)
Lemma calm_frame {A} (m : M A) :
  (forall d, plist (exec m d) = plist d /\ pool (exec m d) = pool d) -> calm m.
Proof.
  intros H d. destruct (H d) as [H1 H2]. split; [done|]. rewrite H2. apply same_core_refl.
Qed.

Lemma calm_ret {A} (a : A) : calm (ret a).
Proof. by apply calm_frame. Qed.
Lemma calm_gets {A} (f : Dev -> A) : calm (gets f).
Proof. by apply calm_frame. Qed.
Lemma calm_ask {A} (f : World -> A) : calm (ask f).
Proof. by apply calm_frame. Qed.
Lemma calm_io {A} (f : World -> A * World) : calm (io f).
Proof. apply calm_frame. intros d. unfold io, exec. by destruct (f (world d)). Qed.
Lemma calm_io_ f : calm (io_ f).
Proof. by apply calm_frame. Qed.
Lemma calm_emit e : calm (emit e).
Proof. by apply calm_frame. Qed.
Lemma calm_send sock data : calm (send sock data).
Proof. apply calm_emit. Qed.
Lemma calm_modify f : (forall d, plist (f d) = plist d /\ pool (f d) = pool d) -> calm (modify f).
Proof. intros H. by apply calm_frame. Qed.
Lemma calm_bind {A B} (m : M A) (k : A -> M B) : calm m -> (forall a, calm (k a)) -> calm (bind m k).
Proof. intros Hm Hk d. rewrite exec_bind. eapply same_core_trans; [apply Hm|apply Hk]. Qed.
Lemma calm_when b m : calm m -> calm (when b m).
Proof. destruct b; [done|]. intros _. apply calm_ret. Qed.
Lemma calm_for_each {A} (l : list A) f : (forall a, calm (f a)) -> calm (for_each l f).
Proof.
  intros Hf. induction l as [|a l IH]; [apply calm_ret|]. intros d.
  change (exec (for_each (a :: l) f) d) with (exec (for_each l f) (exec (f a) d)).
  eapply same_core_trans; [apply Hf|apply IH].
Qed.

(** Break a definition down to the rules above. *)
Ltac calm_step :=
  lazymatch goal with
  | |- calm (bind _ _) => apply calm_bind; [|intros ?]
  | |- calm (ret _) => apply calm_ret
  | |- calm (gets _) => apply calm_gets
  | |- calm (ask _) => apply calm_ask
  | |- calm (io _) => apply calm_io
  | |- calm (io_ _) => apply calm_io_
  | |- calm (emit _) => apply calm_emit
  | |- calm (send _ _) => apply calm_send
  | |- calm (when _ _) => apply calm_when
  | |- calm (for_each _ _) => apply calm_for_each; intros ?
  | |- calm (modify _) => apply calm_modify; intros ?; done
  | |- calm (match ?x with _ => _ end) => destruct x
  | |- calm (let '(_, _) := ?x in _) => destruct x
  | |- forall _, _ => intros ?
  end.
Ltac calm_solve := repeat first [ calm_step | solve [eauto with calm] ].

Create HintDb calm.

Lemma calm_find sock : calm (local_session_find sock).
Proof. unfold local_session_find. calm_solve. Qed.
#[local] Hint Resolve calm_find : calm.

(** Updating the mild fields of one live slot. *)
Lemma calm_slot d si s f :
  pool d !! si = Some s -> ls_sock s <> (-1)%Z -> mild s (f s) ->
  same_core d (set_pool (alter f si (pool d)) d).
Proof.
  intros Hs Hk Hm. split; [done|]. cbn. apply Forall2_lookup. intros j.
  destruct (decide (si = j)) as [<-|].
  - rewrite list_lookup_alter_eq, Hs. cbn. by constructor.
  - rewrite list_lookup_alter_ne by done. destruct (pool d !! j); constructor. apply mild_refl.
Qed.

Lemma slot_for_live sock d si :
  slot_for sock d = Some si -> exists s, pool d !! si = Some s /\ ls_sock s = sock /\ ls_sock s <> (-1)%Z.
Proof. intros H. destruct (slot_for_Some _ _ _ H) as (s & ? & _ & ? & ?). exists s. split_and!; [done..|lia]. Qed.

Lemma calm_enc_frame_send sock payload : calm (enc_frame_send sock payload).
Proof.
  intros d. destruct (slot_for sock d) as [si|] eqn:Es.
  - destruct (session_keyed (sess si d)) eqn:Ek.
    + destruct (slot_for_live _ _ _ Es) as (s & Hs & _ & Hl).
      assert (same_core d (set_pool (alter bump_tx si (pool d)) d)) as Hb
        by (by eapply calm_slot).
      destruct (send_keyed sock payload d si Es Ek) as [[_ ->]|[_ [->|(fr & _ & ->)]]];
        [apply same_core_refl|done|].
      eapply same_core_trans; [exact Hb|apply calm_send].
    + unfold exec. rewrite send_unkeyed; [apply calm_send|]. intros. congruence.
  - unfold exec. rewrite send_unkeyed; [apply calm_send|]. intros. congruence.
Qed.
#[local] Hint Resolve calm_enc_frame_send : calm.

Lemma calm_unwrap line sock cap : calm (enc_frame_unwrap line sock cap).
Proof.
  intros d. unfold exec.
  destruct (unwrap_cases line sock cap d) as [[_ ->]|[[_ ->]|(_ & si & pl & ctr & Es & _ & _ & ->)]]; cbn [snd].
  - destruct (slot_for sock d) as [si|] eqn:Es; [|apply same_core_refl].
    destruct (slot_for_live _ _ _ Es) as (s & Hs & _ & Hl). by eapply calm_slot.
  - apply calm_send.
  - destruct (slot_for_live _ _ _ Es) as (s & Hs & _ & Hl). by eapply calm_slot.
Qed.
#[local] Hint Resolve calm_unwrap : calm.

Lemma calm_security_send_line sock text : calm (security_send_line sock text).
Proof. unfold security_send_line. calm_solve. Qed.
#[local] Hint Resolve calm_security_send_line : calm.
Lemma calm_send_err sock code : calm (send_err sock code).
Proof. unfold send_err. calm_solve. Qed.
#[local] Hint Resolve calm_send_err : calm.

Lemma calm_refresh : calm mdns_discovery_refresh.
Proof. unfold mdns_discovery_refresh. calm_solve. Qed.
#[local] Hint Resolve calm_refresh : calm.

Lemma calm_event_store : calm PairingEvents.nvs_store.
Proof. unfold PairingEvents.nvs_store. calm_solve. Qed.
Lemma calm_event_push e u r : calm (pairing_events_push e u r).
Proof. unfold pairing_events_push. calm_solve. apply calm_event_store. Qed.
#[local] Hint Resolve calm_event_push : calm.

Lemma calm_pw_clear : calm device_password_clear.
Proof. unfold device_password_clear, DevicePassword.nvs_store_pair, upd_pw. calm_solve. Qed.
Lemma calm_pw_set p : calm (device_password_set p).
Proof. unfold device_password_set, DevicePassword.nvs_store_pair, upd_pw. calm_solve. Qed.
Lemma calm_pw_get : calm device_password_get.
Proof. unfold device_password_get, derive_initial_locked, upd_pw. calm_solve. Qed.
Lemma calm_pw_lock ip : calm (device_password_lock_remaining_s ip).
Proof. unfold device_password_lock_remaining_s. calm_solve. Qed.
Lemma calm_pw_fail ip : calm (device_password_note_failure ip).
Proof. unfold device_password_note_failure, nvs_store_lockout, upd_pw. calm_solve. Qed.
Lemma calm_pw_success ip : calm (device_password_note_success ip).
Proof. unfold device_password_note_success, nvs_store_lockout, upd_pw. calm_solve. Qed.
#[local] Hint Resolve calm_pw_clear calm_pw_set calm_pw_get calm_pw_lock calm_pw_fail calm_pw_success : calm.

Lemma calm_stop_adv : calm stop_advertising_locked.
Proof. unfold stop_advertising_locked, upd_beacon. calm_solve. Qed.
Lemma calm_start_adv : calm start_advertising_locked.
Proof. unfold start_advertising_locked, upd_beacon. calm_solve; apply calm_stop_adv. Qed.
Lemma calm_apply_mode : calm ble_beacon_apply_discovery_mode.
Proof. unfold ble_beacon_apply_discovery_mode. calm_solve. apply calm_start_adv. Qed.
Lemma calm_mode_set m : calm (discovery_mode_set m).
Proof. unfold discovery_mode_set. calm_solve. Qed.
#[local] Hint Resolve calm_apply_mode calm_mode_set : calm.

Lemma calm_push_tcp_line text : calm (push_tcp_line text).
Proof. unfold push_tcp_line. calm_solve. Qed.
#[local] Hint Resolve calm_push_tcp_line : calm.
Lemma calm_send_raw sock text : calm (send_raw_to_client sock text).
Proof. unfold send_raw_to_client. calm_solve. Qed.
Lemma calm_send_data sock data : calm (send_data_to_clients sock data).
Proof. unfold send_data_to_clients, update_response_id. calm_solve. Qed.
#[local] Hint Resolve calm_send_raw calm_send_data : calm.

Lemma calm_ota_write off data : calm (ota_write off data).
Proof. unfold ota_write. calm_solve. Qed.
Lemma calm_ota_erase off n : calm (ota_erase off n).
Proof. unfold ota_erase. calm_solve. Qed.
Lemma calm_ota_read off n : calm (ota_read off n).
Proof. unfold ota_read. calm_solve. Qed.
#[local] Hint Resolve calm_ota_write calm_ota_erase calm_ota_read : calm.

Lemma calm_pairing_commit ssid pass : calm (pairing_commit ssid pass).
Proof.
  unfold pairing_commit, flash_store_wifi_router_info, flash_read_wifi_router_info, reboot_after_ms,
    ota_set_new_erase_partition, ota_set_new_write_partition, ota_set_new_read_partition, upd_flash.
  calm_solve.
Qed.
#[local] Hint Resolve calm_pairing_commit : calm.
Lemma calm_pairing line sock : calm (pairing_handle_line line sock).
Proof. unfold pairing_handle_line, ack, pairing_touch, pairing_done, upd_wpair. calm_solve. Qed.
#[local] Hint Resolve calm_pairing : calm.

Lemma calm_prov_nvs_get k n : calm (nvs_get_string k n).
Proof. unfold nvs_get_string. calm_solve. Qed.
Lemma calm_prov_nvs_set k v : calm (nvs_set_string k v).
Proof. unfold nvs_set_string. calm_solve. Qed.
Lemma calm_prov_send sock text : calm (send_line sock text).
Proof. unfold send_line. calm_solve. Qed.
Lemma calm_prov_reset : calm reset_handshake.
Proof. unfold reset_handshake, upd_prov. calm_solve. Qed.
#[local] Hint Resolve calm_prov_nvs_get calm_prov_nvs_set calm_prov_send calm_prov_reset : calm.
Lemma calm_provisioning line sock : calm (provisioning_handle_tcp_line line sock).
Proof.
  unfold provisioning_handle_tcp_line, handle_reqid, handle_prov, handle_csrreq, build_csr_base64,
    load_or_generate_keypair, handle_devid, handle_cert, handle_pfin, persist_identity,
    reboot_after_ms, upd_prov.
  calm_solve.
Qed.
#[local] Hint Resolve calm_provisioning : calm.

Lemma calm_ota line sock : calm (ota_handle_line line sock).
Proof. unfold ota_handle_line. calm_solve. Qed.
Lemma calm_app_call c : calm (run_app_call c).
Proof. unfold run_app_call. calm_solve. Qed.
#[local] Hint Resolve calm_app_call : calm.
Lemma calm_app line sock : calm (app_command line sock).
Proof. unfold app_command. calm_solve. Qed.
Lemma calm_policy line sock : calm (access_policy_allow line sock).
Proof. unfold access_policy_allow, access_policy_sock_authenticated, send_plain. calm_solve. Qed.
#[local] Hint Resolve calm_ota calm_app_call calm_app calm_policy : calm.

Lemma calm_send_task : calm tcp_response_send_step.
Proof.
  unfold tcp_response_send_step. apply calm_bind.
  - apply calm_frame. intros d. unfold exec. by destruct (response_fifo_drain _ _).
  - intros data. unfold route_line, send_one, access_policy_sock_authenticated. calm_solve.
Qed.

(** A calm operation keeps the invariant. *)
Lemma handshake_ok_core rs s s' : ls_core s' = ls_core s -> handshake_ok rs s -> handshake_ok rs s'.
Proof.
  intros [= E1 E2 E3 E4 E5]. unfold handshake_ok, bound, unbound. by rewrite E1, E2, E3, E4, E5.
Qed.

Lemma session_ok_mild rs s s' : mild s s' -> session_ok rs s -> session_ok rs s'.
Proof.
  intros (M1 & M2 & M3) (S1 & S2 & S3). split_and!.
  - intros H. rewrite M1 by congruence. apply S1. congruence.
  - rewrite M2. done.
  - by eapply handshake_ok_core.
Qed.

Lemma pool_ok_mild rs l l' : Forall2 mild l l' -> pool_ok rs l -> pool_ok rs l'.
Proof.
  intros HF (Hl & Ho & Hu). split_and!.
  - by rewrite <- (Forall2_length HF).
  - apply Forall_lookup. intros i s' Hi.
    destruct (Forall2_lookup_r _ _ _ _ _ HF Hi) as (s & Hs & Hm).
    eapply session_ok_mild; [exact Hm|]. by eapply Forall_lookup_1.
  - intros i j si sj Hi Hj E Hp.
    destruct (Forall2_lookup_r _ _ _ _ _ HF Hi) as (s1 & H1 & (_ & M1 & _)).
    destruct (Forall2_lookup_r _ _ _ _ _ HF Hj) as (s2 & H2 & (_ & M2 & _)).
    eapply Hu; eauto; congruence || lia.
Qed.

Lemma same_core_inv d d' : same_core d d' -> dev_inv d -> dev_inv d'.
Proof.
  intros [E HF] [H1 H2 H3]. split; rewrite E; [done..|]. by eapply pool_ok_mild.
Qed.

Lemma calm_inv {A} (m : M A) d : calm m -> dev_inv d -> dev_inv (exec m d).
Proof. intros Hm. apply same_core_inv, Hm. Qed.

(** ** Following one session

    [at_slot si Q d]: everything holds except that of slot [si] only [Q] is
    known. [Q] sees the roles of the paired list and the session's core. *)

Definition slot_pred := list Z -> core -> Prop.

Definition at_slot (si : nat) (Q : slot_pred) (d : Dev) : Prop :=
  list_ok (plist d) /\ owned (plist d) /\ length (pool d) = LOCAL_SESSION_MAX /\
  (forall j s, pool d !! j = Some s -> j <> si -> session_ok (roles (plist d)) s) /\
  (forall i j s t, pool d !! i = Some s -> pool d !! j = Some t ->
     ls_sock s = ls_sock t -> (0 <= ls_sock s)%Z -> i = j) /\
  exists s, pool d !! si = Some s /\ (0 <= ls_sock s)%Z /\ Q (roles (plist d)) (ls_core s).

Definition core_ok : slot_pred := fun rs c =>
  match c_state c with
  | LS_NEW => c_srp c = None /\ c_index c = (-1)%Z /\ c_role c = LS_ROLE_NONE /\ c_key c = zeros 32
  | LS_PAKE_WAIT_PROOF => c_srp c <> None /\ c_index c = (-1)%Z /\ c_role c = LS_ROLE_NONE
  | LS_PAKE_OK =>
      c_srp c = None /\
      (c_index c = (-1)%Z /\ c_role c = LS_ROLE_NONE \/
       points rs (c_index c) /\ c_role c = role_at rs (Z.to_nat (c_index c)))
  | LS_AUTH_WAIT_PROOF => c_srp c = None /\ c_role c = LS_ROLE_NONE /\ points rs (c_index c)
  | LS_AUTH_OK => c_srp c = None /\ points rs (c_index c) /\ c_role c = role_at rs (Z.to_nat (c_index c))
  end.

Lemma core_ok_iff rs s : core_ok rs (ls_core s) <-> handshake_ok rs s.
Proof. unfold core_ok, handshake_ok, bound, unbound, ls_core. cbn. destruct (ls_state s); tauto. Qed.

Lemma at_slot_enter d sock si :
  dev_inv d -> slot_for sock d = Some si -> at_slot si core_ok d.
Proof.
  intros [H1 H2 (Hl & Ho & Hu)] Hs. destruct (slot_for_Some _ _ _ Hs) as (s & Hi & _ & Hk & Hp).
  split_and!; try done.
  - intros j t Hj _. by eapply Forall_lookup_1.
  - exists s. split_and!; [done|lia|]. apply core_ok_iff.
    destruct (Forall_lookup_1 _ _ _ _ Ho Hi) as (_ & _ & ?). done.
Qed.

Lemma at_slot_exit d si : at_slot si core_ok d -> dev_inv d.
Proof.
  intros (H1 & H2 & Hl & Ho & Hu & s & Hi & Hp & Hc). split; [done..|].
  split_and!; [done| |done]. apply Forall_lookup. intros j t Hj.
  destruct (decide (j = si)) as [->|]; [|by eapply Ho].
  assert (t = s) as -> by congruence. split_and!; [lia|lia|]. by apply core_ok_iff.
Qed.

Definition triple {A} (Pre : Dev -> Prop) (m : M A) (Post : A -> Dev -> Prop) : Prop :=
  forall d, Pre d -> Post (eval m d) (exec m d).

Lemma triple_bind {A B} (Pre : Dev -> Prop) (m : M A) (Mid : A -> Dev -> Prop) (k : A -> M B) Post :
  triple Pre m Mid -> (forall a, triple (Mid a) (k a) Post) -> triple Pre (bind m k) Post.
Proof. intros Hm Hk d Hd. rewrite eval_bind, exec_bind. apply Hk, Hm, Hd. Qed.

Lemma triple_pre {A} (Pre Pre' : Dev -> Prop) (m : M A) Post :
  triple Pre m Post -> (forall d, Pre' d -> Pre d) -> triple Pre' m Post.
Proof. intros H Hp d Hd. by apply H, Hp. Qed.

Lemma triple_post {A} (Pre : Dev -> Prop) (m : M A) (Post Post' : A -> Dev -> Prop) :
  triple Pre m Post -> (forall a d, Post a d -> Post' a d) -> triple Pre m Post'.
Proof. intros H Hp d Hd. by apply Hp, H. Qed.

Lemma at_slot_mono si (Q Q' : slot_pred) d :
  at_slot si Q d -> (forall rs c, Q rs c -> Q' rs c) -> at_slot si Q' d.
Proof.
  intros (? & ? & ? & ? & ? & s & ? & ? & ?) H'. split_and!; try done. exists s. auto.
Qed.

(** A calm step keeps every assertion about the slot. *)
Lemma triple_calm {A} si Q (m : M A) : calm m -> triple (at_slot si Q) m (fun _ => at_slot si Q).
Proof.
  intros Hm d (H1 & H2 & Hl & Ho & Hu & s & Hi & Hp & Hq). destruct (Hm d) as [E HF].
  split_and!; rewrite ?E; try done.
  - by rewrite <- (Forall2_length HF).
  - intros j t Hj Hne. destruct (Forall2_lookup_r _ _ _ _ _ HF Hj) as (s0 & Hs0 & Hmm).
    eapply session_ok_mild; [exact Hmm|]. by eapply Ho.
  - intros i j s1 s2 H1' H2' Es Hpos.
    destruct (Forall2_lookup_r _ _ _ _ _ HF H1') as (a1 & A1 & (_ & M1 & _)).
    destruct (Forall2_lookup_r _ _ _ _ _ HF H2') as (a2 & A2 & (_ & M2 & _)).
    eapply Hu; eauto; congruence || lia.
  - destruct (Forall2_lookup_l _ _ _ _ _ HF Hi) as (s' & Hs' & (_ & M2 & M3)).
    exists s'. split_and!; [done|lia|congruence].
Qed.

(** A change of the slot itself. *)
Lemma triple_slot si m f (Q Q' : slot_pred) :
  slot_op m si f -> (forall s, ls_sock (f s) = ls_sock s) ->
  (forall rs s, Q rs (ls_core s) -> Q' rs (ls_core (f s))) ->
  triple (at_slot si Q) m (fun _ => at_slot si Q').
Proof.
  intros Hop Hk HQ d (H1 & H2 & Hl & Ho & Hu & s & Hi & Hp & Hq).
  destruct (Hop d) as [Ep Ef].
  assert (plist (exec m d) = plist d) as El by (rewrite Ef; done).
  assert (forall j t, alter f si (pool d) !! j = Some t ->
            exists t0, pool d !! j = Some t0 /\ ls_sock t = ls_sock t0 /\ (j <> si -> t = t0)) as Hb.
  { intros j t Hj. destruct (decide (si = j)) as [<-|].
    - rewrite list_lookup_alter_eq, Hi in Hj. injection Hj as <-. exists s. by rewrite Hk.
    - rewrite list_lookup_alter_ne in Hj by done. exists t. done. }
  split_and!; rewrite ?El, ?Ep; try done.
  - by rewrite length_alter.
  - intros j t Hj Hne. destruct (Hb _ _ Hj) as (t0 & Ht0 & _ & E). rewrite E by done. by eapply Ho.
  - intros i j s1 s2 H1' H2' Es Hpos.
    destruct (Hb _ _ H1') as (a1 & A1 & E1 & _), (Hb _ _ H2') as (a2 & A2 & E2 & _).
    eapply Hu; eauto; congruence || lia.
  - exists (f s). rewrite list_lookup_alter_eq, Hi. split_and!; [done|by rewrite Hk|by apply HQ].
Qed.

(** Reading the slot. *)
Lemma triple_read si Q :
  triple (at_slot si Q) (gets (sess si))
    (fun s d => at_slot si (fun rs c => c = ls_core s /\ Q rs c) d).
Proof.
  intros d (H1 & H2 & Hl & Ho & Hu & s & Hi & Hp & Hq). rewrite eval_gets, exec_gets.
  rewrite (sess_lookup _ _ _ Hi). split_and!; try done. exists s. done.
Qed.

Lemma triple_end {A} si (Q : slot_pred) (m : M A) :
  calm m -> (forall rs c, Q rs c -> core_ok rs c) ->
  triple (at_slot si Q) m (fun _ => at_slot si core_ok).
Proof.
  intros Hm HQ. eapply triple_post; [by apply triple_calm|]. intros ? d Hd.
  eapply at_slot_mono; [exact Hd|exact HQ].
Qed.

Lemma triple_upd si f (Q Q' : slot_pred) :
  (forall s, ls_sock (f s) = ls_sock s) ->
  (forall rs s, Q rs (ls_core s) -> Q' rs (ls_core (f s))) ->
  triple (at_slot si Q) (upd_sess si f) (fun _ => at_slot si Q').
Proof. apply triple_slot, slot_op_upd. Qed.

(** ** The handshake handlers *)

Definition is_core (c0 : core) : slot_pred := fun _ c => c = c0.
Definition fresh_core : core := Core LS_NEW LS_ROLE_NONE (-1) None (zeros 32).

Lemma triple_restart si Q :
  triple (at_slot si Q) (local_session_reset_handshake si) (fun _ => at_slot si (is_core fresh_core)).
Proof. by eapply triple_slot; [apply reset_handshake_slot|..]. Qed.

Lemma triple_free_srp si c :
  triple (at_slot si (is_core c)) (free_srp si)
    (fun _ => at_slot si (is_core (Core (c_state c) (c_role c) (c_index c) None (c_key c)))).
Proof.
  eapply triple_slot; [apply slot_op_free_srp|done|]. unfold is_core, ls_core. by intros rs s <-.
Qed.

Lemma triple_read_core si Q :
  triple (at_slot si Q) (gets (sess si))
    (fun s d => (exists rs, Q rs (ls_core s) /\ rs = roles (plist d)) /\ at_slot si (is_core (ls_core s)) d).
Proof.
  intros d Hd. pose proof Hd as (H1 & H2 & Hl & Ho & Hu & s & Hi & Hp & Hq).
  rewrite eval_gets, exec_gets, (sess_lookup _ _ _ Hi). split; [by eauto|].
  split_and!; try done. by exists s.
Qed.

Lemma fresh_core_ok rs c : is_core fresh_core rs c -> core_ok rs c.
Proof. by intros ->. Qed.

Ltac core_tac := unfold is_core, ls_core, fresh_core in *; cbn in *; congruence.
Tactic Notation "t_calm" simple_intropattern(p) :=
  eapply triple_bind; [apply triple_calm; calm_solve|intros p; cbv beta].
Tactic Notation "t_slot" constr(Q) :=
  eapply triple_bind; [apply (triple_upd _ _ _ Q); [done|intros ? ? ?]|intros ?; cbv beta].

Lemma triple_pake1 si line Q :
  triple (at_slot si Q) (handle_pake1 si line) (fun _ => at_slot si core_ok).
Proof.
  unfold handle_pake1. eapply triple_bind; [apply triple_restart|intros ?; cbv beta]. t_calm s. t_calm lock.
  assert (forall sock c, triple (at_slot si (is_core fresh_core)) (send_err sock c)
            (fun _ => at_slot si core_ok)) as Herr
    by (intros; apply triple_end; [calm_solve|apply fresh_core_ok]).
  assert (forall hd sock c, triple (at_slot si (is_core fresh_core))
            (io_ (esp_srp_free hd) ;; send_err sock c) (fun _ => at_slot si core_ok)) as Herr'
    by (intros; apply triple_end; [calm_solve|apply fresh_core_ok]).
  destruct (bool_decide (0 < lock)%Z); [apply Herr|].
  destruct (decode_payload line PAKE1_PREFIX SRP_BYTES_MAX) as [A|]; [|apply Herr].
  t_calm vp. destruct vp as [[salt ver]|]; [|apply Herr].
  t_calm h. destruct h as [hd|]; [|apply Herr].
  eapply triple_bind; [apply triple_calm; unfold srp_setup; calm_solve|intros [err [B K]]].
  destruct (is_ok err), B as [B|], K as [K|]; try apply Herr'.
  destruct (_ || _); [apply Herr'|].
  assert (forall k, triple (at_slot si (is_core fresh_core))
            (upd_sess si (set_ls_key k) ;; upd_sess si (set_ls_srp (Some hd)) ;;
             upd_sess si (set_ls_state LS_PAKE_WAIT_PROOF) ;; security_send_line (ls_sock s) (pake2_line salt B))
            (fun _ => at_slot si core_ok)) as H; [|apply H].
  intros k. set (Q1 := is_core (Core LS_NEW LS_ROLE_NONE (-1) None k)).
  set (Q2 := is_core (Core LS_NEW LS_ROLE_NONE (-1) (Some hd) k)).
  pose (Q3 := is_core (Core LS_PAKE_WAIT_PROOF LS_ROLE_NONE (-1) (Some hd) k)).
  t_slot Q1; [unfold Q1, Q2, Q3 in *; core_tac|].
  t_slot Q2; [unfold Q1, Q2, Q3 in *; core_tac|].
  t_slot Q3; [unfold Q1, Q2, Q3 in *; core_tac|].
  apply triple_end; [calm_solve|]. by intros rs c ->.
Qed.

(** A slot assertion that only fixes some of the core. *)
Lemma triple_pake3 si line :
  triple (at_slot si core_ok) (handle_pake3 si line) (fun _ => at_slot si core_ok).
Proof.
  unfold handle_pake3. eapply triple_bind; [apply triple_read|intros s].
  assert (forall sock c, triple (at_slot si (fun rs c => c = ls_core s /\ core_ok rs c)) (send_err sock c)
            (fun _ => at_slot si core_ok)) as Herr by (intros; apply triple_end; [calm_solve|by intros ??[]]).
  case_bool_decide as Hst; [apply Herr|]. destruct (ls_srp s) as [hd|] eqn:Eh; [|apply Herr].
  set (Q0 := fun (_ : list Z) (c : core) => c_index c = (-1)%Z /\ c_role c = LS_ROLE_NONE).
  assert (forall A (m : M A) Post, triple (at_slot si Q0) m Post ->
    triple (at_slot si (fun rs c => c = ls_core s /\ core_ok rs c)) m Post) as Hweak.
  { intros A m Post H. eapply triple_pre; [exact H|]. intros d Hd. eapply at_slot_mono; [exact Hd|].
    intros rs c [-> Hc]. unfold core_ok in Hc. cbn in Hc. rewrite Hst in Hc.
    split; apply Hc. }
  assert (forall sock c, triple (at_slot si Q0) (abort_pake si ;; send_err sock c)
            (fun _ => at_slot si core_ok)) as Habort.
  { intros sock c. set (Q1 := fun (_ : list Z) (c : core) => Q0 [] c /\ c_srp c = None).
    set (Q2 := fun (_ : list Z) (c : core) => Q1 [] c /\ c_key c = zeros 32).
    eapply triple_bind; [|intros ?; cbv beta; apply (triple_end _ (is_core fresh_core)); [calm_solve|apply fresh_core_ok]].
    unfold abort_pake. eapply triple_bind; [eapply (triple_slot _ _ _ _ Q1); [apply slot_op_free_srp|done|done]|intros ?; cbv beta].
    eapply triple_bind; [apply (triple_upd _ _ _ Q2); done|intros ?; cbv beta].
    eapply triple_upd; [done|]. intros rs x [[[H1 H2] H3] H4]. unfold is_core, ls_core, fresh_core in *.
    cbn in *. congruence. }
  apply Hweak. destruct (decode_payload line PAKE3_PREFIX SRP_PROOF_LEN) as [M1|]; [|apply Habort].
  case_bool_decide; [apply Habort|]. t_calm r. destruct r as [err M2].
  destruct (is_ok err); cbn [negb]; [|t_calm u; apply Habort].
  set (Q1 := fun (_ : list Z) (c : core) => Q0 [] c /\ c_srp c = None).
  eapply triple_bind; [eapply (triple_slot _ _ _ _ Q1); [apply slot_op_free_srp|done|done]|intros ?; cbv beta].
  t_calm u1. t_calm u2. eapply triple_bind; [apply (triple_upd _ _ _ Q1); done|intros ?; cbv beta].
  eapply triple_upd; [done|]. intros rs x [[H1 H2] H3]. unfold core_ok. cbn in *. eauto.
Qed.

(** ** The paired list under the sessions *)

Lemma roles_length l : list_ok l -> length (roles l) = pb_count l.
Proof. intros H. unfold roles. by rewrite length_fmap, active_length. Qed.

Lemma roles_lookup l i e : active l !! i = Some e -> roles l !! i = Some (pe_role e).
Proof. intros H. unfold roles. by rewrite list_lookup_fmap, H. Qed.

Lemma roles_add_new sub email k at_ l :
  list_ok l -> pb_count l < PAIRED_LIST_MAX ->
  roles (add_new sub email k at_ l) = roles l ++ [role_for_locked (claim sub l) sub].
Proof. intros Hl Hc. unfold roles. by rewrite active_add_new, fmap_app by done. Qed.

Lemma role_owner_sub l s : role_for_locked l s = PAIRED_ROLE_OWNER -> sub_eq s (pb_owner_sub l) = true.
Proof. unfold role_for_locked. destruct (sub_eq s _); [done|]. by rewrite andb_false_r. Qed.

(** Only one entry is the owner's. *)
Lemma owner_unique l i j ei ej :
  list_ok l -> active l !! i = Some ei -> active l !! j = Some ej ->
  pe_role ei = PAIRED_ROLE_OWNER -> pe_role ej = PAIRED_ROLE_OWNER -> i = j.
Proof.
  intros Hl Hi Hj Ri Rj. eapply (ok_distinct _ Hl); eauto.
  rewrite (Forall_lookup_1 _ _ _ _ (ok_roles _ Hl) Hi) in Ri.
  rewrite (Forall_lookup_1 _ _ _ _ (ok_roles _ Hl) Hj) in Rj.
  apply role_owner_sub in Ri, Rj. unfold sub_eq in *. rewrite strncmp_eq_sym in Rj.
  by eapply strncmp_eq_trans.
Qed.

(** [owner_first] in terms of the first entry. *)
Lemma role_of_user r : r <> PAIRED_ROLE_OWNER -> role_of r = LS_ROLE_USER.
Proof. intros H. unfold role_of. by rewrite bool_decide_eq_false_2. Qed.

Lemma owner_first_intro l :
  list_ok l -> (exactly = false -> forall e, active l !! 0 = Some e -> pe_role e = PAIRED_ROLE_OWNER) -> owner_first (roles l).
Proof.
  intros Hl H0. unfold owner_first. destruct exactly; [by left|right]. specialize (H0 eq_refl). intros j r Hj.
  unfold roles in Hj. rewrite list_lookup_fmap in Hj. apply fmap_Some in Hj as (e & He & ->).
  case_decide as Hz; [subst j; unfold role_of; by rewrite bool_decide_eq_true_2 by by apply H0|].
  apply role_of_user. intros Hr. apply Hz. destruct (lookup_lt_is_Some_2 (active l) 0) as [e0 He0].
  { apply lookup_lt_Some in He. lia. }
  eapply (owner_unique l j 0 e e0); try done. by apply H0.
Qed.

Lemma owner_first_elim l e :
  owner_first (roles l) -> exactly = false -> active l !! 0 = Some e -> pe_role e = PAIRED_ROLE_OWNER.
Proof.
  intros [?|H] He E; [congruence|]. specialize (H 0 (pe_role e)). unfold roles in H. rewrite list_lookup_fmap, E in H.
  specialize (H eq_refl). unfold role_of in H. by case_bool_decide.
Qed.

Lemma owner_first_index l i e :
  owner_first (roles l) -> exactly = false -> active l !! i = Some e -> pe_role e = PAIRED_ROLE_OWNER -> i = 0.
Proof.
  intros [?|H] He E Hr; [congruence|]. specialize (H i (pe_role e)). unfold roles in H. rewrite list_lookup_fmap, E in H.
  specialize (H eq_refl). rewrite Hr in H. by case_decide.
Qed.

(** Re-enrolling changes no role: the list has an owner already. *)
Lemma roles_add_known sub email at_ i l :
  list_ok l -> owned l -> find_locked l sub = Z.of_nat i -> roles (add_known sub email at_ i l) = roles l.
Proof.
  intros Hl Ho Hf. destruct (find_locked_Some l sub) as (e & He & Hs); [lia|].
  rewrite Hf, Nat2Z.id in He. pose proof (lookup_lt_Some _ _ _ He) as Hi.
  rewrite active_length in Hi by done. unfold roles. rewrite active_add_known by done.
  apply list_eq. intros j. rewrite !list_lookup_fmap. destruct (decide (i = j)) as [<-|].
  2:{ by rewrite list_lookup_alter_ne. }
  rewrite list_lookup_alter_eq, He. cbn. f_equal.
  assert (unowned l = false) as Hu by (destruct Ho as [_ [[? _]|[? _]]]; [lia|done]).
  unfold claim. rewrite Hu. rewrite (Forall_lookup_1 _ _ _ _ (ok_roles _ Hl) He).
  symmetry. by apply role_for_locked_sub.
Qed.

Lemma unowned_unclaim sub l : unowned (unclaim sub l) = unowned l.
Proof.
  unfold unclaim, claim. destruct (unowned l) eqn:E; [|done].
  unfold clear_owner, unowned. cbn. apply bool_decide_eq_true_2. unfold byte_at. by destruct (copy_field 41 sub).
Qed.

Lemma active_unclaim sub l : active (unclaim sub l) = active l.
Proof. unfold unclaim, claim. by destruct (unowned l). Qed.

Lemma owned_ext l l' :
  active l' = active l -> pb_count l' = pb_count l -> unowned l' = unowned l -> owned l -> owned l'.
Proof. intros E1 E2 E3. unfold owned, roles. by rewrite E1, E2, E3. Qed.

Lemma pb_count_unclaim sub l : pb_count (unclaim sub l) = pb_count l.
Proof. unfold unclaim, claim. by destruct (unowned l). Qed.

Lemma unowned_ext l l' : pb_owner_sub l' = pb_owner_sub l -> unowned l' = unowned l.
Proof. unfold unowned. by intros ->. Qed.

Lemma owned_add_new sub email k at_ l :
  list_ok l -> owned l -> cstr sub <> [] -> pb_count l < PAIRED_LIST_MAX -> list_ok (add_new sub email k at_ l) ->
  owned (add_new sub email k at_ l).
Proof.
  intros Hl [Hof Ho] Hs Hc Hok. assert (pb_count l = 0 -> unowned l = true -> role_for_locked (claim sub l) sub = PAIRED_ROLE_OWNER) as Hown.
  { intros _ Hu. unfold role_for_locked, claim. rewrite Hu. cbn.
    rewrite bool_decide_eq_false_2 by (by apply byte_at_copy_field). cbn.
    rewrite sub_eq_copy_field_r. unfold sub_eq. by rewrite strncmp_eq_refl. }
  split; [apply owner_first_intro; [done|]|right; split; [rewrite (unowned_ext (claim sub l)) by done; by apply claim_owned|]];
    rewrite active_add_new by done.
  - intros He e0 E0. destruct (active l) as [|a k'] eqn:Ea.
    + cbn in E0. injection E0 as <-. rewrite role_of_enrolled. apply (f_equal length) in Ea. rewrite active_length in Ea by done.
      destruct Ho as [[? ?]|[_ (x & Hx & _)]]; [by apply Hown|]. by apply elem_of_nil in Hx.
    + cbn in E0. injection E0 as <-. apply (owner_first_elim l); [done..|by rewrite Ea].
  - destruct Ho as [[H0 Hu]|[Hu (e & He & Hr)]].
    + eexists. split; [apply elem_of_app; right; by apply list_elem_of_singleton|].
      rewrite role_of_enrolled. by apply Hown.
    + exists e. split; [apply elem_of_app; by left|done].
Qed.

Lemma owned_add_known sub email at_ i l :
  list_ok l -> owned l -> find_locked l sub = Z.of_nat i -> owned (add_known sub email at_ i l).
Proof.
  intros Hl Ho Hf. pose proof (roles_add_known sub email at_ i l Hl Ho Hf) as Hr.
  destruct (find_locked_Some l sub) as (e & He & Hs); [lia|].
  apply lookup_lt_Some in He. rewrite active_length in He by done.
  destruct Ho as [Hof [[? _]|[Hu (x & Hx & Hxr)]]]; [lia|]. split; [by rewrite Hr|]. right. split.
  { rewrite (unowned_ext l); [done|]. cbn. unfold claim. by rewrite Hu. }
  assert (pe_role x ∈ roles l) as Hin by (by apply list_elem_of_fmap_2).
  rewrite <- Hr in Hin. unfold roles in Hin. apply list_elem_of_fmap in Hin as (y & Ey & Hy).
  exists y. split; [done|congruence].
Qed.

(** Sessions survive an appended entry. *)
Lemma points_app rs r i : points rs i -> points (rs ++ [r]) i.
Proof.
  intros [H0 H]. split; [done|]. destruct exactly; [rewrite length_app; lia|]. intros _ E. by destruct rs.
Qed.

Lemma role_at_app rs r i :
  points rs i -> owner_first rs -> owner_first (rs ++ [r]) -> role_at (rs ++ [r]) (Z.to_nat i) = role_at rs (Z.to_nat i).
Proof.
  intros Hp Ho Ho'. pose proof (points_app _ r _ Hp) as [_ Hp']. destruct Hp as [H0 Hp]. destruct exactly eqn:Ee.
  - unfold role_at. by rewrite lookup_app_l by lia.
  - rewrite !role_at_first by (done || intros ?; (apply Hp || apply Hp'); lia). done.
Qed.

Lemma core_ok_app rs r c : owner_first rs -> owner_first (rs ++ [r]) -> core_ok rs c -> core_ok (rs ++ [r]) c.
Proof.
  intros Ho Ho'. unfold core_ok. destruct (c_state c).
  - done.
  - done.
  - intros [? [?|[Hp ?]]]; (split; [done|]); [by left|right]. split; [by apply points_app|by rewrite role_at_app].
  - intros (? & ? & ?). split_and!; [done..|by apply points_app].
  - intros (? & ? & ?). split_and!; [done|by apply points_app|by rewrite role_at_app].
Qed.

Lemma session_ok_app rs r s : owner_first rs -> owner_first (rs ++ [r]) -> session_ok rs s -> session_ok (rs ++ [r]) s.
Proof.
  intros Ho Ho' (? & ? & H). split_and!; [done..|]. apply core_ok_iff, core_ok_app; [done..|]. by apply core_ok_iff.
Qed.

(** A new list under the same sessions. *)
Lemma at_slot_list si (Q Q' : slot_pred) d l' w :
  at_slot si Q d -> list_ok l' -> owned l' ->
  (forall s, session_ok (roles (plist d)) s -> session_ok (roles l') s) ->
  (forall c, Q (roles (plist d)) c -> Q' (roles l') c) ->
  at_slot si Q' (set_world w (set_plist l' d)).
Proof.
  intros (H1 & H2 & Hl & Ho & Hu & s & Hi & Hp & Hq) Hl' Ho' Hs HQ. split_and!; try done.
  - intros j t Hj Hne. apply Hs. by eapply Ho.
  - exists s. split_and!; [done..|]. by apply HQ.
Qed.

Context {CL : CryptoLaws P}.

(** Enrolling an account, as seen from one session. *)
Lemma triple_add si (R : core -> Prop) sub email k now :
  sub <> [] -> cstr sub <> [] -> length k = 32 ->
  triple (at_slot si (fun rs c => core_ok rs c /\ R c)) (paired_list_add sub email k now)
    (fun r d => at_slot si (fun rs c => (core_ok rs c /\ R c) /\
       ((0 <= fst r)%Z -> rs !! Z.to_nat (fst r) = Some (snd (snd r)))) d).
Proof.
  intros Hs Hc Hk d Hd. pose proof Hd as (Hl & Ho & _).
  assert (forall w, at_slot si (fun rs c => (core_ok rs c /\ R c) /\ ((0 <= -1)%Z -> rs !! Z.to_nat (-1) = Some 0%Z))
            (set_world w (set_plist (unclaim sub (plist d)) d))) as Hfail.
  { intros w. eapply at_slot_list; [exact Hd|by apply unclaim_ok| | |].
    - apply (owned_ext (plist d)); [apply active_unclaim|apply pb_count_unclaim|apply unowned_unclaim|done].
    - unfold roles. by rewrite active_unclaim.
    - unfold roles. rewrite active_unclaim. intros c Hcc. split; [done|lia]. }
  unfold eval, exec. destruct (decide (0 <= find_locked (plist d) sub)%Z) as [Hf|Hf].
  - destruct (find_locked_Some (plist d) sub Hf) as (e & He & _).
    set (i := Z.to_nat (find_locked (plist d) sub)) in *.
    assert (find_locked (plist d) sub = Z.of_nat i) as Hfi by lia.
    pose proof (lookup_lt_Some _ _ _ He) as Hi. rewrite active_length in Hi by done.
    rewrite active_lookup in He by done.
    destruct (add_known_run d sub email k now e i Hs Hfi He) as (err & w & _ & ->).
    destruct (is_ok err); cbn [fst snd]; [|apply Hfail].
    apply (triple_calm si _ _ calm_refresh).
    eapply at_slot_list; [exact Hd|by apply add_known_ok|by apply owned_add_known|by rewrite roles_add_known|].
    intros c Hcc. rewrite roles_add_known by done. split; [done|]. intros _. rewrite Nat2Z.id.
    rewrite <- (roles_add_known sub email now i) by done.
    rewrite (roles_lookup _ _ (enrolled (plist d) sub email now e)).
    + by rewrite role_of_enrolled.
    + rewrite active_add_known by done. by rewrite list_lookup_alter_eq, active_lookup, He.
  - destruct (decide (pb_count (plist d) < PAIRED_LIST_MAX)) as [Hlt|Hge].
    + destruct (add_new_run d sub email k now Hs Hl ltac:(lia) Hlt) as (err & w & _ & ->).
      destruct (is_ok err); cbn [fst snd]; [|apply Hfail].
      apply (triple_calm si _ _ calm_refresh).
      assert (list_ok (add_new sub email k now (plist d))) as Hok by (apply add_new_ok; done || lia).
      pose proof (owned_add_new sub email k now _ Hl Ho Hc Hlt Hok) as How. pose proof (proj1 How) as Hof'.
      rewrite roles_add_new in Hof' by done. pose proof (proj1 Ho) as Hof.
      eapply at_slot_list; [exact Hd|done|done| |].
      * intros s Hss. rewrite roles_add_new by done. by apply session_ok_app.
      * intros c [Hcc HR]. rewrite roles_add_new by done. split; [split; [by apply core_ok_app|done]|]. intros _.
        rewrite Nat2Z.id, <- (roles_length _ Hl). by rewrite list_lookup_middle by done.
    + rewrite add_full_run by (done || lia). cbn [fst snd].
      specialize (Hfail (world d)). by destruct d.
Qed.

(** A decoded text field is a non-empty C string that fits its buffer. *)
Lemma to_cstr_Some x n y :
  to_cstr x n = Some y -> y = x /\ x <> [] /\ length x < n /\ Forall (fun c => c <> 0%Z) x.
Proof.
  unfold to_cstr. destruct (_ || _) eqn:E; [done|]. bool_hyps.
  destruct (forallb _ x) eqn:Ef; [|done]. intros [= <-]. rewrite forallb_forall in Ef. split_and!; [done| |lia|].
  - intros ->. cbn in *. lia.
  - apply List.Forall_forall. intros c Hc. specialize (Ef c Hc). bool_hyps. lia.
Qed.

Lemma parse_enroll_Some line sub email :
  parse_enroll line = Some (sub, email) -> sub <> [] /\ cstr sub <> [] /\ length sub <= PAIRED_SUB_MAX.
Proof.
  unfold parse_enroll. intros H. repeat case_match; simplify_eq.
  match goal with H : to_cstr _ _ = Some sub |- _ => destruct (to_cstr_Some _ _ _ H) as (-> & Hne & Hl & Hnz) end.
  rewrite cstr_id by done.
  split_and!; [done..|]. lia.
Qed.

Lemma triple_gets {A} (Pre : Dev -> Prop) (f : Dev -> A) :
  triple Pre (gets f) (fun a d => a = f d /\ Pre d).
Proof. intros d Hd. done. Qed.

Lemma triple_random si Q n :
  triple (at_slot si Q) (io (esp_fill_random n)) (fun k d => length k = n /\ at_slot si Q d).
Proof.
  intros d Hd. split; [|by apply triple_calm; [apply calm_io|]].
  unfold eval, io. pose proof (random_length n (world d)) as H.
  by destruct (esp_fill_random n (world d)).
Qed.

(** Facts that only speak about the list join the slot's assertion. *)
Lemma at_slot_and si (Q : slot_pred) (F : list Z -> Prop) d :
  at_slot si Q d -> F (roles (plist d)) -> at_slot si (fun rs c => Q rs c /\ F rs) d.
Proof.
  intros (? & ? & ? & ? & ? & s & ? & ? & ?) H'. split_and!; try done. by exists s.
Qed.

Lemma triple_pure {A} (F : Prop) (Pre : Dev -> Prop) (m : M A) Post :
  (F -> triple Pre m Post) -> triple (fun d => F /\ Pre d) m Post.
Proof. intros H d [Hf Hd]. by apply H. Qed.

Lemma triple_enroll si line :
  triple (at_slot si core_ok) (handle_enroll si line) (fun _ => at_slot si core_ok).
Proof.
  unfold handle_enroll. eapply triple_bind; [apply triple_read|intros s; cbv beta].
  assert (forall sock c, triple (at_slot si (fun rs c => c = ls_core s /\ core_ok rs c)) (send_err sock c)
            (fun _ => at_slot si core_ok)) as Herr by (intros; apply triple_end; [calm_solve|by intros ??[]]).
  destruct (_ || _) eqn:Est; [apply Herr|]. bool_hyps.
  destruct (parse_enroll line) as [[sub email]|] eqn:Ep; [|apply Herr].
  destruct (parse_enroll_Some _ _ _ Ep) as (Hs & Hc & _).
  pose (R := fun c => c_state c = LS_PAKE_OK /\ c_srp c = None).
  eapply (triple_pre (at_slot si (fun rs c => core_ok rs c /\ R c))).
  2:{ intros d Hd. eapply at_slot_mono; [exact Hd|]. intros rs c [-> Hok]. split; [done|].
      unfold core_ok in Hok. cbn in *. apply dec_stable in H. rewrite H in Hok. by destruct Hok. }
  eapply triple_bind; [apply triple_random|intros k; cbv beta]. apply triple_pure. intros Hk.
  t_calm now. eapply triple_bind; [by apply triple_add|intros [index [ka role]]; cbv beta; cbn [fst snd]].
  case_bool_decide as Hi; [apply triple_end; [calm_solve|by intros ??[[]]]|].
  set (Q1 := fun (rs : list Z) c => R c /\ c_index c = index /\ rs !! Z.to_nat index = Some role).
  eapply triple_bind; [eapply (triple_upd _ _ _ Q1); [done|]|intros ?; cbv beta].
  { intros rs x [[_ HR] Hr]. split_and!; [done..|]. apply Hr. lia. }
  eapply triple_bind; [eapply (triple_upd _ _ _ core_ok); [done|]|intros ?; cbv beta].
  { intros rs x [[Hst Hsrp] [Hx Hr]]. unfold core_ok. cbn in *. rewrite Hst. split; [done|]. right.
    assert (0 <= index)%Z by lia. rewrite Hx. split; [by eapply points_lookup|]. unfold role_at. by rewrite Hr. }
  t_calm u. apply triple_end; [calm_solve|done].
Qed.

Lemma triple_auth1 si line Q :
  triple (at_slot si Q) (handle_auth1 si line) (fun _ => at_slot si core_ok).
Proof.
  unfold handle_auth1. eapply triple_bind; [apply triple_restart|intros ?; cbv beta]. t_calm s.
  assert (forall sock c, triple (at_slot si (is_core fresh_core)) (send_err sock c)
            (fun _ => at_slot si core_ok)) as Herr
    by (intros; apply triple_end; [calm_solve|apply fresh_core_ok]).
  destruct (parse_auth1 line) as [[sub np]|]; [|apply Herr].
  t_calm index.
  pose (Q1 := fun (e : option paired_entry_t) (rs : list Z) (c : core) =>
    c = fresh_core /\ (e <> None -> (0 <= index < Z.of_nat (length rs))%Z)).
  eapply (triple_bind _ _ (fun e => at_slot si (Q1 e))).
  { intros d Hd. pose proof Hd as (Hl & _). apply at_slot_and.
    - by case_bool_decide.
    - case_bool_decide; [done|]. unfold eval, exec, paired_list_get, gets. cbn.
      rewrite roles_length by done. case_bool_decide; [|done]. case_bool_decide; [|done]. cbn. lia. }
  intros [e|]; cbv beta; [|apply triple_end; [calm_solve|]; intros rs c [-> _]; done].
  pose (Qx := fun st ix (rs : list Z) c => c_srp c = None /\ c_role c = LS_ROLE_NONE /\
     c_state c = st /\ c_index c = ix /\ (0 <= index < Z.of_nat (length rs))%Z).
  eapply triple_bind; [eapply (triple_upd _ _ _ (Qx LS_NEW (-1)%Z)); [done|]|intros ?; cbv beta].
  { intros rs x [Hx Hi]. unfold fresh_core, ls_core in Hx. unfold Qx. cbn. simplify_eq. split_and!; try done; by apply Hi. }
  t_calm nd.
  eapply triple_bind; [by eapply (triple_upd _ _ _ (Qx LS_NEW (-1)%Z))|intros ?; cbv beta].
  eapply triple_bind; [by eapply (triple_upd _ _ _ (Qx LS_NEW (-1)%Z))|intros ?; cbv beta].
  eapply triple_bind; [eapply (triple_upd _ _ _ (Qx LS_NEW index)); [done|]|intros ?; cbv beta].
  { intros rs x (? & ? & ? & ? & ?). unfold Qx. cbn in *. split_and!; done || lia. }
  eapply triple_bind; [eapply (triple_upd _ _ _ core_ok); [done|]|intros ?; cbv beta].
  { intros rs x (? & ? & ? & Hx & ?). unfold core_ok. cbn in *. rewrite Hx. split_and!; [done..|by apply points_range]. }
  t_calm s'. apply triple_end; [calm_solve|done].
Qed.

(** [paired_list_get] answers the entry a valid index points at. *)
Lemma paired_list_get_roles d i e :
  list_ok (plist d) -> eval (paired_list_get i) d = Some e ->
  (0 <= i < Z.of_nat (pb_count (plist d)))%Z /\ active (plist d) !! Z.to_nat i = Some e.
Proof.
  intros Hl. unfold paired_list_get. rewrite eval_gets.
  case_bool_decide; [|done]. case_bool_decide; [|done]. cbn [andb]. intros [= <-]. split; [lia|].
  rewrite active_lookup by lia. apply list_lookup_lookup_total_lt.
  rewrite (ok_rows _ Hl). pose proof (ok_count _ Hl). lia.
Qed.

(** The role the entry gives; without an entry a session is a user's. *)
Definition entry_role (e : option paired_entry_t) : local_session_role_t :=
  match e with Some x => role_of (pe_role x) | None => LS_ROLE_USER end.

Lemma triple_get_role si (Q : slot_pred) i :
  (forall rs c, Q rs c -> (0 <= i)%Z) ->
  triple (at_slot si Q) (paired_list_get i)
    (fun e d => at_slot si (fun rs c => Q rs c /\ role_at rs (Z.to_nat i) = entry_role e) d).
Proof.
  intros HQ d Hd. pose proof Hd as (Hl & _ & _ & _ & _ & s & _ & _ & Hq). specialize (HQ _ _ Hq).
  change (exec (paired_list_get i) d) with d. apply at_slot_and; [done|].
  destruct (eval (paired_list_get i) d) as [x|] eqn:Hx; unfold role_at.
  - destruct (paired_list_get_roles d i x Hl Hx) as [_ Ha]. by rewrite (roles_lookup _ _ _ Ha).
  - rewrite (proj2 (lookup_ge_None (roles _) _)); [done|]. rewrite roles_length by done.
    revert Hx. unfold paired_list_get. rewrite eval_gets. rewrite bool_decide_eq_true_2 by lia. case_bool_decide; [done|lia].
Qed.

Lemma triple_auth3 si line :
  triple (at_slot si core_ok) (handle_auth3 si line) (fun _ => at_slot si core_ok).
Proof.
  unfold handle_auth3. eapply triple_bind; [apply triple_read|intros s; cbv beta].
  assert (forall sock c, triple (at_slot si (fun rs c => c = ls_core s /\ core_ok rs c)) (send_err sock c)
            (fun _ => at_slot si core_ok)) as Herr by (intros; apply triple_end; [calm_solve|by intros ??[]]).
  case_bool_decide as Hst; [apply Herr|]. destruct (parse_auth3 line) as [got|]; [|apply Herr].
  set (i := ls_paired_index s).
  pose (Qx := fun st ro ix (rs : list Z) c => c_srp c = None /\ c_role c = ro /\
     c_state c = st /\ c_index c = ix /\ points rs i).
  apply (triple_pre (at_slot si (Qx LS_AUTH_WAIT_PROOF LS_ROLE_NONE i))).
  2:{ intros d Hd. eapply at_slot_mono; [exact Hd|]. intros rs c [-> Hc]. unfold core_ok in Hc.
      cbn in Hc. rewrite Hst in Hc. unfold Qx. cbn. split_and!; done || apply Hc. }
  destruct (local_auth_ct_equal _ _ _); cbn [negb].
  - pose (Qr := fun st (rs : list Z) c => (c_srp c = None /\ c_state c = st /\ c_index c = i /\ points rs i) /\
       c_role c = role_at rs (Z.to_nat i)).
    eapply triple_bind; [by eapply (triple_upd _ _ _ (Qx LS_AUTH_WAIT_PROOF LS_ROLE_NONE i))|intros ?; cbv beta].
    eapply triple_bind; [eapply (triple_upd _ _ _ (Qx LS_AUTH_WAIT_PROOF LS_ROLE_USER i)); [done|]|intros ?; cbv beta].
    { by intros rs x (? & ? & ? & ? & ?). }
    eapply triple_bind; [eapply (triple_get_role si); by intros rs c (? & ? & ? & ? & ? & ?)|intros e; cbv beta].
    eapply (triple_bind _ _ (fun _ => at_slot si (Qr LS_AUTH_WAIT_PROOF))).
    { assert (forall m : M unit, (forall d, exec m d = d) -> entry_role e = LS_ROLE_USER ->
        triple (at_slot si (fun rs c => Qx LS_AUTH_WAIT_PROOF LS_ROLE_USER i rs c /\ role_at rs (Z.to_nat i) = entry_role e))
          m (fun _ => at_slot si (Qr LS_AUTH_WAIT_PROOF))) as Hsame.
      { intros m Hm He d Hd. rewrite Hm. eapply at_slot_mono; [exact Hd|].
        intros rs c [(? & ? & ? & ? & ?) Hr]. split; [split_and!; done|]. congruence. }
      destruct e as [x|]; [|by apply Hsame]. unfold when. case_bool_decide as Ho; [|apply Hsame; [done|by apply role_of_user]].
      eapply triple_upd; [done|]. intros rs y [(? & ? & ? & ? & ?) Hr]. split; [cbn in *; split_and!; done|].
      cbn. rewrite Hr. cbn. unfold role_of. by rewrite bool_decide_eq_true_2. }
    intros ?; cbv beta. t_calm s1. t_calm u.
    eapply triple_bind; [by eapply (triple_upd _ _ _ (Qr LS_AUTH_WAIT_PROOF))|intros ?; cbv beta].
    eapply triple_upd; [done|]. intros rs y [(? & ? & Hy & ?) Hr]. unfold core_ok. cbn in *.
    rewrite Hy. split_and!; done.
  - pose (Qf := fun (_ : list Z) c => c_srp c = None /\ c_role c = LS_ROLE_NONE /\ c_key c = zeros 32).
    eapply triple_bind; [eapply (triple_upd _ _ _ Qf); [done|]|intros ?; cbv beta].
    { by intros rs x (? & ? & ? & ? & ?). }
    eapply triple_bind; [eapply (triple_upd _ _ _ (fun rs c => Qf rs c /\ c_index c = (-1)%Z)); done|intros ?; cbv beta].
    eapply triple_bind; [eapply (triple_upd _ _ _ core_ok); [done|]|intros ?; cbv beta].
    { intros rs x [(? & ? & ?) ?]. unfold core_ok. cbn in *. done. }
    apply triple_end; [calm_solve|done].
Qed.

(** ** Owner commands *)

Definition keeps {A} (m : M A) : Prop := forall d, dev_inv d -> dev_inv (exec m d).

Lemma keeps_calm {A} (m : M A) : calm m -> keeps m.
Proof. intros Hm d. by apply calm_inv. Qed.
Lemma keeps_bind {A B} (m : M A) (k : A -> M B) : keeps m -> (forall a, keeps (k a)) -> keeps (bind m k).
Proof. intros Hm Hk d Hd. rewrite exec_bind. by apply Hk, Hm. Qed.

Lemma roles_remove l i : list_ok l -> i < pb_count l -> roles (remove_row i l) = delete i (roles l).
Proof.
  intros Hl Hi. unfold roles. rewrite active_remove_row by done.
  apply list_eq. intros j. rewrite list_lookup_fmap. destruct (decide (j < i)).
  - by rewrite !list_lookup_delete_lt, list_lookup_fmap by done.
  - by rewrite !list_lookup_delete_ge, list_lookup_fmap by lia.
Qed.

Lemma removable_row l i e :
  list_ok l -> owner_first (roles l) -> active l !! i = Some e -> pe_role e <> PAIRED_ROLE_OWNER -> removable (roles l) i.
Proof.
  intros Hl Hof He Hr. pose proof (lookup_lt_Some _ _ _ He) as Hi. rewrite active_length in Hi by done.
  split; [by rewrite roles_length|]. intros Hex. destruct i; [|lia]. exfalso. by eapply Hr, owner_first_elim.
Qed.

(** Removing somebody else than the owner leaves the owner in place. *)
Lemma owned_remove l i e :
  list_ok l -> owned l -> active l !! i = Some e -> pe_role e <> PAIRED_ROLE_OWNER -> owned (remove_row i l).
Proof.
  intros Hl [Hof Ho] He Hr. pose proof (lookup_lt_Some _ _ _ He) as Hi. rewrite active_length in Hi by done.
  destruct Ho as [[? _]|[Hu (x & Hx & Hxr)]]; [lia|]. split.
  { apply owner_first_intro; [by apply remove_row_ok|]. intros Hex e0 He0. rewrite active_remove_row in He0 by done.
    assert (0 < i) as Hpos by (destruct (removable_row l i e Hl Hof He Hr) as [_ Hp]; by apply Hp).
    rewrite list_lookup_delete_lt in He0 by done. by apply (owner_first_elim l). }
  right. split; [by rewrite (unowned_ext l)|].
  exists x. split; [|done]. rewrite active_remove_row by done.
  apply list_elem_of_lookup in Hx as [j Hj].
  assert (j <> i) by (intros ->; congruence).
  apply list_elem_of_lookup. destruct (decide (j < i)).
  - exists j. by rewrite list_lookup_delete_lt.
  - exists (j - 1). rewrite list_lookup_delete_ge by lia. by replace (S (j - 1)) with j by lia.
Qed.

Lemma refresh_pool d : pool (exec mdns_discovery_refresh d) = pool d /\ plist (exec mdns_discovery_refresh d) = plist d.
Proof. pose proof (refresh_frame d) as H. unfold same_but_out in H. by rewrite H. Qed.

Lemma after_removal_sock i s : ls_sock (after_removal i s) = ls_sock s.
Proof. unfold after_removal. by repeat case_bool_decide. Qed.

(** In the exact reading the list must be stored. *)
Class Stores : Prop := stores : exactly = true -> NvsReliable P.
Context {ST : Stores}.

(** The calls that revoke an entry: the list loses the row in any case; if it
    was stored every session follows. *)
Lemma remove_inv d i e :
  dev_inv d -> active (plist d) !! i = Some e -> pe_role e <> PAIRED_ROLE_OWNER ->
  let d1 := exec (paired_list_remove (Z.of_nat i)) d in
  let d2 := exec (local_session_on_paired_removed (Z.of_nat i)) d1 in
  plist d1 = remove_row i (plist d) /\ pool d1 = pool d /\
  plist d2 = remove_row i (plist d) /\ pool d2 = after_removal (Z.of_nat i) <$> pool d /\ dev_inv d2 /\
  (is_ok (eval (paired_list_remove (Z.of_nat i)) d) = false -> dev_inv d1).
Proof.
  intros [Hl Ho Hp] He Hr d1 d2. pose proof (lookup_lt_Some _ _ _ He) as Hi.
  rewrite active_length in Hi by done. pose proof (removable_row _ _ _ Hl (proj1 Ho) He Hr) as Hrm.
  destruct (remove_run d (Z.of_nat i) ltac:(lia)) as (err & w & Herr & E).
  rewrite Nat2Z.id in E.
  assert (d1 = exec mdns_discovery_refresh (set_world w (set_plist (remove_row i (plist d)) d))) as Ed1
    by (unfold d1, exec at 1; by rewrite E).
  destruct (refresh_pool (set_world w (set_plist (remove_row i (plist d)) d))) as [R1 R2].
  rewrite <- Ed1 in R1, R2. cbn in R1, R2.
  assert (length (pool d1) = LOCAL_SESSION_MAX) as Hlen by (rewrite R1; apply Hp).
  destruct (on_paired_removed_spec (Z.of_nat i) d1 Hlen) as [S1 S2]. fold d2 in S1, S2.
  assert (plist d2 = plist d1) as S3 by (rewrite S2; done). rewrite R1 in S1. rewrite R2 in S3.
  pose proof (owned_remove _ _ _ Hl Ho He Hr) as Ho'.
  split_and!; [done..| |].
  - split; rewrite S3; [by apply remove_row_ok|done|]. rewrite S1, roles_remove by done.
    eapply pool_ok_fmap; [exact Hp|]. intros s Hs. split; [apply after_removal_sock|]. by apply after_removal_ok.
  - intros Hf. assert (exactly = false) as Hex.
    { destruct exactly eqn:Ex; [|done]. unfold eval in Hf. rewrite E in Hf. cbn in Hf. by rewrite (Herr (stores Ex)) in Hf. }
    split; rewrite R2; [by apply remove_row_ok|done|]. rewrite R1, roles_remove by done.
    pose proof (proj1 Ho') as Hof'. rewrite roles_remove in Hof' by done. destruct Hp as (P1 & P2 & P3). split_and!; [done| |done].
    eapply Forall_impl; [|exact P2]. intros s Hs. apply session_stale; [done|apply Ho|done..].
Qed.

(** Both ways a removal is followed up. *)
Lemma remove_next {A} d i e (m1 m2 : M A) :
  dev_inv d -> active (plist d) !! i = Some e -> pe_role e <> PAIRED_ROLE_OWNER ->
  keeps m1 -> keeps m2 ->
  dev_inv (exec (let* err := paired_list_remove (Z.of_nat i) in
                 if is_ok err then local_session_on_paired_removed (Z.of_nat i) ;; m1 else m2) d).
Proof.
  intros Hd He Hr H1 H2. rewrite exec_bind. destruct (remove_inv d i e Hd He Hr) as (_ & _ & _ & _ & K1 & K2).
  destruct (is_ok _); [rewrite exec_bind; by apply H1|by apply H2, K2].
Qed.

Lemma keeps_revoke_loop fuel i : keeps (revoke_loop fuel i).
Proof.
  revert i. induction fuel as [|fuel IH]; intros i d Hd; [done|].
  cbn [revoke_loop]. rewrite exec_bind, eval_gets, exec_gets. case_bool_decide; [done|].
  rewrite exec_bind. change (exec (paired_list_get (Z.of_nat i)) d) with d.
  destruct (eval (paired_list_get (Z.of_nat i)) d) as [e|] eqn:Eg; [|done].
  apply paired_list_get_roles in Eg as [_ He]; [|apply Hd]. rewrite Nat2Z.id in He.
  case_bool_decide as Hr; [|by apply IH]. eapply remove_next; [done..| |apply IH].
  apply keeps_bind; [apply keeps_calm; calm_solve|intros ?; apply IH].
Qed.

Lemma keeps_rotate : keeps paired_list_rotate_owner_key.
Proof.
  intros d Hd. pose proof (rotate_run d) as H. pose proof Hd as [Hl Ho Hp].
  destruct (list_find _ _) as [[i e]|] eqn:E; unfold exec; [|by rewrite H].
  destruct H as (err & w & k & Ek & _ & ->). cbn [snd]. destruct (is_ok err); [|by destruct d].
  apply list_find_Some in E as (Hi & _ & _). pose proof (lookup_lt_Some _ _ _ Hi) as Hlt.
  rewrite active_length in Hlt by done.
  assert (length k = 32) as Hk by (rewrite Ek; apply random_length).
  assert (roles (rekey i k (plist d)) = roles (plist d)) as Hr.
  { unfold roles. rewrite active_rekey. apply list_eq. intros j. rewrite !list_lookup_fmap.
    destruct (decide (i = j)) as [->|]; [rewrite list_lookup_alter_eq|by rewrite list_lookup_alter_ne].
    by destruct (active (plist d) !! j). }
  split; cbn; [by apply rekey_ok| |by rewrite Hr]. destruct Ho as [Hof Ho]. split; [by rewrite Hr|].
  destruct Ho as [?|[Hu (x & Hx & Hxr)]]; [by left|right]. split; [done|].
  assert (pe_role x ∈ roles (plist d)) as Hin by (by apply list_elem_of_fmap_2).
  rewrite <- Hr in Hin. apply list_elem_of_fmap in Hin as (y & Ey & Hy). exists y. split; [done|congruence].
Qed.

(** What an owner session says about the list. *)
Lemma owner_session_entry d si s :
  dev_inv d -> pool d !! si = Some s -> is_owner_session s = true ->
  exists e, (0 <= ls_paired_index s)%Z /\ active (plist d) !! Z.to_nat (ls_paired_index s) = Some e /\
            pe_role e = PAIRED_ROLE_OWNER.
Proof.
  intros [_ _ (_ & Ho & _)] Hs. destruct (Forall_lookup_1 _ _ _ _ Ho Hs) as (_ & _ & Hh).
  unfold is_owner_session. destruct (_ || _) eqn:E1; [done|]. bool_hyps.
  assert (ls_role s = LS_ROLE_OWNER) as Hrole by (by apply dec_stable).
  intros Hst. assert (bound (roles (plist d)) s) as ([H1 _] & Hro).
  { unfold handshake_ok, unbound in Hh. destruct (ls_state s); cbn in Hst; try done.
    - destruct Hh as [_ [[_ ?]|?]]; [congruence|done].
    - by destruct Hh. }
  rewrite Hrole in Hro. unfold role_at in Hro. destruct (roles (plist d) !! _) as [r|] eqn:Hr; [|done].
  unfold roles in Hr. rewrite list_lookup_fmap in Hr. apply fmap_Some in Hr as (e & He & ->).
  exists e. split_and!; [done|done|]. unfold role_of in Hro. by case_bool_decide.
Qed.

Lemma revoke_inv d si line :
  dev_inv d -> si < length (pool d) -> is_owner_session (sess si d) = true ->
  dev_inv (exec (handle_revoke si line) d).
Proof.
  intros Hd Hlt How. destruct (lookup_lt_is_Some_2 (pool d) si Hlt) as [s Hs].
  rewrite (sess_lookup _ _ _ Hs) in How. destruct (owner_session_entry d si s Hd Hs How) as (eo & Hpos & Heo & Hro).
  unfold handle_revoke. rewrite exec_bind, eval_gets, exec_gets, (sess_lookup _ _ _ Hs). cbv zeta.
  destruct (parse_revoke line) as [sub|]; [|by apply calm_inv; [calm_solve|]].
  rewrite exec_bind. change (exec (paired_list_find sub) d) with d.
  change (eval (paired_list_find sub) d) with (find_locked (plist d) sub).
  set (index := find_locked (plist d) sub). rewrite exec_bind.
  assert (forall (b : bool), exec (if b then ret None else paired_list_get index) d = d) as -> by (by intros []).
  destruct (eval (if bool_decide (index < 0)%Z then ret None else paired_list_get index) d) as [e|] eqn:Ee;
    [|by apply calm_inv; [calm_solve|]].
  case_bool_decide as Hneg; [done|]. apply paired_list_get_roles in Ee as [Hr He]; [|apply Hd].
  case_bool_decide as Hself; [by apply calm_inv; [calm_solve|]|].
  assert (pe_role e <> PAIRED_ROLE_OWNER) as Hne.
  { intros Heq. pose proof (owner_unique _ _ _ _ _ (inv_list _ Hd) He Heo Heq Hro). lia. }
  rewrite exec_bind. replace index with (Z.of_nat (Z.to_nat index)) by lia.
  destruct (remove_inv d (Z.to_nat index) e Hd He Hne) as (_ & _ & _ & _ & H1 & H2).
  destruct (is_ok _); cbn [negb]; [|apply calm_inv; [calm_solve|by apply H2]].
  rewrite exec_bind, exec_bind. apply calm_inv; [calm_solve|]. by apply calm_inv; [calm_solve|].
Qed.

Lemma same_core_lookup d d' i s :
  same_core d d' -> pool d !! i = Some s -> exists s', pool d' !! i = Some s' /\ mild s s'.
Proof. intros [_ HF] Hi. destruct (Forall2_lookup_l _ _ _ _ _ HF Hi) as (s' & ? & ?). eauto. Qed.

Lemma unpair_inv d si : dev_inv d -> si < length (pool d) -> dev_inv (exec (handle_unpair si) d).
Proof.
  intros Hd Hlt. destruct (lookup_lt_is_Some_2 (pool d) si Hlt) as [s Hs].
  unfold handle_unpair. rewrite exec_bind, eval_gets, exec_gets, (sess_lookup _ _ _ Hs). cbv zeta.
  rewrite exec_bind. change (exec (paired_list_get (ls_paired_index s)) d) with d.
  destruct (eval (paired_list_get (ls_paired_index s)) d) as [e|] eqn:Ee; [|by apply calm_inv; [calm_solve|]].
  apply paired_list_get_roles in Ee as [Hr He]; [|apply Hd].
  case_bool_decide as Ho; [by apply calm_inv; [calm_solve|]|]. rewrite exec_bind.
  pose proof (calm_security_send_line (ls_sock s) (str "ACK") d) as Hc.
  set (d1 := exec (security_send_line (ls_sock s) (str "ACK")) d) in *.
  assert (dev_inv d1) as Hd1 by (by eapply same_core_inv).
  destruct (same_core_lookup _ _ _ _ Hc Hs) as (s1 & Hs1 & _ & _ & [= _ _ Hix _ _]).
  rewrite exec_bind, eval_gets, exec_gets, (sess_lookup _ _ _ Hs1), Hix, exec_bind.
  destruct Hc as [Hpl _].
  replace (ls_paired_index s) with (Z.of_nat (Z.to_nat (ls_paired_index s))) by lia.
  destruct (remove_inv d1 (Z.to_nat (ls_paired_index s)) e Hd1) as (_ & _ & _ & _ & H1 & H2);
    [by rewrite Hpl|done|]. destruct (is_ok _); [|by apply H2].
  rewrite exec_bind. by apply calm_inv; [calm_solve|].
Qed.

(** RESET empties the list and the sessions with it. *)
Lemma empty_owned : owned empty_list.
Proof. split; [right; by intros j r|by left]. Qed.

Lemma reset_inv d si : dev_inv d -> dev_inv (exec (handle_reset si) d).
Proof.
  intros Hd. unfold handle_reset. rewrite exec_bind, eval_gets, exec_gets, exec_bind.
  pose proof (calm_inv _ d (calm_security_send_line (ls_sock (sess si d)) (str "ACK")) Hd) as Hd1.
  set (d1 := exec (security_send_line _ _) d) in *. rewrite exec_bind.
  destruct (clear_run d1) as (err & w & _ & E).
  assert (exec paired_list_clear d1 = exec mdns_discovery_refresh (set_world w (set_plist empty_list d1))) as ->
    by (unfold exec at 1; by rewrite E).
  assert (same_core (set_plist empty_list d1)
            (exec mdns_discovery_refresh (set_world w (set_plist empty_list d1)))) as Hc2.
  { eapply (same_core_trans _ (set_world w (set_plist empty_list d1))); [apply (calm_io_ (fun _ => w))|apply calm_refresh]. }
  rewrite exec_bind. pose proof (same_core_trans _ _ _ Hc2 (calm_pw_clear _)) as [Hpl Hpool].
  set (d3 := exec device_password_clear _) in *. cbn in Hpl, Hpool.
  destruct (pool_ok_mild _ _ _ Hpool (inv_pool _ Hd1)) as (Hl3 & Ho3 & Hu3).
  destruct (drop_all_auth_spec d3 Hl3) as [S1 S2]. rewrite exec_bind. apply calm_inv; [calm_solve|].
  set (d4 := exec local_session_drop_all_auth d3) in *.
  assert (plist d4 = empty_list) as Hp4 by (rewrite S2; cbn; by rewrite Hpl).
  split; rewrite Hp4; [apply empty_list_ok|apply empty_owned|]. rewrite S1.
  eapply pool_ok_fmap; [by split_and!|]. intros s (F1 & F2 & _). case_bool_decide as Hk.
  - split; [done|]. by rewrite F1.
  - split; [done|]. apply dropped_ok; [done|]. destruct (decide (ls_sock s < 0)%Z); [tauto|lia].
Qed.

Lemma keeps_revoke_all : keeps revoke_all_non_owner.
Proof.
  unfold revoke_all_non_owner. apply keeps_bind; [apply keeps_calm; calm_solve|].
  intros n. apply keeps_revoke_loop.
Qed.

Lemma keeps_pwset si line : keeps (handle_pwset si line).
Proof.
  unfold handle_pwset. apply keeps_bind; [apply keeps_calm; calm_solve|intros s]. cbv zeta.
  destruct (next_b64_field _ _ _) as [[pw ?]|]; [|apply keeps_calm; calm_solve].
  destruct (_ || _); [apply keeps_calm; calm_solve|].
  apply keeps_bind; [apply keeps_calm; calm_solve|intros err].
  destruct (negb (is_ok err)); [apply keeps_calm; calm_solve|].
  apply keeps_bind; [apply keeps_revoke_all|intros ?].
  apply keeps_bind; [apply keeps_rotate|intros ?]. apply keeps_calm; calm_solve.
Qed.

Lemma calm_list_loop sock n i : calm (list_loop sock n i).
Proof.
  revert i. induction n as [|n IH]; intros i; cbn [list_loop]; [apply calm_ret|].
  apply calm_bind; [apply calm_gets|intros [e|]; calm_solve].
Qed.

Lemma calm_quiet_commands si line :
  calm (handle_list si) /\ calm (handle_pwclear si) /\ calm (handle_discoverymode si line) /\
  calm (handle_discoverymode_get si).
Proof.
  unfold handle_list, handle_pwclear, handle_discoverymode, handle_discoverymode_get.
  split_and!; calm_solve; apply calm_list_loop.
Qed.

Lemma owner_commands_inv line sock d :
  dev_inv d -> dev_inv (exec (owner_commands_handle_line line sock) d).
Proof.
  intros Hd. unfold owner_commands_handle_line. cbv zeta.
  destruct (negb _); [done|]. rewrite exec_bind. unfold exec at 2, eval at 1. rewrite !find_run. cbn [fst snd].
  fold (slot_for sock d). destruct (slot_for sock d) as [si|] eqn:Es; [|by apply calm_inv; [calm_solve|]].
  destruct (slot_for_Some _ _ _ Es) as (s & Hs & Ess & _). pose proof (lookup_lt_Some _ _ _ Hs) as Hlt.
  rewrite exec_bind, eval_gets, exec_gets. destruct (calm_quiet_commands si line) as (C1 & C2 & C3 & C4).
  destruct (is_exact line (str "UNPAIR")).
  { destruct (is_authed_session _); cbn [negb]; rewrite exec_bind; change (exec (ret true) ?x) with x;
      [by apply unpair_inv|by apply calm_inv; [calm_solve|]]. }
  destruct (is_owner_session (sess si d)) eqn:Eo; cbn [negb]; [|by apply calm_inv; [calm_solve|]].
  rewrite exec_bind. change (exec (ret true) ?x) with x. repeat case_match;
    try (by apply calm_inv); [by apply revoke_inv|by apply keeps_pwset|by apply reset_inv].
Qed.

(** ** Every line, every socket *)

Lemma handshake_inv line sock d :
  dev_inv d ->
  dev_inv (exec (pake_handle_line line sock) d) /\ dev_inv (exec (local_auth_handle_line line sock) d).
Proof.
  intros Hd. unfold pake_handle_line, local_auth_handle_line. cbv zeta. split.
  - destruct (_ && _); [done|]. rewrite exec_bind. unfold exec at 2, eval at 1. rewrite !find_run. cbn [fst snd].
    fold (slot_for sock d). destruct (slot_for sock d) as [si|] eqn:Es; [|by apply calm_inv; [calm_solve|]].
    rewrite exec_bind. change (exec (ret true) ?x) with x. apply (at_slot_exit _ si).
    pose proof (at_slot_enter _ _ _ Hd Es). destruct (has_prefix line PAKE1_PREFIX);
      [by eapply triple_pake1|by apply triple_pake3].
  - destruct (_ && _); [done|]. rewrite exec_bind. unfold exec at 2, eval at 1. rewrite !find_run. cbn [fst snd].
    fold (slot_for sock d). destruct (slot_for sock d) as [si|] eqn:Es; [|by apply calm_inv; [calm_solve|]].
    rewrite exec_bind. change (exec (ret true) ?x) with x. apply (at_slot_exit _ si).
    pose proof (at_slot_enter _ _ _ Hd Es). destruct (has_prefix line ENROLL_PREFIX);
      [by apply triple_enroll|]. destruct (has_prefix line AUTH1_PREFIX);
      [by eapply triple_auth1|by apply triple_auth3].
Qed.

Lemma dispatch_inv line sock : keeps (tcp_dispatch_line line sock).
Proof.
  unfold tcp_dispatch_line. apply keeps_bind; [apply keeps_calm; calm_solve|intros ok].
  destruct (negb ok); [by intros d|].
  apply keeps_bind; [intros d Hd; by apply handshake_inv|intros [|]; [by intros d|]].
  apply keeps_bind; [intros d Hd; by apply handshake_inv|intros [|]; [by intros d|]].
  apply keeps_bind; [intros d Hd; by apply owner_commands_inv|intros [|]; [by intros d|]].
  apply keeps_calm. calm_solve.
Qed.

End Invariant.

(** The two readings. *)
Definition loose : Reading := false.
Definition exact : Reading := true.

Lemma loose_stores {P : Platform} : @Stores P loose.
Proof. done. Qed.
Lemma exact_stores {P : Platform} : NvsReliable P -> @Stores P exact.
Proof. by intros H _. Qed.

(** Export of the calm operations. *)
Create HintDb calm_ops.
#[export] Hint Resolve calm_find calm_enc_frame_send calm_unwrap calm_security_send_line calm_send_err
  calm_refresh calm_event_push calm_pw_clear calm_pw_set calm_pw_get calm_pw_lock calm_pw_fail
  calm_pw_success calm_apply_mode calm_mode_set calm_send_raw calm_send_data calm_pairing_commit
  calm_pairing calm_prov_nvs_get calm_prov_nvs_set calm_prov_send calm_prov_reset calm_provisioning
  calm_ota calm_app_call calm_app calm_policy calm_send_task : calm_ops.
