(* ===== verification/System.v ===== *)
(** * System: the running device as a transition system

    A step is one thing a task of the running firmware does: a socket is
    accepted, a receive task gets a byte, a timeout or the end of its
    connection, the send task drains the FIFO, the pairing timer fires. The
    tasks interleave at this grain; each step is one of the definitions of the
    component files. *)

From S2P Require Import Prelude Platform State LocalSession Mdns EncFrame PairedList PairingEvents.
From S2P Require Import DevicePassword Discovery AccessPolicy PakeHandler LocalAuth OwnerCommands.
From S2P Require Import ResponseFifo ClientList Flash WifiPairing Provisioning TcpServer Invariant.
From stdpp Require Import base list strings numbers relations.
From Stdlib Require Import ZArith Lia.

Local Open Scope cything_scope.

Section System.
Context {P : Platform} {C : Config} {RD : Reading}.

(** [accept] hands out a descriptor no live connection uses. *)
Inductive step : Dev -> Dev -> Prop :=
  | step_accept d sock ip :
      (0 <= sock)%Z -> slot_of sock (pool d) = None -> step d (exec (tcp_accept sock ip) d)
  | step_recv d si s ev rx :
      pool d !! si = Some s -> (0 <= ls_sock s)%Z ->
      step d (exec (recv_step si (ls_sock s) ev rx) d)
  | step_exit d sock : (0 <= sock)%Z -> step d (exec (recv_exit sock) d)
  | step_send d : step d (exec tcp_response_send_step d)
  | step_pairing_timeout d : wp_timer (wpair d) = true -> step d (exec pairing_timeout_cb d).

Definition reachable (d0 d : Dev) : Prop := rtc step d0 d.

(** ** Each step keeps the invariant *)

Lemma inv_pool_change d d' :
  dev_inv d -> plist d' = plist d -> pool_ok (roles (plist d)) (pool d') -> dev_inv d'.
Proof. intros [H1 H2 _] E Hp. split; rewrite E; done. Qed.

Lemma shutdown_calm ip l : calm (shutdown_matching ip l).
Proof.
  induction l as [|s l IH]; cbn; [apply calm_ret|]. destruct (_ && _); [|done].
  apply calm_bind; [apply calm_emit|intros ?]. apply calm_bind; [done|intros n; apply calm_ret].
Qed.

Lemma count_shutdown_calm ip n :
  calm (if bool_decide (TCP_CLIENT_MAX <= n)
        then let* k := local_session_shutdown_peer ip in ret (bool_decide (k = 0)) else ret false).
Proof.
  case_bool_decide; [|apply calm_ret]. apply calm_bind; [|intros ?; apply calm_ret].
  unfold local_session_shutdown_peer. case_bool_decide; [apply calm_ret|].
  apply calm_bind; [apply calm_gets|intros l; apply shutdown_calm].
Qed.

Lemma reject_calm sock : calm (reject sock).
Proof. apply calm_bind; [apply calm_emit|intros ?; apply calm_emit]. Qed.
Lemma remove_account_calm sock : calm (remove_account sock).
Proof. by apply calm_modify. Qed.
Lemma add_account_calm sock : calm (add_account sock).
Proof.
  apply calm_bind; [apply calm_gets|intros a]. case_bool_decide; [apply calm_ret|].
  apply calm_bind; [by apply calm_modify|intros ?; apply calm_ret].
Qed.

Lemma release_inv d sock : (0 <= sock)%Z -> dev_inv d -> dev_inv (exec (local_session_release sock) d).
Proof.
  intros Hs Hd. destruct (release_ok _ d sock (inv_pool _ Hd) Hs) as (H1 & H2 & _).
  eapply inv_pool_change; [exact Hd| |exact H1]. rewrite H2. done.
Qed.

(** A calm step does not free or reuse a slot. *)
Lemma same_core_slot_of k d d' : same_core d d' -> slot_of k (pool d') = slot_of k (pool d).
Proof.
  intros [_ HF]. unfold slot_of. induction HF as [|s s' l l' (_ & Hk & _) _ IH]; [done|].
  cbn [list_find]. destruct (decide (ls_sock s = k)), (decide (ls_sock s' = k)); try congruence.
  cbn. f_equal. destruct (list_find _ l) as [[i x]|], (list_find _ l') as [[i' x']|]; cbn in *; congruence.
Qed.

Lemma accept_inv d sock ip :
  dev_inv d -> (0 <= sock)%Z -> slot_of sock (pool d) = None -> dev_inv (exec (tcp_accept sock ip) d).
Proof.
  intros Hd Hs Hn. unfold tcp_accept. rewrite exec_bind. change (exec local_session_count d) with d.
  set (n := eval local_session_count d). rewrite exec_bind.
  pose proof (count_shutdown_calm ip n) as Hm. set (m1 := if bool_decide _ then _ else _) in *.
  specialize (Hm d) as C1. set (d1 := exec m1 d) in *. clearbody n.
  destruct (eval m1 d); [apply (calm_inv (reject sock ;; ret None)); [apply calm_bind; [apply reject_calm|intros ?; apply calm_ret]|by eapply same_core_inv]|].
  rewrite exec_bind. pose proof (same_core_trans _ _ _ C1 (add_account_calm sock d1)) as C2.
  set (d2 := exec (add_account sock) d1) in *. assert (dev_inv d2) as Hd2 by (by eapply same_core_inv).
  destruct (negb _).
  { apply (calm_inv (reject sock ;; ret None)); [apply calm_bind; [apply reject_calm|intros ?; apply calm_ret]|done]. }
  rewrite exec_bind. pose proof (same_core_slot_of sock _ _ C2) as Hn2. rewrite Hn in Hn2.
  destruct (eval (local_session_acquire sock ip) d2) as [si|] eqn:Ea.
  - destruct (acquire_ok _ d2 sock ip si (inv_pool _ Hd2) Hs Hn2 Ea) as (A1 & A2 & _).
    set (d3 := exec (local_session_acquire sock ip) d2) in *.
    assert (dev_inv d3) as Hd3 by (eapply inv_pool_change; [exact Hd2|rewrite A2; done|exact A1]).
    rewrite exec_bind. change (exec (ask ?f) d3) with d3. destruct (eval _ d3).
    + apply (calm_inv (emit _ ;; ret _)); [apply calm_bind; [apply calm_emit|intros ?; apply calm_ret]|done].
    + rewrite exec_bind. apply (calm_inv (remove_account sock ;; reject sock ;; ret None));
        [|by apply release_inv].
      apply calm_bind; [apply remove_account_calm|intros ?].
      apply calm_bind; [apply reject_calm|intros ?; apply calm_ret].
  - assert (exec (local_session_acquire sock ip) d2 = d2) as ->.
    { revert Ea. unfold local_session_acquire. rewrite eval_bind, exec_bind, eval_gets, exec_gets.
      destruct (slot_of (-1) (pool d2)); [|done]. by autorewrite with cything. }
    apply (calm_inv (remove_account sock ;; reject sock ;; ret None)); [|done].
    apply calm_bind; [apply remove_account_calm|intros ?].
    apply calm_bind; [apply reject_calm|intros ?; apply calm_ret].
Qed.

Lemma rx_len_core d si s n :
  pool d !! si = Some s -> (0 <= ls_sock s)%Z -> same_core d (exec (upd_sess si (set_ls_rx_len n)) d).
Proof.
  intros Hs Hk. apply (calm_slot d si s (set_ls_rx_len n)); [done|lia|].
  split_and!; [lia|done|done].
Qed.

Section Reliable.
Context {CL : CryptoLaws P} {ST : Stores}.

Lemma recv_line_inv line sock : keeps (recv_line line sock).
Proof.
  apply keeps_bind; [apply keeps_calm, calm_unwrap|intros [l|]; [apply dispatch_inv|by intros d]].
Qed.

Lemma recv_step_inv d si s ev rx :
  dev_inv d -> pool d !! si = Some s -> (0 <= ls_sock s)%Z ->
  dev_inv (exec (recv_step si (ls_sock s) ev rx) d).
Proof.
  intros Hd Hs Hk. unfold recv_step. destruct ev as [c| | |]; [|rewrite exec_bind; by eapply same_core_inv; [eapply rx_len_core|]|done..].
  rewrite exec_bind, eval_gets, exec_gets, (sess_lookup _ _ _ Hs). cbv zeta. rewrite exec_bind.
  set (n := S (ls_rx_len s)). pose proof (rx_len_core d si s n Hs Hk) as C1.
  set (d1 := exec (upd_sess si (set_ls_rx_len n)) d) in *.
  destruct (same_core_lookup _ _ _ _ C1 Hs) as (s1 & Hs1 & _ & Hk1 & _).
  assert (dev_inv d1) as Hd1 by (by eapply same_core_inv).
  assert (dev_inv (exec (upd_sess si (set_ls_rx_len 0)) d1)) as Hd2
    by (eapply same_core_inv; [eapply rx_len_core; [exact Hs1|lia]|done]).
  case_bool_decide; [rewrite exec_bind; done|]. case_bool_decide; [|done].
  rewrite !exec_bind. by apply recv_line_inv.
Qed.

Lemma step_inv d d' : dev_inv d -> step d d' -> dev_inv d'.
Proof.
  intros Hd Hst. revert Hd. destruct Hst as [d0 sock ip Hs Hn|d0 si s ev rx Hs Hk|d0 sock Hs|d0|d0 _]; intros Hd.
  - by apply accept_inv.
  - by apply recv_step_inv.
  - unfold recv_exit. rewrite exec_bind.
    apply (calm_inv (remove_account sock ;; emit (EvShutdown sock) ;; emit (EvClose sock)));
      [|by apply release_inv].
    apply calm_bind; [apply remove_account_calm|intros ?]. apply reject_calm.
  - apply calm_inv; [apply calm_send_task|done].
  - apply calm_inv; [by apply calm_modify|done].
Qed.

End Reliable.
End System.
