(* ===== verification/SimPlatform.v ===== *)
(** * SimPlatform: a concrete platform

    An executable instance of [Platform] and [Config] on which the laws hold,
    so that the theorems can be applied to concrete devices. NVS is an
    association list that can be told to fail; base64 is RFC 4648; the
    cryptographic primitives are stand-ins with the shapes the laws ask for. *)

From S2P Require Import Prelude Platform State.
From stdpp Require Import base list strings numbers.
From Stdlib Require Import ZArith Lia.

(** ** Base64 *)

Definition b64_char (v : Z) : Z :=
  if bool_decide (v < 26)%Z then (65 + v)%Z
  else if bool_decide (v < 52)%Z then (71 + v)%Z
  else if bool_decide (v < 62)%Z then (v - 4)%Z
  else if bool_decide (v = 62)%Z then 43%Z else 47%Z.

Definition b64_val (c : Z) : option Z :=
  if bool_decide (65 <= c <= 90)%Z then Some (c - 65)%Z
  else if bool_decide (97 <= c <= 122)%Z then Some (c - 71)%Z
  else if bool_decide (48 <= c <= 57)%Z then Some (c + 4)%Z
  else if bool_decide (c = 43)%Z then Some 62%Z
  else if bool_decide (c = 47)%Z then Some 63%Z else None.

Definition PAD : Z := 61.

Fixpoint b64_enc (l : bytes) : bytes :=
  match l with
  | a :: b :: c :: r =>
      [b64_char (a / 4); b64_char (a mod 4 * 16 + b / 16); b64_char (b mod 16 * 4 + c / 64);
       b64_char (c mod 64)]%Z ++ b64_enc r
  | [a; b] => [b64_char (a / 4); b64_char (a mod 4 * 16 + b / 16); b64_char (b mod 16 * 4); PAD]%Z
  | [a] => [b64_char (a / 4); b64_char (a mod 4 * 16); PAD; PAD]%Z
  | [] => []
  end.

Fixpoint b64_dec (l : bytes) : option bytes :=
  match l with
  | [] => Some []
  | a :: b :: c :: d :: r =>
      match b64_val a, b64_val b with
      | Some x, Some y =>
          if bool_decide (c = PAD) && bool_decide (d = PAD) && bool_decide (r = [])
          then Some [x * 4 + y / 16]%Z
          else match b64_val c with
               | Some z =>
                   if bool_decide (d = PAD) && bool_decide (r = [])
                   then Some [x * 4 + y / 16; y mod 16 * 16 + z / 4]%Z
                   else match b64_val d with
                        | Some w => app [x * 4 + y / 16; y mod 16 * 16 + z / 4; z mod 4 * 64 + w]%Z
                                    <$> b64_dec r
                        | None => None
                        end
               | None => None
               end
      | _, _ => None
      end
  | _ => None
  end.

Lemma b64_val_char v : (0 <= v < 64)%Z -> b64_val (b64_char v) = Some v.
Proof.
  intros Hv. unfold b64_char, b64_val, PAD. repeat case_bool_decide; try lia; f_equal; lia.
Qed.

Lemma b64_char_range v : (0 <= v < 64)%Z -> (43 <= b64_char v <= 122)%Z /\ b64_char v <> 44%Z /\ b64_char v <> PAD.
Proof. intros Hv. unfold b64_char, PAD. repeat case_bool_decide; lia. Qed.

(** Induction three bytes at a time. *)
Lemma three_ind (Q : bytes -> Prop) :
  Q [] -> (forall a, Q [a]) -> (forall a b, Q [a; b]) ->
  (forall a b c r, Q r -> Q (a :: b :: c :: r)) -> forall l, Q l.
Proof.
  intros H0 H1 H2 H3 l. remember (length l) as n eqn:Hn. assert (length l <= n) as Hl by lia. clear Hn.
  revert l Hl. induction n as [|n IH]; intros [|a [|b [|c r]]] Hl; cbn in Hl; try lia; auto.
  apply H3, IH. lia.
Qed.

Ltac byte_div := unfold is_byte in *; Z.to_euclidean_division_equations; lia.

Lemma b64_dec_enc l : Forall is_byte l -> b64_dec (b64_enc l) = Some l.
Proof.
  induction l as [|a|a b|a b c r IH] using three_ind; intros Hb; [done|..];
    repeat (apply Forall_cons_1 in Hb as [? Hb]); cbn [b64_enc b64_dec app].
  - rewrite !b64_val_char by byte_div.
    rewrite !bool_decide_eq_true_2 by done. cbn. do 2 f_equal. byte_div.
  - rewrite !b64_val_char by byte_div.
    rewrite (bool_decide_eq_false_2 (b64_char _ = PAD)) by (apply b64_char_range; byte_div).
    rewrite !bool_decide_eq_true_2 by done. cbn. do 2 f_equal; [byte_div|]. f_equal. byte_div.
  - rewrite !b64_val_char by byte_div.
    rewrite !(bool_decide_eq_false_2 (b64_char _ = PAD)) by (apply b64_char_range; byte_div). cbn.
    rewrite IH by done. cbn. do 2 f_equal; [byte_div|]. f_equal; [byte_div|]. f_equal. byte_div.
Qed.

Lemma b64_enc_length l : length (b64_enc l) = 4 * ((length l + 2) / 3).
Proof.
  induction l as [|a|a b|a b c r IH] using three_ind; [done..|].
  cbn [b64_enc app length]. rewrite IH.
  replace (S (S (S (length r))) + 2) with ((length r + 2) + 1 * 3) by lia.
  rewrite Nat.div_add by lia. lia.
Qed.

Lemma b64_enc_forall (Q : Z -> Prop) l :
  (forall v, (0 <= v < 64)%Z -> Q (b64_char v)) -> Q PAD -> Forall is_byte l -> Forall Q (b64_enc l).
Proof.
  intros Hc Hp. induction l as [|a|a b|a b c r IH] using three_ind; intros Hb; [constructor|..];
    repeat (apply Forall_cons_1 in Hb as [? Hb]); cbn [b64_enc app];
    repeat (apply Forall_cons_2; [first [exact Hp|apply Hc; byte_div]|]); [constructor..|by apply IH].
Qed.

Lemma b64_enc_clean l :
  Forall is_byte l -> Forall (fun c => c <> COMMA /\ c <> NL /\ c <> NUL) (b64_enc l).
Proof.
  apply b64_enc_forall; [|unfold PAD, COMMA, NL, NUL; lia].
  intros v Hv. destruct (b64_char_range v Hv) as (? & ? & _). unfold COMMA, NL, NUL. lia.
Qed.

Lemma b64_enc_bytes l : Forall is_byte l -> Forall is_byte (b64_enc l).
Proof.
  apply b64_enc_forall; [|unfold PAD, is_byte; lia].
  intros v Hv. unfold b64_char, is_byte. repeat case_bool_decide; lia.
Qed.

(** ** The world *)

Record sim_world := Build_sim {
  sw_nvs : list ((string * string) * bytes);
  sw_fail : bool;  (* NVS writes fail *)
  sw_rng : Z;
  sw_now : Z;
  sw_flash : list ((Z * Z) * Z * bytes);
}.

Definition sim_get (ns k : string) (w : sim_world) : option bytes :=
  snd <$> (snd <$> list_find (fun e => fst e = (ns, k)) (sw_nvs w)).

Definition sim_set (ns k : string) (v : bytes) (w : sim_world) : sim_world :=
  Build_sim (((ns, k), v) :: sw_nvs w) (sw_fail w) (sw_rng w) (sw_now w) (sw_flash w).

Definition sim_del (ns k : string) (w : sim_world) : sim_world :=
  Build_sim (filter (fun e => fst e <> (ns, k)) (sw_nvs w)) (sw_fail w) (sw_rng w) (sw_now w) (sw_flash w).

Definition sim_read (ns k : string) (cap : nat) (w : sim_world) : esp_err_t * bytes :=
  match sim_get ns k w with
  | Some v => if bool_decide (cap < length v) then (ESP_ERR_NVS_INVALID_LENGTH, []) else (ESP_OK, v)
  | None => (ESP_ERR_NVS_NOT_FOUND, [])
  end.

Definition sim_num (r : esp_err_t * bytes) : esp_err_t * Z := (fst r, default 0%Z (head (snd r))).

(** [reliable] says whether the failure switch of the world is honoured. *)
Definition sim_write (reliable : bool) (f : sim_world -> sim_world) (w : sim_world) : esp_err_t * sim_world :=
  if negb reliable && sw_fail w then (ESP_FAIL, w) else (ESP_OK, f w).

(** Flash: a log of writes, the last one on top of the list; 0xFF when blank. *)
Fixpoint sim_byte (l : list ((Z * Z) * Z * bytes)) (p : Z * Z) (i : Z) : Z :=
  match l with
  | [] => 255%Z
  | (q, off, v) :: l =>
      match (if bool_decide (p = q /\ (off <= i)%Z) then v !! Z.to_nat (i - off) else None) with
      | Some c => c
      | None => sim_byte l p i
      end
  end.

Definition sim_log (p : Z * Z) (off : Z) (v : bytes) (w : sim_world) : sim_world :=
  Build_sim (sw_nvs w) (sw_fail w) (sw_rng w) (sw_now w) ((p, off, v) :: sw_flash w).

Definition sim_burn (p : Z * Z) (off : Z) (v : bytes) (w : sim_world) : bytes :=
  imap (fun k c => Z.land (sim_byte (sw_flash w) p (off + Z.of_nat k)) c) v.

(** A 32-byte checksum in place of HMAC-SHA256. *)
Definition sim_mac (k m : bytes) : bytes :=
  let s := foldl (fun acc c => (acc * 31 + c + 7) mod 65521)%Z 1%Z (k ++ [257%Z] ++ m) in
  (fun i => ((s + Z.of_nat i * 97) mod 256)%Z) <$> seq 0 32.

(** Encryption adds a key-dependent byte; the tag is a checksum. *)
Definition sim_shift (k n : bytes) : Z := default 0%Z (head (sim_mac k n)).
Definition sim_tag (k n ct : bytes) : bytes := take 16 (sim_mac (k ++ n) ct).

Definition sim_encrypt (k n pt : bytes) : Z * (bytes * bytes) :=
  let ct := (fun c => ((c + sim_shift k n) mod 256)%Z) <$> pt in (0%Z, (ct, sim_tag k n ct)).

Definition sim_decrypt (k n tag ct : bytes) : Z * bytes :=
  if bool_decide (tag = sim_tag k n ct)
  then (0%Z, (fun c => ((c - sim_shift k n) mod 256)%Z) <$> ct) else ((-18)%Z, []).

(** The proof the password's holder sends. *)
Definition sim_good_proof : bytes := replicate 64 1%Z.

Definition sim_platform (reliable : bool) : Platform := {|
  World := sim_world;
  nvs_open := fun _ m w => (ESP_OK, w);
  nvs_get_blob := fun ns k cap w => sim_read ns k cap w;
  nvs_set_blob := fun ns k v w => sim_write reliable (sim_set ns k v) w;
  nvs_erase_key := fun ns k w => sim_write reliable (sim_del ns k) w;
  nvs_get_u8 := fun ns k w => sim_num (sim_read ns k 1 w);
  nvs_set_u8 := fun ns k v w => sim_write reliable (sim_set ns k [v]) w;
  nvs_get_u32 := fun ns k w => sim_num (sim_read ns k 1 w);
  nvs_set_u32 := fun ns k v w => sim_write reliable (sim_set ns k [v]) w;
  nvs_get_str := fun ns k cap w => sim_read ns k cap w;
  nvs_set_str := fun ns k v w => sim_write reliable (sim_set ns k v) w;
  nvs_commit := fun _ w => (ESP_OK, w);
  nvs_close := fun _ w => w;
  esp_fill_random := fun n w =>
    ((fun i => ((sw_rng w + Z.of_nat i * 5) mod 256)%Z) <$> seq 0 n,
     Build_sim (sw_nvs w) (sw_fail w) (sw_rng w + 1) (sw_now w) (sw_flash w));
  esp_timer_get_time := fun w => Z.max 0 (sw_now w);  (* never negative *)
  time_now := fun w => (1700000000 + sw_now w / 1000000)%Z;
  calloc_ok := fun _ _ => true;
  mbedtls_md_hmac := sim_mac;
  base64_encode := b64_enc;
  base64_decode := fun cap s => match b64_dec s with
                                | Some x => if bool_decide (cap < length x) then None else Some x
                                | None => None
                                end;
  gcm_setkey := fun k => if bool_decide (length k = 32) then 0%Z else (-20)%Z;
  gcm_crypt_and_tag := sim_encrypt;
  gcm_auth_decrypt := sim_decrypt;
  srp_handle := nat;
  esp_srp_init := fun w => (Some 0, w);
  esp_srp_free := fun _ w => w;
  esp_srp_set_salt_verifier := fun _ _ _ w => (ESP_OK, w);
  esp_srp_srv_pubkey := fun _ w => (ESP_OK, Some (replicate 384 7%Z), w);
  esp_srp_get_session_key := fun _ A w => (ESP_OK, Some (replicate 64 9%Z), w);
  esp_srp_exchange_proofs := fun _ _ m1 w =>
    (if bool_decide (m1 = sim_good_proof) then (ESP_OK, replicate 64 2%Z) else (ESP_FAIL, []), w);
  esp_srp_gen_salt_verifier := fun _ pw n w => (ESP_OK, (replicate n 5%Z, replicate 384 6%Z), w);
  esp_partition_read := fun p off n w =>
    (ESP_OK, (fun i => sim_byte (sw_flash w) p (off + Z.of_nat i)) <$> seq 0 n);
  esp_partition_write := fun p off v w => (ESP_OK, sim_log p off (sim_burn p off v w) w);
  esp_partition_erase_range := fun p off n w => (ESP_OK, sim_log p off (replicate (Z.to_nat n) 255%Z) w);
  esp_ota_set_boot_partition := fun _ w => (ESP_OK, w);
  rodata_behind := fun _ => zeros 256;
  uninit_stack := zeros;
  esp_efuse_mac := [1; 2; 3; 4; 5; 6]%Z;
  xTaskCreate_ok := fun _ _ => true;
  ble_gap_adv_stop := fun w => (0%Z, w);
  ble_gap_adv_set_fields := fun _ w => (0%Z, w);
  ble_gap_adv_rsp_set_fields := fun _ _ w => (0%Z, w);
  ble_gap_adv_start := fun w => (0%Z, w);
  ble_hs_util_ensure_addr := fun _ => 0%Z;
  ble_hs_id_infer_auto := fun _ => 0%Z;
  nimble_port_init := fun w => (ESP_OK, w);
  md_sha256 := fun m => (0%Z, sim_mac [] m);
  pk_parse_key := fun _ => 0%Z;
  pk_gen_key_pem := fun _ w => ((0%Z, str "PEM"), w);
  pk_sign := fun _ h w => ((0%Z, h), w);
  csr_write_der := fun _ _ _ w => ((3%Z, [1; 2; 3]%Z), w);
|}.

Definition sim_config (reliable enforce overwrite : bool) : @Config (sim_platform reliable) :=
  @Build_Config (sim_platform reliable)
    enforce true overwrite
    (str "GET_INFO") (str "ssid:") (str "pass:") (str "Lamp") (str "lamp") (str "1.0") (str "A")
    (str "12345678") (str "Cy_WiFi_") (str "ACK") (replicate 16 0%Z) 1234 1234 true (str "ch") [] [] (fun _ => false)
    (fun line sock w => ((true, [SendData (-2) (line ++ [NL])]), w)).

(** ** The laws hold *)

#[export] Instance sim_base64 r : Base64Laws (sim_platform r).
Proof.
  split; cbn.
  - intros cap x Hb Hl. rewrite b64_dec_enc by done. by rewrite bool_decide_eq_false_2 by lia.
  - intros cap s x. destruct (b64_dec s); [|done]. case_bool_decide; [done|]. intros [= ->]. lia.
  - apply b64_enc_length.
  - apply b64_enc_clean.
  - apply b64_enc_bytes.
Qed.

Lemma sim_mac_length k m : length (sim_mac k m) = 32.
Proof. done. Qed.

Lemma sim_mac_bytes k m : Forall is_byte (sim_mac k m).
Proof.
  unfold sim_mac. apply Forall_fmap, List.Forall_forall. intros i _. unfold is_byte. cbn.
  pose proof (Z.mod_pos_bound). apply Z.mod_pos_bound. lia.
Qed.

#[export] Instance sim_crypto r : CryptoLaws (sim_platform r).
Proof.
  split; [done|exact sim_mac_bytes|].
  intros n w. cbn. by rewrite length_fmap, length_seq.
Qed.

#[export] Instance sim_gcm r : GcmLaws (sim_platform r).
Proof.
  split; cbn.
  - intros k Hk. by rewrite bool_decide_eq_true_2.
  - intros k n pt rc ct tag [= <- <- <-]. by rewrite length_fmap.
  - intros k n pt rc ct tag _ [= <- <- <-]. apply Forall_app. split.
    + apply Forall_fmap, List.Forall_forall. intros c _. apply Z.mod_pos_bound. lia.
    + apply Forall_take, sim_mac_bytes.
  - intros k n pt ct tag Hb [= <- <-]. unfold sim_decrypt. rewrite bool_decide_eq_true_2 by done.
    f_equal. rewrite <- list_fmap_compose. rewrite <- (list_fmap_id pt) at 2.
    apply list_fmap_ext. intros i c Hi. pose proof (Forall_lookup_1 _ _ _ _ Hb Hi) as Hc. unfold is_byte in Hc.
    unfold compose. generalize (sim_shift k n). intros t.
    rewrite Zminus_mod_idemp_l. replace (c + t - t)%Z with c by lia.
    unfold id. by apply Z.mod_small.
Qed.

#[export] Instance sim_flash_reliable r : FlashReliable (sim_platform r).
Proof. by split. Qed.

#[export] Instance sim_reliable : NvsReliable (sim_platform true).
Proof. split; cbn; try done. intros. by left. Qed.

#[export] Instance sim_reads_back r : NvsReadsBack (sim_platform r).
Proof.
  split. intros ns k v cap w w1. cbn. unfold sim_write. destruct (negb r && sw_fail w); [done|].
  intros [= <-] Hl. split; [done|]. unfold sim_read, sim_get. cbn. rewrite decide_True by done. cbn.
  by rewrite bool_decide_eq_false_2 by lia.
Qed.

#[export] Program Instance sim_flash r : FlashLaws (sim_platform r) :=
  {| part_mem := fun w : sim_world => sim_byte (sw_flash w) |}.
Next Obligation. by intros r p off n w b [= <-]. Qed.
Next Obligation.
  intros r p off v w w' [= <-] q i. cbn. unfold sim_burn.
  case_bool_decide as Hb; [|done]. destruct Hb as [-> Hle]. rewrite list_lookup_imap.
  destruct (v !! Z.to_nat (i - off)); [|done]. cbn. by replace (off + Z.of_nat (Z.to_nat (i - off)))%Z with i by lia.
Qed.
Next Obligation.
  intros r p off n w w' [= <-] q i. cbn. case_bool_decide as Hb; case_bool_decide as Hc; try tauto.
  - destruct (replicate _ _ !! _) eqn:E; [by apply lookup_replicate in E as [-> _]|].
    apply lookup_replicate_None in E. lia.
  - destruct (replicate _ _ !! _) eqn:E; [|done]. apply lookup_replicate in E as [_ E].
    destruct Hc. destruct Hb. split; [done|lia].
Qed.

#[export] Instance sim_gcm_reliable r : GcmReliable (sim_platform r).
Proof. by split. Qed.

#[export] Instance sim_ble_reliable r : BleReliable (sim_platform r).
Proof. by split. Qed.

(** The simulated SRP takes every password to the same key. *)
#[export] Program Instance sim_srp r : SrpLaws (sim_platform r) := {|
  srp_verifier := fun _ _ _ => replicate 384 6%Z;
  srp_phone_public := fun _ => replicate 384 4%Z;
  srp_phone_key := fun _ _ _ _ _ => replicate 64 9%Z;
  srp_phone_proof := fun _ _ _ _ _ => sim_good_proof;
  srp_expects := fun _ _ m1 _ => m1 = sim_good_proof;
|}.
Next Obligation. cbn. intros. by simplify_eq. Qed.
Next Obligation. intros r hd id m1 w ->. cbn. by rewrite bool_decide_eq_true_2. Qed.
Next Obligation. intros. change (0 < length (replicate 384 4%Z) <= 384). rewrite length_replicate. lia. Qed.
Next Obligation. intros. change (Forall is_byte (replicate 384 4%Z)). apply list.Forall_replicate. unfold is_byte. lia. Qed.
Next Obligation. done. Qed.
Next Obligation. intros. change (Forall is_byte (replicate 64 1%Z)). apply list.Forall_replicate. unfold is_byte. lia. Qed.

#[export] Instance sim_srp_reliable r : SrpReliable (sim_platform r).
Proof.
  split; intros; [by exists 0|done| |].
  - exists (replicate 384 7%Z). by rewrite length_replicate.
  - exists (replicate 64 9%Z). by rewrite length_replicate.
Qed.

(** ** Devices to start from *)

Section Boot.
Context (r : bool).
#[local] Instance sim_P : Platform := sim_platform r.

Definition sim_world0 : sim_world := Build_sim [] false 3 1000 [].
Definition sim_failing : sim_world := Build_sim [] true 3 1000 [].

(** A device just booted with blank flash. *)
Definition sim_dev (w : sim_world) : Dev :=
  Build_dev (replicate LOCAL_SESSION_MAX null_session)
    (Build_blob 3 0 (zeros 41) (replicate PAIRED_LIST_MAX null_entry))
    (Build_pw [] [] [] [] (replicate IP_SLOTS null_ip_slot) 0 0)
    (Build_queue 0 (replicate PAIRING_EVENTS_MAX (zeros PAIRING_EVENT_JSON_MAX)))
    (Build_fifo (zeros RESPONSE_FIFO_SIZE) 0 false)
    (Build_fifo (zeros RESPONSE_FIFO_SIZE) 0 false)
    (Build_accounts (replicate ACCOUNT_MAX 0%Z) 0) 10
    (Build_pairing 0 [] [] false)
    (Build_prov [] [] [] [] [] false HS_IDLE [] [] [] [] 0 1)
    DISCOVERY_BOTH (Build_beacon false false false false [255; 255; 1; 0; 0; 0; 0]%Z [] true)
    true [] (Build_flash (0, 0)%Z (0, 0)%Z (0, 0)%Z (0, 0)%Z 0 0 [] [] [])
    (Build_ble 65535 false (0, 0)%Z [] [] false)
    (Build_trial false false false WIFI_TRIAL_TIMEOUT 0 false false)
    (Build_station false 0 false [] [] 1 false) 0 1000 w [].

(** The same device with one session in slot 0, on socket 54. *)
Definition sim_session (st : local_session_state_t) (ro : local_session_role_t) (ix : Z) : local_session_t :=
  Build_session 54 167772161 0 st ro ix None (replicate 32 9%Z) (zeros 16) (zeros 16) 4 7 true.

Definition sim_with (s : local_session_t) (d : Dev) : Dev := set_pool (<[0 := s]> (pool d)) d.

Definition sim_keyed : Dev := sim_with (sim_session LS_PAKE_OK LS_ROLE_NONE (-1)) (sim_dev sim_world0).

End Boot.
