(* ===== verification/SimDevices.v ===== *)
(** * SimDevices: concrete devices that satisfy the invariant

    A blank device, and the same device after two accounts have enrolled, with
    the owner or the other account logged in. *)

From S2P Require Import Prelude Platform State LocalSession Mdns EncFrame PairedList Invariant SimPlatform.
From stdpp Require Import base list strings numbers.
From Stdlib Require Import ZArith Lia.

Local Open Scope cything_scope.

#[export] Instance simP : Platform := sim_platform true.
#[export] Instance simC : Config := sim_config true true true.

Definition blank : Dev := sim_dev true sim_world0.
Definition alice_only : paired_blob_t := add_new (str "alice") (str "a@x") (replicate 32 4%Z) 0 empty_list.
Definition two_accounts : paired_blob_t := add_new (str "bob") (str "b@x") (replicate 32 5%Z) 0 alice_only.

(** Alice, the owner, is logged in on socket 54. *)
Definition sim_home : Dev :=
  set_plist two_accounts (sim_with true (sim_session true LS_AUTH_OK LS_ROLE_OWNER 0) blank).

(** Bob is logged in instead. *)
Definition sim_guest : Dev :=
  set_plist two_accounts (sim_with true (sim_session true LS_AUTH_OK LS_ROLE_USER 1) blank).

Section Consistent.
Context {RD : Reading}.

Lemma fresh_pool_ok rs : pool_ok rs (replicate LOCAL_SESSION_MAX null_session).
Proof.
  split_and!; [done|by apply Forall_replicate|].
  intros i j si sj Hi _ _ Hs. apply lookup_replicate in Hi as [-> _]. cbn in Hs. lia.
Qed.

(** One live session in an otherwise empty pool. *)
Lemma one_session_ok rs s :
  session_ok rs s -> pool_ok rs (<[0 := s]> (replicate LOCAL_SESSION_MAX null_session)).
Proof.
  intros Hs. split_and!; [done|by apply Forall_insert; [apply Forall_replicate|]|].
  intros i j si sj Hi Hj E Hp.
  assert (forall k sk, <[0 := s]> (replicate LOCAL_SESSION_MAX null_session) !! k = Some sk ->
            (0 <= ls_sock sk)%Z -> k = 0) as H.
  { intros k sk Hk Hpos. destruct k as [|k]; [done|]. rewrite list_lookup_insert_ne in Hk by done.
    apply lookup_replicate in Hk as [-> _]. cbn in Hpos. lia. }
  rewrite (H i si Hi Hp). rewrite E in Hp. by rewrite (H j sj Hj Hp).
Qed.

Lemma blank_inv : dev_inv blank.
Proof. split; [apply empty_list_ok|apply empty_owned|apply fresh_pool_ok]. Qed.

Lemma alice_only_ok : list_ok alice_only /\ owned alice_only.
Proof.
  assert (list_ok alice_only) as H by (apply add_new_ok; try apply empty_list_ok; try (vm_compute; done); cbn; unfold PAIRED_LIST_MAX; lia).
  split; [done|]. apply owned_add_new; try done; [apply empty_list_ok|apply empty_owned|cbn; unfold PAIRED_LIST_MAX; lia].
Qed.

Lemma two_accounts_ok : list_ok two_accounts /\ owned two_accounts.
Proof.
  destruct alice_only_ok as [H1 H2].
  assert (list_ok two_accounts) as H by (apply add_new_ok; try done; try (vm_compute; done); cbn; unfold PAIRED_LIST_MAX; lia).
  split; [done|]. apply owned_add_new; try done. cbn. unfold PAIRED_LIST_MAX. lia.
Qed.

Lemma home_inv ro ix :
  session_ok (roles two_accounts) (sim_session true LS_AUTH_OK ro ix) ->
  dev_inv (set_plist two_accounts (sim_with true (sim_session true LS_AUTH_OK ro ix) blank)).
Proof. intros Hs. split; [apply two_accounts_ok..|by apply one_session_ok]. Qed.

Lemma sim_home_inv : dev_inv sim_home.
Proof.
  apply home_inv. split_and!; [cbn; lia..|]. split; [done|]. by apply (bound_lookup _ _ PAIRED_ROLE_OWNER).
Qed.

Lemma sim_guest_inv : dev_inv sim_guest.
Proof.
  apply home_inv. split_and!; [cbn; lia..|]. split; [done|]. by apply (bound_lookup _ _ PAIRED_ROLE_USER).
Qed.
End Consistent.

(** What is computed below is read exactly: the simulated flash stores what it is given. *)
#[export] Instance sim_reading : Reading := exact.
#[export] Instance sim_stores : Stores.
Proof. apply exact_stores, _. Defined.
