(* ===== verification/SimRadio.v ===== *)
(** * SimRadio: a concrete radio

    An instance of [Radio] over the concrete platform: every driver call
    succeeds and a download takes two pieces. *)

From S2P Require Import Prelude Platform Radio State SimPlatform SimDevices.
From stdpp Require Import base list strings numbers.
From Stdlib Require Import ZArith Lia.

(** The random counter of the world stands for how far a download has come. *)
Definition sim_advance (w : sim_world) : sim_world :=
  Build_sim (sw_nvs w) (sw_fail w) (sw_rng w + 1) (sw_now w) (sw_flash w).

#[export] Instance sim_radio : Radio simP := {|
  esp_wifi_set_mode := fun _ w => (ESP_OK, w);
  esp_wifi_set_config := fun _ w => (ESP_OK, w);
  esp_wifi_connect := fun w => (ESP_OK, w);
  esp_wifi_disconnect := fun w => (ESP_OK, w);
  WIFI_REASON_AUTH_EXPIRE := 2;
  WIFI_REASON_MIC_FAILURE := 14;
  WIFI_REASON_4WAY_HANDSHAKE_TIMEOUT := 15;
  WIFI_REASON_NO_AP_FOUND := 201;
  WIFI_REASON_AUTH_FAIL := 202;
  WIFI_REASON_HANDSHAKE_TIMEOUT := 204;
  wifi_reasons_no_ap_threshold := [];
  netif_sta_ip := fun _ => 117440522%Z;
  netif_ap_ip := fun _ => 17082560%Z;
  esp_netif_create_default_wifi_sta := fun w => (true, w);
  xEventGroupCreate := fun w => (true, w);
  esp_event_handler_instance_register := fun _ w => (ESP_OK, w);
  mdns_init := fun w => (ESP_OK, w);
  mdns_hostname_set := fun _ w => (ESP_OK, w);
  mdns_instance_name_set := fun _ w => (ESP_OK, w);
  mdns_service_add := fun _ _ _ w => (ESP_OK, w);
  mdns_free := fun w => w;
  ble_gatts_count_cfg := fun w => (0%Z, w);
  ble_gatts_add_svcs := fun w => (0%Z, w);
  ble_hs_mbuf_to_flat := fun _ => 0%Z;
  os_mbuf_append := fun _ _ => 0%Z;
  esp_https_ota_begin := fun _ w => (ESP_OK, w);
  esp_https_ota_get_image_size := fun _ => 1000%Z;
  esp_https_ota_perform := fun w =>
    ((bool_decide (sw_rng w < 5)%Z, (sw_rng w - 2) * 300)%Z, sim_advance w);
  esp_https_ota_is_complete := fun _ => true;
  esp_https_ota_finish := fun w => w;
  esp_https_ota_abort := fun w => w;
|}.

#[export] Instance sim_ota_ends : OtaEnds sim_radio.
Proof.
  refine (Build_OtaEnds simP sim_radio (fun w : sim_world => Z.to_nat (5 - sw_rng w)) _).
  intros w w' n. cbn. intros [= Hb _ <-]. apply bool_decide_eq_true in Hb. cbn. lia.
Qed.
