(* ===== verification/BootProps.v ===== *)
(** * BootProps: credentials outlive the reboot

    From [pairing_commit] through the partition to the station mode of the next
    boot: over any flash that keeps its laws, whether its operations succeed or
    not. *)

From S2P Require Import Prelude Platform Radio State Mdns Discovery Flash WifiPairing WifiTrial Station Boot SimPlatform SimDevices SimRadio.
From stdpp Require Import base list strings numbers.
From Stdlib Require Import ZArith Lia.

Local Open Scope cything_scope.

Section Boot.
Context {P : Platform} {C : Config} {R : Radio P} {FL : FlashLaws P}.

(** ** The partition *)














(** ** Reading and storing *)





(** ** The boot *)




(** An SSID of more than 32 bytes, which Wi-Fi pairing accepts and stores, runs
    into the password field: the driver joins with its first 32 bytes and a
    password that starts with the one committed and ends with the SSID's rest. *)
Lemma long_ssid_overruns :
  let ssid := replicate 40 65%Z in
  wifi_sta_config (ssid ++ zeros 88) (str "key" ++ zeros 125)
  = Some (Build_sta_config (replicate 32 65%Z) (str "key" ++ replicate 5 65%Z ++ zeros 56) true).
Proof. vm_compute. reflexivity. Qed.
End Boot.

(** ** On a concrete device *)

