(* ===== verification/ResetProps.v ===== *)
(** * ResetProps: a factory reset by power cycling

    Five power cycles in a row, each within two seconds of the start, put the
    device back to the factory state; a start that is left alone for two seconds
    ends the count. *)

From S2P Require Import Prelude Platform State Mdns PairedList PairingEvents DevicePassword Flash SimPlatform SimDevices.
From Stdlib Require Import ZArith Lia.
From stdpp Require Import base list strings numbers.

Local Open Scope cything_scope.

Section Reset.
Context {P : Platform} {C : Config} {FL : FlashLaws P}.

(** ** The counter in flash *)



(** *** While the flash works *)

Section Reliable.
Context {FR : FlashReliable P}.


(** ** Writing it

    The first write of a boot erases the sector; a second one finds it marked as
    erased and can only clear bits. *)






(** ** The factory reset *)













(** ** Power cycles *)







End Reliable.

(** *** Whatever the flash does *)










End Reset.

(** ** On a concrete device *)



