(* ===== verification/BeaconProps.v ===== *)
(** * BeaconProps: the beacon against what a scanner should see

    [ble/ble_beacon.c] is five callbacks and a command that may come in any
    order: the host comes up or goes down, the station gets or loses its address,
    the controller ends the advertisement, the owner changes the mode. A scanner
    should see the unit's current address exactly when all three conditions hold.
    That is the specification; the callbacks are shown to implement it. *)

From S2P Require Import Prelude Platform State LocalSession Mdns EncFrame Discovery PakeHandler OwnerCommands SimPlatform SimDevices.
From Stdlib Require Import ZArith Lia.
From stdpp Require Import base list strings numbers.

Local Open Scope cything_scope.

(** ** What a scanner should see *)





(** ** The device and its radio *)

Section Beacon.
Context {P : Platform} {C : Config}.








(** ** Starting and stopping *)





(** ** Each callback keeps the two in step *)






















End Beacon.

(** ** On a concrete device *)


