(* ===== verification/BleProps.v ===== *)
(** * BleProps: pairing over BLE tries credentials before it keeps them *)

From S2P Require Import Prelude Platform Radio State LocalSession Mdns Discovery Flash WifiPairing WifiTrial.
From S2P Require Import BlePairing SimPlatform SimDevices SimRadio.
From stdpp Require Import base list strings numbers.
From Stdlib Require Import ZArith Lia.

Local Open Scope cything_scope.

(** ** What an operation leaves alone *)

Section Frames.
Context {P : Platform}.

Definition frames {X A} (proj : Dev -> X) (m : M A) : Prop := forall d, proj (exec m d) = proj d.

Lemma frames_bind {X A B} (proj : Dev -> X) (m : M A) (k : A -> M B) :
  frames proj m -> (forall a, frames proj (k a)) -> frames proj (bind m k).
Proof. intros Hm Hk d. rewrite exec_bind, Hk. apply Hm. Qed.
Lemma frames_io {X A} (proj : Dev -> X) (f : World -> A * World) :
  (forall d w, proj (set_world w d) = proj d) -> frames proj (io f).
Proof. intros H d. unfold io, exec. destruct (f (world d)). apply H. Qed.

End Frames.

Ltac frames_step :=
  lazymatch goal with
  | |- frames _ (bind _ _) => apply frames_bind; [|intros ?]
  | |- frames _ (when _ _) => unfold when
  | |- frames _ (io _) => apply frames_io; intros [] ?; reflexivity
  | |- frames _ (match ?x with _ => _ end) => destruct x
  | |- frames _ _ => intros ?; reflexivity
  end.
Ltac frames_tac := repeat frames_step.

Section Trial.
Context {P : Platform} {C : Config} {R : Radio P}.

(** [trial_event] on the trial's own variables. *)
Definition tstep (t : trial_state) (ev : trial_ev) : trial_state :=
  match ev with
  | TrGotIp => set_tr_got_ip true t
  | TrDisconnected r =>
      let again := bool_decide (classify r = WIFI_TRIAL_TIMEOUT) in
      let t' := if again then set_tr_retries (tr_retries t - 1) t else t in
      if again && bool_decide (0 < tr_retries t)%Z then t'
      else set_tr_failed true (set_tr_failure (classify r) t')
  end.

Lemma trial_event_trial ev d :
  trial (exec (trial_event ev) d) = if tr_active (trial d) then tstep (trial d) ev else trial d.
Proof.
  unfold trial_event. rewrite exec_bind, eval_gets, exec_gets.
  destruct (tr_active (trial d)); [|done]. cbn [negb]. destruct ev as [r|]; [|done]. cbv zeta.
  rewrite exec_bind. unfold tstep. cbv zeta. set (again := bool_decide _).
  set (d1 := exec (when again _) d).
  assert (trial d1 = if again then set_tr_retries (tr_retries (trial d) - 1) (trial d) else trial d) as E
    by (unfold d1; by destruct again).
  clearbody d1. destruct (again && _).
  - rewrite <- E. unfold wifi_connect. rewrite exec_bind, exec_ret. revert d1 E. generalize again.
    intros b d1 _. rewrite exec_bind. unfold io, exec. by destruct (esp_wifi_connect _).
  - rewrite <- E. done.
Qed.

Lemma tstep_active t ev : tr_active (tstep t ev) = tr_active t.
Proof. destruct ev as [r|]; [|done]. unfold tstep. cbv zeta. by repeat case_match. Qed.

Lemma for_each_trial evs d :
  tr_active (trial d) = true ->
  trial (exec (for_each evs trial_event) d) = foldl tstep (trial d) evs.
Proof.
  revert d. induction evs as [|ev evs IH]; intros d Ha; [done|].
  change (exec (for_each (ev :: evs) trial_event) d) with (exec (for_each evs trial_event) (exec (trial_event ev) d)).
  assert (trial (exec (trial_event ev) d) = tstep (trial d) ev) as E by (rewrite trial_event_trial, Ha; done).
  rewrite IH, E; [done|]. by rewrite E, tstep_active.
Qed.

(** The specification: the first decisive event ends the trial. A refusal is
    final; a lost connection is, after two reconnects. *)
Fixpoint last_failure (why : wifi_trial_result_t) (retries : Z) (evs : list trial_ev) : wifi_trial_result_t :=
  match evs with
  | [] => why
  | TrGotIp :: evs => last_failure why retries evs
  | TrDisconnected r :: evs =>
      if bool_decide (classify r = WIFI_TRIAL_TIMEOUT) then
        last_failure (if bool_decide (0 < retries)%Z then why else WIFI_TRIAL_TIMEOUT) (retries - 1) evs
      else last_failure (classify r) retries evs
  end.

Fixpoint trial_spec (retries : Z) (evs : list trial_ev) : wifi_trial_result_t :=
  match evs with
  | [] => WIFI_TRIAL_TIMEOUT
  | TrGotIp :: _ => WIFI_TRIAL_OK
  | TrDisconnected r :: evs =>
      if bool_decide (classify r = WIFI_TRIAL_TIMEOUT) then
        if bool_decide (0 < retries)%Z then trial_spec (retries - 1) evs
        else last_failure WIFI_TRIAL_TIMEOUT (retries - 1) evs
      else last_failure (classify r) retries evs
  end.

Lemma foldl_failure evs t : tr_failure (foldl tstep t evs) = last_failure (tr_failure t) (tr_retries t) evs.
Proof.
  revert t. induction evs as [|[r|] evs IH]; intros t; [done| |exact (IH (set_tr_got_ip true t))].
  cbn [foldl last_failure]. rewrite IH. unfold tstep. cbv zeta.
  destruct (bool_decide (classify r = WIFI_TRIAL_TIMEOUT)) eqn:E; cbn [andb]; [|done].
  apply bool_decide_eq_true in E. rewrite E. by destruct (bool_decide (0 < tr_retries t)%Z).
Qed.

Lemma trial_wait_decided evs d :
  tr_active (trial d) = true -> tr_got_ip (trial d) || tr_failed (trial d) = true ->
  eval (trial_wait evs) d = (tr_got_ip (trial d), tr_failed (trial d)) /\
  tr_failure (trial (exec (trial_wait evs) d)) = last_failure (tr_failure (trial d)) (tr_retries (trial d)) evs.
Proof.
  intros Ha Hb. destruct evs as [|ev evs]; cbn [trial_wait];
    rewrite exec_bind, eval_bind, eval_gets, exec_gets, Hb, !eval_bind, !exec_bind, eval_ret, exec_ret; (split; [done|]).
  - done.
  - rewrite for_each_trial by done. by rewrite foldl_failure.
Qed.

(** What the waiter wakes up to. *)
Lemma trial_wait_spec evs d :
  tr_active (trial d) = true -> tr_got_ip (trial d) = false -> tr_failed (trial d) = false ->
  let bits := eval (trial_wait evs) d in
  let t := trial (exec (trial_wait evs) d) in
  (if fst bits then WIFI_TRIAL_OK else if snd bits then tr_failure t else WIFI_TRIAL_TIMEOUT)
  = trial_spec (tr_retries (trial d)) evs.
Proof.
  revert d. induction evs as [|ev evs IH]; intros d Ha Hg Hf; cbn zeta; cbn [trial_wait];
    rewrite exec_bind, eval_bind, eval_gets, exec_gets, Hg, Hf; cbn [orb]; [done|].
  rewrite exec_bind, eval_bind. set (d1 := exec (trial_event ev) d).
  assert (trial d1 = tstep (trial d) ev) as E by (unfold d1; rewrite trial_event_trial, Ha; done).
  assert (tr_active (trial d1) = true) as Ha1 by (by rewrite E, tstep_active).
  clearbody d1. destruct ev as [r|].
  - cbn [trial_spec]. unfold tstep in E. cbv zeta in E.
    destruct (bool_decide (classify r = WIFI_TRIAL_TIMEOUT)) eqn:Ec; cbn [andb] in E;
      [destruct (bool_decide (0 < tr_retries (trial d))%Z) eqn:Er|].
    + rewrite IH by (by rewrite E). by rewrite E.
    + apply bool_decide_eq_true in Ec. rewrite Ec in E.
      destruct (trial_wait_decided evs d1 Ha1) as [-> ->]; [by rewrite E, orb_true_r|]. rewrite E. cbn. by rewrite Hg.
    + destruct (trial_wait_decided evs d1 Ha1) as [-> ->]; [by rewrite E, orb_true_r|]. rewrite E. cbn. by rewrite Hg.
  - destruct (trial_wait_decided evs d1 Ha1) as [-> _]; [by rewrite E|]. by rewrite E.
Qed.

(** What the trial was set up with once it waits. *)
Lemma begin_trial ssid password d :
  eval (wifi_trial_begin ssid password) d = None ->
  let t := trial (exec (wifi_trial_begin ssid password) d) in
  tr_active t = true /\ tr_got_ip t = false /\ tr_failed t = false /\ tr_retries t = 2%Z.
Proof.
  unfold wifi_trial_begin. cbv zeta. rewrite exec_bind, eval_bind.
  destruct (negb (is_ok (eval trial_init_once d))); [done|]. set (d0 := exec trial_init_once d). clearbody d0.
  do 4 rewrite exec_bind, eval_bind. set (d1 := exec (upd_trial (set_tr_active true)) _).
  assert (tr_active (trial d1) = true /\ tr_got_ip (trial d1) = false /\ tr_failed (trial d1) = false /\
          tr_retries (trial d1) = 2%Z) as H by done.
  clearbody d1. rewrite exec_bind, eval_bind. set (cfg := Build_sta_config _ _ _).
  assert (trial (exec (trial_start cfg) d1) = trial d1) as E.
  { revert d1 H. intros d1 _. revert d1. change (frames trial (trial_start cfg)).
    unfold trial_start, wifi_set_mode, wifi_connect. frames_tac. }
  destruct (negb (is_ok (eval (trial_start cfg) d1))); [by rewrite !eval_bind|]. by rewrite exec_ret, E.
Qed.

Lemma frames_begin ssid password : frames flash (wifi_trial_begin ssid password).
Proof.
  unfold wifi_trial_begin, trial_init_once, trial_start, wifi_set_mode, wifi_connect, upd_trial. cbv zeta. frames_tac.
Qed.
Lemma frames_event ev : frames flash (trial_event ev).
Proof. unfold trial_event, wifi_connect, upd_trial, wifi_update_device_ip. cbv zeta. frames_tac. Qed.
Lemma frames_wait evs : frames flash (trial_wait evs).
Proof.
  induction evs as [|ev evs IH]; cbn [trial_wait]; unfold upd_trial; frames_tac; try apply frames_event; try apply IH.
  intros d. by apply (for_each_frame flash), frames_event.
Qed.

(** Behind the wait. *)
Lemma trial_end_spec bits d :
  let d' := exec (wifi_trial_end bits) d in
  eval (wifi_trial_end bits) d
  = (if fst bits then WIFI_TRIAL_OK else if snd bits then tr_failure (trial d) else WIFI_TRIAL_TIMEOUT) /\
  tr_active (trial d') = false /\ flash d' = flash d /\
  (fst bits = false -> device_ip d' = netif_ap_ip (world d') /\
     out d' = out d ++ [EvWifiDisconnect; EvWifiMode WIFI_MODE_AP]).
Proof.
  cbv zeta. unfold wifi_trial_end. rewrite exec_bind, eval_bind. destruct (fst bits); [done|].
  unfold wifi_disconnect, wifi_set_mode, io, upd_trial, wifi_update_device_ip. st_unfold. cbn.
  destruct (esp_wifi_disconnect (world d)) as [e1 w1]. cbn.
  destruct (esp_wifi_set_mode WIFI_MODE_AP w1) as [e2 w2]. cbn. rewrite <- app_assoc. by split_and!.
Qed.

(** the outcome of a Wi-Fi trial is the one of the first decisive event:
    an address, a refusal, or the connection lost once more than the two
    reconnects allow; a trial that fails leaves the device as a plain soft-AP
    under the soft-AP's address; none stores anything or stays active. *)
Theorem trial_outcome ssid password evs d :
  eval (wifi_trial_begin ssid password) d = None ->
  let r := eval (wifi_trial_run ssid password evs) d in
  let d' := exec (wifi_trial_run ssid password evs) d in
  r = trial_spec 2 evs /\ tr_active (trial d') = false /\ flash d' = flash d /\
  (r <> WIFI_TRIAL_OK -> device_ip d' = netif_ap_ip (world d') /\
     exists l, out d' = l ++ [EvWifiDisconnect; EvWifiMode WIFI_MODE_AP]).
Proof.
  intros Hb. cbv zeta. unfold wifi_trial_run. rewrite exec_bind, eval_bind, Hb.
  destruct (begin_trial ssid password d Hb) as (H1 & H2 & H3 & H4).
  pose proof (frames_begin ssid password d) as Hf. set (d1 := exec (wifi_trial_begin ssid password) d) in *.
  clearbody d1. rewrite exec_bind, eval_bind.
  pose proof (trial_wait_spec evs d1 H1 H2 H3) as Hs. cbv zeta in Hs. rewrite H4 in Hs. rewrite <- Hs.
  pose proof (frames_wait evs d1) as Hf2. set (d2 := exec (trial_wait evs) d1) in *.
  destruct (trial_end_spec (eval (trial_wait evs) d1) d2) as (-> & E2 & E3 & E4). split_and!; [done|done|congruence|].
  intros Hr. destruct (fst (eval (trial_wait evs) d1)); [done|]. destruct (E4 eq_refl) as [-> ->]. eauto.
Qed.

End Trial.

(** ** The tasks together *)

Section System.
Context {P : Platform} {C : Config} {R : Radio P}.

Definition is_reboot (e : event) : bool := match e with EvReboot _ => true | _ => false end.
Definition quiet (e : event) : Prop := is_reboot e = false /\ is_commit_task e = false.

(** [m] adds only quiet events to the trace. *)
Definition quietly {A} (m : M A) : Prop :=
  forall d, exists evs, out (exec m d) = out d ++ evs /\ Forall quiet evs.

Lemma quietly_bind {A B} (m : M A) (k : A -> M B) : quietly m -> (forall a, quietly (k a)) -> quietly (bind m k).
Proof.
  intros Hm Hk d. rewrite exec_bind. destruct (Hm d) as (e1 & E1 & H1).
  destruct (Hk (eval m d) (exec m d)) as (e2 & E2 & H2). exists (e1 ++ e2). rewrite E2, E1, app_assoc.
  split; [done|]. by apply Forall_app.
Qed.
Lemma quietly_frame {A} (m : M A) : frames out m -> quietly m.
Proof. intros H d. exists []. rewrite H, app_nil_r. done. Qed.
Lemma quietly_emit e : quiet e -> quietly (emit e).
Proof. intros H d. exists [e]. split; [done|]. by constructor. Qed.

(** What pairing remembers besides the connection and the status. *)
Definition creds (d : Dev) : bool * bool * bytes * bytes :=
  (bl_commit_in_progress (blep d), bl_have_ssid (blep d), bl_cred_ssid (blep d), bl_cred_pass (blep d)).

End System.

Ltac quietly_tac := repeat lazymatch goal with
  | |- quietly (bind _ _) => apply quietly_bind; [|intros ?]
  | |- quietly (when _ _) => unfold when
  | |- quietly (emit _) => apply quietly_emit; by split
  | |- quietly (match ?x with _ => _ end) => destruct x
  | |- quietly _ => apply quietly_frame; solve [frames_tac]
  end.

Section Steps.
Context {P : Platform} {C : Config} {R : Radio P}.

(** Leaves the credentials, the trial and the flash alone; neither reboots nor
    creates a task. *)
Record still {A} (m : M A) : Prop := {
  still_out : quietly m; still_creds : frames creds m; still_trial : frames trial m; still_flash : frames flash m }.

Lemma gap_still ev : still (gap_event ev).
Proof. unfold gap_event, upd_ble, start_advertising. split; [quietly_tac|frames_tac|frames_tac|frames_tac]. Qed.

Lemma read_still which : still (gatt_read which).
Proof. unfold gatt_read, append_read. split; [quietly_tac|frames_tac|frames_tac|frames_tac]. Qed.

Lemma wifi_quiet ev : quietly (trial_event ev) /\ frames creds (trial_event ev).
Proof. unfold trial_event, wifi_connect, upd_trial, wifi_update_device_ip. cbv zeta. split; [quietly_tac|frames_tac]. Qed.

(** ** The record *)

(** A trial has begun and is not over; meanwhile the events [h2]. *)
Definition trying (h h2 : list ble_act) : Prop :=
  exists h1, h = h1 ++ ActBegin :: h2 /\ (ActBegin ∉ h2) /\ ActEnd ∉ h2.

(** It has got an address. *)
Definition got_address (h : list ble_act) : Prop := exists h2, trying h h2 /\ ActWifi TrGotIp ∈ h2.

(** It was over with an address, and no other has begun. *)
Definition tried (h : list ble_act) : Prop :=
  exists h1 h3, h = h1 ++ ActEnd :: h3 /\ got_address h1 /\ (ActBegin ∉ h3) /\ ActEnd ∉ h3.

Definition between (a : ble_act) : Prop := a <> ActBegin /\ a <> ActEnd.

Lemma not_in_snoc (b : ble_act) h a : b ∉ h -> a <> b -> b ∉ (h ++ [a]).
Proof. intros H Hne Hin. apply elem_of_app in Hin as [|Hin]; [done|]. apply list_elem_of_singleton in Hin. congruence. Qed.

Lemma trying_snoc h h2 a : between a -> trying h h2 -> trying (h ++ [a]) (h2 ++ [a]).
Proof.
  intros [Hb He] (h1 & -> & H1 & H2). exists h1. rewrite <- app_assoc. split_and!; [done|by apply not_in_snoc..].
Qed.
Lemma got_snoc h a : between a -> got_address h -> got_address (h ++ [a]).
Proof. intros Ha (h2 & Ht & Hin). exists (h2 ++ [a]). split; [by apply trying_snoc|]. apply elem_of_app. by left. Qed.
Lemma tried_snoc h a : between a -> tried h -> tried (h ++ [a]).
Proof.
  intros [Hb He] (h1 & h3 & -> & Hg & H1 & H2). exists h1, (h3 ++ [a]). rewrite <- app_assoc.
  split_and!; [done|done|by apply not_in_snoc..].
Qed.
Lemma trying_begin h : trying (h ++ [ActBegin]) [].
Proof. exists h. split_and!; [done|apply not_elem_of_nil..]. Qed.
Lemma trying_address h h2 : trying h h2 -> got_address (h ++ [ActWifi TrGotIp]).
Proof. intros Ht. exists (h2 ++ [ActWifi TrGotIp]). split; [by apply trying_snoc|]. apply elem_of_app. right. by left. Qed.
Lemma tried_end h : got_address h -> tried (h ++ [ActEnd]).
Proof. intros Hg. exists h, []. split_and!; [done|done|apply not_elem_of_nil..]. Qed.

(** Whatever was stored had been tried. *)
Definition stores_tried (h : list ble_act) : Prop := forall h1 h2, h = h1 ++ ActStore :: h2 -> tried h1.

Lemma stores_snoc h a : stores_tried h -> (a = ActStore -> tried h) -> stores_tried (h ++ [a]).
Proof.
  intros Hs Ha h1 h2 E. destruct (exists_last (l := ActStore :: h2)) as (l & b & El); [done|].
  rewrite El, app_assoc in E. apply app_inj_tail in E as [-> ->]. destruct l as [|c l].
  - injection El as <- _. rewrite app_nil_r in *. by apply Ha.
  - injection El as <- El. by apply (Hs h1 l).
Qed.

(** ** The invariant of the interleaving *)

Record ble_inv (d0 : Dev) (h : list ble_act) (ts : list commit_phase) (d : Dev) : Prop := {
  bi_one : length ts <= 1;
  bi_flag : bl_commit_in_progress (blep d) = negb (bool_decide (ts = []));
  bi_ssid : ts <> [] -> bl_have_ssid (blep d) = true;
  bi_ssid_len : length (bl_cred_ssid (blep d)) <= BLE_PAIR_SSID_MAX;
  bi_pass_len : length (bl_cred_pass (blep d)) <= BLE_PAIR_PASS_MAX;
  bi_trial : tr_active (trial d) = bool_decide (ts = [Waiting]);
  bi_wait : ts = [Waiting] -> tr_failure (trial d) <> WIFI_TRIAL_OK /\ (exists h2, trying h h2) /\
    (tr_got_ip (trial d) = true -> got_address h);
  bi_joined : ts = [Joined] \/ ts = [Stored] -> tried h /\ EvNotify BLE_PAIR_STATE_WIFI_JOINED 0 ∈ out d;
  bi_store : stores_tried h;
  bi_flash : flash d = flash d0 \/ ActStore ∈ h;
  bi_reboot : forall ms, EvReboot ms ∈ out d -> ts = [Stored];
}.

Lemma quiet_reboot evs ms : Forall quiet evs -> ~ EvReboot ms ∈ evs.
Proof. intros H Hin. rewrite Forall_forall in H. apply list_elem_of_In in Hin. by destruct (H _ Hin). Qed.

Lemma flash_snoc {X} (x y : X) h a : x = y \/ ActStore ∈ h -> x = y \/ ActStore ∈ h ++ [a].
Proof. intros [|H]; [by left|right]. apply elem_of_app. by left. Qed.

(** A step that leaves the tasks, the credentials and the flash alone, and of
    the trial changes no more than an event that is recorded. *)
Lemma inv_quiet {A} (m : M A) d0 h a ts d :
  quietly m -> frames creds m -> frames flash m -> between a -> a <> ActStore ->
  tr_active (trial (exec m d)) = tr_active (trial d) ->
  (ts = [Waiting] -> tr_failure (trial d) <> WIFI_TRIAL_OK -> tr_failure (trial (exec m d)) <> WIFI_TRIAL_OK) ->
  (ts = [Waiting] -> tr_got_ip (trial (exec m d)) = true -> tr_got_ip (trial d) = true \/ a = ActWifi TrGotIp) ->
  ble_inv d0 h ts d -> ble_inv d0 (h ++ [a]) ts (exec m d).
Proof.
  intros Hq Hc Hfl Hb Hs Ha Hfa Hgo []. destruct (Hq d) as (evs & E & Hevs). specialize (Hc d). specialize (Hfl d).
  unfold creds in Hc. injection Hc as C1 C2 C3 C4. constructor; rewrite ?C1, ?C2, ?C3, ?C4, ?Ha, ?Hfl; try done.
  - intros Hw. destruct (bi_wait0 Hw) as (W1 & [h2 W2] & W3). split_and!; [by apply Hfa|eexists; by apply trying_snoc|].
    intros H. destruct (Hgo Hw H) as [H'| ->]; [by apply got_snoc; auto|by eapply trying_address].
  - intros H. destruct (bi_joined0 H). rewrite E. split; [by apply tried_snoc|]. apply elem_of_app. by left.
  - by apply stores_snoc.
  - by apply flash_snoc.
  - intros ms. rewrite E, elem_of_app. intros [H|H]; [by eapply bi_reboot0|by apply quiet_reboot in H].
Qed.

Lemma inv_still {A} (m : M A) d0 h a ts d :
  still m -> between a -> a <> ActStore -> ble_inv d0 h ts d -> ble_inv d0 (h ++ [a]) ts (exec m d).
Proof. intros [Hq Hc Ht Hf] Hb Hs. specialize (Ht d). apply inv_quiet; rewrite ?Ht; auto. Qed.

Lemma classify_not_ok r : classify r <> WIFI_TRIAL_OK.
Proof. unfold classify. by repeat case_match. Qed.

(** An event of the driver: only an address is one. *)
Lemma wifi_still ev d0 h ts d : ble_inv d0 h ts d -> ble_inv d0 (h ++ [ActWifi ev]) ts (exec (trial_event ev) d).
Proof.
  destruct (wifi_quiet ev) as [Hq Hc]. apply inv_quiet; try done; [apply frames_event|..]; rewrite trial_event_trial;
    destruct (tr_active (trial d)) eqn:Ea; try tauto.
  - by rewrite tstep_active, Ea.
  - intros _ Hne. destruct ev as [r|]; [|done]. unfold tstep. cbv zeta.
    pose proof (classify_not_ok r). by repeat case_match.
  - intros _. destruct ev as [r|]; [|by right]. unfold tstep. cbv zeta. repeat case_match; by left.
Qed.

(** What a write may do: create the commit task, when none runs and there is an
    SSID, or change the credentials within their lengths. *)
Definition write_effect (d d' : Dev) : Prop :=
  exists evs, out d' = out d ++ evs /\ Forall (fun e => is_reboot e = false) evs /\ trial d' = trial d /\ flash d' = flash d /\
  ((length (List.filter is_commit_task evs) = 1 /\ bl_commit_in_progress (blep d) = false /\ bl_have_ssid (blep d) = true /\
    creds d' = (true, true, bl_cred_ssid (blep d), bl_cred_pass (blep d))) \/
   (length (List.filter is_commit_task evs) = 0 /\ bl_commit_in_progress (blep d') = bl_commit_in_progress (blep d) /\
    (bl_have_ssid (blep d) = true -> bl_have_ssid (blep d') = true) /\
    (bl_cred_ssid (blep d') = bl_cred_ssid (blep d) \/ length (bl_cred_ssid (blep d')) <= BLE_PAIR_SSID_MAX) /\
    (bl_cred_pass (blep d') = bl_cred_pass (blep d) \/ length (bl_cred_pass (blep d')) <= BLE_PAIR_PASS_MAX))).

Lemma effect_none d d' evs :
  out d' = out d ++ evs -> Forall quiet evs -> trial d' = trial d -> flash d' = flash d -> creds d' = creds d -> write_effect d d'.
Proof.
  intros E H Ha Hf Hc. unfold creds in Hc. injection Hc as C1 C2 C3 C4. exists evs.
  split_and!; [done|by eapply (Forall_impl (P := quiet)); [intros e []|exact H]|done|done|]. right. rewrite C1, C2, C3, C4.
  split_and!; [|done|done|by left|by left]. clear E. induction H as [|e evs He _ IH]; [done|].
  cbn. destruct He as [_ ->]. exact IH.
Qed.

Lemma effect_status st de d : write_effect d (exec (set_status st de) d).
Proof. apply effect_none with [EvNotify st de]; try done. by repeat constructor. Qed.

Lemma control_effect opcode d : write_effect d (exec (handle_control opcode) d).
Proof.
  unfold handle_control. case_bool_decide; [|apply effect_status]. rewrite exec_bind, eval_gets, exec_gets.
  destruct (bl_commit_in_progress (blep d)) eqn:Ec; [apply effect_status|].
  destruct (bl_have_ssid (blep d)) eqn:Eh; [|apply effect_status]. cbn [negb]. unfold ask.
  rewrite !exec_bind, eval_gets, exec_gets. destruct (xTaskCreate_ok _ _).
  - exists [EvTask "ble_commit" 0]. split_and!; [done|by repeat constructor|done|done|]. left. split_and!; [done..|].
    unfold creds. cbn. by rewrite Eh.
  - rewrite exec_bind. apply effect_none with [EvNotify BLE_PAIR_STATE_ERROR BLE_PAIR_ERR_FLASH]; try done.
    + by repeat constructor.
    + unfold creds. cbn. by rewrite Ec.
Qed.

Lemma effect_refl d : write_effect d d.
Proof. apply effect_none with []; try done. by rewrite app_nil_r. Qed.

Lemma write_cases which om d : write_effect d (exec (gatt_write which om) d).
Proof.
  unfold gatt_write, take_write, ask.
  destruct which; try apply effect_refl; rewrite exec_bind;
    destruct (_ || _) eqn:El; try apply effect_refl; apply orb_false_iff in El as [_ El];
    apply bool_decide_eq_false_1 in El; rewrite exec_bind, eval_bind, eval_gets, exec_gets;
    case_bool_decide; try apply effect_refl; cbn [eval ret fst].
  - rewrite !exec_bind, eval_gets, exec_gets. unfold when.
    case_match; [exists [EvNotify BLE_PAIR_STATE_READY 0]|exists []; rewrite app_nil_r];
      (split_and!; [done|by repeat constructor|done|done|]); right; (split_and!; [done|done|done| |by left]); right; cbn; lia.
  - exists []. rewrite app_nil_r. split_and!; [done|by constructor|done|done|]. right. split_and!; [done|done|done|by left|]. right. cbn. lia.
  - rewrite exec_bind. apply control_effect.
Qed.

Lemma inv_write d0 h ts d which om :
  ble_inv d0 h ts d ->
  let d' := exec (gatt_write which om) d in ble_inv d0 (h ++ [ActWrite]) (ts ++ replicate (created d d') Created) d'.
Proof.
  intros []. cbv zeta. set (d' := exec _ d).
  destruct (write_cases which om d) as (evs & E & Hev & Ht & Hf & H). fold d' in E, Ht, Hf, H.
  assert (created d d' = length (List.filter is_commit_task evs)) as -> by (unfold created; by rewrite E, drop_app_length).
  assert (forall ms, EvReboot ms ∈ out d' -> ts = [Stored]) as Hre.
  { intros ms. rewrite E, elem_of_app. intros [Hin|Hin]; [by eapply bi_reboot0|].
    apply list_elem_of_In in Hin. rewrite Forall_forall in Hev. by apply Hev in Hin. }
  assert (between ActWrite) as Hb by done.
  destruct H as [(-> & H1 & H2 & Hc)|(-> & H1 & H2 & H3 & H4)].
  - unfold creds in Hc. injection Hc as C1 C2 C3 C4. rewrite bi_flag0 in H1. apply negb_false_iff, bool_decide_eq_true in H1.
    subst ts. cbn [app replicate]. constructor; rewrite ?C1, ?C2, ?C3, ?C4, ?Ht, ?Hf; try done.
    + by intros [|].
    + by apply stores_snoc.
    + by apply flash_snoc.
    + intros ms Hin. by apply Hre in Hin.
  - cbn [replicate]. rewrite app_nil_r. constructor; rewrite ?H1, ?Ht, ?Hf; auto.
    + by destruct H3 as [->|].
    + by destruct H4 as [->|].
    + intros Hw. destruct (bi_wait0 Hw) as (W1 & [h2 W2] & W3). split_and!; [done|eexists; by apply trying_snoc|].
      intros Hg. apply got_snoc; auto.
    + intros Hj. destruct (bi_joined0 Hj). rewrite E. split; [by apply tried_snoc|]. apply elem_of_app. by left.
    + by apply stores_snoc.
    + by apply flash_snoc.
Qed.

Lemma begin_quiet : quietly commit_begin /\ frames creds commit_begin /\ frames flash commit_begin.
Proof.
  unfold commit_begin, set_status, upd_ble, wifi_trial_begin, trial_init_once, trial_start, wifi_set_mode, wifi_connect, upd_trial.
  cbv zeta. split_and!; [quietly_tac|frames_tac|frames_tac].
Qed.

(** The trial as [wifi_trial_begin] leaves it. *)
Lemma begun d r :
  tr_active (trial d) = false -> eval commit_begin d = r ->
  let t := trial (exec commit_begin d) in
  tr_active t = match r with None => true | Some _ => false end /\
  match r with
  | None => tr_got_ip t = false /\ tr_failure t = WIFI_TRIAL_TIMEOUT
  | Some r => r <> WIFI_TRIAL_OK
  end.
Proof.
  intros Ha <-. cbv zeta. unfold commit_begin. rewrite !exec_bind, !eval_bind, eval_gets, exec_gets.
  set (d0 := exec (set_status _ _) d). assert (tr_active (trial d0) = false) as H0 by done. clearbody d0. clear Ha.
  generalize (bl_cred_ssid (blep d0)) (bl_cred_pass (blep d0)). intros ssid password.
  unfold wifi_trial_begin. cbv zeta. rewrite exec_bind, eval_bind.
  assert (frames (fun d => tr_active (trial d)) trial_init_once) as Hi by (unfold trial_init_once, upd_trial; frames_tac).
  destruct (negb (is_ok (eval trial_init_once d0))); [rewrite eval_ret, exec_ret; split; [by rewrite Hi|done]|].
  do 5 rewrite exec_bind, eval_bind. set (cfg := Build_sta_config _ _ _). set (d1 := exec (upd_trial (set_tr_active true)) _).
  assert (trial (exec (trial_start cfg) d1) = trial d1) as E.
  { assert (frames trial (trial_start cfg)) as Hf by (unfold trial_start, wifi_set_mode, wifi_connect; frames_tac). apply Hf. }
  destruct (negb (is_ok (eval (trial_start cfg) d1))).
  - rewrite !eval_bind, !exec_bind, exec_ret, eval_ret. split; [|done].
    set (d2 := exec (upd_trial (set_tr_active false)) _). assert (tr_active (trial d2) = false) as <- by done.
    assert (frames (fun d => tr_active (trial d)) (wifi_set_mode WIFI_MODE_AP)) as Hm by (unfold wifi_set_mode; frames_tac). apply Hm.
  - rewrite eval_ret, exec_ret, E. by unfold d1.
Qed.

(** The verdict of a trial: on failure the flag is cleared; only a trial that
    got an address is taken for one. *)
Lemma tried_inv d0 h h' r ph d d1 :
  ble_inv d0 h [ph] d -> ph <> Stored -> stores_tried h' -> (ActStore ∈ h -> ActStore ∈ h') -> (r = WIFI_TRIAL_OK -> tried h') ->
  creds d1 = creds d -> flash d1 = flash d -> tr_active (trial d1) = false ->
  (exists evs, out d1 = out d ++ evs /\ Forall quiet evs) ->
  ble_inv d0 h' (goes_on (eval (commit_tried r) d1) Joined) (exec (commit_tried r) d1).
Proof.
  intros [] Hs Hst Hin' Hok Hc Hfl Ha (evs & E & Hev). unfold creds in Hc. injection Hc as C1 C2 C3 C4.
  assert (forall ms, ~ EvReboot ms ∈ out d1) as Hno.
  { intros ms. rewrite E, elem_of_app. intros [Hin|Hin]; [by apply bi_reboot0 in Hin; simplify_eq|by apply quiet_reboot in Hin]. }
  cbn in bi_flag0. specialize (bi_ssid0 ltac:(done)).
  unfold commit_tried. destruct (bool_decide (r = WIFI_TRIAL_OK)) eqn:Er; cbn [negb]; rewrite !eval_bind, !exec_bind, eval_ret, exec_ret;
    cbn [goes_on]; constructor; try done; cbn; rewrite ?C1, ?C2, ?C3, ?C4, ?Hfl; try done.
  - apply bool_decide_eq_true in Er. intros _. split; [by apply Hok|]. apply elem_of_app. right. by left.
  - destruct bi_flash0; [by left|right; auto].
  - intros ms Hin. rewrite <- app_assoc in Hin. apply elem_of_app in Hin as [Hin|Hin]; [by apply Hno in Hin|].
    by apply quiet_reboot in Hin; [|repeat constructor].
  - lia.
  - by intros [|].
  - destruct bi_flash0; [by left|right; auto].
  - intros ms Hin. apply elem_of_app in Hin as [Hin|Hin]; [by apply Hno in Hin|].
    by apply quiet_reboot in Hin; [|repeat constructor].
Qed.

Lemma store_effect d :
  let d' := exec commit_store d in
  trial d' = trial d /\ bl_have_ssid (blep d') = bl_have_ssid (blep d) /\
  bl_cred_ssid (blep d') = bl_cred_ssid (blep d) /\ bl_cred_pass (blep d') = bl_cred_pass (blep d) /\
  exists evs, out d' = out d ++ evs /\
    ((bl_commit_in_progress (blep d') = bl_commit_in_progress (blep d)) \/
     (bl_commit_in_progress (blep d') = false /\ forall ms, ~ EvReboot ms ∈ evs)).
Proof.
  cbv zeta. unfold commit_store. rewrite !exec_bind, eval_gets, exec_gets.
  set (m := pairing_commit _ _).
  assert (frames creds m /\ frames trial m) as [Hc Ha].
  { unfold m, pairing_commit, flash_store_wifi_router_info, flash_read_wifi_router_info, ota_set_new_erase_partition,
      ota_set_new_write_partition, ota_set_new_read_partition, ota_erase, ota_write, ota_read, upd_flash, reboot_after_ms.
    split; frames_tac. }
  assert (exists evs, out (exec m d) = out d ++ evs /\ (eval m d = ESP_OK \/ evs = [])) as (evs & Ho & He).
  { unfold m, pairing_commit. set (f := flash_store_wifi_router_info _ _ _).
    assert (frames out f) as Hf.
    { unfold f, flash_store_wifi_router_info, flash_read_wifi_router_info, ota_set_new_erase_partition,
        ota_set_new_write_partition, ota_set_new_read_partition, ota_erase, ota_write, ota_read, upd_flash. frames_tac. }
    rewrite exec_bind, eval_bind. destruct (is_ok (eval f d)) eqn:Eo; cbn [negb].
    - exists [EvReboot 1000]. split; [|by left]. rewrite exec_bind, exec_ret. cbn. by rewrite Hf.
    - exists []. rewrite exec_ret, Hf, app_nil_r. split; [done|by right]. }
  specialize (Hc d). specialize (Ha d). unfold creds in Hc. injection Hc as C1 C2 C3 C4. clearbody m.
  destruct (is_ok (eval m d)) eqn:Eo.
  - cbn. split_and!; [done..|]. exists (evs ++ [EvNotify BLE_PAIR_STATE_STORED 0]). rewrite Ho, app_assoc. split; [done|by left].
  - destruct He as [He| ->]; [by rewrite He in Eo|]. rewrite exec_bind. cbn. split_and!; [done..|].
    exists [EvNotify BLE_PAIR_STATE_ERROR BLE_PAIR_ERR_FLASH]. rewrite Ho, app_nil_r. split; [done|]. right.
    split; [done|]. intros ms Hin. by apply quiet_reboot in Hin; [|repeat constructor].
Qed.

Lemma inv_store d0 h d :
  ble_inv d0 h [Joined] d ->
  ble_inv d0 (h ++ [ActStore]) (goes_on (bl_commit_in_progress (blep (exec commit_store d))) Stored) (exec commit_store d).
Proof.
  intros []. destruct (store_effect d) as (Ht & C2 & C3 & C4 & evs & E & H). destruct bi_joined0 as [Hj Hn]; [by left|].
  assert (forall ms, ~ EvReboot ms ∈ out d) as Hno by (intros ms Hin; by apply bi_reboot0 in Hin).
  set (d' := exec commit_store d) in *. clearbody d'.
  constructor; rewrite ?C2, ?C3, ?C4, ?Ht; try done.
  - destruct (bl_commit_in_progress (blep d')); cbn; lia.
  - by destruct (bl_commit_in_progress (blep d')).
  - intros _. by apply bi_ssid0.
  - rewrite bi_trial0. by destruct (bl_commit_in_progress (blep d')).
  - by destruct (bl_commit_in_progress (blep d')).
  - intros _. split; [by apply tried_snoc|]. rewrite E. apply elem_of_app. by left.
  - by apply stores_snoc.
  - right. apply elem_of_app. right. by left.
  - intros ms Hin. destruct H as [H|[H Hq]].
    + rewrite H, bi_flag0. done.
    + rewrite E in Hin. apply elem_of_app in Hin as [Hin|Hin]; [by apply Hno in Hin|by apply Hq in Hin].
Qed.

Lemma wait_end_quiet bits : quietly (wifi_trial_end bits) /\ frames creds (wifi_trial_end bits).
Proof.
  unfold wifi_trial_end, wifi_disconnect, wifi_set_mode, wifi_update_device_ip, upd_trial. split; [quietly_tac|frames_tac].
Qed.

(** There is only the one task to run. *)
Lemma the_task d0 h l1 l2 ph d : ble_inv d0 h (l1 ++ ph :: l2) d -> l1 = [] /\ l2 = [].
Proof.
  intros Hi. pose proof (bi_one _ _ _ _ Hi) as H. rewrite length_app in H. cbn [length] in H.
  destruct l1, l2; cbn in H; lia || done.
Qed.

(** The end of a trial, woken or timed out. *)
Lemma inv_end d0 h d bits (m : M (bool * bool)) :
  ble_inv d0 h [Waiting] d -> (fst bits = true -> tr_got_ip (trial d) = true) -> quietly m -> frames creds m -> frames flash m ->
  tr_failure (trial (exec m d)) = tr_failure (trial d) ->
  let d1 := exec m d in let d2 := exec (wifi_trial_end bits) d1 in let r := eval (wifi_trial_end bits) d1 in
  ble_inv d0 (h ++ [ActEnd]) (goes_on (eval (commit_tried r) d2) Joined) (exec (commit_tried r) d2).
Proof.
  intros Hi Hg Hq Hc Hf Ht. cbv zeta. set (d1 := exec m d). destruct (trial_end_spec bits d1) as (Er & Ea & Ef & _).
  destruct (wait_end_quiet bits) as [Hq2 Hc2]. destruct (bi_wait _ _ _ _ Hi eq_refl) as (W1 & _ & W3).
  apply (tried_inv d0 h _ _ Waiting d); try done.
  - apply stores_snoc; [apply (bi_store _ _ _ _ Hi)|done].
  - intros Hin. apply elem_of_app. by left.
  - rewrite Er. destruct (fst bits); [intros _; by apply tried_end, W3, Hg|].
    destruct (snd bits); [|done]. unfold d1. by rewrite Ht.
  - rewrite Hc2. apply Hc.
  - rewrite Ef. apply Hf.
  - destruct (Hq d) as (e1 & E1 & H1). destruct (Hq2 d1) as (e2 & E2 & H2). exists (e1 ++ e2). unfold d1 in *.
    rewrite E2, E1, app_assoc. split; [done|by apply Forall_app].
Qed.

Lemma ble_step_inv d0 h a s s' : ble_step s a s' -> ble_inv d0 h (fst s) (snd s) -> ble_inv d0 (h ++ [a]) (fst s') (snd s').
Proof.
  intros Hs Hi. destruct Hs as [ts d which om d'|ts d which|ts d ev|ts d ev|l1 l2 d Hb|l1 l2 d r Hb d1|l1 l2 d Hb m|l1 l2 d Hb m|l1 l2 d];
    cbn [fst snd] in *; try (destruct (the_task _ _ _ _ _ _ Hi) as [-> ->]; cbn [app] in *; rewrite ?app_nil_r).
  - by apply inv_write.
  - apply inv_still; [apply read_still|done..].
  - apply inv_still; [apply gap_still|done..].
  - by apply wifi_still.
  - destruct begin_quiet as (Hq & Hc & Hf). destruct (begun d None) as (Ha & Hg & Hfa); [by apply (bi_trial _ _ _ _ Hi)|done|].
    destruct Hi. destruct (Hq d) as (evs & E & Hev). specialize (Hc d). specialize (Hf d). unfold creds in Hc.
    injection Hc as C1 C2 C3 C4. constructor; rewrite ?C1, ?C2, ?C3, ?C4, ?Ha, ?Hf; try done.
    + intros _. by apply bi_ssid0.
    + intros _. rewrite Hg, Hfa. split_and!; [done|eexists; apply trying_begin|done].
    + by intros [|].
    + by apply stores_snoc.
    + by apply flash_snoc.
    + intros ms. rewrite E, elem_of_app. intros [Hin|Hin]; [by apply bi_reboot0 in Hin|by apply quiet_reboot in Hin].
  - destruct begin_quiet as (Hq & Hc & Hf). destruct (begun d (Some r)) as (Ha & Hr); [by apply (bi_trial _ _ _ _ Hi)|done|].
    apply (tried_inv d0 h _ r Created d d1 Hi); try done.
    + apply stores_snoc; [apply (bi_store _ _ _ _ Hi)|done].
    + intros Hin. apply elem_of_app. by left.
    + apply Hc.
    + apply Hf.
    + apply Hq.
  - unfold m. rewrite !exec_bind, !eval_bind.
    apply (inv_end d0 h d (eval (trial_wait []) d) (trial_wait [])); try done.
    + cbn [trial_wait]. rewrite eval_bind, eval_gets, exec_gets, Hb. rewrite !eval_bind, eval_ret. done.
    + cbn [trial_wait for_each]. unfold upd_trial. quietly_tac.
    + cbn [trial_wait for_each]. unfold upd_trial. frames_tac.
    + apply frames_wait.
    + cbn [trial_wait]. rewrite exec_bind, eval_gets, exec_gets, Hb. done.
  - unfold m. rewrite !exec_bind, !eval_bind.
    apply (inv_end d0 h d (false, false) (ret (false, false))); try done.
    intros d2. exists []. by rewrite app_nil_r.
  - by apply inv_store.
Qed.

(** C40: However writes, reads, connections, Wi-Fi events and commit tasks
    interleave, there is never more than one commit task, and only after an SSID
    was written; the trial is listening exactly while that task waits; and the
    credentials fit their fields. The flash is written only by a commit whose
    trial came to its end with an address: the driver had reported one after that
    task had begun its trial and before it was over ([tried]). A reboot is armed
    only by such a commit, once it was reported as joined. (What is stored are
    the credentials written last, which a phone can still change while they are
    being tried.) *)
Theorem ble_commit_invariant d0 h ts d :
  bl_commit_in_progress (blep d0) = false -> tr_active (trial d0) = false ->
  length (bl_cred_ssid (blep d0)) <= BLE_PAIR_SSID_MAX -> length (bl_cred_pass (blep d0)) <= BLE_PAIR_PASS_MAX ->
  (forall ms, ~ EvReboot ms ∈ out d0) ->
  ble_reachable d0 h (ts, d) ->
  length ts <= 1 /\
  (bl_commit_in_progress (blep d) = true <-> ts <> []) /\
  (ts <> [] -> bl_have_ssid (blep d) = true) /\
  (tr_active (trial d) = true <-> ts = [Waiting]) /\
  length (bl_cred_ssid (blep d)) <= BLE_PAIR_SSID_MAX /\ length (bl_cred_pass (blep d)) <= BLE_PAIR_PASS_MAX /\
  (flash d <> flash d0 -> ActStore ∈ h) /\
  (forall h1 h2, h = h1 ++ ActStore :: h2 -> tried h1) /\
  (forall ms, EvReboot ms ∈ out d -> ts = [Stored] /\ tried h /\ EvNotify BLE_PAIR_STATE_WIFI_JOINED 0 ∈ out d).
Proof.
  intros H1 H2 H3 H4 H5 Hr. assert (ble_inv d0 h ts d) as [].
  { change (ble_inv d0 h (fst (ts, d)) (snd (ts, d))). induction Hr as [|h s a s' _ IH Hs]; [|by eapply ble_step_inv].
    constructor; cbn [fst snd]; try done; [by cbn; lia|by intros [|]| |by left|].
    - intros h1 h2 E. by destruct h1.
    - intros ms Hin. by apply H5 in Hin. }
  split_and!; try done.
  - by rewrite bi_flag0, negb_true_iff, bool_decide_eq_false.
  - by rewrite bi_trial0, bool_decide_eq_true.
  - intros Hf. by destruct bi_flash0.
  - intros ms Hin. apply bi_reboot0 in Hin. destruct bi_joined0; [by right|done].
Qed.

End Steps.

(** ** On a concrete device *)

(** Two lost connections are forgiven, the third ends the trial. *)
Lemma trial_outcome_witness :
  eval (wifi_trial_begin (str "home") (str "secret")) blank = None /\
  eval (wifi_trial_run (str "home") (str "secret") [TrDisconnected 8; TrDisconnected 8; TrDisconnected 8; TrGotIp]) blank
  = WIFI_TRIAL_TIMEOUT.
Proof.
  assert (eval (wifi_trial_begin (str "home") (str "secret")) blank = None) as Hb by (vm_compute; reflexivity).
  split; [exact Hb|].
  exact (proj1 (trial_outcome (str "home") (str "secret")
                  [TrDisconnected 8; TrDisconnected 8; TrDisconnected 8; TrGotIp] blank Hb)).
Defined.

(** A phone writes an SSID and starts the commit. *)
Definition ssid_written : Dev := exec (gatt_write CHR_SSID (str "home")) blank.
Definition commit_asked : Dev := exec (gatt_write CHR_CTRL [1%Z]) ssid_written.

(** The trial gets its address, and the credentials are stored. *)
Definition trying_out : Dev := exec commit_begin commit_asked.
Definition on_air : Dev := exec (trial_event TrGotIp) trying_out.
Definition wake : M bool := let* bits := trial_wait [] in let* r := wifi_trial_end bits in commit_tried r.
Definition joined_dev : Dev := exec wake on_air.
Definition stored_dev : Dev := exec commit_store joined_dev.

Lemma created_none : created blank ssid_written = 0.
Proof. vm_compute. reflexivity. Qed.
Lemma created_one : created ssid_written commit_asked = 1.
Proof. vm_compute. reflexivity. Qed.
Lemma trial_starts : eval commit_begin commit_asked = None.
Proof. vm_compute. reflexivity. Qed.
Lemma address_arrived : tr_got_ip (trial on_air) || tr_failed (trial on_air) = true.
Proof. vm_compute. reflexivity. Qed.
Lemma trial_joined : eval wake on_air = true.
Proof. vm_compute. reflexivity. Qed.
Lemma flash_took_it : bl_commit_in_progress (blep stored_dev) = true.
Proof. vm_compute. reflexivity. Qed.

Lemma stored_reachable :
  ble_reachable blank [ActWrite; ActWrite; ActBegin; ActWifi TrGotIp; ActEnd; ActStore] ([Stored], stored_dev).
Proof.
  pose proof (ble_next _ _ _ _ _ (ble_init blank) (step_write [] blank CHR_SSID (str "home"))) as H.
  cbv zeta in H. fold ssid_written in H. rewrite created_none in H.
  pose proof (ble_next _ _ _ _ _ H (step_write _ ssid_written CHR_CTRL [1%Z])) as H1.
  cbv zeta in H1. fold commit_asked in H1. rewrite created_one in H1.
  pose proof (ble_next _ _ _ _ _ H1 (step_begin [] [] commit_asked trial_starts)) as H2. fold trying_out in H2.
  pose proof (ble_next _ _ _ _ _ H2 (step_wifi _ trying_out TrGotIp)) as H3. fold on_air in H3.
  pose proof (ble_next _ _ _ _ _ H3 (step_wake [] [] on_air address_arrived)) as H4.
  cbv zeta in H4. fold wake in H4. fold joined_dev in H4. rewrite trial_joined in H4.
  pose proof (ble_next _ _ _ _ _ H4 (step_store [] [] joined_dev)) as H5. fold stored_dev in H5.
  rewrite flash_took_it in H5. exact H5.
Qed.

Lemma ble_commit_invariant_witness :
  bl_commit_in_progress (blep stored_dev) = true /\ tried [ActWrite; ActWrite; ActBegin; ActWifi TrGotIp; ActEnd].
Proof.
  assert (H0 : bl_commit_in_progress (blep blank) = false) by reflexivity.
  assert (H1 : tr_active (trial blank) = false) by reflexivity.
  assert (H2 : length (bl_cred_ssid (blep blank)) <= BLE_PAIR_SSID_MAX) by (apply (bool_decide_unpack _); vm_compute; exact I).
  assert (H3 : length (bl_cred_pass (blep blank)) <= BLE_PAIR_PASS_MAX) by (apply (bool_decide_unpack _); vm_compute; exact I).
  assert (H4 : forall ms, ~ EvReboot ms ∈ out blank) by (intros ms H; inversion H).
  destruct (ble_commit_invariant blank _ [Stored] stored_dev H0 H1 H2 H3 H4 stored_reachable) as (_ & Hf & _ & _ & _ & _ & _ & Hs & _).
  split; [apply (proj2 Hf); discriminate|].
  exact (Hs [ActWrite; ActWrite; ActBegin; ActWifi TrGotIp; ActEnd] [] eq_refl).
Defined.
