(* ===== verification/MqttStateProps.v ===== *)
(** * MqttStateProps: publishes in flight are an ordered log

    The record array of [core_mqtt_state.c] holds holes and is compacted now
    and then; seen through [live] it is the list of the publishes in flight in
    their order, and every operation is one on that list. *)

From S2P Require Import Prelude MqttTypes MqttState.
From Stdlib Require Import ZArith Lia.
From stdpp Require Import base list sets numbers.

(** ** The abstraction *)

Definition used (r : MQTTPubAckInfo_t) : Prop := packetId r <> MQTT_PACKET_ID_INVALID.
#[export] Instance used_dec r : Decision (used r).
Proof. unfold used. apply _. Defined.

Definition live (records : list MQTTPubAckInfo_t) : list MQTTPubAckInfo_t := filter used records.
Definition ids (records : list MQTTPubAckInfo_t) : list Z := packetId <$> live records.

(** Free rows are zeroed and no two rows in use share an id. *)
Record records_ok (records : list MQTTPubAckInfo_t) : Prop := {
  ro_free : Forall (fun r => used r \/ r = null_record) records;
  ro_ids : NoDup (ids records);
}.

Lemma free_used r : free r = negb (bool_decide (used r)).
Proof. unfold free. case_bool_decide; case_bool_decide; unfold used in *; done || tauto. Qed.
Lemma free_true r : free r = true -> ~ used r.
Proof. rewrite free_used, negb_true_iff, bool_decide_eq_false. done. Qed.
Lemma free_false r : free r = false -> used r.
Proof. rewrite free_used, negb_false_iff, bool_decide_eq_true. done. Qed.

Lemma live_app a b : live (a ++ b) = live a ++ live b.
Proof. apply list.filter_app. Qed.
Lemma live_cons_used r l : used r -> live (r :: l) = r :: live l.
Proof. intros H. unfold live. by rewrite filter_cons_True. Qed.
Lemma live_cons_free r l : ~ used r -> live (r :: l) = live l.
Proof. intros H. unfold live. by rewrite filter_cons_False. Qed.
Lemma null_not_used : ~ used null_record.
Proof. intros H. by apply H. Qed.
Lemma live_null k : live (replicate k null_record) = [].
Proof. induction k as [|k IH]; [done|]. by rewrite replicate_S, live_cons_free by apply null_not_used. Qed.
Lemma live_used l : Forall used l -> live l = l.
Proof. induction 1; [done|]. by rewrite live_cons_used, IHForall. Qed.
Lemma live_all l : Forall used (live l).
Proof. apply list.Forall_forall. intros x Hx. by apply list_elem_of_filter in Hx as [? _]. Qed.
Lemma live_length l : length (live l) <= length l.
Proof. apply length_filter. Qed.

(** ** Compaction *)

Lemma compact_loop_spec post : forall L k,
  Forall (fun r => used r \/ r = null_record) post ->
  compact_loop (length post) (length L + k) (match k with O => None | S _ => Some (length L) end)
    (L ++ replicate k null_record ++ post)
  = L ++ live post ++ replicate (k + (length post - length (live post))) null_record.
Proof.
  induction post as [|r post IH]; intros L k Hp; [cbn; by rewrite Nat.add_0_r, !app_nil_r|].
  apply Forall_cons_1 in Hp as [Hr Hp]. cbn [compact_loop length].
  assert ((L ++ replicate k null_record ++ r :: post) !! (length L + k) = Some r) as E.
  { rewrite lookup_app_r by lia. rewrite lookup_app_r by (rewrite length_replicate; lia).
    by replace (length L + k - length L - length (replicate k null_record)) with 0 by (rewrite length_replicate; lia). }
  rewrite E. destruct (free r) eqn:Ef.
  - apply free_true in Ef. destruct Hr as [?| ->]; [done|].
    assert (live (null_record :: post) = live post) as El by (apply live_cons_free, null_not_used).
    specialize (IH L (S k) Hp). rewrite replicate_S_end, <- app_assoc in IH. cbn [app] in IH.
    replace (length L + S k) with (S (length L + k)) in IH by lia.
    replace (Some (default (length L + k) (match k with O => None | S _ => Some (length L) end))) with (Some (length L))
      by (destruct k; cbn; f_equal; lia).
    rewrite IH, El. do 3 f_equal. pose proof (live_length post). lia.
  - apply free_false in Ef.
    assert (live (r :: post) = r :: live post) as El by (by apply live_cons_used).
    rewrite El. pose proof (live_length post). destruct k as [|k]; cbn [replicate app].
    + specialize (IH (L ++ [r]) 0 Hp). rewrite length_app in IH. cbn [length replicate app] in IH.
      rewrite <- !app_assoc in IH. cbn [app] in IH. rewrite Nat.add_0_r in *.
      replace (length L + 1) with (S (length L)) in IH by lia. rewrite IH. cbn. do 4 f_equal.
    + assert (<[length L + S k := null_record]> (<[length L := r]> (L ++ null_record :: replicate k null_record ++ r :: post))
              = (L ++ [r]) ++ replicate (S k) null_record ++ post) as ->.
      { rewrite insert_app_r_alt by lia. rewrite Nat.sub_diag. cbn [insert list_insert].
        rewrite insert_app_r_alt by lia. replace (length L + S k - length L) with (S k) by lia.
        change (<[S k := null_record]> (r :: replicate k null_record ++ r :: post))
          with (r :: <[k := null_record]> (replicate k null_record ++ r :: post)).
        rewrite insert_app_r_alt by (rewrite length_replicate; lia).
        rewrite length_replicate, Nat.sub_diag, replicate_S_end, <- !app_assoc. done. }
      specialize (IH (L ++ [r]) (S k) Hp). rewrite length_app in IH. cbn [length] in IH.
      replace (length L + 1 + S k) with (S (length L + S k)) in IH by lia.
      replace (S (length L)) with (length L + 1) by lia. rewrite IH, <- app_assoc. cbn [app]. do 4 f_equal.
Qed.

(** Compaction is a stable filter. *)
Lemma compactRecords_spec records :
  Forall (fun r => used r \/ r = null_record) records ->
  compactRecords records = live records ++ replicate (length records - length (live records)) null_record.
Proof. intros H. exact (compact_loop_spec records [] 0 H). Qed.

(** ** Adding a record *)

(** Every array ends in a run of free rows. *)
Lemma trailing_free records :
  exists A F, records = A ++ F /\ Forall (fun r => ~ used r) F /\
    (A = [] \/ exists A' r, A = A' ++ [r] /\ used r).
Proof.
  induction records as [|r rs IH] using rev_ind; [exists [], []; split_and!; auto|].
  destruct (decide (used r)) as [Hr|Hr].
  - exists (rs ++ [r]), []. rewrite app_nil_r. split_and!; [done|done|eauto].
  - destruct IH as (A & F & -> & HF & HA). exists A, (F ++ [r]). rewrite <- app_assoc.
    split_and!; [done| |done]. apply Forall_app. auto.
Qed.

Lemma add_scan_skip records A F id n av :
  records = A ++ F -> Forall (fun r => ~ used r) F -> n <= length F ->
  add_scan (length A + n) records id av false
  = add_scan (length A) records id (if bool_decide (n = 0) then av else length A) false.
Proof.
  intros E HF. revert av. induction n as [|n IH]; intros av Hn; [by rewrite Nat.add_0_r|].
  replace (length A + S n) with (S (length A + n)) by lia. cbn [add_scan].
  destruct (lookup_lt_is_Some_2 F n) as [x Hx]; [lia|].
  assert (records !! (length A + n) = Some x) as ->.
  { rewrite E, lookup_app_r by lia. by replace (length A + n - length A) with n by lia. }
  rewrite free_used, bool_decide_eq_false_2 by (by apply (Forall_lookup_1 _ _ n _ HF)). cbn [negb].
  rewrite IH by lia. f_equal. repeat case_bool_decide; lia.
Qed.

(** Once a used row was seen the rest only looks for a collision. *)
Lemma add_scan_found n records id av :
  n <= length records ->
  add_scan n records id av true
  = if bool_decide (id ∈ packetId <$> filter used (take n records)) then inr tt else inl av.
Proof.
  induction n as [|n IH]; intros Hn; cbn [add_scan].
  - rewrite bool_decide_eq_false_2; [done|]. cbn. apply not_elem_of_nil.
  - destruct (lookup_lt_is_Some_2 records n) as [r Hr]; [lia|]. rewrite Hr.
    rewrite (take_S_r _ _ _ Hr), list.filter_app, fmap_app, free_used.
    destruct (decide (used r)) as [Hu|Hu].
    + rewrite bool_decide_eq_true_2 by done. cbn [negb]. rewrite filter_cons_True by done. cbn [filter list_filter fmap list_fmap].
      destruct (decide (packetId r = id)) as [->|Hne].
      * rewrite !bool_decide_eq_true_2; [done| |done]. set_solver.
      * rewrite (bool_decide_eq_false_2 (packetId r = id)) by done. rewrite IH by lia.
        rewrite (bool_decide_ext (id ∈ _) (id ∈ (packetId <$> filter used (take n records)) ++ [packetId r])); [done|].
        set_solver.
    + rewrite bool_decide_eq_false_2 by done. cbn [negb]. rewrite filter_cons_False by done. rewrite IH by lia.
      cbn. by rewrite app_nil_r.
Qed.

Lemma add_scan_spec records id A F :
  records = A ++ F -> Forall (fun r => ~ used r) F -> (A = [] \/ exists A' r, A = A' ++ [r] /\ used r) ->
  add_scan (length records) records id (length records) false
  = if bool_decide (id ∈ ids records) then inr tt else inl (length A).
Proof.
  intros E HF HA. assert (live F = []) as HlF.
  { clear -HF. induction HF as [|r F Hr _ IH]; [done|]. by rewrite live_cons_free. }
  assert (length records = length A + length F) as El by (by rewrite E, length_app).
  rewrite El, (add_scan_skip records A F) by done.
  assert ((if bool_decide (length F = 0) then length A + length F else length A) = length A) as ->
    by (case_bool_decide; lia).
  assert (ids records = packetId <$> live A) as -> by (unfold ids; by rewrite E, live_app, HlF, app_nil_r).
  destruct HA as [->|(A' & r & -> & Hr)]; [cbn; by rewrite bool_decide_eq_false_2 by apply not_elem_of_nil|].
  rewrite length_app. cbn [length]. rewrite Nat.add_1_r. cbn [add_scan].
  assert (records !! length A' = Some r) as ->.
  { rewrite E, <- app_assoc. by apply list_lookup_middle. }
  rewrite free_used, bool_decide_eq_true_2 by done. cbn [negb].
  rewrite live_app, live_cons_used, fmap_app by done. cbn [fmap list_fmap].
  destruct (decide (packetId r = id)) as [<-|Hne].
  - rewrite !bool_decide_eq_true_2; [done| |done]. set_solver.
  - rewrite bool_decide_eq_false_2 by done. rewrite add_scan_found by (rewrite E, !length_app; cbn; lia).
    rewrite E, <- app_assoc, take_app_length.
    rewrite (bool_decide_ext (id ∈ packetId <$> filter used A') (id ∈ (packetId <$> live A') ++ [packetId r])); [done|].
    unfold live. set_solver.
Qed.

(** ** The specification: an ordered log per direction *)

(** At most [cap] publishes, in order, no id twice. *)
Definition log_add (cap : nat) (L : list MQTTPubAckInfo_t) (r : MQTTPubAckInfo_t)
    : MQTTStatus_t * list MQTTPubAckInfo_t :=
  if bool_decide (packetId r ∈ packetId <$> L) then (MQTTStateCollision, L)
  else if bool_decide (length L < cap) then (MQTTSuccess, L ++ [r])
  else (MQTTNoMemory, L).

Lemma ids_snoc L r : Forall used L -> used r -> ids (L ++ [r]) = (packetId <$> L) ++ [packetId r].
Proof. intros HL Hr. unfold ids. by rewrite live_app, (live_used L), live_cons_used, fmap_app. Qed.

Lemma NoDup_snoc (l : list Z) x : NoDup l -> x ∉ l -> NoDup (l ++ [x]).
Proof. intros Hl Hx. apply list.NoDup_app. split_and!; [done| |apply NoDup_singleton]. set_solver. Qed.

Lemma log_ids L : Forall used L -> ids L = packetId <$> L.
Proof. intros H. unfold ids. by rewrite live_used. Qed.

(** What compaction leaves is the log followed by free rows. *)
Lemma addRecord_view records :
  records_ok records ->
  exists A k, (if last_used records then compactRecords records else records) = A ++ replicate k null_record
    /\ live A = live records /\ length A + k = length records /\ records_ok (A ++ replicate k null_record)
    /\ (A = [] \/ exists A' r, A = A' ++ [r] /\ used r)
    /\ (k = 0 <-> length (live records) = length records).
Proof.
  intros [Hf Hn]. pose proof (live_length records) as Hl. destruct (last_used records) eqn:Eu.
  - set (k := length records - length (live records)). exists (live records), k.
    rewrite compactRecords_spec by done. split; [done|].
    assert (live (live records) = live records) as El by apply live_used, live_all.
    split_and!; [done|unfold k; lia| | |unfold k; lia].
    + split; [|unfold ids; by rewrite live_app, live_null, app_nil_r, El].
      apply Forall_app. split; [|by apply Forall_replicate; right].
      eapply list.Forall_impl; [apply live_all|]. auto.
    + generalize (live_all records). generalize (live records). intros l.
      destruct l as [|r l _] using rev_ind; [by left|]. intros H. right. exists l, r. split; [done|].
      apply Forall_app in H as [_ H]. by apply Forall_cons_1 in H as [? _].
  - destruct (trailing_free records) as (A & F & -> & HF & HA).
    assert (F = replicate (length F) null_record) as EF.
    { apply Forall_app in Hf as [_ Hf]. clear -HF Hf. induction F as [|r F IH]; [done|].
      apply Forall_cons_1 in HF as [Hr HF], Hf as [[?| ->] Hf]; [done|]. cbn. f_equal. by apply IH. }
    exists A, (length F). rewrite <- EF. split; [done|].
    assert (live F = []) as HlF by (rewrite EF; apply live_null).
    rewrite live_app, HlF, app_nil_r in *. split_and!; [done|by rewrite length_app| |done|].
    + split; [done|]. done.
    + rewrite length_app. split; [|intros; pose proof (live_length A); lia]. intros H0.
      destruct F; [|done]. rewrite app_nil_r in *. destruct HA as [->|(A' & r & -> & Hr)]; [done|].
      unfold last_used in Eu. rewrite length_app in Eu. cbn in Eu.
      replace (length A' + 1 - 1) with (length A') in Eu by lia. rewrite list_lookup_middle in Eu by done.
      rewrite free_used, bool_decide_eq_true_2 in Eu; done.
Qed.

Lemma addRecord_spec records id q st :
  records_ok records -> id <> MQTT_PACKET_ID_INVALID ->
  let '(s, records') := addRecord records id q st in
  records_ok records' /\ length records' = length records /\
  log_add (length records) (live records) (Build_record id q st) = (s, live records').
Proof.
  intros Hok Hid. destruct (addRecord_view records Hok) as (A & k & E & HlA & Hlen & Hok' & HA & Hfull).
  unfold addRecord. rewrite E. set (R := A ++ replicate k null_record) in *.
  assert (live R = live records) as HlR by (unfold R; by rewrite live_app, live_null, app_nil_r).
  assert (length R = length records) as HR by (unfold R; by rewrite length_app, length_replicate).
  rewrite (add_scan_spec R id A (replicate k null_record)) by (done || apply Forall_replicate, null_not_used).
  unfold ids. rewrite HlR. unfold log_add. cbn [packetId].
  destruct (bool_decide (id ∈ packetId <$> live records)) eqn:Ec; [by rewrite HlR|].
  apply bool_decide_eq_false_1 in Ec. pose proof (live_length records) as Hl.
  destruct k as [|k].
  - rewrite bool_decide_eq_false_2 by lia. rewrite bool_decide_eq_false_2; [by rewrite HlR|].
    destruct Hfull as [Hfull _]. rewrite Hfull by done. lia.
  - rewrite bool_decide_eq_true_2 by lia.
    assert (<[length A := Build_record id q st]> R = A ++ Build_record id q st :: replicate k null_record) as ->.
    { unfold R. rewrite insert_app_r_alt by lia. by rewrite Nat.sub_diag. }
    assert (live (A ++ Build_record id q st :: replicate k null_record) = live records ++ [Build_record id q st]) as El.
    { rewrite live_app, live_cons_used by done. by rewrite live_null, HlA. }
    rewrite El. split_and!.
    + split; [|unfold ids; rewrite El, fmap_app; apply NoDup_snoc; [apply Hok|done]].
      apply ro_free in Hok'. unfold R in Hok'. apply Forall_app in Hok' as [HfA Hk]. apply Forall_app. split; [done|].
      apply Forall_cons_2; [by left|]. by apply Forall_cons_1 in Hk as [_ Hk].
    + rewrite <- HR. unfold R. rewrite !length_app. cbn. by rewrite !length_replicate.
    + rewrite bool_decide_eq_true_2; [done|]. destruct (decide (length (live records) = length records)) as [Hx|]; [|lia].
      apply Hfull in Hx. done.
Qed.

(** ** Finding, updating and deleting a row *)

Lemma find_from_spec records id i :
  id <> MQTT_PACKET_ID_INVALID ->
  match find_from records id i with
  | Some (j, q, st) =>
      i <= j /\ exists a b, records = a ++ Build_record id q st :: b /\ length a = j - i /\ id ∉ ids a
  | None => id ∉ ids records
  end.
Proof.
  intros Hid. revert i. induction records as [|r rs IH]; intros i; cbn [find_from]; [apply not_elem_of_nil|].
  destruct (decide (packetId r = id)) as [<-|Hne].
  - rewrite bool_decide_eq_true_2 by done. split; [lia|]. exists [], rs. destruct r. split_and!; [done|cbn; lia|].
    apply not_elem_of_nil.
  - rewrite bool_decide_eq_false_2 by done. specialize (IH (S i)).
    assert (forall a, id ∉ ids a -> id ∉ ids (r :: a)) as Hc.
    { intros a Ha. unfold ids in *. destruct (decide (used r)); [rewrite live_cons_used by done|by rewrite live_cons_free].
      cbn. set_solver. }
    destruct (find_from rs id (S i)) as [[[j q] st]|]; [|by apply Hc].
    destruct IH as (Hj & a & b & -> & Hl & Ha). split; [lia|]. exists (r :: a), b. split_and!; [done|cbn; lia|by apply Hc].
Qed.

(** The row found, with what is before and behind it; in the log as well. *)
Lemma findInRecord_Some records id j q st :
  id <> MQTT_PACKET_ID_INVALID -> findInRecord records id = Some (j, q, st) ->
  exists a b, records = a ++ Build_record id q st :: b /\ length a = j /\
    live records = live a ++ Build_record id q st :: live b.
Proof.
  intros Hid E. pose proof (find_from_spec records id 0 Hid) as H. unfold findInRecord in E. rewrite E in H.
  destruct H as (_ & a & b & -> & Hl & _). exists a, b. split_and!; [done|lia|]. by rewrite live_app, live_cons_used.
Qed.

Lemma findInRecord_None records id :
  id <> MQTT_PACKET_ID_INVALID -> findInRecord records id = None -> id ∉ ids records.
Proof.
  intros Hid E. pose proof (find_from_spec records id 0 Hid) as H. unfold findInRecord in E. by rewrite E in H.
Qed.

(** The log's own lookup. *)
Fixpoint log_find (L : list MQTTPubAckInfo_t) (id : Z)
    : option (list MQTTPubAckInfo_t * MQTTPubAckInfo_t * list MQTTPubAckInfo_t) :=
  match L with
  | [] => None
  | r :: L =>
      if bool_decide (packetId r = id) then Some ([], r, L)
      else match log_find L id with
           | Some (a, x, b) => Some (r :: a, x, b)
           | None => None
           end
  end.

Lemma log_find_None L id : id ∉ packetId <$> L -> log_find L id = None.
Proof.
  induction L as [|r L IH]; cbn; intros H; [done|]. rewrite bool_decide_eq_false_2 by set_solver.
  by rewrite IH by set_solver.
Qed.
Lemma log_find_app a x b : packetId x ∉ packetId <$> a -> log_find (a ++ x :: b) (packetId x) = Some (a, x, b).
Proof.
  induction a as [|r a IH]; cbn; intros H; [by rewrite bool_decide_eq_true_2|].
  rewrite bool_decide_eq_false_2 by set_solver. by rewrite IH by set_solver.
Qed.

Lemma ids_app a b : ids (a ++ b) = ids a ++ ids b.
Proof. unfold ids. by rewrite live_app, fmap_app. Qed.
Lemma ids_cons r b : used r -> ids (r :: b) = packetId r :: ids b.
Proof. intros H. unfold ids. by rewrite live_cons_used. Qed.

(** Writing a new state, or freeing the row. *)
Lemma update_keeps a b id q st st' :
  records_ok (a ++ Build_record id q st :: b) -> id <> MQTT_PACKET_ID_INVALID ->
  let rs := updateRecord (a ++ Build_record id q st :: b) (length a) st' false in
  rs = a ++ Build_record id q st' :: b /\ records_ok rs /\ live rs = live a ++ Build_record id q st' :: live b.
Proof.
  intros [Hf Hn] Hid. unfold updateRecord. cbv zeta. rewrite list.alter_app_r_alt by lia. rewrite Nat.sub_diag. cbn [alter list_alter packetId qos].
  split; [done|]. split; [|by rewrite live_app, live_cons_used]. split.
  - apply Forall_app in Hf as [Ha Hb]. apply Forall_cons_1 in Hb as [_ Hb]. apply Forall_app. split; [done|].
    by apply Forall_cons_2; [left|].
  - rewrite ids_app, ids_cons in * by done. done.
Qed.

Lemma update_frees a b id q st st' :
  records_ok (a ++ Build_record id q st :: b) -> id <> MQTT_PACKET_ID_INVALID ->
  let rs := updateRecord (a ++ Build_record id q st :: b) (length a) st' true in
  records_ok rs /\ length rs = length (a ++ Build_record id q st :: b) /\ live rs = live a ++ live b.
Proof.
  intros [Hf Hn] Hid. unfold updateRecord. cbv zeta. rewrite insert_app_r_alt by lia. rewrite Nat.sub_diag. cbn [insert list_insert].
  split_and!; [|by rewrite !length_app|by rewrite live_app, live_cons_free by apply null_not_used]. split.
  - apply Forall_app in Hf as [Ha Hb]. apply Forall_cons_1 in Hb as [_ Hb]. apply Forall_app. split; [done|].
    by apply Forall_cons_2; [right|].
  - rewrite ids_app in *. unfold ids at 2. rewrite live_cons_free by apply null_not_used.
    rewrite ids_cons in Hn by done. apply list.NoDup_app in Hn as (H1 & H2 & H3). apply list.NoDup_cons in H3 as [H3 H4].
    apply list.NoDup_app. split_and!; [done| |done]. intros x Hx Hxb. apply (H2 x Hx). unfold ids in Hxb. set_solver.
Qed.

(** ** The specification: the delivery protocol of MQTT 3.1.1 *)

Inductive effect := Refuse | Keep | Become (st : MQTTPublishState_t) | Requeue (st : MQTTPublishState_t) | Retire.

(** What sending or receiving an acknowledgement does to a publish in flight. *)
Definition protocol (ty : MQTTPubAckType_t) (op : MQTTStateOperation_t) (q : MQTTQoS_t)
    (st : MQTTPublishState_t) : effect :=
  match op, ty, q, st with
  (* a publish of ours *)
  | MQTT_RECEIVE, MQTTPuback, MQTTQoS1, MQTTPubAckPending => Retire
  | MQTT_RECEIVE, MQTTPubrec, MQTTQoS2, MQTTPubRecPending => Requeue MQTTPubRelSend
  | MQTT_SEND, MQTTPubrel, MQTTQoS2, MQTTPubRelSend => Become MQTTPubCompPending
  | MQTT_SEND, MQTTPubrel, MQTTQoS2, MQTTPubCompPending => Keep
  | MQTT_RECEIVE, MQTTPubcomp, MQTTQoS2, MQTTPubCompPending => Retire
  (* one of the server's *)
  | MQTT_SEND, MQTTPuback, MQTTQoS1, MQTTPubAckSend => Retire
  | MQTT_SEND, MQTTPubrec, MQTTQoS2, MQTTPubRecSend => Become MQTTPubRelPending
  | MQTT_SEND, MQTTPubrec, MQTTQoS2, MQTTPubRelPending => Keep
  | MQTT_RECEIVE, MQTTPubrel, MQTTQoS2, MQTTPubRelPending => Become MQTTPubCompSend
  | MQTT_RECEIVE, MQTTPubrel, MQTTQoS2, MQTTPubCompSend => Keep
  | MQTT_SEND, MQTTPubcomp, MQTTQoS2, MQTTPubCompSend => Retire
  | _, _, _, _ => Refuse
  end.

(** The states a publish goes through, per direction. *)
Definition out_phase (r : MQTTPubAckInfo_t) : Prop :=
  match qos r, publishState r with
  | MQTTQoS1, (MQTTPublishSend | MQTTPubAckPending)
  | MQTTQoS2, (MQTTPublishSend | MQTTPubRecPending | MQTTPubRelSend | MQTTPubCompPending) => True
  | _, _ => False
  end.

Definition in_phase (r : MQTTPubAckInfo_t) : Prop :=
  match qos r, publishState r with
  | MQTTQoS1, MQTTPubAckSend
  | MQTTQoS2, (MQTTPubRecSend | MQTTPubRelPending | MQTTPubCompSend) => True
  | _, _ => False
  end.

Definition with_state (r : MQTTPubAckInfo_t) (st : MQTTPublishState_t) : MQTTPubAckInfo_t :=
  Build_record (packetId r) (qos r) st.

Definition log_effect (a : list MQTTPubAckInfo_t) (r : MQTTPubAckInfo_t) (b : list MQTTPubAckInfo_t)
    (e : effect) : MQTTStatus_t * list MQTTPubAckInfo_t :=
  match e with
  | Refuse => (MQTTIllegalState, a ++ r :: b)
  | Keep => (MQTTSuccess, a ++ r :: b)
  | Become st => (MQTTSuccess, a ++ with_state r st :: b)
  | Requeue st => (MQTTSuccess, (a ++ b) ++ [with_state r st])
  | Retire => (MQTTSuccess, a ++ b)
  end.

Definition log_ack (L : list MQTTPubAckInfo_t) (id : Z) (ty : MQTTPubAckType_t)
    (op : MQTTStateOperation_t) : MQTTStatus_t * list MQTTPubAckInfo_t :=
  match log_find L id with
  | None => (MQTTBadResponse, L)
  | Some (a, r, b) => log_effect a r b (protocol ty op (qos r) (publishState r))
  end.

(** A publish goes out, for the first time or again. *)
Definition log_sent (L : list MQTTPubAckInfo_t) (id : Z) (q : MQTTQoS_t) : MQTTStatus_t * list MQTTPubAckInfo_t :=
  match log_find L id with
  | None => (MQTTBadParameter, L)
  | Some (a, r, b) =>
      if bool_decide (qos r <> q) then (MQTTBadParameter, L) else
      log_effect a r b
        match publishState r with
        | MQTTPublishSend => Become (MQTT_CalculateStatePublish MQTT_SEND q)
        | MQTTPubAckPending | MQTTPubRecPending => Keep
        | _ => Refuse
        end
  end.

Definition log_remove (L : list MQTTPubAckInfo_t) (id : Z) : MQTTStatus_t * list MQTTPubAckInfo_t :=
  match log_find L id with
  | None => (MQTTBadParameter, L)
  | Some (a, _, b) => (MQTTSuccess, a ++ b)
  end.

(** ** One acknowledgement *)

(** The table of the code is the protocol, on the rows there are. *)
Lemma ack_table ty op q st :
  (if isPublishOutgoing ty op then out_phase (Build_record 0 q st) else in_phase (Build_record 0 q st)) ->
  let new := MQTT_CalculateStateAck ty op q in
  match protocol ty op q st with
  | Refuse => validateTransitionAck st new = false
  | Keep => validateTransitionAck st new = true /\ new = st
  | Become st' => validateTransitionAck st new = true /\ new = st' /\ st <> new /\ new <> MQTTPublishDone /\ new <> MQTTPubRelSend
  | Requeue st' => validateTransitionAck st new = true /\ new = MQTTPubRelSend /\ st' = new /\ st <> new /\ q = MQTTQoS2
  | Retire => validateTransitionAck st new = true /\ new = MQTTPublishDone /\ st <> new
  end.
Proof. destruct ty, op, q, st; cbn; intros H; done || (split_and!; done). Qed.

Lemma updateStateAck_spec a id q st b ty op :
  let rs := a ++ Build_record id q st :: b in
  let r := Build_record id q st in
  records_ok rs -> id <> MQTT_PACKET_ID_INVALID ->
  (if isPublishOutgoing ty op then out_phase r else in_phase r) ->
  let '(s, rs') := updateStateAck rs (length a) id st (MQTT_CalculateStateAck ty op q) in
  records_ok rs' /\ length rs' = length rs /\ log_effect (live a) r (live b) (protocol ty op q st) = (s, live rs').
Proof.
  intros rs r Hok Hid Hph. pose proof (ack_table ty op q st Hph) as Ht. cbv zeta in Ht. unfold updateStateAck.
  assert (live rs = live a ++ r :: live b) as Hl by (unfold rs; by rewrite live_app, live_cons_used).
  destruct (protocol ty op q st) as [| |st'|st'|].
  - rewrite Ht. cbn [log_effect]. by rewrite Hl.
  - destruct Ht as [-> ->]. rewrite bool_decide_eq_false_2 by tauto. cbn [log_effect]. by rewrite Hl.
  - destruct Ht as (-> & -> & Hne & Hd & Hr). rewrite bool_decide_eq_true_2 by done.
    rewrite !(bool_decide_eq_false_2 (_ = MQTTPublishDone)), !(bool_decide_eq_false_2 (_ = MQTTPubRelSend)) by done. cbn [orb].
    destruct (update_keeps a b id q st st' Hok Hid) as (E & Ho & El). unfold rs. rewrite El.
    split_and!; [done| |done]. rewrite E, !length_app. done.
  - destruct Ht as (-> & -> & -> & Hne & ->). rewrite bool_decide_eq_true_2 by done.
    rewrite (bool_decide_eq_true_2 (MQTTPubRelSend = MQTTPubRelSend)), orb_true_r by done.
    destruct (update_frees a b id MQTTQoS2 st MQTTPubRelSend Hok Hid) as (Ho & Hlen & El).
    pose proof (addRecord_spec _ id MQTTQoS2 MQTTPubRelSend Ho Hid) as Ha. unfold rs in *.
    destruct (addRecord _ _ _ _) as [s rs']. destruct Ha as (H1 & H2 & H3). rewrite Hlen, El in *.
    split_and!; [done..|]. cbn [log_effect]. rewrite <- H3. unfold log_add, with_state. cbn [packetId qos].
    rewrite bool_decide_eq_false_2, bool_decide_eq_true_2; [done| |].
    + rewrite !length_app. cbn [length]. pose proof (live_length a). pose proof (live_length b). lia.
    + destruct Hok as [_ Hn]. rewrite ids_app, ids_cons in Hn by done. apply list.NoDup_app in Hn as (_ & Hx & Hb).
      apply list.NoDup_cons in Hb as [Hb _]. cbn [packetId] in *. rewrite fmap_app, elem_of_app. unfold ids in *.
      intros [Hin|Hin]; [|done]. apply (Hx id Hin). set_solver.
  - destruct Ht as (-> & -> & Hne). rewrite bool_decide_eq_true_2 by done.
    rewrite (bool_decide_eq_true_2 (MQTTPublishDone = MQTTPublishDone)) by done. cbn [orb].
    rewrite (bool_decide_eq_false_2 (MQTTPublishDone = MQTTPubRelSend)) by done.
    destruct (update_frees a b id q st MQTTPublishDone Hok Hid) as (Ho & Hlen & El). unfold rs.
    split_and!; [done..|]. cbn [log_effect]. by rewrite El.
Qed.

(** ** The session as the client's code drives it *)

(** A publish is reserved, sent (again), received, acknowledged, dropped. *)
Inductive flight_op :=
  | OpReserve (id : Z) (q : MQTTQoS_t)
  | OpSent (id : Z) (q : MQTTQoS_t)
  | OpReceived (id : Z) (q : MQTTQoS_t)
  | OpAck (id : Z) (ty : MQTTPubAckType_t) (op : MQTTStateOperation_t)
  | OpRemove (id : Z).

Definition run_op (c : MQTTContext_t) (o : flight_op) : MQTTStatus_t * MQTTContext_t :=
  match o with
  | OpReserve id q => MQTT_ReserveState c id q
  | OpSent id q => let '(s, _, c) := MQTT_UpdateStatePublish c id MQTT_SEND q in (s, c)
  | OpReceived id q => let '(s, _, c) := MQTT_UpdateStatePublish c id MQTT_RECEIVE q in (s, c)
  | OpAck id ty op => let '(s, _, c) := MQTT_UpdateStateAck c id ty op in (s, c)
  | OpRemove id => MQTT_RemoveStateRecord c id
  end.

Fixpoint run_ops (c : MQTTContext_t) (os : list flight_op) : list MQTTStatus_t * MQTTContext_t :=
  match os with
  | [] => ([], c)
  | o :: os => let '(s, c) := run_op c o in let '(ss, c) := run_ops c os in (s :: ss, c)
  end.

(** The specification's state: the two logs, the publishes of the client and
    those of the server. *)
Definition logs : Type := list MQTTPubAckInfo_t * list MQTTPubAckInfo_t.

Definition publish_guard (id : Z) (q : MQTTQoS_t) (L : logs) (k : MQTTStatus_t * logs) : MQTTStatus_t * logs :=
  if bool_decide (q = MQTTQoS0) then (MQTTSuccess, L)
  else if bool_decide (id = MQTT_PACKET_ID_INVALID) then (MQTTBadParameter, L) else k.

Definition spec_op (capo capi : nat) (L : logs) (o : flight_op) : MQTTStatus_t * logs :=
  let on_out (r : MQTTStatus_t * list MQTTPubAckInfo_t) := (r.1, (r.2, L.2)) in
  let on_in (r : MQTTStatus_t * list MQTTPubAckInfo_t) := (r.1, (L.1, r.2)) in
  match o with
  | OpReserve id q => publish_guard id q L (on_out (log_add capo L.1 (Build_record id q MQTTPublishSend)))
  | OpSent id q => publish_guard id q L (on_out (log_sent L.1 id q))
  | OpReceived id q =>
      publish_guard id q L (on_in (log_add capi L.2 (Build_record id q (MQTT_CalculateStatePublish MQTT_RECEIVE q))))
  | OpAck id ty op =>
      if bool_decide (id = MQTT_PACKET_ID_INVALID) then (MQTTBadParameter, L)
      else if isPublishOutgoing ty op then on_out (log_ack L.1 id ty op) else on_in (log_ack L.2 id ty op)
  | OpRemove id => on_out (log_remove L.1 id)
  end.

Fixpoint spec_ops (capo capi : nat) (L : logs) (os : list flight_op) : list MQTTStatus_t * logs :=
  match os with
  | [] => ([], L)
  | o :: os => let '(s, L) := spec_op capo capi L o in let '(ss, L) := spec_ops capo capi L os in (s :: ss, L)
  end.

Definition view (c : MQTTContext_t) : logs := (live (outgoingPublishRecords c), live (incomingPublishRecords c)).

Record flight_ok (c : MQTTContext_t) : Prop := {
  fl_out : records_ok (outgoingPublishRecords c);
  fl_in : records_ok (incomingPublishRecords c);
  fl_out_phase : Forall out_phase (live (outgoingPublishRecords c));
  fl_in_phase : Forall in_phase (live (incomingPublishRecords c))
}.

(** Only the two arrays change, and not in length. *)
Definition rest_kept (c c' : MQTTContext_t) : Prop :=
  length (outgoingPublishRecords c') = length (outgoingPublishRecords c) /\
  length (incomingPublishRecords c') = length (incomingPublishRecords c) /\
  c' = set_incomingPublishRecords (incomingPublishRecords c') (set_outgoingPublishRecords (outgoingPublishRecords c') c).

#[export] Instance rest_kept_preorder : PreOrder rest_kept.
Proof.
  split.
  - intros c. unfold rest_kept. by destruct c.
  - intros c c' c'' (H1 & H2 & H3) (H4 & H5 & H6). split_and!; [congruence..|]. rewrite H6, H3 at 1. by destruct c, c', c''.
Qed.

(** ** Phases are kept *)

Definition new_state (e : effect) : option MQTTPublishState_t :=
  match e with Become st | Requeue st => Some st | _ => None end.

Lemma effect_phase (P : MQTTPubAckInfo_t -> Prop) a r b e :
  Forall P (a ++ r :: b) -> (forall st, new_state e = Some st -> P (with_state r st)) ->
  Forall P (log_effect a r b e).2.
Proof.
  intros H Hn. destruct (proj1 (Forall_app _ _ _) H) as [Ha Hrb]. apply Forall_cons_1 in Hrb as [Hr Hb].
  destruct e; cbn [log_effect snd]; rewrite ?Forall_app, ?Forall_cons; eauto 8 using Forall_nil.
Qed.

Lemma ack_phase ty op r st :
  (if isPublishOutgoing ty op then out_phase r else in_phase r) ->
  new_state (protocol ty op (qos r) (publishState r)) = Some st ->
  if isPublishOutgoing ty op then out_phase (with_state r st) else in_phase (with_state r st).
Proof. destruct r as [id [] []], ty, op; cbn; intros H E; done || (injection E as <-; done). Qed.

Lemma out_step c rs :
  flight_ok c -> records_ok rs -> length rs = length (outgoingPublishRecords c) -> Forall out_phase (live rs) ->
  flight_ok (set_outgoingPublishRecords rs c) /\ rest_kept c (set_outgoingPublishRecords rs c) /\
  view (set_outgoingPublishRecords rs c) = (live rs, (view c).2).
Proof. intros [] ? ? ?. destruct c. unfold rest_kept. by split_and!. Qed.

Lemma in_step c rs :
  flight_ok c -> records_ok rs -> length rs = length (incomingPublishRecords c) -> Forall in_phase (live rs) ->
  flight_ok (set_incomingPublishRecords rs c) /\ rest_kept c (set_incomingPublishRecords rs c) /\
  view (set_incomingPublishRecords rs c) = ((view c).1, live rs).
Proof. intros [] ? ? ?. destruct c. unfold rest_kept. by split_and!. Qed.

Lemma add_phase (P : MQTTPubAckInfo_t -> Prop) cap L r : Forall P L -> P r -> Forall P (log_add cap L r).2.
Proof. intros. unfold log_add. repeat case_bool_decide; cbn; rewrite ?Forall_app; auto. Qed.

(** ** Each operation refines the specification *)

Section one_op.
Context (c : MQTTContext_t) (Hc : flight_ok c).
Let capo := length (outgoingPublishRecords c).
Let capi := length (incomingPublishRecords c).

Definition op_refines (o : flight_op) : Prop :=
  let '(s, c') := run_op c o in
  flight_ok c' /\ rest_kept c c' /\ spec_op capo capi (view c) o = (s, view c').

Lemma unchanged o s : run_op c o = (s, c) -> spec_op capo capi (view c) o = (s, view c) -> op_refines o.
Proof. unfold op_refines. intros -> ->. by split_and!. Qed.

Lemma reserve_refines id q : op_refines (OpReserve id q).
Proof.
  destruct (decide (q = MQTTQoS0)) as [->|Hq]; [by eapply unchanged|].
  destruct (decide (id = MQTT_PACKET_ID_INVALID)) as [->|Hid].
  { eapply unchanged; cbn [run_op spec_op]; unfold MQTT_ReserveState, publish_guard;
      rewrite bool_decide_eq_false_2 by done; reflexivity. }
  unfold op_refines. cbn [run_op spec_op]. unfold MQTT_ReserveState, publish_guard.
  rewrite !bool_decide_eq_false_2 by done.
  pose proof (addRecord_spec (outgoingPublishRecords c) id q MQTTPublishSend (fl_out c Hc) Hid) as Ha.
  pose proof (add_phase out_phase capo (view c).1 (Build_record id q MQTTPublishSend) (fl_out_phase c Hc)) as Hp.
  destruct (addRecord _ _ _ _) as [s rs]. destruct Ha as (H1 & H2 & H3).
  unfold capo, view in *. cbn [fst snd] in *. rewrite H3 in *. cbn [fst snd] in *.
  destruct (out_step c rs Hc H1 H2) as (? & ? & _); [apply Hp; by destruct q|]. by split_and!.
Qed.

Lemma received_refines id q : op_refines (OpReceived id q).
Proof.
  destruct (decide (q = MQTTQoS0)) as [->|Hq]; [by eapply unchanged|].
  destruct (decide (id = MQTT_PACKET_ID_INVALID)) as [->|Hid].
  { eapply unchanged; cbn [run_op spec_op]; unfold MQTT_UpdateStatePublish, publish_guard;
      rewrite bool_decide_eq_false_2 by done; reflexivity. }
  unfold op_refines. cbn [run_op spec_op]. unfold MQTT_UpdateStatePublish, publish_guard, updateStatePublish.
  rewrite !bool_decide_eq_false_2 by done. set (st := MQTT_CalculateStatePublish MQTT_RECEIVE q).
  assert (validateTransitionPublish MQTTStateNull st MQTT_RECEIVE q = true) as -> by (by destruct q).
  pose proof (addRecord_spec (incomingPublishRecords c) id q st (fl_in c Hc) Hid) as Ha.
  pose proof (add_phase in_phase capi (view c).2 (Build_record id q st) (fl_in_phase c Hc)) as Hp.
  destruct (addRecord _ _ _ _) as [s rs]. destruct Ha as (H1 & H2 & H3).
  unfold capi, view in *. cbn [fst snd] in *. rewrite H3 in *. cbn [fst snd] in *.
  destruct (in_step c rs Hc H1 H2) as (? & ? & _); [apply Hp; by destruct q|]. by split_and!.
Qed.

(** A row found, with the log's own lookup. *)
Lemma found_in_log records id j q st :
  records_ok records -> id <> MQTT_PACKET_ID_INVALID -> findInRecord records id = Some (j, q, st) ->
  exists a b, records = a ++ Build_record id q st :: b /\ length a = j /\
    live records = live a ++ Build_record id q st :: live b /\
    log_find (live records) id = Some (live a, Build_record id q st, live b).
Proof.
  intros [_ Hn] Hid E. destruct (findInRecord_Some _ _ _ _ _ Hid E) as (a & b & -> & Hl & El).
  exists a, b. split_and!; [done..|]. rewrite El. apply (log_find_app (live a) (Build_record id q st)).
  rewrite ids_app, ids_cons in Hn by done. apply list.NoDup_app in Hn as (_ & Hx & _).
  intros Hin. apply (Hx id Hin). set_solver.
Qed.

Lemma not_in_log records id :
  id <> MQTT_PACKET_ID_INVALID -> findInRecord records id = None -> log_find (live records) id = None.
Proof. intros Hid E. apply log_find_None. by apply findInRecord_None. Qed.

Lemma sent_table q st :
  q <> MQTTQoS0 -> out_phase (Build_record 0 q st) ->
  let new := MQTT_CalculateStatePublish MQTT_SEND q in
  match st with
  | MQTTPublishSend => validateTransitionPublish st new MQTT_SEND q = true /\ st <> new /\ out_phase (Build_record 0 q new)
  | MQTTPubAckPending | MQTTPubRecPending => validateTransitionPublish st new MQTT_SEND q = true /\ st = new
  | _ => validateTransitionPublish st new MQTT_SEND q = false
  end.
Proof. destruct q, st; cbn; intros ? H; done || (split_and!; done). Qed.

Lemma sent_refines id q : op_refines (OpSent id q).
Proof.
  destruct (decide (q = MQTTQoS0)) as [->|Hq]; [by eapply unchanged|].
  destruct (decide (id = MQTT_PACKET_ID_INVALID)) as [->|Hid].
  { eapply unchanged; cbn [run_op spec_op]; unfold MQTT_UpdateStatePublish, publish_guard;
      rewrite bool_decide_eq_false_2 by done; reflexivity. }
  unfold op_refines. cbn [run_op spec_op]. unfold MQTT_UpdateStatePublish, publish_guard, log_sent.
  rewrite !bool_decide_eq_false_2 by done. cbn [view fst].
  destruct (findInRecord _ _) as [[[j fq] st]|] eqn:Ef.
  2: { rewrite (not_in_log _ _ Hid Ef). by split_and!. }
  destruct (found_in_log _ _ _ _ _ (fl_out c Hc) Hid Ef) as (a & b & Er & Hj & El & ->). cbn [qos publishState].
  destruct (decide (fq = q)) as [->|Hne].
  2: { rewrite bool_decide_eq_true_2 by done. by split_and!. }
  rewrite bool_decide_eq_false_2 by tauto.
  pose proof (fl_out_phase c Hc) as Hp. rewrite El in Hp. apply Forall_app in Hp as [Hpa Hp].
  apply Forall_cons_1 in Hp as [Hpr Hpb]. pose proof (sent_table q st Hq Hpr) as Ht. cbv zeta in Ht.
  unfold updateStatePublish. destruct st; try (by destruct q); cbn [log_effect].
  - destruct Ht as (-> & Hn & Hp'). rewrite bool_decide_eq_true_2 by done.
    pose proof (update_keeps a b id q MQTTPublishSend (MQTT_CalculateStatePublish MQTT_SEND q)) as Hu.
    cbv zeta in Hu. rewrite <- Er, Hj in Hu. destruct (Hu (fl_out c Hc) Hid) as (E & H1 & H2).
    destruct (out_step c (updateRecord (outgoingPublishRecords c) j (MQTT_CalculateStatePublish MQTT_SEND q) false) Hc H1)
      as (? & ? & E'); [by rewrite E, Er, !length_app|rewrite H2; apply Forall_app; by split; [|apply Forall_cons_2]|].
    split_and!; [done..|]. rewrite E', H2. done.
  - rewrite Ht. unfold view. rewrite El. by split_and!.
  - destruct Ht as (-> & <-). rewrite bool_decide_eq_false_2 by tauto. unfold view. rewrite El. by split_and!.
  - destruct Ht as (-> & <-). rewrite bool_decide_eq_false_2 by tauto. unfold view. rewrite El. by split_and!.
  - rewrite Ht. unfold view. rewrite El. by split_and!.
Qed.

Lemma ack_refines id ty op : op_refines (OpAck id ty op).
Proof.
  destruct (decide (id = MQTT_PACKET_ID_INVALID)) as [->|Hid]; [by eapply unchanged|].
  unfold op_refines. cbn [run_op spec_op]. unfold MQTT_UpdateStateAck, log_ack.
  rewrite !bool_decide_eq_false_2 by done. cbn [view fst snd].
  set (out := isPublishOutgoing ty op).
  set (records := if out then outgoingPublishRecords c else incomingPublishRecords c).
  assert (records_ok records /\ Forall (fun r => if out then out_phase r else in_phase r) (live records)) as [Hok Hp].
  { destruct Hc. unfold records. by destruct out. }
  destruct (findInRecord records id) as [[[j q] st]|] eqn:Ef.
  2: { pose proof (not_in_log _ _ Hid Ef) as E. unfold records in E. destruct out; rewrite E; by split_and!. }
  destruct (found_in_log _ _ _ _ _ Hok Hid Ef) as (a & b & Er & Hj & El & Eg).
  rewrite El in Hp. pose proof (effect_phase _ (live a) _ (live b) (protocol ty op q st) Hp (fun st' => ack_phase ty op _ st' (proj1 (Forall_cons_1 _ _ _ (proj2 (proj1 (Forall_app _ _ _) Hp)))))) as Hp'.
  pose proof (updateStateAck_spec a id q st b ty op) as Hu. cbv zeta in Hu. rewrite <- Er, Hj in Hu.
  specialize (Hu Hok Hid (proj1 (Forall_cons_1 _ _ _ (proj2 (proj1 (Forall_app _ _ _) Hp))))).
  destruct (updateStateAck _ _ _ _ _) as [s rs]. destruct Hu as (H1 & H2 & H3). rewrite H3 in Hp'. cbn [snd] in Hp'.
  fold out in Hp'. unfold records in *. destruct out.
  - rewrite Eg. cbn [qos publishState]. rewrite H3. destruct (out_step c rs Hc H1 H2 Hp') as (? & ? & E). by split_and!.
  - rewrite Eg. cbn [qos publishState]. rewrite H3. destruct (in_step c rs Hc H1 H2 Hp') as (? & ? & E). by split_and!.
Qed.

Lemma remove_refines id : op_refines (OpRemove id).
Proof.
  unfold op_refines. cbn [run_op spec_op]. unfold MQTT_RemoveStateRecord, log_remove. cbn [view fst].
  destruct (bool_decide (outgoingPublishRecords c = [])) eqn:E0.
  { apply bool_decide_eq_true_1 in E0. rewrite E0. split_and!; [done..|]. unfold view. by rewrite E0. }
  clear E0. destruct (decide (id = MQTT_PACKET_ID_INVALID)) as [->|Hid].
  { rewrite log_find_None.
    2: { pose proof (live_all (outgoingPublishRecords c)) as Hu. intros (r & E & Hin)%list_elem_of_fmap.
         apply (proj1 (list.Forall_forall _ _) Hu) in Hin. by apply Hin. }
    destruct (findInRecord _ _) as [[[j q] st]|] eqn:Ef; [|by split_and!].
    assert (st = MQTTStateNull) as ->.
    { revert Ef. pose proof (ro_free _ (fl_out c Hc)) as Hf. unfold findInRecord. generalize 0.
      induction Hf as [|r rs Hr _ IH]; intros k; [done|]. cbn. destruct (bool_decide _) eqn:E; [|apply IH].
      apply bool_decide_eq_true_1 in E. destruct Hr as [Hr|Hr]; [by destruct Hr|]. rewrite Hr. intros [= _ _ <-]. done. }
    rewrite bool_decide_eq_true_2 by done. by split_and!. }
  destruct (findInRecord _ _) as [[[j q] st]|] eqn:Ef.
  2: { rewrite (not_in_log _ _ Hid Ef). by split_and!. }
  destruct (found_in_log _ _ _ _ _ (fl_out c Hc) Hid Ef) as (a & b & Er & Hj & El & ->).
  pose proof (fl_out_phase c Hc) as Hp. rewrite El in Hp. apply Forall_app in Hp as [Hpa Hp].
  apply Forall_cons_1 in Hp as [Hpr Hpb].
  assert (st <> MQTTStateNull /\ bool_decide (q <> MQTTQoS1) && bool_decide (q <> MQTTQoS2) = false) as [Hst ->].
  { by destruct q, st. }
  rewrite bool_decide_eq_false_2 by done.
  pose proof (update_frees a b id q st MQTTStateNull) as Hu. cbv zeta in Hu. rewrite <- Er, Hj in Hu.
  destruct (Hu (fl_out c Hc) Hid) as (H1 & H2 & H3).
  destruct (out_step c _ Hc H1 H2) as (? & ? & E); [rewrite H3; by apply Forall_app|].
  split_and!; [done..|]. by rewrite E, H3.
Qed.

Lemma op_refined o : op_refines o.
Proof. destruct o; auto using reserve_refines, sent_refines, received_refines, ack_refines, remove_refines. Qed.
End one_op.

(** ** Sequences of operations *)

Lemma run_ops_refines os : forall c,
  flight_ok c ->
  let '(ss, c') := run_ops c os in
  flight_ok c' /\ rest_kept c c' /\
  spec_ops (length (outgoingPublishRecords c)) (length (incomingPublishRecords c)) (view c) os = (ss, view c').
Proof.
  induction os as [|o os IH]; intros c Hc; cbn [run_ops spec_ops]; [by split_and!|].
  pose proof (op_refined c Hc o) as Ho. unfold op_refines in Ho. destruct (run_op c o) as [s c1].
  destruct Ho as (H1 & H2 & ->). specialize (IH c1 H1). destruct (run_ops c1 os) as [ss c2].
  destruct IH as (H3 & H4 & H5). destruct H2 as (E1 & E2 & E3). rewrite <- E1, <- E2, H5.
  split_and!; [done| |done]. transitivity c1; done.
Qed.

(** C19: The record arrays, with compaction, free rows and index arithmetic,
    behave as two ordered logs: whatever sequence of reservations, sends,
    receptions, acknowledgements and removals runs, each call answers what the
    logs answer, the logs follow the delivery protocol of MQTT 3.1.1 for their
    QoS, no packet id is twice in flight, and nothing else of the context
    changes. *)
Theorem session_refines c os :
  flight_ok c ->
  let '(ss, c') := run_ops c os in
  spec_ops (length (outgoingPublishRecords c)) (length (incomingPublishRecords c)) (view c) os = (ss, view c') /\
  NoDup (ids (outgoingPublishRecords c')) /\ NoDup (ids (incomingPublishRecords c')) /\
  flight_ok c' /\ rest_kept c c'.
Proof.
  intros Hc. pose proof (run_ops_refines os c Hc) as H. destruct (run_ops c os) as [ss c'].
  destruct H as (H1 & H2 & H3). split_and!; [done|apply fl_out, H1|apply fl_in, H1|done|done].
Qed.

(** ** What is sent again *)

Definition awaits_publish (r : MQTTPubAckInfo_t) : Prop :=
  publishState r = MQTTPublishSend \/ publishState r = MQTTPubAckPending \/ publishState r = MQTTPubRecPending.
Definition awaits_pubrel (r : MQTTPubAckInfo_t) : Prop :=
  publishState r = MQTTPubCompPending \/ publishState r = MQTTPubRelSend.
#[export] Instance awaits_publish_dec r : Decision (awaits_publish r).
Proof. unfold awaits_publish. apply _. Defined.
#[export] Instance awaits_pubrel_dec r : Decision (awaits_pubrel r).
Proof. unfold awaits_pubrel. apply _. Defined.

(** The callers' loop: ask from cursor 0 until there is none. *)
Fixpoint collect (fuel : nat) (next : nat -> Z * nat) (cursor : nat) : list Z :=
  match fuel with
  | O => []
  | S fuel =>
      let '(id, cursor) := next cursor in
      if bool_decide (id = MQTT_PACKET_ID_INVALID) then [] else id :: collect fuel next cursor
  end.

Definition publishes_to_resend (fuel : nat) (c : MQTTContext_t) : list Z := collect fuel (MQTT_PublishToResend c) 0.
Definition pubrels_to_resend (fuel : nat) (c : MQTTContext_t) : list Z :=
  collect fuel (fun cursor => let '(id, _, cursor) := MQTT_PubrelToResend c cursor in (id, cursor)) 0.

Lemma publish_bits st : UINT16_CHECK_BIT publish_states (state_bit st) = bool_decide (awaits_publish (Build_record 0 MQTTQoS0 st)).
Proof. destruct st; reflexivity. Qed.
Lemma pubrel_bits st : UINT16_CHECK_BIT pubrel_states (state_bit st) = bool_decide (awaits_pubrel (Build_record 0 MQTTQoS0 st)).
Proof. destruct st; reflexivity. Qed.

Section resend.
Context (P : MQTTPubAckInfo_t -> Prop) {Pdec : forall r, Decision (P r)} (bits : Z).
Context (Hbits : forall r, UINT16_CHECK_BIT bits (state_bit (publishState r)) = bool_decide (P r)).
Context (Hnull : ~ P null_record).

Lemma select_from rows cursor :
  Forall (fun r => used r \/ r = null_record) rows ->
  (filter P (live rows) = [] /\ (select_loop rows bits cursor).1 = MQTT_PACKET_ID_INVALID) \/
  exists a r b, rows = a ++ r :: b /\ used r /\ select_loop rows bits cursor = (packetId r, cursor + S (length a)) /\
    filter P (live rows) = r :: filter P (live b).
Proof.
  intros H. revert cursor. induction H as [|r rs Hr _ IH]; intros cursor; cbn [select_loop]; [by left|].
  rewrite Hbits. destruct Hr as [Hr| ->].
  - rewrite live_cons_used by done. case_bool_decide as Hp.
    + right. exists [], r, rs. rewrite filter_cons_True by done. split_and!; [done..| |done]. f_equal. cbn. lia.
    + rewrite filter_cons_False by done. destruct (IH (S cursor)) as [?|(a & x & b & -> & Hx & -> & ->)]; [by left|].
      right. exists (r :: a), x, b. split_and!; [done..| |done]. f_equal. cbn. lia.
  - rewrite bool_decide_eq_false_2, live_cons_free by (done || apply null_not_used).
    destruct (IH (S cursor)) as [?|(a & x & b & -> & Hx & -> & ->)]; [by left|].
    right. exists (null_record :: a), x, b. split_and!; [done..| |done]. f_equal. cbn. lia.
Qed.

Lemma collect_from c fuel : forall cursor,
  records_ok (outgoingPublishRecords c) -> length (drop cursor (outgoingPublishRecords c)) < fuel ->
  collect fuel (stateSelect c bits) cursor = packetId <$> filter P (live (drop cursor (outgoingPublishRecords c))).
Proof.
  induction fuel as [|fuel IH]; intros cursor Hok Hf; [lia|]. cbn [collect]. unfold stateSelect at 1.
  destruct (select_from (drop cursor (outgoingPublishRecords c)) cursor) as [[E1 E2]|(a & r & b & E & Hr & -> & ->)].
  { apply list.Forall_drop. eapply list.Forall_impl; [apply Hok|]. cbn. unfold used. tauto. }
  - destruct (select_loop _ _ _) as [id cur]. cbn in E2. subst id. by rewrite bool_decide_eq_true_2, E1.
  - rewrite bool_decide_eq_false_2 by done. rewrite fmap_cons. f_equal.
    assert (drop (cursor + S (length a)) (outgoingPublishRecords c) = b) as Eb.
    { rewrite <- drop_drop, E. change (a ++ r :: b) with (a ++ [r] ++ b). rewrite app_assoc.
      replace (S (length a)) with (length (a ++ [r])) by (rewrite length_app; cbn; lia). apply drop_app_length. }
    rewrite IH; [by rewrite Eb|done|]. rewrite Eb. rewrite E, length_app in Hf. cbn in Hf. lia.
Qed.
End resend.

Lemma filter_ids (P : MQTTPubAckInfo_t -> Prop) {Pdec : forall r, Decision (P r)} (L : list MQTTPubAckInfo_t) id :
  id ∈ packetId <$> filter P L <-> exists r, r ∈ L /\ P r /\ packetId r = id.
Proof.
  rewrite list_elem_of_fmap. setoid_rewrite list_elem_of_filter. split; intros (r & H); exists r; naive_solver.
Qed.

Lemma filters_NoDup (P Q : MQTTPubAckInfo_t -> Prop) {Pdec : forall r, Decision (P r)} {Qdec : forall r, Decision (Q r)} (L : list MQTTPubAckInfo_t) :
  (forall r, P r -> ~ Q r) -> NoDup (packetId <$> L) ->
  NoDup ((packetId <$> filter P L) ++ (packetId <$> filter Q L)).
Proof.
  intros Hd. induction L as [|r L IH]; intros HL; [constructor|]. rewrite fmap_cons in HL.
  apply list.NoDup_cons in HL as [Hr HL]. specialize (IH HL).
  assert (packetId r ∉ (packetId <$> filter P L) ++ (packetId <$> filter Q L)) as Hr'.
  { rewrite elem_of_app, !filter_ids. rewrite list_elem_of_fmap in Hr. naive_solver. }
  destruct (decide (P r)) as [Hp|Hp]; [rewrite (filter_cons_True P) by done; rewrite (filter_cons_False Q) by auto|
    rewrite (filter_cons_False P) by done; destruct (decide (Q r)) as [Hq|Hq];
      [rewrite (filter_cons_True Q) by done|rewrite (filter_cons_False Q) by done; done]].
  - cbn. by apply list.NoDup_cons.
  - cbn. rewrite <- Permutation_middle. by apply list.NoDup_cons.
Qed.

(** After a reconnect the loops over [MQTT_PublishToResend] and
    [MQTT_PubrelToResend] list, in the order the publishes were made, exactly
    the packet ids that still wait for a PUBACK or PUBREC, and exactly those
    whose PUBREL is not yet confirmed; the two lists share no id. *)
Theorem resend_lists_the_unacknowledged c fuel :
  records_ok (outgoingPublishRecords c) -> length (outgoingPublishRecords c) < fuel ->
  publishes_to_resend fuel c = packetId <$> filter awaits_publish (live (outgoingPublishRecords c)) /\
  pubrels_to_resend fuel c = packetId <$> filter awaits_pubrel (live (outgoingPublishRecords c)) /\
  NoDup (publishes_to_resend fuel c ++ pubrels_to_resend fuel c).
Proof.
  intros Hok Hf.
  assert (publishes_to_resend fuel c = packetId <$> filter awaits_publish (live (outgoingPublishRecords c))) as E1.
  { apply (collect_from awaits_publish (Pdec := awaits_publish_dec) publish_states (fun r => publish_bits (publishState r)) ltac:(by intros [?|[?|?]]) c fuel 0); done. }
  assert (pubrels_to_resend fuel c = packetId <$> filter awaits_pubrel (live (outgoingPublishRecords c))) as E2.
  { pose proof (collect_from awaits_pubrel (Pdec := awaits_pubrel_dec) pubrel_states (fun r => pubrel_bits (publishState r)) ltac:(by intros [?|?]) c fuel 0 Hok Hf) as E.
    rewrite drop_0 in E. rewrite <- E.
    unfold pubrels_to_resend. generalize 0. clear. induction fuel as [|fuel IH]; intros k; [done|]. cbn [collect].
    unfold MQTT_PubrelToResend. destruct (stateSelect c pubrel_states k) as [id cur]. case_bool_decide; [done|]. f_equal. apply IH. }
  rewrite E1, E2. split_and!; [done..|]. apply filters_NoDup.
  - intros r [?|[?|?]] [?|?]; congruence.
  - rewrite <- log_ids by apply live_all. unfold ids. rewrite (live_used (live _)) by apply live_all. apply Hok.
Qed.

(** ** Witnesses *)

Definition demo_context : MQTTContext_t :=
  Build_context (replicate 3 null_record) (replicate 2 null_record) [] 1 MQTTNotConnected 0 0 false 0 0 0 false.

Lemma demo_flight : flight_ok demo_context.
Proof. split; [split|split| |]; repeat constructor; by right. Qed.

(** Two publishes; the first completes its QoS 2 handshake half-way. *)
Lemma session_refines_witness :
  flight_ok demo_context /\
  let '(ss, c') := run_ops demo_context
    [OpReserve 1 MQTTQoS2; OpReserve 2 MQTTQoS1; OpSent 1 MQTTQoS2; OpAck 1 MQTTPubrec MQTT_RECEIVE; OpReserve 2 MQTTQoS1] in
  spec_ops 3 2 (view demo_context)
    [OpReserve 1 MQTTQoS2; OpReserve 2 MQTTQoS1; OpSent 1 MQTTQoS2; OpAck 1 MQTTPubrec MQTT_RECEIVE; OpReserve 2 MQTTQoS1] = (ss, view c') /\
  ss = [MQTTSuccess; MQTTSuccess; MQTTSuccess; MQTTSuccess; MQTTStateCollision].
Proof.
  split; [apply demo_flight|].
  pose proof (session_refines demo_context
    [OpReserve 1 MQTTQoS2; OpReserve 2 MQTTQoS1; OpSent 1 MQTTQoS2; OpAck 1 MQTTPubrec MQTT_RECEIVE; OpReserve 2 MQTTQoS1] demo_flight) as H.
  destruct (run_ops _ _) as [ss c'] eqn:E. destruct H as (H & _). split; [exact H|]. vm_compute in E. by injection E as <- _.
Defined.

Definition resend_context : MQTTContext_t :=
  set_outgoingPublishRecords
    [Build_record 7 MQTTQoS1 MQTTPubAckPending; null_record; Build_record 9 MQTTQoS2 MQTTPubRelSend;
     Build_record 8 MQTTQoS2 MQTTPublishSend] demo_context.

Lemma resend_lists_the_unacknowledged_witness :
  records_ok (outgoingPublishRecords resend_context) /\
  publishes_to_resend 5 resend_context = [7; 8]%Z /\ pubrels_to_resend 5 resend_context = [9]%Z.
Proof.
  assert (records_ok (outgoingPublishRecords resend_context)) as H.
  { split; [|apply (bool_decide_unpack _); vm_compute; exact I]. by repeat (apply Forall_cons_2; [(by left) || by right|]). }
  split; [exact H|].
  destruct (resend_lists_the_unacknowledged resend_context 5 H ltac:(cbn; lia)) as (E1 & E2 & _).
  rewrite E1, E2. split; vm_compute; reflexivity.
Defined.
