(* ===== verification/MqttWire.v ===== *)
(** * MqttWire: the wire format of the MQTT client

    The packets as byte lists, and the theorems that the serialisers of
    [MqttSerializer] write exactly them and its parsers read exactly them. *)

From S2P Require Import Prelude MqttTypes MqttSerializer.
From Stdlib Require Import ZArith Lia.
From stdpp Require Import base list sets numbers strings.

(** ** Writers *)

(** [w] writes [bs] at the cursor, wherever they fit. *)
Definition writes (w : writer) (bs : bytes) : Prop :=
  forall mem i, i + length bs <= length mem ->
    w (mem, i) = Some (blit i bs mem, i + length bs).

Create HintDb wire.

Lemma writes_nil : writes Some [].
Proof. intros mem i _. unfold blit. cbn. by rewrite Nat.add_0_r, take_drop. Qed.

Lemma writes_poke bs : writes (poke bs) bs.
Proof. intros mem i H. unfold poke. by rewrite bool_decide_eq_true_2. Qed.

Lemma writes_seq w1 w2 a b : writes w1 a -> writes w2 b -> writes (w1 >>w w2) (a ++ b).
Proof.
  intros H1 H2 mem i H. rewrite length_app in *. unfold wseq. rewrite H1 by lia. cbn [mbind option_bind]. unfold blit.
  rewrite H2 by (rewrite !length_app, length_take, length_drop; lia). unfold blit. do 2 f_equal; [|lia].
  assert (length (take i mem) = i) as Hl by (rewrite length_take; lia).
  rewrite (app_assoc (take i mem) a).
  assert (length (take i mem ++ a) = i + length a) as Hl' by (rewrite length_app; lia).
  rewrite take_app_le, take_ge by lia. rewrite drop_app_ge, drop_drop by lia. rewrite Hl', <- !app_assoc. rewrite length_app. do 4 f_equal. lia.
Qed.

Lemma writes_memcpy src n bs : take n src = bs -> n <= length src -> writes (memcpy (Some src) n) bs.
Proof.
  intros <- Hn mem i H. unfold memcpy, peek. cbn. rewrite bool_decide_eq_true_2 by done. cbn.
  rewrite drop_0. by apply writes_poke.
Qed.

Lemma writes_if (b : bool) w bs : (b = true -> writes w bs) -> writes (wif b w) (if b then bs else []).
Proof. destruct b; intros H; [by apply H|apply writes_nil]. Qed.

Lemma writes_eq w a b : writes w a -> a = b -> writes w b.
Proof. by intros ? <-. Qed.

Lemma writes_ext w w' bs : (forall c, w c = w' c) -> writes w' bs -> writes w bs.
Proof. intros E H mem i Hl. rewrite E. by apply H. Qed.

Lemma writes_assoc w1 w2 w3 bs : writes (w1 >>w w2 >>w w3) bs -> writes ((w1 >>w w2) >>w w3) bs.
Proof. apply writes_ext. intros c. unfold wseq. by rewrite option_bind_assoc. Qed.

(** A packet written by its header's writer, then the rest. *)
Lemma writes_header w1 w2 h w bs : writes (w1 >>w w2 >>w h >>w w) bs -> writes ((w1 >>w w2 >>w h) >>w w) bs.
Proof.
  apply writes_ext. intros c. unfold wseq. destruct (w1 c); [|done]. cbn. by rewrite option_bind_assoc.
Qed.

#[export] Hint Resolve writes_nil writes_poke writes_seq writes_if : wire.

(** ** Bits of a byte *)

Lemma low_seven b : Z.land b 127 = (b mod 128)%Z.
Proof. change 127%Z with (Z.ones 7). by rewrite Z.land_ones by lia. Qed.

(** A statement about all bytes, by trying them. *)
Lemma all_bytes (P : Z -> Prop) {Pdec : forall b, Decision (P b)} :
  forallb (fun n => bool_decide (P (Z.of_nat n))) (seq 0 256) = true -> forall b, is_byte b -> P b.
Proof.
  intros H b Hb. rewrite forallb_forall in H. unfold is_byte in Hb.
  assert (In (Z.to_nat b) (seq 0 256)) as Hin by (apply in_seq; lia).
  apply H, bool_decide_eq_true_1 in Hin. by rewrite Z2Nat.id in Hin by lia.
Qed.

Lemma top_bit b : is_byte b -> bool_decide (Z.land b 128 <> 0)%Z = bool_decide (128 <= b)%Z.
Proof. revert b. apply (all_bytes (fun b => bool_decide (Z.land b 128 <> 0)%Z = bool_decide (128 <= b)%Z)). vm_compute. reflexivity. Qed.

Lemma set_top b : (0 <= b < 128)%Z -> UINT8_SET_BIT (u8 b) 7 = (b + 128)%Z.
Proof.
  intros Hb. rewrite (wrap_small 8) by lia. assert (is_byte b) as H by (unfold is_byte; lia). revert b H Hb.
  apply (all_bytes (fun b => (0 <= b < 128)%Z -> UINT8_SET_BIT b 7 = (b + 128)%Z)). vm_compute. reflexivity.
Qed.

(** ** The remaining length *)

(** Section 2.2.3 of the standard: groups of seven bits, the lowest first, the
    top bit when more follow; the fewest groups. *)
Definition varint (n : Z) : bytes :=
  (if bool_decide (n < 128) then [n]
   else if bool_decide (n < 16384) then [n mod 128 + 128; n / 128]
   else if bool_decide (n < 2097152) then [n mod 128 + 128; n / 128 mod 128 + 128; n / 16384]
   else [n mod 128 + 128; n / 128 mod 128 + 128; n / 16384 mod 128 + 128; n / 2097152])%Z.

Definition length_ok (n : Z) : Prop := (0 <= n <= MQTT_MAX_REMAINING_LENGTH)%Z.

Lemma varint_length n : Z.of_nat (length (varint n)) = remainingLengthEncodedSize n.
Proof. unfold varint, remainingLengthEncodedSize. repeat case_bool_decide; done. Qed.

Lemma varint_bytes n : length_ok n -> Forall is_byte (varint n).
Proof.
  unfold length_ok, MQTT_MAX_REMAINING_LENGTH. intros Hn. unfold varint.
  repeat case_bool_decide; repeat constructor; unfold is_byte; Z.to_euclidean_division_equations; lia.
Qed.

Lemma encode_step fuel n bs :
  (0 <= n)%Z ->
  (if bool_decide (n / 128 > 0)%Z then writes (encode_loop fuel (n / 128)) bs else bs = []) ->
  writes (encode_loop (S fuel) n) ((if bool_decide (n / 128 > 0)%Z then n mod 128 + 128 else n mod 128)%Z :: bs).
Proof.
  intros Hn H. cbn [encode_loop]. pose proof (Z.mod_pos_bound n 128 ltac:(lia)).
  destruct (bool_decide _).
  - rewrite set_top by lia. change (?a :: bs) with ([a] ++ bs). auto with wire.
  - subst bs. rewrite wrap_small by lia. auto with wire.
Qed.

Lemma writes_varint n : length_ok n -> writes (encodeRemainingLength n) (varint n).
Proof.
  unfold length_ok, MQTT_MAX_REMAINING_LENGTH, encodeRemainingLength, varint. intros Hn.
  assert (n / 128 / 128 = n / 16384)%Z as E2 by (rewrite Zdiv.Zdiv_Zdiv by lia; done).
  assert (n / 16384 / 128 = n / 2097152)%Z as E3 by (rewrite Zdiv.Zdiv_Zdiv by lia; done).
  assert (forall fuel m, (0 <= m < 128)%Z -> writes (encode_loop (S fuel) m) [m]) as Hlast.
  { intros fuel m Hm. eapply writes_eq; [apply (encode_step fuel m []); [lia|]|];
      rewrite bool_decide_eq_false_2 by (rewrite Z.div_small; lia); [done|]. by rewrite Z.mod_small by lia. }
  assert (forall fuel m bs, (128 <= m)%Z -> writes (encode_loop fuel (m / 128)) bs ->
            writes (encode_loop (S fuel) m) ((m mod 128 + 128)%Z :: bs)) as Hstep.
  { intros fuel m bs Hm H. pose proof (encode_step fuel m bs ltac:(lia)) as He.
    rewrite bool_decide_eq_true_2 in He by (Z.to_euclidean_division_equations; lia). by apply He. }
  repeat case_bool_decide;
    repeat (apply Hstep; [Z.to_euclidean_division_equations; lia|rewrite ?E2, ?E3]);
    apply Hlast; Z.to_euclidean_division_equations; lia.
Qed.

(** One turn of the decoder, with the accumulator and weight of the groups
    before. *)
Lemma decode_step fuel buf idx acc w k b :
  buf !! Z.to_nat (k + 1) = Some b -> is_byte b -> (0 <= k + 1 < idx)%Z -> (0 <= acc < w)%Z -> (w <= 2097152)%Z ->
  processRemainingLength_loop (S fuel) buf idx acc w k =
    if bool_decide (128 <= b)%Z
    then processRemainingLength_loop fuel buf idx (acc + (b - 128) * w) (w * 128) (k + 1)
    else Some (MQTTSuccess, acc + b * w, k + 1)%Z.
Proof.
  intros Hb Hby Hk Ha Hw. cbn [processRemainingLength_loop].
  rewrite bool_decide_eq_false_2 by lia. rewrite bool_decide_eq_true_2 by lia. rewrite Hb. cbn [mbind option_bind].
  rewrite (top_bit b Hby), low_seven. unfold is_byte in Hby.
  assert (b mod 128 = if bool_decide (128 <= b)%Z then b - 128 else b)%Z as E.
  { case_bool_decide; [|rewrite Z.mod_small; lia]. rewrite <- (Z.mod_small (b - 128) 128) by lia.
    rewrite Zminus_mod, Z.mod_same by lia. by rewrite Z.sub_0_r, Z.mod_mod by lia. }
  rewrite E. case_bool_decide; rewrite !(wrap_small 32) by nia;
    (rewrite bool_decide_eq_false_2; [done|]); unfold MQTT_REMAINING_LENGTH_INVALID; nia.
Qed.

(** What reading groups from a list comes to: a length and the bytes it took,
    a list that ends too early, or too many groups. *)
Inductive length_read := LengthIs (n : Z) (used : nat) | LengthPending | LengthBad.

Fixpoint read_groups (k : nat) (l : bytes) : length_read :=
  match k with
  | O => LengthBad
  | S k =>
      match l with
      | [] => LengthPending
      | b :: l =>
          if bool_decide (128 <= b)%Z then
            match read_groups k l with
            | LengthIs n u => LengthIs (b - 128 + 128 * n)%Z (S u)
            | r => r
            end
          else LengthIs b 1
      end
  end.

Lemma loop_reads buf idx n : forall fuel k acc,
  Forall is_byte buf -> (idx <= Z.of_nat (length buf))%Z -> fuel + k = 5 -> k <= 4 ->
  (0 <= acc < 128 ^ Z.of_nat k)%Z -> n = Z.of_nat k ->
  match read_groups (4 - k) (drop (S k) (take (Z.to_nat idx) buf)) with
  | LengthIs m u =>
      processRemainingLength_loop fuel buf idx acc (128 ^ n) n = Some (MQTTSuccess, acc + m * 128 ^ n, n + Z.of_nat u)%Z
  | LengthPending => exists r b, processRemainingLength_loop fuel buf idx acc (128 ^ n) n = Some (MQTTNeedMoreBytes, r, b)
  | LengthBad => exists r b, processRemainingLength_loop fuel buf idx acc (128 ^ n) n = Some (MQTTBadResponse, r, b)
  end.
Proof.
  intros fuel. revert n. induction fuel as [|fuel IH]; intros n k acc Hb Hi Hf Hk Ha ->; [lia|].
  destruct (decide (k = 4)) as [->|Hk4].
  { cbn. eexists _, _. reflexivity. }
  replace (4 - k) with (S (3 - k)) by lia. cbn [read_groups].
  assert (128 ^ Z.of_nat k <= 2097152)%Z as Hw.
  { change 2097152%Z with (128 ^ 3)%Z. apply Z.pow_le_mono_r; lia. }
  destruct (drop (S k) (take (Z.to_nat idx) buf)) as [|b l] eqn:E.
  { assert (length (drop (S k) (take (Z.to_nat idx) buf)) = 0) as Hl by (by rewrite E).
    rewrite length_drop, length_take in Hl. cbn [processRemainingLength_loop].
    rewrite bool_decide_eq_false_2 by lia. rewrite bool_decide_eq_false_2 by lia. eauto. }
  assert (buf !! S k = Some b /\ S k < Z.to_nat idx) as [Hlk Hlt].
  { assert (take (Z.to_nat idx) buf !! S k = Some b) as H.
    { replace (S k) with (S k + 0) by lia. rewrite <- lookup_drop, E. done. }
    apply lookup_take_Some in H. done. }
  assert (drop (S (S k)) (take (Z.to_nat idx) buf) = l) as El.
  { replace (S (S k)) with (S k + 1) by lia. by rewrite <- drop_drop, E. }
  assert (is_byte b) as Hby by (eapply Forall_lookup_1; [apply Hb|apply Hlk]).
  replace (Z.of_nat k + 1)%Z with (Z.of_nat (S k)) in * by lia.
  rewrite (decode_step fuel buf idx acc (128 ^ Z.of_nat k) (Z.of_nat k) b); [|rewrite <- Hlk; f_equal; lia|done|lia|lia|lia].
  case_bool_decide as H128.
  - assert (128 ^ Z.of_nat k * 128 = 128 ^ Z.of_nat (S k))%Z as Ew by (rewrite Nat2Z.inj_succ, Z.pow_succ_r; lia).
    unfold is_byte in Hby.
    specialize (IH (Z.of_nat (S k)) (S k) (acc + (b - 128) * 128 ^ Z.of_nat k)%Z Hb Hi ltac:(lia) ltac:(lia) ltac:(nia) eq_refl).
    rewrite El in IH. replace (4 - S k) with (3 - k) in IH by lia. rewrite Ew.
    replace (Z.of_nat k + 1)%Z with (Z.of_nat (S k)) by lia.
    destruct (read_groups (3 - k) l) as [m u| |]; [|done..]. rewrite IH. do 2 f_equal; [f_equal|]; [nia|lia].
  - do 2 f_equal; lia.
Qed.

Ltac byte_lia := unfold is_byte, length_ok, MQTT_MAX_REMAINING_LENGTH in *; Z.to_euclidean_division_equations; lia.

Lemma groups_varint n r : length_ok n -> read_groups 4 (varint n ++ r) = LengthIs n (length (varint n)).
Proof.
  intros Hn. unfold varint.
  repeat (case_bool_decide; [cbn [read_groups app length];
    repeat (rewrite bool_decide_eq_true_2 by byte_lia); rewrite bool_decide_eq_false_2 by byte_lia;
    f_equal; byte_lia|]).
  cbn [read_groups app length].
  repeat (rewrite bool_decide_eq_true_2 by byte_lia). rewrite bool_decide_eq_false_2 by byte_lia. f_equal. byte_lia.
Qed.

Lemma groups_exact l n u :
  Forall is_byte l -> read_groups 4 l = LengthIs n u -> Z.of_nat u = remainingLengthEncodedSize n ->
  length_ok n /\ varint n `prefix_of` l.
Proof.
  intros Hb E Hu. unfold remainingLengthEncodedSize in Hu.
  assert (length_ok n /\ exists r, l = varint n ++ r) as [H (r & ->)]; [|split; [done|by apply prefix_app_r]].
  cbn [read_groups] in E. unfold varint.
  repeat match goal with
  | H : Forall is_byte (_ :: _) |- _ => apply Forall_cons_1 in H as [? H]
  | H : (match ?x with [] => _ | _ :: _ => _ end) = _ |- _ => destruct x as [|? ?]; [done|]
  | H : context [match ?x with [] => _ | _ :: _ => _ end] |- _ => destruct x as [|? ?]; [done|]
  | H : context [bool_decide (128 <= ?b)%Z] |- _ => destruct (decide (128 <= b)%Z);
      [rewrite (bool_decide_eq_true_2 (128 <= b)%Z) in H by done|rewrite (bool_decide_eq_false_2 (128 <= b)%Z) in H by done]
  end; simplify_eq; repeat case_bool_decide; try lia;
  (split; [byte_lia|]); eexists; cbn [app]; repeat f_equal; byte_lia.
Qed.

Lemma groups_pending l :
  Forall is_byte l -> read_groups 4 l = LengthPending ->
  exists n, length_ok n /\ l `prefix_of` varint n /\ l <> varint n.
Proof.
  intros Hb E.
  assert (exists n, length_ok n /\ varint n = l ++ [1%Z]) as (n & Hn & Ev).
  { assert (forall x, x ∈ l -> (128 <= x < 256)%Z) as Hx.
    { intros x Hx. pose proof (proj1 (list.Forall_forall _ _) Hb x Hx) as Hxb. unfold is_byte in Hxb. split; [|lia].
      destruct (decide (128 <= x)%Z); [done|]. exfalso. revert E Hx. clear Hb. generalize 4.
      induction l as [|b l IH]; intros [|k] E Hx; try done; [by apply elem_of_nil in Hx|]. cbn [read_groups] in E.
      destruct (bool_decide (128 <= b)%Z) eqn:Eb; [|done]. apply bool_decide_eq_true_1 in Eb.
      apply elem_of_cons in Hx as [->|Hx]; [done|]. destruct (read_groups k l) eqn:El; try done. by apply (IH k). }
    unfold varint. destruct l as [|a [|b [|c l]]].
    - exists 1%Z. split; [byte_lia|done].
    - pose proof (Hx a ltac:(set_solver)). exists (a - 128 + 128)%Z. split; [byte_lia|].
      repeat (case_bool_decide; [lia || (cbn; repeat f_equal; byte_lia)|]); lia.
    - pose proof (Hx a ltac:(set_solver)). pose proof (Hx b ltac:(set_solver)). exists (a - 128 + 128 * (b - 128) + 16384)%Z.
      split; [byte_lia|]. repeat (case_bool_decide; [lia || (cbn; repeat f_equal; byte_lia)|]); lia.
    - pose proof (Hx a ltac:(set_solver)). pose proof (Hx b ltac:(set_solver)). pose proof (Hx c ltac:(set_solver)).
      assert (l = []) as ->.
      { destruct l as [|d l]; [done|]. exfalso. pose proof (Hx d ltac:(set_solver)). cbn in E.
        do 4 rewrite bool_decide_eq_true_2 in E by lia. done. }
      exists (a - 128 + 128 * (b - 128) + 16384 * (c - 128) + 2097152)%Z.
      split; [byte_lia|]. repeat (case_bool_decide; [lia || (cbn; repeat f_equal; byte_lia)|]); cbn; repeat f_equal; byte_lia. }
  exists n. split; [done|]. rewrite Ev. split; [by apply prefix_app_r|]. intros H.
  apply (f_equal length) in H. rewrite length_app in H. cbn in H. lia.
Qed.

(** Fewer bytes than an encoding takes leave the reader waiting. *)
Lemma groups_prefix k l r n u :
  read_groups k (l ++ r) = LengthIs n u -> length l < u -> read_groups k l = LengthPending.
Proof.
  revert k n u. induction l as [|b l IH]; intros [|k] n u E Hu; try done. cbn [read_groups app] in *.
  destruct (bool_decide (128 <= b)%Z).
  - destruct (read_groups k (l ++ r)) as [m v| |] eqn:El; simplify_eq. cbn in Hu. by rewrite (IH k m v) by (done || lia).
  - simplify_eq. cbn in Hu. lia.
Qed.

(** What the header parser answers, from the groups. *)
Lemma process_groups buf idx pk ty :
  Forall is_byte buf -> (1 <= idx <= Z.of_nat (length buf))%Z -> buf !! 0 = Some ty -> incomingPacketValid ty = true ->
  MQTT_ProcessIncomingPacketTypeAndLength (Some buf) (Some idx) (Some pk) =
    Some match read_groups 4 (drop 1 (take (Z.to_nat idx) buf)) with
         | LengthIs n u =>
             if bool_decide (Z.of_nat u = remainingLengthEncodedSize n)
             then (MQTTSuccess, Some (Build_packet_info ty (pRemainingData pk) n (Z.of_nat u + 1)))
             else (MQTTBadResponse, Some (Build_packet_info ty (pRemainingData pk) (remainingLength pk) (headerLength pk)))
         | LengthPending => (MQTTNeedMoreBytes, Some (Build_packet_info ty (pRemainingData pk) (remainingLength pk) (headerLength pk)))
         | LengthBad => (MQTTBadResponse, Some (Build_packet_info ty (pRemainingData pk) (remainingLength pk) (headerLength pk)))
         end.
Proof.
  intros Hb Hi H0 Hv. unfold MQTT_ProcessIncomingPacketTypeAndLength.
  rewrite bool_decide_eq_false_2 by lia. rewrite H0. cbn [mbind option_bind]. rewrite Hv.
  unfold processRemainingLength.
  pose proof (loop_reads buf idx 0 5 0 0 Hb ltac:(lia) eq_refl ltac:(lia) ltac:(lia) eq_refl) as H.
  change (4 - 0) with 4 in H. change (128 ^ 0)%Z with 1%Z in H.
  destruct (read_groups 4 _) as [n u| |].
  - rewrite H. cbn [mbind option_bind mqtt_ok pk_type pRemainingData].
    replace (0 + n * 1)%Z with n by lia. replace (0 + Z.of_nat u)%Z with (Z.of_nat u) by lia.
    change (mqtt_ok MQTTSuccess) with true. cbv match.
    destruct (decide (Z.of_nat u = remainingLengthEncodedSize n)) as [E|E].
    + rewrite bool_decide_eq_false_2, bool_decide_eq_true_2 by tauto. done.
    + rewrite bool_decide_eq_true_2, bool_decide_eq_false_2 by tauto. done.
  - destruct H as (r & b & ->). done.
  - destruct H as (r & b & ->). done.
Qed.

Lemma valid_header_exact buf idx pk ty :
  Forall is_byte buf -> (1 <= idx <= Z.of_nat (length buf))%Z -> buf !! 0 = Some ty -> incomingPacketValid ty = true ->
  exists status pk',
    MQTT_ProcessIncomingPacketTypeAndLength (Some buf) (Some idx) (Some pk) = Some (status, Some pk') /\
    status ∈ [MQTTSuccess; MQTTNeedMoreBytes; MQTTBadResponse] /\ pk_type pk' = ty /\
    let received := drop 1 (take (Z.to_nat idx) buf) in
    (status = MQTTSuccess <-> exists n, length_ok n /\ varint n `prefix_of` received) /\
    (status = MQTTNeedMoreBytes <-> exists n, length_ok n /\ received `prefix_of` varint n /\ received <> varint n) /\
    (forall n, length_ok n -> varint n `prefix_of` received ->
       remainingLength pk' = n /\ headerLength pk' = (1 + Z.of_nat (length (varint n)))%Z).
Proof.
  intros Hb Hi H0 Hv. rewrite (process_groups buf idx pk ty) by done.
  set (l := drop 1 (take (Z.to_nat idx) buf)).
  assert (Forall is_byte l) as Hl by (by apply list.Forall_drop, list.Forall_take).
  assert (forall n, length_ok n -> varint n `prefix_of` l -> read_groups 4 l = LengthIs n (length (varint n))) as Hdet.
  { intros n Hn (r & ->). by apply groups_varint. }
  assert (forall n, length_ok n -> l `prefix_of` varint n -> l <> varint n -> read_groups 4 l = LengthPending) as Hpend.
  { intros n Hn (r & E) Hne. apply (groups_prefix 4 l r n (length (varint n))).
    - rewrite <- E, <- (app_nil_r (varint n)) at 1. by rewrite groups_varint.
    - rewrite E, length_app. destruct r; [rewrite app_nil_r in E; congruence|cbn; lia]. }
  destruct (read_groups 4 l) as [m u| |] eqn:E.
  - destruct (decide (Z.of_nat u = remainingLengthEncodedSize m)) as [Eu|Eu].
    + rewrite bool_decide_eq_true_2 by done. destruct (groups_exact l m u Hl E Eu) as [Hm Hp].
      eexists _, _. split; [done|]. split; [set_solver|]. split; [done|]. cbn. split_and!.
      * naive_solver.
      * split; [done|]. intros (n & Hn & H1 & H2). specialize (Hpend n Hn H1 H2). done.
      * intros n Hn Hpn. specialize (Hdet n Hn Hpn). simplify_eq. lia.
    + rewrite bool_decide_eq_false_2 by done. eexists _, _. split; [done|]. split; [set_solver|]. split; [done|].
      assert (forall n, length_ok n -> ~ varint n `prefix_of` l) as Hno.
      { intros n Hn Hp. specialize (Hdet n Hn Hp). simplify_eq. by rewrite varint_length in Eu. }
      cbn. split_and!; [naive_solver| |naive_solver]. split; [done|]. intros (n & Hn & H1 & H2).
      specialize (Hpend n Hn H1 H2). done.
  - eexists _, _. split; [done|]. split; [set_solver|]. split; [done|]. cbn.
    assert (forall n, length_ok n -> ~ varint n `prefix_of` l) as Hno.
    { intros n Hn Hp. by specialize (Hdet n Hn Hp). }
    split_and!; [naive_solver| |naive_solver]. split; [|done]. intros _. by apply groups_pending.
  - eexists _, _. split; [done|]. split; [set_solver|]. split; [done|]. cbn.
    assert (forall n, length_ok n -> ~ varint n `prefix_of` l) as Hno.
    { intros n Hn Hp. by specialize (Hdet n Hn Hp). }
    split_and!; [naive_solver| |naive_solver]. split; [done|]. intros (n & Hn & H1 & H2).
    specialize (Hpend n Hn H1 H2). done.
Qed.

(** The first bytes a server's packets start with: the packet's type in the upper
    half - CONNACK, PUBLISH, PUBACK, PUBREC, PUBREL, PUBCOMP, SUBACK, UNSUBACK,
    PINGRESP - and for PUBREL bit 1. *)
Definition from_server (ty : Z) : bool :=
  match (ty / 16)%Z with
  | 2 | 3 | 4 | 5 | 7 | 9 | 11 | 13 => true
  | 6 => Z.odd (ty / 2)
  | _ => false
  end%Z.

Lemma packet_valid_exact ty : is_byte ty -> incomingPacketValid ty = from_server ty.
Proof.
  intros H. unfold is_byte in H.
  assert (forallb (fun n => Bool.eqb (incomingPacketValid (Z.of_nat n)) (from_server (Z.of_nat n))) (seq 0 256) = true) as E
    by (vm_compute; reflexivity).
  rewrite forallb_forall in E. specialize (E (Z.to_nat ty)). rewrite Z2Nat.id in E by lia.
  apply Bool.eqb_prop, E, List.in_seq. lia.
Qed.

(** C27: The header parser recognises exactly the encodings of the standard: from
    any prefix of a packet that has arrived, whatever its bytes, it never reads
    outside the buffer. It answers success with length [n] iff the first byte is
    one a server's packet starts with and the bytes behind it are the encoding of
    [n] (so a padded encoding is refused); it asks for more iff the first byte is
    such a one and an unfinished encoding follows; it refuses all else. Of the
    flags in the first byte it looks at PUBREL's bit 1 only. *)
Theorem header_parser_exact buf idx pk ty :
  Forall is_byte buf -> (1 <= idx <= Z.of_nat (length buf))%Z -> buf !! 0 = Some ty ->
  exists status pk',
    MQTT_ProcessIncomingPacketTypeAndLength (Some buf) (Some idx) (Some pk) = Some (status, Some pk') /\
    status ∈ [MQTTSuccess; MQTTNeedMoreBytes; MQTTBadResponse] /\ pk_type pk' = ty /\
    let received := drop 1 (take (Z.to_nat idx) buf) in
    (status = MQTTSuccess <-> from_server ty = true /\ exists n, length_ok n /\ varint n `prefix_of` received) /\
    (status = MQTTNeedMoreBytes <->
       from_server ty = true /\ exists n, length_ok n /\ received `prefix_of` varint n /\ received <> varint n) /\
    (forall n, status = MQTTSuccess -> length_ok n -> varint n `prefix_of` received ->
       remainingLength pk' = n /\ headerLength pk' = (1 + Z.of_nat (length (varint n)))%Z).
Proof.
  intros Hb Hi H0. rewrite <- (packet_valid_exact ty) by (by eapply Forall_lookup_1). destruct (incomingPacketValid ty) eqn:Hv.
  - destruct (valid_header_exact buf idx pk ty Hb Hi H0 Hv) as (st & pk' & E & H1 & H2 & H3 & H4 & H5).
    exists st, pk'. repeat (split; [done|]). cbv zeta. rewrite H3, H4. split; [naive_solver|]. split; [naive_solver|]. auto.
  - eexists MQTTBadResponse, _. split.
    { unfold MQTT_ProcessIncomingPacketTypeAndLength. rewrite bool_decide_eq_false_2 by lia. rewrite H0. cbn [mbind option_bind].
      by rewrite Hv. }
    split; [set_solver|]. split; [done|]. cbv zeta. split; [naive_solver|]. split; [naive_solver|]. done.
Qed.

(** ** Fields *)

(** What a pointer with its length holds. *)
Definition field (p : option bytes) (len : Z) : option bytes := src ← p; peek src 0 (Z.to_nat len).

Lemma field_Some p len s :
  field p len = Some s <-> exists src, p = Some src /\ Z.to_nat len <= length src /\ s = take (Z.to_nat len) src.
Proof.
  unfold field, peek. destruct p as [src|]; cbn; [|by split; [|intros (? & ? & _)]].
  rewrite drop_0. case_bool_decide; (split; [intros [= <-] || done; eauto|]); intros (? & [= <-] & ? & ->); done.
Qed.

#[local] Arguments field : simpl never.

Lemma field_length p len s : field p len = Some s -> length s = Z.to_nat len.
Proof. intros (src & -> & H & ->)%field_Some. rewrite length_take. lia. Qed.

Lemma writes_field p len s : field p len = Some s -> writes (memcpy p (Z.to_nat len)) s.
Proof. intros (src & -> & H & ->)%field_Some. by apply writes_memcpy. Qed.

Lemma writes_string p len s : field p len = Some s -> writes (encodeString p len) (be16 len ++ s).
Proof.
  intros H. unfold encodeString, be16.
  change ([UINT16_HIGH_BYTE len; UINT16_LOW_BYTE len] ++ s) with ([UINT16_HIGH_BYTE len] ++ [UINT16_LOW_BYTE len] ++ s).
  apply writes_seq; [auto with wire|]. apply writes_seq; [auto with wire|]. destruct p; [|done]. by apply writes_field.
Qed.

Lemma be16_length x : length (be16 x) = 2.
Proof. done. Qed.

(** A string field on the wire. *)
Definition wire_string (s : bytes) : bytes := be16 (Z.of_nat (length s)) ++ s.

Lemma writes_wire_string p len s :
  (0 <= len)%Z -> field p len = Some s -> writes (encodeString p len) (wire_string s).
Proof.
  intros Hl H. pose proof (field_length _ _ _ H) as E. unfold wire_string.
  replace (Z.of_nat (length s)) with len by lia. by apply writes_string.
Qed.

(** A whole packet: first byte, the length of the rest, the rest. *)
Definition packet (first : Z) (body : bytes) : bytes := first :: varint (Z.of_nat (length body)) ++ body.

Lemma writes_packet first n w body :
  n = Z.of_nat (length body) -> length_ok n -> writes w body ->
  writes (poke [first] >>w encodeRemainingLength n >>w w) (packet first body).
Proof.
  intros -> Hn Hw. unfold packet. change (first :: ?x ++ ?y) with ([first] ++ x ++ y).
  repeat apply writes_seq; auto using writes_varint with wire.
Qed.

Lemma packet_length first body :
  Z.of_nat (length (packet first body)) = (1 + remainingLengthEncodedSize (Z.of_nat (length body)) + Z.of_nat (length body))%Z.
Proof. unfold packet. cbn [length]. rewrite length_app, <- varint_length. lia. Qed.

Lemma size_bound n : (1 <= remainingLengthEncodedSize n <= 4)%Z.
Proof. unfold remainingLengthEncodedSize. repeat case_bool_decide; lia. Qed.

(** ** PUBLISH *)

Definition payload_of (p : MQTTPublishInfo_t) : option bytes :=
  if bool_decide (payloadLength p = 0)%Z then Some [] else field (pPayload p) (payloadLength p).

(** A message in memory: topic [t] and payload [m], as the caller promises. *)
Record message (p : MQTTPublishInfo_t) (t m : bytes) : Prop := {
  msg_topic : field (pTopicName p) (topicNameLength p) = Some t;
  msg_topic_length : (0 < topicNameLength p < 2 ^ 16)%Z;
  msg_payload : payload_of p = Some m;
  msg_payload_length : (0 <= payloadLength p < 2 ^ 32)%Z;
}.

Lemma message_lengths p t m :
  message p t m -> Z.of_nat (length t) = topicNameLength p /\ Z.of_nat (length m) = payloadLength p.
Proof.
  intros [Ht Hl Hm Hn]. apply field_length in Ht. unfold payload_of in Hm. case_bool_decide.
  - simplify_eq. cbn. lia.
  - apply field_length in Hm. lia.
Qed.

Definition wire_id (q : MQTTQoS_t) (id : Z) : bytes := match q with MQTTQoS0 => [] | _ => be16 id end.

Definition publish_head (p : MQTTPublishInfo_t) (t : bytes) (id : Z) : bytes := wire_string t ++ wire_id (pub_qos p) id.
Definition publish_body (p : MQTTPublishInfo_t) (t m : bytes) (id : Z) : bytes := publish_head p t id ++ m.

Lemma publish_body_length p t m id :
  message p t m ->
  Z.of_nat (length (publish_body p t m id)) =
    (topicNameLength p + 2 + (if bool_decide (pub_qos p <> MQTTQoS0) then 2 else 0) + payloadLength p)%Z.
Proof.
  intros H. destruct (message_lengths _ _ _ H). unfold publish_body, publish_head, wire_string, wire_id.
  rewrite !length_app. destruct (pub_qos p);
    [rewrite bool_decide_eq_false_2 by tauto|rewrite bool_decide_eq_true_2 by done..]; rewrite ?be16_length; cbn [length]; lia.
Qed.

(** The sizes computed are those of the packet; none when it is too long. *)
Lemma publish_sizes p t m id :
  message p t m ->
  match calculatePublishPacketSize p with
  | Some (rl, ps) =>
      length_ok rl /\ rl = Z.of_nat (length (publish_body p t m id)) /\
      ps = Z.of_nat (length (packet (publish_flags p) (publish_body p t m id)))
  | None => (MQTT_MAX_REMAINING_LENGTH - 5 < Z.of_nat (length (publish_body p t m id)))%Z
  end.
Proof.
  intros H. pose proof (publish_body_length p t m id H) as Hl. rewrite packet_length, Hl.
  destruct H as [_ Ht _ Hp]. unfold calculatePublishPacketSize, length_ok, MQTT_MAX_REMAINING_LENGTH.
  rewrite (wrap_small 32 (topicNameLength p + 2)) by lia.
  set (n := if bool_decide (pub_qos p <> MQTTQoS0) then _ else _).
  assert (n = topicNameLength p + 2 + (if bool_decide (pub_qos p <> MQTTQoS0) then 2 else 0))%Z as En.
  { unfold n. case_bool_decide; rewrite ?wrap_small by lia; lia. }
  rewrite <- En. assert (0 <= n < 2 ^ 16 + 4)%Z as Hn by (rewrite En; case_bool_decide; lia). clearbody n. clear En.
  rewrite (wrap_small 32 (268435455 - n - 1)) by lia.
  clear Hl. case_bool_decide as H1; [lia|]. rewrite (wrap_small 32 (n + payloadLength p)) by lia.
  pose proof (size_bound (n + payloadLength p)) as Hs.
  rewrite (wrap_small 32 (268435455 - n - 1 - _)) by lia. case_bool_decide as H2; [lia|].
  rewrite wrap_small by lia. split_and!; lia.
Qed.

Lemma writes_wire_id p id :
  writes (wif (bool_decide (pub_qos p <> MQTTQoS0)) (poke [UINT16_HIGH_BYTE id; UINT16_LOW_BYTE id])) (wire_id (pub_qos p) id).
Proof. destruct (pub_qos p); cbn; [apply writes_nil|apply (writes_poke (be16 id))..]. Qed.

Lemma writes_payload p m :
  payload_of p = Some m -> (0 <= payloadLength p)%Z ->
  writes (wif (bool_decide (payloadLength p > 0)%Z && true) (memcpy (pPayload p) (Z.to_nat (payloadLength p)))) m.
Proof.
  unfold payload_of. intros H Hp. rewrite andb_true_r. case_bool_decide.
  - simplify_eq. rewrite bool_decide_eq_false_2 by lia. apply writes_nil.
  - rewrite bool_decide_eq_true_2 by lia. by apply writes_field.
Qed.

Lemma writes_publish p t m id rl :
  message p t m -> length_ok rl -> rl = Z.of_nat (length (publish_body p t m id)) ->
  writes (serializePublishCommon p rl id true) (packet (publish_flags p) (publish_body p t m id)).
Proof.
  intros [Ht Hl Hm Hn] Hok E. unfold serializePublishCommon. apply writes_packet; [done..|].
  unfold publish_body, publish_head. rewrite <- app_assoc.
  apply writes_seq; [by apply writes_wire_string; [lia|]|]. apply writes_seq; [apply writes_wire_id|].
  apply writes_payload; [done|lia].
Qed.

Lemma write_fixed_at b mem w bs :
  writes w bs -> length bs <= length mem ->
  write_fixed b mem w = Some (MQTTSuccess, Some (Build_fixed_buffer (Some (bs ++ drop (length bs) mem)) (fb_size b))).
Proof. intros Hw H. unfold write_fixed. by rewrite Hw. Qed.

(** ** Reading it back *)

Lemma peek_at a b r : peek (a ++ b ++ r) (length a) (length b) = Some b.
Proof.
  unfold peek. rewrite bool_decide_eq_true_2 by (rewrite !length_app; lia).
  by rewrite drop_app_length, take_app_length.
Qed.

Lemma decode16_at a x r : (0 <= x < 2 ^ 16)%Z -> decode16 (a ++ be16 x ++ r) (length a) = Some x.
Proof.
  intros Hx. unfold decode16. change 2 with (length (be16 x)). rewrite peek_at. cbn [mbind option_bind].
  f_equal. rewrite <- (app_nil_r (be16 x)). by apply be16_decode.
Qed.

(** Two messages with the same content. *)
Record same_message (p p' : MQTTPublishInfo_t) : Prop := {
  sm_qos : pub_qos p' = pub_qos p;
  sm_retain : retain p' = retain p;
  sm_dup : dup p' = dup p;
  sm_topic : field (pTopicName p') (topicNameLength p') = field (pTopicName p) (topicNameLength p);
  sm_payload : payload_of p' = payload_of p;
}.

Lemma flags_read p :
  processPublishFlags (Z.land (publish_flags p) 15) = Some (pub_qos p, retain p, dup p) /\
  incomingPacketValid (publish_flags p) = true /\ Z.land (publish_flags p) 240 = MQTT_PACKET_TYPE_PUBLISH /\ is_byte (publish_flags p).
Proof.
  unfold publish_flags. destruct (pub_qos p), (retain p), (dup p); split_and!;
    try reflexivity; by apply (bool_decide_unpack _).
Qed.

Lemma check_length n q min :
  (0 <= min < 2 ^ 20)%Z -> (min + (if bool_decide (q <> MQTTQoS0) then 2 else 0) <= n)%Z ->
  checkPublishRemainingLength n q min = MQTTSuccess.
Proof.
  intros Hm H. unfold checkPublishRemainingLength. rewrite (wrap_small 32) by lia.
  destruct q; [rewrite bool_decide_eq_false_2 in H by tauto|rewrite bool_decide_eq_true_2 in H by done..];
    rewrite bool_decide_eq_false_2 by lia; done.
Qed.

Lemma deserialize_publish_body p t m id pk rest id0 info0 :
  message p t m -> (pub_qos p <> MQTTQoS0 -> (0 < id < 2 ^ 16)%Z) ->
  length_ok (Z.of_nat (length (publish_body p t m id))) ->
  pk_type pk = publish_flags p -> remainingLength pk = Z.of_nat (length (publish_body p t m id)) ->
  pRemainingData pk = Some (publish_body p t m id ++ rest) ->
  exists info,
    MQTT_DeserializePublish (Some pk) (Some id0) (Some info0) =
      Some (MQTTSuccess, Some (if bool_decide (pub_qos p <> MQTTQoS0) then id else id0), Some info) /\ same_message p info.
Proof.
  intros Hmsg Hid Hok Ety En Ed. destruct (message_lengths _ _ _ Hmsg) as [Elt Elm].
  pose proof (publish_body_length p t m id Hmsg) as Hlen. destruct Hmsg as [Ht Hl Hm Hn].
  unfold length_ok, MQTT_MAX_REMAINING_LENGTH in Hok. unfold MQTT_DeserializePublish. rewrite Ety, Ed. destruct (flags_read p) as (Hf & _ & Ht240 & _).
  rewrite Ht240, bool_decide_eq_false_2 by tauto. unfold deserializePublish. rewrite Ety, Hf, En.
  set (o := if bool_decide (pub_qos p <> MQTTQoS0) then 2%Z else 0%Z) in *.
  assert (0 <= o <= 2)%Z as Ho by (unfold o; case_bool_decide; lia).
  rewrite check_length by (fold o; unfold MQTT_MIN_PUBLISH_REMAINING_LENGTH_QOS0; lia).
  assert (publish_body p t m id ++ rest = [] ++ be16 (topicNameLength p) ++ t ++ wire_id (pub_qos p) id ++ m ++ rest) as E0.
  { unfold publish_body, publish_head, wire_string. rewrite Elt, <- !app_assoc. done. }
  assert (publish_body p t m id ++ rest = (be16 (topicNameLength p) ++ t) ++ wire_id (pub_qos p) id ++ m ++ rest) as E1.
  { rewrite E0, <- !app_assoc. done. }
  assert (decode16 (publish_body p t m id ++ rest) 0 = Some (topicNameLength p)) as ->.
  { rewrite E0. apply (decode16_at []). lia. }
  cbn [mbind option_bind negb].
  change (mqtt_ok MQTTSuccess) with true. cbn [negb].
  rewrite (wrap_small 32 (topicNameLength p + 2)) by lia. rewrite check_length by (fold o; lia).
  change (mqtt_ok MQTTSuccess) with true. cbn [negb].
  assert (2 + Z.to_nat (topicNameLength p) = length (be16 (topicNameLength p) ++ t)) as Eoff.
  { rewrite length_app, be16_length. lia. }
  assert (field (Some (drop 2 (publish_body p t m id ++ rest))) (topicNameLength p) = Some t) as Htopic.
  { apply field_Some. eexists. split; [done|]. rewrite E0. change (drop 2 ([] ++ be16 ?x ++ ?y)) with y.
    rewrite length_app, take_app_le, take_ge by lia. split; [lia|done]. }
  assert (forall off, drop off (publish_body p t m id ++ rest) = m ++ rest ->
    payload_of (Build_publish_info (pub_qos p) (retain p) (dup p) (Some (drop 2 (publish_body p t m id ++ rest)))
      (topicNameLength p) (if bool_decide (payloadLength p <> 0)%Z then Some (drop off (publish_body p t m id ++ rest)) else None)
      (payloadLength p)) = payload_of p) as Hpay.
  { intros off Eo. rewrite Hm. unfold payload_of. cbn [payloadLength pPayload]. unfold payload_of in Hm.
    destruct (decide (payloadLength p = 0)%Z) as [E|E].
    - rewrite bool_decide_eq_true_2 in * by done. congruence.
    - rewrite (bool_decide_eq_false_2 (payloadLength p = 0)%Z), bool_decide_eq_true_2 by done.
      apply field_Some. eexists. split; [done|]. rewrite Eo, length_app, take_app_le, take_ge by lia. split; [lia|done]. }
  destruct (decide (pub_qos p = MQTTQoS0)) as [Hq|Hq].
  - unfold o in *. clear o. rewrite !(bool_decide_eq_false_2 (pub_qos p <> MQTTQoS0)) in * by tauto.
    cbn [mbind option_bind]. change (mqtt_ok MQTTSuccess) with true. cbn [negb].
    replace (_ - topicNameLength p - 2)%Z with (payloadLength p) by lia. rewrite (wrap_small 32) by lia.
    eexists. split; [done|]. split; [done..| |]; cbn [pTopicName topicNameLength]; [by rewrite Htopic, Ht|].
    apply Hpay. rewrite E1, Eoff, drop_app_length, Hq. done.
  - unfold o in *. clear o. rewrite !(bool_decide_eq_true_2 (pub_qos p <> MQTTQoS0)) in * by done.
    assert (wire_id (pub_qos p) id = be16 id) as Ew by (by destruct (pub_qos p)). rewrite Ew in *.
    specialize (Hid Hq). rewrite Eoff.
    assert (decode16 (publish_body p t m id ++ rest) (length (be16 (topicNameLength p) ++ t)) = Some id) as ->.
    { rewrite E1. apply decode16_at. lia. }
    cbn [mbind option_bind]. rewrite (bool_decide_eq_false_2 (id = 0)%Z) by lia. change (mqtt_ok MQTTSuccess) with true. cbn [negb].
    rewrite (wrap_small 32 (_ - topicNameLength p - 2)) by lia. replace (_ - topicNameLength p - 2 - 2)%Z with (payloadLength p) by lia. rewrite (wrap_small 32) by lia.
    eexists. split; [done|]. split; [done..| |]; cbn [pTopicName topicNameLength]; [by rewrite Htopic, Ht|].
    apply Hpay. rewrite E1, <- drop_drop, drop_app_length. done.
Qed.

Lemma packet_bytes first body :
  is_byte first -> Forall is_byte body -> length_ok (Z.of_nat (length body)) -> Forall is_byte (packet first body).
Proof.
  intros. unfold packet. apply Forall_cons_2; [done|]. apply Forall_app. split; [by apply varint_bytes|done].
Qed.

Lemma process_packet first body rest pk0 :
  is_byte first -> Forall is_byte body -> Forall is_byte rest -> incomingPacketValid first = true ->
  length_ok (Z.of_nat (length body)) ->
  let h := (1 + Z.of_nat (length (varint (Z.of_nat (length body)))))%Z in
  MQTT_ProcessIncomingPacketTypeAndLength (Some (packet first body ++ rest)) (Some (Z.of_nat (length (packet first body)))) (Some pk0) =
    Some (MQTTSuccess, Some (Build_packet_info first (pRemainingData pk0) (Z.of_nat (length body)) h)) /\
  drop (Z.to_nat h) (packet first body ++ rest) = body ++ rest.
Proof.
  intros Hf Hb Hr Hv Hok h. pose proof (packet_bytes first body Hf Hb Hok) as Hp. split.
  - rewrite (process_groups _ _ _ first); [| |split|done|done].
    + rewrite Nat2Z.id, take_app_length. unfold packet at 1. change (drop 1 (first :: ?l)) with l.
      rewrite groups_varint by done. rewrite bool_decide_eq_true_2 by apply varint_length. unfold h. do 4 f_equal. lia.
    + by apply Forall_app.
    + unfold packet. cbn [length]. lia.
    + rewrite length_app. lia.
  - unfold h, packet. rewrite Z2Nat.inj_add by lia. rewrite Nat2Z.id. change (Z.to_nat 1) with 1. cbn [plus drop app].
    by rewrite <- app_assoc, drop_app_length.
Qed.

(** C26: A PUBLISH sent is the PUBLISH received: with the buffer the size function
    asks for, the serialiser writes the packet and nothing beyond it; the
    header parser and the deserialiser, run on those bytes with anything
    behind them, give back the packet id and a message with the same QoS,
    flags, topic and payload. *)
Theorem publish_round_trip p t m id rl ps mem sz rest pk0 id0 info0 :
  message p t m -> Forall is_byte (t ++ m ++ rest) ->
  (pub_qos p <> MQTTQoS0 -> (0 < id < 2 ^ 16)%Z) -> (dup p = true -> pub_qos p <> MQTTQoS0) ->
  MQTT_GetPublishPacketSize (Some p) = (MQTTSuccess, Some (rl, ps)) ->
  (ps <= sz < 2 ^ 32)%Z -> (ps <= Z.of_nat (length mem))%Z ->
  exists pkt pk info,
    MQTT_SerializePublish (Some p) id rl (Some (Build_fixed_buffer (Some mem) sz)) =
      Some (MQTTSuccess, Some (Build_fixed_buffer (Some (pkt ++ drop (length pkt) mem)) sz)) /\
    Z.of_nat (length pkt) = ps /\
    MQTT_ProcessIncomingPacketTypeAndLength (Some (pkt ++ rest)) (Some ps) (Some pk0) = Some (MQTTSuccess, Some pk) /\
    MQTT_DeserializePublish
      (Some (Build_packet_info (pk_type pk) (Some (drop (Z.to_nat (headerLength pk)) (pkt ++ rest))) (remainingLength pk) (headerLength pk)))
      (Some id0) (Some info0) =
      Some (MQTTSuccess, Some (if bool_decide (pub_qos p <> MQTTQoS0) then id else id0), Some info) /\
    same_message p info.
Proof.
  intros Hmsg Hby Hid Hdup Hsz Hbuf Hmem. pose proof (publish_sizes p t m id Hmsg) as Hs.
  assert (pTopicName p <> None /\ topicNameLength p <> 0%Z) as [Ht0 Ht1].
  { destruct Hmsg as [Ht Hl _ _]. apply field_Some in Ht as (src & -> & _). split; [done|lia]. }
  unfold MQTT_GetPublishPacketSize in Hsz. rewrite !bool_decide_eq_false_2 in Hsz by done. cbn [orb] in Hsz.
  destruct (calculatePublishPacketSize p) as [[rl' ps']|]; simplify_eq. destruct Hs as (Hok & Erl & Eps).
  set (pkt := packet (publish_flags p) (publish_body p t m id)) in *.
  destruct (flags_read p) as (_ & Hv & _ & Hfb).
  assert (Forall is_byte (t ++ m) /\ Forall is_byte rest) as [Htm Hrest].
  { rewrite app_assoc in Hby. by apply Forall_app in Hby. }
  assert (Forall is_byte (publish_body p t m id)) as Hbb.
  { apply Forall_app in Htm as [Htb Hmb]. unfold publish_body, publish_head, wire_string, wire_id.
    destruct (message_lengths _ _ _ Hmsg) as [-> _]. destruct Hmsg as [_ Hl _ _].
    rewrite !Forall_app. split_and!; [apply be16_bytes; lia|done| |done].
    destruct (pub_qos p); [done|apply be16_bytes; specialize (Hid ltac:(done)); lia..]. }
  destruct (process_packet (publish_flags p) (publish_body p t m id) rest pk0) as [Hproc Hdrop]; [done..|by rewrite <- Erl|].
  fold pkt in Hproc, Hdrop.
  set (pk := Build_packet_info (publish_flags p) _ _ _) in Hproc.
  destruct (deserialize_publish_body p t m id
    (Build_packet_info (pk_type pk) (Some (drop (Z.to_nat (headerLength pk)) (pkt ++ rest))) (remainingLength pk) (headerLength pk))
    rest id0 info0) as (info & Hd & Hsame); [done|done|by rewrite <- Erl|done|done|cbn [pRemainingData headerLength pk]; by rewrite Hdrop|].
  exists pkt, pk, info. split_and!; [|done| |done|done].
  - unfold MQTT_SerializePublish. cbn [pBuffer fb_size].
    assert (bool_decide (payloadLength p > 0)%Z && bool_decide (pPayload p = None) = false) as ->.
    { destruct Hmsg as [_ _ Hm _]. unfold payload_of in Hm.
      destruct (decide (payloadLength p = 0)%Z) as [E|E]; [by rewrite (bool_decide_eq_false_2 (payloadLength p > 0)%Z) by lia|].
      rewrite bool_decide_eq_false_2 in Hm by done. apply field_Some in Hm as (src & -> & _). by rewrite andb_comm. }
    assert (publish_refused p id = false) as ->.
    { unfold publish_refused. rewrite !(bool_decide_eq_false_2 (_ = None)), (bool_decide_eq_false_2 (topicNameLength p = 0)%Z) by done.
      cbn [orb]. destruct (decide (pub_qos p = MQTTQoS0)) as [Eq|Eq].
      - rewrite bool_decide_eq_false_2 by tauto. cbn. destruct (dup p); [by destruct Hdup|done].
      - rewrite (bool_decide_eq_false_2 (id = 0)%Z) by (specialize (Hid Eq); lia).
        rewrite (bool_decide_eq_false_2 (pub_qos p = _)) by done. by rewrite !andb_false_r. }
    rewrite Eps in Hbuf, Hmem. unfold pkt in Hbuf, Hmem. rewrite packet_length, <- Erl in Hbuf, Hmem. pose proof (size_bound rl).
    unfold length_ok, MQTT_MAX_REMAINING_LENGTH in Hok.
    rewrite (wrap_small 32) by lia. rewrite bool_decide_eq_false_2 by lia.
    rewrite (write_fixed_at _ mem _ pkt); [done|by apply writes_publish|].
    apply Nat2Z.inj_le. unfold pkt. rewrite packet_length, <- Erl. lia.
  - by rewrite Eps.
Qed.

(** ** Any bytes a server may send *)

Lemma decode16_inv d off :
  Forall is_byte d -> off + 2 <= length d ->
  exists x, decode16 d off = Some x /\ (0 <= x < 2 ^ 16)%Z /\ be16 x = take 2 (drop off d).
Proof.
  intros Hb H. unfold decode16, peek. rewrite bool_decide_eq_true_2 by done. cbn [mbind option_bind].
  eexists. split; [done|].
  assert (Forall is_byte (take 2 (drop off d))) as Hw by (by apply list.Forall_take, list.Forall_drop).
  assert (length (take 2 (drop off d)) = 2) as Hl by (rewrite length_take, length_drop; lia).
  assert (take 2 (take 2 (drop off d)) = take 2 (drop off d)) as Et by (rewrite take_take; done).
  split; [apply decode_range|rewrite decode_be16, Et]; rewrite ?Et; done || lia.
Qed.

Lemma check_inv n q min :
  (0 <= min < 2 ^ 20)%Z -> checkPublishRemainingLength n q min = MQTTSuccess ->
  (min + (if bool_decide (q <> MQTTQoS0) then 2 else 0) <= n)%Z.
Proof.
  intros Hm. unfold checkPublishRemainingLength. rewrite (wrap_small 32) by lia.
  destruct q; [rewrite (bool_decide_eq_false_2 (MQTTQoS0 <> _)) by tauto|rewrite (bool_decide_eq_true_2 (_ <> MQTTQoS0)) by done..];
    case_bool_decide; done || lia.
Qed.

Lemma check_cases n q min :
  checkPublishRemainingLength n q min = MQTTSuccess \/ checkPublishRemainingLength n q min = MQTTBadResponse.
Proof. unfold checkPublishRemainingLength. destruct q; case_bool_decide; auto. Qed.

(** The deserialiser of PUBLISH is safe on every packet: it reads only the
    bytes that arrived, and when it accepts, topic, packet id and payload are
    a partition of exactly those bytes. *)
Theorem deserialize_publish_exact pk d id0 info0 :
  pRemainingData pk = Some d -> Forall is_byte d ->
  (0 <= remainingLength pk <= Z.of_nat (length d))%Z -> (remainingLength pk <= MQTT_MAX_REMAINING_LENGTH)%Z ->
  Z.land (pk_type pk) 240 = MQTT_PACKET_TYPE_PUBLISH ->
  exists status id info,
    MQTT_DeserializePublish (Some pk) (Some id0) (Some info0) = Some (status, Some id, Some info) /\
    (status = MQTTSuccess \/ status = MQTTBadResponse) /\
    (status = MQTTSuccess ->
       (pub_qos info <> MQTTQoS0 -> (0 < id < 2 ^ 16)%Z) /\
       exists t m, field (pTopicName info) (topicNameLength info) = Some t /\ payload_of info = Some m /\
         take (Z.to_nat (remainingLength pk)) d = publish_body info t m id).
Proof.
  intros Ed Hb [Hn0 Hn] Hmax Hty. unfold MQTT_MAX_REMAINING_LENGTH in Hmax. unfold MQTT_DeserializePublish.
  rewrite Ed, Hty, bool_decide_eq_false_2 by tauto. unfold deserializePublish.
  destruct (processPublishFlags _) as [[[q r] dp]|]; [|cbn; eexists _, _, _; split; [done|]; split; [by right|done]].
  set (n := remainingLength pk) in *.
  destruct (check_cases n q MQTT_MIN_PUBLISH_REMAINING_LENGTH_QOS0) as [E1|E1]; rewrite E1; cbn [negb mbind option_bind];
    [|eexists _, _, _; split; [done|]; split; [by right|done]].
  change (mqtt_ok MQTTSuccess) with true. cbn [negb].
  apply check_inv in E1; [|done]. unfold MQTT_MIN_PUBLISH_REMAINING_LENGTH_QOS0 in E1.
  set (o := if bool_decide (q <> MQTTQoS0) then 2%Z else 0%Z) in *.
  assert (0 <= o <= 2)%Z as Ho by (unfold o; destruct (bool_decide _); lia).
  destruct (decode16_inv d 0 Hb ltac:(lia)) as (tl & -> & Htl & Ebt). cbn [mbind option_bind].
  rewrite (wrap_small 32 (tl + 2)) by lia.
  destruct (check_cases n q (tl + 2)) as [E2|E2]; rewrite E2; cbn [negb mbind option_bind];
    [|eexists _, _, _; split; [done|]; split; [by right|done]].
  change (mqtt_ok MQTTSuccess) with true. cbn [negb]. apply check_inv in E2; [|lia]. fold o in E2.
  assert (field (Some (drop 2 d)) tl = Some (take (Z.to_nat tl) (drop 2 d))) as Ht.
  { apply field_Some. eexists. split; [done|]. rewrite length_drop. split; [lia|done]. }
  assert (forall k off, off + Z.to_nat k <= length d -> (0 <= k)%Z ->
    payload_of (Build_publish_info q r dp (Some (drop 2 d)) tl (if bool_decide (k <> 0)%Z then Some (drop off d) else None) k)
      = Some (take (Z.to_nat k) (drop off d))) as Hpay.
  { intros k off Hk Hk0. unfold payload_of. cbn [payloadLength pPayload]. destruct (decide (k = 0)%Z) as [->|Hkz].
    - done.
    - rewrite bool_decide_eq_false_2, bool_decide_eq_true_2 by done. apply field_Some. eexists. split; [done|].
      rewrite length_drop. split; [lia|done]. }
  assert (Z.of_nat (length (take (Z.to_nat tl) (drop 2 d))) = tl) as Hlt by (rewrite length_take, length_drop; lia).
  destruct (decide (q = MQTTQoS0)) as [Hq|Hq].
  - rewrite !(bool_decide_eq_false_2 (q <> MQTTQoS0)) in * by tauto. cbn [mbind option_bind].
    change (mqtt_ok MQTTSuccess) with true. cbn [negb]. rewrite (wrap_small 32) by lia.
    eexists _, _, _. split; [done|]. split; [by left|]. intros _. cbn [pub_qos pTopicName topicNameLength]. split; [tauto|].
    eexists _, _. split; [done|]. split; [apply Hpay; lia|].
    unfold publish_body, publish_head, wire_string, wire_id. cbn [pub_qos]. rewrite Hq, app_nil_r, Hlt, Ebt, drop_0.
    rewrite take_take_drop. replace (drop (2 + Z.to_nat tl) d) with (drop (Z.to_nat tl) (drop 2 d)) by (by rewrite drop_drop).
    rewrite drop_drop, take_take_drop. f_equal. lia.
  - assert (o = 2%Z) as Eo by (unfold o; by rewrite bool_decide_eq_true_2). rewrite Eo in *. clear o Eo Ho.
    rewrite !(bool_decide_eq_true_2 (q <> MQTTQoS0)) in * by done.
    destruct (decode16_inv d (2 + Z.to_nat tl) Hb ltac:(lia)) as (id & -> & Hid & Ebi). cbn [mbind option_bind].
    destruct (decide (id = 0)%Z) as [->|Hidz].
    { rewrite bool_decide_eq_true_2 by done. cbn. eexists _, _, _. split; [done|]. split; [by right|done]. }
    rewrite bool_decide_eq_false_2 by done. change (mqtt_ok MQTTSuccess) with true. cbn [negb].
    rewrite (wrap_small 32 (n - tl - 2)) by lia. rewrite (wrap_small 32) by lia.
    eexists _, _, _. split; [done|]. split; [by left|]. intros _. cbn [pub_qos pTopicName topicNameLength]. split; [lia|].
    eexists _, _. split; [done|]. split; [apply Hpay; lia|].
    unfold publish_body, publish_head, wire_string, wire_id. cbn [pub_qos].
    replace (match q with MQTTQoS0 => [] | _ => be16 id end) with (be16 id) by (by destruct q).
    rewrite Hlt, Ebt, Ebi, drop_0, take_take_drop, take_take_drop, take_take_drop. f_equal. lia.
Qed.

(** ** Acknowledgements *)

(** An acknowledgement serialised is the one received: type and packet id
    come back, from a packet of four bytes. *)
Theorem ack_round_trip ty id mem sz rest pk0 id0 sp :
  ty ∈ [MQTT_PACKET_TYPE_PUBACK; MQTT_PACKET_TYPE_PUBREC; MQTT_PACKET_TYPE_PUBREL; MQTT_PACKET_TYPE_PUBCOMP] ->
  (0 < id < 2 ^ 16)%Z -> (4 <= sz)%Z -> 4 <= length mem -> Forall is_byte rest ->
  exists pkt pk,
    MQTT_SerializeAck (Some (Build_fixed_buffer (Some mem) sz)) ty id =
      Some (MQTTSuccess, Some (Build_fixed_buffer (Some (pkt ++ drop 4 mem)) sz)) /\ length pkt = 4 /\
    MQTT_ProcessIncomingPacketTypeAndLength (Some (pkt ++ rest)) (Some 4%Z) (Some pk0) = Some (MQTTSuccess, Some pk) /\
    pk_type pk = ty /\
    MQTT_DeserializeAck
      (Some (Build_packet_info (pk_type pk) (Some (drop (Z.to_nat (headerLength pk)) (pkt ++ rest))) (remainingLength pk) (headerLength pk)))
      (Some id0) sp = Some (MQTTSuccess, Some id, sp).
Proof.
  intros Hty Hid Hsz Hmem Hr.
  assert (incomingPacketValid ty = true /\ is_byte ty /\ ty <> MQTT_PACKET_TYPE_CONNACK /\ ty <> MQTT_PACKET_TYPE_PINGRESP /\
          ty <> MQTT_PACKET_TYPE_SUBACK) as (Hv & Hb & Hc & Hp & Hs).
  { rewrite !elem_of_cons, elem_of_nil in Hty. destruct Hty as [->|[->|[->|[->|[]]]]]; split_and!; try done. }
  exists (packet ty (be16 id)).
  destruct (process_packet ty (be16 id) rest pk0) as [Hproc Hdrop]; [done|apply be16_bytes; lia|done|done|done|].
  eexists. split_and!; [|done|exact Hproc|done|].
  - unfold MQTT_SerializeAck, fixed_packet. cbn [pBuffer fb_size]. unfold MQTT_PUBLISH_ACK_PACKET_SIZE.
    rewrite (bool_decide_eq_false_2 (sz < 4)%Z), (bool_decide_eq_false_2 (id = 0)%Z), bool_decide_eq_true_2 by (done || lia).
    rewrite (write_fixed_at _ mem _ (packet ty (be16 id))); [done|apply writes_poke|done].
  - cbn [pk_type headerLength remainingLength]. rewrite Hdrop.
    unfold MQTT_DeserializeAck. cbn [pk_type remainingLength pRemainingData].
    rewrite (bool_decide_eq_false_2 (Some id0 = None)) by done. cbn [andb].
    rewrite !(bool_decide_eq_false_2 (ty = _)), andb_false_r by done.
    rewrite bool_decide_eq_true_2 by set_solver. cbn [mbind option_bind]. unfold deserializeSimpleAck.
    rewrite bool_decide_eq_false_2 by (intros H; by apply H).
    pose proof (decode16_at [] id rest ltac:(lia)) as Hd. cbn [app length] in Hd. rewrite Hd. cbn [mbind option_bind].
    by rewrite bool_decide_eq_false_2 by lia.
Qed.

(** A SUBACK is accepted iff every filter was granted a QoS, refused by the
    server iff every code is granted or failure and one is failure, and
    malformed otherwise; the codes are read below the packet's length. *)
Theorem suback_verdict p id codes rest id0 :
  (0 < id < 2 ^ 16)%Z -> codes <> [] -> p = be16 id ++ codes ++ rest ->
  exists status,
    deserializeSuback p (Z.of_nat (2 + length codes)) id0 = Some (status, id) /\
    let granted b := b = 0%Z \/ b = 1%Z \/ b = 2%Z in
    (status = MQTTSuccess <-> Forall granted codes) /\
    (status = MQTTServerRefused <-> Forall (fun b => granted b \/ b = 128%Z) codes /\ 128%Z ∈ codes) /\
    (status = MQTTSuccess \/ status = MQTTServerRefused \/ status = MQTTBadResponse).
Proof.
  intros Hid Hne ->. unfold deserializeSuback.
  assert (length codes <> 0) as Hl by (by destruct codes).
  rewrite bool_decide_eq_false_2 by lia.
  pose proof (decode16_at [] id (codes ++ rest) ltac:(lia)) as Hd. cbn [app length] in Hd. rewrite Hd. cbn [mbind option_bind].
  rewrite bool_decide_eq_false_2 by lia. replace (Z.to_nat (Z.of_nat (2 + length codes) - 2)) with (length codes) by lia.
  pose proof (peek_at (be16 id) codes rest) as Hp. rewrite be16_length in Hp. rewrite Hp. cbn [mbind option_bind].
  eexists. split; [done|]. clear.
  assert (forall st, st = MQTTSuccess \/ st = MQTTServerRefused ->
    let r := readSubackStatus codes st in
    (r = MQTTSuccess <-> Forall (fun b => b = 0%Z \/ b = 1%Z \/ b = 2%Z) codes /\ st = MQTTSuccess) /\
    (r = MQTTServerRefused <-> Forall (fun b => (b = 0%Z \/ b = 1%Z \/ b = 2%Z) \/ b = 128%Z) codes /\ (128%Z ∈ codes \/ st = MQTTServerRefused)) /\
    (r = MQTTSuccess \/ r = MQTTServerRefused \/ r = MQTTBadResponse)) as H.
  { induction codes as [|b codes IH]; intros st Hst; cbn [readSubackStatus].
    - split_and!; [|split; [by auto|]|tauto]; [by split; [|intros [_ ?]]|]. intros [_ [H|H]]; [by apply elem_of_nil in H|done].
    - destruct (decide (b = 0 \/ b = 1 \/ b = 2)%Z) as [Hg|Hg].
      + assert (bool_decide (b = 0)%Z || bool_decide (b = 1)%Z || bool_decide (b = 2)%Z = true) as -> by (by destruct Hg as [->|[->| ->]]).
        specialize (IH st Hst). cbv zeta in *. rewrite !Forall_cons, elem_of_cons. assert (128%Z <> b) by lia. naive_solver.
      + assert (bool_decide (b = 0)%Z || bool_decide (b = 1)%Z || bool_decide (b = 2)%Z = false) as ->
          by (rewrite !bool_decide_eq_false_2 by tauto; done).
        destruct (decide (b = 128)%Z) as [->|Hb].
        * rewrite bool_decide_eq_true_2 by done. specialize (IH MQTTServerRefused ltac:(by right)). cbv zeta in *.
          rewrite !Forall_cons, elem_of_cons. naive_solver.
        * rewrite bool_decide_eq_false_2 by done. rewrite !Forall_cons. naive_solver. }
  specialize (H MQTTSuccess ltac:(by left)). naive_solver.
Qed.

(** ** SUBSCRIBE and UNSUBSCRIBE *)

Record filter_ok (s : MQTTSubscribeInfo_t) (t : bytes) : Prop := {
  flt_field : field (pTopicFilter s) (topicFilterLength s) = Some t;
  flt_length : (0 < topicFilterLength s < 2 ^ 16)%Z;
}.

(** A filter on the wire; a SUBSCRIBE adds the QoS it asks for. *)
Definition wire_filter (ty : MQTTSubscriptionType_t) (s : MQTTSubscribeInfo_t) (t : bytes) : bytes :=
  wire_string t ++ match ty with MQTT_SUBSCRIBE => [qos_byte (sub_qos s)] | MQTT_UNSUBSCRIBE => [] end.

Definition subscription_body (ty : MQTTSubscriptionType_t) (l : list MQTTSubscribeInfo_t) (ts : list bytes) (id : Z) : bytes :=
  be16 id ++ mjoin (zip_with (wire_filter ty) l ts).

Definition subscription_type (ty : MQTTSubscriptionType_t) : Z :=
  match ty with MQTT_SUBSCRIBE => MQTT_PACKET_TYPE_SUBSCRIBE | MQTT_UNSUBSCRIBE => MQTT_PACKET_TYPE_UNSUBSCRIBE end.

(** The two serialisers, by type. *)
Definition serialize_subscription (ty : MQTTSubscriptionType_t) :=
  match ty with MQTT_SUBSCRIBE => MQTT_SerializeSubscribe | MQTT_UNSUBSCRIBE => MQTT_SerializeUnsubscribe end.
Definition subscription_packet_size (ty : MQTTSubscriptionType_t) :=
  match ty with MQTT_SUBSCRIBE => MQTT_GetSubscribePacketSize | MQTT_UNSUBSCRIBE => MQTT_GetUnsubscribePacketSize end.
Definition write_filters (ty : MQTTSubscriptionType_t) :=
  match ty with MQTT_SUBSCRIBE => write_subscriptions | MQTT_UNSUBSCRIBE => write_unsubscriptions end.

Lemma filter_ok_length s t : filter_ok s t -> Z.of_nat (length t) = topicFilterLength s.
Proof. intros [H1 H2]. apply field_length in H1. lia. Qed.

Lemma writes_filters ty l ts :
  Forall2 filter_ok l ts -> writes (write_filters ty l) (mjoin (zip_with (wire_filter ty) l ts)).
Proof.
  induction 1 as [|s t l ts [Hf Hl] _ IH]; [destruct ty; apply writes_nil|].
  destruct ty; cbn [write_filters write_subscriptions write_unsubscriptions zip_with mjoin list_join] in *; unfold wire_filter at 1;
    rewrite <- app_assoc.
  - apply writes_seq; [by apply writes_wire_string; [lia|]|]. apply writes_seq; [apply writes_poke|done].
  - apply writes_seq; [by apply writes_wire_string; [lia|]|done].
Qed.

Lemma subscription_sizes ty l ts : forall n,
  Forall2 filter_ok l ts -> (0 <= n)%Z -> (n + Z.of_nat (length l) * 65538 < 2 ^ 32)%Z ->
  subscription_size l ty n MQTTSuccess = (n + Z.of_nat (length (mjoin (zip_with (wire_filter ty) l ts))), MQTTSuccess)%Z.
Proof.
  intros n H. revert n. induction H as [|s t l ts Hst _ IH]; intros n Hn Hb.
  - cbn. f_equal. lia.
  - pose proof (filter_ok_length _ _ Hst) as Hlen. destruct Hst as [Hf Hl]. cbn [length] in Hb. cbn [subscription_size].
    change (mjoin (zip_with (wire_filter ty) (s :: l) (t :: ts))) with (wire_filter ty s t ++ mjoin (zip_with (wire_filter ty) l ts)).
    unfold wire_filter at 1, wire_string.
    rewrite (bool_decide_eq_false_2 (topicFilterLength s = 0)%Z) by lia.
    rewrite (bool_decide_eq_false_2 (pTopicFilter s = None)) by (apply field_Some in Hf as (src & -> & _); done).
    cbn [orb]. rewrite (wrap_small 32 (n + (topicFilterLength s + 2))) by lia. rewrite !length_app, be16_length.
    destruct ty; [rewrite (bool_decide_eq_true_2 (_ = MQTT_SUBSCRIBE)) by done; rewrite (wrap_small 32) by lia|
      rewrite (bool_decide_eq_false_2 (_ = MQTT_SUBSCRIBE)) by done]; rewrite IH by lia; cbn [length]; f_equal; lia.
Qed.

(** SUBSCRIBE and UNSUBSCRIBE fill exactly the bytes their size functions
    announce: the packet of the standard, nothing before it missing and
    nothing behind it touched. *)
Theorem subscriptions_fill_their_size ty l ts id rl ps mem sz :
  Forall2 filter_ok l ts -> (2 + Z.of_nat (length l) * 65538 < 2 ^ 32)%Z -> (0 < id < 2 ^ 16)%Z ->
  subscription_packet_size ty (Some l) = (MQTTSuccess, Some (rl, ps)) ->
  (ps <= sz)%Z -> (ps <= Z.of_nat (length mem))%Z ->
  let pkt := packet (subscription_type ty) (subscription_body ty l ts id) in
  Z.of_nat (length pkt) = ps /\
  serialize_subscription ty (Some l) id rl (Some (Build_fixed_buffer (Some mem) sz)) =
    Some (MQTTSuccess, Some (Build_fixed_buffer (Some (pkt ++ drop (length pkt) mem)) sz)).
Proof.
  intros Hl Hb Hid Hsz Hbuf Hmem pkt.
  assert (subscription_guard (Some l) ty = (MQTTSuccess, Some (rl, ps))) as Hg by (by destruct ty).
  unfold subscription_guard in Hg. destruct (decide (l = [])) as [->|Hne]; [done|].
  rewrite bool_decide_eq_false_2 in Hg by done. unfold calculateSubscriptionPacketSize in Hg.
  rewrite (subscription_sizes ty l ts) in Hg by (done || lia).
  set (body := subscription_body ty l ts id) in *.
  assert (2 + Z.of_nat (length (mjoin (zip_with (wire_filter ty) l ts))) = Z.of_nat (length body))%Z as Eb.
  { unfold body, subscription_body. rewrite length_app, be16_length. lia. }
  rewrite Eb in Hg. unfold MQTT_MAX_REMAINING_LENGTH in Hg.
  case_bool_decide as Hmax; [done|]. change (mqtt_ok MQTTSuccess) with true in Hg. cbv iota in Hg.
  pose proof (size_bound (Z.of_nat (length body))) as Hs. rewrite (wrap_small 32) in Hg by lia.
  assert (Z.of_nat (length pkt) = Z.of_nat (length body) + (1 + remainingLengthEncodedSize (Z.of_nat (length body))))%Z as Epkt.
  { unfold pkt. rewrite packet_length. lia. }
  remember (Z.of_nat (length body)) as k eqn:Ek. injection Hg as <- <-.
  split; [done|]. assert (length_ok k) as Hok by (unfold length_ok, MQTT_MAX_REMAINING_LENGTH; lia).
  assert (writes (poke [subscription_type ty] >>w encodeRemainingLength k >>w
                  poke (be16 id) >>w write_filters ty l) pkt) as Hw.
  { apply writes_packet; [done..|]. apply writes_seq; [apply writes_poke|by apply writes_filters]. }
  assert (serialize_subscription ty (Some l) id k (Some (Build_fixed_buffer (Some mem) sz)) =
    serialize_list (Some l) id k (Some (Build_fixed_buffer (Some mem) sz))
      (fun l => (poke [subscription_type ty] >>w encodeRemainingLength k >>w poke (be16 id)) >>w write_filters ty l)) as -> by (by destruct ty).
  unfold serialize_list, validateSubscriptionSerializeParams. cbn [pBuffer fb_size].
  rewrite (bool_decide_eq_false_2 (Some mem = None)), (bool_decide_eq_false_2 (l = [])), (bool_decide_eq_false_2 (id = 0)%Z) by (done || lia).
  rewrite (wrap_small 32) by lia. rewrite bool_decide_eq_false_2 by lia. change (mqtt_ok MQTTSuccess) with true.
  cbn [mbind option_bind pBuffer]. erewrite write_fixed_at; [done| |lia].
  by apply writes_header.
Qed.

(** ** CONNECT *)

Definition opt_field (p : option bytes) (len : Z) (o : option bytes) : Prop :=
  match p, o with
  | None, None => True
  | Some _, Some s => field p len = Some s /\ (0 <= len < 2 ^ 16)%Z
  | _, _ => False
  end.

Definition will_ok (will : option MQTTPublishInfo_t) (w : option (bytes * bytes)) : Prop :=
  match will, w with
  | None, None => True
  | Some i, Some (t, m) =>
      field (pTopicName i) (topicNameLength i) = Some t /\ (0 <= topicNameLength i < 2 ^ 16)%Z /\
      field (pPayload i) (payloadLength i) = Some m /\ (0 <= payloadLength i)%Z
  | _, _ => False
  end.

(** The strings of a CONNECT as the caller holds them. *)
Record connect_ok (ci : MQTTConnectInfo_t) (will : option MQTTPublishInfo_t) (c : bytes)
    (w : option (bytes * bytes)) (u pw : option bytes) : Prop := {
  cn_client : opt_field (pClientIdentifier ci) (clientIdentifierLength ci) (Some c);
  cn_will : will_ok will w;
  cn_user : opt_field (pUserName ci) (userNameLength ci) u;
  cn_password : opt_field (pPassword ci) (passwordLength ci) pw;
}.

Definition wire_option (o : option bytes) : bytes := match o with Some s => wire_string s | None => [] end.
Definition wire_will (w : option (bytes * bytes)) : bytes :=
  match w with Some (t, m) => wire_string t ++ wire_string m | None => [] end.

Definition connect_body (ci : MQTTConnectInfo_t) (will : option MQTTPublishInfo_t) (c : bytes)
    (w : option (bytes * bytes)) (u pw : option bytes) : bytes :=
  (wire_string (str "MQTT") ++ [MQTT_VERSION_3_1_1] ++ [connect_flags ci will] ++ be16 (keepAliveSeconds ci)) ++
  wire_string c ++ wire_will w ++ wire_option u ++ wire_option pw.

Lemma wire_string_length s : length (wire_string s) = 2 + length s.
Proof. unfold wire_string. by rewrite length_app, be16_length. Qed.

Lemma opt_field_length p len o :
  opt_field p len o ->
  Z.of_nat (length (wire_option o)) = (if bool_decide (p <> None) then len + 2 else 0)%Z /\
  (bool_decide (p <> None) = true -> (0 <= len < 2 ^ 16)%Z).
Proof.
  destruct p, o; cbn [opt_field wire_option]; try done.
  intros [H Hl]. apply field_length in H. rewrite wire_string_length, bool_decide_eq_true_2 by done. lia.
Qed.

Lemma writes_opt_field p len o :
  opt_field p len o -> writes (wif (bool_decide (p <> None)) (encodeString p len)) (wire_option o).
Proof. destruct p, o; cbn; try done; [|intros; apply writes_nil]. intros [H Hl]. by apply writes_wire_string; [lia|]. Qed.

(** CONNECT fills exactly the bytes its size function announces: protocol
    name and level, the flags, keep-alive, then client id, will, user name and
    password in the order of the standard, each present iff it was given. *)
Theorem connect_fills_its_size ci will c w u pw rl ps mem sz :
  connect_ok ci will c w u pw -> MQTT_GetConnectPacketSize (Some ci) will = (MQTTSuccess, Some (rl, ps)) ->
  (ps <= sz)%Z -> (ps <= Z.of_nat (length mem))%Z ->
  let pkt := packet MQTT_PACKET_TYPE_CONNECT (connect_body ci will c w u pw) in
  Z.of_nat (length pkt) = ps /\
  MQTT_SerializeConnect (Some ci) will rl (Some (Build_fixed_buffer (Some mem) sz)) =
    Some (MQTTSuccess, Some (Build_fixed_buffer (Some (pkt ++ drop (length pkt) mem)) sz)).
Proof.
  intros [Hc Hw Hu Hp] Hsz Hbuf Hmem pkt.
  destruct (opt_field_length _ _ _ Hu) as [Elu Hlu]. destruct (opt_field_length _ _ _ Hp) as [Elp Hlp].
  destruct (pClientIdentifier ci) as [src|] eqn:Eci; [|done]. destruct Hc as [Hc Hlc]. pose proof (field_length _ _ _ Hc) as Elc.
  set (body := connect_body ci will c w u pw) in *.
  set (wl := match will with Some i => (topicNameLength i + 2 + payloadLength i + 2)%Z | None => 0%Z end).
  assert (match will with Some i => bool_decide (payloadLength i > 65535)%Z | None => false end = false) as Hwp.
  { unfold MQTT_GetConnectPacketSize in Hsz. destruct (match will with Some _ => _ | None => _ end); [|done].
    by destruct (bool_decide (clientIdentifierLength ci = 0)%Z || _). }
  assert (Z.of_nat (length (wire_will w)) = wl /\ (0 <= wl < 2 ^ 17 + 4)%Z) as [Elw Hlw].
  { unfold wl. destruct will as [i|], w as [[t m]|]; try done. destruct Hw as (H1 & H2 & H3 & H4).
    apply field_length in H1, H3. apply bool_decide_eq_false_1 in Hwp. cbn [wire_will]. rewrite length_app, !wire_string_length. lia. }
  assert (Z.of_nat (length body) = 10 + (clientIdentifierLength ci + 2) + wl
    + (if bool_decide (pUserName ci <> None) then userNameLength ci + 2 else 0)
    + (if bool_decide (pPassword ci <> None) then passwordLength ci + 2 else 0))%Z as Eb.
  { unfold body, connect_body. rewrite !length_app, !wire_string_length, be16_length. cbn [length]. rewrite <- Elu, <- Elp, <- Elw.
    change (length (str "MQTT")) with 4. lia. }
  unfold MQTT_GetConnectPacketSize in Hsz. rewrite Hwp in Hsz.
  destruct (bool_decide (clientIdentifierLength ci = 0)%Z || bool_decide (pClientIdentifier ci = None)); [done|].
  unfold MQTT_PACKET_CONNECT_HEADER_SIZE in Hsz. rewrite (wrap_small 32 (10 + _)) in Hsz by lia.
  assert (match will with
          | Some w => u32 (10 + (clientIdentifierLength ci + 2) + (topicNameLength w + 2 + payloadLength w + 2))
          | None => 10 + (clientIdentifierLength ci + 2)
          end = 10 + (clientIdentifierLength ci + 2) + wl)%Z as Ew.
  { unfold wl in *. destruct will; [rewrite wrap_small by lia|]; lia. }
  rewrite Ew in Hsz. clear Ew.
  set (nu := if bool_decide (pUserName ci <> None) then u32 _ else _) in Hsz.
  assert (nu = 10 + (clientIdentifierLength ci + 2) + wl + (if bool_decide (pUserName ci <> None) then userNameLength ci + 2 else 0))%Z as Enu.
  { unfold nu. destruct (bool_decide (pUserName ci <> None)); [specialize (Hlu eq_refl); rewrite wrap_small by lia|]; lia. }
  set (np := if bool_decide (pPassword ci <> None) then u32 _ else _) in Hsz.
  assert (np = Z.of_nat (length body)) as Enp.
  { rewrite Eb. unfold np. destruct (bool_decide (pPassword ci <> None)); [specialize (Hlp eq_refl); rewrite wrap_small by
      (destruct (bool_decide (pUserName ci <> None)); [specialize (Hlu eq_refl)|]; lia)|]; lia. }
  clearbody nu np.
  assert (0 <= np < 2 ^ 20)%Z as Hnp.
  { rewrite Enp, Eb. destruct (bool_decide (pUserName ci <> None)), (bool_decide (pPassword ci <> None));
      try specialize (Hlu eq_refl); try specialize (Hlp eq_refl); lia. }
  pose proof (size_bound np) as Hs. rewrite (wrap_small 32) in Hsz by lia. injection Hsz as <- <-.
  assert (Z.of_nat (length pkt) = np + (1 + remainingLengthEncodedSize np))%Z as Epkt.
  { unfold pkt. rewrite packet_length. fold body. rewrite <- Enp. lia. }
  split; [done|]. unfold MQTT_SerializeConnect. cbn [pBuffer fb_size].
  assert (match will with Some w => bool_decide (pTopicName w = None) | None => false end = false) as ->.
  { destruct will as [i|], w as [[t m]|]; try done. destruct Hw as (H1 & _). apply field_Some in H1 as (? & -> & _). done. }
  rewrite (wrap_small 32) by lia. rewrite bool_decide_eq_false_2 by lia.
  erewrite write_fixed_at; [done| |lia]. unfold serializeConnectPacket, MQTT_SerializeConnectFixedHeader.
  apply writes_header. apply writes_packet; [done|unfold length_ok, MQTT_MAX_REMAINING_LENGTH; lia|].
  unfold connect_body. apply writes_seq; [|apply writes_seq; [|apply writes_seq; [|apply writes_seq]]].
  - apply writes_seq; [by apply writes_wire_string|]. repeat (apply writes_seq; [apply writes_poke|]). apply writes_poke.
  - rewrite Eci. apply writes_wire_string; [lia|done].
  - destruct will as [i|], w as [[t m]|]; try done; [|apply writes_nil]. destruct Hw as (H1 & H2 & H3 & H4).
    apply bool_decide_eq_false_1 in Hwp. rewrite (wrap_small 16) by lia. apply writes_seq; by apply writes_wire_string; [lia|].
  - by apply writes_opt_field.
  - by apply writes_opt_field.
Qed.

(** ** Witnesses *)

Definition demo_publish : MQTTPublishInfo_t :=
  Build_publish_info MQTTQoS1 true false (Some (str "a/b")) 3 (Some (str "on")) 2.

Lemma demo_message : message demo_publish (str "a/b") (str "on").
Proof. split; [reflexivity|cbn; lia|reflexivity|cbn; lia]. Qed.

Definition blank_publish : MQTTPublishInfo_t := Build_publish_info MQTTQoS0 false false None 0 None 0.
Definition blank_packet : MQTTPacketInfo_t := Build_packet_info 0 None 0 0.

Lemma header_parser_exact_witness :
  exists status pk', MQTT_ProcessIncomingPacketTypeAndLength (Some [48; 200; 1; 7]%Z) (Some 2%Z) (Some blank_packet) = Some (status, Some pk') /\
    status = MQTTNeedMoreBytes.
Proof.
  destruct (header_parser_exact [48; 200; 1; 7]%Z 2 blank_packet 48) as (status & pk' & E & _ & _ & _ & Hmore & _).
  - by apply (bool_decide_unpack _).
  - cbn. lia.
  - done.
  - exists status, pk'. split; [exact E|]. vm_compute in E. injection E as <- _. done.
Defined.

Lemma publish_round_trip_witness :
  exists pkt pk info,
    MQTT_SerializePublish (Some demo_publish) 5 9 (Some (Build_fixed_buffer (Some (replicate 16 0%Z)) 16)) =
      Some (MQTTSuccess, Some (Build_fixed_buffer (Some (pkt ++ drop (length pkt) (replicate 16 0%Z))) 16)) /\
    MQTT_DeserializePublish
      (Some (Build_packet_info (pk_type pk) (Some (drop (Z.to_nat (headerLength pk)) (pkt ++ [1%Z]))) (remainingLength pk) (headerLength pk)))
      (Some 0%Z) (Some blank_publish) = Some (MQTTSuccess, Some 5%Z, Some info) /\ same_message demo_publish info.
Proof.
  destruct (publish_round_trip demo_publish (str "a/b") (str "on") 5 9 11 (replicate 16 0%Z) 16 [1%Z] blank_packet 0 blank_publish
    demo_message) as (pkt & pk & info & H1 & _ & _ & H2 & H3).
  - apply (bool_decide_unpack _). vm_compute. exact I.
  - intros _. lia.
  - done.
  - vm_compute. reflexivity.
  - lia.
  - cbn. lia.
  - by exists pkt, pk, info.
Defined.

Lemma deserialize_publish_exact_witness :
  exists status id info,
    MQTT_DeserializePublish (Some (Build_packet_info 50 (Some [0; 1; 97; 0; 0; 1]%Z) 6 0)) (Some 0%Z) (Some blank_publish)
      = Some (status, Some id, Some info) /\ status = MQTTBadResponse.
Proof.
  destruct (deserialize_publish_exact (Build_packet_info 50 (Some [0; 1; 97; 0; 0; 1]%Z) 6 0) [0; 1; 97; 0; 0; 1]%Z 0 blank_publish)
    as (status & id & info & E & _ & _).
  - done.
  - by apply (bool_decide_unpack _).
  - cbn. lia.
  - unfold MQTT_MAX_REMAINING_LENGTH. cbn. lia.
  - done.
  - exists status, id, info. split; [exact E|]. vm_compute in E. injection E as <- _ _. done.
Defined.

Lemma ack_round_trip_witness :
  exists pkt pk,
    MQTT_SerializeAck (Some (Build_fixed_buffer (Some (replicate 5 0%Z)) 5)) 64 258 =
      Some (MQTTSuccess, Some (Build_fixed_buffer (Some (pkt ++ drop 4 (replicate 5 0%Z))) 5)) /\ length pkt = 4 /\
    MQTT_ProcessIncomingPacketTypeAndLength (Some (pkt ++ [])) (Some 4%Z) (Some blank_packet) = Some (MQTTSuccess, Some pk).
Proof.
  destruct (ack_round_trip 64 258 (replicate 5 0%Z) 5 [] blank_packet 0 None) as (pkt & pk & H1 & H2 & H3 & _).
  - by apply (bool_decide_unpack _).
  - lia.
  - lia.
  - cbn. lia.
  - constructor.
  - by exists pkt, pk.
Defined.

Lemma suback_verdict_witness :
  deserializeSuback [0; 9; 1; 128]%Z 4 0 = Some (MQTTServerRefused, 9%Z) /\
  Forall (fun b => (b = 0 \/ b = 1 \/ b = 2) \/ b = 128)%Z [1; 128]%Z.
Proof.
  destruct (suback_verdict [0; 9; 1; 128]%Z 9 [1; 128]%Z [] 0) as (status & E & _ & H & _); [lia|done|reflexivity|].
  assert (status = MQTTServerRefused) as -> by (vm_compute in E; by injection E as <-).
  split; [exact E|]. by apply H.
Defined.

Lemma subscriptions_fill_their_size_witness :
  MQTT_SerializeSubscribe (Some [Build_subscribe_info MQTTQoS1 (Some (str "x/#")) 3]) 7 8
    (Some (Build_fixed_buffer (Some (replicate 12 255%Z)) 12)) =
    Some (MQTTSuccess, Some (Build_fixed_buffer (Some ([130; 8; 0; 7; 0; 3; 120; 47; 35; 1; 255; 255]%Z)) 12)).
Proof.
  destruct (subscriptions_fill_their_size MQTT_SUBSCRIBE [Build_subscribe_info MQTTQoS1 (Some (str "x/#")) 3] [str "x/#"] 7 8 10
    (replicate 12 255%Z) 12) as [_ E].
  - repeat constructor; cbn; lia.
  - cbn. lia.
  - lia.
  - vm_compute. reflexivity.
  - lia.
  - cbn. lia.
  - exact E.
Defined.

Definition demo_connect : MQTTConnectInfo_t :=
  Build_connect_info true 60 (Some (str "id")) 2 (Some (str "u")) 1 None 0.

Lemma connect_fills_its_size_witness :
  MQTT_SerializeConnect (Some demo_connect) None 17 (Some (Build_fixed_buffer (Some (replicate 19 0%Z)) 19)) =
    Some (MQTTSuccess, Some (Build_fixed_buffer (Some
      ([16; 17; 0; 4; 77; 81; 84; 84; 4; 130; 0; 60; 0; 2; 105; 100; 0; 1; 117]%Z)) 19)).
Proof.
  destruct (connect_fills_its_size demo_connect None (str "id") None (Some (str "u")) None 17 19 (replicate 19 0%Z) 19) as [_ E].
  - split; cbn; split_and?; done || lia.
  - vm_compute. reflexivity.
  - lia.
  - cbn. lia.
  - exact E.
Defined.
