(* ===== verification/MqttTopics.v ===== *)
(** * MqttTopics: topic filters against the MQTT specification

    [MQTT_MatchTopic] walks over the two strings with two indices; section 4.7
    of the specification speaks of levels. The two agree but for one corner,
    which [missed] describes exactly. *)

From S2P Require Import Prelude MqttTypes MqttState MqttSerializer MqttCore.
From stdpp Require Import base list strings numbers.
From Stdlib Require Import ZArith Lia.

Local Open Scope cything_scope.

(** ** The specification *)

(** A topic is its levels, separated by slashes. *)
Fixpoint levels (s : bytes) : list bytes :=
  match s with
  | [] => [[]]
  | c :: s => if bool_decide (c = SLASH) then [] :: levels s
              else match levels s with
                   | l :: ls => (c :: l) :: ls
                   | [] => [[c]]
                   end
  end.

(** A ['#'] takes the level it stands for, its children and its parent; a ['+']
    takes one level, empty or not. *)
Fixpoint level_match (ns fs : list bytes) {struct fs} : bool :=
  match fs with
  | [] => bool_decide (ns = [])
  | f :: fs =>
      bool_decide (f = [HASH]) ||
      match ns with
      | [] => false
      | n :: ns => (bool_decide (f = [PLUS]) || bool_decide (f = n)) && level_match ns fs
      end
  end.

Definition starts_wild (filter : bytes) : bool := bool_decide (head filter = Some PLUS) || bool_decide (head filter = Some HASH).

(** Topics that start with ['$'] are hidden from a wildcard in front. *)
Definition topic_matches (name filter : bytes) : bool :=
  negb (bool_decide (head name = Some DOLLAR) && starts_wild filter) && level_match (levels name) (levels filter).

(** The corner: the name ends behind something a ['+'] took, and what is left
    of the filter should match nothing, or an empty level. [p] says that the
    level in front was taken by a ['+']. *)
Fixpoint missed (p : bool) (ns fs : list bytes) : bool :=
  match ns, fs with
  | [n], [f] => p && bool_decide (n = []) && (bool_decide (f = [PLUS]) || bool_decide (f = [HASH]))
  | [n], [f; g] => bool_decide (g = [HASH]) && (bool_decide (f = [PLUS]) || p && bool_decide (n = []))
  | _ :: ns, f :: fs => missed (bool_decide (f = [PLUS])) ns fs
  | _, _ => false
  end.

Definition plain (s : bytes) : Prop := Forall (fun c => c <> PLUS /\ c <> HASH) s.

(** What a topic name is: one character or more, no wildcard, no NUL. *)
Definition topic_name (name : bytes) : Prop := name <> [] /\ plain name /\ Forall (fun c => c <> NUL) name.

(** What a topic filter is: a wildcard fills its level, and a ['#'] is last. *)
Inductive valid_levels : list bytes -> Prop :=
  | vl_last f : plain f \/ f = [PLUS] \/ f = [HASH] -> valid_levels [f]
  | vl_more f g fs : plain f \/ f = [PLUS] -> valid_levels (g :: fs) -> valid_levels (f :: g :: fs).

Definition topic_filter (filter : bytes) : Prop := filter <> [] /\ valid_levels (levels filter).

(** ** The walk on suffixes *)

(** What is behind the current level: nothing, or a separator first. *)
Fixpoint behind_level (a : bytes) : bytes :=
  match a with
  | [] => []
  | c :: a' => if bool_decide (c = SLASH) then a else behind_level a'
  end.

(** The rest [a] of the name against the rest [b] of the filter. [start] says
    that [b] starts a level, [eq] that the character in front was matched by an
    equal one: only then does the code look ahead for a wildcard. *)
Fixpoint walk (eq start : bool) (a b : bytes) : bool :=
  match a with
  | [] => bool_decide (b = []) ||
          eq && (bool_decide (b = [SLASH; HASH]) || start && (bool_decide (b = [PLUS]) || bool_decide (b = [HASH])))
  | x :: a' =>
      match b with
      | [] => false
      | y :: b' =>
          if bool_decide (x = y) then walk true (bool_decide (y = SLASH)) a' b'
          else if bool_decide (y = PLUS) && start then
            match behind_level a with
            | [] => bool_decide (b' = [])
            | _ :: r => match b' with
                        | z :: b'' => if bool_decide (z = SLASH) then walk false true r b'' else false
                        | [] => false
                        end
            end
          else bool_decide (y = HASH) && bool_decide (b' = []) && start
      end
  end.

Lemma walk_nil eq start b :
  walk eq start [] b = bool_decide (b = []) ||
    eq && (bool_decide (b = [SLASH; HASH]) || start && (bool_decide (b = [PLUS]) || bool_decide (b = [HASH]))).
Proof. by destruct b. Qed.

Lemma drop_here {A} (l : list A) i x r :
  drop i l = x :: r -> l !! i = Some x /\ drop (i + 1) l = r /\ length l = i + S (length r).
Proof.
  intros E. assert (l !! i = Some x) as Hx by (by rewrite <- (Nat.add_0_r i), <- lookup_drop, E). split; [done|]. split.
  - rewrite <- drop_drop, E. done.
  - pose proof (length_drop l i) as Hl. rewrite E in Hl. cbn [length] in Hl. apply lookup_lt_Some in Hx. lia.
Qed.

Lemma drop_end {A} (l : list A) i : drop i l = [] -> i <= length l -> i = length l.
Proof. intros E H. pose proof (length_drop l i) as Hl. rewrite E in Hl. cbn in Hl. lia. Qed.

Lemma char_at_is s i x c : s !! i = Some x -> char_at s i c = bool_decide (x = c).
Proof. intros H. unfold char_at. rewrite H. apply bool_decide_ext. split; [by intros [=]|by intros ->]. Qed.

Lemma lookup_behind {A} (l r : list A) i k : drop i l = r -> l !! (i + k) = r !! k.
Proof. intros <-. by rewrite lookup_drop. Qed.

Lemma special_cases filter j y b :
  drop j filter = y :: b ->
  matchEndWildcardsSpecialCases filter j =
  bool_decide (b = [SLASH; HASH]) || bool_decide (y = SLASH) && (bool_decide (b = [PLUS]) || bool_decide (b = [HASH])).
Proof.
  intros E. destruct (drop_here _ _ _ _ E) as (Hy & _ & Hl). unfold matchEndWildcardsSpecialCases, char_at.
  rewrite Hl, Hy, !(lookup_behind _ _ _ _ E). unfold PLUS, HASH, SLASH.
  rewrite (bool_decide_ext (j + 2 = j + S (length b)) (length b = 1)) by lia.
  assert (bool_decide (3 <= j + S (length b)) && bool_decide (j = j + S (length b) - 3) = bool_decide (length b = 2)) as ->.
  { case_bool_decide as H1; case_bool_decide as H2; case_bool_decide as H3; try done; lia. }
  rewrite (bool_decide_ext (Some y = Some 47%Z) (y = 47%Z)) by (split; [by intros [=]|by intros ->]).
  destruct b as [|c [|c' b]]; cbn.
  - by repeat case_bool_decide; first [done|simplify_eq].
  - by repeat case_bool_decide; first [done|simplify_eq].
  - rewrite (bool_decide_eq_false_2 (c :: c' :: b = [43%Z])), (bool_decide_eq_false_2 (c :: c' :: b = [35%Z])) by done.
    rewrite andb_false_r, orb_false_r. destruct b; by repeat case_bool_decide; first [done|simplify_eq].
Qed.

(** ** The loop is the walk *)

Definition verdict (name filter : bytes) (o : option (nat * nat * bool)) : bool :=
  match o with
  | Some (ni, fi, m) => m || (bool_decide (ni = length name) && bool_decide (fi = length filter))
  | None => false
  end.

Lemma skip_spec n : forall name i,
  length name - i <= n -> i <= length name ->
  let '(i', found) := skip_level n name i in
  drop i' name = behind_level (drop i name) /\ i <= i' <= length name /\
  found = negb (bool_decide (behind_level (drop i name) = [])).
Proof.
  induction n as [|n IH]; intros name i Hn Hi; cbn [skip_level].
  - rewrite drop_ge by lia. split_and!; [done|lia..|done].
  - case_bool_decide as Hlt.
    + destruct (drop i name) as [|c a] eqn:E; [apply drop_end in E; lia|].
      destruct (drop_here _ _ _ _ E) as (Hc & E1 & Hl). unfold char_at. rewrite Hc. cbn [behind_level].
      destruct (decide (c = SLASH)) as [->|Hne].
      * rewrite !bool_decide_eq_true_2 by done. split_and!; [done|lia..|done].
      * rewrite !bool_decide_eq_false_2 by congruence. specialize (IH name (i + 1)). rewrite E1 in IH.
        destruct (skip_level n name (i + 1)) as [i' f]. destruct IH as (H1 & H2 & H3); [lia..|]. split_and!; [done|lia..|done].
    + rewrite drop_ge by lia. split_and!; [done|lia..|done].
Qed.

Lemma behind_slash a : match behind_level a with [] => True | c :: _ => c = SLASH end.
Proof. induction a as [|c a IH]; cbn; [done|]. by case_bool_decide. Qed.

Definition at_start (filter : bytes) (j : nat) : bool := bool_decide (j = 0) || char_at filter (j - 1) SLASH.

Lemma at_start_next filter j y b : drop j filter = y :: b -> at_start filter (j + 1) = bool_decide (y = SLASH).
Proof.
  intros E. destruct (drop_here _ _ _ _ E) as (Hy & _ & _). unfold at_start.
  rewrite bool_decide_eq_false_2 by lia. replace (j + 1 - 1) with j by lia. by rewrite (char_at_is _ _ _ _ Hy).
Qed.

Lemma verdict_now name filter ni fi m :
  ni < length name -> verdict name filter (Some (ni, fi, m)) = m.
Proof. intros H. cbn. rewrite bool_decide_eq_false_2 by lia. by rewrite orb_false_r. Qed.

Lemma loop_walk n : forall name filter i j a b eq,
  drop i name = a -> drop j filter = b -> i <= length name -> j <= length filter -> length b <= n ->
  (a = [] -> eq = false) ->
  verdict name filter (match_loop n name filter i j false) = walk eq (at_start filter j) a b.
Proof.
  induction n as [|n IH]; intros name filter i j a b eq Ea Eb Hi Hj Hn Heq.
  - destruct b; [|cbn in Hn; lia]. apply drop_end in Eb as ->; [|done]. cbn [match_loop].
    rewrite (bool_decide_eq_false_2 (length filter < _)) by lia. rewrite andb_false_r. cbn [verdict orb].
    destruct a as [|x a]; cbn [walk].
    + apply drop_end in Ea as ->; [|done]. by do 3 (rewrite bool_decide_eq_true_2 by done).
    + apply drop_here in Ea as (_ & _ & Hl). by rewrite bool_decide_eq_false_2 by lia.
  - destruct a as [|x a].
    { rewrite Heq by done. apply drop_end in Ea as ->; [|done]. cbn [match_loop].
      rewrite (bool_decide_eq_false_2 (length name < _)) by lia. cbn [andb verdict orb].
      rewrite (bool_decide_eq_true_2 (length name = _)) by done. rewrite walk_nil. cbn [andb]. rewrite orb_false_r.
      apply bool_decide_ext. rewrite <- Eb. split; [intros ->; by rewrite drop_all|intros ?; by apply drop_end]. }
    destruct b as [|y b].
    { apply drop_end in Eb as ->; [|done]. cbn [match_loop].
      rewrite (bool_decide_eq_false_2 (length filter < _)) by lia. rewrite andb_false_r. cbn [verdict orb].
      apply drop_here in Ea as (_ & _ & Hl). by rewrite bool_decide_eq_false_2 by lia. }
    pose proof (drop_here _ _ _ _ Ea) as (Hx & Ea' & Hla). pose proof (drop_here _ _ _ _ Eb) as (Hy & Eb' & Hlb).
    cbn [match_loop]. rewrite !bool_decide_eq_true_2 by lia. cbn [andb]. rewrite Hx, Hy.
    rewrite (bool_decide_ext (Some x = Some y) (x = y)) by (split; [by intros [=]|by intros ->]).
    cbn [walk]. cbn [length] in Hn.
    case_bool_decide as Hxy.
    + rewrite orb_false_r. rewrite (special_cases _ _ _ _ Eb). rewrite <- (at_start_next _ _ _ _ Eb).
      destruct a as [|x' a].
      * rewrite bool_decide_eq_true_2 by (cbn in Hla; lia). rewrite walk_nil. cbn [andb].
        destruct (bool_decide (b = [SLASH; HASH]) || _); cbn [orb]; [by rewrite orb_true_r|].
        rewrite (IH name filter (i + 1) (j + 1) [] b false) by (done || lia). rewrite walk_nil. done.
      * rewrite bool_decide_eq_false_2 by (cbn in Hla; lia). apply IH; done || lia.
    + unfold matchWildcards. fold (at_start filter j). rewrite !(char_at_is _ _ _ _ Hy).
      rewrite (bool_decide_ext (j + 1 = length filter) (b = [])) by (destruct b; cbn in Hlb; split; done || lia).
      destruct (bool_decide (y = PLUS) && at_start filter j) eqn:Ep.
      * pose proof (skip_spec (length name) name i) as Hsk. rewrite Ea in Hsk.
        destruct (skip_level (length name) name i) as [i' f]. destruct Hsk as (H1 & H2 & ->); [lia..|].
        pose proof (behind_slash (x :: a)) as Hsl. destruct (behind_level (x :: a)) as [|z r] eqn:Er; cbn [negb].
        -- rewrite bool_decide_eq_true_2 by done. cbn [negb andb].
           apply drop_end in H1 as ->; [|lia]. cbn [orb]. replace (length name - 1 + 1) with (length name) by lia.
           rewrite (IH name filter (length name) (j + 1) [] b false); [|by rewrite drop_all|done|lia|lia|lia|done].
           rewrite walk_nil. cbn [andb]. by rewrite orb_false_r.
        -- rewrite bool_decide_eq_false_2 by done. cbn [negb andb]. subst z.
           pose proof (drop_here _ _ _ _ H1) as (_ & H1' & Hl1).
           destruct b as [|z b].
           ++ rewrite bool_decide_eq_false_2 by (cbn in Hlb; lia). cbn [andb negb]. cbn [orb]. rewrite verdict_now by lia. done.
           ++ rewrite bool_decide_eq_true_2 by (cbn in Hlb; lia). cbn [andb].
              pose proof (drop_here _ _ _ _ Eb') as (Hz & Eb'' & Hlb'). rewrite (char_at_is _ _ _ _ Hz).
              destruct (decide (z = SLASH)) as [->|Hz'].
              ** rewrite bool_decide_eq_true_2 by done. cbn [negb orb].
                 rewrite (IH name filter (i' + 1) (j + 1 + 1) r b false) by (done || (cbn in Hn; lia)).
                 rewrite (at_start_next _ _ _ _ Eb'). by rewrite bool_decide_eq_true_2.
              ** rewrite bool_decide_eq_false_2 by done. cbn [negb orb]. by rewrite verdict_now by lia.
      * destruct (bool_decide (y = HASH) && bool_decide (b = []) && at_start filter j); cbn [orb]; by rewrite verdict_now by lia.
Qed.

Lemma matchTopicFilter_walk name filter : matchTopicFilter name filter = walk false true name filter.
Proof.
  pose proof (loop_walk (length filter) name filter 0 0 name filter false eq_refl eq_refl) as H.
  unfold matchTopicFilter. unfold verdict in H. apply H; lia || done.
Qed.

(** ** The walk is the levels *)

Lemma levels_cons s : levels s <> [].
Proof. destruct s as [|c s]; cbn; [done|]. case_bool_decide; [done|]. by destruct (levels s). Qed.

Definition flat (l : bytes) : Prop := Forall (fun c => c <> SLASH) l.

(** A string is its first level and what is behind it. *)
Lemma level_split s : exists l r, s = l ++ r /\ flat l /\
  ((r = [] /\ levels s = [l]) \/ exists r', r = SLASH :: r' /\ levels s = l :: levels r').
Proof.
  induction s as [|c s IH]; [exists [], []; split_and!; [done|constructor|by left]|]. cbn [levels].
  case_bool_decide as Hc.
  - subst. exists [], (SLASH :: s). split_and!; [done|constructor|right; by exists s].
  - destruct IH as (l & r & -> & Hl & Hr). exists (c :: l), r. split_and!; [done|by constructor|].
    destruct Hr as [(-> & E)|(r' & -> & E)]; rewrite E; [by left|right; by exists r'].
Qed.

(** A level without wildcards is compared byte by byte. *)
Lemma walk_plain n : forall f eq start ra rb,
  plain f -> flat f -> flat n -> match ra with [] => True | c :: _ => c = SLASH end ->
  match rb with [] => True | c :: _ => c = SLASH end ->
  walk eq start (n ++ ra) (f ++ rb) =
  bool_decide (f = n) && walk (if bool_decide (n = []) then eq else true) (start && bool_decide (n = [])) ra rb.
Proof.
  induction n as [|x n IH]; intros f eq start ra rb Hp Hf Hn Ha Hb.
  - destruct f as [|y f]; cbn [app]; [by rewrite !bool_decide_eq_true_2, andb_true_r|].
    apply list.Forall_cons in Hp as [[H1 H2] _]. apply list.Forall_cons in Hf as [H3 _].
    rewrite (bool_decide_eq_false_2 (y :: f = [])) by done. cbn [andb].
    destruct ra as [|z ra]; cbn [walk].
    + rewrite !bool_decide_eq_false_2 by congruence. by rewrite !andb_false_r.
    + subst z. by rewrite (bool_decide_eq_false_2 (SLASH = y)), (bool_decide_eq_false_2 (y = PLUS)), (bool_decide_eq_false_2 (y = HASH)) by congruence.
  - apply list.Forall_cons in Hn as [Hx Hn]. rewrite (bool_decide_eq_false_2 (x :: n = [])) by done. rewrite andb_false_r.
    destruct f as [|y f]; cbn [app walk].
    + rewrite (bool_decide_eq_false_2 ([] = _)) by done. destruct rb as [|z rb]; [done|]. subst z. cbn [andb].
      cbn [walk]. by rewrite (bool_decide_eq_false_2 (x = SLASH)) by done.
    + apply list.Forall_cons in Hp as [[H1 H2] Hp]. apply list.Forall_cons in Hf as [H3 Hf].
      rewrite (bool_decide_eq_false_2 (y = SLASH)), (bool_decide_eq_false_2 (y = PLUS)), (bool_decide_eq_false_2 (y = HASH)) by done.
      cbn [andb]. destruct (decide (x = y)) as [<-|Hxy].
      * rewrite (bool_decide_eq_true_2 (x = x)), IH by done. rewrite (bool_decide_ext (x :: f = x :: n) (f = n)) by (split; congruence).
        f_equal. by case_bool_decide.
      * by rewrite !bool_decide_eq_false_2 by congruence.
Qed.

Lemma behind_flat n ra : flat n -> match ra with [] => True | c :: _ => c = SLASH end -> behind_level (n ++ ra) = ra.
Proof.
  intros Hn Ha. induction Hn as [|c n Hc _ IH]; cbn [app behind_level].
  - destruct ra as [|c ra]; [done|]. subst c. done.
  - by rewrite bool_decide_eq_false_2.
Qed.

(** A ['+'] takes the level [n]. *)
Lemma walk_plus n eq ra rb :
  plain n -> flat n -> match ra with [] => True | c :: _ => c = SLASH end -> n ++ ra <> [] ->
  walk eq true (n ++ ra) (PLUS :: rb) =
  match ra, rb with
  | [], _ => bool_decide (rb = [])
  | _ :: r, z :: rb => bool_decide (z = SLASH) && walk false true r rb
  | _, [] => false
  end.
Proof.
  intros Hp Hn Ha Hne. pose proof (behind_flat n ra Hn Ha) as Hb.
  assert (exists x l, n ++ ra = x :: l /\ x <> PLUS) as (x & l & E & Hx).
  { destruct n as [|x n]; [|exists x, (n ++ ra); split; [done|by apply list.Forall_cons in Hp as [[? _] _]]].
    destruct ra as [|x ra]; [done|]. exists x, ra. by subst x. }
  rewrite E in Hb |- *. cbn [walk]. rewrite bool_decide_eq_false_2, (bool_decide_eq_true_2 (PLUS = PLUS)) by done. cbn [andb].
  rewrite Hb. destruct ra; [done|]. destruct rb as [|w rb]; [done|]. by case_bool_decide.
Qed.

Lemma hash_levels b : b = [HASH] <-> levels b = [[HASH]].
Proof.
  split; [by intros ->|]. intros E. destruct (level_split b) as (l & r & -> & _ & [(-> & El)|(r' & -> & El)]); rewrite El in E; simplify_eq; [done|].
  by destruct (levels_cons r').
Qed.

Lemma missed_nil p ns : missed p ns [] = false.
Proof. by destruct ns as [|? [|]]. Qed.
Lemma missed_more p n ns f fs : ns <> [] -> missed p (n :: ns) (f :: fs) = missed (bool_decide (f = [PLUS])) ns fs.
Proof. by destruct ns. Qed.
Lemma level_match_nil fs : level_match [] fs = match fs with [] => true | f :: _ => bool_decide (f = [HASH]) end.
Proof. destruct fs; cbn; [done|]. by rewrite orb_false_r. Qed.

Lemma levels_match_nil r : bool_decide (levels r = []) = false.
Proof. apply bool_decide_eq_false_2, levels_cons. Qed.

Lemma plain_not_wild f : plain f -> f <> [PLUS] /\ f <> [HASH].
Proof. intros H. split; intros ->; by apply list.Forall_cons in H as [[? ?] _]. Qed.

(** The name ends in front of the levels [g :: fs]. *)
Lemma missed_end p n f g fs :
  valid_levels (g :: fs) ->
  missed p [n] (f :: g :: fs) = bool_decide (g :: fs = [[HASH]]) && (bool_decide (f = [PLUS]) || p && bool_decide (n = [])).
Proof.
  intros Hv. destruct fs as [|h fs]; cbn.
  - by rewrite (bool_decide_ext ([g] = [[HASH]]) (g = [HASH])) by (split; congruence).
  - by rewrite bool_decide_eq_false_2 by congruence.
Qed.

Lemma end_match g fs : valid_levels (g :: fs) -> level_match [] (g :: fs) = bool_decide (g :: fs = [[HASH]]).
Proof.
  intros Hv. rewrite level_match_nil. apply bool_decide_ext. split; [|by intros [= -> _]]. intros ->.
  inversion Hv as [|? ? ? [Hp| ] _]; subst; [done| |done]. by apply plain_not_wild in Hp as [_ []].
Qed.

Definition agrees (eq : bool) (a b : bytes) : Prop :=
  walk eq true a b = level_match (levels a) (levels b) && negb (missed (negb eq) (levels a) (levels b)).

(** The last level of the filter. *)
Lemma agrees_last eq a f : plain a -> flat f -> levels f = [f] -> plain f \/ f = [PLUS] \/ f = [HASH] -> agrees eq a f.
Proof.
  intros Hp Hf Ef Hv. unfold agrees. rewrite Ef. destruct (level_split a) as (n & ra & -> & Hn & Hr).
  apply Forall_app in Hp as [Hpn Hpr].
  assert (match ra with [] => True | c :: _ => c = SLASH end) as Ha by (by destruct Hr as [(-> & _)|(r & -> & _)]).
  destruct Hv as [Hv|[->| ->]].
  - destruct (plain_not_wild _ Hv). rewrite <- (app_nil_r f) at 1. rewrite walk_plain by done.
    destruct Hr as [(-> & ->)|(r & -> & ->)]; cbn [level_match].
    + cbn [missed]. rewrite walk_nil, !(bool_decide_eq_false_2 (f = [_])), (bool_decide_eq_true_2 ([] = [])) by done. cbn [orb].
      rewrite !andb_false_r. by destruct (bool_decide (f = n)).
    + rewrite missed_more by apply levels_cons. rewrite missed_nil, !(bool_decide_eq_false_2 (f = [_])) by done. cbn [orb walk].
      by rewrite levels_match_nil, !andb_false_r.
  - destruct (decide (n ++ ra = [])) as [E|Hne].
    + rewrite E. cbn. by destruct eq.
    + rewrite walk_plus by done. destruct Hr as [(-> & ->)|(r & -> & ->)]; cbn [level_match].
      * cbn [missed]. rewrite app_nil_r in Hne. rewrite (bool_decide_eq_false_2 (n = [])) by done. by rewrite andb_false_r.
      * by rewrite missed_more, missed_nil, levels_match_nil by apply levels_cons.
  - destruct (decide (n ++ ra = [])) as [E|Hne].
    + rewrite E. cbn. by destruct eq.
    + assert (walk eq true (n ++ ra) [HASH] = true) as ->.
      { destruct (n ++ ra) as [|x l] eqn:E; [done|]. cbn [walk]. rewrite bool_decide_eq_false_2; [done|]. intros ->.
        assert (plain (HASH :: l)) as Hx by (rewrite <- E; by apply Forall_app). by apply list.Forall_cons in Hx as [[_ []] _]. }
      destruct Hr as [(-> & ->)|(r & -> & ->)]; cbn [level_match].
      * cbn [missed]. rewrite app_nil_r in Hne. rewrite (bool_decide_eq_false_2 (n = [])) by done. by rewrite andb_false_r.
      * by rewrite missed_more, missed_nil by apply levels_cons.
Qed.

(** A level of the filter with more behind it. *)
Lemma agrees_more eq a f b g fs :
  plain a -> flat f -> plain f \/ f = [PLUS] -> levels (f ++ SLASH :: b) = f :: g :: fs -> levels b = g :: fs ->
  valid_levels (g :: fs) -> (forall eq' a', plain a' -> agrees eq' a' b) -> agrees eq a (f ++ SLASH :: b).
Proof.
  intros Hp Hf Hv Ef Eb Hvl IH. unfold agrees. rewrite Ef. destruct (level_split a) as (n & ra & -> & Hn & Hr).
  apply Forall_app in Hp as [Hpn Hpr].
  assert (match ra with [] => True | c :: _ => c = SLASH end) as Ha by (by destruct Hr as [(-> & _)|(r & -> & _)]).
  assert (f <> [HASH]) as Hh by (destruct Hv as [Hv| ->]; [by apply plain_not_wild|done]).
  assert (bool_decide (b = [HASH]) = bool_decide (g :: fs = [[HASH]])) as Ebh.
  { apply bool_decide_ext. by rewrite <- Eb, hash_levels. }
  cbn [level_match]. rewrite (bool_decide_eq_false_2 (f = [HASH])) by done. cbn [orb].
  destruct Hr as [(-> & ->)|(r & -> & ->)].
  - fold (level_match [] (g :: fs)). rewrite missed_end, end_match, <- Ebh by done. destruct Hv as [Hv| ->].
    + destruct (plain_not_wild _ Hv) as [Hq _]. rewrite walk_plain by done. rewrite walk_nil.
      rewrite (bool_decide_eq_false_2 (f = [PLUS])) by done. cbn [orb].
      rewrite (bool_decide_eq_false_2 (SLASH :: b = [])), (bool_decide_eq_false_2 (SLASH :: b = [PLUS])),
        (bool_decide_eq_false_2 (SLASH :: b = [HASH])) by done.
      rewrite (bool_decide_ext (SLASH :: b = [SLASH; HASH]) (b = [HASH])) by (split; congruence).
      cbn [orb]. rewrite andb_false_r, orb_false_r.
      destruct (bool_decide (f = n)), (bool_decide (b = [HASH])), (bool_decide (n = [])), eq; done.
    + assert (walk eq true (n ++ []) ([PLUS] ++ SLASH :: b) = false) as ->.
      { destruct (decide (n ++ [] = [])) as [->|Hne]; [by destruct eq|]. cbn [app]. by rewrite walk_plus by done. }
      rewrite (bool_decide_eq_true_2 ([PLUS] = [PLUS])) by done. cbn [orb andb]. by destruct (bool_decide (b = [HASH])).
  - fold (level_match (levels r) (g :: fs)). rewrite missed_more by apply levels_cons. apply list.Forall_cons in Hpr as [_ Hpr].
    destruct Hv as [Hv| ->].
    + destruct (plain_not_wild _ Hv) as [Hq _]. rewrite walk_plain by done. cbn [walk].
      rewrite (bool_decide_eq_true_2 (SLASH = SLASH)), (bool_decide_eq_false_2 (f = [PLUS])) by done. cbn [orb].
      rewrite (IH true r Hpr), Eb. by rewrite andb_assoc.
    + cbn [app]. rewrite walk_plus by (done || by destruct n). rewrite !bool_decide_eq_true_2 by done. cbn [orb andb].
      by rewrite (IH false r Hpr), Eb.
Qed.

Lemma walk_levels b : forall fs, levels b = fs -> valid_levels fs -> forall eq a, plain a -> agrees eq a b.
Proof.
  intros fs E Hv. revert b E. induction Hv as [f Hf|f g fs Hf Hv IH]; intros b E eq a Hp.
  - destruct (level_split b) as (l & r & -> & Hl & [(-> & El)|(r' & -> & El)]).
    + rewrite app_nil_r in *. rewrite El in E. injection E as <-. by apply agrees_last.
    + rewrite El in E. injection E as _ E. by destruct (levels_cons r').
  - destruct (level_split b) as (l & r & -> & Hl & [(-> & El)|(r' & -> & El)]); rewrite El in E; injection E as <- E.
    + done.
    + rewrite E in El. eapply agrees_more; eauto.
Qed.

Lemma walk_refl a : forall eq start, walk eq start a a = true.
Proof.
  induction a as [|c a IH]; intros eq start; cbn [walk]; [by rewrite bool_decide_eq_true_2|]. rewrite bool_decide_eq_true_2 by done. apply IH.
Qed.

Lemma nonempty_levels s : s <> [] -> levels s <> [[]].
Proof. intros H E. destruct s as [|c s]; [done|]. cbn in E. case_bool_decide; [injection E; apply levels_cons|by destruct (levels s)]. Qed.

Lemma missed_start ns fs : ns <> [[]] -> missed true ns fs = missed false ns fs.
Proof.
  intros H. destruct ns as [|n [|? ?]], fs as [|f [|g [|? ?]]]; try done; cbn; by rewrite (bool_decide_eq_false_2 (n = [])) by congruence.
Qed.

Lemma cstr_whole s : length (cstr s) = length s -> cstr s = s.
Proof.
  induction s as [|c s IH]; [done|]. change (cstr (c :: s)) with (if bool_decide (c = 0%Z) then [] else c :: cstr s).
  case_bool_decide; cbn [length]; [done|]. intros [= E]. by rewrite IH.
Qed.

Lemma strncmp_same a b :
  length a = length b -> Forall (fun c => c <> NUL) a -> strncmp_eq (length a) a b = true -> a = b.
Proof.
  intros Hl Hz H. rewrite strncmp_eq_iff in H by (rewrite ?Hl; apply cstr_length || (rewrite <- Hl; apply cstr_length)).
  rewrite (cstr_id a Hz) in H. rewrite H in Hl |- *. by apply cstr_whole.
Qed.

(** C25: [MQTT_MatchTopic] decides whether a topic name matches a topic filter as
    section 4.7 of the MQTT specification says, for every name and every valid
    filter, except where the name ends right behind something a ['+'] took and
    the rest of the filter should match nothing or an empty level: there it
    answers no although the specification says yes ([missed]). *)
Theorem topic_matching_exact name filter :
  topic_name name -> topic_filter filter ->
  MQTT_MatchTopic (Some name) (Some filter) =
    (MQTTSuccess, Some (topic_matches name filter && negb (missed false (levels name) (levels filter)))).
Proof.
  intros (Hne & Hp & Hz) [Hfe Hv]. unfold MQTT_MatchTopic, topic_matches.
  rewrite (bool_decide_eq_false_2 (name = [])), (bool_decide_eq_false_2 (filter = [])) by done. cbn [orb]. do 2 f_equal.
  rewrite <- missed_start, <- andb_assoc by by apply nonempty_levels.
  pose proof (walk_levels filter _ eq_refl Hv false name Hp) as Hw. unfold agrees in Hw. cbn [negb] in Hw. rewrite <- Hw, matchTopicFilter_walk.
  assert (forall s c, char_at s 0 c = bool_decide (head s = Some c)) as Hhead by (by intros [|? ?]).
  rewrite !Hhead. fold (starts_wild filter).
  destruct (bool_decide (length name = length filter) && _) eqn:Es; [|done]. apply andb_prop in Es as [El Es].
  apply bool_decide_eq_true in El. apply strncmp_same in Es as <-; [|done..]. rewrite walk_refl, andb_true_r.
  assert (starts_wild name = false) as ->; [|by rewrite andb_false_r].
  destruct name as [|c name]; [done|]. apply list.Forall_cons in Hp as [[H1 H2] _]. unfold starts_wild. cbn.
  by rewrite !bool_decide_eq_false_2 by congruence.
Qed.

Lemma topic_matching_exact_witness :
  MQTT_MatchTopic (Some (str "home/kitchen/lamp")) (Some (str "home/+/#")) = (MQTTSuccess, Some true) /\
  MQTT_MatchTopic (Some (str "home/kitchen")) (Some (str "home/+/#")) = (MQTTSuccess, Some false) /\
  topic_matches (str "home/kitchen") (str "home/+/#") = true.
Proof.
  assert (topic_filter (str "home/+/#")) as Hf.
  { split; [discriminate|]. cbn. apply vl_more; [left; by repeat constructor|]. apply vl_more; [by right|]. apply vl_last. by right; right. }
  assert (forall s, s <> [] -> forallb (fun c => negb (c =? PLUS)%Z && negb (c =? HASH)%Z && negb (c =? NUL)%Z) s = true -> topic_name s) as Hn.
  { intros s Hs H. rewrite forallb_forall in H. split; [done|].
    split; apply list.Forall_forall; intros c Hc; apply list_elem_of_In, H in Hc; rewrite !andb_true_iff, !negb_true_iff, !Z.eqb_neq in Hc; tauto. }
  split_and!; [| |reflexivity].
  - rewrite (topic_matching_exact (str "home/kitchen/lamp") (str "home/+/#")); [reflexivity|apply Hn; [discriminate|reflexivity]|exact Hf].
  - rewrite (topic_matching_exact (str "home/kitchen") (str "home/+/#")); [reflexivity|apply Hn; [discriminate|reflexivity]|exact Hf].
Defined.
