(* ===== verification/MqttCoreProps.v ===== *)
(** * MqttCoreProps: what the MQTT client promises

    A weakest precondition for the client's functions, and triples for each of
    them: sending, receiving into the buffer, acknowledging, handling a packet.
    The receive path stays inside its memory and cuts the stream into
    packets. *)

From S2P Require Import Prelude MqttTypes MqttState MqttSerializer MqttCore MqttStateProps MqttWire.
From Stdlib Require Import ZArith Lia.
From stdpp Require Import base list sets numbers strings.

Local Open Scope cything_scope.

(** ** Weakest preconditions

    [wp m Q s]: [m] does not touch memory it does not own, and if it returns
    then in a state of [Q]. *)

Definition wp {S A} (m : PT S A) (Q : A -> S -> Prop) (s : S) : Prop :=
  match m s with
  | Done (a, s') => Q a s'
  | NoFuel => True
  | Fault => False
  end.

Section wp.
Context {S : Type}.

Lemma wp_pret {A} (a : A) (Q : A -> S -> Prop) s : Q a s -> wp (pret a) Q s.
Proof. done. Qed.

Lemma wp_bind {A B} (m : PT S A) (k : A -> PT S B) Q s :
  wp m (fun a s' => wp (k a) Q s') s -> wp (pbind m k) Q s.
Proof. unfold wp, pbind. by destruct (m s) as [[a s']| |]. Qed.

Lemma wp_mono {A} (m : PT S A) (Q Q' : A -> S -> Prop) s :
  wp m Q s -> (forall a s', Q a s' -> Q' a s') -> wp m Q' s.
Proof. unfold wp. destruct (m s) as [[a s']| |]; auto. Qed.

Lemma wp_run {A} (m : S -> A * S) (Q : A -> S -> Prop) s : Q (m s).1 (m s).2 -> wp (run m) Q s.
Proof. unfold wp, run. by destruct (m s). Qed.

Lemma wp_access {A} (o : option A) (Q : A -> S -> Prop) s a : o = Some a -> Q a s -> wp (access o) Q s.
Proof. intros -> H. done. Qed.

Lemma wp_no_fuel {A} (Q : A -> S -> Prop) s : wp no_fuel Q s.
Proof. done. Qed.

Lemma wp_if {A} (b : bool) (m1 m2 : PT S A) Q s :
  (b = true -> wp m1 Q s) -> (b = false -> wp m2 Q s) -> wp (if b then m1 else m2) Q s.
Proof. destruct b; auto. Qed.

Lemma wp_done {A} (m : PT S A) Q s a s' : wp m Q s -> m s = Done (a, s') -> Q a s'.
Proof. unfold wp. intros H E. by rewrite E in H. Qed.
End wp.

(** Split on the test the program is at. *)
Ltac wp_test H := lazymatch goal with |- _ (if ?b then _ else _) _ _ => destruct b eqn:H end.

#[global] Opaque pbind pret run access no_fuel.

Section Net.
Context {S : Type} {N : MqttNet S} {L : MqttNetLaws S}.

Lemma wp_getctx (Q : MQTTContext_t -> S -> Prop) s : Q (ctx s) s -> wp getctx Q s.
Proof. done. Qed.

Lemma wp_modctx f (Q : unit -> S -> Prop) s : Q tt (set_ctx (f (ctx s)) s) -> wp (modctx f) Q s.
Proof. done. Qed.

Lemma wp_onctx {A} (f : MQTTContext_t -> A * MQTTContext_t) (Q : A -> S -> Prop) s :
  Q (f (ctx s)).1 (set_ctx (f (ctx s)).2 s) -> wp (onctx f) Q s.
Proof. unfold wp, onctx. by destruct (f (ctx s)). Qed.

(** What an operation leaves alone. *)
Lemma wp_clock (Q : Z -> S -> Prop) s :
  (forall t s', (0 <= t < 2 ^ 32)%Z -> ctx s' = ctx s -> wire s' = wire s -> Q t s') -> wp (run getTime) Q s.
Proof. intros H. apply wp_run. apply H; [apply clock_u32|apply clock_ctx|apply clock_wire]. Qed.

Lemma wp_tsend b (Q : Z -> S -> Prop) s :
  (forall r s', (r <= Z.of_nat (length b))%Z -> ctx s' = ctx s ->
     wire s' = (sent s ++ take (Z.to_nat r) b, arrived s) -> Q r s') ->
  wp (run (tsend b)) Q s.
Proof.
  intros H. apply wp_run. pose proof (tsend_ctx b s) as H1. pose proof (tsend_wire b s) as H2.
  destruct (tsend b s) as [r s']. destruct H2. by apply H.
Qed.

Lemma wp_trecv n (Q : Z * bytes -> S -> Prop) s :
  (forall r data s', (r <= Z.of_nat n)%Z -> length data = Z.to_nat r -> Forall is_byte data ->
     ctx s' = ctx s -> wire s' = (sent s, arrived s ++ data) -> Q (r, data) s') ->
  wp (run (trecv n)) Q s.
Proof.
  intros H. apply wp_run. pose proof (trecv_ctx n s) as H1. pose proof (trecv_wire n s) as H2.
  destruct (trecv n s) as [[r data] s']. destruct H2 as (? & ? & ? & ?). by apply H.
Qed.

(** ** Sending *)

(** Only the time of the last transmission changes. *)
Definition tx_only (c c' : MQTTContext_t) : Prop := c' = set_lastPacketTxTime (lastPacketTxTime c') c.

#[export] Instance tx_only_preorder : PreOrder tx_only.
Proof.
  split; [intros c; unfold tx_only; by destruct c|].
  intros c1 c2 c3 H1 H2. unfold tx_only in *. rewrite H2, H1 at 1. by destruct c1, c2, c3.
Qed.

Lemma tx_only_set t c : tx_only c (set_lastPacketTxTime t c).
Proof. done. Qed.

(** A piece of [msg] went out, [k] bytes before it; the result counts them or
    is an error. *)
Definition sent_some (msg : bytes) (k : Z) (s : S) (r : Z) (s' : S) : Prop :=
  tx_only (ctx s) (ctx s') /\
  exists j, j <= length msg /\ wire s' = (sent s ++ take j msg, arrived s) /\ (r = k + Z.of_nat j \/ r < 0)%Z.

Lemma account_wp r k (Q : Z -> S -> Prop) s :
  (forall s', tx_only (ctx s) (ctx s') -> wire s' = wire s ->
     Q (if bool_decide (r > 0)%Z then k + r else if bool_decide (r < 0)%Z then r else k)%Z s') ->
  wp (account r k) Q s.
Proof.
  intros H. unfold account. destruct (bool_decide (r > 0)%Z).
  - apply wp_bind, wp_clock. intros t s1 _ E1 E2. apply wp_bind, wp_modctx, wp_pret. apply H.
    + rewrite ctx_set, E1. apply tx_only_set.
    + by rewrite wire_set.
  - destruct (bool_decide (r < 0)%Z); apply wp_pret; by apply H.
Qed.

Lemma advance_vec_join vec : forall n, (0 <= n)%Z -> mjoin (advance_vec vec n) = drop (Z.to_nat n) (mjoin vec).
Proof.
  induction vec as [|v vs IH]; intros n Hn; [by cbn; rewrite drop_nil|]. cbn [advance_vec].
  change (mjoin (v :: vs)) with (v ++ mjoin vs). case_bool_decide as H1.
  - rewrite IH by lia. rewrite drop_app_ge by lia. f_equal. lia.
  - case_bool_decide as H2.
    + change (mjoin (drop (Z.to_nat n) v :: vs)) with (drop (Z.to_nat n) v ++ mjoin vs). by rewrite drop_app_le by lia.
    + by replace n with 0%Z by lia.
Qed.

Lemma take_more (msg : bytes) a b : a <= length msg -> take a msg ++ take b (drop a msg) = take (a + b) msg.
Proof. intros _. by rewrite take_take_drop. Qed.

(** One transmission of the front of [msg], however it is cut. *)
Lemma transmission_wp (vec : list bytes) (Q : Z -> S -> Prop) s :
  (forall r s', (r <= Z.of_nat (length (mjoin vec)))%Z -> ctx s' = ctx s ->
     wire s' = (sent s ++ take (Z.to_nat r) (mjoin vec), arrived s) -> Q r s') ->
  wp (run (match twritev with Some w => w vec | None => tsend (default [] (head vec)) end)) Q s.
Proof.
  intros H. destruct twritev as [w|] eqn:Ew.
  - apply wp_run. pose proof (twritev_ctx w vec s Ew) as H1. pose proof (twritev_wire w vec s Ew) as H2.
    destruct (w vec s) as [r s']. destruct H2. by apply H.
  - apply wp_tsend. intros r s' Hr Hc Hs. destruct vec as [|v vs]; [change (default [] (head [])) with (@nil Z) in *|change (default [] (head (v :: vs))) with v in *].
    + apply H; [cbn in *; lia|done|]. rewrite Hs. change (mjoin []) with (@nil Z). by rewrite !take_nil.
    + change (mjoin (v :: vs)) with (v ++ mjoin vs) in *. apply H; [rewrite length_app; lia|done|].
      rewrite Hs. by rewrite take_app_le by lia.
Qed.

Lemma sent_none msg k s : (0 <= k)%Z -> sent_some msg k s k s.
Proof. intros Hk. split; [done|]. exists 0. unfold sent, arrived. rewrite take_0, app_nil_r.
  split_and!; [lia|by destruct (wire s)|left; lia]. Qed.

Lemma keeps_sending_error r total : (r < 0)%Z -> keeps_sending r total = false.
Proof. intros H. unfold keeps_sending. by rewrite (bool_decide_eq_false_2 (r >= 0)%Z), andb_false_r by lia. Qed.

(** One turn of a sending loop: [m] transmits the front of [msg], [next]
    continues with what is left. *)
Lemma turn_wp m msg k timeout (next : Z -> Z -> PT S Z) s :
  (0 <= k)%Z ->
  (forall Q : Z -> S -> Prop,
     (forall r s', (r <= Z.of_nat (length msg))%Z -> ctx s' = ctx s ->
        wire s' = (sent s ++ take (Z.to_nat r) msg, arrived s) -> Q r s') ->
     wp m Q s) ->
  (forall r s', (r < 0)%Z -> wp (next r r) (fun r' s'' => r' = r /\ s'' = s') s') ->
  (forall r s', (0 <= r <= Z.of_nat (length msg))%Z -> wp (next r (k + r)%Z) (sent_some (drop (Z.to_nat r) msg) (k + r) s') s') ->
  wp (let! r := m in let! k' := account r k in let! now := run getTime in
      if bool_decide (now >= timeout)%Z then pret k' else next r k') (sent_some msg k s) s.
Proof.
  intros Hk Hm Herr Hnext. apply wp_bind, Hm. intros r s1 Hr Hc1 Hs1.
  apply wp_bind, account_wp. intros s2 Hc2 Hs2. apply wp_bind, wp_clock. intros now s3 _ Hc3 Hs3.
  assert (tx_only (ctx s) (ctx s3)) as Htx by (rewrite <- Hc1, Hc3; done).
  assert (wire s3 = (sent s ++ take (Z.to_nat r) msg, arrived s)) as Es3 by congruence.
  set (k' := if bool_decide (r > 0)%Z then _ else _).
  assert (sent_some msg k s k' s3) as Hnow.
  { split; [done|]. exists (Z.to_nat r). split; [lia|]. split; [done|]. unfold k'. repeat case_bool_decide; [left|right|left]; lia. }
  case_bool_decide; [by apply wp_pret|]. destruct (decide (r < 0)%Z) as [Hneg|Hneg].
  - assert (k' = r) as Ek by (unfold k'; repeat case_bool_decide; lia). rewrite Ek in *.
    eapply wp_mono; [by apply Herr|]. by intros ? ? [-> ->].
  - assert (k' = k + r)%Z as Ek by (unfold k'; repeat case_bool_decide; lia). rewrite Ek in *.
    eapply wp_mono; [apply Hnext; lia|]. intros r' s4 (Htx' & j & Hj & Hs & Hr').
    split; [by transitivity (ctx s3)|]. rewrite length_drop in Hj. exists (Z.to_nat r + j). split; [lia|]. split.
    + rewrite Hs. unfold sent at 1, arrived at 1. rewrite Es3. cbn [fst snd]. by rewrite <- app_assoc, take_more by lia.
    + destruct Hr'; [left|right]; lia.
Qed.

Lemma sendMessageVector_loop_wp timeout n : forall vec k s,
  (0 <= k)%Z -> wp (sendMessageVector_loop n vec (k + vec_length vec) k timeout) (sent_some (mjoin vec) k s) s.
Proof.
  induction n as [|n IH]; intros vec k s Hk; cbn [sendMessageVector_loop];
    (destruct (keeps_sending k _); [|by apply wp_pret, sent_none]); [apply wp_no_fuel|].
  apply turn_wp; [done|intros; by apply transmission_wp| |].
  - intros r s' Hr. destruct n; cbn [sendMessageVector_loop]; rewrite keeps_sending_error by done; by apply wp_pret.
  - intros r s' Hr. specialize (IH (advance_vec vec r) (k + r)%Z s' ltac:(lia)). unfold vec_length in IH at 1.
    rewrite advance_vec_join, length_drop in IH by lia.
    by replace (k + r + Z.of_nat (length (mjoin vec) - Z.to_nat r))%Z with (k + vec_length vec)%Z in IH by (unfold vec_length; lia).
Qed.

Lemma sendMessageVector_wp fuel vec s : wp (sendMessageVector fuel vec) (sent_some (mjoin vec) 0 s) s.
Proof.
  unfold sendMessageVector. apply wp_bind, wp_clock. intros t s1 _ Hc Hs.
  eapply wp_mono; [apply (sendMessageVector_loop_wp _ fuel vec 0 s1); lia|].
  intros r s2 (H1 & j & H2 & H3 & H4). split; [by rewrite <- Hc|]. exists j. unfold sent, arrived. by rewrite <- Hs.
Qed.

Lemma send_all_wp fuel vec (Q : MQTTStatus_t -> S -> Prop) s :
  (forall st s', tx_only (ctx s) (ctx s') -> (st = MQTTSuccess \/ st = MQTTSendFailed) ->
     (exists j, j <= length (mjoin vec) /\ wire s' = (sent s ++ take j (mjoin vec), arrived s)) ->
     (st = MQTTSuccess -> wire s' = (sent s ++ mjoin vec, arrived s)) -> Q st s') ->
  wp (send_all fuel vec) Q s.
Proof.
  intros H. unfold send_all. apply wp_bind. eapply wp_mono; [apply sendMessageVector_wp|].
  intros r s' (Htx & j & Hj & Hs & Hr). apply wp_pret. apply H; [done|by case_bool_decide; [left|right]|eauto|].
  case_bool_decide as E; [|done]. intros _. rewrite Hs, take_ge; [done|]. unfold vec_length in E. lia.
Qed.

Lemma sendBuffer_loop_wp timeout n : forall buf k s,
  (0 <= k)%Z -> wp (sendBuffer_loop n buf (k + Z.of_nat (length buf)) k timeout) (sent_some buf k s) s.
Proof.
  induction n as [|n IH]; intros buf k s Hk; cbn [sendBuffer_loop];
    (destruct (keeps_sending k _); [|by apply wp_pret, sent_none]); [apply wp_no_fuel|].
  apply turn_wp; [done|intros; by apply wp_tsend| |].
  - intros r s' Hr. destruct n; cbn [sendBuffer_loop]; rewrite keeps_sending_error by done; by apply wp_pret.
  - intros r s' Hr. specialize (IH (drop (Z.to_nat r) buf) (k + r)%Z s' ltac:(lia)). rewrite length_drop in IH.
    by replace (k + r + Z.of_nat (length buf - Z.to_nat r))%Z with (k + Z.of_nat (length buf))%Z in IH by lia.
Qed.

Lemma sendBuffer_wp fuel buf s : wp (sendBuffer fuel buf) (sent_some buf 0 s) s.
Proof.
  unfold sendBuffer. apply wp_bind, wp_clock. intros t s1 _ Hc Hs.
  eapply wp_mono; [apply (sendBuffer_loop_wp _ fuel buf 0 s1); lia|].
  intros r s2 (H1 & j & H2 & H3 & H4). split; [by rewrite <- Hc|]. exists j. unfold sent, arrived. by rewrite <- Hs.
Qed.

(** ** The context's invariant *)

Record client_ok (c : MQTTContext_t) : Prop := {
  cl_index : index c <= buffer_size c;
  cl_bytes : Forall is_byte (networkBuffer c);
  cl_flight : flight_ok c;
}.

(** The bytes received and not yet handled. *)
Definition content (c : MQTTContext_t) : bytes := take (index c) (networkBuffer c).

(** Sending and the state machine: the receive buffer is left alone, the
    records stay well formed, arrays keep their sizes. *)
Record quiet (c c' : MQTTContext_t) : Prop := {
  qt_index : index c' = index c;
  qt_buffer : networkBuffer c' = networkBuffer c;
  qt_flight : flight_ok c -> flight_ok c';
  qt_out : length (outgoingPublishRecords c') = length (outgoingPublishRecords c);
  qt_in : length (incomingPublishRecords c') = length (incomingPublishRecords c);
  qt_rx : lastPacketRxTime c' = lastPacketRxTime c;
}.

#[export] Instance quiet_preorder : PreOrder quiet.
Proof.
  split; [by split|]. intros c1 c2 c3 [] []. split; [congruence..| |congruence|congruence|congruence]. auto.
Qed.

Lemma quiet_content c c' : quiet c c' -> content c' = content c.
Proof. intros [E1 E2 _ _ _ _]. unfold content. by rewrite E1, E2. Qed.

Lemma quiet_ok c c' : quiet c c' -> client_ok c -> client_ok c'.
Proof.
  intros [E1 E2 Hf _ _ _] [H1 H2 H3]. split; [|by rewrite E2|by apply Hf].
  unfold buffer_size. by rewrite E1, E2.
Qed.

(** The flight invariant only looks at the two arrays. *)
Lemma flight_same c c' :
  outgoingPublishRecords c' = outgoingPublishRecords c -> incomingPublishRecords c' = incomingPublishRecords c ->
  flight_ok c -> flight_ok c'.
Proof. intros E1 E2 []. by split; rewrite ?E1, ?E2. Qed.

Lemma tx_quiet c c' : tx_only c c' -> quiet c c'.
Proof. intros ->. destruct c. split; try done. by apply flight_same. Qed.

Lemma rest_quiet c c' : (flight_ok c -> flight_ok c') -> rest_kept c c' -> quiet c c'.
Proof. intros Hf (H1 & H2 & E). split; [| |done..|]; rewrite E; by destruct c. Qed.

(** A call of the state machine. *)
Lemma run_op_quiet c o : flight_ok c -> quiet c (run_op c o).2.
Proof.
  intros Hc. pose proof (op_refined c Hc o) as H. unfold op_refines in H. destruct (run_op c o) as [st c'].
  destruct H as (H1 & H2 & _). by apply rest_quiet.
Qed.

(** Connection attributes change, nothing the invariant looks at. *)
Definition attrs_only (f : MQTTContext_t -> MQTTContext_t) : Prop := forall c, quiet c (f c).

(** ** Receiving *)

(** Only the network buffer changes, not in size. *)
Record buf_only (c c' : MQTTContext_t) : Prop := {
  bo_eq : c' = set_networkBuffer (networkBuffer c') c;
  bo_size : buffer_size c' = buffer_size c;
  bo_bytes : Forall is_byte (networkBuffer c) -> Forall is_byte (networkBuffer c');
}.

#[export] Instance buf_only_preorder : PreOrder buf_only.
Proof.
  split; [intros c; split; [by destruct c|done..]|].
  intros c1 c2 c3 [E1 ? ?] [E2 ? ?]. split; [|congruence|auto]. rewrite E2, E1 at 1. by destruct c1, c2, c3.
Qed.

Lemma buf_only_ok c c' : buf_only c c' -> client_ok c -> client_ok c'.
Proof.
  intros [E Hs Hb] [H1 H2 H3]. split; [|by apply Hb|].
  - rewrite Hs, E. by destruct c.
  - eapply flight_same, H3; rewrite E; by destruct c.
Qed.

Lemma store_wp off data (Q : unit -> S -> Prop) s :
  off + length data <= buffer_size (ctx s) -> Forall is_byte data ->
  (forall s', ctx s' = set_networkBuffer (blit off data (networkBuffer (ctx s))) (ctx s) ->
     buf_only (ctx s) (ctx s') -> wire s' = wire s -> Q tt s') ->
  wp (store off data) Q s.
Proof.
  intros Hl Hb H. unfold store. apply wp_modctx. apply H; rewrite ?ctx_set, ?wire_set; try done.
  unfold buffer_size in *. split; [done|cbn; unfold buffer_size; destruct (ctx s); cbn in *; by apply length_blit|].
  destruct (ctx s). cbn. intros Hn. unfold blit. repeat apply Forall_app_2; auto using list.Forall_take, list.Forall_drop.
Qed.

(** What the receive functions do: store into the buffer. *)
Definition received (s : S) (s' : S) : Prop :=
  buf_only (ctx s) (ctx s') /\ exists data, wire s' = (sent s, arrived s ++ data).

Lemma received_refl s : received s s.
Proof. split; [done|]. exists []. unfold sent, arrived. rewrite app_nil_r. by destruct (wire s). Qed.

Lemma received_trans s1 s2 s3 : received s1 s2 -> received s2 s3 -> received s1 s3.
Proof.
  intros [H1 (d1 & E1)] [H2 (d2 & E2)]. split; [by transitivity (ctx s2)|]. exists (d1 ++ d2).
  rewrite E2. unfold sent, arrived at 1. rewrite E1. cbn. by rewrite app_assoc.
Qed.

(** The result counts what arrived; all of it on success. *)
Lemma recvExact_loop_wp n : forall off rem total last s,
  off + rem <= buffer_size (ctx s) -> (0 <= total)%Z ->
  wp (recvExact_loop n off rem total last)
    (fun r s' => buf_only (ctx s) (ctx s') /\
       exists data, wire s' = (sent s, arrived s ++ data) /\ length data <= rem /\
         (r = total + Z.of_nat (length data) \/ r < 0)%Z) s.
Proof.
  assert (forall (off rem : nat) total s, (0 <= total)%Z ->
    buf_only (ctx s) (ctx s) /\ exists data, wire s = (sent s, arrived s ++ data) /\ length data <= rem /\
         (total = total + Z.of_nat (length data) \/ total < 0)%Z) as Hnone.
  { intros off rem total s Ht. split; [done|]. exists []. unfold sent, arrived. rewrite app_nil_r.
    split_and!; [by destruct (wire s)|cbn; lia|left; cbn; lia]. }
  induction n as [|n IH]; intros off rem total last s Hb Ht; cbn [recvExact_loop];
    (destruct (bool_decide (0 < rem)) eqn:Er; [|apply wp_pret; by apply Hnone]); [apply wp_no_fuel|].
  apply bool_decide_eq_true_1 in Er.
  apply wp_bind, wp_trecv. intros r data s1 Hr Hl Hby Hc1 Hw1. apply wp_bind, store_wp; [rewrite Hc1; lia|done|].
  intros s2 _ Hbo Hw2. rewrite Hc1 in Hbo.
  assert (wire s2 = (sent s, arrived s ++ data)) as Ew2 by congruence.
  case_bool_decide as Hneg.
  { apply wp_pret. split; [done|]. exists data. split_and!; [done|lia|by right]. }
  case_bool_decide as Hpos; apply wp_bind, wp_clock; intros t s3 _ Hc3 Hw3.
  - eapply wp_mono; [apply IH; [rewrite Hc3, (bo_size _ _ Hbo)|]; lia|].
    intros r' s4 (Hbo' & data' & Hw4 & Hl4 & Hr'). split; [transitivity (ctx s2); [done|by rewrite <- Hc3]|].
    exists (data ++ data'). rewrite Hw4. unfold sent at 1, arrived at 1. rewrite Hw3, Ew2. cbn [fst snd].
    rewrite length_app, <- app_assoc. split_and!; [done|lia|destruct Hr'; [left|right]; lia].
  - assert (length data = 0) as Hd by lia. apply nil_length_inv in Hd. subst data. rewrite app_nil_r in Ew2.
    assert (wire s3 = wire s) as Ew3 by (rewrite Hw3, Ew2; unfold sent, arrived; by destruct (wire s)).
    assert (buf_only (ctx s) (ctx s3)) as Hbo3 by (by rewrite Hc3).
    case_bool_decide.
    + apply wp_pret. destruct (Hnone off rem total s Ht) as [_ H0]. split; [done|]. by rewrite Ew3.
    + eapply wp_mono; [apply IH; [rewrite (bo_size _ _ Hbo3)|]; lia|].
      intros r' s4 (Hbo' & data' & Hw4 & Hl4 & Hr'). split; [by transitivity (ctx s3)|].
      exists data'. unfold sent, arrived in *. by rewrite Hw4, Ew3.
Qed.

Lemma recvExact_wp fuel n (Q : Z -> S -> Prop) s :
  n <= buffer_size (ctx s) ->
  (forall r s' data, buf_only (ctx s) (ctx s') -> wire s' = (sent s, arrived s ++ data) -> length data <= n ->
     (r = Z.of_nat n -> length data = n) -> Q r s') ->
  wp (recvExact fuel n) Q s.
Proof.
  intros Hn H. unfold recvExact. apply wp_bind, wp_clock. intros t s1 _ Hc Hw.
  eapply wp_mono; [apply recvExact_loop_wp; [rewrite Hc|]; lia|]. rewrite Hc.
  intros r s' (Hb & data & Hw' & Hl & Hr). apply (H r s' data); [done| |done|lia].
  unfold sent, arrived in *. by rewrite <- Hw.
Qed.

Lemma discard_loop_wp fuel late n : forall remaining total btr s,
  (forall (Q : bool -> S -> Prop) s, (forall b s', ctx s' = ctx s -> wire s' = wire s -> Q b s') -> wp late Q s) ->
  btr <= buffer_size (ctx s) -> total <= remaining ->
  wp (discard_loop fuel n remaining total btr late)
    (fun st s' => buf_only (ctx s) (ctx s') /\ (st = MQTTNoDataAvailable \/ st = MQTTRecvFailed) /\
       exists data, wire s' = (sent s, arrived s ++ data) /\
         (st = MQTTNoDataAvailable -> length data = remaining - total)) s.
Proof.
  intros remaining total btr s Hlate. revert total btr s. induction n as [|n IH]; intros total btr s Hb Ht; cbn [discard_loop].
  all: assert (wp (pret (if bool_decide (total = remaining) then MQTTNoDataAvailable else MQTTRecvFailed))
    (fun st s' => buf_only (ctx s) (ctx s') /\ (st = MQTTNoDataAvailable \/ st = MQTTRecvFailed) /\
       exists data, wire s' = (sent s, arrived s ++ data) /\
         (st = MQTTNoDataAvailable -> length data = remaining - total)) s) as Hend
    by (apply wp_pret; split; [done|]; split; [by destruct (bool_decide _); [left|right]|]; exists [];
        unfold sent, arrived; rewrite app_nil_r; split; [by destruct (wire s)|case_bool_decide; [cbn; lia|done]]).
  all: destruct (bool_decide (total < remaining)) eqn:Er; [|exact Hend]; apply bool_decide_eq_true_1 in Er.
  { apply wp_no_fuel. }
  clear Hend. set (m := if bool_decide (remaining - total < btr) then remaining - total else btr).
  assert (m <= btr /\ m <= remaining - total) as [Hm1 Hm2] by (unfold m; case_bool_decide; lia).
  apply wp_bind, recvExact_wp; [lia|]. intros r s1 data Hb1 Hw1 Hl1 Hr1.
  destruct (decide (r = Z.of_nat m)) as [Hrm|Hrm].
  2: { rewrite (bool_decide_eq_true_2 (r <> _)) by done. apply wp_pret. split; [done|]. split; [by right|]. by exists data. }
  rewrite (bool_decide_eq_false_2 (r <> _)) by tauto. specialize (Hr1 Hrm). cbv zeta.
  apply wp_bind, Hlate. intros b s2 Hc2 Hw2.
  assert (buf_only (ctx s) (ctx s2)) as Hb2 by (by rewrite Hc2).
  assert (wire s2 = (sent s, arrived s ++ data)) as Ew2 by congruence.
  destruct b.
  - apply wp_pret. split; [done|]. destruct (decide (total + m = remaining)) as [E|E];
      [rewrite bool_decide_eq_true_2 by done|rewrite bool_decide_eq_false_2 by done].
    + split; [by left|]. exists data. split; [done|]. lia.
    + split; [by right|]. by exists data.
  - eapply wp_mono; [apply IH; [rewrite (bo_size _ _ Hb2)|]; lia|].
    intros st s3 (Hb3 & Hst & data' & Hw3 & Hl3). split; [by transitivity (ctx s2)|]. split; [done|].
    exists (data ++ data'). rewrite Hw3. unfold sent at 1, arrived at 1. rewrite Ew2. cbn [fst snd].
    rewrite length_app, <- app_assoc. split; [done|]. intros H. specialize (Hl3 H). lia.
Qed.

Lemma receivePacket_wp fuel pk t s :
  wp (receivePacket fuel pk t) (fun _ s' => received s s') s.
Proof.
  unfold receivePacket. apply wp_bind, wp_getctx. case_bool_decide.
  - unfold discardPacket. apply wp_bind, wp_getctx. apply wp_bind, wp_clock. intros t0 s1 _ Hc1 Hw1.
    eapply wp_mono; [apply discard_loop_wp; [|rewrite Hc1; lia|lia]|].
    + intros Q s2 HQ. apply wp_bind, wp_clock. intros t1 s3 _ Hc3 Hw3. by apply wp_pret, HQ.
    + rewrite Hc1. intros st s2 (Hb & _ & data & Hw & _). split; [done|]. exists data. unfold sent, arrived in *. by rewrite <- Hw1.
  - apply wp_bind, recvExact_wp; [lia|]. intros r s1 data Hb Hw _ _. apply wp_pret. split; [done|by exists data].
Qed.

(** ** Acknowledging *)

(** A serialiser into the function's own buffer, by cases of its result. *)
Lemma local_packet_wp n w st mem (Q : MQTTStatus_t * bytes -> S -> Prop) s :
  w (Some (Build_fixed_buffer (Some (zeros n)) (Z.of_nat n))) = Some (st, Some (Build_fixed_buffer (Some mem) (Z.of_nat n))) ->
  Q (st, mem) s -> wp (local_packet n w) Q s.
Proof. intros E H. unfold local_packet. rewrite E. by repeat (apply wp_bind; eapply wp_access; [done|]). Qed.

Lemma serialize_ack_local ty id :
  ty ∈ [MQTT_PACKET_TYPE_PUBACK; MQTT_PACKET_TYPE_PUBREC; MQTT_PACKET_TYPE_PUBREL; MQTT_PACKET_TYPE_PUBCOMP] ->
  MQTT_SerializeAck (Some (Build_fixed_buffer (Some (zeros 4)) (Z.of_nat 4))) ty id =
    Some (if bool_decide (id = 0)%Z then (MQTTBadParameter, Some (Build_fixed_buffer (Some (zeros 4)) (Z.of_nat 4)))
          else (MQTTSuccess, Some (Build_fixed_buffer (Some (packet ty (be16 id))) (Z.of_nat 4)))).
Proof.
  intros Hty. unfold MQTT_SerializeAck, fixed_packet. cbn [pBuffer fb_size].
  rewrite (bool_decide_eq_false_2 (_ < _)%Z) by (unfold MQTT_PUBLISH_ACK_PACKET_SIZE; lia).
  destruct (bool_decide (id = 0)%Z); [done|]. rewrite bool_decide_eq_true_2 by done.
  by rewrite (write_fixed_at _ (zeros 4) _ (packet ty (be16 id))) by (apply writes_poke || done).
Qed.

Lemma ack_type_cases st :
  getAckTypeToSend st = 0%Z \/
  getAckTypeToSend st ∈ [MQTT_PACKET_TYPE_PUBACK; MQTT_PACKET_TYPE_PUBREC; MQTT_PACKET_TYPE_PUBREL; MQTT_PACKET_TYPE_PUBCOMP].
Proof. destruct st; try (by left); right; by apply (bool_decide_unpack _). Qed.

(** The acknowledgement a state calls for. *)
Definition ack_bytes (st : MQTTPublishState_t) (id : Z) : bytes :=
  if bool_decide (getAckTypeToSend st = 0)%Z then [] else packet (getAckTypeToSend st) (be16 id).

(** Output only: [sent] grows by [out]. *)
Definition emitted (s s' : S) (out : bytes) : Prop := wire s' = (sent s ++ out, arrived s).

Lemma emitted_nil s s' : wire s' = wire s -> emitted s s' [].
Proof. intros E. unfold emitted, sent, arrived. rewrite app_nil_r, E. by destruct (wire s). Qed.

Lemma emitted_trans s1 s2 s3 a b : emitted s1 s2 a -> emitted s2 s3 b -> emitted s1 s3 (a ++ b).
Proof. unfold emitted. intros E1 E2. rewrite E2. unfold sent at 1, arrived at 1. rewrite E1. cbn. by rewrite app_assoc. Qed.

Lemma emitted_arrived s s' out : emitted s s' out -> arrived s' = arrived s.
Proof. unfold emitted. intros E. unfold arrived at 1. by rewrite E. Qed.

Lemma tx_view c c' : tx_only c c' -> view c' = view c.
Proof. intros ->. by destruct c. Qed.

(** The two logs after an acknowledgement went out: as before, or one step of
    the protocol further. *)
Definition acked_view (id : Z) (st : MQTTPublishState_t) (c c' : MQTTContext_t) : Prop :=
  view c' = view c \/
  view c' = (spec_op (length (outgoingPublishRecords c)) (length (incomingPublishRecords c)) (view c)
               (OpAck id (getAckFromPacketType (getAckTypeToSend st)) MQTT_SEND)).2.

(** Acknowledging changes flight records and attributes only; on success the
    acknowledgement is what went out. *)
Lemma sendPublishAcks_wp fuel id st s :
  flight_ok (ctx s) ->
  wp (sendPublishAcks fuel id st)
    (fun r s' => quiet (ctx s) (ctx s') /\ acked_view id st (ctx s) (ctx s') /\
       exists out, emitted s s' out /\ (r = MQTTSuccess -> out = ack_bytes st id)) s.
Proof.
  intros Hf. unfold sendPublishAcks, ack_bytes. destruct (ack_type_cases st) as [E|Hty].
  { rewrite E, bool_decide_eq_true_2 by done. apply wp_pret. split; [done|]. split; [by left|].
    exists []. split; [by apply emitted_nil|done]. }
  assert (getAckTypeToSend st <> 0%Z) as Hz by (intros E; rewrite E in Hty; apply (bool_decide_pack _) in Hty; vm_compute in Hty; done).
  rewrite bool_decide_eq_false_2 by done. pose proof (serialize_ack_local _ id Hty) as Es.
  apply wp_bind. destruct (decide (id = 0)%Z) as [Hid|Hid].
  - rewrite bool_decide_eq_true_2 in Es by done. eapply local_packet_wp; [exact Es|]. cbv beta iota.
    change (mqtt_ok MQTTBadParameter) with false. cbv iota. apply wp_bind, wp_pret.
    rewrite bool_decide_eq_false_2 by done. apply wp_pret. split; [done|]. split; [by left|].
    exists []. split; [by apply emitted_nil|done].
  - rewrite bool_decide_eq_false_2 in Es by done. eapply local_packet_wp; [exact Es|]. cbv beta iota.
    change (mqtt_ok MQTTSuccess) with true. cbv iota.
    apply wp_bind. eapply wp_mono; [apply sendBuffer_wp|]. intros r s1 (Htx & j & Hj & Hw & Hr). case_bool_decide as Hr4.
    + apply wp_bind, wp_modctx. set (s2 := set_ctx _ s1).
      assert (quiet (ctx s) (ctx s2) /\ view (ctx s2) = view (ctx s)) as [Hq Hv].
      { unfold s2. rewrite ctx_set. split; [|rewrite <- (tx_view _ _ Htx); by destruct (ctx s1)].
        transitivity (ctx s1); [by apply tx_quiet|]. destruct (ctx s1). split; try done. by apply flight_same. }
      assert (wire s2 = wire s1) as Hw2 by apply wire_set. clearbody s2.
      apply wp_onctx. rewrite ctx_set. set (o := OpAck id (getAckFromPacketType (getAckTypeToSend st)) MQTT_SEND).
      change (let '(_, _, c) := MQTT_UpdateStateAck _ _ _ _ in _) with (run_op (ctx s2) o).
      pose proof (op_refined (ctx s2) (qt_flight _ _ Hq Hf) o) as Ho. unfold op_refines in Ho.
      split; [transitivity (ctx s2); [done|]; apply run_op_quiet, Hq, Hf|]. split.
      { right. fold o. destruct (run_op (ctx s2) o) as [st' c']. destruct Ho as (_ & _ & Ho). cbn [snd].
        rewrite <- (qt_out _ _ Hq), <- (qt_in _ _ Hq), <- Hv, Ho. done. }
      exists (take j (packet (getAckTypeToSend st) (be16 id))). unfold emitted. rewrite wire_set, Hw2. split; [done|].
      intros _. apply take_ge. unfold MQTT_PUBLISH_ACK_PACKET_SIZE in Hr4. change (length (packet _ (be16 id))) with 4 in *. lia.
    + apply wp_pret. split; [by apply tx_quiet|]. split; [left; by apply tx_view|]. by exists (take j (packet (getAckTypeToSend st) (be16 id))).
Qed.

(** A ping is output and attributes. *)
Lemma MQTT_Ping_wp fuel s :
  wp (MQTT_Ping fuel) (fun _ s' => quiet (ctx s) (ctx s') /\ exists out, emitted s s' out) s.
Proof.
  unfold MQTT_Ping. cbn [MQTT_GetPingreqPacketSize]. apply wp_bind.
  eapply (local_packet_wp 2 _ MQTTSuccess [192; 0]%Z); [reflexivity|].
  change (mqtt_ok MQTTSuccess) with true. cbv iota beta. apply wp_bind. eapply wp_mono; [apply sendBuffer_wp|].
  intros r s1 (Htx & j & Hj & Hw & Hr). destruct (bool_decide _).
  - apply wp_pret. split; [by apply tx_quiet|]. eauto.
  - apply wp_bind, wp_modctx, wp_pret. rewrite ctx_set. split.
    + transitivity (ctx s1); [by apply tx_quiet|]. destruct (ctx s1). split; try done. by apply flight_same.
    + eexists. unfold emitted. rewrite wire_set. exact Hw.
Qed.

Lemma handleKeepAlive_wp fuel s :
  wp (handleKeepAlive fuel) (fun _ s' => quiet (ctx s) (ctx s') /\ exists out, emitted s s' out) s.
Proof.
  unfold handleKeepAlive. apply wp_bind, wp_clock. intros now s1 _ Hc Hw. apply wp_bind, wp_getctx.
  assert (forall st : MQTTStatus_t, wp (pret st) (fun _ s' => quiet (ctx s) (ctx s') /\ exists out, emitted s s' out) s1) as Hp.
  { intros st. apply wp_pret. rewrite Hc. split; [done|]. exists []. by apply emitted_nil. }
  assert (wp (MQTT_Ping fuel) (fun _ s' => quiet (ctx s) (ctx s') /\ exists out, emitted s s' out) s1) as Hping.
  { eapply wp_mono; [apply MQTT_Ping_wp|]. rewrite Hc. intros st s2 (Hq & out & Ho). split; [done|]. exists out.
    unfold emitted, sent, arrived in *. by rewrite <- Hw. }
  destruct (waitingForPingResp _); [apply Hp|]. destruct (_ && _); [done|]. destruct (_ && _); [done|apply Hp].
Qed.

(** ** Handling a packet *)

(** What a packet handed to the handlers satisfies: the bytes it announces are
    there. *)
Record packet_ok (pk : MQTTPacketInfo_t) : Prop := {
  po_length : (0 <= remainingLength pk <= MQTT_MAX_REMAINING_LENGTH)%Z;
  po_data : exists d, pRemainingData pk = Some d /\ Forall is_byte d /\ (remainingLength pk <= Z.of_nat (length d))%Z;
}.

Lemma deserialize_ack_safe pk id :
  packet_ok pk -> pk_type pk <> MQTT_PACKET_TYPE_CONNACK ->
  exists st id', MQTT_DeserializeAck (Some pk) (Some id) None = Some (st, Some id', None).
Proof.
  intros [Hl (d & Ed & Hb & Hd)] Hty. unfold MQTT_DeserializeAck.
  rewrite (bool_decide_eq_false_2 (Some id = None)) by done. cbn [andb].
  rewrite (bool_decide_eq_false_2 (_ = MQTT_PACKET_TYPE_CONNACK)), andb_false_r by done.
  destruct (bool_decide (pk_type pk = MQTT_PACKET_TYPE_PINGRESP)); [eauto|]. rewrite Ed.
  destruct (bool_decide (pk_type pk = MQTT_PACKET_TYPE_SUBACK)); cbn [mbind option_bind].
  - unfold deserializeSuback. case_bool_decide; [cbn; eauto|].
    destruct (decode16_inv d 0 Hb ltac:(lia)) as (x & -> & _). cbn [mbind option_bind].
    destruct (bool_decide (x = 0)%Z); [cbn; eauto|]. unfold peek. rewrite bool_decide_eq_true_2 by lia. cbn. eauto.
  - destruct (bool_decide (pk_type pk ∈ _)); [|eauto]. unfold deserializeSimpleAck.
    case_bool_decide as H2; [cbn; eauto|]. unfold MQTT_PACKET_SIMPLE_ACK_REMAINING_LENGTH in H2.
    destruct (decode16_inv d 0 Hb ltac:(lia)) as (x & -> & _). cbn. eauto.
Qed.

(** What handling leaves: the buffer as it was, nothing read. *)
Definition handled (s s' : S) : Prop := quiet (ctx s) (ctx s') /\ arrived s' = arrived s.

Lemma handled_refl s : handled s s.
Proof. done. Qed.
Lemma handled_trans s1 s2 s3 : handled s1 s2 -> handled s2 s3 -> handled s1 s3.
Proof. intros [H1 E1] [H2 E2]. split; [by transitivity (ctx s2)|congruence]. Qed.

Lemma acked_wp fuel id st s :
  flight_ok (ctx s) -> wp (sendPublishAcks fuel id st) (fun _ s' => handled s s') s.
Proof.
  intros Hf. eapply wp_mono; [by apply sendPublishAcks_wp|]. intros r s' (Hq & _ & out & Ho & _).
  split; [done|]. by eapply emitted_arrived.
Qed.

(** A call of the state machine on the context. *)
Lemma flight_wp {B} (f : MQTTContext_t -> B * MQTTContext_t) o (Q : B -> S -> Prop) s :
  flight_ok (ctx s) -> (f (ctx s)).2 = (run_op (ctx s) o).2 ->
  (forall s', ctx s' = (run_op (ctx s) o).2 -> handled s s' -> wire s' = wire s -> Q (f (ctx s)).1 s') -> wp (onctx f) Q s.
Proof.
  intros Hf E H. apply wp_onctx. apply H; rewrite ?ctx_set, ?wire_set; [done| |done].
  split; [rewrite ctx_set, E; by apply run_op_quiet|]. unfold arrived. by rewrite wire_set.
Qed.

Section App.
Context {A : MqttApp S}.

(** The application's callback may stop the device. If it returns, it may have
    published and subscribed; it has not received, has left the receive buffer
    alone, and has not touched the records of the server's publishes. *)
Class MqttAppLaws := {
  app_quiet : forall pk d s s' u, flight_ok (ctx s) -> appCallback pk d s = Done (u, s') ->
    handled s s' /\ incomingPublishRecords (ctx s') = incomingPublishRecords (ctx s);
}.

(** [m] returns in a state of [Q], or a call of the callback stops the device. *)
Definition wpa {B} (m : PT S B) (Q : B -> S -> Prop) (s : S) : Prop :=
  match m s with
  | Done (a, s') => Q a s'
  | NoFuel => True
  | Fault => exists pk d s1, appCallback pk d s1 = Fault
  end.

#[local] Transparent pbind pret run access no_fuel.

Lemma wpa_wp {B} (m : PT S B) Q s : wp m Q s -> wpa m Q s.
Proof. unfold wp, wpa. by destruct (m s) as [[? ?]| |]. Qed.
Lemma wpa_pret {B} (a : B) (Q : B -> S -> Prop) s : Q a s -> wpa (pret a) Q s.
Proof. done. Qed.
Lemma wpa_mono {B} (m : PT S B) (Q Q' : B -> S -> Prop) s :
  wpa m Q s -> (forall a s', Q a s' -> Q' a s') -> wpa m Q' s.
Proof. unfold wpa. destruct (m s) as [[a s']| |]; auto. Qed.
Lemma wpa_bind {B D} (m : PT S B) (k : B -> PT S D) Q s :
  wpa m (fun a s' => wpa (k a) Q s') s -> wpa (pbind m k) Q s.
Proof. unfold wpa, pbind. by destruct (m s) as [[? ?]| |]. Qed.
(** A step of the client, then the rest. *)
Lemma wpa_seq {B D} (m : PT S B) (k : B -> PT S D) Q s :
  wp m (fun a s' => wpa (k a) Q s') s -> wpa (pbind m k) Q s.
Proof. unfold wp, wpa, pbind. by destruct (m s) as [[? ?]| |]. Qed.

#[local] Opaque pbind pret run access no_fuel.

Context {AL : MqttAppLaws}.

Lemma app_wpa pk d s :
  flight_ok (ctx s) ->
  wpa (appCallback pk d) (fun _ s' => handled s s' /\ incomingPublishRecords (ctx s') = incomingPublishRecords (ctx s)) s.
Proof.
  intros Hf. unfold wpa. destruct (appCallback pk d s) as [[u s']| |] eqn:E; [by eapply app_quiet|done|eauto].
Qed.

Lemma callback_wp pk d fuel id st s :
  flight_ok (ctx s) -> wpa (appCallback pk d ;! sendPublishAcks fuel id st) (fun _ s' => handled s s') s.
Proof.
  intros Hf. apply wpa_bind. eapply wpa_mono; [by apply app_wpa|]. intros ? s1 [H1 _].
  eapply wpa_mono; [apply wpa_wp, acked_wp, H1, Hf|]. intros r s2 H2. exact (handled_trans _ _ _ H1 H2).
Qed.

Lemma handleIncomingPublish_wp fuel pk s :
  packet_ok pk -> Z.land (pk_type pk) 240 = MQTT_PACKET_TYPE_PUBLISH -> flight_ok (ctx s) ->
  wpa (handleIncomingPublish fuel pk) (fun _ s' => handled s s') s.
Proof.
  intros [Hl (d & Ed & Hb & Hd)] Hty Hf. unfold handleIncomingPublish.
  destruct (deserialize_publish_exact pk d 0 uninit_publish Ed Hb ltac:(lia) ltac:(lia) Hty) as (st & pid & info & E & _).
  apply wpa_seq. eapply wp_access; [exact E|]. cbn [default from_option id]. apply wpa_seq, wp_getctx.
  destruct (negb _); [by apply wpa_pret|]. apply wpa_seq.
  eapply (flight_wp _ (OpReceived pid (pub_qos info))); [done| |].
  { cbn [run_op]. by destruct (MQTT_UpdateStatePublish _ _ _ _) as [[? ?] ?]. }
  intros s1 _ H1 _. destruct (MQTT_UpdateStatePublish _ _ _ _) as [[st1 os] c1]. cbn [fst].
  assert (flight_ok (ctx s1)) as Hf1 by (by apply H1).
  destruct (mqtt_ok _); [|by apply wpa_pret].
  destruct (bool_decide (st1 = MQTTStateCollision)).
  - apply wpa_seq, wp_pret. eapply wpa_mono; [by apply wpa_wp, acked_wp|]. intros ? s2 H2. exact (handled_trans _ _ _ H1 H2).
  - eapply wpa_mono; [by apply callback_wp|]. intros ? s2 H2. exact (handled_trans _ _ _ H1 H2).
Qed.

Lemma handlePublishAcks_wp fuel pk s :
  packet_ok pk -> pk_type pk <> MQTT_PACKET_TYPE_CONNACK -> flight_ok (ctx s) ->
  wpa (handlePublishAcks fuel pk) (fun _ s' => handled s s') s.
Proof.
  intros Hp Hty Hf. unfold handlePublishAcks. destruct (deserialize_ack_safe pk 0 Hp Hty) as (st & pid & E).
  apply wpa_seq. eapply wp_access; [exact E|]. cbn [default from_option id].
  destruct (negb _); [by apply wpa_pret|]. apply wpa_seq.
  eapply (flight_wp _ (OpAck pid (getAckFromPacketType (pk_type pk)) MQTT_RECEIVE)); [done| |].
  { cbn [run_op]. by destruct (MQTT_UpdateStateAck _ _ _ _) as [[? ?] ?]. }
  intros s1 _ H1 _. destruct (MQTT_UpdateStateAck _ _ _ _) as [[st1 os] c1]. cbn [fst].
  destruct (mqtt_ok _); [|by apply wpa_pret].
  eapply wpa_mono; [by apply callback_wp, H1|]. intros ? s2 H2. exact (handled_trans _ _ _ H1 H2).
Qed.

Lemma handleIncomingAck_wp fuel pk keep s :
  packet_ok pk -> flight_ok (ctx s) -> wpa (handleIncomingAck fuel pk keep) (fun _ s' => handled s s') s.
Proof.
  intros Hp Hf. unfold handleIncomingAck.
  wp_test E1.
  { apply bool_decide_eq_true_1 in E1. apply handlePublishAcks_wp; [done| |done].
    intros E; rewrite E in E1; apply (bool_decide_pack _) in E1; vm_compute in E1; done. }
  wp_test E2; [|by apply wpa_pret].
  apply bool_decide_eq_true_1 in E2.
  destruct (deserialize_ack_safe pk MQTT_PACKET_ID_INVALID Hp) as (st & pid & E).
  { intros E; rewrite E in E2; apply (bool_decide_pack _) in E2; vm_compute in E2; done. }
  apply wpa_seq. eapply wp_access; [exact E|]. cbn [default from_option id].
  assert (forall (k : bool) s1, handled s s1 ->
    wpa (if k then appCallback pk (Build_deserialized pid None st) ;! pret MQTTSuccess else pret st) (fun _ s' => handled s s') s1) as Hk.
  { intros [] s1 H1; [|by apply wpa_pret]. apply wpa_bind. eapply wpa_mono; [apply app_wpa; by apply H1|].
    intros ? s2 [H2 _]. apply wpa_pret. exact (handled_trans _ _ _ H1 H2). }
  apply wpa_seq. wp_test E3; [|by apply wp_pret, Hk].
  apply wp_bind. destruct (mqtt_ok st && keep).
  - apply wp_modctx, wp_pret, Hk. split; [|unfold arrived; by rewrite wire_set]. rewrite ctx_set.
    destruct (ctx s). split; try done. by apply flight_same.
  - by apply wp_pret, wp_pret, Hk.
Qed.
(** ** One turn of the receive loop *)

(** A packet info describes the header at the front of [l]. *)
Record header_of (pk : MQTTPacketInfo_t) (l : bytes) : Prop := {
  ho_length : length_ok (remainingLength pk);
  ho_header : headerLength pk = (1 + Z.of_nat (length (varint (remainingLength pk))))%Z;
  ho_prefix : pk_type pk :: varint (remainingLength pk) `prefix_of` l;
}.

Lemma header_total pk l :
  header_of pk l ->
  packet_total pk = (remainingLength pk + headerLength pk)%Z /\ (2 <= packet_total pk < 2 ^ 30)%Z /\
  Z.to_nat (headerLength pk) = length (pk_type pk :: varint (remainingLength pk)).
Proof.
  intros [Hn Hh _]. unfold length_ok, MQTT_MAX_REMAINING_LENGTH in Hn. pose proof (size_bound (remainingLength pk)) as Hs.
  rewrite <- varint_length in Hs. unfold packet_total. rewrite (wrap_small 32) by lia. cbn [length]. lia.
Qed.

(** A header with as many bytes behind it as it announces is a packet. *)
Lemma header_packet pk l :
  header_of pk l -> packet_total pk = Z.of_nat (length l) -> exists body, l = packet (pk_type pk) body.
Proof.
  intros Hh Ht. destruct (header_total _ _ Hh) as (E & _ & _). destruct Hh as [Hn Hh (body & ->)]. exists body.
  unfold packet. cbn [app]. do 2 f_equal. f_equal. rewrite E, Hh, length_app in Ht. cbn [length] in Ht. lia.
Qed.

Lemma content_length c : index c <= buffer_size c -> length (content c) = index c.
Proof. intros H. unfold content, buffer_size in *. rewrite length_take. lia. Qed.

Lemma set_index_content n c : content (set_index n c) = take n (networkBuffer c).
Proof. by destruct c. Qed.

Lemma parse_buffered_wp r (Q : MQTTStatus_t * MQTTPacketInfo_t -> S -> Prop) s :
  index (ctx s) + Z.to_nat r <= buffer_size (ctx s) -> Forall is_byte (networkBuffer (ctx s)) ->
  (forall st pk s', ctx s' = set_index (index (ctx s) + Z.to_nat r) (ctx s) -> wire s' = wire s ->
     (st = MQTTSuccess -> header_of pk (content (ctx s'))) -> Q (st, pk) s') ->
  wp (parse_buffered r) Q s.
Proof.
  intros Hi Hb H. unfold parse_buffered. apply wp_bind, wp_getctx.
  assert (set_index (index (ctx s) + 0) (ctx s) = ctx s) as Eid by (rewrite Nat.add_0_r; by destruct (ctx s)).
  wp_test E1.
  { apply bool_decide_eq_true_1 in E1. apply wp_pret, H; [|done|done]. replace (Z.to_nat r) with 0 by lia. by rewrite Eid. }
  apply bool_decide_eq_false_1 in E1. wp_test E2.
  { apply andb_true_iff in E2 as [E2 _]. apply bool_decide_eq_true_1 in E2. subst r. apply wp_pret, H; done. }
  apply wp_bind, wp_modctx, wp_bind, wp_getctx. set (s1 := set_ctx _ s).
  assert (ctx s1 = set_index (index (ctx s) + Z.to_nat r) (ctx s)) as Ec by apply ctx_set.
  assert (wire s1 = wire s) as Ew by apply wire_set. clearbody s1.
  assert (index (ctx s1) = index (ctx s) + Z.to_nat r) as Ei by (rewrite Ec; by destruct (ctx s)).
  assert (networkBuffer (ctx s1) = networkBuffer (ctx s)) as En by (rewrite Ec; by destruct (ctx s)).
  assert (1 <= index (ctx s1)) as H1.
  { rewrite Ei. destruct (decide (r = 0%Z)) as [->|]; [|lia]. rewrite bool_decide_eq_true_2 in E2 by done.
    cbn [andb] in E2. apply bool_decide_eq_false_1 in E2. lia. }
  assert (exists ty, networkBuffer (ctx s1) !! 0 = Some ty) as [ty Ety].
  { apply lookup_lt_is_Some. rewrite En. unfold buffer_size in Hi. lia. }
  set (buf := networkBuffer (ctx s1)) in *. set (i := index (ctx s1)) in *.
  assert (Z.of_nat i <= Z.of_nat (length buf))%Z as Hil.
  { rewrite En. unfold buffer_size in Hi. lia. }
  assert (Forall is_byte buf) as Hbuf by (by rewrite En).
  destruct (incomingPacketValid ty) eqn:Ev.
  - pose proof (process_groups buf (Z.of_nat i) blank_incoming ty Hbuf ltac:(lia) Ety Ev) as Hp. rewrite Nat2Z.id in Hp.
    apply wp_bind. eapply wp_access; [exact Hp|].
    assert (Forall is_byte (drop 1 (take i buf))) as Hl by (by apply list.Forall_drop, list.Forall_take).
    destruct (read_groups 4 (drop 1 (take i buf))) as [n u| |] eqn:Eg; [|by apply wp_pret, H..].
    destruct (bool_decide (Z.of_nat u = _)) eqn:Eu; [|by apply wp_pret, H]. apply bool_decide_eq_true_1 in Eu.
    destruct (groups_exact _ n u Hl Eg Eu) as [Hn (rest & Hr)].
    apply wp_pret, H; [done|done|]. intros _. cbn [default from_option id]. split; cbn [remainingLength headerLength pk_type].
    + done.
    + rewrite varint_length, <- Eu. lia.
    + change (content (ctx s1)) with (take i buf). exists rest.
      assert (take i buf !! 0 = Some ty) as Et0 by (by rewrite lookup_take_lt by lia).
      destruct (take i buf) as [|b tl]; [done|]. cbn in Et0, Hr. injection Et0 as ->. rewrite drop_0 in Hr. by rewrite Hr.
  - apply wp_bind. eapply wp_access.
    { unfold MQTT_ProcessIncomingPacketTypeAndLength. rewrite bool_decide_eq_false_2 by lia. rewrite Ety. cbn [mbind option_bind].
      rewrite Ev. reflexivity. }
    by apply wp_pret, H.
Qed.

(** The buffer's size and the time of the last reception. *)
Definition same_shape (c c' : MQTTContext_t) : Prop :=
  buffer_size c' = buffer_size c /\ lastPacketRxTime c' = lastPacketRxTime c.

Lemma same_shape_trans c1 c2 c3 : same_shape c1 c2 -> same_shape c2 c3 -> same_shape c1 c3.
Proof. intros [] []. split; congruence. Qed.

Lemma quiet_shape c c' : quiet c c' -> same_shape c c'.
Proof. intros []. split; [|done]. unfold buffer_size. congruence. Qed.

Lemma handle_buffered_wp fuel pk keep (Q : MQTTStatus_t -> S -> Prop) s :
  client_ok (ctx s) -> header_of pk (content (ctx s)) -> (packet_total pk <= Z.of_nat (index (ctx s)))%Z ->
  (forall st s', client_ok (ctx s') -> same_shape (ctx s) (ctx s') -> arrived s' = arrived s ->
     content (ctx s') = drop (Z.to_nat (packet_total pk)) (content (ctx s)) -> Q st s') ->
  wpa (handle_buffered fuel pk keep) Q s.
Proof.
  intros Hc Hh Ht H. destruct (header_total _ _ Hh) as (Et & Ht2 & _). destruct Hc as [Hi Hb Hf].
  unfold handle_buffered. apply wpa_seq, wp_getctx. set (pk' := Build_packet_info _ _ _ _).
  assert (packet_ok pk') as Hp.
  { destruct Hh as [Hn Hhd _]. split; [done|]. cbn. eexists. split; [done|]. split; [by apply list.Forall_drop|].
    rewrite length_drop. unfold buffer_size in Hi. lia. }
  apply wpa_bind. apply (wpa_mono _ (fun _ s' => handled s s')).
  { wp_test E.
    - apply bool_decide_eq_true_1 in E. by apply handleIncomingPublish_wp.
    - by apply handleIncomingAck_wp. }
  intros st s1 [Hq Ha]. apply wpa_seq, wp_modctx, wpa_seq, wp_modctx, wpa_pret. rewrite ctx_set.
  destruct Hq as [Ei En Hfl _ _ Hrx]. specialize (Hfl Hf). set (total := Z.to_nat (packet_total pk)).
  set (c1 := set_index (index (ctx s1) - total) (ctx s1)).
  assert (networkBuffer c1 = networkBuffer (ctx s)) as En1 by (unfold c1; rewrite <- En; by destruct (ctx s1)).
  assert (index c1 = index (ctx s) - total) as Ei1 by (unfold c1; rewrite <- Ei; by destruct (ctx s1)).
  rewrite En1, Ei1. set (nb := blit 0 _ _).
  assert (length (take (index (ctx s) - total) (drop total (networkBuffer (ctx s)))) = index (ctx s) - total) as Hl.
  { rewrite length_take, length_drop. unfold buffer_size in Hi. lia. }
  assert (length nb = buffer_size (ctx s)) as Hnb.
  { unfold nb. rewrite length_blit; [done|]. rewrite Hl. unfold buffer_size in Hi. lia. }
  assert (take (index (ctx s) - total) nb = drop total (content (ctx s))) as Htk.
  { unfold nb. rewrite <- Hl at 1. change (length ?x) with (0 + length x). rewrite take_blit by lia. cbn [take app].
    unfold content. by rewrite skipn_firstn_comm. }
  assert (Forall is_byte nb) as Hby.
  { unfold nb, blit. repeat apply Forall_app_2; auto using list.Forall_take, list.Forall_drop. }
  apply H; rewrite ?ctx_set.
  - split; rewrite ?ctx_set.
    + unfold buffer_size. unfold c1 in *. destruct (ctx s1). cbn in *. lia.
    + by destruct c1.
    + eapply flight_same, Hfl; unfold c1; by destruct (ctx s1).
  - split; [unfold buffer_size at 1; by destruct c1|]. rewrite <- Hrx. unfold c1. by destruct (ctx s1).
  - unfold arrived. rewrite !wire_set. exact Ha.
  - fold total. unfold content in *. rewrite <- Htk, <- Ei1. by destruct c1.
Qed.

(** The bytes that arrived between [s] and [s'], after those waiting in [s], are
    a packet or none, then the bytes waiting in [s']. *)
Definition framed (n : nat) (s s' : S) : Prop :=
  exists new ps, arrived s' = arrived s ++ new /\ length ps <= n /\
    content (ctx s) ++ new = mjoin ((fun p => packet p.1 p.2) <$> ps) ++ content (ctx s').

Lemma framed_same n s s' : handled s s' -> framed n s s'.
Proof.
  intros [Hq Ha]. exists [], []. rewrite app_nil_r, Ha, (quiet_content _ _ Hq), app_nil_r. split_and!; [done|cbn; lia|done].
Qed.

Lemma framed_trans n m s1 s2 s3 : framed n s1 s2 -> framed m s2 s3 -> framed (n + m) s1 s3.
Proof.
  intros (d1 & p1 & A1 & L1 & C1) (d2 & p2 & A2 & L2 & C2). exists (d1 ++ d2), (p1 ++ p2).
  rewrite A2, A1, fmap_app, join_app, !length_app, !(assoc _). split_and!; [done|lia|].
  by rewrite C1, <- (assoc _), C2, (assoc _).
Qed.

Lemma framed_received s1 s2 data :
  arrived s2 = arrived s1 ++ data -> content (ctx s2) = content (ctx s1) ++ data -> framed 0 s1 s2.
Proof. intros Ha Hc. exists data, []. by rewrite Hc. Qed.

(** A packet larger than the buffer: the rest of it is read and dropped. *)
Lemma discardStoredPacket_wp fuel pk s :
  client_ok (ctx s) -> header_of pk (content (ctx s)) -> (packet_total pk > Z.of_nat (buffer_size (ctx s)))%Z ->
  wp (discardStoredPacket fuel pk) (fun st s' => client_ok (ctx s') /\ same_shape (ctx s) (ctx s') /\
       (st = MQTTNoDataAvailable \/ st = MQTTRecvFailed) /\ (st <> MQTTRecvFailed -> framed 1 s s')) s.
Proof.
  intros [Hi Hb Hf] Hh Ht. destruct (header_total _ _ Hh) as (_ & Ht2 & _).
  unfold discardStoredPacket. apply wp_bind, wp_getctx. apply wp_bind.
  rewrite (wrap_small 32) by lia. set (missing := Z.to_nat _).
  eapply wp_mono; [apply discard_loop_wp; [intros Q s0 H; by apply wp_pret, H|lia|lia]|].
  intros st s1 (Hbo & Hst & data & Hw & Hl). apply wp_bind, wp_modctx, wp_pret. rewrite ctx_set.
  pose proof (bo_size _ _ Hbo) as Hs1. pose proof (bo_eq _ _ Hbo) as E1.
  assert (buffer_size (set_index 0 (clear_buffer (ctx s1))) = buffer_size (ctx s)) as Hsz.
  { unfold clear_buffer, buffer_size in *. rewrite <- Hs1. destruct (ctx s1). cbn. unfold zeros. by rewrite length_replicate. }
  split; [|split; [split; [done|]; unfold clear_buffer; rewrite E1; by destruct (ctx s)|split; [done|]]].
  - split.
    + rewrite Hsz. cbn. lia.
    + unfold clear_buffer, zeros. cbn. apply list.Forall_replicate. unfold is_byte. lia.
    + eapply flight_same, Hf; unfold clear_buffer; rewrite E1; by destruct (ctx s).
  - intros Hne. destruct Hst as [->| ->]; [|done]. specialize (Hl eq_refl).
    assert (header_of pk (content (ctx s) ++ data)) as Hh'.
    { destruct Hh as [? ? Hp]. split; [done|done|]. etrans; [exact Hp|]. by eexists. }
    destruct (header_packet _ _ Hh') as [body Ebody].
    { rewrite length_app, content_length, Hl by done. unfold missing. lia. }
    exists data, [(pk_type pk, body)]. unfold arrived. rewrite wire_set, Hw. split_and!; [done|cbn; lia|].
    rewrite ctx_set, Ebody. cbn. rewrite !app_nil_r. done.
Qed.

Lemma prefix_of_take (l k : bytes) n : l `prefix_of` k -> length l <= n -> l `prefix_of` take n k.
Proof. intros [t ->] H. rewrite take_app_ge by done. by eexists. Qed.

(** What one turn does once it knows what its buffer starts with. *)
Definition delivered (s : S) (st : MQTTStatus_t) (s' : S) : Prop :=
  client_ok (ctx s') /\ same_shape (ctx s) (ctx s') /\ (st <> MQTTRecvFailed -> framed 1 s s').

Lemma delivered_same s s' st : client_ok (ctx s) -> handled s s' -> delivered s st s'.
Proof.
  intros Hc H. destruct H as [Hq Ha]. split; [by eapply quiet_ok|]. split; [by apply quiet_shape|].
  intros _. by apply framed_same.
Qed.

Lemma delivered_after s1 s2 s3 st :
  same_shape (ctx s1) (ctx s2) -> framed 0 s1 s2 -> delivered s2 st s3 -> delivered s1 st s3.
Proof.
  intros Hs H12 (H1 & H2 & H3). split; [done|]. split; [by eapply same_shape_trans|]. intros Hst.
  exact (framed_trans 0 1 _ _ _ H12 (H3 Hst)).
Qed.

Lemma complete_wp fuel pk keep status s :
  client_ok (ctx s) -> (status = MQTTSuccess -> header_of pk (content (ctx s))) ->
  wpa (let! c := getctx in
      let! status :=
        (if negb (mqtt_ok status) then pret status
         else if bool_decide (packet_total pk > Z.of_nat (buffer_size c))%Z then discardStoredPacket fuel pk
         else if bool_decide (packet_total pk > Z.of_nat (index c))%Z then pret MQTTNeedMoreBytes
         else pret MQTTSuccess) in
      let! status := (if mqtt_ok status then handle_buffered fuel pk keep else pret status) in
      pret (if bool_decide (status = MQTTNoDataAvailable) then MQTTSuccess else status)) (delivered s) s.
Proof.
  intros Hc Hst. apply wpa_seq, wp_getctx.
  assert (forall st : MQTTStatus_t, st <> MQTTSuccess ->
    wpa (let! status := (if mqtt_ok st then handle_buffered fuel pk keep else pret st) in
        pret (if bool_decide (status = MQTTNoDataAvailable) then MQTTSuccess else status)) (delivered s) s) as Hno.
  { intros st Hne. rewrite (bool_decide_eq_false_2 _ Hne) || (unfold mqtt_ok; rewrite (bool_decide_eq_false_2 _ Hne)).
    apply wpa_seq, wp_pret, wpa_pret. by apply delivered_same. }
  destruct (mqtt_ok status) eqn:Eok; cbn [negb]; [|apply wpa_seq, wp_pret, Hno; by intros ->].
  assert (status = MQTTSuccess) as Es by (by destruct status). specialize (Hst Es).
  destruct (bool_decide (_ > Z.of_nat (buffer_size _))%Z) eqn:E1;
    [apply bool_decide_eq_true_1 in E1|apply bool_decide_eq_false_1 in E1].
  { apply wpa_seq. eapply wp_mono; [by apply discardStoredPacket_wp|]. intros st s1 (H1 & H2 & H3 & H4).
    assert (mqtt_ok st = false) as -> by (by destruct H3 as [->| ->]). apply wpa_seq, wp_pret, wpa_pret.
    split; [done|]. split; [done|]. intros Hf. apply H4. by intros ->. }
  destruct (bool_decide (_ > Z.of_nat (index _))%Z) eqn:E2;
    [by apply wpa_seq, wp_pret, Hno|apply bool_decide_eq_false_1 in E2].
  apply wpa_seq, wp_pret. change (mqtt_ok MQTTSuccess) with true. cbv iota. apply wpa_bind.
  apply handle_buffered_wp; [done|done|lia|]. intros st s1 H1 H2 H3 H4. apply wpa_pret. split; [done|]. split; [done|].
  intros _. destruct (header_total _ _ Hst) as (_ & Ht & _). pose proof (content_length _ (cl_index _ Hc)) as Hl.
  destruct (header_packet pk (take (Z.to_nat (packet_total pk)) (content (ctx s)))) as [body Eb].
  { pose proof Hst as Hh. destruct Hst as [? Hhd Hp]. split; [done|done|]. apply prefix_of_take; [done|]. cbn [length].
    destruct (header_total _ _ Hh) as (E & _ & _). unfold length_ok in *. lia. }
  { rewrite length_take. lia. }
  exists [], [(pk_type pk, body)]. rewrite !app_nil_r, H3, H4. split_and!; [done|cbn; lia|].
  change (mjoin _) with (packet (pk_type pk) body ++ []). by rewrite app_nil_r, <- Eb, take_drop.
Qed.

Lemma iteration_wp fuel keep s :
  client_ok (ctx s) -> wpa (receiveSingleIteration fuel keep) (delivered s) s.
Proof.
  intros Hc. pose proof Hc as [Hi Hb Hf]. unfold receiveSingleIteration. apply wpa_seq, wp_getctx.
  apply wpa_seq, wp_trecv. intros r data s1 Hr Hl Hby Hc1 Hw1.
  apply wpa_seq, store_wp; [rewrite Hc1; lia|done|]. intros s2 Ec2 Hbo Hw2. rewrite Hc1 in *.
  assert (index (ctx s2) = index (ctx s)) as Ei by (rewrite Ec2; by destruct (ctx s)).
  pose proof (bo_size _ _ Hbo) as Hs2. pose proof (buf_only_ok _ _ Hbo Hc) as Hc2.
  apply wpa_seq, parse_buffered_wp; [rewrite Ei, Hs2; lia|apply Hc2|]. intros st pk s3 Ec3 Hw3 Hh.
  assert (client_ok (ctx s3)) as Hc3.
  { destruct Hc2 as [? ? Hf2]. rewrite Ec3. split; [destruct (ctx s2); cbn in *; lia|by destruct (ctx s2)|].
    eapply flight_same, Hf2; by destruct (ctx s2). }
  apply (wpa_mono _ (delivered s3)).
  2: { intros st' s'. apply delivered_after.
    - unfold same_shape. rewrite <- Hs2, Ec3, Ec2. by destruct (ctx s).
    - apply (framed_received _ _ data); [unfold arrived; by rewrite Hw3, Hw2, Hw1|].
      rewrite Ec3, set_index_content, Ei, Ec2, <- Hl. unfold content. destruct (ctx s) as []; cbn in *. by apply take_blit. }
  apply wpa_seq. set (status := if _ && _ then _ else _).
  apply (wp_mono _ (fun st' s4 => handled s3 s4 /\ (st' = MQTTSuccess -> st = MQTTSuccess))).
  { subst status. destruct (_ && _); [|by apply wp_pret]. apply wp_bind. eapply wp_mono; [apply handleKeepAlive_wp|].
    intros ka s4 (Hq & out & Ho). apply wp_pret. split; [split; [done|by eapply emitted_arrived]|].
    destruct (mqtt_ok ka) eqn:E; [done|]. by intros ->. }
  intros st' s4 [Hh4 Hst]. assert (client_ok (ctx s4)) as Hc4 by (eapply quiet_ok; [apply Hh4|done]).
  eapply wpa_mono; [apply complete_wp; [done|]|].
  { intros E. rewrite (quiet_content _ _ (proj1 Hh4)). auto. }
  intros st2 s5. apply delivered_after; [by apply quiet_shape, Hh4|by apply framed_same].
Qed.
End App.

End Net.
