(* ===== verification/MqttFrame.v ===== *)
(** * MqttFrame: what the client leaves alone

    A program [moves] along a relation when every state it returns in is
    related to the one it started from. A preorder that the environment of the
    client keeps to (its transport, clock, callback, and updates of its context)
    is kept to by every function of the client, whatever arrives. *)

From S2P Require Import Prelude MqttTypes MqttState MqttSerializer MqttCore MqttCoreProps.
From stdpp Require Import base list.
From Stdlib Require Import ZArith Lia.

Local Open Scope cything_scope.

Definition moves {S A} (R : relation S) (m : PT S A) : Prop :=
  forall s, match m s with Done (_, s') => R s s' | _ => True end.

Section rules.
Context {S : Type} {R : relation S} `{!PreOrder R}.

#[local] Transparent pbind pret run access no_fuel.

Lemma moves_pret {A} (a : A) : moves R (pret a).
Proof. intros s. cbn. reflexivity. Qed.
Lemma moves_no_fuel {A} : moves R (@no_fuel S A).
Proof. done. Qed.
Lemma moves_access {A} (o : option A) : moves R (access o).
Proof. intros s. destruct o; cbn; [reflexivity|done]. Qed.
Lemma moves_bind {A B} (m : PT S A) (k : A -> PT S B) : moves R m -> (forall a, moves R (k a)) -> moves R (pbind m k).
Proof.
  intros Hm Hk s. unfold pbind. specialize (Hm s). destruct (m s) as [[a s1]| |]; [|done..].
  specialize (Hk a s1). destruct (k a s1) as [[b s2]| |]; [|done..]. by transitivity s1.
Qed.
Lemma moves_run {A} (m : S -> A * S) : (forall s, R s (m s).2) -> moves R (run m).
Proof. intros H s. unfold run. specialize (H s). by destruct (m s). Qed.
Lemma moves_done {A} (m : PT S A) s a s' : moves R m -> m s = Done (a, s') -> R s s'.
Proof. intros H E. specialize (H s). by rewrite E in H. Qed.
End rules.

(** ** Partial correctness

    [wlp m Q s]: if [m] returns, then in a state of [Q]; it may also stop the
    device. *)

Definition wlp {S A} (m : PT S A) (Q : A -> S -> Prop) (s : S) : Prop :=
  match m s with Done (a, s') => Q a s' | _ => True end.

Section wlp.
Context {S : Type}.

#[local] Transparent pbind pret run access no_fuel.

Lemma wlp_pret {A} (a : A) (Q : A -> S -> Prop) s : Q a s -> wlp (pret a) Q s.
Proof. done. Qed.
Lemma wlp_no_fuel {A} (Q : A -> S -> Prop) s : wlp no_fuel Q s.
Proof. done. Qed.
Lemma wlp_access {A} (o : option A) (Q : A -> S -> Prop) s : (forall a, o = Some a -> Q a s) -> wlp (access o) Q s.
Proof. intros H. unfold wlp, access. destruct o; [by apply H|done]. Qed.
Lemma wlp_bind {A B} (m : PT S A) (k : A -> PT S B) Q s :
  wlp m (fun a s' => wlp (k a) Q s') s -> wlp (pbind m k) Q s.
Proof. unfold wlp, pbind. by destruct (m s) as [[a s']| |]. Qed.
Lemma wlp_mono {A} (m : PT S A) (Q Q' : A -> S -> Prop) s :
  wlp m Q s -> (forall a s', Q a s' -> Q' a s') -> wlp m Q' s.
Proof. unfold wlp. destruct (m s) as [[a s']| |]; auto. Qed.
Lemma wlp_any {A} (m : PT S A) (Q : A -> S -> Prop) s : (forall a s', Q a s') -> wlp m Q s.
Proof. intros H. unfold wlp. by destruct (m s) as [[a s']| |]. Qed.
Lemma wlp_and {A} (m : PT S A) (Q Q' : A -> S -> Prop) s :
  wlp m Q s -> wlp m Q' s -> wlp m (fun a s' => Q a s' /\ Q' a s') s.
Proof. unfold wlp. by destruct (m s) as [[a s']| |]. Qed.
Lemma wlp_moves {A} R (m : PT S A) s : moves R m -> wlp m (fun _ s' => R s s') s.
Proof. intros H. exact (H s). Qed.
Lemma moves_bind_wlp {R : relation S} `{!PreOrder R} {A B} (m : PT S A) (k : A -> PT S B) :
  moves R m -> (forall s, wlp m (fun a _ => moves R (k a)) s) -> moves R (pbind m k).
Proof.
  intros Hm Hk s. unfold pbind. specialize (Hm s). specialize (Hk s). unfold wlp in Hk.
  destruct (m s) as [[a s1]| |]; [|done..]. specialize (Hk s1). destruct (k a s1) as [[b s2]| |]; [|done..]. by transitivity s1.
Qed.
Lemma wlp_wp {A} (m : PT S A) (Q : A -> S -> Prop) s : wp m Q s -> wlp m Q s.
Proof. unfold wp, wlp. by destruct (m s) as [[a s']| |]. Qed.
Lemma wlp_done {A} (m : PT S A) (Q : A -> S -> Prop) s a s' : wlp m Q s -> m s = Done (a, s') -> Q a s'.
Proof. intros H E. unfold wlp in H. by rewrite E in H. Qed.

(** Two programs that start alike and go on alike. *)
Lemma pbind_ext {A B} (m : PT S A) (k k' : A -> PT S B) s :
  wlp m (fun a s' => k a s' = k' a s') s -> pbind m k s = pbind m k' s.
Proof. unfold wlp, pbind. by destruct (m s) as [[a s']| |]. Qed.
Lemma pbind_same {A B} (m m' : PT S A) (k : A -> PT S B) s : m s = m' s -> pbind m k s = pbind m' k s.
Proof. unfold pbind. by intros ->. Qed.
End wlp.

Create HintDb moves.
#[global] Hint Resolve moves_pret moves_no_fuel moves_access : moves.

(** Down to the client's primitives and the functions that are done. *)
Ltac moves_step :=
  lazymatch goal with
  | |- moves _ (pbind _ _) => apply moves_bind; [|intros ?]
  | |- moves _ (let '(_, _) := ?x in _) => destruct x
  | |- moves _ (match ?x with _ => _ end) => destruct x
  end.
Ltac moves_solve := repeat first [ progress cbv zeta | moves_step | solve [eauto 2 with moves | eauto 6 with moves typeclass_instances] ].

Section Client.
Context {S : Type} {N : MqttNet S} (R : relation S) `{!PreOrder R}.

(** What the environment keeps to. *)
Class Follows := {
  fo_ctx : forall c s, R s (set_ctx c s);
  fo_send : forall b s, R s (tsend b s).2;
  fo_writev : forall w v s, twritev = Some w -> R s (w v s).2;
  fo_recv : forall n s, R s (trecv n s).2;
  fo_time : forall s, R s (getTime s).2;
}.
Context {F : Follows}.

#[local] Transparent pbind pret run access no_fuel.

Lemma moves_getctx : moves R getctx.
Proof. intros s. cbn. reflexivity. Qed.
Lemma moves_modctx f : moves R (modctx f).
Proof. intros s. cbn. apply fo_ctx. Qed.
Lemma moves_onctx {B} (f : MQTTContext_t -> B * MQTTContext_t) : moves R (onctx f).
Proof. intros s. unfold onctx. destruct (f (ctx s)). apply fo_ctx. Qed.

#[local] Opaque pbind pret run access no_fuel.

Lemma moves_time : moves R (run getTime).
Proof. apply moves_run, fo_time. Qed.
Lemma moves_tsend b : moves R (run (tsend b)).
Proof. apply moves_run, fo_send. Qed.
Lemma moves_trecv n : moves R (run (trecv n)).
Proof. apply moves_run, fo_recv. Qed.
#[local] Hint Resolve moves_getctx moves_modctx moves_onctx moves_time moves_tsend moves_trecv : moves.

Lemma moves_store off data : moves R (store off data).
Proof. apply moves_modctx. Qed.
Lemma moves_account r k : moves R (account r k).
Proof. unfold account. moves_solve. Qed.
#[local] Hint Resolve moves_store moves_account : moves.

Lemma moves_vector_loop n : forall vec total k t, moves R (sendMessageVector_loop n vec total k t).
Proof.
  induction n as [|n IH]; intros; cbn [sendMessageVector_loop]; moves_solve.
  destruct twritev as [w|] eqn:E; [|auto with moves]. apply moves_run. intros s. by apply fo_writev.
Qed.
#[local] Hint Resolve moves_vector_loop : moves.
Lemma moves_send_all fuel vec : moves R (send_all fuel vec).
Proof. unfold send_all, sendMessageVector. moves_solve. Qed.

Lemma moves_buffer_loop n : forall buf total k t, moves R (sendBuffer_loop n buf total k t).
Proof. induction n as [|n IH]; intros; cbn [sendBuffer_loop]; moves_solve. Qed.
#[local] Hint Resolve moves_buffer_loop moves_send_all : moves.
Lemma moves_sendBuffer fuel buf : moves R (sendBuffer fuel buf).
Proof. unfold sendBuffer. moves_solve. Qed.

Lemma moves_recv_loop n : forall off rem total t, moves R (recvExact_loop n off rem total t).
Proof. induction n as [|n IH]; intros; cbn [recvExact_loop]; moves_solve. Qed.
#[local] Hint Resolve moves_recv_loop moves_sendBuffer : moves.
Lemma moves_recvExact fuel n : moves R (recvExact fuel n).
Proof. unfold recvExact. moves_solve. Qed.
#[local] Hint Resolve moves_recvExact : moves.

Lemma moves_discard_loop fuel late n : moves R late -> forall rl total btr, moves R (discard_loop fuel n rl total btr late).
Proof. intros Hl. induction n as [|n IH]; intros; cbn [discard_loop]; moves_solve. Qed.
Lemma moves_discardPacket fuel n t : moves R (discardPacket fuel n t).
Proof. unfold discardPacket. moves_solve. apply moves_discard_loop. moves_solve. Qed.
Lemma moves_discardStored fuel pk : moves R (discardStoredPacket fuel pk).
Proof. unfold discardStoredPacket. moves_solve. apply moves_discard_loop. moves_solve. Qed.
#[local] Hint Resolve moves_discardPacket moves_discardStored : moves.
Lemma moves_receivePacket fuel pk t : moves R (receivePacket fuel pk t).
Proof. unfold receivePacket. moves_solve. Qed.

Lemma moves_local_packet n w : moves R (local_packet n w).
Proof. unfold local_packet. moves_solve. Qed.
#[local] Hint Resolve moves_receivePacket moves_local_packet : moves.
Lemma moves_acks fuel id st : moves R (sendPublishAcks fuel id st).
Proof. unfold sendPublishAcks. moves_solve. Qed.
Lemma moves_ping fuel : moves R (MQTT_Ping fuel).
Proof. unfold MQTT_Ping. moves_solve. Qed.
#[local] Hint Resolve moves_acks moves_ping : moves.
Lemma moves_keep_alive fuel : moves R (handleKeepAlive fuel).
Proof. unfold handleKeepAlive. moves_solve. Qed.

Lemma moves_header n w : moves R (header_bytes n w).
Proof. unfold header_bytes. moves_solve. Qed.
#[local] Hint Resolve moves_keep_alive moves_header : moves.
Lemma moves_subscriptions fuel n slots q : forall vs l, moves R (send_subscriptions fuel n slots q vs l).
Proof. induction n as [|n IH]; intros; cbn [send_subscriptions]; moves_solve. Qed.
#[local] Hint Resolve moves_subscriptions : moves.

Lemma moves_MQTT_Subscribe fuel l id : moves R (MQTT_Subscribe fuel l id).
Proof. unfold MQTT_Subscribe, sendSubscribeWithoutCopy. moves_solve. Qed.
Lemma moves_MQTT_Unsubscribe fuel l id : moves R (MQTT_Unsubscribe fuel l id).
Proof. unfold MQTT_Unsubscribe, sendUnsubscribeWithoutCopy. moves_solve. Qed.
Lemma moves_MQTT_Publish fuel p id : moves R (MQTT_Publish fuel p id).
Proof. unfold MQTT_Publish, sendPublishWithoutCopy. moves_solve. Qed.
Lemma moves_MQTT_GetPacketId : moves R MQTT_GetPacketId.
Proof. unfold MQTT_GetPacketId. auto with moves. Qed.
Lemma moves_MQTT_Disconnect fuel : moves R (MQTT_Disconnect fuel).
Proof. unfold MQTT_Disconnect. moves_solve. Qed.
Lemma moves_MQTT_Init b : moves R (MQTT_Init b).
Proof. unfold MQTT_Init. moves_solve. Qed.
Lemma moves_MQTT_InitStatefulQoS o i : moves R (MQTT_InitStatefulQoS o i).
Proof. unfold MQTT_InitStatefulQoS. moves_solve. Qed.

(** CONNECT *)

Lemma follows_length_loop n : forall rl m d e s, R s (getRemainingLength_loop trecv n rl m d e s).2.
Proof.
  induction n as [|n IH]; intros; cbn [getRemainingLength_loop]; [reflexivity|].
  destruct (bool_decide _); [reflexivity|]. pose proof (fo_recv 1 s) as H. destruct (trecv 1 s) as [[r data] s1]. cbn in H.
  cbv zeta. destruct (bool_decide _); [|done]. destruct (bool_decide _); [done|]. destruct (bool_decide _); [|done].
  etransitivity; [exact H|apply IH].
Qed.

Lemma follows_incoming_header pk s : R s (MQTT_GetIncomingPacketTypeAndLength trecv pk s).2.
Proof.
  unfold MQTT_GetIncomingPacketTypeAndLength. destruct pk as [k|]; [|cbn; reflexivity].
  pose proof (fo_recv 1 s) as H. destruct (trecv 1 s) as [[r data] s1]. cbn in H. cbv zeta.
  destruct (bool_decide _); [|by destruct (bool_decide _)]. destruct (incomingPacketValid _); [|done].
  pose proof (follows_length_loop 5 0 1 0 0 s1) as H1. unfold getRemainingLength.
  destruct (getRemainingLength_loop trecv 5 0 1 0 0 s1) as [[rl d] s2]. cbn in H1.
  destruct (_ && _); (etransitivity; [exact H|exact H1]).
Qed.

Lemma moves_connack_loop n : forall t e lc pk, moves R (connack_loop n t e lc pk).
Proof.
  induction n as [|n IH]; intros; cbn [connack_loop]; moves_solve.
  apply moves_run. intros s. pose proof (follows_incoming_header (Some pk) s) as H.
  by destruct (MQTT_GetIncomingPacketTypeAndLength trecv (Some pk) s) as [[? ?] ?].
Qed.
#[local] Hint Resolve moves_connack_loop : moves.

Lemma moves_resend_pubrels fuel n : forall next st, moves R (resend_pubrels fuel n next st).
Proof. induction n as [|n IH]; intros [[id st'] cursor] st; cbn [resend_pubrels]; moves_solve. Qed.
#[local] Hint Resolve moves_resend_pubrels : moves.

Lemma moves_MQTT_Connect fuel ci will t sp : moves R (MQTT_Connect fuel ci will t sp).
Proof.
  unfold MQTT_Connect, sendConnectWithoutCopy, receiveConnack, handleSessionResumption. moves_solve.
Qed.

(** The receive loop, with a callback that follows too. *)

Context {A : MqttApp S}.
Context (moves_app : forall pk d, moves R (appCallback pk d)).
#[local] Hint Resolve moves_app : moves.

Lemma moves_publish_in fuel pk : moves R (handleIncomingPublish fuel pk).
Proof. unfold handleIncomingPublish. moves_solve. Qed.
Lemma moves_acks_in fuel pk : moves R (handlePublishAcks fuel pk).
Proof. unfold handlePublishAcks. moves_solve. Qed.
#[local] Hint Resolve moves_publish_in moves_acks_in : moves.
Lemma moves_ack_in fuel pk keep : moves R (handleIncomingAck fuel pk keep).
Proof. unfold handleIncomingAck. moves_solve. Qed.
Lemma moves_parse r : moves R (parse_buffered r).
Proof. unfold parse_buffered. moves_solve. Qed.
#[local] Hint Resolve moves_ack_in moves_parse : moves.
Lemma moves_handle_buffered fuel pk keep : moves R (handle_buffered fuel pk keep).
Proof. unfold handle_buffered. moves_solve. Qed.
#[local] Hint Resolve moves_handle_buffered : moves.
Lemma moves_iteration fuel keep : moves R (receiveSingleIteration fuel keep).
Proof. unfold receiveSingleIteration. moves_solve. Qed.
Lemma moves_MQTT_ProcessLoop fuel : moves R (MQTT_ProcessLoop fuel).
Proof. unfold MQTT_ProcessLoop. apply moves_bind; [auto with moves|intros ?; apply moves_iteration]. Qed.
End Client.

#[export] Hint Resolve moves_MQTT_Subscribe moves_MQTT_Unsubscribe moves_MQTT_Publish moves_MQTT_GetPacketId
  moves_MQTT_Disconnect moves_MQTT_Init moves_MQTT_InitStatefulQoS moves_MQTT_Connect
  moves_time moves_getctx : moves.
