(* ===== verification/MqttClient.v ===== *)
(** * MqttClient: the client's requests and its receive loop

    Over any transport, clock and application that keep their laws: what a
    successful request put on the wire and left in flight, how the incoming
    byte stream is cut into packets, that a publish is handed to the
    application once, and how the keep-alive behaves. *)

From S2P Require Import Prelude MqttTypes MqttState MqttSerializer MqttCore MqttStateProps MqttWire MqttCoreProps MqttFrame.
From Stdlib Require Import ZArith Lia.
From stdpp Require Import base list sets numbers strings.

Local Open Scope cything_scope.

Section Requests.
Context {S : Type} {N : MqttNet S} {L : MqttNetLaws S}.

Lemma header_bytes_wp n w bs (Q : bytes -> S -> Prop) s :
  writes w bs -> length bs <= n -> Q bs s -> wp (header_bytes n w) Q s.
Proof.
  intros Hw Hn H. unfold header_bytes. apply wp_bind. eapply wp_access.
  { apply Hw. unfold zeros. rewrite length_replicate. lia. }
  apply wp_pret. rewrite take_blit by (unfold zeros; rewrite length_replicate; lia). done.
Qed.

(** A step of the state machine, told by the two logs. *)
Lemma log_wp {B} (f : MQTTContext_t -> B * MQTTContext_t) o (Q : B -> S -> Prop) s :
  flight_ok (ctx s) -> (f (ctx s)).2 = (run_op (ctx s) o).2 ->
  (forall s', handled s s' -> wire s' = wire s ->
     spec_op (length (outgoingPublishRecords (ctx s))) (length (incomingPublishRecords (ctx s))) (view (ctx s)) o
       = ((run_op (ctx s) o).1, view (ctx s')) -> Q (f (ctx s)).1 s') ->
  wp (onctx f) Q s.
Proof.
  intros Hf E H. eapply flight_wp; [done|done|]. intros s' Ec Hh Hw. apply H; [done|done|].
  pose proof (op_refined (ctx s) Hf o) as Ho. unfold op_refines in Ho. destruct (run_op (ctx s) o) as [st c'].
  cbn [fst snd] in *. destruct Ho as (_ & _ & ->). by rewrite Ec.
Qed.

(** ** PUBLISH *)

(** The state a publish of the client waits in. *)
Definition awaiting (id : Z) (q : MQTTQoS_t) : MQTTPubAckInfo_t :=
  Build_record id q (MQTT_CalculateStatePublish MQTT_SEND q).

Lemma log_find_Some l id a r b : log_find l id = Some (a, r, b) -> l = a ++ r :: b /\ packetId r = id.
Proof.
  revert a. induction l as [|x l IH]; intros a; [done|]. cbn [log_find]. case_bool_decide as E.
  - by intros [= <- <- <-].
  - destruct (log_find l id) as [[[a' r'] b']|]; [|done]. intros [= <- <- <-]. by destruct (IH a' eq_refl) as [-> ?].
Qed.

Lemma sent_in_flight l id q l' :
  Forall out_phase l -> log_sent l id q = (MQTTSuccess, l') -> awaiting id q ∈ l'.
Proof.
  intros Hl. unfold log_sent. destruct (log_find l id) as [[[a r] b]|] eqn:E; [|done].
  destruct (log_find_Some _ _ _ _ _ E) as [-> Hid]. apply Forall_app in Hl as [_ Hl]. apply Forall_cons_1 in Hl as [Hr _].
  case_bool_decide as Hq; [done|]. destruct r as [i q' st]. cbn in Hid, Hq. subst i q'.
  unfold out_phase in Hr. cbn [qos publishState] in *.
  destruct q, st; try done; cbn [log_effect]; intros [= <-]; apply elem_of_app; right; left.
Qed.

Lemma awaiting_in_ids id q rs : (id <> 0)%Z -> awaiting id q ∈ live rs -> id ∈ ids rs.
Proof. intros H Hin. unfold ids. apply list_elem_of_fmap. by exists (awaiting id q). Qed.

Lemma writes_publish_head p t rl id m :
  message p t m -> length_ok rl -> rl = Z.of_nat (length (publish_body p t m id)) ->
  exists h, writes (MQTT_SerializePublishHeaderWithoutTopic p rl) h /\ length h <= 7 /\
    packet (publish_flags p) (publish_body p t m id) = h ++ t ++ wire_id (pub_qos p) id ++ m.
Proof.
  intros Hm Hok ->. destruct (message_lengths _ _ _ Hm) as [Et _].
  exists ([publish_flags p] ++ varint (Z.of_nat (length (publish_body p t m id))) ++ be16 (topicNameLength p)).
  split; [|split].
  - unfold MQTT_SerializePublishHeaderWithoutTopic.
    repeat (apply writes_seq; [apply writes_poke || by apply writes_varint|]).
    change (be16 ?x) with ([UINT16_HIGH_BYTE x] ++ [UINT16_LOW_BYTE x]). apply writes_seq; apply writes_poke.
  - rewrite !length_app, be16_length. cbn [length]. pose proof (varint_length (Z.of_nat (length (publish_body p t m id)))).
    pose proof (size_bound (Z.of_nat (length (publish_body p t m id)))). lia.
  - unfold packet. cbn [app]. f_equal. rewrite <- app_assoc. f_equal. unfold publish_body, publish_head, wire_string.
    by rewrite Et, <- !app_assoc.
Qed.

Definition publish_packet (p : MQTTPublishInfo_t) (t m : bytes) (id : Z) : bytes :=
  packet (publish_flags p) (publish_body p t m id).

Lemma publish_vectors_wp fuel p t m id h (Q : MQTTStatus_t -> S -> Prop) s :
  message p t m ->
  (forall vec, mjoin vec = h ++ t ++ wire_id (pub_qos p) id ++ m -> wp (send_all fuel vec) Q s) ->
  wp (sendPublishWithoutCopy fuel p h id) Q s.
Proof.
  intros [Ht Hl Hm Hn] H. unfold sendPublishWithoutCopy. apply wp_bind. eapply wp_access; [exact Ht|]. apply wp_bind.
  assert (forall pl : list bytes, mjoin pl = m ->
    wp (send_all fuel ([h; t] ++ (if bool_decide (pub_qos p <> MQTTQoS0) then [[UINT16_HIGH_BYTE id; UINT16_LOW_BYTE id]] else []) ++ pl)) Q s) as Hk.
  { intros pl <-. apply H. cbn [app mjoin list_join]. do 2 f_equal. rewrite join_app. f_equal.
    destruct (pub_qos p); cbn; by rewrite ?app_nil_r. }
  unfold payload_of in Hm. destruct (decide (payloadLength p = 0)%Z) as [E|E];
    [rewrite bool_decide_eq_true_2 in Hm by done|rewrite bool_decide_eq_false_2 in Hm by done].
  - rewrite (bool_decide_eq_false_2 (_ > 0)%Z) by lia. apply wp_pret, Hk. by injection Hm as <-.
  - rewrite (bool_decide_eq_true_2 (_ > 0)%Z) by lia. unfold field in Hm. destruct (pPayload p) as [src|]; [|done]. cbn in Hm |- *.
    eapply wp_access; [by rewrite Hm|]. apply Hk. cbn. apply app_nil_r.
Qed.

(** A publish puts a prefix of its packet on the wire, all of it and nothing
    else when it succeeds; a QoS 1 or 2 publish that succeeded waits for its
    acknowledgement. The receive buffer is not touched. *)
Definition published (p : MQTTPublishInfo_t) (t m : bytes) (id : Z) (s : S) (st : MQTTStatus_t) (s' : S) : Prop :=
  quiet (ctx s) (ctx s') /\
  (exists j, emitted s s' (take j (publish_packet p t m id))) /\
  (st = MQTTSuccess ->
     emitted s s' (publish_packet p t m id) /\
     (pub_qos p <> MQTTQoS0 -> awaiting id (pub_qos p) ∈ live (outgoingPublishRecords (ctx s')))).

Lemma published_none p t m id s s' st :
  handled s s' -> wire s' = wire s -> st <> MQTTSuccess -> published p t m id s st s'.
Proof. intros [Hq _] Hw Hst. split; [done|]. split; [|done]. exists 0. by apply emitted_nil. Qed.

Lemma published_after p t m id s s1 s2 st :
  handled s s1 -> wire s1 = wire s -> published p t m id s1 st s2 -> published p t m id s st s2.
Proof.
  intros [Hq _] Hw (Hq2 & (j & Hj) & Hs). unfold published, emitted, sent, arrived in *. rewrite <- Hw.
  split; [by transitivity (ctx s1)|]. eauto.
Qed.

Lemma publish_tail_wp fuel p t m id h s :
  message p t m -> (pub_qos p <> MQTTQoS0 -> id <> 0)%Z -> flight_ok (ctx s) ->
  publish_packet p t m id = h ++ t ++ wire_id (pub_qos p) id ++ m ->
  wp (let! status := sendPublishWithoutCopy fuel p h id in
      if mqtt_ok status && bool_decide (pub_qos p <> MQTTQoS0) then
        onctx (fun c => let '(status, _, c) := MQTT_UpdateStatePublish c id MQTT_SEND (pub_qos p) in (status, c))
      else pret status) (published p t m id s) s.
Proof.
  intros Hm Hid Hf Eh. apply wp_bind, (publish_vectors_wp _ _ t m); [done|]. intros vec Ev.
  rewrite <- Eh in Ev. apply send_all_wp. rewrite Ev. intros st s1 Htx Hst (j & _ & Hj) Hs.
  pose proof (tx_quiet _ _ Htx) as Hq. assert (flight_ok (ctx s1)) as Hf1 by (by apply Hq).
  destruct (mqtt_ok st && _) eqn:E.
  - apply andb_true_iff in E as [E1 E2]. assert (st = MQTTSuccess) as -> by (by destruct st). specialize (Hs eq_refl).
    apply bool_decide_eq_true_1 in E2. eapply (log_wp _ (OpSent id (pub_qos p))); [done|done|].
    intros s2 [Hq2 _] Hw2 Hl.
    assert (emitted s s2 (publish_packet p t m id)) as He by (unfold emitted; congruence).
    split; [by transitivity (ctx s1)|]. split; [exists j; unfold emitted; congruence|]. intros Est. split; [done|]. intros _.
    cbn [run_op spec_op view] in *. unfold publish_guard, MQTT_PACKET_ID_INVALID in Hl.
    rewrite (bool_decide_eq_false_2 (pub_qos p = _)), (bool_decide_eq_false_2 (id = 0)%Z) in Hl by auto.
    destruct (MQTT_UpdateStatePublish _ _ _ _) as [[st1 os] c1]. cbn [fst snd] in *. subst st1.
    injection Hl as H1 H2 H3. rewrite <- H2. eapply (sent_in_flight (live (outgoingPublishRecords (ctx s1)))); [apply Hf1|].
    destruct (log_sent _ _ _); cbn in *; congruence.
  - apply wp_pret. split; [done|]. split; [by exists j|]. intros ->. split; [by apply Hs|]. intros Hq0.
    change (mqtt_ok MQTTSuccess) with true in E. by rewrite bool_decide_eq_true_2 in E.
Qed.

Lemma publish_wp fuel p t m id s :
  message p t m -> flight_ok (ctx s) -> wp (MQTT_Publish fuel (Some p) id) (published p t m id s) s.
Proof.
  intros Hm Hf. unfold MQTT_Publish. apply wp_bind, wp_getctx.
  assert (forall st : MQTTStatus_t, mqtt_ok st = false -> wp (pret st) (published p t m id s) s) as Hno.
  { intros st H. apply wp_pret, published_none; [done..|]. by intros ->. }
  destruct (mqtt_ok (validatePublishParams _ _ _)) eqn:Ev; cbn [negb]; [|by apply Hno].
  pose proof (publish_sizes p t m id Hm) as Hs. unfold MQTT_GetPublishPacketSize.
  destruct (bool_decide (pTopicName p = None) || _); [by apply Hno|].
  destruct (calculatePublishPacketSize p) as [[rl ps]|]; [|by apply Hno]. destruct Hs as (Hok & Erl & Eps).
  change (mqtt_ok MQTTSuccess) with true. cbv iota. cbn [negb]. apply wp_bind. eapply wp_access; [done|].
  apply wp_bind. eapply wp_access; [done|].
  destruct (writes_publish_head p t rl id m Hm Hok Erl) as (h & Hw & Hl & Eh).
  apply wp_bind. eapply header_bytes_wp; [exact Hw|done|].
  assert (pub_qos p <> MQTTQoS0 -> id <> 0%Z) as Hid.
  { intros Hq ->. unfold validatePublishParams in Ev. by rewrite bool_decide_eq_true_2 in Ev. }
  apply wp_bind. destruct (bool_decide (pub_qos p <> MQTTQoS0)) eqn:Eq.
  - apply wp_bind. eapply (log_wp _ (OpReserve id (pub_qos p))); [done|done|]. intros s1 Hh1 Hw1 _. apply wp_pret.
    destruct (mqtt_ok (if _ && _ then _ else _)) eqn:E4; cbn [negb].
    + pose proof (publish_tail_wp fuel p t m id h s1 Hm Hid (qt_flight _ _ (proj1 Hh1) Hf) Eh) as Ht. rewrite Eq in Ht.
      eapply wp_mono; [exact Ht|]. intros st s2. by apply published_after.
    + apply wp_pret, published_none; [done|done|]. intros E5. by rewrite E5 in E4.
  - apply wp_pret. change (mqtt_ok MQTTSuccess) with true. cbn [negb]. pose proof (publish_tail_wp fuel p t m id h s) as Ht.
    rewrite Eq in Ht. by apply Ht.
Qed.

(** *** What a PUBLISH leaves alone, whatever it is asked to send *)

(** The receive buffer, the bytes received and the records of the server's
    publishes are as they were. *)
Definition mindful (s s' : S) : Prop :=
  flight_ok (ctx s) -> handled s s' /\ incomingPublishRecords (ctx s') = incomingPublishRecords (ctx s).

#[export] Instance mindful_preorder : PreOrder mindful.
Proof.
  split; [by intros s|]. intros s1 s2 s3 H1 H2 Hf. destruct (H1 Hf) as [[Hq1 Ha1] E1].
  destruct (H2 (qt_flight _ _ Hq1 Hf)) as [[Hq2 Ha2] E2]. split; [split; [by transitivity (ctx s2)|congruence]|congruence].
Qed.

Lemma mindful_wp {B} (m : PT S B) : (forall s, wp m (fun _ s' => mindful s s') s) -> moves mindful m.
Proof. intros H s. specialize (H s). unfold wp in H. destruct (m s) as [[? ?]| |]; done. Qed.

Lemma mindful_getctx : moves mindful getctx.
Proof. apply mindful_wp. intros s. by apply wp_getctx. Qed.

(** The client's own publishes are kept apart from the server's. *)
Lemma own_publish_in c id q :
  incomingPublishRecords (run_op c (OpReserve id q)).2 = incomingPublishRecords c /\
  incomingPublishRecords (run_op c (OpSent id q)).2 = incomingPublishRecords c.
Proof.
  cbn [run_op]. unfold MQTT_ReserveState, MQTT_UpdateStatePublish, updateStatePublish. destruct c.
  split; repeat (case_match; simplify_eq; cbn in *; try done).
Qed.

Lemma mindful_op {B} (f : MQTTContext_t -> B * MQTTContext_t) o :
  (forall c, (f c).2 = (run_op c o).2) -> (forall c, incomingPublishRecords (run_op c o).2 = incomingPublishRecords c) ->
  moves mindful (onctx f).
Proof.
  intros E Ei. apply mindful_wp. intros s. apply wp_onctx. intros Hf. unfold handled, arrived. rewrite ctx_set, wire_set, E, Ei.
  split; [|done]. split; [|done]. by apply run_op_quiet.
Qed.

Lemma mindful_id : moves mindful MQTT_GetPacketId.
Proof.
  apply mindful_wp. intros s. apply wp_onctx. intros Hf. unfold handled, arrived. rewrite ctx_set, wire_set.
  destruct (ctx s). split; [|done]. split; [|done]. split; try done. by apply flight_same.
Qed.

Lemma mindful_send_all fuel vec : moves mindful (send_all fuel vec).
Proof.
  apply mindful_wp. intros s. apply send_all_wp. intros st s' Htx _ (j & _ & Hw) _ Hf.
  split; [split; [by apply tx_quiet|unfold arrived at 1; by rewrite Hw]|]. rewrite Htx. by destruct (ctx s).
Qed.

Lemma mindful_publish fuel po id : moves mindful (MQTT_Publish fuel po id).
Proof.
  pose proof mindful_getctx. pose proof mindful_send_all.
  assert (forall q, moves mindful (onctx (fun c => MQTT_ReserveState c id q))) as Hres.
  { intros q. apply (mindful_op _ (OpReserve id q)); [done|intros c; apply own_publish_in]. }
  assert (forall q, moves mindful (onctx (fun c => let '(st, _, c) := MQTT_UpdateStatePublish c id MQTT_SEND q in (st, c)))) as Hsent.
  { intros q. apply (mindful_op _ (OpSent id q)); [done|intros c; apply own_publish_in]. }
  unfold MQTT_Publish, sendPublishWithoutCopy, header_bytes. moves_solve.
Qed.

(** C24: PUBLISH: whatever the transport does, only a prefix of this message's
    packet leaves the device; success means exactly the packet left, and that
    a QoS 1 or 2 message is in flight, waiting for its acknowledgement. *)
Theorem publish_sends_its_packet fuel p t m id s :
  message p t m -> flight_ok (ctx s) -> wp (MQTT_Publish fuel (Some p) id) (published p t m id s) s.
Proof. apply publish_wp. Qed.

(** ** SUBSCRIBE and UNSUBSCRIBE *)

(** All of [bs] went out on success, a prefix of it otherwise. *)
Definition sends (bs : bytes) (s : S) (st : MQTTStatus_t) (s' : S) : Prop :=
  quiet (ctx s) (ctx s') /\ (exists j, emitted s s' (take j bs)) /\ (st = MQTTSuccess -> emitted s s' bs).

Lemma sends_nothing bs s s' st : quiet (ctx s) (ctx s') -> wire s' = wire s -> st <> MQTTSuccess -> sends bs s st s'.
Proof. intros Hq Hw Hst. split; [done|]. split; [|done]. exists 0. by apply emitted_nil. Qed.

Lemma sends_all fuel vec bs s : mjoin vec = bs -> wp (send_all fuel vec) (sends bs s) s.
Proof.
  intros <-. apply send_all_wp. intros st s' Htx _ (j & _ & Hj) Hs. split; [by apply tx_quiet|]. split; [by exists j|auto].
Qed.

(** Sent in two parts. *)
Lemma sends_app a b s s1 s2 st : sends a s MQTTSuccess s1 -> sends b s1 st s2 -> sends (a ++ b) s st s2.
Proof.
  intros (Hq1 & _ & H1) (Hq2 & (j & Hj) & H2). specialize (H1 eq_refl). split; [by transitivity (ctx s1)|]. split.
  - exists (length a + j). rewrite take_app_add'; [|done]. exact (emitted_trans _ _ _ _ _ H1 Hj).
  - intros E. exact (emitted_trans _ _ _ _ _ H1 (H2 E)).
Qed.

Lemma sends_prefix a b s s1 st : st <> MQTTSuccess -> sends a s st s1 -> sends (a ++ b) s st s1.
Proof.
  intros Hst (Hq & (j & Hj) & _). split; [done|]. split; [|done]. exists (j `min` length a).
  rewrite take_app_le by lia. rewrite <- take_take, (firstn_all a). exact Hj.
Qed.

Definition with_qos (ty : MQTTSubscriptionType_t) : bool :=
  match ty with MQTT_SUBSCRIBE => true | MQTT_UNSUBSCRIBE => false end.
Definition filter_slots (ty : MQTTSubscriptionType_t) : nat :=
  match ty with MQTT_SUBSCRIBE => 3 | MQTT_UNSUBSCRIBE => 2 end.

Lemma filter_vectors ty x t :
  filter_ok x t -> exists v, addEncodedStringToVector (pTopicFilter x) (topicFilterLength x) = Some v /\
    mjoin (v ++ (if with_qos ty then [[qos_byte (sub_qos x)]] else [])) = wire_filter ty x t.
Proof.
  intros H. pose proof (filter_ok_length _ _ H) as Hlen. destruct H as [Hf Hl]. unfold field in Hf.
  destruct (pTopicFilter x) as [src|]; [|done]. cbn in Hf. unfold addEncodedStringToVector.
  rewrite bool_decide_eq_true_2 by lia. rewrite Hf. eexists. split; [done|].
  unfold wire_filter, wire_string. rewrite Hlen. destruct ty; cbn [with_qos app mjoin list_join]; rewrite ?app_nil_r; done.
Qed.

(** The inner loop takes as many filters as fit, one at least when it starts
    with a free slot. *)
Lemma subscription_vectors_spec ty l ts : forall k,
  Forall2 filter_ok l ts ->
  exists vs i, subscription_vectors (filter_slots ty) (with_qos ty) l k = Some (vs, drop i l) /\ i <= length l /\
    mjoin vs = mjoin (zip_with (wire_filter ty) (take i l) (take i ts)) /\
    (k <= 1 -> l <> [] -> 1 <= i).
Proof.
  intros k H. revert k. induction H as [|x t l ts Hx Hl IH]; intros k; cbn [subscription_vectors].
  { exists [], 0. by split_and!. }
  case_bool_decide as Hk.
  - destruct (filter_vectors ty x t Hx) as (v & -> & Hv). cbn [mbind option_bind].
    destruct (IH (k + length (v ++ (if with_qos ty then [[qos_byte (sub_qos x)]] else [])))) as (vs & i & -> & Hi & Hvs & _).
    cbn [mbind option_bind]. exists ((v ++ (if with_qos ty then [[qos_byte (sub_qos x)]] else [])) ++ vs), (Datatypes.S i).
    split; [done|]. cbn [length take zip_with]. split; [lia|]. split; [|lia].
    rewrite join_app, Hvs, Hv. done.
  - exists [], 0. split; [done|]. split; [lia|]. split; [done|].
    intros H1 _. exfalso. apply Hk. unfold MQTT_SUB_UNSUB_MAX_VECTORS, filter_slots. destruct ty; lia.
Qed.

Lemma zip_split ty l ts i :
  length l = length ts ->
  mjoin (zip_with (wire_filter ty) l ts) =
    mjoin (zip_with (wire_filter ty) (take i l) (take i ts)) ++ mjoin (zip_with (wire_filter ty) (drop i l) (drop i ts)).
Proof.
  intros H. rewrite <- join_app, <- zip_with_app by (rewrite !length_take; lia). by rewrite !take_drop.
Qed.

Lemma send_subscriptions_wp fuel ty n : forall vectors l ts s,
  Forall2 filter_ok l ts -> length l <= n -> length vectors <= 1 -> (l = [] -> vectors = []) ->
  wp (send_subscriptions fuel n (filter_slots ty) (with_qos ty) vectors l)
    (sends (mjoin vectors ++ mjoin (zip_with (wire_filter ty) l ts)) s) s.
Proof.
  induction n as [|n IH]; intros vectors l ts s Hl Hn Hv Hnil; cbn [send_subscriptions].
  all: destruct l as [|x l0] eqn:El;
    [rewrite Hnil by done; apply wp_pret; split; [done|]; split; [exists 0|intros _]; by apply emitted_nil|].
  { cbn in Hn. lia. }
  rewrite <- El in *. assert (l <> []) as Hne by (by rewrite El). clear El x l0.
  destruct (subscription_vectors_spec ty l ts (length vectors) Hl) as (vs & i & -> & Hi & Hvs & H1).
  specialize (H1 Hv Hne). apply wp_bind. eapply wp_access; [done|].
  rewrite (zip_split ty l ts i) by (by eapply Forall2_length). rewrite (assoc (++)).
  apply wp_bind. eapply wp_mono; [apply sends_all; by rewrite join_app, Hvs|]. intros st s1 Hs.
  destruct (mqtt_ok st) eqn:E.
  - assert (st = MQTTSuccess) as -> by (by destruct st).
    eapply wp_mono; [apply (IH [] (drop i l) (drop i ts)); [by apply Forall2_drop|rewrite length_drop; lia|cbn; lia|done]|].
    intros st' s2. by apply sends_app.
  - apply wp_pret, sends_prefix; [by intros ->|done].
Qed.

(** The two requests, by type. *)
Definition subscription_request (ty : MQTTSubscriptionType_t) (fuel : nat) :=
  match ty with MQTT_SUBSCRIBE => MQTT_Subscribe fuel | MQTT_UNSUBSCRIBE => MQTT_Unsubscribe fuel end.

Definition header_writer (ty : MQTTSubscriptionType_t) (rl id : Z) : writer :=
  match ty with MQTT_SUBSCRIBE => MQTT_SerializeSubscribeHeader rl id | MQTT_UNSUBSCRIBE => MQTT_SerializeUnsubscribeHeader rl id end.

Lemma writes_subscription_header ty rl id :
  length_ok rl -> exists h, writes (header_writer ty rl id) h /\ length h <= 7 /\
    h = subscription_type ty :: varint rl ++ be16 id.
Proof.
  intros Hok. exists ([subscription_type ty] ++ varint rl ++ be16 id). split; [|split; [|done]].
  - destruct ty; repeat (apply writes_seq; [apply writes_poke || by apply writes_varint|]); apply (writes_poke (be16 id)).
  - rewrite !length_app, be16_length. cbn [length]. pose proof (varint_length rl). pose proof (size_bound rl). lia.
Qed.

Lemma subscription_guard_size ty l ts id rl ps :
  Forall2 filter_ok l ts -> (2 + Z.of_nat (length l) * 65538 < 2 ^ 32)%Z ->
  subscription_guard (Some l) ty = (MQTTSuccess, Some (rl, ps)) ->
  l <> [] /\ length_ok rl /\ rl = Z.of_nat (length (subscription_body ty l ts id)).
Proof.
  intros Hl Hb Hg. unfold subscription_guard in Hg. destruct (decide (l = [])) as [->|Hne]; [done|]. split; [done|].
  rewrite bool_decide_eq_false_2 in Hg by done. unfold calculateSubscriptionPacketSize in Hg.
  rewrite (subscription_sizes ty l ts) in Hg by (done || lia). unfold MQTT_MAX_REMAINING_LENGTH in Hg.
  case_bool_decide as Hmax; [done|]. change (mqtt_ok MQTTSuccess) with true in Hg. cbv iota in Hg.
  unfold subscription_body. rewrite length_app, be16_length.
  remember (Z.of_nat (length (mjoin (zip_with (wire_filter ty) l ts)))) as k eqn:Ek. injection Hg as <- _.
  unfold length_ok, MQTT_MAX_REMAINING_LENGTH. lia.
Qed.

(** SUBSCRIBE and UNSUBSCRIBE: however many messages the filters are split
    over and whatever the transport does, what leaves the device is a prefix of
    the one packet of the standard with all the filters in order; all of it on
    success. *)
Theorem subscribe_sends_its_packet fuel ty l ts id s :
  Forall2 filter_ok l ts -> (2 + Z.of_nat (length l) * 65538 < 2 ^ 32)%Z ->
  wp (subscription_request ty fuel (Some l) id)
    (sends (packet (subscription_type ty) (subscription_body ty l ts id)) s) s.
Proof.
  intros Hl Hb.
  assert (subscription_request ty fuel (Some l) id =
    (let! c := getctx in
     let status := validateSubscribeUnsubscribeParams c (Some l) id in
     if negb (mqtt_ok status) then pret status else
     let '(status, sizes) := subscription_guard (Some l) ty in
     if negb (mqtt_ok status) then pret status else
     let! (remainingLength, _) := access sizes in
     let! l := access (Some l) in
     let! h := header_bytes 7 (header_writer ty remainingLength id) in
     send_subscriptions fuel (length l) (filter_slots ty) (with_qos ty) [h] l)) as -> by (by destruct ty).
  apply wp_bind, wp_getctx. cbv zeta.
  assert (forall st : MQTTStatus_t, mqtt_ok st = false ->
    wp (pret st) (sends (packet (subscription_type ty) (subscription_body ty l ts id)) s) s) as Hno.
  { intros st H. apply wp_pret, sends_nothing; [done..|]. by intros ->. }
  destruct (mqtt_ok (validateSubscribeUnsubscribeParams _ _ _)) eqn:Ev; cbn [negb]; [|by apply Hno].
  destruct (subscription_guard (Some l) ty) as [st sizes] eqn:Eg. destruct (mqtt_ok st) eqn:Es; cbn [negb]; [|by apply Hno].
  assert (st = MQTTSuccess) as -> by (by destruct st).
  destruct sizes as [[rl ps]|].
  2: { exfalso. revert Eg. unfold subscription_guard. destruct (bool_decide (l = [])); [done|].
       unfold calculateSubscriptionPacketSize. destruct (subscription_size _ _ _ _) as [k st0].
       destruct (bool_decide (k > _)%Z); [done|]. intros [= E1 E2]. by rewrite E1 in E2. }
  destruct (subscription_guard_size ty l ts id rl ps Hl Hb Eg) as (Hne & Hok & Erl).
  apply wp_bind. eapply wp_access; [done|]. apply wp_bind. eapply wp_access; [done|].
  destruct (writes_subscription_header ty rl id Hok) as (h & Hw & H7 & Eh).
  apply wp_bind. eapply header_bytes_wp; [exact Hw|done|].
  eapply wp_mono; [apply (send_subscriptions_wp fuel ty (length l) [h] l ts); [done|done|done|by intros ->]|].
  assert (packet (subscription_type ty) (subscription_body ty l ts id) = mjoin [h] ++ mjoin (zip_with (wire_filter ty) l ts)) as ->; [|done].
  cbn [mjoin list_join]. rewrite app_nil_r, Eh. unfold packet. rewrite <- Erl. cbn [app]. f_equal. unfold subscription_body.
  by rewrite <- !app_assoc.
Qed.
End Requests.

Section Deliveries.
Context {S : Type} {N : MqttNet S} {L : MqttNetLaws S} {A : MqttApp S} {AL : MqttAppLaws}.

(** ** PUBLISH received *)

#[local] Transparent pbind pret run access no_fuel.

(** The deserialiser accepts the packet as message [info] under [id]. *)
Definition carries (pk : MQTTPacketInfo_t) (id : Z) (info : MQTTPublishInfo_t) : Prop :=
  MQTT_DeserializePublish (Some pk) (Some 0%Z) (Some uninit_publish) = Some (MQTTSuccess, Some id, Some info).

Definition received_state (info : MQTTPublishInfo_t) : MQTTPublishState_t :=
  MQTT_CalculateStatePublish MQTT_RECEIVE (pub_qos info).

(** The handler on a QoS 1 or 2 publish, by the log of the server's publishes. *)
Definition delivery (fuel : nat) (pk : MQTTPacketInfo_t) (id : Z) (info : MQTTPublishInfo_t) (s s1 : S)
    : outcome (MQTTStatus_t * S) :=
  if bool_decide (id ∈ ids (incomingPublishRecords (ctx s)))
  then sendPublishAcks fuel id (received_state info) s1
  else if bool_decide (length (live (incomingPublishRecords (ctx s))) < length (incomingPublishRecords (ctx s)))
  then (appCallback pk (Build_deserialized id (Some info) MQTTSuccess) ;! sendPublishAcks fuel id (received_state info)) s1
  else Done (MQTTNoMemory, s1).

Definition log_after (s : S) (id : Z) (info : MQTTPublishInfo_t) : list MQTTPubAckInfo_t :=
  let l := live (incomingPublishRecords (ctx s)) in
  if bool_decide (id ∈ ids (incomingPublishRecords (ctx s))) then l
  else if bool_decide (length l < length (incomingPublishRecords (ctx s)))
  then l ++ [Build_record id (pub_qos info) (received_state info)] else l.

Lemma delivery_by_log fuel pk id info s :
  carries pk id info -> flight_ok (ctx s) -> (id <> 0)%Z -> pub_qos info <> MQTTQoS0 ->
  incomingPublishRecords (ctx s) <> [] ->
  exists s1, handled s s1 /\ wire s1 = wire s /\ live (incomingPublishRecords (ctx s1)) = log_after s id info /\
    handleIncomingPublish fuel pk s = delivery fuel pk id info s s1.
Proof.
  intros Hc Hf Hid Hq Hne. pose proof (op_refined (ctx s) Hf (OpReceived id (pub_qos info))) as Ho.
  pose proof (run_op_quiet (ctx s) (OpReceived id (pub_qos info)) Hf) as Hqt.
  unfold op_refines in Ho. cbn [run_op spec_op view fst snd] in Ho, Hqt.
  unfold handleIncomingPublish. unfold carries in Hc. rewrite Hc. cbn [access pbind].
  change (default 0%Z (Some id)) with id. change (default uninit_publish (Some info)) with info.
  unfold pbind at 1, access. unfold pbind at 1, getctx.
  rewrite (bool_decide_eq_false_2 (incomingPublishRecords (ctx s) = [])) by done. rewrite andb_false_r. cbn [andb].
  change (mqtt_ok MQTTSuccess) with true. cbn [negb]. unfold pbind at 1, onctx.
  destruct (MQTT_UpdateStatePublish (ctx s) id MQTT_RECEIVE (pub_qos info)) as [[st os] c1] eqn:Eu.
  destruct Ho as (_ & _ & Hs). cbn [snd] in Hqt. exists (set_ctx c1 s).
  split; [split; [by rewrite ctx_set|unfold arrived; by rewrite wire_set]|]. split; [apply wire_set|]. rewrite ctx_set.
  unfold publish_guard, MQTT_PACKET_ID_INVALID in Hs.
  rewrite (bool_decide_eq_false_2 (pub_qos info = _)), (bool_decide_eq_false_2 (id = 0)%Z) in Hs by done.
  cbn [snd fst] in Hs. injection Hs as Est _ Elive.
  unfold log_add in Est, Elive. cbn [packetId] in Est, Elive. rewrite <- log_ids in Est, Elive by apply live_all.
  assert (ids (live (incomingPublishRecords (ctx s))) = ids (incomingPublishRecords (ctx s))) as Ei.
  { unfold ids. by rewrite (live_used (live _)) by apply live_all. }
  rewrite Ei in *. unfold delivery, log_after. fold (received_state info) in *.
  destruct (bool_decide (id ∈ _)); cbn [fst snd] in *.
  { subst st. by rewrite <- Elive. }
  destruct (bool_decide (_ < _)); cbn [fst snd] in *; subst st; rewrite <- Elive; split; try done.
  rewrite (bool_decide_eq_false_2 (MQTTSuccess = _)) by done.
  assert (default MQTTStateNull os = received_state info) as ->; [|done].
  revert Eu. unfold MQTT_UpdateStatePublish, MQTT_PACKET_ID_INVALID.
  rewrite (bool_decide_eq_false_2 (pub_qos info = _)), (bool_decide_eq_false_2 (id = 0)%Z) by done.
  destruct (updateStatePublish _ _ _ _ _ _ _) as [st' c']. intros [= -> <- _]. done.
Qed.

(** *** Until the server releases the id *)

#[local] Opaque pbind pret run access no_fuel.

(** A QoS 2 publish of the server is on record, and its PUBREL has not come. *)
Definition unreleased (id : Z) (c : MQTTContext_t) : Prop :=
  flight_ok c /\ exists st, (st = MQTTPubRecSend \/ st = MQTTPubRelPending) /\
    Build_record id MQTTQoS2 st ∈ live (incomingPublishRecords c).

Lemma unreleased_id id c : unreleased id c -> id ∈ ids (incomingPublishRecords c).
Proof. intros (_ & st & _ & H). unfold ids. apply list_elem_of_fmap. by exists (Build_record id MQTTQoS2 st). Qed.

Lemma unreleased_same id c c' :
  (flight_ok c -> flight_ok c') -> live (incomingPublishRecords c') = live (incomingPublishRecords c) -> unreleased id c -> unreleased id c'.
Proof. intros Hf E [H1 H2]. split; [auto|]. by rewrite E. Qed.

(** Every operation of the state machine keeps it on record, but the PUBREL. *)
Lemma spec_op_unreleased id st0 capo capi Lg o :
  o <> OpAck id MQTTPubrel MQTT_RECEIVE -> (st0 = MQTTPubRecSend \/ st0 = MQTTPubRelPending) -> Build_record id MQTTQoS2 st0 ∈ Lg.2 ->
  exists st, (st = MQTTPubRecSend \/ st = MQTTPubRelPending) /\ Build_record id MQTTQoS2 st ∈ (spec_op capo capi Lg o).2.2.
Proof.
  intros Ho Hst Hin. destruct o as [i q|i q|i q|i ty op|i]; cbn [spec_op snd].
  - exists st0. split; [done|]. unfold publish_guard. by repeat case_bool_decide.
  - exists st0. split; [done|]. unfold publish_guard. by repeat case_bool_decide.
  - exists st0. split; [done|]. unfold publish_guard, log_add. repeat (case_bool_decide; cbn [snd]; try done). apply elem_of_app. by left.
  - case_bool_decide as Hi; [by exists st0|]. destruct (isPublishOutgoing ty op) eqn:Eo; cbn [snd]; [by exists st0|].
    unfold log_ack. destruct (log_find Lg.2 i) as [[[a r] b]|] eqn:E; [|by exists st0].
    destruct (log_find_Some _ _ _ _ _ E) as [El Eid]. rewrite El in Hin. apply elem_of_app in Hin as [Hin|[<-|Hin]%elem_of_cons].
    + exists st0. split; [done|]. destruct (protocol _ _ _ _); cbn [log_effect snd]; set_solver.
    + cbn [packetId qos publishState] in *. subst i. destruct Hst as [->| ->], ty, op; try done; cbn [protocol log_effect snd];
        eexists; (split; [|apply elem_of_app; right; left]); auto.
    + exists st0. split; [done|]. destruct (protocol _ _ _ _); cbn [log_effect snd]; set_solver.
  - by exists st0.
Qed.

Lemma op_unreleased id c o : o <> OpAck id MQTTPubrel MQTT_RECEIVE -> unreleased id c -> unreleased id (run_op c o).2.
Proof.
  intros Ho [Hf (st & Hst & Hin)]. pose proof (op_refined c Hf o) as H. unfold op_refines in H.
  destruct (spec_op_unreleased id st (length (outgoingPublishRecords c)) (length (incomingPublishRecords c)) (view c) o Ho Hst Hin) as (st' & H1 & H2).
  destruct (run_op c o) as [r c']. destruct H as (Hf' & _ & E). split; [done|]. exists st'. split; [done|]. rewrite E in H2. exact H2.
Qed.

Lemma op_wlp {B} (f : MQTTContext_t -> B * MQTTContext_t) o id (Q : B -> S -> Prop) s :
  unreleased id (ctx s) -> o <> OpAck id MQTTPubrel MQTT_RECEIVE -> (f (ctx s)).2 = (run_op (ctx s) o).2 ->
  (forall s', unreleased id (ctx s') -> Q (f (ctx s)).1 s') -> wlp (onctx f) Q s.
Proof.
  intros Hu Ho E H. apply wlp_wp, wp_onctx, H. rewrite ctx_set, E. by apply op_unreleased.
Qed.

Lemma acks_unreleased fuel id i st s :
  unreleased id (ctx s) -> wlp (sendPublishAcks fuel i st) (fun _ s' => unreleased id (ctx s')) s.
Proof.
  intros Hu. pose proof Hu as [Hf (st0 & Hst & Hin)]. apply wlp_wp. eapply wp_mono; [by apply sendPublishAcks_wp|].
  intros r s' (Hq & Hv & _). split; [by apply Hq|]. destruct Hv as [Hv|Hv].
  - exists st0. split; [done|]. injection Hv as _ ->. done.
  - destruct (spec_op_unreleased id st0 (length (outgoingPublishRecords (ctx s))) (length (incomingPublishRecords (ctx s)))
                (view (ctx s)) (OpAck i (getAckFromPacketType (getAckTypeToSend st)) MQTT_SEND)) as (st1 & H1 & H2); [done..|].
    exists st1. split; [done|]. rewrite <- Hv in H2. exact H2.
Qed.

Lemma callback_unreleased pk d fuel id i st s :
  unreleased id (ctx s) -> wlp (appCallback pk d ;! sendPublishAcks fuel i st) (fun _ s' => unreleased id (ctx s')) s.
Proof.
  intros Hu. apply wlp_bind. unfold wlp at 1. destruct (appCallback pk d s) as [[u s1]| |] eqn:E; [|done..].
  destruct (app_quiet pk d s s1 u (proj1 Hu) E) as [[Hq _] Ei]. apply acks_unreleased.
  eapply unreleased_same; [apply Hq|by rewrite Ei|done].
Qed.

Lemma publish_unreleased fuel pk id s :
  unreleased id (ctx s) -> wlp (handleIncomingPublish fuel pk) (fun _ s' => unreleased id (ctx s')) s.
Proof.
  intros Hu. unfold handleIncomingPublish. apply wlp_bind, wlp_access. intros [[st pid] info] _.
  apply wlp_bind, wlp_wp, wp_getctx. destruct (negb _); [by apply wlp_pret|]. apply wlp_bind.
  eapply (op_wlp _ (OpReceived (default 0%Z pid) (pub_qos (default uninit_publish info)))); [exact Hu|done| |].
  { cbn [run_op]. by destruct (MQTT_UpdateStatePublish _ _ _ _) as [[? ?] ?]. }
  intros s1 Hu1. destruct (MQTT_UpdateStatePublish _ _ _ _) as [[st1 os] c1]. cbn [fst].
  destruct (mqtt_ok _); [|by apply wlp_pret]. destruct (bool_decide (st1 = MQTTStateCollision)); [|by apply callback_unreleased].
  apply wlp_bind, wlp_pret. by apply acks_unreleased.
Qed.

(** The packet is the PUBREL of [id]. *)
Definition releases (id : Z) (pk : MQTTPacketInfo_t) : Prop :=
  pk_type pk = MQTT_PACKET_TYPE_PUBREL /\ exists st h, MQTT_DeserializeAck (Some pk) (Some 0%Z) None = Some (st, Some id, h).

Lemma ack_unreleased fuel pk keep id s :
  id <> 0%Z -> ~ releases id pk -> unreleased id (ctx s) -> wlp (handleIncomingAck fuel pk keep) (fun _ s' => unreleased id (ctx s')) s.
Proof.
  intros Hid Hr Hu. unfold handleIncomingAck. destruct (bool_decide (_ ∈ _)) eqn:E1.
  - apply bool_decide_eq_true_1 in E1. unfold handlePublishAcks. apply wlp_bind, wlp_access. intros [[st pid] h] Ed.
    destruct (negb _); [by apply wlp_pret|]. apply wlp_bind.
    eapply (op_wlp _ (OpAck (default 0%Z pid) (getAckFromPacketType (pk_type pk)) MQTT_RECEIVE)); [exact Hu| | |].
    { intros [= Epid Ety]. apply Hr. split.
      - revert Ety. rewrite !elem_of_cons in E1. destruct E1 as [->|[->|[->|[->|E1]]]]; [done..|]. by apply elem_of_nil in E1.
      - destruct pid as [i|]; [|by destruct Hid]. cbn in Epid. subst i. eauto. }
    { cbn [run_op]. by destruct (MQTT_UpdateStateAck _ _ _ _) as [[? ?] ?]. }
    intros s1 Hu1. destruct (MQTT_UpdateStateAck _ _ _ _) as [[st1 os] c1]. cbn [fst].
    destruct (mqtt_ok _); [by apply callback_unreleased|by apply wlp_pret].
  - clear E1. destruct (bool_decide (_ ∈ _)); [|by apply wlp_pret]. apply wlp_bind, wlp_access. intros [[st pid] h] _.
    apply wlp_bind. apply (wlp_mono _ (fun _ s' => unreleased id (ctx s'))).
    { destruct (bool_decide (_ = MQTT_PACKET_TYPE_PINGRESP)); [|by apply wlp_pret]. apply wlp_bind.
      apply (wlp_mono _ (fun _ s' => unreleased id (ctx s'))); [|by intros; apply wlp_pret].
      destruct (_ && _); [|by apply wlp_pret]. apply wlp_wp, wp_modctx. rewrite ctx_set.
      revert Hu. destruct (ctx s). apply unreleased_same; [by apply flight_same|done]. }
    intros [] s1 Hu1; [|by apply wlp_pret]. apply wlp_bind. unfold wlp at 1.
    destruct (appCallback _ _ s1) as [[u s2]| |] eqn:E; [|done..]. destruct (app_quiet _ _ s1 s2 u (proj1 Hu1) E) as [[Hq _] Ei].
    apply wlp_pret. eapply unreleased_same; [apply Hq|by rewrite Ei|done].
Qed.

(** What may go on in the session before the server's PUBREL for [id]: packets
    of every kind are handled, and the client does what does not touch the
    records of the server's publishes (the transport, the clock, its own
    requests). *)
Inductive goes_on (fuel : nat) (id : Z) (s : S) : S -> Prop :=
  | go_start : goes_on fuel id s s
  | go_publish pk st s1 s2 : goes_on fuel id s s1 -> handleIncomingPublish fuel pk s1 = Done (st, s2) -> goes_on fuel id s s2
  | go_ack pk keep st s1 s2 : goes_on fuel id s s1 -> ~ releases id pk ->
      handleIncomingAck fuel pk keep s1 = Done (st, s2) -> goes_on fuel id s s2
  | go_client s1 s2 : goes_on fuel id s s1 -> (flight_ok (ctx s1) -> flight_ok (ctx s2)) ->
      incomingPublishRecords (ctx s2) = incomingPublishRecords (ctx s1) -> goes_on fuel id s s2.

Lemma goes_on_unreleased fuel id s s' : id <> 0%Z -> goes_on fuel id s s' -> unreleased id (ctx s) -> unreleased id (ctx s').
Proof.
  intros Hid Hg Hu. induction Hg as [|pk st s1 s2 _ IH E|pk keep st s1 s2 _ IH Hr E|s1 s2 _ IH Hf E]; [done| | |].
  - exact (wlp_done _ _ _ _ _ (publish_unreleased fuel pk id s1 IH) E).
  - exact (wlp_done _ _ _ _ _ (ack_unreleased fuel pk keep id s1 Hid Hr IH) E).
  - eapply unreleased_same; [exact Hf|by rewrite E|done].
Qed.

Lemma fresh_is_logged fuel pk id info s :
  carries pk id info -> flight_ok (ctx s) -> (id <> 0)%Z -> pub_qos info = MQTTQoS2 ->
  id ∉ ids (incomingPublishRecords (ctx s)) ->
  length (live (incomingPublishRecords (ctx s))) < length (incomingPublishRecords (ctx s)) ->
  wlp (handleIncomingPublish fuel pk) (fun _ s' => unreleased id (ctx s')) s.
Proof.
  intros Hc Hf Hid Hq Hnew Hroom.
  destruct (delivery_by_log fuel pk id info s Hc Hf Hid) as (s1 & H1 & Hw & Hl & E); [by rewrite Hq|by intros E; rewrite E in Hroom; cbn in Hroom; lia|].
  unfold wlp. rewrite E. unfold delivery, log_after in *. rewrite (bool_decide_eq_false_2 (id ∈ _)) in * by done.
  rewrite (bool_decide_eq_true_2 (_ < _)) in * by done. apply (callback_unreleased pk _ fuel id).
  split; [by apply H1|]. exists MQTTPubRecSend. split; [by left|]. rewrite Hl. apply elem_of_app. right.
  unfold received_state. rewrite Hq. left.
Qed.

(** C20: QoS 2, exactly once. A message under an id that is not in flight, while
    a record is free, is handed to the application and answered with PUBREC.
    From then on, whatever else goes on in the session - packets of every kind
    handled, other publishes received, requests of the client - until the
    server's PUBREL for that id is handled, a redelivery of the id, with the DUP
    flag or without, is acknowledged again and nothing else happens: the handler
    is the acknowledgement alone, which cannot reach the application. The
    callback is any that, when it returns, has not received anything itself and
    has left the receive buffer and the records of the server's publishes alone;
    the firmware's own callback is such a one. *)
Theorem qos2_delivered_once fuel pk id info s :
  carries pk id info -> pub_qos info = MQTTQoS2 -> (id <> 0)%Z -> flight_ok (ctx s) ->
  id ∉ ids (incomingPublishRecords (ctx s)) ->
  length (live (incomingPublishRecords (ctx s))) < length (incomingPublishRecords (ctx s)) ->
  (exists s1, handled s s1 /\ wire s1 = wire s /\
     handleIncomingPublish fuel pk s =
       (appCallback pk (Build_deserialized id (Some info) MQTTSuccess) ;! sendPublishAcks fuel id MQTTPubRecSend) s1) /\
  (forall st s2 s3 pk' info',
     handleIncomingPublish fuel pk s = Done (st, s2) -> goes_on fuel id s2 s3 ->
     carries pk' id info' -> pub_qos info' <> MQTTQoS0 ->
     exists s4, handled s3 s4 /\ wire s4 = wire s3 /\
       handleIncomingPublish fuel pk' s3 = sendPublishAcks fuel id (received_state info') s4).
Proof.
  intros Hc Hq Hid Hf Hnew Hroom. split.
  - destruct (delivery_by_log fuel pk id info s Hc Hf Hid) as (s1 & H1 & Hw & Hl & E);
      [by rewrite Hq|by intros E; rewrite E in Hroom; cbn in Hroom; lia|].
    exists s1. split; [done|]. split; [done|]. rewrite E. unfold delivery. rewrite bool_decide_eq_false_2, bool_decide_eq_true_2 by done.
    unfold received_state. by rewrite Hq.
  - intros st s2 s3 pk' info' E1 Hg Hc' Hq'.
    pose proof (wlp_done _ _ _ _ _ (fresh_is_logged fuel pk id info s Hc Hf Hid Hq Hnew Hroom) E1) as Hu.
    apply (goes_on_unreleased _ _ _ _ Hid Hg) in Hu. pose proof (unreleased_id _ _ Hu) as Hin.
    destruct (delivery_by_log fuel pk' id info' s3 Hc' (proj1 Hu) Hid Hq') as (s4 & H1 & Hw & Hl & E).
    { intros E. rewrite E in Hin. by apply elem_of_nil in Hin. }
    exists s4. split; [done|]. split; [done|]. rewrite E. unfold delivery. by rewrite bool_decide_eq_true_2.
Qed.
End Deliveries.

Section Stream.
Context {S : Type} {N : MqttNet S} {L : MqttNetLaws S} {A : MqttApp S} {AL : MqttAppLaws}.

(** ** The incoming stream *)

(** Turn after turn of the receive loop, with or without the keep-alive. *)
Fixpoint turns (fuel : nat) (keeps : list bool) : PT S (list MQTTStatus_t) :=
  match keeps with
  | [] => pret []
  | keep :: keeps =>
      let! st := receiveSingleIteration fuel keep in
      let! sts := turns fuel keeps in
      pret (st :: sts)
  end.

Lemma turns_wp fuel keeps : forall s,
  client_ok (ctx s) ->
  wpa (turns fuel keeps) (fun sts s' =>
    client_ok (ctx s') /\ same_shape (ctx s) (ctx s') /\
    (MQTTRecvFailed ∉ sts -> framed (length keeps) s s')) s.
Proof.
  induction keeps as [|keep keeps IH]; intros s Hc; cbn [turns].
  - apply wpa_pret. split; [done|]. split; [by apply quiet_shape|]. intros _. by apply framed_same.
  - apply wpa_bind. eapply wpa_mono; [by apply iteration_wp|]. intros st s1 (Hc1 & Hs1 & Hfr).
    apply wpa_bind. eapply wpa_mono; [by apply IH|]. intros sts s2 (Hc2 & Hs2 & Hfr2). apply wpa_pret.
    split; [done|]. split; [by eapply same_shape_trans|]. rewrite not_elem_of_cons. intros [Hne Hn].
    apply (framed_trans 1 (length keeps) s s1 s2); [by apply Hfr|by apply Hfr2].
Qed.

(** C18: The receive path never leaves the network buffer, whatever bytes a peer
    sends and however the transport cuts them: if a run of it stops the device,
    a call of the application's callback did. As long as the connection holds,
    the bytes that arrived are a sequence of whole MQTT packets, at most one per
    turn, then the unfinished one in the buffer: no byte is lost, read twice or
    out of order, packets larger than the buffer included. The callback may do
    anything, but when it returns it has not received anything itself and has
    left the receive buffer and the records of the server's publishes alone; the
    firmware's own callback is shown to keep to that. *)
Theorem stream_is_framed fuel keeps s :
  client_ok (ctx s) -> content (ctx s) = [] ->
  match turns fuel keeps s with
  | Done (sts, s') =>
      client_ok (ctx s') /\
      (MQTTRecvFailed ∉ sts ->
         exists new ps, arrived s' = arrived s ++ new /\ length ps <= length keeps /\
           new = mjoin ((fun p => packet p.1 p.2) <$> ps) ++ content (ctx s'))
  | NoFuel => True
  | Fault => exists pk d s1, appCallback pk d s1 = Fault
  end.
Proof.
  intros Hc He. pose proof (turns_wp fuel keeps s Hc) as H. unfold wpa in H.
  destruct (turns fuel keeps s) as [[sts s']| |]; [|done..]. destruct H as (H1 & _ & H3). split; [done|].
  intros Hn. destruct (H3 Hn) as (new & ps & Ha & Hl & E). rewrite He in E. exists new, ps. split_and!; done.
Qed.
End Stream.

Section KeepAlive.
Context {S : Type} {N : MqttNet S} {L : MqttNetLaws S}.

(** ** Keep-alive *)

(** Nothing was sent for as long as half a minute or the keep-alive interval,
    or nothing received for half a minute. *)
Definition ping_due (c : MQTTContext_t) (now : Z) : Prop :=
  let quiet_tx := calculateElapsedTime now (lastPacketTxTime c) in
  let quiet_rx := calculateElapsedTime now (lastPacketRxTime c) in
  (u32 (1000 * keepAliveIntervalSec c) <> 0 /\ PACKET_TX_TIMEOUT_MS `min` u32 (1000 * keepAliveIntervalSec c) <= quiet_tx)%Z \/
  (PACKET_RX_TIMEOUT_MS <= quiet_rx)%Z.

#[export] Instance ping_due_dec c now : Decision (ping_due c now).
Proof. unfold ping_due. apply _. Defined.

Lemma ping_sends fuel s :
  wp (MQTT_Ping fuel) (fun st s' =>
    (st = MQTTSuccess /\ emitted s s' [192; 0]%Z /\ waitingForPingResp (ctx s') = true) \/
    (st = MQTTSendFailed /\ waitingForPingResp (ctx s') = waitingForPingResp (ctx s))) s.
Proof.
  unfold MQTT_Ping. cbn [MQTT_GetPingreqPacketSize]. apply wp_bind.
  eapply (local_packet_wp 2 _ MQTTSuccess [192; 0]%Z); [reflexivity|].
  change (mqtt_ok MQTTSuccess) with true. cbv iota beta. apply wp_bind. eapply wp_mono; [apply sendBuffer_wp|].
  intros r s1 (Htx & j & Hj & Hw & Hr). cbn [length] in Hj. case_bool_decide as E.
  - apply wp_pret. right. split; [done|]. rewrite Htx. by destruct (ctx s).
  - apply wp_bind, wp_modctx, wp_pret. left. split; [done|]. rewrite ctx_set. split; [|by destruct (ctx s1)].
    unfold emitted. rewrite wire_set, Hw. do 2 f_equal. apply take_ge. cbn [length]. unfold MQTT_PACKET_PINGREQ_SIZE in E. lia.
Qed.

(** One PINGREQ at a time: while the answer to one is awaited, nothing is sent
    and the only question is whether the five seconds are over; otherwise one
    PINGREQ goes out exactly when the connection was quiet for too long, and
    from then on its answer is awaited. *)
Theorem keep_alive_one_ping fuel s :
  let now := (getTime s).1 in
  wp (handleKeepAlive fuel) (fun st s' =>
    if waitingForPingResp (ctx s) then
      ctx s' = ctx s /\ wire s' = wire s /\
      st = (if bool_decide (calculateElapsedTime now (pingReqSendTimeMs (ctx s)) > 5000)%Z then MQTTKeepAliveTimeout else MQTTSuccess)
    else if bool_decide (ping_due (ctx s) now) then
      (st = MQTTSuccess /\ emitted s s' [192; 0]%Z /\ waitingForPingResp (ctx s') = true) \/
      (st = MQTTSendFailed /\ waitingForPingResp (ctx s') = false)
    else ctx s' = ctx s /\ wire s' = wire s /\ st = MQTTSuccess) s.
Proof.
  intros now. unfold handleKeepAlive. apply wp_bind, wp_run. fold now.
  assert (ctx (getTime s).2 = ctx s) as Hc by apply clock_ctx. assert (wire (getTime s).2 = wire s) as Hw by apply clock_wire.
  set (s1 := (getTime s).2) in *. clearbody now s1. apply wp_bind, wp_getctx. rewrite Hc.
  destruct (waitingForPingResp (ctx s)) eqn:Ew; [by apply wp_pret|].
  assert (wp (MQTT_Ping fuel) (fun st s' =>
    (st = MQTTSuccess /\ emitted s s' [192; 0]%Z /\ waitingForPingResp (ctx s') = true) \/
    (st = MQTTSendFailed /\ waitingForPingResp (ctx s') = false)) s1) as Hping.
  { eapply wp_mono; [apply ping_sends|]. rewrite Hc, Ew. unfold emitted, sent, arrived. by rewrite <- Hw. }
  unfold ping_due, PACKET_TX_TIMEOUT_MS, PACKET_RX_TIMEOUT_MS.
  set (iv := u32 (1000 * keepAliveIntervalSec (ctx s))). assert (0 <= iv)%Z as Hiv by (apply wrap_range; lia).
  set (qt := calculateElapsedTime now (lastPacketTxTime (ctx s))). set (qr := calculateElapsedTime now (lastPacketRxTime (ctx s))).
  destruct (bool_decide (_ <> 0)%Z && bool_decide (qt >= _)%Z) eqn:E1.
  { apply andb_true_iff in E1 as [E1 E2]. apply bool_decide_eq_true_1 in E1, E2.
    rewrite (bool_decide_eq_true_2 (_ \/ _)) by (left; lia). done. }
  destruct (bool_decide (qr <> 0)%Z && bool_decide (qr >= _)%Z) eqn:E2.
  { apply andb_true_iff in E2 as [E2 E3]. apply bool_decide_eq_true_1 in E3.
    rewrite (bool_decide_eq_true_2 (_ \/ _)) by (right; lia). done. }
  rewrite (bool_decide_eq_false_2 (_ \/ _)); [by apply wp_pret|].
  apply andb_false_iff in E1, E2. rewrite !bool_decide_eq_false in E1, E2. lia.
Qed.
End KeepAlive.

Section Reception.
Context {S : Type} {N : MqttNet S} {L : MqttNetLaws S} {A : MqttApp S} {AL : MqttAppLaws}.

(** Nothing records that a packet was received: from a context as
    [MQTT_Init] leaves it, whatever arrives, once the clock has passed half a
    minute every idle turn finds a ping due. *)
Theorem receptions_are_not_recorded fuel keeps s now :
  client_ok (ctx s) -> lastPacketRxTime (ctx s) = 0%Z -> (PACKET_RX_TIMEOUT_MS <= now < 2 ^ 32)%Z ->
  wpa (turns fuel keeps) (fun _ s' => ping_due (ctx s') now) s.
Proof.
  intros Hc H0 Hn. eapply wpa_mono; [by apply turns_wp|]. intros sts s' (_ & [_ Hrx] & _). right.
  rewrite Hrx, H0. unfold calculateElapsedTime. rewrite (wrap_small 32) by (unfold PACKET_RX_TIMEOUT_MS in Hn; lia). lia.
Qed.
End Reception.
