(* ===== verification/MqttTime.v ===== *)
(** * MqttTime: the transfer loops end

    Total correctness of the loops that are bounded by the clock, for a clock
    that advances. *)

From S2P Require Import Prelude MqttTypes MqttState MqttSerializer MqttCore MqttStateProps MqttWire MqttCoreProps.
From Stdlib Require Import ZArith Lia.
From stdpp Require Import base list numbers.

Local Open Scope cything_scope.

(** Time in cycles of the processor, [per_ms] of them a millisecond: the client
    reads the low 32 bits of the milliseconds. Reading the clock takes a cycle
    or more, and no call of the clock or of the transport more than [hop]. *)
Class MqttTicks (S : Type) {N : MqttNet S} (per_ms hop : Z) := {
  ticks : S -> Z;
  hop_pos : (0 < per_ms /\ 0 < hop < 2 ^ 30 * per_ms)%Z;
  ticks_set : forall c s, ticks (set_ctx c s) = ticks s;
  ticks_read : forall s, (getTime s).1 = u32 (ticks s / per_ms);
  ticks_clock : forall s, (ticks s + 1 <= ticks (getTime s).2 <= ticks s + hop)%Z;
  ticks_send : forall b s, (ticks s <= ticks (tsend b s).2 <= ticks s + hop)%Z;
  ticks_writev : forall w v s, twritev = Some w -> (ticks s <= ticks (w v s).2 <= ticks s + hop)%Z;
  ticks_recv : forall n s, (ticks s <= ticks (trecv n s).2 <= ticks s + hop)%Z;
}.

(** [ends m Q s]: [m] returns, in a state of [Q]. *)
Definition ends {S A} (m : PT S A) (Q : A -> S -> Prop) (s : S) : Prop :=
  match m s with
  | Done (a, s') => Q a s'
  | _ => False
  end.

Section Time.
Context {S : Type} {N : MqttNet S} {L : MqttNetLaws S} {per_ms hop : Z} {T : MqttTicks S per_ms hop}.

#[local] Transparent pbind pret run access no_fuel.

Lemma ends_pret {A} (a : A) (Q : A -> S -> Prop) s : Q a s -> ends (pret a) Q s.
Proof. done. Qed.

Lemma ends_bind {A B} (m : PT S A) (k : A -> PT S B) Q s :
  ends m (fun a s' => ends (k a) Q s') s -> ends (pbind m k) Q s.
Proof. unfold ends, pbind. by destruct (m s) as [[a s']| |]. Qed.


Lemma ends_run {A} (m : S -> A * S) (Q : A -> S -> Prop) s : Q (m s).1 (m s).2 -> ends (run m) Q s.
Proof. unfold ends, run. by destruct (m s). Qed.

Lemma ends_modctx f (Q : unit -> S -> Prop) s : Q tt (set_ctx (f (ctx s)) s) -> ends (modctx f) Q s.
Proof. done. Qed.

(** Reading the clock. *)
Lemma ends_clock (Q : Z -> S -> Prop) s :
  (forall s', (ticks s + 1 <= ticks s' <= ticks s + hop)%Z -> Q (u32 (ticks s / per_ms)) s') -> ends (run getTime) Q s.
Proof. intros H. apply ends_run. rewrite ticks_read. apply H, ticks_clock. Qed.

#[local] Opaque pbind pret run access no_fuel.

Lemma account_ends r k (Q : Z -> S -> Prop) s :
  (forall k' s', (ticks s <= ticks s' <= ticks s + hop)%Z -> Q k' s') -> ends (account r k) Q s.
Proof.
  intros H. pose proof hop_pos as Hp. unfold account. destruct (bool_decide (r > 0)%Z).
  - apply ends_bind, ends_clock. intros s1 H1. apply ends_bind, ends_modctx, ends_pret, H. rewrite ticks_set. lia.
  - destruct (bool_decide (r < 0)%Z); apply ends_pret, H; lia.
Qed.


Lemma reading_small t : (0 <= t < 2 ^ 32 * per_ms)%Z -> u32 (t / per_ms) = (t / per_ms)%Z.
Proof.
  pose proof hop_pos as [Hu _]. intros H. apply wrap_small. split; [apply Z.div_pos; lia|].
  apply Z.div_lt_upper_bound; lia.
Qed.





(** ** Receiving *)






(** Within 20 seconds of the clock's wrap the deadline lies in the past from
    the start: one turn of the loop is all there ever is, so a transport that
    takes only a part of the packet is not called again and the packet is cut
    short. *)
Theorem deadline_past_at_the_wrap buf s :
  (2 ^ 32 - 20000 <= ticks s / per_ms)%Z -> (ticks s + 3 * hop < 2 ^ 32 * per_ms)%Z ->
  ends (sendBuffer 1 buf) (fun _ s' => (ticks s' <= ticks s + 4 * hop)%Z) s.
Proof.
  pose proof hop_pos as [Hu Hp]. intros H1 H2.
  assert (0 <= ticks s)%Z as H0. { pose proof (Z.mul_div_le (ticks s) per_ms Hu). nia. }
  unfold sendBuffer, MQTT_SEND_TIMEOUT_MS. apply ends_bind, ends_clock. intros s1 Hs1. rewrite (reading_small (ticks s)) by lia.
  assert (ticks s / per_ms < 2 ^ 32)%Z as H3 by (apply Z.div_lt_upper_bound; lia).
  cbn [sendBuffer_loop]. destruct (keeps_sending _ _); [|apply ends_pret; lia].
  apply ends_bind, ends_run. pose proof (ticks_send buf s1) as Ht. destruct (tsend buf s1) as [r s2]. cbn [fst snd] in *.
  apply ends_bind, account_ends. intros k' s3 Hs3. apply ends_bind, ends_clock. intros s4 Hs4.
  assert (u32 (ticks s / per_ms + 20000) = ticks s / per_ms + 20000 - 2 ^ 32)%Z as ->.
  { unfold u32, wrap. replace (ticks s / per_ms + 20000)%Z with (ticks s / per_ms + 20000 - 2 ^ 32 + 1 * 2 ^ 32)%Z at 1 by lia.
    rewrite Z_mod_plus_full. apply Z.mod_small. lia. }
  rewrite reading_small by lia. assert (ticks s / per_ms <= ticks s3 / per_ms)%Z by (apply Z.div_le_mono; lia).
  rewrite bool_decide_eq_true_2 by lia. apply ends_pret. lia.
Qed.
End Time.
