(* ===== verification/MqttRig.v ===== *)
(** * MqttRig: a client over a scripted connection

    A transport that delivers a script and takes a few bytes at a time, a
    clock that ticks, an application that remembers what it was given: the
    laws of [MqttNetLaws], [MqttAppLaws] and [MqttTicks] hold of it, and the
    client's theorems are tried on it. *)

From S2P Require Import Prelude MqttTypes MqttState MqttSerializer MqttCore MqttStateProps MqttWire MqttCoreProps MqttClient MqttTime.
From Stdlib Require Import ZArith Lia.
From stdpp Require Import base list numbers strings.

Local Open Scope cything_scope.

Record rig := Rig {
  rg_ctx : MQTTContext_t;
  rg_in : list bytes;
  rg_out : bytes;
  rg_got : bytes;
  rg_ms : Z;
  rg_cap : nat;
  rg_seen : list MQTTDeserializedInfo_t;
}.

Definition rig_set_ctx (c : MQTTContext_t) (s : rig) : rig :=
  Rig c (rg_in s) (rg_out s) (rg_got s) (rg_ms s) (rg_cap s) (rg_seen s).

Definition rig_send (b : bytes) (s : rig) : Z * rig :=
  let k := rg_cap s `min` length b in
  (Z.of_nat k, Rig (rg_ctx s) (rg_in s) (rg_out s ++ take k b) (rg_got s) (rg_ms s + 1) (rg_cap s) (rg_seen s)).

Definition rig_recv (n : nat) (s : rig) : Z * bytes * rig :=
  match rg_in s with
  | [] => (0%Z, [], s)
  | chunk :: rest =>
      let data := u8 <$> take n chunk in
      let left := drop n chunk in
      (Z.of_nat (length data), data,
       Rig (rg_ctx s) (if bool_decide (left = []) then rest else left :: rest) (rg_out s) (rg_got s ++ data)
         (rg_ms s + 1) (rg_cap s) (rg_seen s))
  end.

Definition rig_time (s : rig) : Z * rig :=
  (u32 (rg_ms s), Rig (rg_ctx s) (rg_in s) (rg_out s) (rg_got s) (rg_ms s + 1) (rg_cap s) (rg_seen s)).

#[export] Instance rig_net : MqttNet rig := {|
  ctx := rg_ctx; set_ctx := rig_set_ctx; tsend := rig_send; twritev := None; trecv := rig_recv; getTime := rig_time
|}.

#[export] Program Instance rig_laws : MqttNetLaws rig := {| wire := fun s => (rg_out s, rg_got s) |}.
Next Obligation. done. Qed.
Next Obligation. done. Qed.
Next Obligation. done. Qed.
Next Obligation.
  intros b s. unfold tsend. cbn. split; [lia|]. f_equal. rewrite Nat2Z.id. by rewrite (Nat.min_comm (rg_cap s)).
Qed.
Next Obligation. done. Qed.
Next Obligation. done. Qed.
Next Obligation. intros n s. unfold trecv. cbn. unfold rig_recv. by destruct (rg_in s). Qed.
Next Obligation.
  intros n s. unfold trecv. cbn. unfold rig_recv. destruct (rg_in s) as [|chunk rest].
  - split; [lia|]. split; [done|]. split; [constructor|]. by rewrite app_nil_r.
  - split; [rewrite length_fmap, length_take; lia|]. split; [lia|]. split; [|done].
    apply list.Forall_fmap, list.Forall_forall. intros x _. apply wrap_range. lia.
Qed.
Next Obligation. done. Qed.
Next Obligation. done. Qed.
Next Obligation. intros s. apply wrap_range. lia. Qed.

#[export] Instance rig_app : MqttApp rig := {|
  appCallback := fun _ d s => Done (tt, Rig (rg_ctx s) (rg_in s) (rg_out s) (rg_got s) (rg_ms s) (rg_cap s) (rg_seen s ++ [d]))
|}.

#[export] Instance rig_app_laws : MqttAppLaws.
Proof. split. intros pk d s s' u Hf [= _ <-]. done. Qed.

#[export] Program Instance rig_ticks : MqttTicks rig 1 1 := {| ticks := rg_ms |}.
Next Obligation. lia. Qed.
Next Obligation. done. Qed.
Next Obligation. intros s. by rewrite Z.div_1_r. Qed.
Next Obligation. intros s. cbn. lia. Qed.
Next Obligation. intros b s. cbn. lia. Qed.
Next Obligation. done. Qed.
Next Obligation. intros n s. unfold trecv. cbn. unfold rig_recv. destruct (rg_in s); cbn; lia. Qed.

(** ** Trials *)

(** Room for two publishes each way, a buffer of 16 bytes. *)
Definition rig_context : MQTTContext_t :=
  Build_context (replicate 2 null_record) (replicate 2 null_record) (replicate 16 0%Z) 1 MQTTConnected 60 0 false 0 0 0 false.

Lemma rig_flight : flight_ok rig_context.
Proof. split; [split|split| |]; repeat constructor; by right. Qed.

Definition rig0 (script : list bytes) (cap : nat) : rig := Rig rig_context script [] [] 100 cap [].

Lemma rig_client script cap : client_ok (ctx (rig0 script cap)).
Proof. split; [cbn; lia| |apply rig_flight]. repeat constructor; unfold is_byte; lia. Qed.

(** A PINGRESP cut in two, with the first bytes of a publish behind it. *)
Definition script1 : list bytes := [[208]; [0; 48; 4; 0]; [1; 97; 120; 48]]%Z.

Lemma stream_is_framed_witness :
  exists sts s', turns 20 [true; true; false] (rig0 script1 4) = Done (sts, s') /\ (MQTTRecvFailed ∉ sts) /\
    exists new ps, arrived s' = arrived (rig0 script1 4) ++ new /\ length ps <= 3 /\
      new = mjoin ((fun p => packet p.1 p.2) <$> ps) ++ content (ctx s').
Proof.
  pose proof (stream_is_framed 20 [true; true; false] (rig0 script1 4) (rig_client script1 4) eq_refl) as H.
  assert (match turns 20 [true; true; false] (rig0 script1 4) with Done (sts, s') => bool_decide (MQTTRecvFailed ∉ sts) | _ => false end = true)
    as E by (vm_compute; reflexivity).
  destruct (turns 20 [true; true; false] (rig0 script1 4)) as [[sts s']| |]; [|discriminate..].
  apply bool_decide_eq_true_1 in E. exists sts, s'. split; [reflexivity|]. split; [exact E|]. exact (proj2 H E).
Defined.

Lemma publish_sends_its_packet_witness :
  exists st s', MQTT_Publish 30 (Some demo_publish) 7 (rig0 [] 4) = Done (st, s') /\ st = MQTTSuccess /\
    sent s' = publish_packet demo_publish (str "a/b") (str "on") 7 /\
    awaiting 7 MQTTQoS1 ∈ live (outgoingPublishRecords (ctx s')).
Proof.
  pose proof (publish_sends_its_packet 30 demo_publish (str "a/b") (str "on") 7 (rig0 [] 4) demo_message rig_flight) as H.
  unfold wp in H.
  assert (match MQTT_Publish 30 (Some demo_publish) 7 (rig0 [] 4) with Done (st, _) => bool_decide (st = MQTTSuccess) | _ => false end = true)
    as E by (vm_compute; reflexivity).
  destruct (MQTT_Publish 30 (Some demo_publish) 7 (rig0 [] 4)) as [[st s']| |]; [|discriminate..].
  apply bool_decide_eq_true_1 in E. exists st, s'. split; [reflexivity|]. split; [exact E|].
  destruct H as (_ & _ & H). destruct (H E) as [Hw Ha]. split.
  - unfold emitted in Hw. unfold sent. rewrite Hw. reflexivity.
  - apply Ha. discriminate.
Defined.

Definition demo_filters : list MQTTSubscribeInfo_t :=
  [Build_subscribe_info MQTTQoS1 (Some (str "a/+")) 3; Build_subscribe_info MQTTQoS0 (Some (str "b")) 1].

Lemma subscribe_sends_its_packet_witness :
  exists st s', MQTT_Subscribe 30 (Some demo_filters) 9 (rig0 [] 4) = Done (st, s') /\ st = MQTTSuccess /\
    sent s' = packet MQTT_PACKET_TYPE_SUBSCRIBE (subscription_body MQTT_SUBSCRIBE demo_filters [str "a/+"; str "b"] 9).
Proof.
  assert (Forall2 filter_ok demo_filters [str "a/+"; str "b"]) as Hf.
  { repeat constructor; cbn; lia. }
  pose proof (subscribe_sends_its_packet 30 MQTT_SUBSCRIBE demo_filters [str "a/+"; str "b"] 9 (rig0 [] 4) Hf ltac:(cbn; lia)) as H.
  unfold wp in H. cbn [subscription_request subscription_type] in H.
  assert (match MQTT_Subscribe 30 (Some demo_filters) 9 (rig0 [] 4) with Done (st, _) => bool_decide (st = MQTTSuccess) | _ => false end = true)
    as E by (vm_compute; reflexivity).
  destruct (MQTT_Subscribe 30 (Some demo_filters) 9 (rig0 [] 4)) as [[st s']| |]; [|discriminate..].
  apply bool_decide_eq_true_1 in E. exists st, s'. split; [reflexivity|]. split; [exact E|].
  destruct H as (_ & _ & H). pose proof (H E) as Hw. unfold emitted in Hw. unfold sent at 1. rewrite Hw. reflexivity.
Defined.

(** A QoS 2 publish of one byte under id 5, and its redelivery with DUP. *)
Definition incoming2 (first : Z) : MQTTPacketInfo_t :=
  Build_packet_info first (Some [0; 1; 97; 0; 5; 33]%Z) 6 2.
Definition info2 (dup : bool) : MQTTPublishInfo_t :=
  Build_publish_info MQTTQoS2 false dup (Some [97; 0; 5; 33]%Z) 1 (Some [33]%Z) 1.

(** Delivered; a message under another id handled meanwhile; sent again. *)
Definition incoming6 : MQTTPacketInfo_t := Build_packet_info 52 (Some [0; 1; 98; 0; 6; 63]%Z) 6 2.

Lemma qos2_delivered_once_witness :
  exists st s' st2 s'', handleIncomingPublish 9 (incoming2 52) (rig0 [] 4) = Done (st, s') /\
    handleIncomingPublish 9 incoming6 s' = Done (st2, s'') /\ length (rg_seen s'') = 2 /\
    exists s1, handled s'' s1 /\ wire s1 = wire s'' /\
      handleIncomingPublish 9 (incoming2 60) s'' = sendPublishAcks 9 5 MQTTPubRecSend s1.
Proof.
  assert (carries (incoming2 52) 5 (info2 false)) as H1 by (vm_compute; reflexivity).
  assert (carries (incoming2 60) 5 (info2 true)) as H2 by (vm_compute; reflexivity).
  destruct (qos2_delivered_once 9 (incoming2 52) 5 (info2 false) (rig0 [] 4) H1) as [_ H].
  - reflexivity.
  - discriminate.
  - apply rig_flight.
  - apply (bool_decide_unpack _). vm_compute. exact I.
  - apply (bool_decide_unpack _). vm_compute. exact I.
  - assert (match handleIncomingPublish 9 (incoming2 52) (rig0 [] 4) with
            | Done (st, s') => match handleIncomingPublish 9 incoming6 s' with
              | Done (st2, s'') => bool_decide (length (rg_seen s'') = 2) | _ => false end | _ => false end = true)
      as E by (vm_compute; reflexivity).
    destruct (handleIncomingPublish 9 (incoming2 52) (rig0 [] 4)) as [[st s']| |] eqn:E1; [|discriminate..].
    destruct (handleIncomingPublish 9 incoming6 s') as [[st2 s'']| |] eqn:E2; [|discriminate..].
    apply bool_decide_eq_true_1 in E. exists st, s', st2, s''. split; [reflexivity|]. split; [exact E2|]. split; [exact E|].
    apply (H st s' s'' (incoming2 60) (info2 true)); [reflexivity| |exact H2|discriminate].
    eapply go_publish; [apply go_start|exact E2].
Defined.


(** 49 days and 17 hours up, one byte taken: the other two are not tried. *)
Definition late_rig : rig := Rig rig_context [] [] [] 4294960000 1 [].

Lemma deadline_past_at_the_wrap_witness :
  ends (sendBuffer 1 [1; 2; 3]%Z) (fun _ s' => (ticks s' <= ticks late_rig + 4 * 1)%Z) late_rig /\
  match sendBuffer 1 [1; 2; 3]%Z late_rig with Done (r, _) => r = 1%Z | _ => False end.
Proof.
  pose proof (deadline_past_at_the_wrap [1; 2; 3]%Z late_rig) as H. split; [|vm_compute; reflexivity].
  refine (H _ _); [apply (bool_decide_unpack _); vm_compute; exact I|cbn; lia].
Defined.

Lemma receptions_are_not_recorded_witness :
  exists sts s', turns 20 [true; true; false] (rig0 script1 4) = Done (sts, s') /\ ping_due (ctx s') 30000.
Proof.
  pose proof (receptions_are_not_recorded 20 [true; true; false] (rig0 script1 4) 30000 (rig_client script1 4) eq_refl) as H.
  unfold wpa in H.
  assert (match turns 20 [true; true; false] (rig0 script1 4) with Done _ => true | _ => false end = true) as E by (vm_compute; reflexivity).
  destruct (turns 20 [true; true; false] (rig0 script1 4)) as [[sts s']| |]; [|discriminate..].
  exists sts, s'. split; [reflexivity|]. apply H. unfold PACKET_RX_TIMEOUT_MS. lia.
Defined.
