(* ===== verification/AwsFrame.v ===== *)
(** * AwsFrame: what the broker task leaves alone

    A read-only view of the task's state that the network, the client's context
    and the task's own updates do not change is the same after any number of
    turns: the frame lemmas of [MqttFrame] for the functions of the task. *)

From S2P Require Import Prelude Platform Radio State LocalSession PairingEvents ResponseFifo ClientList.
From S2P Require Import MqttTypes MqttState MqttSerializer MqttCore NetworkTransport AwsIot MqttCoreProps MqttFrame.
From stdpp Require Import base list strings numbers.
From Stdlib Require Import ZArith Lia.

Local Open Scope cything_scope.

Section Laws.
Context {P : Platform} {C : Config} {A : AwsConfig} {N : EspTls} {TL : EspTlsLaws}.

(** The transport over esp-tls keeps the client's laws. *)
#[export] Program Instance aws_laws : MqttNetLaws aws := {| wire := fun s => tls_wire (aw_net s) |}.
Next Obligation. done. Qed.
Next Obligation. done. Qed.
Next Obligation. intros b s. unfold tsend; cbn. by destruct (espTlsTransportSend _ _ _). Qed.
Next Obligation.
  intros b s. unfold tsend; cbn. pose proof (transport_send_wire (aw_nc s) b (aw_net s)) as H.
  by destruct (espTlsTransportSend _ _ _).
Qed.
Next Obligation. done. Qed.
Next Obligation. done. Qed.
Next Obligation. intros n s. unfold trecv; cbn. by destruct (espTlsTransportRecv _ _ _) as [[? ?] ?]. Qed.
Next Obligation.
  intros n s. unfold trecv; cbn. pose proof (transport_recv_wire (aw_nc s) n (aw_net s)) as H.
  by destruct (espTlsTransportRecv _ _ _) as [[? ?] ?].
Qed.
Next Obligation. intros s. unfold getTime; cbn. by destruct (Clock_GetTimeMs _). Qed.
Next Obligation.
  intros s. unfold getTime; cbn. unfold Clock_GetTimeMs. pose proof (timer_wire (aw_net s)) as H. by destruct (esp_timer_us _).
Qed.
Next Obligation.
  intros s. unfold getTime; cbn. unfold Clock_GetTimeMs. destruct (esp_timer_us _). apply wrap_range. lia.
Qed.
End Laws.

Section Frame.
Context {P : Platform} {C : Config} {A : AwsConfig} {N : EspTls}.

(** The view [f] is as it was. *)
Definition kept {X} (f : aws -> X) : relation aws := fun s s' => f s' = f s.

#[export] Instance kept_preorder {X} (f : aws -> X) : PreOrder (kept f).
Proof. split; unfold kept; [by intros s|]. intros s1 s2 s3. congruence. Qed.

(** A view of neither the context, the connection nor the network. *)
Class Aside {X} (f : aws -> X) := {
  as_ctx : forall c s, f (set_aw_ctx c s) = f s;
  as_nc : forall c s, f (set_aw_nc c s) = f s;
  as_net : forall w s, f (set_aw_net w s) = f s;
}.

Context {X : Type} (f : aws -> X) {V : Aside f}.

#[export] Instance aside_follows : Follows (kept f).
Proof.
  split; unfold kept; cbn.
  - intros. apply as_ctx.
  - intros b s. destruct (espTlsTransportSend _ _ _). apply as_net.
  - done.
  - intros n s. destruct (espTlsTransportRecv _ _ _) as [[? ?] ?]. apply as_net.
  - intros s. destruct (Clock_GetTimeMs _). apply as_net.
Qed.

#[local] Transparent pbind pret run access no_fuel.

Lemma moves_get {Y} (g : aws -> Y) : moves (kept f) (get g).
Proof. by intros s. Qed.
Lemma moves_require b : moves (kept f) (require b).
Proof. apply moves_access. Qed.
Lemma moves_upd g : (forall s, f (g s) = f s) -> moves (kept f) (upd g).
Proof. intros H s. apply H. Qed.
Lemma moves_on_dev {Y} (m : M Y) : (forall s, f (set_aw_dev (exec m (aw_dev s)) s) = f s) -> moves (kept f) (on_dev m).
Proof. intros H s. unfold on_dev. specialize (H s). unfold exec in H. by destruct (m (aw_dev s)). Qed.
Lemma moves_on_net {Y} (m : NetWorld -> Y * NetWorld) : moves (kept f) (on_net m).
Proof. intros s. unfold on_net. destruct (m _). apply as_net. Qed.
Lemma moves_on_net_ m : moves (kept f) (on_net_ m).
Proof. apply moves_upd. intros s. apply as_net. Qed.
Lemma moves_on_tls {Y} (m : NetworkContext_t -> NetWorld -> Y * NetworkContext_t * NetWorld) : moves (kept f) (on_tls m).
Proof. intros s. unfold on_tls. destruct (m _ _) as [[? ?] ?]. unfold kept. by rewrite as_net, as_nc. Qed.
End Frame.

#[export] Hint Resolve moves_get moves_require moves_on_net moves_on_net_ moves_on_tls : moves.

(** One update of the globals or the device that the view does not see. *)
Ltac moves_upd_tac :=
  first [ apply moves_upd; intros ?; reflexivity | apply moves_on_dev; intros ?; reflexivity ].
Ltac aws_moves := repeat first [ progress moves_solve | moves_upd_tac ].

Section Views.
Context {P : Platform} {C : Config} {A : AwsConfig} {N : EspTls}.

(** What the local side of the device runs on: the sessions and their keys, the
    paired accounts, the device password and its lock, the provisioned identity
    and the handshake in progress, the Wi-Fi and Bluetooth state. *)
Definition local_side (d : Dev) :=
  ((pool d, plist d, pw d, accounts d, wpair d, prov d),
   (disc_mode d, beacon d, mdns_started d, flash d, blep d, trial d, station d, device_ip d, mqtt_period d, out d)).

(** The application answers a command of the broker to the broker only. *)
Definition hook_only_publishes : Prop :=
  forall c n w, Forall (fun x => exists t, x = PublishResponse t) (fst (app_mqtt_command_handle c n w)).2.

(** The local side and, when the application keeps to that, the lines that wait
    for the local clients. *)
Definition local_view (quiet : bool) (d : Dev) := (local_side d, if quiet then Some (tcp_fifo d) else None).

Context (quiet : bool).

Lemma local_io {X} (m : World -> X * World) d : local_view quiet (exec (io m) d) = local_view quiet d.
Proof. unfold exec, io. by destruct (m (world d)). Qed.

Lemma local_bind {X Y} (m : M X) (k : X -> M Y) d :
  local_view quiet (exec m d) = local_view quiet d -> (forall x d, local_view quiet (exec (k x) d) = local_view quiet d) ->
  local_view quiet (exec (bind m k) d) = local_view quiet d.
Proof. intros Hm Hk. unfold exec, bind in *. destruct (m d) as [x d1]. by rewrite (Hk x d1). Qed.

Lemma local_response_id d : local_view quiet (exec update_response_id d) = local_view quiet d.
Proof.
  unfold update_response_id. apply local_bind; [done|intros _ d1]. apply local_bind; [done|intros id d2].
  apply local_bind; [|done]. by destruct (bool_decide _).
Qed.

Lemma local_pop d : local_view quiet (exec pairing_events_pop d) = local_view quiet d.
Proof.
  unfold pairing_events_pop. apply local_bind; [done|intros q d1]. destruct (bool_decide _); [|done].
  apply local_bind; [done|intros _ d2]. unfold PairingEvents.nvs_store.
  repeat match goal with
  | |- local_view quiet (exec (bind _ _) _) = _ => apply local_bind; [|intros ? ?]
  | |- local_view quiet (exec (io _) _) = _ => apply local_io
  | |- local_view quiet (exec (if ?b then _ else _) _) = _ => destruct b
  | |- _ => done
  end.
Qed.

Lemma local_call c d : (quiet = true -> exists t, c = PublishResponse t) -> local_view quiet (exec (run_app_call c) d) = local_view quiet d.
Proof.
  intros Hc. assert (quiet = false \/ exists t, c = PublishResponse t) as [Hq|[t ->]]; [|clear Hc|done].
  { destruct quiet; [right; by apply Hc|by left]. }
  assert (forall l d, local_view quiet (exec (push_tcp_line l) d) = local_view quiet d) as Hpush by (intros; unfold local_view; by rewrite Hq).
  destruct c as [target data|sock text|t]; cbn [run_app_call]; [|by apply local_bind|done].
  unfold send_data_to_clients. apply local_bind; [apply local_response_id|intros id d1].
  apply local_bind; [apply Hpush|intros line d2]. unfold when. destruct (_ && _); [|done].
  by destruct (split_at _ _) as [[? ?]|].
Qed.

(** A view that only the local side of the device, or what the task sets
    outside the callback, can change. *)
Class Bystander {X} (f : aws -> X) := {
  by_aside :: Aside f;
  by_dev : forall d s, local_view quiet d = local_view quiet (aw_dev s) -> f (set_aw_dev d s) = f s;
  by_table : forall v s, f (set_outgoingPublishPackets v s) = f s;
  by_ack : forall v s, f (set_globalAckPacketIdentifier v s) = f s;
  by_suback : forall v s, f (set_globalSubAckStatus v s) = f s;
  by_command : forall v s, f (set_s_command_mqtt_context v s) = f s;
}.

Context {X : Type} (f : aws -> X) {B : Bystander f} (fuel : nat) (Hquiet : quiet = true -> hook_only_publishes).

Ltac by_tac :=
  first [ apply moves_upd; intros ?; first [apply by_table|apply by_ack|apply by_suback|apply by_command]
        | apply moves_on_dev; intros ?; apply by_dev;
          first [done|apply local_response_id|apply local_pop|apply local_io] ].
Ltac by_solve := repeat first [ progress moves_solve | by_tac ].

Lemma by_publish t m : moves (kept f) (publishToTopic fuel t m).
Proof. unfold publishToTopic, set_packet, cleanupOutgoingPublishAt. by_solve. Qed.
#[local] Hint Resolve by_publish : moves.

Lemma by_memcmp c p : moves (kept f) (memcmp_at c p).
Proof. apply moves_access. Qed.
Lemma by_calloc n : moves (kept f) (calloc n).
Proof. unfold calloc. by_solve. Qed.
Lemma by_topic_is t p : moves (kept f) (topic_is t p).
Proof. unfold topic_is. by_solve. Qed.
#[local] Hint Resolve by_memcmp by_calloc by_topic_is : moves.

Lemma by_response t : moves (kept f) (mqtt_publish_response fuel t).
Proof. unfold mqtt_publish_response. by_solve. Qed.
#[local] Hint Resolve by_response : moves.
Lemma by_hook_calls cs :
  (quiet = true -> Forall (fun x => exists t, x = PublishResponse t) cs) -> moves (kept f) (run_hook_calls fuel cs).
Proof.
  induction cs as [|c cs IH]; intros H; cbn [run_hook_calls]; [by_solve|].
  apply moves_bind; [|intros _; apply IH; intros Hq; by destruct (list.Forall_cons_1 _ _ _ (H Hq))].
  assert (forall c, (quiet = true -> exists t, c = PublishResponse t) -> moves (kept f) (on_dev (run_app_call c))) as Hcall.
  { intros c0 H0. apply moves_on_dev. intros s. by apply by_dev, local_call. }
  destruct c; [apply Hcall|apply Hcall|by_solve]; intros Hq; by destruct (list.Forall_cons_1 _ _ _ (H Hq)).
Qed.

Lemma by_command_in c n : moves (kept f) (process_aws_iot_command fuel c n).
Proof.
  unfold process_aws_iot_command. apply moves_bind; [by_tac|intros _]. apply moves_bind_wlp; [by_tac|]. intros s.
  unfold wlp, on_dev, io.
  destruct (app_mqtt_command_handle _ _ _) as [[claimed calls] w] eqn:E. apply moves_bind; [|intros _; by_tac].
  apply by_hook_calls. intros Hq. pose proof (Hquiet Hq (take (Z.to_nat n) (default [] c)) n (world (aw_dev s))) as H.
  by rewrite E in H.
Qed.
Lemma by_get_info c : moves (kept f) (process_aws_iot_get_info_command fuel c).
Proof. unfold process_aws_iot_get_info_command. by_solve. Qed.
Lemma by_update_fw c n : moves (kept f) (process_aws_iot_update_fw_response fuel c n).
Proof. unfold process_aws_iot_update_fw_response. by_solve. Qed.
#[local] Hint Resolve by_command_in by_get_info by_update_fw : moves.

Lemma by_event pk d : moves (kept f) (eventCallback fuel pk d).
Proof.
  unfold eventCallback, handleIncomingPublish, updateSubAckStatus, cleanupOutgoingPublishWithPacketID, cleanupOutgoingPublishAt.
  by_solve.
Qed.

Lemma by_process : moves (kept f) (MQTT_ProcessLoop (A := aws_app fuel) fuel).
Proof. apply moves_MQTT_ProcessLoop; [apply _|apply _|apply by_event]. Qed.
#[local] Hint Resolve by_process : moves.

Lemma by_wait_loop n : forall id t now st, moves (kept f) (wait_loop fuel n id t now st).
Proof. induction n as [|n IH]; intros; cbn [wait_loop]; by_solve. Qed.
#[local] Hint Resolve by_wait_loop : moves.
Lemma by_wait id t : moves (kept f) (waitForPacketAck fuel id t).
Proof. unfold waitForPacketAck. by_solve. Qed.
#[local] Hint Resolve by_wait : moves.

Lemma by_next_attempt ps : moves (kept f) (next_attempt ps).
Proof. unfold next_attempt, generateRandomNumber. by_solve. Qed.
#[local] Hint Resolve by_next_attempt : moves.
Lemma by_resubscribe_loop n : forall ps, moves (kept f) (resubscribe_loop fuel n ps).
Proof. induction n as [|n IH]; intros; cbn [resubscribe_loop]; by_solve. Qed.

Lemma by_establish c sp : moves (kept f) (establishMqttSession fuel c sp).
Proof. unfold establishMqttSession. by_solve. Qed.
#[local] Hint Resolve by_establish : moves.
Lemma by_connect_loop n : forall ps c b, moves (kept f) (connect_loop fuel n ps c b).
Proof. induction n as [|n IH]; intros; cbn [connect_loop]; by_solve. Qed.

Lemma by_resend_rows rows : forall id fo ok, moves (kept f) (resend_rows fuel rows id fo ok).
Proof. induction rows as [|i rows IH]; intros; cbn [resend_rows]; unfold set_packet; by_solve. Qed.
#[local] Hint Resolve by_resend_rows : moves.
Lemma by_resend_loop n : forall id c ok, moves (kept f) (resend_loop fuel n id c ok).
Proof. induction n as [|n IH]; intros; cbn [resend_loop]; by_solve. Qed.
End Views.
