(* ===== verification/AwsProps.v ===== *)
(** * AwsProps: the broker task

    What the broker can and cannot do to the device, and what the task's loops
    establish: over any esp-tls layer, whatever the broker sends. *)

From S2P Require Import Prelude Platform Radio State LocalSession Mdns Provisioning PairingEvents ResponseFifo ClientList TcpServer UdpScan Backoff.
From S2P Require Import MqttTypes MqttState MqttSerializer MqttCore NetworkTransport AwsIot.
From S2P Require Import MqttStateProps MqttWire MqttCoreProps MqttFrame MqttClient AwsFrame.
From Stdlib Require Import ZArith Lia.
From stdpp Require Import base list strings numbers.

Local Open Scope cything_scope.

Section Aws.
Context {P : Platform} {C : Config} {A : AwsConfig} {N : EspTls} (fuel : nat).

(** ** The broker and the local side *)

Section Local.
Context (quiet : bool) (Hquiet : quiet = true -> hook_only_publishes).

Definition dev_local (s : aws) := local_view quiet (aw_dev s).

#[local] Instance local_bystander : Bystander quiet dev_local.
Proof. by split; [split|..]; intros; try done. Qed.

Ltac local_tac :=
  first [ apply moves_upd; intros ?; reflexivity
        | apply moves_on_dev; intros ?; cbn; first [done|apply local_pop] ].
Ltac local_solve := repeat first [ progress moves_solve | local_tac ].

#[local] Hint Resolve by_publish by_process by_wait by_establish : moves.

Lemma local_process_loop n : forall t now st, moves (kept dev_local) (process_loop fuel n t now st).
Proof.
  induction n as [|n IH]; intros; cbn [process_loop]; unfold drain_responses, drain_pairing_event, period_over; local_solve.
Qed.

Lemma local_turn p : moves (kept dev_local) (aws_iot_task_step fuel p).
Proof.
  pose proof local_process_loop. pose proof (by_connect_loop quiet dev_local fuel).
  pose proof (by_resubscribe_loop quiet dev_local fuel Hquiet). pose proof (by_resend_loop quiet dev_local fuel).
  destruct p; cbn [aws_iot_task_step]; unfold at_top, initializeMqtt, connecting, running, open_session, end_session,
    connectToServerWithBackoffRetries, handlePublishResend, cleanupOutgoingPublishes, subscribeToTopics, fill_subscriptions,
    handleResubscribe, processLoopWithTimeout; local_solve.
Qed.

Lemma task_keeps_local n s p s' : aws_iot_task fuel n s = Done (p, s') -> dev_local s' = dev_local s.
Proof.
  assert (forall n p, moves (kept dev_local) (task_turns fuel n p)) as H.
  { induction n0 as [|n0 IH]; intros q; cbn [task_turns]; [apply moves_pret|]. apply moves_bind; [apply local_turn|done]. }
  apply (moves_done (R := kept dev_local)). unfold aws_iot_task, build_mqtt_identity. local_solve.
Qed.
End Local.

(** C21: Whatever the broker sends and however the connection fails, the task
    changes nothing of the local side of the device: no session, no paired
    account, no password or lock, no provisioned identity, no Wi-Fi or Bluetooth
    state. The only lines it queues for the local clients are those the
    application's own command hook sends: none, when the hook answers the broker
    only. *)
Theorem broker_cannot_touch_local_side n s p s' :
  aws_iot_task fuel n s = Done (p, s') ->
  local_side (aw_dev s') = local_side (aw_dev s) /\
  (hook_only_publishes -> tcp_fifo (aw_dev s') = tcp_fifo (aw_dev s)).
Proof.
  intros E. split; [exact (f_equal fst (task_keeps_local false ltac:(done) _ _ _ _ E))|]. intros Hq.
  pose proof (f_equal snd (task_keeps_local true (fun _ => Hq) _ _ _ _ E)) as H. by injection H.
Qed.

(** ** Clean sessions *)

Lemma connack_clean t pk sp s :
  wlp (receiveConnack fuel t true pk sp) (fun r _ => mqtt_ok r.1.1 = true -> r.2 = false) s.
Proof.
  assert (forall st pk sp s, mqtt_ok st = false ->
    wlp (pret (st, pk, sp)) (fun (r : MQTTStatus_t * MQTTPacketInfo_t * bool) (_ : aws) => mqtt_ok r.1.1 = true -> r.2 = false) s) as Hno.
  { intros st pk0 sp0 s0 E. apply wlp_pret. cbn. by rewrite E. }
  unfold receiveConnack. apply wlp_bind, wlp_any. intros e s1. apply wlp_bind, wlp_any. intros [st pk1] s2.
  destruct (mqtt_ok st) eqn:E; cbn [negb]; [|by apply Hno]. apply wlp_bind, wlp_any. intros now s3.
  apply wlp_bind, wlp_any. intros st2 s4. destruct (mqtt_ok st2) eqn:E2; cbn [negb]; [|by apply Hno].
  apply wlp_bind, wlp_any. intros c s5. apply wlp_bind, wlp_any. intros [[st3 x] sp3] s6. cbv zeta.
  rewrite andb_true_r. apply wlp_pret. cbn [fst snd].
  destruct (default sp sp3), (mqtt_ok st3) eqn:E3; cbn [andb]; rewrite ?E3; done.
Qed.

Lemma connect_clean ci t sp s :
  cleanSession ci = true -> wlp (MQTT_Connect fuel ci None t sp) (fun r _ => mqtt_ok r.1 = true -> r.2 = false) s.
Proof.
  intros Hc. assert (forall st sp s, mqtt_ok st = false ->
    wlp (pret (st, sp)) (fun (r : MQTTStatus_t * bool) (_ : aws) => mqtt_ok r.1 = true -> r.2 = false) s) as Hno.
  { intros st sp0 s0 E. apply wlp_pret. cbn. by rewrite E. }
  unfold MQTT_Connect. destruct (MQTT_GetConnectPacketSize _ _) as [st sizes].
  destruct (mqtt_ok st) eqn:E; cbn [negb]; [|by apply Hno]. apply wlp_bind, wlp_any. intros [rl ps] s1.
  apply wlp_bind, wlp_any. intros st2 s2. destruct (mqtt_ok st2) eqn:E2; cbn [negb]; [|by apply Hno].
  rewrite Hc. apply wlp_bind. eapply wlp_mono; [apply connack_clean|]. intros [[st3 pk] sp3] s3 H3. cbn in H3.
  destruct (mqtt_ok st3) eqn:E3; cbn [negb]; [|by apply Hno]. rewrite H3 by done.
  apply wlp_bind, wlp_any. intros st4 s4. destruct (mqtt_ok st4) eqn:E4; [|by apply Hno].
  apply wlp_bind, wlp_any. intros ? s5. by apply wlp_pret.
Qed.

Lemma establish_clean b s : wlp (establishMqttSession fuel true b) (fun r _ => r.1 = true -> r.2 = false) s.
Proof.
  unfold establishMqttSession. apply wlp_bind, wlp_any. intros id s1. apply wlp_bind.
  eapply wlp_mono; [by apply connect_clean|]. intros [st sp] s2 H2. cbn [fst snd] in H2. apply wlp_pret. cbn [fst snd].
  by destruct (mqtt_ok st).
Qed.

Lemma connect_loop_clean n : forall ps b s,
  wlp (connect_loop fuel n ps false b) (fun r _ => r.1 = true -> r.2 = false) s.
Proof.
  induction n as [|n IH]; intros ps b s; cbn [connect_loop]; [apply wlp_no_fuel|].
  apply wlp_bind, wlp_any. intros tls s1. apply wlp_bind.
  assert (forall s2 (r : bool * bool), (r.1 = true -> r.2 = false) ->
    wlp (let '(returnStatus, broker) := r in
         if returnStatus then pret (EXIT_SUCCESS, broker) else
         let! (st, ps) := next_attempt ps in
         match st with
         | BackoffAlgorithmSuccess => connect_loop fuel n ps false broker
         | BackoffAlgorithmRetriesExhausted => pret (EXIT_FAILURE, broker)
         end) (fun r _ => r.1 = true -> r.2 = false) s2) as Hk.
  { intros s2 [[|] br] Hr; [by apply wlp_pret|]. apply wlp_bind, wlp_any. intros [[|] ps'] s3; [apply IH|by apply wlp_pret]. }
  destruct (bool_decide (tls = _)).
  2: { apply wlp_bind, wlp_any. intros ? s2. apply wlp_pret. by apply (Hk s2 (EXIT_FAILURE, b)). }
  apply wlp_bind. eapply wlp_mono; [apply establish_clean|]. intros [[|] sp] s3 H3; cbn [fst snd] in H3.
  - apply wlp_pret. by apply (Hk s3 (EXIT_SUCCESS, sp)).
  - apply wlp_bind, wlp_any. intros ? s4. apply wlp_pret. by apply (Hk s4 (EXIT_FAILURE, sp)).
Qed.

(** A turn of the connecting loop that knows of no session to resume. *)
Definition connecting_fresh (brokerSessionPresent : bool) : PT aws phase :=
  let! (returnStatus, brokerSessionPresent) := connectToServerWithBackoffRetries fuel false brokerSessionPresent in
  if negb returnStatus then
    on_net_ (sleep MQTT_SUBPUB_LOOP_DELAY_SECONDS) ;! pret (Connecting false brokerSessionPresent)
  else
    cleanupOutgoingPublishes ;!
    upd (set_is_connected_to_server true) ;!
    open_session fuel EXIT_SUCCESS.

Definition fresh_step (p : phase) : PT aws phase :=
  match p with
  | AtTop => at_top
  | Connecting _ b => connecting_fresh b
  | Running => running fuel
  end.

Fixpoint fresh_turns (n : nat) (p : phase) : PT aws phase :=
  match n with
  | O => pret p
  | S n => let! p := fresh_step p in fresh_turns n p
  end.

(** No session of the client's own. *)
Definition no_session (p : phase) : Prop := match p with Connecting c _ => c = false | _ => True end.

Lemma connecting_is_fresh b s : connecting fuel false b s = connecting_fresh b s.
Proof.
  unfold connecting, connecting_fresh. apply pbind_ext. unfold connectToServerWithBackoffRetries at 1.
  apply wlp_bind, wlp_any. intros ? s1. eapply wlp_mono; [apply connect_loop_clean|]. intros [[|] br] s2 H; [|done].
  cbn [fst snd] in H. rewrite H by done. done.
Qed.

Lemma step_no_session p s : no_session p -> wlp (aws_iot_task_step fuel p) (fun q _ => no_session q) s.
Proof.
  assert (forall s, wlp end_session (fun q _ => no_session q) s) as He.
  { intros s0. apply wlp_bind, wlp_any. intros ? s1. by apply wlp_pret. }
  destruct p as [|c b|]; cbn [aws_iot_task_step no_session].
  - intros _. unfold at_top. do 2 (apply wlp_bind, wlp_any; intros ? ?). destruct (negb _); [by apply wlp_pret|].
    do 2 (apply wlp_bind, wlp_any; intros ? ?). case_match; [by apply wlp_pret|apply He].
  - intros ->. unfold connecting. apply wlp_bind, wlp_any. intros [r br] s1. destruct (negb r).
    + apply wlp_bind, wlp_any. intros ? s2. by apply wlp_pret.
    + do 2 (apply wlp_bind, wlp_any; intros ? ?). unfold open_session. do 4 (apply wlp_bind, wlp_any; intros ? ?).
      case_match; [by apply wlp_pret|apply He].
  - intros _. unfold running. apply wlp_bind, wlp_any. intros st s1. destruct (bool_decide _); [|by apply wlp_pret].
    apply wlp_bind, wlp_any. intros ? s2. apply He.
Qed.

(** Every connection starts a clean session: the task always asks for one,
    the client refuses a broker that answers with a stored session, so the
    branch that resends unacknowledged publishes is dead code, and what was in
    flight when the connection broke is dropped. The task does, for ever,
    exactly what the one without that branch does. *)
Theorem reconnects_never_resend n s : aws_iot_task fuel n s = (build_mqtt_identity ;! fresh_turns n AtTop) s.
Proof.
  unfold aws_iot_task. apply pbind_ext, wlp_any. intros _ s1.
  assert (no_session AtTop) as Hp by done. revert Hp s1. generalize AtTop as p.
  induction n as [|n IH]; intros p Hp s1; cbn [task_turns fresh_turns]; [done|].
  assert (aws_iot_task_step fuel p s1 = fresh_step p s1) as E.
  { destruct p as [|c b|]; [done| |done]. cbn in Hp. subst c. apply connecting_is_fresh. }
  transitivity ((let! p := aws_iot_task_step fuel p in fresh_turns n p) s1).
  - apply pbind_ext. eapply wlp_mono; [by apply step_no_session|]. intros q s2 Hq. by apply IH.
  - by apply pbind_same.
Qed.
(** ** Subscribed when running *)

Definition session_flags (s : aws) := (globalSubscribePacketIdentifier s, is_connected_to_server s).

#[local] Instance flags_bystander : Bystander false session_flags.
Proof. by split; [split|..]. Qed.

Lemma wait_acked id t s :
  wlp (waitForPacketAck fuel id t)
    (fun ok s' => session_flags s' = session_flags s /\ (ok = true -> globalAckPacketIdentifier s' = id)) s.
Proof.
  apply wlp_and; [apply (wlp_moves (kept session_flags)), (by_wait false); [apply _|done]|].
  unfold waitForPacketAck. do 3 (apply wlp_bind, wlp_any; intros ? ?). apply wlp_bind. unfold wlp at 1, get.
  apply wlp_pret. destruct (negb _); [done|]. cbn [orb]. case_bool_decide as E; [done|]. intros _.
  destruct (decide (globalAckPacketIdentifier s' = id)); [done|]. by destruct E.
Qed.

(** The subscription the task asked for is acknowledged and accepted. *)
Definition subscribed (s : aws) : Prop :=
  globalAckPacketIdentifier s = globalSubscribePacketIdentifier s /\ globalSubAckStatus s <> MQTTSubAckFailure.

Lemma resubscribe_subscribed n : forall ps s,
  wlp (resubscribe_loop fuel n ps)
    (fun ok s' => is_connected_to_server s' = is_connected_to_server s /\ (ok = true -> subscribed s')) s.
Proof.
  induction n as [|n IH]; intros ps s; cbn [resubscribe_loop]; [apply wlp_no_fuel|].
  apply wlp_bind. unfold wlp at 1, get. apply wlp_bind. unfold wlp at 1, get. apply wlp_bind.
  eapply wlp_mono; [apply (wlp_moves (kept session_flags)), moves_MQTT_Subscribe; apply _|].
  intros st s1 [= H1 H1']. destruct (negb _); [by apply wlp_pret|]. apply wlp_bind.
  eapply wlp_mono; [apply wait_acked|]. intros [|] s2 [[= H2 H2'] Hack]; cbn [negb]; [|by apply wlp_pret; split; [congruence|]].
  specialize (Hack eq_refl). apply wlp_bind. unfold wlp at 1, get. case_bool_decide as E.
  - apply wlp_bind. eapply wlp_mono; [apply (wlp_moves (kept session_flags)), (by_next_attempt false); apply _|].
    intros [[|] ps'] s3 [= H3 H3']; [|by apply wlp_pret; split; [congruence|]].
    eapply wlp_mono; [apply IH|]. intros ok s4 [H4 Hs]. split; [congruence|done].
  - apply wlp_pret. split; [congruence|]. intros _. split; [congruence|done].
Qed.

Lemma open_subscribed rs s :
  wlp (open_session fuel rs)
    (fun q s' => q = Running -> is_connected_to_server s' = is_connected_to_server s /\ subscribed s') s.
Proof.
  assert (forall ok s s1, is_connected_to_server s1 = is_connected_to_server s -> (ok = true -> subscribed s1) ->
    wlp (if ok then pret Running else end_session)
      (fun q s' => q = Running -> is_connected_to_server s' = is_connected_to_server s /\ subscribed s') s1) as Hend.
  { intros [|] s0 s1 H1 H2; [apply wlp_pret; auto|]. apply wlp_bind, wlp_any. intros ? s2. by apply wlp_pret. }
  unfold open_session. apply wlp_bind. eapply (wlp_mono _ (fun _ s1 => is_connected_to_server s1 = is_connected_to_server s)).
  { destruct rs; [|by apply wlp_pret]. apply (wlp_moves (kept is_connected_to_server)).
    assert (Aside is_connected_to_server) as HA by done. unfold subscribeToTopics, fill_subscriptions. aws_moves. }
  intros r1 s1 H1. apply wlp_bind.
  eapply (wlp_mono _ (fun ok s2 => is_connected_to_server s2 = is_connected_to_server s /\
    (ok = true -> globalAckPacketIdentifier s2 = globalSubscribePacketIdentifier s2))).
  { destruct r1; [|by apply wlp_pret]. apply wlp_bind. unfold wlp at 1, get. eapply wlp_mono; [apply wait_acked|].
    intros ok s2 [[= E1 E2] Ha]. split; [congruence|]. intros Hok. rewrite Ha; congruence. }
  intros r2 s2 [H2 Hack]. apply wlp_bind. unfold wlp at 1, get. apply wlp_bind. destruct r2; cbn [andb].
  - case_bool_decide as E.
    + eapply wlp_mono; [apply resubscribe_subscribed|]. intros ok s3 [H3 Hs]. apply Hend; [congruence|done].
    + apply wlp_pret, (Hend true); [done|]. intros _. split; [by apply Hack|done].
  - by apply wlp_pret, (Hend false).
Qed.

(** The task runs the device's session only when the broker acknowledged
    this connection's subscription, under its own packet id, and did not
    refuse it. *)
Theorem running_is_subscribed c b s s' :
  connecting fuel c b s = Done (Running, s') -> is_connected_to_server s' = true /\ subscribed s'.
Proof.
  intros E. refine (wlp_done _ (fun q s' => q = Running -> is_connected_to_server s' = true /\ subscribed s') _ _ _ _ E eq_refl).
  unfold connecting. apply wlp_bind, wlp_any. intros [r br] s1. destruct (negb r).
  { apply wlp_bind, wlp_any. intros ? s2. by apply wlp_pret. }
  apply wlp_bind, wlp_any. intros r2 s2. apply wlp_bind. unfold wlp at 1, upd.
  eapply wlp_mono; [apply open_subscribed|]. intros q s3 H Hq. destruct (H Hq) as [-> ?]. done.
Qed.
End Aws.
