(* ===== verification/LinkProps.v ===== *)
(** * LinkProps: the encrypted link keeps its promises

    Theorems about [security/enc_frame.c]: replay and reflection protection,
    the frames a phone sends open to its lines, and a keyed socket never
    carries a line in the clear. *)

From S2P Require Import Prelude Platform State LocalSession EncFrame SimPlatform.
From stdpp Require Import base list strings numbers.
From Stdlib Require Import ZArith Lia.

Local Open Scope cything_scope.

Section Link.
Context {P : Platform}.

(** C34: a frame that was accepted is refused, with ERR:ENC as the
    only effect, in every later state in which the socket still has the same
    slot and the session's receive counter has not gone back. *)
Theorem accepted_frame_never_replays line sock cap d d' si x :
  is_enc line = true -> eval (enc_frame_unwrap line sock cap) d = Some x ->
  slot_for sock d = Some si -> slot_for sock d' = Some si ->
  (ls_rx_ctr (sess si (exec (enc_frame_unwrap line sock cap) d)) <= ls_rx_ctr (sess si d'))%Z ->
  enc_frame_unwrap line sock cap d' = (None, exec (send sock (ERR_ENC ++ [NL])) d').
Proof. apply unwrap_replay. Qed.

(** C9: an ENC line is handed on only if its socket holds a key, the
    nonce has the phone's direction and a counter above the last accepted one,
    and the ciphertext authenticates under the session key; the handed-on line
    is the decryption and the counter moves up to the frame's. Otherwise the
    device only answers ERR:ENC. *)
Theorem unwrap_only_authenticated line sock cap d :
  is_enc line = true ->
  (exists si plain ctr, slot_for sock d = Some si /\ session_keyed (sess si d) = true /\
     opens (sess si d) line cap ctr plain /\
     enc_frame_unwrap line sock cap d
     = (Some plain, set_pool (alter (accepted_frame ctr) si (pool d)) d)) \/
  (enc_frame_unwrap line sock cap d = (None, exec (send sock (ERR_ENC ++ [NL])) d) /\
   ~ exists si plain ctr, slot_for sock d = Some si /\ session_keyed (sess si d) = true /\
     opens (sess si d) line cap ctr plain).
Proof.
  intros He. destruct (unwrap_cases line sock cap d) as [[? _]|[[_ E]|(_ & H)]]; [congruence| |by left].
  right. split; [done|]. intros (si & plain & ctr & Hs & Hk & Ho).
  rewrite (unwrap_opens _ _ _ _ _ _ _ He Hs Hk Ho) in E. done.
Qed.

(** on a socket that holds a key every byte [enc_frame_send] puts
    on the wire is one AES-GCM frame of the line under the session key, with a
    nonce counter one above the last; a line over 768 bytes is dropped. *)
Theorem keyed_socket_only_sends_frames sock payload d si :
  slot_for sock d = Some si -> session_keyed (sess si d) = true ->
  exists sent, out (exec (enc_frame_send sock payload) d) = out d ++ sent /\
    (sent = [] \/
     exists frame, sent = [EvSend sock frame] /\
       sealed (ls_key (sess si d)) (u64 (ls_tx_ctr (sess si d) + 1)) (line_of_payload payload) frame /\
       length (line_of_payload payload) <= ENC_FRAME_PLAIN_MAX /\
       ls_tx_ctr (sess si (exec (enc_frame_send sock payload) d)) = u64 (ls_tx_ctr (sess si d) + 1)).
Proof.
  intros Hs Hk. destruct (slot_for_Some _ _ _ Hs) as (s & Hl & _). apply lookup_lt_Some in Hl.
  destruct (send_keyed sock payload d si Hs Hk) as [[_ ->]|[Hlen [->|(fr & Hf & ->)]]].
  - exists []. rewrite app_nil_r. by split; [|left].
  - exists []. rewrite app_nil_r. by split; [|left].
  - exists [EvSend sock fr]. split; [done|]. right. exists fr. split_and!; [done..|].
    unfold sess at 1. cbn. by rewrite sess_alter_eq.
Qed.

(** A socket with no key gets the payload byte for byte, and
    nothing else changes. *)
Theorem unkeyed_socket_sends_raw sock payload d :
  (forall si, slot_for sock d = Some si -> session_keyed (sess si d) = false) ->
  enc_frame_send sock payload d = (tt, set_out (out d ++ [EvSend sock payload]) d).
Proof. apply send_unkeyed. Qed.

Context {B : Base64Laws P} {G : GcmLaws P}.

(** the frame a phone builds for a line, with a fresh counter
    and the session key, is accepted and yields exactly that line. *)
Theorem phone_frame_roundtrip sock d si ctr plain ct tag cap :
  slot_for sock d = Some si -> session_keyed (sess si d) = true ->
  length (ls_key (sess si d)) = 32 ->
  (ls_rx_ctr (sess si d) < ctr)%Z -> (0 <= ctr < 2 ^ 64)%Z ->
  length plain <= ENC_FRAME_PLAIN_MAX -> length plain + ENC_FRAME_TAG_LEN <= cap ->
  Forall is_byte plain ->
  gcm_crypt_and_tag (ls_key (sess si d)) (dev_nonce ctr) plain = (0%Z, (ct, tag)) ->
  enc_frame_unwrap (phone_frame (dev_nonce ctr) (ct ++ tag)) sock cap d
  = (Some plain, set_pool (alter (accepted_frame ctr) si (pool d)) d).
Proof.
  intros Hs Hk Hlen Hlt Hr Hl Hcap Hb E.
  apply unwrap_opens; [apply is_enc_phone_frame|done|done|]. by apply phone_frame_opens.
Qed.

(** A frame the device itself sent, whatever its counter and
    ciphertext, is refused when it comes back on any socket. *)
Theorem reflected_frame_refused ctr ct sock cap d :
  enc_frame_unwrap (phone_frame (app_nonce ctr) ct) sock cap d
  = (None, exec (send sock (ERR_ENC ++ [NL])) d).
Proof.
  destruct (unwrap_cases (phone_frame (app_nonce ctr) ct) sock cap d)
    as [[E _]|[[_ E]|(_ & si & pl & c & _ & _ & Ho & _)]]; [|done|].
  - by rewrite is_enc_phone_frame in E.
  - by apply app_frame_never_opens in Ho.
Qed.

(** Every frame that is sent fits the frame buffer of
    [enc_frame_send]. *)
Theorem sent_frame_fits sock payload d si frame :
  slot_for sock d = Some si -> session_keyed (sess si d) = true ->
  out (exec (enc_frame_send sock payload) d) = out d ++ [EvSend sock frame] ->
  length frame <= ENC_FRAME_BUF.
Proof.
  intros Hs Hk Ho. destruct (send_keyed sock payload d si Hs Hk) as [[_ E]|[Hlen [E|(fr & Hf & E)]]].
  - rewrite E in Ho. apply (f_equal length) in Ho. rewrite length_app in Ho. cbn in Ho. lia.
  - rewrite E in Ho. apply (f_equal length) in Ho. rewrite length_app in Ho. cbn in Ho. lia.
  - rewrite E in Ho. cbn in Ho. apply app_inv_head in Ho. simplify_eq. by eapply sealed_fits.
Qed.

End Link.

(** ** On a concrete device *)

#[local] Instance simP : Platform := sim_platform true.

Definition wit_frame : bytes :=
  let c := snd (sim_encrypt (replicate 32 9%Z) (dev_nonce 8) (str "LIST")) in
  phone_frame (dev_nonce 8) (fst c ++ snd c).

Lemma accepted_frame_never_replays_witness :
  enc_frame_unwrap wit_frame 54 TCP_RECEIVE_DATA_LENGTH (exec (enc_frame_unwrap wit_frame 54 TCP_RECEIVE_DATA_LENGTH) (sim_keyed true))
  = (None, exec (send 54 (ERR_ENC ++ [NL])) (exec (enc_frame_unwrap wit_frame 54 TCP_RECEIVE_DATA_LENGTH) (sim_keyed true))).
Proof.
  apply (accepted_frame_never_replays wit_frame 54 TCP_RECEIVE_DATA_LENGTH (sim_keyed true) _ 0 (str "LIST"));
    [vm_compute; reflexivity..|]. apply Z.le_refl.
Defined.

Lemma unwrap_only_authenticated_witness :
  exists si plain ctr, slot_for 54 (sim_keyed true) = Some si /\
    session_keyed (sess si (sim_keyed true)) = true /\
    opens (sess si (sim_keyed true)) wit_frame TCP_RECEIVE_DATA_LENGTH ctr plain.
Proof.
  destruct (unwrap_only_authenticated wit_frame 54 TCP_RECEIVE_DATA_LENGTH (sim_keyed true)) as [H|[H _]].
  - vm_compute. reflexivity.
  - destruct H as (si & plain & ctr & H1 & H2 & H3 & _). exists si, plain, ctr. auto.
  - exfalso. apply (f_equal fst) in H. vm_compute in H. discriminate.
Defined.

Lemma keyed_socket_only_sends_frames_witness :
  exists sent, out (exec (enc_frame_send 54 (str "ACK" ++ [NL])) (sim_keyed true)) = out (sim_keyed true) ++ sent.
Proof.
  destruct (keyed_socket_only_sends_frames 54 (str "ACK" ++ [NL]) (sim_keyed true) 0) as (sent & H & _).
  - vm_compute. reflexivity.
  - vm_compute. reflexivity.
  - exists sent. exact H.
Defined.

Lemma unkeyed_socket_sends_raw_witness :
  enc_frame_send 54 (str "ACK") (sim_dev true sim_world0)
  = (tt, set_out (out (sim_dev true sim_world0) ++ [EvSend 54 (str "ACK")]) (sim_dev true sim_world0)).
Proof.
  apply unkeyed_socket_sends_raw. intros si H. vm_compute in H. discriminate.
Defined.

Lemma phone_frame_roundtrip_witness :
  fst (enc_frame_unwrap wit_frame 54 TCP_RECEIVE_DATA_LENGTH (sim_keyed true)) = Some (str "LIST").
Proof.
  refine (f_equal fst (phone_frame_roundtrip 54 (sim_keyed true) 0 8 (str "LIST")
             (fst (snd (sim_encrypt (replicate 32 9%Z) (dev_nonce 8) (str "LIST"))))
             (snd (snd (sim_encrypt (replicate 32 9%Z) (dev_nonce 8) (str "LIST"))))
             TCP_RECEIVE_DATA_LENGTH _ _ _ _ _ _ _ _ _)).
  - vm_compute. reflexivity.
  - vm_compute. reflexivity.
  - vm_compute. reflexivity.
  - vm_compute. reflexivity.
  - split; vm_compute; [discriminate|reflexivity].
  - apply (bool_decide_unpack _). vm_compute. exact I.
  - apply (bool_decide_unpack _). vm_compute. exact I.
  - repeat constructor; vm_compute; discriminate.
  - vm_compute. reflexivity.
Defined.

Lemma sent_frame_fits_witness :
  exists frame, out (exec (enc_frame_send 54 (str "ACK" ++ [NL])) (sim_keyed true)) = [EvSend 54 frame] /\
    length frame <= ENC_FRAME_BUF.
Proof.
  eexists. split.
  - vm_compute. reflexivity.
  - apply (sent_frame_fits 54 (str "ACK" ++ [NL]) (sim_keyed true) 0); vm_compute; reflexivity.
Defined.

Lemma reflected_frame_refused_witness :
  enc_frame_unwrap (phone_frame (app_nonce 3) (str "0123456789abcdefgh")) 54 TCP_RECEIVE_DATA_LENGTH (sim_keyed true)
  = (None, exec (send 54 (ERR_ENC ++ [NL])) (sim_keyed true)).
Proof. apply reflected_frame_refused. Defined.
