(* ===== verification/AuthProps.v ===== *)
(** * AuthProps: who gets in

    The access policy refuses protected lines, and the two session states that
    carry a key are entered only with the proof that belongs to them. *)

From S2P Require Import Prelude Platform State LocalSession Mdns EncFrame PairedList PairingEvents.
From S2P Require Import DevicePassword Discovery AccessPolicy PakeHandler LocalAuth OwnerCommands.
From S2P Require Import ResponseFifo ClientList Flash WifiPairing Provisioning TcpServer Invariant.
From S2P Require Import SimPlatform.
From stdpp Require Import base list strings numbers.
From Stdlib Require Import ZArith Lia.

Local Open Scope cything_scope.

Section NoNew.
Context {P : Platform} {C : Config}.
Context (st : local_session_state_t) (ex : option nat).

(** [m] puts no session into state [st] that was not in it, except perhaps
    the one of slot [ex]. *)
Definition no_new {A} (m : M A) : Prop :=
  forall d j s', Some j <> ex -> pool (exec m d) !! j = Some s' -> ls_state s' = st ->
    exists s, pool d !! j = Some s /\ ls_state s = st.

Lemma nn_calm {A} (m : M A) : calm m -> no_new m.
Proof.
  intros Hm d j s' _ Hj Hs. destruct (Hm d) as [_ HF].
  destruct (Forall2_lookup_r _ _ _ _ _ HF Hj) as (s & Hl & _ & _ & [= E _ _ _ _]).
  exists s. split; [done|congruence].
Qed.
Lemma nn_pool {A} (m : M A) : (forall d, pool (exec m d) = pool d) -> no_new m.
Proof. intros H d j s' _. rewrite H. eauto. Qed.
Lemma nn_bind {A B} (m : M A) (k : A -> M B) : no_new m -> (forall a, no_new (k a)) -> no_new (bind m k).
Proof.
  intros Hm Hk d j s' Hx Hj Hs. rewrite exec_bind in Hj. destruct (Hk _ _ _ _ Hx Hj Hs) as (s1 & H1 & E1).
  by eapply Hm.
Qed.
Lemma nn_upd si f : (forall s, ls_state (f s) = st -> ls_state s = st) -> no_new (upd_sess si f).
Proof.
  intros Hf d j s' _ Hj Hs. change (pool (exec (upd_sess si f) d)) with (alter f si (pool d)) in Hj.
  destruct (decide (si = j)) as [->|].
  - rewrite list_lookup_alter_eq in Hj. apply fmap_Some in Hj as (s & Hl & ->). eauto.
  - rewrite list_lookup_alter_ne in Hj by done. eauto.
Qed.
Lemma nn_upd_ex si f : ex = Some si -> no_new (upd_sess si f).
Proof.
  intros -> d j s' Hx Hj Hs. change (pool (exec (upd_sess si f) d)) with (alter f si (pool d)) in Hj.
  rewrite list_lookup_alter_ne in Hj by congruence. eauto.
Qed.
Lemma nn_for_each {A} (l : list A) f : (forall a, no_new (f a)) -> no_new (for_each l f).
Proof.
  intros Hf. induction l as [|a l IH]; [by apply nn_pool|]. intros d j s' Hx Hj Hs.
  change (exec (for_each (a :: l) f) d) with (exec (for_each l f) (exec (f a) d)) in Hj.
  destruct (IH _ _ _ Hx Hj Hs) as (s1 & H1 & E1). by eapply Hf.
Qed.

End NoNew.

Ltac nn_step :=
  lazymatch goal with
  | |- no_new _ _ (bind _ _) => apply nn_bind; [|intros ?]
  | |- no_new _ _ (upd_sess _ _) => first [by apply nn_upd_ex | apply nn_upd; intros ?; cbn; first [done | congruence]]
  | |- no_new _ _ (for_each _ _) => apply nn_for_each; intros ?
  | |- no_new _ _ (when _ _) => unfold when
  | |- no_new _ _ (io _) => apply nn_calm, calm_io
  | |- no_new _ _ (modify _) => by apply nn_pool
  | |- no_new _ _ (gets _) => by apply nn_pool
  | |- no_new _ _ (ask _) => by apply nn_pool
  | |- no_new _ _ (io_ _) => by apply nn_pool
  | |- no_new _ _ (ret _) => by apply nn_pool
  | |- no_new _ _ (match ?x with _ => _ end) => destruct x
  | |- no_new _ _ _ => solve [apply nn_calm; eauto with calm_ops]
  end.
Ltac nn_solve := repeat nn_step.

Section Handlers.
Context {P : Platform} {C : Config}.
Context (st : local_session_state_t) (ex : option nat).
Context (Hn : st <> LS_NEW) (Hp : st <> LS_PAKE_WAIT_PROOF) (Ha : st <> LS_AUTH_WAIT_PROOF).

Lemma nn_free_srp si : no_new st ex (free_srp si).
Proof. unfold free_srp. nn_solve. Qed.

Lemma nn_reset_handshake si : no_new st ex (local_session_reset_handshake si).
Proof. unfold local_session_reset_handshake. nn_solve; apply nn_free_srp. Qed.

Lemma nn_drop_auth si : no_new st ex (drop_auth si).
Proof. unfold drop_auth. nn_solve; apply nn_free_srp. Qed.

Lemma nn_removed i : no_new st ex (local_session_on_paired_removed i).
Proof. unfold local_session_on_paired_removed. nn_solve. apply nn_drop_auth. Qed.

Lemma nn_drop_all : no_new st ex local_session_drop_all_auth.
Proof. unfold local_session_drop_all_auth. nn_solve. apply nn_drop_auth. Qed.

Lemma nn_list_store : no_new st ex PairedList.nvs_store.
Proof.
  apply nn_pool. intros d. destruct (PairedList.nvs_store_run d) as (e & w & E).
  unfold exec. by rewrite E.
Qed.

Lemma nn_add a b c e : no_new st ex (paired_list_add a b c e).
Proof. unfold paired_list_add, upd_list, upd_entry. nn_solve; apply nn_list_store. Qed.
Lemma nn_remove i : no_new st ex (paired_list_remove i).
Proof. unfold paired_list_remove, upd_list. nn_solve; apply nn_list_store. Qed.
Lemma nn_rotate : no_new st ex paired_list_rotate_owner_key.
Proof. unfold paired_list_rotate_owner_key, upd_entry. nn_solve; apply nn_list_store. Qed.
Lemma nn_clear : no_new st ex paired_list_clear.
Proof. unfold paired_list_clear. nn_solve; apply nn_list_store. Qed.

Lemma nn_pake1 si line : no_new st ex (handle_pake1 si line).
Proof. unfold handle_pake1, srp_setup. nn_solve; apply nn_reset_handshake. Qed.

Lemma nn_abort si : no_new st ex (abort_pake si).
Proof. unfold abort_pake. nn_solve. apply nn_free_srp. Qed.

Lemma nn_enroll si line : no_new st ex (handle_enroll si line).
Proof. unfold handle_enroll. nn_solve. apply nn_add. Qed.

Lemma nn_auth1 si line : no_new st ex (handle_auth1 si line).
Proof. unfold handle_auth1, paired_list_find, paired_list_get. nn_solve. apply nn_reset_handshake. Qed.

Lemma nn_revoke_loop fuel i : no_new st ex (revoke_loop fuel i).
Proof.
  revert i. induction fuel as [|f IH]; intros i; cbn [revoke_loop]; unfold paired_list_get; nn_solve;
    try apply nn_remove; try apply nn_removed; apply IH.
Qed.

Lemma nn_list_loop sock n i : no_new st ex (list_loop sock n i).
Proof. apply nn_calm, calm_list_loop. Qed.

Lemma nn_revoke si line : no_new st ex (handle_revoke si line).
Proof.
  unfold handle_revoke, paired_list_find, paired_list_get.
  nn_solve; first [apply nn_remove | apply nn_removed].
Qed.
Lemma nn_pwset si line : no_new st ex (handle_pwset si line).
Proof.
  unfold handle_pwset, revoke_all_non_owner. nn_solve; first [apply nn_revoke_loop | apply nn_rotate].
Qed.
Lemma nn_reset si : no_new st ex (handle_reset si).
Proof. unfold handle_reset. nn_solve; first [apply nn_clear | apply nn_drop_all]. Qed.
Lemma nn_unpair si : no_new st ex (handle_unpair si).
Proof. unfold handle_unpair, paired_list_get. nn_solve; first [apply nn_remove | apply nn_removed]. Qed.

Lemma nn_owner line sock : no_new st ex (owner_commands_handle_line line sock).
Proof.
  unfold owner_commands_handle_line. cbv zeta. destruct (negb _); [by apply nn_pool|].
  apply nn_bind; [by apply nn_calm, calm_find|intros [si|]].
  2:{ apply nn_calm, calm_bind; [apply calm_send_err|intros; apply calm_ret]. }
  destruct (calm_quiet_commands si line) as (C1 & C2 & C3 & C4).
  apply nn_bind; [by apply nn_pool|intros s].
  destruct (is_exact line (str "UNPAIR")).
  { apply nn_bind; [|intros; by apply nn_pool]. destruct (negb _); [apply nn_calm, calm_send_err|apply nn_unpair]. }
  destruct (negb _); [apply nn_calm, calm_bind; [apply calm_send_err|intros; apply calm_ret]|].
  apply nn_bind; [|intros; by apply nn_pool]. repeat case_match;
    first [by apply nn_calm | apply nn_revoke | apply nn_pwset | apply nn_reset].
Qed.

End Handlers.

(** ** The states that carry a key *)

Section KeyStates.
Context {P : Platform} {C : Config}.

Lemma nn_pake3_auth ex si line : no_new LS_AUTH_OK ex (handle_pake3 si line).
Proof. unfold handle_pake3. nn_solve; first [by apply nn_abort | apply nn_free_srp]. Qed.

Lemma nn_pake3 si line : no_new LS_PAKE_OK (Some si) (handle_pake3 si line).
Proof. unfold handle_pake3. nn_solve; first [by apply nn_abort | apply nn_free_srp]. Qed.

Lemma nn_auth3_pake ex si line : no_new LS_PAKE_OK ex (handle_auth3 si line).
Proof. unfold handle_auth3, paired_list_get. nn_solve. Qed.

Lemma nn_auth3 si line : no_new LS_AUTH_OK (Some si) (handle_auth3 si line).
Proof. unfold handle_auth3, paired_list_get. nn_solve. Qed.

(** AUTH3 moves its own session to LS_AUTH_OK only with the phone's proof. *)
Lemma auth3_proof si line d s s' :
  pool d !! si = Some s -> pool (exec (handle_auth3 si line) d) !! si = Some s' ->
  ls_state s' = LS_AUTH_OK -> ls_state s <> LS_AUTH_OK ->
  ls_state s = LS_AUTH_WAIT_PROOF /\
  exists got, parse_auth3 line = Some got /\
    local_auth_ct_equal got (expected_proof s) LOCAL_AUTH_MAC_LEN = true.
Proof.
  intros Hs Hs' E1 E2.
  assert (forall A (m : M A), no_new LS_AUTH_OK None m -> exec (handle_auth3 si line) d = exec m d -> False) as Hno.
  { intros A m Hm E. rewrite E in Hs'. destruct (Hm d si s') as (x & Hx & Ex); [done..|]. congruence. }
  revert Hno. unfold handle_auth3. rewrite exec_bind, eval_gets, exec_gets, (sess_lookup _ _ _ Hs). cbv zeta.
  case_bool_decide as Hst.
  { intros Hno. exfalso. eapply (Hno _ _ (nn_calm _ _ _ (calm_send_err _ _))). done. }
  destruct (parse_auth3 line) as [got|].
  2:{ intros Hno. exfalso. eapply (Hno _ _ (nn_calm _ _ _ (calm_send_err _ _))). done. }
  destruct (local_auth_ct_equal got (expected_proof s) LOCAL_AUTH_MAC_LEN) eqn:Ec; [|cbn [negb]].
  { intros _. split; [done|]. by exists got. }
  intros Hno. exfalso. eapply Hno; [|reflexivity]. nn_solve.
Qed.

(** PAKE3 moves its own session to LS_PAKE_OK only if the SRP proof is right. *)
Lemma pake3_proof si line d s s' :
  pool d !! si = Some s -> pool (exec (handle_pake3 si line) d) !! si = Some s' ->
  ls_state s' = LS_PAKE_OK -> ls_state s <> LS_PAKE_OK ->
  ls_state s = LS_PAKE_WAIT_PROOF /\
  exists hd m1, ls_srp s = Some hd /\ decode_payload line PAKE3_PREFIX SRP_PROOF_LEN = Some m1 /\
    length m1 = SRP_PROOF_LEN /\
    fst (fst (esp_srp_exchange_proofs hd DEVICE_PW_SRP_IDENTITY m1 (world d))) = ESP_OK.
Proof.
  intros Hs Hs' E1 E2.
  assert (forall A (m : M A), no_new LS_PAKE_OK None m -> exec (handle_pake3 si line) d = exec m d -> False) as Hno.
  { intros A m Hm E. rewrite E in Hs'. destruct (Hm d si s') as (x & Hx & Ex); [done..|]. congruence. }
  revert Hno. unfold handle_pake3. rewrite exec_bind, eval_gets, exec_gets, (sess_lookup _ _ _ Hs). cbv zeta.
  case_bool_decide as Hst.
  { intros Hno. exfalso. eapply (Hno _ _ (nn_calm _ _ _ (calm_send_err _ _))). done. }
  destruct (ls_srp s) as [hd|].
  2:{ intros Hno. exfalso. eapply (Hno _ _ (nn_calm _ _ _ (calm_send_err _ _))). done. }
  assert (forall c, no_new LS_PAKE_OK None (abort_pake si ;; send_err (ls_sock s) c)) as Hab
    by (intros c; nn_solve; by apply nn_abort).
  destruct (decode_payload line PAKE3_PREFIX SRP_PROOF_LEN) as [m1|];
    [|intros Hno; exfalso; by eapply (Hno _ _ (Hab _))].
  case_bool_decide as Hl; [intros Hno; exfalso; by eapply (Hno _ _ (Hab _))|].
  rewrite exec_bind. unfold eval, io.
  destruct (esp_srp_exchange_proofs hd DEVICE_PW_SRP_IDENTITY m1 (world d)) as [[err m2] w] eqn:Ex. cbn [fst].
  destruct (is_ok err) eqn:Eok; cbn [negb].
  { intros _. apply is_ok_true in Eok as ->. split; [|exists hd, m1; rewrite Ex; split_and!]; done. }
  intros Hno. exfalso.
  eapply (Hno _ (io_ (fun _ => w) ;; device_password_note_failure (ls_peer_ip s) ;; abort_pake si ;; send_err (ls_sock s) (str "BADPW"))).
  - nn_solve. by apply nn_abort.
  - rewrite !exec_bind. do 3 f_equal. unfold exec. cbn [fst snd]. by rewrite Ex.
Qed.


(** ** Which handler sees a handshake line *)

Lemma has_prefix_excl line p q n a b :
  has_prefix line p = true -> p !! n = Some a -> q !! n = Some b -> a <> b -> has_prefix line q = false.
Proof.
  intros (r & ->)%has_prefix_spec Ha Hb Hab. apply not_true_iff_false. intros (r' & E)%has_prefix_spec.
  apply (f_equal (fun l => l !! n)) in E. rewrite !lookup_app_l in E by (by eapply lookup_lt_Some). congruence.
Qed.

Lemma dispatch_pake line sock d :
  has_prefix line PAKE1_PREFIX = true \/ has_prefix line PAKE3_PREFIX = true ->
  exec (tcp_dispatch_line line sock) d = exec (pake_handle_line line sock) d.
Proof.
  intros Hp. assert (eval (pake_handle_line line sock) d = true) as Ht.
  { unfold pake_handle_line. cbv zeta.
    replace (negb _ && negb _) with false by (destruct Hp as [-> | ->]; by rewrite ?andb_false_r).
    rewrite eval_bind. destruct (eval (local_session_find sock) d); rewrite eval_bind; done. }
  assert (is_handshake line = true) as Hh.
  { unfold is_handshake. unfold PAKE1_PREFIX, PAKE3_PREFIX in Hp. destruct Hp as [H|H]; rewrite H; by rewrite ?orb_true_r. }
  unfold tcp_dispatch_line, access_policy_allow. rewrite exec_bind, eval_bind, exec_bind, eval_gets, exec_gets, Hh.
  cbn [orb]. change (exec (ret true) d) with d. change (eval (ret true) d) with true. cbn [negb].
  rewrite exec_bind, Ht. done.
Qed.

Lemma dispatch_auth line sock d :
  has_prefix line AUTH1_PREFIX = true \/ has_prefix line AUTH3_PREFIX = true \/ has_prefix line ENROLL_PREFIX = true ->
  exec (tcp_dispatch_line line sock) d = exec (local_auth_handle_line line sock) d.
Proof.
  intros Hp. assert (eval (local_auth_handle_line line sock) d = true) as Ht.
  { unfold local_auth_handle_line. cbv zeta.
    replace (negb _ && negb _ && negb _) with false by (destruct Hp as [-> |[-> | ->]]; by rewrite ?andb_false_r).
    rewrite eval_bind. destruct (eval (local_session_find sock) d); rewrite eval_bind; done. }
  assert (is_handshake line = true) as Hh.
  { unfold is_handshake. unfold AUTH1_PREFIX, AUTH3_PREFIX, ENROLL_PREFIX in Hp.
    destruct Hp as [H|[H|H]]; rewrite H; by rewrite ?orb_true_r. }
  assert (has_prefix line PAKE1_PREFIX = false /\ has_prefix line PAKE3_PREFIX = false) as [E1 E3].
  { destruct Hp as [H|[H|H]]; split;
      (eapply (has_prefix_excl _ _ _ 0); [exact H|reflexivity|reflexivity|done]). }
  unfold tcp_dispatch_line, access_policy_allow. rewrite exec_bind, eval_bind, exec_bind, eval_gets, exec_gets, Hh.
  cbn [orb]. change (exec (ret true) d) with d. change (eval (ret true) d) with true. cbn [negb].
  assert (pake_handle_line line sock = ret false) as -> by (unfold pake_handle_line; by rewrite E1, E3).
  rewrite exec_bind. change (exec (ret false) d) with d. change (eval (ret false) d) with false. cbn [negb].
  rewrite exec_bind, Ht. done.
Qed.

Section Others.
Context (st : local_session_state_t).
Context (Hn : st <> LS_NEW) (Hp : st <> LS_PAKE_WAIT_PROOF) (Ha : st <> LS_AUTH_WAIT_PROOF).

(** The handlers behind the handshakes never enter such a state. *)
Lemma nn_pake_line line sock :
  (has_prefix line PAKE3_PREFIX = true -> forall si, no_new st None (handle_pake3 si line)) ->
  no_new st None (pake_handle_line line sock).
Proof.
  intros H3. unfold pake_handle_line. cbv zeta.
  destruct (has_prefix line PAKE3_PREFIX), (has_prefix line PAKE1_PREFIX);
    cbn [negb andb]; nn_solve;
    first [by apply nn_pake1 | by apply H3].
Qed.

Lemma nn_auth_line line sock :
  (has_prefix line AUTH3_PREFIX = true -> forall si, no_new st None (handle_auth3 si line)) ->
  no_new st None (local_auth_handle_line line sock).
Proof.
  intros H3. unfold local_auth_handle_line. cbv zeta.
  destruct (has_prefix line AUTH3_PREFIX), (has_prefix line ENROLL_PREFIX), (has_prefix line AUTH1_PREFIX);
    cbn [negb andb]; nn_solve; first [by apply nn_enroll | by apply nn_auth1 | by apply H3].
Qed.

Lemma nn_dispatch line sock :
  no_new st None (pake_handle_line line sock) -> no_new st None (local_auth_handle_line line sock) ->
  no_new st None (tcp_dispatch_line line sock).
Proof.
  intros H1 H2. unfold tcp_dispatch_line. 
  assert (no_new st None (owner_commands_handle_line line sock)) by (by apply nn_owner). nn_solve; try done.
Qed.
End Others.

(** C4: a line brings a session into LS_AUTH_OK only if it is AUTH3 on that
    session's own socket, the session was waiting for the proof, and the proof
    sent equals, in the constant-time comparison, the HMAC the device expects
    for its own challenge. *)
Theorem auth_ok_needs_proof line sock d j s' :
  pool (exec (tcp_dispatch_line line sock) d) !! j = Some s' -> ls_state s' = LS_AUTH_OK ->
  exists s, pool d !! j = Some s /\
    (ls_state s = LS_AUTH_OK \/
     slot_for sock d = Some j /\ has_prefix line AUTH3_PREFIX = true /\ ls_state s = LS_AUTH_WAIT_PROOF /\
     exists got, parse_auth3 line = Some got /\
       local_auth_ct_equal got (expected_proof s) LOCAL_AUTH_MAC_LEN = true).
Proof.
  intros Hj Hs'. destruct (has_prefix line AUTH3_PREFIX) eqn:H3.
  2:{ assert (no_new LS_AUTH_OK None (tcp_dispatch_line line sock)) as Hno.
      { apply nn_dispatch; [done..|by apply nn_pake_line; [..|intros; apply nn_pake3_auth]|].
        apply nn_auth_line; [done..|]. congruence. }
      destruct (Hno d j s') as (s & Hs & E); [done..|]. eauto. }
  rewrite (dispatch_auth line sock d) in Hj by tauto. unfold local_auth_handle_line in Hj. cbv zeta in Hj.
  assert (has_prefix line ENROLL_PREFIX = false /\ has_prefix line AUTH1_PREFIX = false) as [E1 E2].
  { split; [eapply (has_prefix_excl _ _ _ 0)|eapply (has_prefix_excl _ _ _ 4)];
      [exact H3|reflexivity|reflexivity|done|exact H3|reflexivity|reflexivity|done]. }
  rewrite H3, E1, E2 in Hj. cbn [negb andb] in Hj. rewrite exec_bind in Hj.
  unfold exec at 2, eval at 1 in Hj. rewrite !find_run in Hj. cbn [fst snd] in Hj. fold (slot_for sock d) in Hj.
  destruct (slot_for sock d) as [si|] eqn:Es.
  all: rewrite exec_bind in Hj; change (exec (ret true) ?x) with x in Hj.
  2:{ destruct (nn_calm LS_AUTH_OK None _ (calm_send_err sock (str "NOSESSION")) d j s') as (s & ? & ?);
        [done|exact Hj|done|]. eauto. }
  destruct (decide (j = si)) as [->|Hne].
  - destruct (slot_for_Some _ _ _ Es) as (s & Hs & _). exists s. split; [done|].
    destruct (decide (ls_state s = LS_AUTH_OK)); [by left|right].
    destruct (auth3_proof _ _ _ _ _ Hs Hj Hs') as (? & ? & ? & ?); [done|]. by eauto 10.
  - destruct (nn_auth3 si line d j s') as (s & ? & ?); [congruence|done..|]. eauto.
Qed.

(** C35: a line brings a session into LS_PAKE_OK only if it is PAKE3 on that
    session's own socket, the session was in the middle of a key exchange, and
    the SRP library accepts the proof of the password the line carries. *)
Theorem pake_ok_needs_proof line sock d j s' :
  pool (exec (tcp_dispatch_line line sock) d) !! j = Some s' -> ls_state s' = LS_PAKE_OK ->
  exists s, pool d !! j = Some s /\
    (ls_state s = LS_PAKE_OK \/
     slot_for sock d = Some j /\ has_prefix line PAKE3_PREFIX = true /\ ls_state s = LS_PAKE_WAIT_PROOF /\
     exists hd m1, ls_srp s = Some hd /\ decode_payload line PAKE3_PREFIX SRP_PROOF_LEN = Some m1 /\
       length m1 = SRP_PROOF_LEN /\
       fst (fst (esp_srp_exchange_proofs hd DEVICE_PW_SRP_IDENTITY m1 (world d))) = ESP_OK).
Proof.
  intros Hj Hs'. destruct (has_prefix line PAKE3_PREFIX) eqn:H3.
  2:{ assert (no_new LS_PAKE_OK None (tcp_dispatch_line line sock)) as Hno.
      { apply nn_dispatch; [done..| |by apply nn_auth_line; [..|intros; apply nn_auth3_pake]].
        apply nn_pake_line; [done..|]. congruence. }
      destruct (Hno d j s') as (s & Hs & E); [done..|]. eauto. }
  rewrite (dispatch_pake line sock d) in Hj by tauto. unfold pake_handle_line in Hj. cbv zeta in Hj.
  assert (has_prefix line PAKE1_PREFIX = false) as E1.
  { eapply (has_prefix_excl _ _ _ 4); [exact H3|reflexivity|reflexivity|done]. }
  rewrite H3, E1 in Hj. cbn [negb andb] in Hj. rewrite exec_bind in Hj.
  unfold exec at 2, eval at 1 in Hj. rewrite !find_run in Hj. cbn [fst snd] in Hj. fold (slot_for sock d) in Hj.
  destruct (slot_for sock d) as [si|] eqn:Es.
  all: rewrite exec_bind in Hj; change (exec (ret true) ?x) with x in Hj.
  2:{ destruct (nn_calm LS_PAKE_OK None _ (calm_send_err sock (str "NOSESSION")) d j s') as (s & ? & ?);
        [done|exact Hj|done|]. eauto. }
  destruct (decide (j = si)) as [->|Hne].
  - destruct (slot_for_Some _ _ _ Es) as (s & Hs & _). exists s. split; [done|].
    destruct (decide (ls_state s = LS_PAKE_OK)); [by left|right].
    destruct (pake3_proof _ _ _ _ _ Hs Hj Hs') as (? & ? & ? & ? & ? & ? & ?); [done|]. by eauto 15.
  - destruct (nn_pake3 si line d j s') as (s & ? & ?); [congruence|done..|]. eauto.
Qed.

(** ** The policy *)

(** What the policy asks of a protected line. *)
Definition admitted (sock : Z) (d : Dev) : bool :=
  match slot_for sock d with
  | Some si => authenticated (sess si d) && ls_rx_encrypted (sess si d)
  | None => false
  end.

Lemma allow_cases line sock d :
  is_handshake line = false -> is_public line d = false -> local_auth_enforce = true ->
  (admitted sock d = true /\ access_policy_allow line sock d = (true, d)) \/
  (admitted sock d = false /\ exists code, (code = str "ERR:AUTH" \/ code = str "ERR:ENC") /\
     access_policy_allow line sock d = (false, exec (send sock (code ++ [NL])) d)).
Proof.
  intros Hh Hp He. unfold access_policy_allow, access_policy_sock_authenticated, admitted.
  unfold bind, gets, ret, ERR_AUTH, ERR_ENC. cbn beta iota. rewrite Hh, Hp. cbn [orb]. rewrite !find_run.
  cbn beta iota. fold (slot_for sock d). destruct (slot_for sock d) as [si|]; cbn beta iota.
  2:{ right. split; [done|]. exists (str "ERR:AUTH"). split; [by left|]. by rewrite He. }
  rewrite He. destruct (authenticated (sess si d)), (ls_rx_encrypted (sess si d)); cbn [andb negb];
    [by left|right; split; [done|]..].
  - exists (str "ERR:ENC"). split; [by right|done].
  - exists (str "ERR:AUTH"). split; [by left|done].
  - exists (str "ERR:AUTH"). split; [by left|done].
Qed.

(** C3: with LOCAL_AUTH_ENFORCE on and a password set, a line that is not part
    of a handshake and not public to everyone is, on a socket whose session is
    not authenticated or whose line did not come encrypted, answered ERR:AUTH
    or ERR:ENC in the clear and has no other effect on the device. *)
Theorem protected_line_refused line sock d :
  local_auth_enforce = true -> is_handshake line = false -> is_public line d = false ->
  admitted sock d = false ->
  exists code, (code = str "ERR:AUTH" \/ code = str "ERR:ENC") /\
    exec (tcp_dispatch_line line sock) d = exec (send sock (code ++ [NL])) d.
Proof.
  intros He Hh Hp Ha. destruct (allow_cases line sock d Hh Hp He) as [[E _]|[_ (c & Hc & E)]]; [congruence|].
  exists c. split; [done|]. unfold tcp_dispatch_line. rewrite exec_bind. unfold exec at 2, eval at 1. rewrite E.
  done.
Qed.

End KeyStates.

(** ** Who can change the paired list *)

Section ListFrame.
Context {P : Platform} {C : Config}.

Definition fixes_list {A} (m : M A) : Prop := forall d, plist (exec m d) = plist d.

Lemma fl_calm {A} (m : M A) : calm m -> fixes_list m.
Proof. intros Hm d. apply Hm. Qed.
Lemma fl_pure {A} (m : M A) : (forall d, plist (exec m d) = plist d) -> fixes_list m.
Proof. done. Qed.
Lemma fl_bind {A B} (m : M A) (k : A -> M B) : fixes_list m -> (forall a, fixes_list (k a)) -> fixes_list (bind m k).
Proof. intros Hm Hk d. rewrite exec_bind, Hk. apply Hm. Qed.

End ListFrame.

Ltac fl_step :=
  lazymatch goal with
  | |- fixes_list (bind _ _) => apply fl_bind; [|intros ?]
  | |- fixes_list (upd_sess _ _) => by apply fl_pure
  | |- fixes_list (when _ _) => unfold when
  | |- fixes_list (io _) => apply fl_calm, calm_io
  | |- fixes_list (gets _) => by apply fl_pure
  | |- fixes_list (ask _) => by apply fl_pure
  | |- fixes_list (io_ _) => by apply fl_pure
  | |- fixes_list (ret _) => by apply fl_pure
  | |- fixes_list (match ?x with _ => _ end) => destruct x
  | |- fixes_list _ => solve [apply fl_calm; eauto with calm_ops]
  end.
Ltac fl_solve := repeat fl_step.

Section ListChange.
Context {P : Platform} {C : Config}.

Lemma fl_pake1 si line : fixes_list (handle_pake1 si line).
Proof. unfold handle_pake1, srp_setup, local_session_reset_handshake, free_srp. fl_solve. Qed.
Lemma fl_pake3 si line : fixes_list (handle_pake3 si line).
Proof. unfold handle_pake3, abort_pake, free_srp. fl_solve. Qed.
Lemma fl_pake line sock : fixes_list (pake_handle_line line sock).
Proof. unfold pake_handle_line. cbv zeta. fl_solve; first [apply fl_pake1 | apply fl_pake3]. Qed.
Lemma fl_auth1 si line : fixes_list (handle_auth1 si line).
Proof.
  unfold handle_auth1, paired_list_find, paired_list_get, local_session_reset_handshake, free_srp. fl_solve.
Qed.
Lemma fl_auth3 si line : fixes_list (handle_auth3 si line).
Proof. unfold handle_auth3, paired_list_get. fl_solve. Qed.

(** ENROLL reaches the list only in a PAKE session and encrypted. *)
Lemma enroll_changes si line d :
  plist (exec (handle_enroll si line) d) <> plist d ->
  ls_state (sess si d) = LS_PAKE_OK /\ ls_rx_encrypted (sess si d) = true.
Proof.
  unfold handle_enroll. rewrite exec_bind, eval_gets, exec_gets. cbv zeta.
  destruct (bool_decide (ls_state (sess si d) <> LS_PAKE_OK)) eqn:E1; cbn [orb].
  { intros []. by apply (fl_calm _ (calm_send_err _ _)). }
  destruct (ls_rx_encrypted (sess si d)); cbn [negb].
  - intros _. apply bool_decide_eq_false in E1. split; [by apply dec_stable|done].
  - intros []. by apply (fl_calm _ (calm_send_err _ _)).
Qed.

(** The conditions under which a line may change the list. *)
Definition may_change (line : bytes) (s : local_session_t) : bool :=
  has_prefix line ENROLL_PREFIX && bool_decide (ls_state s = LS_PAKE_OK) && ls_rx_encrypted s
  || bool_decide (line = str "UNPAIR") && is_authed_session s
  || is_owner_session s.

Lemma auth_line_changes line sock d :
  plist (exec (local_auth_handle_line line sock) d) <> plist d ->
  exists si, slot_for sock d = Some si /\ may_change line (sess si d) = true.
Proof.
  unfold local_auth_handle_line. cbv zeta. destruct (_ && _ && _); [done|].
  rewrite exec_bind. unfold exec at 2, eval at 1. rewrite !find_run. cbn [fst snd]. fold (slot_for sock d).
  destruct (slot_for sock d) as [si|]; rewrite exec_bind; change (exec (ret true) ?x) with x.
  2:{ intros []. by apply (fl_calm _ (calm_send_err _ _)). }
  intros H. exists si. split; [done|]. unfold may_change.
  destruct (has_prefix line ENROLL_PREFIX) eqn:Ee.
  - destruct (enroll_changes _ _ _ H) as [E1 E2]. rewrite E2. by rewrite bool_decide_eq_true_2 by done.
  - exfalso. apply H. destruct (has_prefix line AUTH1_PREFIX); [apply fl_auth1|apply fl_auth3].
Qed.

Lemma owner_line_changes line sock d :
  plist (exec (owner_commands_handle_line line sock) d) <> plist d ->
  exists si, slot_for sock d = Some si /\ may_change line (sess si d) = true.
Proof.
  unfold owner_commands_handle_line. cbv zeta. destruct (negb (_ || _)); [done|].
  rewrite exec_bind. unfold exec at 2, eval at 1. rewrite !find_run. cbn [fst snd]. fold (slot_for sock d).
  destruct (slot_for sock d) as [si|]; rewrite exec_bind.
  2:{ change (exec (ret true) ?x) with x. intros []. by apply (fl_calm _ (calm_send_err _ _)). }
  rewrite eval_gets, exec_gets. unfold may_change.
  destruct (is_exact line (str "UNPAIR")) eqn:Eu.
  - rewrite exec_bind. change (exec (ret true) ?x) with x. destruct (is_authed_session _) eqn:Ea; cbn [negb].
    + intros _. exists si. split; [done|]. rewrite Ea. unfold is_exact in Eu. apply bool_decide_eq_true in Eu as ->.
      rewrite (bool_decide_eq_true_2 (str "UNPAIR" = str "UNPAIR")) by done. by rewrite orb_true_r.
    + intros []. by apply (fl_calm _ (calm_send_err _ _)).
  - destruct (is_owner_session _) eqn:Eo; cbn [negb].
    + intros _. exists si. split; [done|]. by rewrite Eo, orb_true_r.
    + rewrite exec_bind. change (exec (ret true) ?x) with x. intros []. by apply (fl_calm _ (calm_send_err _ _)).
Qed.

(** The policy never touches the sessions. *)
Lemma policy_pool line sock d : pool (exec (access_policy_allow line sock) d) = pool d.
Proof.
  unfold access_policy_allow, access_policy_sock_authenticated, bind, gets, ret, exec. cbn beta iota.
  destruct (_ || _); [done|]. rewrite !find_run. cbn beta iota.
  destruct (if bool_decide _ then None else _); cbn beta iota;
    repeat (lazymatch goal with |- context [if ?b then _ else _] => destruct b end; cbn beta iota; try done).
Qed.

Lemma slot_for_pool sock d d' : pool d' = pool d -> slot_for sock d' = slot_for sock d.
Proof. unfold slot_for. by intros ->. Qed.

(** A handler that does not answer a line has done nothing. *)
Lemma pake_pass line sock d :
  eval (pake_handle_line line sock) d = false -> exec (pake_handle_line line sock) d = d.
Proof.
  unfold pake_handle_line. cbv zeta. destruct (_ && _); [done|]. rewrite eval_bind.
  destruct (eval (local_session_find sock) d); by rewrite eval_bind.
Qed.
Lemma auth_pass line sock d :
  eval (local_auth_handle_line line sock) d = false -> exec (local_auth_handle_line line sock) d = d.
Proof.
  unfold local_auth_handle_line. cbv zeta. destruct (_ && _ && _); [done|]. rewrite eval_bind.
  destruct (eval (local_session_find sock) d); by rewrite eval_bind.
Qed.

(** C8: a line changes the list of enrolled accounts only if it is ENROLL, sent
    encrypted in a session that proved the password; or UNPAIR, in a session
    bound to an account; or sent encrypted in a session of the owner. *)
Theorem paired_list_changed_by line sock d :
  plist (exec (tcp_dispatch_line line sock) d) <> plist d ->
  exists si, slot_for sock d = Some si /\ may_change line (sess si d) = true.
Proof.
  unfold tcp_dispatch_line. rewrite exec_bind. pose proof (policy_pool line sock d) as Hp.
  pose proof (fl_calm _ (calm_policy line sock) d) as Hl. set (d1 := exec (access_policy_allow line sock) d) in *.
  destruct (negb _); [done|]. rewrite <- Hl.
  assert (forall si, slot_for sock d1 = Some si /\ may_change line (sess si d1) = true ->
            slot_for sock d = Some si /\ may_change line (sess si d) = true) as Hback.
  { intros si. rewrite (slot_for_pool _ _ _ Hp). unfold sess. by rewrite Hp. }
  clearbody d1. clear Hp Hl. rewrite exec_bind. destruct (eval (pake_handle_line line sock) d1) eqn:E1.
  { intros []. apply fl_pake. }
  rewrite (pake_pass _ _ _ E1), exec_bind. destruct (eval (local_auth_handle_line line sock) d1) eqn:E2.
  { intros H. destruct (auth_line_changes _ _ _ H) as (si & Hsi). eauto. }
  rewrite (auth_pass _ _ _ E2), exec_bind.
  intros H. destruct (owner_line_changes line sock d1) as (si & Hsi); [|by eauto].
  intros E. apply H. destruct (eval (owner_commands_handle_line line sock) d1); [done|].
  rewrite <- E. generalize (exec (owner_commands_handle_line line sock) d1). intros d2.
  assert (fixes_list (let* h := provisioning_handle_tcp_line line sock in
    if h then ret tt else let* h := ota_handle_line line sock in
    if h then ret tt else let* h := pairing_handle_line line sock in
    if h then ret tt else let* _ := app_command line sock in ret tt)) as Hf; [fl_solve|apply Hf].
Qed.

End ListChange.

(** ** On a concrete device *)

#[local] Instance simP : Platform := sim_platform true.
#[local] Instance simC : Config := sim_config true true true.

(** A phone that knows its account key answers the device's challenge. *)
Definition wit_waiting : Dev := sim_with true (sim_session true LS_AUTH_WAIT_PROOF LS_ROLE_NONE 0) (sim_dev true sim_world0).
Definition wit_auth3 : bytes := AUTH3_PREFIX ++ base64_encode (expected_proof (sess 0 wit_waiting)).

Lemma auth_ok_needs_proof_witness :
  exists s, pool wit_waiting !! 0 = Some s /\ ls_state s = LS_AUTH_WAIT_PROOF /\
    exists got, parse_auth3 wit_auth3 = Some got /\
      local_auth_ct_equal got (expected_proof s) LOCAL_AUTH_MAC_LEN = true.
Proof.
  assert (ls_state <$> (pool (exec (tcp_dispatch_line wit_auth3 54) wit_waiting) !! 0) = Some LS_AUTH_OK) as E
    by (vm_compute; reflexivity).
  destruct (pool (exec (tcp_dispatch_line wit_auth3 54) wit_waiting) !! 0) as [s'|] eqn:Ej; [|discriminate E].
  injection E as E. destruct (auth_ok_needs_proof wit_auth3 54 wit_waiting 0 s' Ej E) as (s & Hs & H).
  exists s. split; [exact Hs|]. destruct H as [H|(_ & _ & H1 & H2)]; [|split; assumption].
  exfalso. assert (ls_state <$> (pool wit_waiting !! 0) = Some LS_AUTH_WAIT_PROOF) as E' by (vm_compute; reflexivity).
  rewrite Hs in E'. cbn in E'. congruence.
Defined.

(** A phone that knows the password sends its SRP proof. *)
Definition wit_exchange : Dev :=
  sim_with true (set_ls_srp (Some 0) (sim_session true LS_PAKE_WAIT_PROOF LS_ROLE_NONE (-1))) (sim_dev true sim_world0).
Definition wit_pake3 : bytes := PAKE3_PREFIX ++ base64_encode sim_good_proof.

Lemma pake_ok_needs_proof_witness :
  exists s, pool wit_exchange !! 0 = Some s /\
    (ls_state s = LS_PAKE_OK \/
     slot_for 54 wit_exchange = Some 0 /\ has_prefix wit_pake3 PAKE3_PREFIX = true /\
     ls_state s = LS_PAKE_WAIT_PROOF /\
     exists hd m1, ls_srp s = Some hd /\ decode_payload wit_pake3 PAKE3_PREFIX SRP_PROOF_LEN = Some m1 /\
       length m1 = SRP_PROOF_LEN /\
       fst (fst (esp_srp_exchange_proofs hd DEVICE_PW_SRP_IDENTITY m1 (world wit_exchange))) = ESP_OK).
Proof.
  assert (ls_state <$> (pool (exec (tcp_dispatch_line wit_pake3 54) wit_exchange) !! 0) = Some LS_PAKE_OK) as E
    by (vm_compute; reflexivity).
  destruct (pool (exec (tcp_dispatch_line wit_pake3 54) wit_exchange) !! 0) as [s'|] eqn:Ej; [|discriminate E].
  injection E as E. exact (pake_ok_needs_proof wit_pake3 54 wit_exchange 0 s' Ej E).
Defined.

(** A socket without a session asks for the list of a device with a password. *)
Definition wit_guarded : Dev :=
  set_pw (Build_pw (str "saltsaltsaltsalt") (str "v") [] [] (replicate IP_SLOTS null_ip_slot) 0 0)
    (sim_dev true sim_world0).

Lemma protected_line_refused_witness :
  exists code, (code = str "ERR:AUTH" \/ code = str "ERR:ENC") /\
    exec (tcp_dispatch_line (str "LIST") 54) wit_guarded = exec (send 54 (code ++ [NL])) wit_guarded.
Proof. apply protected_line_refused; vm_compute; reflexivity. Defined.

(** The first account enrolls over a PAKE session. *)
Definition wit_enroll : bytes := ENROLL_PREFIX ++ base64_encode (str "alice") ++ [COMMA] ++ base64_encode (str "a@x").

Lemma paired_list_changed_by_witness :
  exists si, slot_for 54 (sim_keyed true) = Some si /\ may_change wit_enroll (sess si (sim_keyed true)) = true.
Proof.
  apply paired_list_changed_by. intros E. apply (f_equal pb_count) in E. vm_compute in E. discriminate.
Defined.
