(* ===== verification/ListProps.v ===== *)
(** * ListProps: accounts come and go, sessions follow

    What REVOKE, UNPAIR, PWSET and RESET do to the list of accounts and to the
    sessions that are bound to it, and that the owner stays. *)

From S2P Require Import Prelude Platform State LocalSession Mdns EncFrame PairedList PairingEvents.
From S2P Require Import DevicePassword Discovery AccessPolicy PakeHandler LocalAuth OwnerCommands.
From S2P Require Import ResponseFifo ClientList Flash WifiPairing Provisioning TcpServer Invariant AuthProps.
From S2P Require Import SimPlatform SimDevices.
From stdpp Require Import base list strings numbers.
From Stdlib Require Import ZArith Lia.

Local Open Scope cything_scope.

Section Accounts.
Context {P : Platform} {C : Config} {RD : Reading}.

(** The account a session is bound to. *)
Definition account_of (l : paired_blob_t) (s : local_session_t) : option paired_entry_t :=
  if bool_decide (0 <= ls_paired_index s)%Z then active l !! Z.to_nat (ls_paired_index s) else None.

(** What a removed account leaves behind: its sessions hold nothing, the
    others hold what they held and point at the same account. *)
Definition session_follows (l l' : paired_blob_t) (i : nat) (s s' : local_session_t) : Prop :=
  ls_sock s' = ls_sock s /\
  if bool_decide (ls_paired_index s = Z.of_nat i)
  then ls_state s' = LS_NEW /\ ls_role s' = LS_ROLE_NONE /\ ls_paired_index s' = (-1)%Z /\ ls_key s' = zeros 32
  else account_of l' s' = account_of l s /\ ls_state s' = ls_state s /\ ls_role s' = ls_role s
       /\ ls_key s' = ls_key s.

Lemma null_session_index rs s : session_ok rs s -> ls_sock s = (-1)%Z -> ls_paired_index s = (-1)%Z.
Proof. intros (Hf & _) H. by rewrite (Hf ltac:(lia)). Qed.

Lemma after_removal_follows l i s :
  list_ok l -> i < pb_count l -> session_ok (roles l) s ->
  session_follows l (remove_row i l) i s (after_removal (Z.of_nat i) s).
Proof.
  intros Hl Hi Hs. split; [apply after_removal_sock|]. unfold after_removal, account_of.
  destruct (decide (ls_sock s = -1)%Z) as [Hfree|Hfree].
  { pose proof (null_session_index _ _ Hs Hfree) as Hn. rewrite !(bool_decide_eq_true_2 (ls_sock s = _)) by done.
    by rewrite !bool_decide_eq_false_2 by lia. }
  rewrite !(bool_decide_eq_false_2 (ls_sock s = _)) by done.
  case_bool_decide as Heq; [done|].
  assert (forall k, (0 <= k)%Z -> active (remove_row i l) !! Z.to_nat k
            = active l !! (if bool_decide (Z.of_nat i <= k)%Z then S (Z.to_nat k) else Z.to_nat k)) as Hk.
  { intros k Hk. rewrite active_remove_row by done. case_bool_decide.
    - by rewrite list_lookup_delete_ge by lia.
    - by rewrite list_lookup_delete_lt by lia. }
  destruct (decide (Z.of_nat i < ls_paired_index s)%Z) as [Hlt|Hlt].
  - rewrite !(bool_decide_eq_true_2 (Z.of_nat i < _)%Z) by done. cbn. split_and!; try done.
    rewrite !bool_decide_eq_true_2 by lia. rewrite Hk by lia.
    rewrite bool_decide_eq_true_2 by lia. f_equal. lia.
  - rewrite !(bool_decide_eq_false_2 (Z.of_nat i < _)%Z) by done. split_and!; try done.
    case_bool_decide; [|done]. rewrite Hk by lia. by rewrite bool_decide_eq_false_2 by lia.
Qed.

Lemma session_follows_mild l l' i s s1 s' :
  session_follows l l' i s s1 -> mild s1 s' -> session_follows l l' i s s'.
Proof.
  intros [H1 H2] (_ & M1 & [= E1 E2 E3 _ E5]). split; [congruence|]. revert H2. unfold account_of.
  rewrite E1, E2, E3, E5. done.
Qed.

Definition sessions_follow (d d' : Dev) (i : nat) : Prop :=
  (exists e, active (plist d) !! i = Some e /\ pe_role e <> PAIRED_ROLE_OWNER) /\
  plist d' = remove_row i (plist d) /\
  Forall2 (session_follows (plist d) (plist d') i) (pool d) (pool d').

Lemma Forall2_through {A} (Q : A -> Prop) (f : A -> A) (M R : A -> A -> Prop) l l' :
  Forall Q l -> Forall2 M (f <$> l) l' -> (forall x y, Q x -> M (f x) y -> R x y) -> Forall2 R l l'.
Proof.
  intros HQ HM HR. revert l' HM. induction HQ as [|x l Hx _ IH]; intros l' HM; inversion HM; subst; constructor; auto.
Qed.

(** The entry is gone, but it could not be stored and nobody was told: the
    sessions' indices are those of the rows as they were. *)
Definition removed_untold (d d' : Dev) (i : nat) : Prop :=
  (exists e, active (plist d) !! i = Some e /\ pe_role e <> PAIRED_ROLE_OWNER) /\
  plist d' = remove_row i (plist d) /\ Forall2 mild (pool d) (pool d').

Section Stored.
Context {CL : CryptoLaws P} {ST : Stores}.

(** The pair of calls behind every removal, and anything calm after it. *)
Lemma removal_follows {A} (m : M A) d i e :
  dev_inv d -> active (plist d) !! i = Some e -> pe_role e <> PAIRED_ROLE_OWNER -> calm m ->
  sessions_follow d
    (exec m (exec (local_session_on_paired_removed (Z.of_nat i))
              (exec (paired_list_remove (Z.of_nat i)) d))) i.
Proof.
  intros Hd He Hr Hm. destruct (remove_inv d i e Hd He Hr) as (_ & _ & H1 & H2 & _).
  set (d2 := exec (local_session_on_paired_removed _) _) in *. destruct (Hm d2) as [M1 M2].
  pose proof (lookup_lt_Some _ _ _ He) as Hi. rewrite active_length in Hi by apply Hd.
  split_and!; [by exists e|by rewrite M1|]. rewrite M1, H1. rewrite H2 in M2.
  eapply Forall2_through; [apply (proj1 (proj2 (inv_pool _ Hd)))|exact M2|].
  intros s s' Hs Hss. eapply session_follows_mild; [|exact Hss]. apply after_removal_follows; [apply Hd|done|done].
Qed.

Lemma removal_untold {A} (m : M A) d i e :
  dev_inv d -> active (plist d) !! i = Some e -> pe_role e <> PAIRED_ROLE_OWNER -> calm m ->
  removed_untold d (exec m (exec (paired_list_remove (Z.of_nat i)) d)) i.
Proof.
  intros Hd He Hr Hm. destruct (remove_inv d i e Hd He Hr) as (H1 & H2 & _).
  destruct (Hm (exec (paired_list_remove (Z.of_nat i)) d)) as [M1 M2]. split_and!; [by exists e|by rewrite M1|]. by rewrite <- H2.
Qed.

(** A session may change mildly before the removal, too. *)
Lemma follows_after_calm d d1 d' i :
  same_core d d1 -> sessions_follow d1 d' i -> sessions_follow d d' i.
Proof.
  intros [E HM] (H0 & H1 & H2). rewrite E in H0, H1, H2. split_and!; [done..|]. revert H2. generalize (pool d').
  induction HM as [|s s1 l l1 (_ & M1 & [= E1 E2 E3 _ E5]) _ IH]; intros l' HF; inversion HF as [|? s' ? ? [F1 F2]]; subst;
    constructor; [|by apply IH]. split; [congruence|]. revert F2. unfold account_of. rewrite E1, E2, E3, E5. done.
Qed.

Lemma untold_after_calm d d1 d' i : same_core d d1 -> removed_untold d1 d' i -> removed_untold d d' i.
Proof.
  intros [E HM] (H0 & H1 & H2). rewrite E in H0, H1. split_and!; [done..|].
  exact (proj2 (same_core_trans d d1 (set_plist (plist d1) d') (conj E HM) (conj eq_refl H2))).
Qed.

(** The removed name is not found any more. *)
Lemma removed_not_found l i e sub :
  list_ok l -> active l !! i = Some e -> sub_eq (pe_user_sub e) sub = true -> (find_locked (remove_row i l) sub < 0)%Z.
Proof.
  intros Hl He Hse. pose proof (lookup_lt_Some _ _ _ He) as Hi. rewrite active_length in Hi by done.
  destruct (decide (find_locked (remove_row i l) sub < 0)%Z) as [|Hf]; [done|].
  exfalso. destruct (find_locked_Some (remove_row i l) sub ltac:(lia)) as (e' & He' & Hse').
  rewrite active_remove_row in He' by done. set (j := Z.to_nat (find_locked (remove_row i l) sub)) in *.
  unfold sub_eq in *.
  assert (exists k, k <> i /\ active l !! k = Some e') as (k & Hk & He'').
  { destruct (decide (j < i)).
    - rewrite list_lookup_delete_lt in He' by done. exists j. split; [lia|done].
    - rewrite list_lookup_delete_ge in He' by lia. exists (S j). split; [lia|done]. }
  apply Hk, (ok_distinct _ Hl _ _ _ _ He'' He). unfold sub_eq. rewrite strncmp_eq_sym in Hse.
  by eapply strncmp_eq_trans.
Qed.

(** REVOKE on every branch. *)
Definition revoke_outcome (d : Dev) (si : nat) (line : bytes) (d' : Dev) : Prop :=
  match parse_revoke line with
  | Some sub =>
      let i := find_locked (plist d) sub in
      if bool_decide (0 <= i)%Z && bool_decide (i <> ls_paired_index (sess si d))
      then (find_locked (plist d') sub < 0)%Z /\
           (if is_ok (eval (paired_list_remove i) d) then sessions_follow d d' (Z.to_nat i)
            else removed_untold d d' (Z.to_nat i) /\
                 d' = exec (send_err (ls_sock (sess si d)) (str "STORE")) (exec (paired_list_remove i) d))
      else same_core d d'
  | None => same_core d d'
  end.

Lemma revoke_run d si line :
  dev_inv d -> si < length (pool d) -> is_owner_session (sess si d) = true ->
  revoke_outcome d si line (exec (handle_revoke si line) d).
Proof.
  intros Hd Hlt How. destruct (lookup_lt_is_Some_2 (pool d) si Hlt) as [s Hs].
  rewrite (sess_lookup _ _ _ Hs) in *. destruct (owner_session_entry d si s Hd Hs How) as (eo & Hpos & Heo & Hro).
  unfold revoke_outcome, handle_revoke. rewrite exec_bind, eval_gets, exec_gets, !(sess_lookup _ _ _ Hs). cbv zeta.
  destruct (parse_revoke line) as [sub|]; [|apply calm_send_err].
  rewrite exec_bind. change (exec (paired_list_find sub) d) with d.
  change (eval (paired_list_find sub) d) with (find_locked (plist d) sub). rewrite exec_bind.
  assert (forall (b : bool), exec (if b then ret None else paired_list_get (find_locked (plist d) sub)) d = d) as ->
    by (by intros []).
  destruct (bool_decide (0 <= find_locked (plist d) sub)%Z) eqn:Ei; bool_hyps; cbn [andb].
  2:{ rewrite (bool_decide_eq_true_2 (find_locked _ _ < 0)%Z) by lia. apply calm_send_err. }
  destruct (find_locked_Some _ _ Ei) as (e & He & Hse). rewrite (bool_decide_eq_false_2 (find_locked _ _ < 0)%Z) by lia.
  assert (eval (paired_list_get (find_locked (plist d) sub)) d = Some e) as ->.
  { pose proof (lookup_lt_Some _ _ _ He) as Hi. rewrite active_length in Hi by apply Hd.
    rewrite active_lookup in He by done. unfold paired_list_get. rewrite eval_gets, !bool_decide_eq_true_2 by lia.
    cbn [andb]. by rewrite (list_lookup_total_correct _ _ _ He). }
  destruct (decide (find_locked (plist d) sub = ls_paired_index s)) as [Hself|Hself].
  { rewrite (bool_decide_eq_true_2 (_ = ls_paired_index s)), (bool_decide_eq_false_2 (_ <> ls_paired_index s))
      by (try intros ?; congruence). apply calm_send_err. }
  rewrite (bool_decide_eq_false_2 (_ = ls_paired_index s)), (bool_decide_eq_true_2 (_ <> ls_paired_index s)) by done. rewrite exec_bind.
  assert (pe_role e <> PAIRED_ROLE_OWNER) as Hne.
  { intros Heq. pose proof (owner_unique _ _ _ _ _ (inv_list _ Hd) He Heo Heq Hro). lia. }
  destruct (Z_of_nat_complete _ Ei) as [i Hfi]. rewrite Hfi in *. rewrite Nat2Z.id in *.
  pose proof (removed_not_found _ _ _ _ (inv_list _ Hd) He Hse) as Hnf.
  destruct (is_ok (eval (paired_list_remove (Z.of_nat i)) d)); cbn [negb].
  - rewrite exec_bind.
    match goal with |- _ /\ sessions_follow _ (exec ?m _) _ => assert (calm m) as Hm end.
    { apply calm_bind; [eauto with calm_ops|intros ?]. eauto with calm_ops. }
    pose proof (removal_follows _ d i e Hd He Hne Hm) as Hf. split; [|done]. by destruct Hf as (_ & -> & _).
  - pose proof (removal_untold _ d i e Hd He Hne (calm_send_err (ls_sock s) (str "STORE"))) as Hf.
    split; [by destruct Hf as (_ & -> & _)|done].
Qed.

(** UNPAIR on every branch. *)
Lemma unpair_run d si s :
  dev_inv d -> pool d !! si = Some s ->
  let d' := exec (handle_unpair si) d in
  match account_of (plist d) s with
  | Some e =>
      if bool_decide (pe_role e = PAIRED_ROLE_OWNER) then same_core d d'
      else sessions_follow d d' (Z.to_nat (ls_paired_index s)) \/ removed_untold d d' (Z.to_nat (ls_paired_index s))
  | None => same_core d d'
  end.
Proof.
  intros Hd Hs. unfold handle_unpair. rewrite exec_bind, eval_gets, exec_gets, (sess_lookup _ _ _ Hs). cbv zeta.
  rewrite exec_bind. change (exec (paired_list_get (ls_paired_index s)) d) with d.
  assert (eval (paired_list_get (ls_paired_index s)) d = account_of (plist d) s) as ->.
  { unfold paired_list_get, account_of. rewrite eval_gets. case_bool_decide; [cbn [andb]|done].
    case_bool_decide.
    - rewrite active_lookup by lia. symmetry. apply list_lookup_lookup_total_lt.
      rewrite (ok_rows _ (inv_list _ Hd)). pose proof (ok_count _ (inv_list _ Hd)). lia.
    - symmetry. apply lookup_ge_None. rewrite active_length by apply Hd. lia. }
  destruct (account_of (plist d) s) as [e|] eqn:Ee; [|apply calm_send_err].
  case_bool_decide as Ho; [apply calm_send_err|]. rewrite exec_bind.
  unfold account_of in Ee. case_bool_decide as Hpos; [|done].
  pose proof (calm_security_send_line (ls_sock s) (str "ACK") d) as Hc.
  set (d1 := exec (security_send_line (ls_sock s) (str "ACK")) d) in *.
  assert (dev_inv d1) as Hd1 by (by eapply same_core_inv).
  destruct (same_core_lookup _ _ _ _ Hc Hs) as (s1 & Hs1 & _ & _ & [= _ _ Hix _ _]).
  rewrite exec_bind, eval_gets, exec_gets, (sess_lookup _ _ _ Hs1), Hix, exec_bind.
  pose proof Hc as [Hpl _]. rewrite <- Hpl in Ee.
  destruct (Z_of_nat_complete _ Hpos) as [i Hfi]. rewrite Hfi in *. rewrite Nat2Z.id in *.
  destruct (is_ok _); [left|right].
  - eapply follows_after_calm; [exact Hc|]. rewrite exec_bind. apply (removal_follows _ _ _ e); [done..|]. eauto with calm_ops.
  - eapply untold_after_calm; [exact Hc|]. apply (removal_untold _ _ _ e); [done..|]. apply calm_ret.
Qed.


(** UNPAIR takes the caller's own entry out, unless it is the owner's:
    then, and when the session is bound to no entry, nothing changes. If the list
    cannot be stored, the entry is gone and no session is told. *)
Theorem unpair_effect d si s :
  dev_inv d -> pool d !! si = Some s ->
  let d' := exec (handle_unpair si) d in
  match account_of (plist d) s with
  | Some e =>
      if bool_decide (pe_role e = PAIRED_ROLE_OWNER) then same_core d d'
      else sessions_follow d d' (Z.to_nat (ls_paired_index s)) \/ removed_untold d d' (Z.to_nat (ls_paired_index s))
  | None => same_core d d'
  end.
Proof. apply unpair_run. Qed.

(** ** The owner stays *)

(** [o] is the account whose entry carries the owner's role; there is at most
    one ([owner_unique]). *)
Definition has_owner (o : bytes) (l : paired_blob_t) : Prop :=
  exists e, e ∈ active l /\ pe_role e = PAIRED_ROLE_OWNER /\ pe_user_sub e = o.

Lemma has_owner_remove o l i e :
  list_ok l -> active l !! i = Some e -> pe_role e <> PAIRED_ROLE_OWNER -> has_owner o l -> has_owner o (remove_row i l).
Proof.
  intros Hl He Hr (x & Hx & Hxr & Hxo). exists x. split; [|done].
  pose proof (lookup_lt_Some _ _ _ He) as Hi. rewrite active_length in Hi by done.
  rewrite active_remove_row by done. apply list_elem_of_lookup in Hx as [j Hj].
  assert (j <> i) by (intros ->; congruence).
  apply list_elem_of_lookup. destruct (decide (j < i)).
  - exists j. by rewrite list_lookup_delete_lt.
  - exists (j - 1). rewrite list_lookup_delete_ge by lia. by replace (S (j - 1)) with j by lia.
Qed.

(** A change of one entry that keeps its account and role. *)
Lemma has_owner_alter o l l' i (f : paired_entry_t -> paired_entry_t) :
  active l' = alter f i (active l) ->
  (forall e, active l !! i = Some e -> pe_user_sub (f e) = pe_user_sub e /\ pe_role (f e) = pe_role e) ->
  has_owner o l -> has_owner o l'.
Proof.
  intros Ha Hf (x & Hx & Hxr & Hxo). apply list_elem_of_lookup in Hx as [j Hj].
  unfold has_owner. rewrite Ha. destruct (decide (i = j)) as [->|Hne].
  - exists (f x). split; [|by destruct (Hf _ Hj) as [-> ->]]. apply list_elem_of_lookup. exists j.
    by rewrite list_lookup_alter_eq, Hj.
  - exists x. split; [|done]. apply list_elem_of_lookup. exists j. by rewrite list_lookup_alter_ne.
Qed.

Lemma has_owner_add o d sub email k now :
  dev_inv d -> sub <> [] -> has_owner o (plist d) -> has_owner o (plist (exec (paired_list_add sub email k now) d)).
Proof.
  intros [Hl Ho _] Hs Hown. unfold exec.
  assert (has_owner o (unclaim sub (plist d))) as Hun by (unfold has_owner; by rewrite active_unclaim).
  destruct (decide (0 <= find_locked (plist d) sub)%Z) as [Hf|Hf].
  - destruct (find_locked_Some (plist d) sub Hf) as (e & He & Hsub). destruct (Z_of_nat_complete _ Hf) as [i Hfi].
    rewrite Hfi, Nat2Z.id in *. pose proof (lookup_lt_Some _ _ _ He) as Hi. rewrite active_length in Hi by done.
    pose proof He as He'. rewrite active_lookup in He by done.
    destruct (add_known_run d sub email k now e i Hs Hfi He) as (err & w & _ & ->).
    destruct (is_ok err); cbn [fst snd]; [|done]. destruct (refresh_pool (set_world w (set_plist (add_known sub email now i (plist d)) d))) as [_ ->].
    cbn. eapply has_owner_alter; [by apply active_add_known| |done].
    intros e0 He0. assert (e0 = e) as -> by congruence. rewrite sub_of_enrolled, role_of_enrolled. split; [done|].
    rewrite (Forall_lookup_1 _ _ _ _ (ok_roles _ Hl) He'). unfold claim.
    assert (unowned (plist d) = false) as -> by (destruct Ho as [_ [[? _]|[? _]]]; [lia|done]).
    symmetry. by apply role_for_locked_sub.
  - destruct (decide (pb_count (plist d) < PAIRED_LIST_MAX)) as [Hlt|Hge].
    + destruct (add_new_run d sub email k now Hs Hl ltac:(lia) Hlt) as (err & w & _ & ->).
      destruct (is_ok err); cbn [fst snd]; [|done].
      destruct (refresh_pool (set_world w (set_plist (add_new sub email k now (plist d)) d))) as [_ ->]. cbn.
      destruct Hown as (x & Hx & ?). exists x. split; [|done]. rewrite active_add_new by done. apply elem_of_app. by left.
    + by rewrite add_full_run by (done || lia).
Qed.

Lemma has_owner_enroll o d si line :
  dev_inv d -> has_owner o (plist d) -> has_owner o (plist (exec (handle_enroll si line) d)).
Proof.
  intros Hd Hown. unfold handle_enroll. rewrite exec_bind, eval_gets, exec_gets. cbv zeta.
  destruct (_ || _); [by rewrite (fl_calm _ (calm_send_err _ _))|].
  destruct (parse_enroll line) as [[sub email]|] eqn:Ep; [|by rewrite (fl_calm _ (calm_send_err _ _))].
  apply parse_enroll_Some in Ep. rewrite exec_bind, exec_bind. change (exec (ask now_unix) ?x) with x.
  set (d1 := exec (io _) d). set (k := eval (io _) d).
  assert (same_core d d1) as Hc by apply calm_io.
  assert (dev_inv d1) as Hd1 by (by eapply same_core_inv). destruct Hc as [Hc _]. rewrite <- Hc in Hown.
  set (now := eval (ask now_unix) d1). rewrite exec_bind.
  pose proof (has_owner_add o d1 sub email k now Hd1 ltac:(intros ->; tauto) Hown) as H.
  set (d2 := exec (paired_list_add _ _ _ _) d1) in *.
  destruct (eval (paired_list_add sub email k now) d1) as [index [ka role]].
  case_bool_decide; [by rewrite (fl_calm _ (calm_send_err _ _))|].
  rewrite !exec_bind, (fl_calm _ (calm_event_push _ _ _)), (fl_calm _ (calm_security_send_line _ _)). done.
Qed.

Definition keeps_owner {A} (o : bytes) (m : M A) : Prop :=
  forall d, dev_inv d -> has_owner o (plist d) -> has_owner o (plist (exec m d)).

Lemma ko_fixes {A} o (m : M A) : fixes_list m -> keeps_owner o m.
Proof. intros Hm d _ Ho. by rewrite Hm. Qed.
Lemma ko_bind {A B} o (m : M A) (k : A -> M B) :
  keeps m -> keeps_owner o m -> (forall a, keeps_owner o (k a)) -> keeps_owner o (bind m k).
Proof. intros Hm Ho Hk d Hd Hown. rewrite exec_bind. apply Hk; auto. Qed.

Lemma ko_revoke_loop o fuel i : keeps_owner o (revoke_loop fuel i).
Proof.
  revert i. induction fuel as [|fuel IH]; intros i d Hd Hown; [done|].
  cbn [revoke_loop]. rewrite exec_bind, eval_gets, exec_gets. case_bool_decide; [done|].
  rewrite exec_bind. change (exec (paired_list_get (Z.of_nat i)) d) with d.
  destruct (eval (paired_list_get (Z.of_nat i)) d) as [e|] eqn:Eg; [|done].
  apply paired_list_get_roles in Eg as [_ He]; [|apply Hd]. rewrite Nat2Z.id in He.
  case_bool_decide as Hr; [|by apply IH]. rewrite exec_bind.
  destruct (remove_inv d i e Hd He Hr) as (H0 & _ & H1 & _ & H2 & H3).
  pose proof (has_owner_remove o _ i e (inv_list _ Hd) He Hr Hown) as Hrm.
  destruct (is_ok _); [|apply IH; [by apply H3|by rewrite H0]].
  rewrite exec_bind, exec_bind. apply IH; [by apply calm_inv; [eauto with calm_ops|]|].
  by rewrite (fl_calm _ (calm_event_push _ _ _)), H1.
Qed.

Lemma ko_rotate o : keeps_owner o paired_list_rotate_owner_key.
Proof.
  intros d Hd Hown. pose proof (rotate_run d) as H.
  destruct (list_find _ _) as [[i e]|]; unfold exec; [|by rewrite H].
  destruct H as (err & w & k & _ & _ & ->). cbn. destruct (is_ok err); [|done].
  by eapply has_owner_alter; [apply active_rekey|done|].
Qed.

Lemma ko_calm {A} o (m : M A) : calm m -> keeps_owner o m.
Proof. intros Hm. by apply ko_fixes, fl_calm. Qed.

Lemma ko_pwset o si line : keeps_owner o (handle_pwset si line).
Proof.
  unfold handle_pwset, revoke_all_non_owner.
  apply ko_bind; [by apply keeps_calm, calm_gets|by apply ko_fixes|intros s]. cbv zeta.
  destruct (next_b64_field _ _ _) as [[pw ?]|]; [|apply ko_calm; eauto with calm_ops].
  destruct (_ || _); [apply ko_calm; eauto with calm_ops|].
  apply ko_bind; [apply keeps_calm; eauto with calm_ops|apply ko_calm; eauto with calm_ops|intros err].
  destruct (negb (is_ok err)); [apply ko_calm; eauto with calm_ops|].
  apply ko_bind; [apply keeps_revoke_all| |intros ?].
  { apply ko_bind; [by apply keeps_calm, calm_gets|by apply ko_fixes|intros n; apply ko_revoke_loop]. }
  apply ko_bind; [apply keeps_rotate|apply ko_rotate|intros ?]. apply ko_calm; eauto with calm_ops.
Qed.

Lemma ko_owner_commands o line sock : line <> str "RESET" -> keeps_owner o (owner_commands_handle_line line sock).
Proof.
  intros Hline d Hd Hown. unfold owner_commands_handle_line. cbv zeta.
  destruct (negb _) eqn:Eany; [done|]. apply negb_false_iff in Eany. rewrite exec_bind.
  unfold exec at 2, eval at 1. rewrite !find_run. cbn [fst snd]. fold (slot_for sock d).
  destruct (slot_for sock d) as [si|] eqn:Es; [|by rewrite exec_bind; change (exec (ret true) ?x) with x; rewrite (fl_calm _ (calm_send_err _ _))].
  destruct (slot_for_Some _ _ _ Es) as (s & Hs & Ess & _). pose proof (lookup_lt_Some _ _ _ Hs) as Hlt.
  rewrite exec_bind, eval_gets, exec_gets. destruct (calm_quiet_commands si line) as (C1 & C2 & C3 & C4).
  assert (forall d' i, sessions_follow d d' i \/ removed_untold d d' i -> has_owner o (plist d')) as Hfol.
  { intros d' i [((e & He & Hr) & -> & _)|((e & He & Hr) & -> & _)]; (eapply has_owner_remove; [apply Hd|done..]). }
  destruct (is_exact line (str "UNPAIR")).
  { destruct (is_authed_session _); cbn [negb]; rewrite exec_bind; change (exec (ret true) ?x) with x;
      [|by rewrite (fl_calm _ (calm_send_err _ _))].
    pose proof (unpair_run d si s Hd Hs) as H. cbv zeta in H.
    destruct (account_of _ _); [case_bool_decide|]; [|by eapply Hfol|]; by destruct H as [-> _]. }
  destruct (is_owner_session (sess si d)) eqn:Eo; cbn [negb];
    [|by rewrite exec_bind; change (exec (ret true) ?x) with x; rewrite (fl_calm _ (calm_send_err _ _))].
  rewrite exec_bind. change (exec (ret true) ?x) with x.
  assert (is_exact line (str "RESET") = false) as Er by (by apply bool_decide_eq_false_2). rewrite Er in Eany.
  destruct (is_exact line (str "LIST")); [by rewrite (fl_calm _ C1)|].
  destruct (has_prefix line (str "REVOKE:")).
  { pose proof (revoke_run d si line Hd Hlt Eo) as H. unfold revoke_outcome in H. cbv zeta in H.
    destruct (parse_revoke line); [|by destruct H as [-> _]]. destruct (_ && _); [|by destruct H as [-> _]].
    destruct H as [_ H]. destruct (is_ok _); [by eapply Hfol; left|destruct H; by eapply Hfol; right]. }
  destruct (has_prefix line (str "PWSET:")); [by apply ko_pwset|].
  destruct (is_exact line (str "PWCLEAR")); [by rewrite (fl_calm _ C2)|].
  destruct (has_prefix line (str "DISCOVERYMODE:")); [by rewrite (fl_calm _ C3)|].
  destruct (is_exact line (str "DISCOVERYMODE?")); [by rewrite (fl_calm _ C4)|]. done.
Qed.

(** C36: on a consistent device (every reachable one is), whatever line
    arrives on whatever socket, unless it is RESET, and whether or not the flash
    stores what it is given, the account that owns the device still owns it
    afterwards: its entry is on the list with the owner's role, and no second
    owner has appeared. *)
Theorem owner_stays line sock d o :
  dev_inv d -> line <> str "RESET" -> has_owner o (plist d) ->
  let d' := exec (tcp_dispatch_line line sock) d in
  has_owner o (plist d') /\
  forall i j ei ej, active (plist d') !! i = Some ei -> active (plist d') !! j = Some ej ->
    pe_role ei = PAIRED_ROLE_OWNER -> pe_role ej = PAIRED_ROLE_OWNER -> i = j.
Proof.
  intros Hd Hline Hown d'. split.
  2:{ intros i j ei ej. apply owner_unique. by apply dispatch_inv. }
  revert d Hd Hown d'. change (keeps_owner o (tcp_dispatch_line line sock)). unfold tcp_dispatch_line.
  apply ko_bind; [apply keeps_calm; eauto with calm_ops|apply ko_calm; eauto with calm_ops|intros ok].
  destruct (negb ok); [by apply ko_fixes|].
  apply ko_bind; [intros d Hd; by apply handshake_inv|by apply ko_fixes, fl_pake|intros [|]; [by apply ko_fixes|]].
  apply ko_bind; [intros d Hd; by apply handshake_inv| |intros [|]; [by apply ko_fixes|]].
  { intros d Hd Hown. unfold local_auth_handle_line. cbv zeta. destruct (_ && _ && _); [done|].
    rewrite exec_bind. unfold exec at 2, eval at 1. rewrite !find_run. cbn [fst snd]. fold (slot_for sock d).
    destruct (slot_for sock d) as [si|]; rewrite exec_bind; change (exec (ret true) ?x) with x;
      [|by rewrite (fl_calm _ (calm_send_err _ _))].
    destruct (has_prefix line ENROLL_PREFIX); [by apply has_owner_enroll|].
    destruct (has_prefix line AUTH1_PREFIX); [by rewrite fl_auth1|by rewrite fl_auth3]. }
  apply ko_bind; [intros d; by apply owner_commands_inv|by apply ko_owner_commands|intros [|]; [by apply ko_fixes|]].
  apply ko_fixes. fl_solve.
Qed.

(** ** A new password, a factory reset *)

Lemma remove_stored `{!NvsReliable P} d i :
  i < pb_count (plist d) -> eval (paired_list_remove (Z.of_nat i)) d = ESP_OK.
Proof.
  intros Hi. destruct (remove_run d (Z.of_nat i) ltac:(lia)) as (err & w & Herr & E). unfold eval. rewrite E. by apply Herr.
Qed.

Lemma revoke_loop_all `{!NvsReliable P} fuel i d :
  dev_inv d -> pb_count (plist d) - i <= fuel ->
  (forall j e, j < i -> active (plist d) !! j = Some e -> pe_role e = PAIRED_ROLE_OWNER) ->
  forall j e, active (plist (exec (revoke_loop fuel i) d)) !! j = Some e -> pe_role e = PAIRED_ROLE_OWNER.
Proof.
  revert i d. induction fuel as [|fuel IH]; intros i d Hd Hf Hpre.
  { change (exec (revoke_loop 0 i) d) with d. intros j e He. apply (Hpre j); [|done].
    apply lookup_lt_Some in He. rewrite active_length in He by apply Hd. lia. }
  cbn [revoke_loop]. rewrite exec_bind, eval_gets, exec_gets. unfold paired_list_count. case_bool_decide as Hc.
  { change (exec (ret tt) d) with d. intros j e He. apply (Hpre j); [|done].
    apply lookup_lt_Some in He. rewrite active_length in He by apply Hd. lia. }
  rewrite exec_bind. change (exec (paired_list_get (Z.of_nat i)) d) with d.
  assert (is_Some (active (plist d) !! i)) as [e He].
  { apply lookup_lt_is_Some. rewrite active_length by apply Hd. lia. }
  assert (eval (paired_list_get (Z.of_nat i)) d = Some e) as ->.
  { unfold paired_list_get. rewrite eval_gets, !bool_decide_eq_true_2 by lia. cbn [andb]. rewrite Nat2Z.id.
    rewrite active_lookup in He by lia. by rewrite (list_lookup_total_correct _ _ _ He). }
  case_bool_decide as Hr.
  - rewrite exec_bind, remove_stored by lia. destruct (remove_inv d i e Hd He Hr) as (_ & _ & H1 & _ & H2 & _). cbn [is_ok].
    rewrite exec_bind, exec_bind. set (d2 := exec (local_session_on_paired_removed _) _) in *.
    set (m := pairing_events_push _ _ _). assert (calm m) as Hm by (unfold m; eauto with calm_ops).
    pose proof (fl_calm _ Hm d2) as Hl. apply IH; [by apply calm_inv|rewrite Hl, H1; cbn; lia|].
    intros j ej Hj. rewrite Hl, H1, active_remove_row by (apply Hd || lia).
    rewrite list_lookup_delete_lt by done. by apply Hpre.
  - apply IH; [done|lia|]. intros j ej Hj Hej. destruct (decide (j = i)) as [->|]; [|apply (Hpre j); lia || done].
    rewrite He in Hej. injection Hej as <-. done.
Qed.

(** when PWSET takes a new password and the flash works, one entry is left on the list, the
    owner's, and its key is one just drawn, so every key handed out before is
    gone from the device. *)
Theorem pwset_effect `{!NvsReliable P} d si line pw rest :
  dev_inv d -> si < length (pool d) -> is_owner_session (sess si d) = true ->
  next_b64_field (drop (length (str "PWSET:")) line) (DEVICE_PW_MAX_LEN + 1) true = Some (pw, rest) ->
  eval (device_password_set pw) d = ESP_OK ->
  exists e w, active (plist (exec (handle_pwset si line) d)) = [e] /\
    pe_role e = PAIRED_ROLE_OWNER /\ has_owner (pe_user_sub e) (plist d) /\
    pe_key e = fst (esp_fill_random PAIRED_KEY_LEN w).
Proof.
  intros Hd Hlt How Hpw Herr. destruct (lookup_lt_is_Some_2 (pool d) si Hlt) as [s Hs].
  rewrite (sess_lookup _ _ _ Hs) in How. destruct (owner_session_entry d si s Hd Hs How) as (eo & _ & Heo & Hro).
  assert (has_owner (pe_user_sub eo) (plist d)) as Hown by (exists eo; split; [by eapply list_elem_of_lookup_2|done]).
  unfold handle_pwset. rewrite exec_bind, eval_gets, exec_gets. cbv zeta. rewrite Hpw.
  assert ((bool_decide (length pw < DEVICE_PW_MIN_LEN) || bool_decide (DEVICE_PW_MAX_LEN < length pw)) = false) as Hlen.
  { apply not_true_iff_false. intros E. unfold device_password_set in Herr. by rewrite E in Herr. }
  rewrite Hlen, exec_bind, Herr. cbn [is_ok negb].
  assert (dev_inv (exec (device_password_set pw) d)) as Hd1 by (apply calm_inv; [eauto with calm_ops|done]).
  pose proof (fl_calm _ (calm_pw_set pw) d) as Hl1. set (d1 := exec (device_password_set pw) d) in *. clearbody d1.
  rewrite <- Hl1 in Hown |- *. clear Hl1 Hlen Herr. rewrite exec_bind.
  change (exec revoke_all_non_owner d1) with (exec (revoke_loop (pb_count (plist d1)) 0) d1).
  pose proof (keeps_revoke_loop (pb_count (plist d1)) 0 d1 Hd1) as Hd2.
  pose proof (ko_revoke_loop _ (pb_count (plist d1)) 0 d1 Hd1 Hown) as Hown2.
  pose proof (revoke_loop_all (pb_count (plist d1)) 0 d1 Hd1 ltac:(lia) ltac:(lia)) as Hall.
  set (d2 := exec (revoke_loop _ _) d1) in *. clearbody d2. rewrite exec_bind.
  destruct Hown2 as (x & Hx & Hxr & Hxo). apply list_elem_of_lookup in Hx as [j Hj].
  pose proof (inv_list _ Hd2) as Hok. assert (active (plist d2) = [x]) as Hone.
  { assert (forall k e, active (plist d2) !! k = Some e -> k = j).
    { intros k e Hk. eapply owner_unique; [done..|by eapply Hall|done]. }
    destruct (active (plist d2)) as [|a [|b l]]; [done| |].
    - destruct j; [|done]. cbn in Hj. congruence.
    - pose proof (H 0 a eq_refl). pose proof (H 1 b eq_refl). lia. }
  pose proof (rotate_run d2) as Hrot. rewrite Hone in Hrot.
  assert (list_find (fun e => pe_role e = PAIRED_ROLE_OWNER) [x] = Some (0, x)) as Hf
    by (cbn; by rewrite decide_True). rewrite Hf in Hrot.
  destruct Hrot as (err & w & k & Hk & Hnr & E). specialize (Hnr _). subst err. cbn [is_ok] in E.
  rewrite (fl_calm _ (calm_security_send_line _ _)). unfold exec. rewrite E. cbn.
  rewrite active_rekey, Hone. cbn. eexists _, (world d2). split; [reflexivity|]. cbn.
  split_and!; [done|by rewrite Hxo|done].
Qed.

Lemma event_push_pw a b c d :
  pw (exec (pairing_events_push a b c) d) = pw d /\ pool (exec (pairing_events_push a b c) d) = pool d.
Proof.
  unfold pairing_events_push. rewrite exec_bind. cbv zeta. rewrite exec_bind.
  lazymatch goal with |- pw (exec _ ?x) = _ /\ _ => destruct (PairingEvents.nvs_store_frame x) as (w & ->) end. done.
Qed.

(** What a session holds after it was logged out. *)
Definition logged_out (s : local_session_t) : Prop :=
  ls_state s = LS_NEW /\ ls_role s = LS_ROLE_NONE /\ ls_paired_index s = (-1)%Z /\ ls_key s = zeros 32.

(** RESET leaves the device as a new one to the network: no account on the
    list and no key behind the fill count, no password set, and every session
    logged out with its key erased. *)
Theorem reset_effect d si :
  dev_inv d ->
  let d' := exec (handle_reset si) d in
  plist d' = empty_list /\ device_password_is_set d' = false /\ Forall logged_out (pool d').
Proof.
  intros Hd. unfold handle_reset. rewrite exec_bind, eval_gets, exec_gets, exec_bind.
  pose proof (calm_inv _ d (calm_security_send_line (ls_sock (sess si d)) (str "ACK")) Hd) as Hd1.
  set (d1 := exec (security_send_line _ _) d) in *. rewrite exec_bind.
  destruct (clear_run d1) as (err & w & _ & E).
  assert (exec paired_list_clear d1 = exec mdns_discovery_refresh (set_world w (set_plist empty_list d1))) as ->
    by (unfold exec at 1; by rewrite E).
  destruct (refresh_pool (set_world w (set_plist empty_list d1))) as [R1 R2].
  set (d2 := exec mdns_discovery_refresh (set_world w (set_plist empty_list d1))) in *. rewrite exec_bind.
  destruct (pw_clear_run d2) as (err2 & w2 & E2).
  assert (exec device_password_clear d2
    = exec mdns_discovery_refresh (set_pw (install_pair [] [] (pw d2)) (set_world w2 d2))) as ->
    by (unfold exec at 1; by rewrite E2).
  pose proof (refresh_frame (set_pw (install_pair [] [] (pw d2)) (set_world w2 d2))) as Hf. unfold same_but_out in Hf.
  set (d3 := exec mdns_discovery_refresh (set_pw (install_pair [] [] (pw d2)) (set_world w2 d2))) in *.
  assert (pool d3 = pool d1 /\ plist d3 = empty_list /\ pw d3 = install_pair [] [] (pw d2)) as (P1 & P2 & P3)
    by (rewrite Hf; cbn; by rewrite R1, R2).
  clearbody d3. clear Hf. rewrite exec_bind.
  pose proof (proj1 (inv_pool _ Hd1)) as Hlen. pose proof (proj1 (proj2 (inv_pool _ Hd1))) as Hok.
  rewrite <- P1 in Hlen. destruct (drop_all_auth_spec d3 Hlen) as [S1 S2].
  set (d4 := exec local_session_drop_all_auth d3) in *.
  assert (plist d4 = plist d3 /\ pw d4 = pw d3) as [Q1 Q2] by (rewrite S2; done).
  destruct (event_push_pw (str "reset") [] [] d4) as [V1 V2].
  split_and!.
  - by rewrite (fl_calm _ (calm_event_push _ _ _)), Q1.
  - unfold device_password_is_set. by rewrite V1, Q2, P3.
  - rewrite V2, S1, P1. apply Forall_fmap. eapply List.Forall_impl; [|exact Hok]. intros s (Hf & _). cbn.
    case_bool_decide as Hk; [|done]. by rewrite (Hf ltac:(lia)).
Qed.

End Stored.
End Accounts.

(** ** On a concrete device *)


(** Alice owns the device, Bob is on the list, Alice is logged in. *)
Definition wit_revoke : bytes := str "REVOKE:" ++ base64_encode (str "bob").


Lemma unpair_effect_witness :
  sessions_follow sim_guest (exec (handle_unpair 0) sim_guest) 1 \/ removed_untold sim_guest (exec (handle_unpair 0) sim_guest) 1.
Proof.
  destruct (pool sim_guest !! 0) as [s|] eqn:Hs; [|apply (f_equal (fmap ls_sock)) in Hs; vm_compute in Hs; discriminate].
  pose proof (unpair_effect sim_guest 0 s sim_guest_inv Hs) as H. cbv zeta in H.
  assert (s = sim_session true LS_AUTH_OK LS_ROLE_USER 1) as -> by (cbn in Hs; congruence).
  assert (pe_role <$> account_of (plist sim_guest) (sim_session true LS_AUTH_OK LS_ROLE_USER 1) = Some 1%Z) as E
    by (vm_compute; reflexivity).
  destruct (account_of (plist sim_guest) _) as [e|]; [|discriminate]. injection E as E.
  rewrite bool_decide_eq_false_2 in H by (rewrite E; discriminate). exact H.
Defined.

Lemma owner_stays_witness :
  has_owner (copy_field 41 (str "alice")) (plist (exec (tcp_dispatch_line wit_revoke 54) sim_home)).
Proof.
  apply (owner_stays wit_revoke 54 sim_home (copy_field 41 (str "alice")) sim_home_inv).
  - intros E. vm_compute in E. discriminate.
  - destruct (active (plist sim_home)) as [|e l] eqn:Ea; [apply (f_equal length) in Ea; vm_compute in Ea; discriminate|].
    assert ((fun e => (pe_user_sub e, pe_role e)) <$> (active (plist sim_home) !! 0)
            = Some (copy_field 41 (str "alice"), PAIRED_ROLE_OWNER)) as E by (vm_compute; reflexivity).
    rewrite Ea in E. cbn in E. injection E as E1 E2. exists e. rewrite Ea. split; [constructor|split; assumption].
Defined.

Definition wit_pwset : bytes := str "PWSET:" ++ base64_encode (str "longpassword").

Lemma pwset_effect_witness :
  exists e w, active (plist (exec (handle_pwset 0 wit_pwset) sim_home)) = [e] /\
    pe_role e = PAIRED_ROLE_OWNER /\ has_owner (pe_user_sub e) (plist sim_home) /\
    pe_key e = fst (esp_fill_random PAIRED_KEY_LEN w).
Proof.
  apply (pwset_effect sim_home 0 wit_pwset (str "longpassword") [] sim_home_inv).
  - apply (bool_decide_unpack _). vm_compute. exact I.
  - vm_compute. reflexivity.
  - vm_compute. reflexivity.
  - vm_compute. reflexivity.
Defined.

Lemma reset_effect_witness :
  plist (exec (handle_reset 0) sim_home) = empty_list /\
  device_password_is_set (exec (handle_reset 0) sim_home) = false /\
  Forall logged_out (pool (exec (handle_reset 0) sim_home)).
Proof. exact (reset_effect sim_home 0 sim_home_inv). Defined.
