(* ===== verification/SystemProps.v ===== *)
(** * SystemProps: whatever happens, the device stays consistent *)

From S2P Require Import Prelude Platform State LocalSession Mdns EncFrame PairedList PairingEvents.
From S2P Require Import DevicePassword Discovery AccessPolicy PakeHandler LocalAuth OwnerCommands.
From S2P Require Import ResponseFifo ClientList Flash WifiPairing Provisioning TcpServer Invariant System.
From S2P Require Import AuthProps SimPlatform SimDevices.
From stdpp Require Import base list strings numbers relations.
From Stdlib Require Import ZArith Lia.

Local Open Scope cything_scope.

Section Reach.
Context {P : Platform} {C : Config} {CL : CryptoLaws P}.

Lemma reachable_keeps `{RD : Reading} `{!Stores} d0 d : dev_inv d0 -> reachable d0 d -> dev_inv d.
Proof. intros H0 Hr. induction Hr as [|x y z Hst _ IH]; [done|]. apply IH. by eapply step_inv. Qed.


(** in every reachable state, also when the flash fails, a session that may
    run the owner's commands belongs to the one entry of the list that carries
    the owner's role. *)
Theorem owner_session_is_owner `{RD : Reading} `{!Stores} d0 d si s :
  dev_inv d0 -> reachable d0 d -> pool d !! si = Some s -> is_owner_session s = true ->
  exists e, active (plist d) !! Z.to_nat (ls_paired_index s) = Some e /\ pe_role e = PAIRED_ROLE_OWNER /\
    forall j e', active (plist d) !! j = Some e' -> pe_role e' = PAIRED_ROLE_OWNER -> e' = e.
Proof.
  intros H0 Hr Hs How. pose proof (reachable_keeps _ _ H0 Hr) as Hd.
  destruct (owner_session_entry d si s Hd Hs How) as (e & _ & He & Hro). exists e. split_and!; [done..|].
  intros j e' Hj Hjr. pose proof (owner_unique _ _ _ _ _ (inv_list _ Hd) Hj He Hjr Hro) as ->. congruence.
Qed.

End Reach.

(** ** On a concrete device *)



Lemma owner_session_is_owner_witness :
  exists e, active (plist sim_home) !! 0 = Some e /\ pe_role e = PAIRED_ROLE_OWNER.
Proof.
  destruct (owner_session_is_owner sim_home sim_home 0 (sim_session true LS_AUTH_OK LS_ROLE_OWNER 0) sim_home_inv)
    as (e & H1 & H2 & _).
  - apply rtc_refl.
  - reflexivity.
  - reflexivity.
  - exists e. split; assumption.
Defined.
