(* ===== verification/LoginProps.v ===== *)
(** * LoginProps: who holds an account key gets in

    [AuthProps] shows that nobody logs in without the proof. Here is the other
    half: a phone that holds the key of an enrolled account, and follows the
    protocol, is logged in after two lines, with the role of its account. *)

From S2P Require Import Prelude Platform State LocalSession Mdns EncFrame PairedList PairingEvents.
From S2P Require Import DevicePassword Discovery AccessPolicy PakeHandler LocalAuth OwnerCommands.
From S2P Require Import ResponseFifo ClientList Flash WifiPairing Provisioning TcpServer Invariant.
From S2P Require Import AuthProps SimPlatform SimDevices.
From Stdlib Require Import ZArith Lia.
From stdpp Require Import base list sets strings numbers.

Local Open Scope cything_scope.

Section Line.
Context {P : Platform}.

(** ** One session under the handlers *)

(** The session [s] of [sock] in slot [si], the list of accounts and the trace. *)
Record on_line (sock : Z) (si : nat) (l : paired_blob_t) (s : local_session_t) (o : list event) (d : Dev) : Prop := {
  ol_slot : slot_for sock d = Some si;
  ol_sess : pool d !! si = Some s;
  ol_list : plist d = l;
  ol_out : out d = o;
}.

Lemma on_line_sess sock si l s o d : on_line sock si l s o d -> sess si d = s.
Proof. intros H. apply sess_lookup, H. Qed.

Lemma on_line_sock sock si l s o d : on_line sock si l s o d -> ls_sock s = sock.
Proof. intros H. destruct (slot_for_Some _ _ _ (ol_slot _ _ _ _ _ _ H)) as (s' & Hs & _ & Hk & _). rewrite (ol_sess _ _ _ _ _ _ H) in Hs. congruence. Qed.

Lemma slot_of_alter k l si s f :
  l !! si = Some s -> ls_sock (f s) = ls_sock s -> slot_of k (alter f si l) = slot_of k l.
Proof.
  unfold slot_of. revert si. induction l as [|x l IH]; intros [|si] Hs Hf; cbn in Hs |- *; simplify_eq.
  - rewrite Hf. by destruct (decide _).
  - destruct (decide (ls_sock x = k)); [done|]. specialize (IH si Hs Hf).
    destruct (list_find _ (alter f si l)) as [[? ?]|], (list_find _ l) as [[? ?]|]; cbn in *; congruence.
Qed.

Lemma on_line_alter sock si l s o d f p w :
  on_line sock si l s o d -> ls_sock (f s) = ls_sock s -> p = alter f si (pool d) ->
  on_line sock si l (f s) o (set_pool p (set_world w d)).
Proof.
  intros [H1 H2 H3 H4] Hf ->. split; [|by cbn; rewrite list_lookup_alter_eq, H2|done..].
  revert H1. unfold slot_for. case_bool_decide; [done|]. intros <-. change (slot_of sock (alter f si (pool d)) = slot_of sock (pool d)). by eapply slot_of_alter.
Qed.

Lemma on_line_op sock si l s o d m f :
  slot_op m si f -> on_line sock si l s o d -> ls_sock (f s) = ls_sock s -> on_line sock si l (f s) o (exec m d).
Proof. intros Hm Hd Hf. destruct (Hm d) as [E F]. rewrite F, E. by apply (on_line_alter _ _ _ s). Qed.

Lemma on_line_upd sock si l s o d f :
  on_line sock si l s o d -> ls_sock (f s) = ls_sock s -> on_line sock si l (f s) o (exec (upd_sess si f) d).
Proof. apply on_line_op, slot_op_upd. Qed.

Lemma on_line_io {A} sock si l s o d (f : World -> A * World) :
  on_line sock si l s o d -> on_line sock si l s o (exec (io f) d).
Proof. intros [? ? ? ?]. unfold exec, io. destruct (f (world d)). by split. Qed.

Lemma on_line_world sock si l s o d d' :
  on_line sock si l s o d -> pool d' = pool d -> plist d' = plist d -> out d' = out d -> on_line sock si l s o d'.
Proof. intros [H1 H2 H3 H4] E1 E2 E3. split; [by unfold slot_for; rewrite E1|by rewrite E1|by rewrite E2|by rewrite E3]. Qed.

(** What [security_send_line] puts on a socket without a key. *)
Definition line_events (sock : Z) (text : bytes) : list event :=
  if bool_decide (length text + 1 < 64) then [EvSend sock (text ++ [NL])] else [EvSend sock text; EvSend sock [NL]].

Lemma on_line_send sock si l s o d text :
  on_line sock si l s o d -> session_keyed s = false ->
  on_line sock si l s (o ++ line_events sock text) (exec (security_send_line sock text) d).
Proof.
  intros H Hk. destruct H as [H1 H2 H3 H4]. unfold security_send_line, line_events. case_bool_decide.
  - unfold exec. rewrite send_unkeyed; [split; [exact H1|exact H2|exact H3|cbn; by rewrite H4]|].
    intros si' Hs. replace si' with si by congruence. by rewrite (sess_lookup _ _ _ H2).
  - rewrite exec_bind. split; [done..|]. cbn. rewrite H4. by rewrite <- (assoc_L (++)).
Qed.

(** An answer without a key does not touch the outside world. *)
Lemma send_world sock si l s o d text :
  on_line sock si l s o d -> session_keyed s = false -> world (exec (security_send_line sock text) d) = world d.
Proof.
  intros H Hk. unfold security_send_line. case_bool_decide; [|done]. unfold exec. rewrite send_unkeyed; [done|].
  intros si' Hs. rewrite (ol_slot _ _ _ _ _ _ H) in Hs. injection Hs as <-. by rewrite (on_line_sess _ _ _ _ _ _ H).
Qed.

End Line.

(** The next statement changes the session of [H]. *)
Ltac line_upd H :=
  rewrite exec_bind;
  lazymatch type of H with on_line _ _ _ _ _ ?d =>
    match goal with |- context [exec (upd_sess ?si ?f) d] =>
      apply (on_line_upd _ _ _ _ _ _ f) in H; [|reflexivity];
      let d' := fresh "d" in set (d' := exec (upd_sess si f) d) in *; clearbody d'
    end
  end.

(** The same, for a fact [Hx] about the outside world. *)
Ltac line_upd_at H Hx :=
  lazymatch type of H with on_line _ _ _ _ _ ?d =>
    match goal with |- context [bind (upd_sess ?si ?f) _] =>
      change (world d) with (world (exec (upd_sess si f) d)) in Hx
    end
  end; line_upd H.

Section Login.
Context {P : Platform} {C : Config}.

(** ** The lines of the phone *)

Context {B : Base64Laws P} {CL : CryptoLaws P}.

Definition auth3_line (mac : bytes) : bytes := AUTH3_PREFIX ++ base64_encode mac.

(** A text as the phone sends it: printable, and it fits its field. *)
Definition text_field (n : nat) (s : bytes) : Prop :=
  s <> [] /\ length s <= n /\ Forall (fun c => (32 <= c < 256)%Z /\ c <> 127%Z) s.

Definition account_name (s : bytes) : Prop := text_field PAIRED_SUB_MAX s.

Lemma text_field_bytes n s : text_field n s -> Forall is_byte s.
Proof. intros (_ & _ & H). eapply list.Forall_impl; [exact H|]. unfold is_byte. cbn. lia. Qed.

Lemma to_cstr_text n s : text_field n s -> to_cstr s (n + 1) = Some s.
Proof.
  intros (Hne & Hl & Hc). unfold to_cstr. rewrite (bool_decide_eq_false_2 (length s = 0)) by (by destruct s).
  rewrite bool_decide_eq_false_2 by lia. cbn [orb].
  assert (forallb (fun c => negb (bool_decide (c < 32)%Z || bool_decide (c = 127)%Z)) s = true) as ->; [|done].
  apply forallb_forall. intros c Hin%list_elem_of_In. rewrite list.Forall_forall in Hc. destruct (Hc c Hin).
  by rewrite !bool_decide_eq_false_2 by lia.
Qed.

Lemma no_comma x : Forall is_byte x -> ~ COMMA ∈ base64_encode x.
Proof.
  intros H Hin. pose proof (base64_encode_clean x H) as Hc. rewrite list.Forall_forall in Hc. by destruct (Hc COMMA Hin).
Qed.

Lemma filter_no_comma l : ~ COMMA ∈ l -> filter (fun c => c = COMMA) l = [].
Proof.
  induction l as [|c l IH]; [done|]. intros Hn. rewrite filter_cons_False by set_solver. apply IH. set_solver.
Qed.

(** A line of two fields. *)
Definition two_fields (prefix x y : bytes) : bytes := prefix ++ base64_encode x ++ [COMMA] ++ base64_encode y.

Lemma two_fields_drop prefix x y :
  drop (length prefix) (two_fields prefix x y) = base64_encode x ++ COMMA :: base64_encode y /\
  bool_decide (length (two_fields prefix x y) <= length prefix) = false.
Proof.
  unfold two_fields. split; [by rewrite drop_app_length|]. apply bool_decide_eq_false_2. rewrite !length_app. cbn [length]. lia.
Qed.

Definition auth1_line (user_sub np : bytes) : bytes := two_fields AUTH1_PREFIX user_sub np.

Lemma count_two prefix x y : Forall is_byte x -> Forall is_byte y -> count_fields (two_fields prefix x y) prefix = 2.
Proof.
  intros Hx Hy. destruct (two_fields_drop prefix x y) as [Ed El]. unfold count_fields.
  rewrite El, Ed, list.filter_app, filter_cons_True by done. by rewrite !filter_no_comma by by apply no_comma.
Qed.

Lemma decode_two prefix x y n m :
  Forall is_byte x -> Forall is_byte y -> length x <= n -> length y <= m ->
  decode_fields (two_fields prefix x y) prefix [n; m] = Some [x; y].
Proof.
  intros Hx Hy Hn Hm. destruct (two_fields_drop prefix x y) as [Ed El]. unfold decode_fields. rewrite El, Ed. cbn [decode_loop].
  rewrite split_at_app by by apply no_comma. rewrite base64_decode_encode by done.
  assert (split_at COMMA (base64_encode y) = None) as -> by by apply split_at_None, no_comma.
  by rewrite base64_decode_encode by done.
Qed.

Lemma parse_auth1_line user_sub np :
  account_name user_sub -> length np = LOCAL_AUTH_NONCE_LEN -> Forall is_byte np ->
  parse_auth1 (auth1_line user_sub np) = Some (user_sub, np).
Proof.
  intros Hs Hl Hb. pose proof (text_field_bytes _ _ Hs) as Hsb. unfold parse_auth1, auth1_line.
  rewrite count_two by done. cbn [negb andb Nat.sub]. rewrite !bool_decide_eq_true_2 by done. cbn [negb andb].
  change (AUTH1_SIZES 2) with [PAIRED_SUB_MAX + 1; LOCAL_AUTH_NONCE_LEN + 1].
  rewrite decode_two by (done || lia || (destruct Hs as (_ & ? & _); lia)). cbn [lookup_total list_lookup_total].
  rewrite (to_cstr_text PAIRED_SUB_MAX) by done. by rewrite bool_decide_eq_true_2.
Qed.

Lemma parse_auth3_line mac :
  length mac = LOCAL_AUTH_MAC_LEN -> Forall is_byte mac -> parse_auth3 (auth3_line mac) = Some mac.
Proof.
  intros Hl Hb. unfold parse_auth3, decode_fields, auth3_line. rewrite drop_app_length.
  rewrite bool_decide_eq_false_2.
  2:{ rewrite length_app, base64_encode_length, Hl. change ((LOCAL_AUTH_MAC_LEN + 2) / 3) with 11. lia. }
  cbn [decode_loop]. assert (split_at COMMA (base64_encode mac) = None) as -> by by apply split_at_None, no_comma.
  rewrite base64_decode_encode by (done || lia). cbn. by rewrite bool_decide_eq_true_2.
Qed.

Lemma ct_diff_same n a : ct_diff n a a 0 = 0%Z.
Proof. revert a. induction n as [|n IH]; intros a; cbn; [done|]. rewrite Z.lxor_nilpotent. apply IH. Qed.

(** ** The two exchanges *)

(** The phone's account: entry [ix] of the list. *)
Definition enrolled (l : paired_blob_t) (user_sub : bytes) (ix : nat) (e : paired_entry_t) : Prop :=
  find_locked l user_sub = Z.of_nat ix /\ ix < pb_count l /\ pb_entries l !!! ix = e.

Lemma get_enrolled d user_sub ix e :
  enrolled (plist d) user_sub ix e -> paired_list_get (Z.of_nat ix) d = (Some e, d).
Proof.
  intros (_ & Hi & He). unfold paired_list_get, gets. rewrite !bool_decide_eq_true_2 by lia. cbn [andb]. by rewrite Nat2Z.id, He.
Qed.

(** The session while the phone's proof is awaited. *)
Definition awaiting (np nd : bytes) (e : paired_entry_t) (ix : nat) (s : local_session_t) : local_session_t :=
  set_ls_state LS_AUTH_WAIT_PROOF (set_ls_paired_index (Z.of_nat ix) (set_ls_key (pe_key e)
    (set_ls_nonce_dev nd (set_ls_nonce_phone np (restarted s))))).

Lemma random_eval_length n d : length (eval (io (esp_fill_random n)) d) = n.
Proof. unfold eval, io. pose proof (random_length n (world d)) as Hr. by destruct (esp_fill_random n (world d)). Qed.

Lemma auth1_challenges sock si l s o d user_sub np e ix :
  on_line sock si l s o d -> enrolled l user_sub ix e -> account_name user_sub ->
  length np = LOCAL_AUTH_NONCE_LEN -> Forall is_byte np ->
  exists nd, length nd = LOCAL_AUTH_NONCE_LEN /\
    on_line sock si l (awaiting np nd e ix s)
      (o ++ line_events sock (auth2_line nd (proof (pe_key e) (str "dev") np nd)))
      (exec (handle_auth1 si (auth1_line user_sub np)) d).
Proof.
  intros Hd He Hs Hl Hb. pose proof (on_line_sock _ _ _ _ _ _ Hd) as Hk.
  unfold handle_auth1. rewrite exec_bind.
  pose proof (on_line_op _ _ _ _ _ _ _ _ (reset_handshake_slot si) Hd eq_refl) as H1.
  set (d1 := exec (local_session_reset_handshake si) d) in *. clearbody d1.
  rewrite exec_bind, eval_gets, exec_gets, (on_line_sess _ _ _ _ _ _ H1). cbv zeta. rewrite parse_auth1_line by done.
  rewrite exec_bind. unfold paired_list_find. rewrite exec_gets, !eval_gets, (ol_list _ _ _ _ _ _ H1).
  rewrite (proj1 He). rewrite bool_decide_eq_false_2 by lia. rewrite exec_bind. unfold exec at 2, eval at 1.
  rewrite (get_enrolled d1 user_sub ix e) by by rewrite (ol_list _ _ _ _ _ _ H1). cbn [fst snd].
  line_upd H1. rewrite exec_bind. apply (on_line_io _ _ _ _ _ _ (esp_fill_random LOCAL_AUTH_NONCE_LEN)) in H1.
  set (nd := eval (io (esp_fill_random LOCAL_AUTH_NONCE_LEN)) d0).
  assert (length nd = LOCAL_AUTH_NONCE_LEN) as Hnd by apply random_eval_length.
  exists nd. split; [done|]. set (d2 := exec (io _) d0) in *. clearbody d2 nd.
  do 4 line_upd H1. rewrite exec_bind, eval_gets, exec_gets, (on_line_sess _ _ _ _ _ _ H1). cbv zeta.
  cbn [ls_sock restarted]. rewrite Hk. by apply on_line_send.
Qed.

(** The session once the proof was right. *)
Definition logged_in (ro : local_session_role_t) (s : local_session_t) : local_session_t :=
  set_ls_state LS_AUTH_OK (set_ls_tx_ctr 0 (set_ls_rx_ctr 0 (set_ls_role ro (set_ls_key (session_key s) s)))).

Definition authok_line (ro : local_session_role_t) : bytes :=
  if bool_decide (ro = LS_ROLE_OWNER) then str "AUTHOK:owner" else str "AUTHOK:user".

Definition login_role (e : paired_entry_t) : local_session_role_t :=
  if bool_decide (pe_role e = PAIRED_ROLE_OWNER) then LS_ROLE_OWNER else LS_ROLE_USER.

Lemma auth3_lets_in sock si l s o d user_sub e ix :
  on_line sock si l s o d -> enrolled l user_sub ix e ->
  ls_state s = LS_AUTH_WAIT_PROOF -> ls_paired_index s = Z.of_nat ix ->
  on_line sock si l (logged_in (login_role e) s) (o ++ line_events sock (authok_line (login_role e)))
    (exec (handle_auth3 si (auth3_line (expected_proof s))) d).
Proof.
  intros H1 He Hst Hix. pose proof (on_line_sock _ _ _ _ _ _ H1) as Hk.
  unfold handle_auth3. rewrite exec_bind, eval_gets, exec_gets, (on_line_sess _ _ _ _ _ _ H1). cbv zeta.
  rewrite bool_decide_eq_false_2 by (rewrite Hst; intros []; done).
  rewrite parse_auth3_line by apply hmac_length || apply hmac_bytes.
  unfold local_auth_ct_equal. rewrite ct_diff_same, bool_decide_eq_true_2 by done. cbn [negb].
  do 2 line_upd H1. rewrite exec_bind. unfold exec at 2, eval at 1. rewrite Hix.
  rewrite (get_enrolled _ user_sub ix e) by by rewrite (ol_list _ _ _ _ _ _ H1). cbn [fst snd].
  rewrite exec_bind. set (m := when _ _).
  assert (on_line sock si l (set_ls_role (login_role e) (set_ls_key (session_key s) s)) o (exec m d1)) as H2.
  { unfold m, login_role. case_bool_decide; [|by destruct s]. apply (on_line_upd _ _ _ _ _ _ (set_ls_role LS_ROLE_OWNER)) in H1; [|done]. by destruct s. }
  set (d2 := exec m d1) in *. clearbody d2.
  rewrite exec_bind, eval_gets, exec_gets, (on_line_sess _ _ _ _ _ _ H2). cbv zeta. rewrite exec_bind.
  assert (session_keyed (set_ls_role (login_role e) (set_ls_key (session_key s) s)) = false) as Hnk
    by (unfold session_keyed; destruct s; cbn in *; by subst).
  apply (on_line_send _ _ _ _ _ _ (authok_line (login_role e))) in H2; [|done]. rewrite Hk.
  match goal with |- context [exec (security_send_line sock ?t) d2] => change t with (authok_line (login_role e)) end.
  line_upd H2. apply (on_line_upd _ _ _ _ _ _ (set_ls_state LS_AUTH_OK)) in H2; [|done]. by destruct s.
Qed.
(** The entry of a name is found under it. *)
Lemma enrolled_in l ix e user_sub :
  list_ok l -> active l !! ix = Some e -> sub_eq (pe_user_sub e) user_sub = true -> enrolled l user_sub ix e.
Proof.
  intros Hl He Hself. pose proof (lookup_lt_Some _ _ _ He) as Hi. rewrite active_length in Hi by done.
  split; [|split; [done|]].
  - destruct (decide (find_locked l user_sub < 0)%Z) as [Hneg|Hpos].
    { rewrite (find_locked_None l _ Hneg ix e He) in Hself. done. }
    destruct (find_locked_Some l user_sub) as (e' & He' & Hs); [lia|].
    assert (Z.to_nat (find_locked l user_sub) = ix) as <-; [|lia].
    eapply (ok_distinct l Hl); [exact He'|exact He|]. eapply strncmp_eq_trans; [exact Hs|]. unfold sub_eq in *. by rewrite strncmp_eq_sym.
  - apply list_lookup_total_correct. unfold active in He. rewrite lookup_take_lt in He by done. done.
Qed.

(** ** From the receive task *)

Lemma recv_plain line sock si l s o d :
  on_line sock si l s o d -> is_enc line = false ->
  on_line sock si l (set_ls_rx_encrypted false s) o (clear_rx (slot_for sock d) d) /\
  exec (recv_line line sock) d = exec (tcp_dispatch_line line sock) (clear_rx (slot_for sock d) d).
Proof.
  intros H He. rewrite (ol_slot _ _ _ _ _ _ H). cbn [clear_rx]. split; [by apply (on_line_upd _ _ _ _ _ _ (set_ls_rx_encrypted false))|].
  unfold recv_line. rewrite exec_bind. unfold exec at 2, eval at 1.
  destruct (unwrap_cases line sock TCP_RECEIVE_DATA_LENGTH d) as [[_ ->]|[[E _]|[E _]]]; [|congruence..].
  cbn [fst snd]. by rewrite (ol_slot _ _ _ _ _ _ H).
Qed.

Lemma plain_line p x : p <> [] -> take 1 p <> take 1 ENC_PREFIX -> is_enc (p ++ x) = false.
Proof.
  intros Hp H. unfold is_enc. apply andb_false_intro2. unfold memcmp_eq. apply bool_decide_eq_false_2. intros E.
  apply H. apply (f_equal (take 1)) in E. by destruct p.
Qed.

Lemma auth_line_run line sock si l s o d :
  on_line sock si l s o d -> has_prefix line ENROLL_PREFIX = false ->
  has_prefix line AUTH1_PREFIX = true \/ has_prefix line AUTH3_PREFIX = true ->
  exec (tcp_dispatch_line line sock) d =
  exec (if has_prefix line AUTH1_PREFIX then handle_auth1 si line else handle_auth3 si line) d.
Proof.
  intros H He Hp. rewrite dispatch_auth by tauto. unfold local_auth_handle_line. rewrite He. cbv zeta. cbn [negb andb].
  replace (negb _ && negb _) with false by (destruct Hp as [-> | ->]; by rewrite ?andb_false_r).
  rewrite exec_bind. unfold exec at 2, eval at 1. rewrite find_run. fold (slot_for sock d). rewrite (ol_slot _ _ _ _ _ _ H).
  cbn [fst snd]. by rewrite exec_bind, exec_ret.
Qed.

(** C7: A phone that holds the key of an enrolled account logs in with two lines.
    Whatever state its session was in, AUTH1 with the account's name and a nonce
    of the phone is answered with a nonce of the device and the device's own
    proof of the key; and whatever the other tasks do meanwhile, as long as the
    session and the account are left alone, AUTH3 with the phone's proof is
    answered AUTHOK with the account's role and leaves the session logged in,
    bound to the account, under the key derived from both nonces, with both
    counters at zero. *)
Theorem enrolled_phone_logs_in sock si l s o d user_sub ix e np :
  on_line sock si l s o d -> enrolled l user_sub ix e -> account_name user_sub ->
  length np = LOCAL_AUTH_NONCE_LEN -> Forall is_byte np ->
  exists nd, length nd = LOCAL_AUTH_NONCE_LEN /\
    let w := awaiting np nd e ix s in
    on_line sock si l w (o ++ line_events sock (auth2_line nd (proof (pe_key e) (str "dev") np nd)))
      (exec (recv_line (auth1_line user_sub np) sock) d) /\
    forall l' o' d', on_line sock si l' w o' d' -> enrolled l' user_sub ix e ->
      exists s', on_line sock si l' s' (o' ++ line_events sock (authok_line (login_role e)))
          (exec (recv_line (auth3_line (proof (pe_key e) (str "phn") nd np)) sock) d') /\
        authenticated s' = true /\ ls_role s' = login_role e /\ ls_paired_index s' = Z.of_nat ix /\
        ls_key s' = local_auth_hkdf32 (pe_key e) (take LOCAL_AUTH_NONCE_LEN np ++ take LOCAL_AUTH_NONCE_LEN nd) LOCAL_AUTH_HKDF_INFO /\
        ls_tx_ctr s' = 0%Z /\ ls_rx_ctr s' = 0%Z.
Proof.
  intros Hd He Hn Hnp Hb.
  destruct (recv_plain (auth1_line user_sub np) _ _ _ _ _ _ Hd) as [Hd1 ->]; [by apply plain_line|].
  destruct (auth1_challenges _ _ _ _ _ _ _ np _ _ Hd1 He Hn Hnp Hb) as (nd & Hnd & H1).
  assert (forall x, has_prefix (AUTH1_PREFIX ++ x) AUTH1_PREFIX = true) as Hp1 by (intros x; apply has_prefix_spec; by exists x).
  assert (forall x, has_prefix (AUTH3_PREFIX ++ x) AUTH3_PREFIX = true) as Hp3 by (intros x; apply has_prefix_spec; by exists x).
  exists nd. split; [done|]. cbv zeta. split.
  - rewrite (auth_line_run _ _ _ _ _ _ _ Hd1).
    + unfold auth1_line, two_fields at 1. rewrite Hp1. destruct s; exact H1.
    + eapply (has_prefix_excl _ AUTH1_PREFIX _ 0); [apply Hp1|reflexivity|reflexivity|done].
    + left. apply Hp1.
  - intros l' o' d' Hd' He'.
    destruct (recv_plain (auth3_line (proof (pe_key e) (str "phn") nd np)) _ _ _ _ _ _ Hd') as [Hd2 ->]; [by apply plain_line|].
    rewrite (auth_line_run _ _ _ _ _ _ _ Hd2).
    + assert (has_prefix (auth3_line (proof (pe_key e) (str "phn") nd np)) AUTH1_PREFIX = false) as ->
        by (eapply (has_prefix_excl _ AUTH3_PREFIX _ 4); [apply Hp3|reflexivity|reflexivity|done]).
      eexists. split; [exact (auth3_lets_in _ _ _ _ _ _ _ _ _ Hd2 He' eq_refl eq_refl)|done].
    + eapply (has_prefix_excl _ AUTH3_PREFIX _ 0); [apply Hp3|reflexivity|reflexivity|done].
    + right. apply Hp3.
Qed.

End Login.

(** ** On a concrete device *)

(** Nobody is logged in yet. *)
Definition sim_lobby : Dev := set_plist two_accounts (sim_with true (sim_session true LS_NEW LS_ROLE_NONE (-1)) blank).

Lemma enrolled_phone_logs_in_witness :
  exists nd s', length nd = LOCAL_AUTH_NONCE_LEN /\
    let key := pe_key (active two_accounts !!! 0) in
    let d1 := exec (recv_line (auth1_line (str "alice") (replicate 16 1%Z)) 54) sim_lobby in
    pool (exec (recv_line (auth3_line (proof key (str "phn") nd (replicate 16 1%Z))) 54) d1) !! 0 = Some s' /\
    authenticated s' = true /\ ls_role s' = LS_ROLE_OWNER.
Proof.
  destruct (enrolled_phone_logs_in 54 0 two_accounts (sim_session true LS_NEW LS_ROLE_NONE (-1)) [] sim_lobby
              (str "alice") 0 (active two_accounts !!! 0) (replicate 16 1%Z)) as (nd & Hnd & H1 & H2).
  - split; [vm_compute; reflexivity|reflexivity|reflexivity|reflexivity].
  - split; [vm_compute; reflexivity|split; [vm_compute; lia|vm_compute; reflexivity]].
  - split; [vm_compute; discriminate|]. split; [apply Nat.leb_le; vm_compute; reflexivity|].
    apply (bool_decide_unpack _). vm_compute. exact I.
  - reflexivity.
  - apply (bool_decide_unpack _). unfold is_byte. vm_compute. exact I.
  - destruct (H2 _ _ _ H1) as (s' & H3 & Ha & Hr & _).
    + split; [vm_compute; reflexivity|split; [vm_compute; lia|vm_compute; reflexivity]].
    + exists nd, s'. split; [exact Hnd|]. split; [exact (ol_sess _ _ _ _ _ _ H3)|]. split; [exact Ha|]. refine (eq_trans Hr _). vm_compute. reflexivity.
Defined.
