(* ===== verification/EnrolProps.v ===== *)
(** * EnrolProps: who knows the password is enrolled

    The other half of [AuthProps.pake_ok_needs_proof]: a phone that knows the
    device password completes the key exchange, enrols its account inside the
    encrypted channel, and learns the account's key. Over any [esp_srp] that
    keeps the protocol ([SrpLaws]); what happens when a call of it, the flash or
    AES-GCM fails is part of the statements. *)

From S2P Require Import Prelude Platform State LocalSession Mdns EncFrame PairedList PairingEvents.
From S2P Require Import DevicePassword Discovery AccessPolicy PakeHandler LocalAuth OwnerCommands.
From S2P Require Import ResponseFifo ClientList Flash WifiPairing Provisioning TcpServer Invariant.
From S2P Require Import AuthProps LoginProps SimPlatform SimDevices.
From Stdlib Require Import ZArith Lia.
From stdpp Require Import base list sets strings numbers.

Local Open Scope cything_scope.

Section Enrol.
Context {P : Platform} {C : Config} {B64 : Base64Laws P} {CL : CryptoLaws P} {SL : SrpLaws P}.

(** ** The device's password *)






(** ** The key exchange *)
















(** ** The account *)

Definition enroll_line (user_sub email : bytes) : bytes := two_fields ENROLL_PREFIX user_sub email.




(** There is an entry for the account, or room for one. *)
Definition has_room (l : paired_blob_t) (user_sub : bytes) : Prop :=
  (0 <= find_locked l user_sub)%Z \/ pb_count l < PAIRED_LIST_MAX.


(** What mDNS announces meanwhile. *)
Definition announcement (ev : event) : Prop := exists t, ev = EvTxt t.

Lemma refresh_announces d :
  exists txt, Forall announcement txt /\ exec mdns_discovery_refresh d = set_out (out d ++ txt) d.
Proof.
  unfold mdns_discovery_refresh. rewrite exec_bind, eval_gets, exec_gets. destruct (mdns_started d) eqn:E.
  - eexists. split; [|reflexivity]. repeat constructor. by eexists.
  - exists []. split; [constructor|]. rewrite app_nil_r. by destruct d.
Qed.

(** The entries of other accounts are where they were. *)
Definition others_kept (l l' : paired_blob_t) (user_sub : bytes) : Prop :=
  forall j e, active l !! j = Some e -> sub_eq (pe_user_sub e) user_sub = false -> active l' !! j = Some e.

Definition added (user_sub email k : bytes) (now : Z) (d : Dev) : Prop :=
  exists ix e w txt l', let d' := set_out (out d ++ txt) (set_world w (set_plist l' d)) in
    paired_list_add user_sub email k now d = ((Z.of_nat ix, (pe_key e, pe_role e)), d') /\
    Forall announcement txt /\ list_ok l' /\ enrolled l' user_sub ix e /\ others_kept (plist d) l' user_sub.

(** Why an account was not added: no room, or the list that has it could not be
    stored. *)
Definition add_refused (user_sub : bytes) (d : Dev) : Prop :=
  ~ has_room (plist d) user_sub \/
  exists l ix e, enrolled l user_sub ix e /\ fst (PairedList.nvs_store (set_plist l d)) <> ESP_OK.

Definition not_added (user_sub email k : bytes) (now : Z) (d : Dev) : Prop :=
  exists k' w l', paired_list_add user_sub email k now d = (((-1)%Z, (k', 0%Z)), set_world w (set_plist l' d)) /\
    active l' = active (plist d) /\ add_refused user_sub d.

Lemma is_ok_false e : is_ok e = false -> e <> ESP_OK.
Proof. by intros ? ->. Qed.

Lemma add_known_cases user_sub email k now d :
  list_ok (plist d) -> user_sub <> [] -> cstr user_sub <> [] -> (0 <= find_locked (plist d) user_sub)%Z ->
  added user_sub email k now d \/ not_added user_sub email k now d.
Proof.
  intros Hl Hne Hcne Hf. destruct (find_locked_Some _ _ Hf) as (e & He & Hse). set (i := Z.to_nat (find_locked (plist d) user_sub)) in *.
  assert (find_locked (plist d) user_sub = Z.of_nat i) as Hfi by lia. pose proof (lookup_lt_Some _ _ _ He) as Hi.
  rewrite active_length in Hi by done. pose proof He as He2. rewrite active_lookup in He2 by done.
  destruct (add_known_run d user_sub email k now e i Hne Hfi He2) as (err & w & Est & Ea).
  set (l' := add_known user_sub email now i (plist d)) in *. assert (list_ok l') as Hl' by by apply add_known_ok.
  assert (enrolled l' user_sub i (PairedList.enrolled (plist d) user_sub email now e)) as Hen.
  { apply enrolled_in; [done| |].
    - unfold l'. rewrite active_add_known by done. by rewrite list_lookup_alter_eq, He.
    - unfold PairedList.enrolled. by case_bool_decide. }
  destruct (is_ok err) eqn:Eo; [left|right].
  - destruct (refresh_announces (set_world w (set_plist l' d))) as (txt & Ht & Er). rewrite Er in Ea.
    exists i, (PairedList.enrolled (plist d) user_sub email now e), w, txt, l'. split_and!; try done.
    + rewrite Ea. unfold PairedList.enrolled. by case_bool_decide.
    + intros j e' Hj Hs. unfold l'. rewrite active_add_known by done. rewrite list_lookup_alter_ne; [done|]. intros ->. congruence.
  - exists (pe_key e), w, (unclaim user_sub (plist d)). split; [done|]. split; [apply active_unclaim|].
    right. exists l'. do 2 eexists. split; [exact Hen|]. rewrite Est. by apply is_ok_false.
Qed.

Lemma add_new_cases user_sub email k now d :
  list_ok (plist d) -> user_sub <> [] -> cstr user_sub <> [] -> length k = PAIRED_KEY_LEN ->
  (find_locked (plist d) user_sub < 0)%Z -> pb_count (plist d) < PAIRED_LIST_MAX ->
  added user_sub email k now d \/ not_added user_sub email k now d.
Proof.
  intros Hl Hne Hcne Hk Hf Hr. destruct (add_new_run d user_sub email k now Hne Hl Hf Hr) as (err & w & Est & Ea).
  set (l' := add_new user_sub email k now (plist d)) in *. assert (list_ok l') as Hl' by by apply add_new_ok.
  assert (enrolled l' user_sub (pb_count (plist d)) (PairedList.enrolled (plist d) user_sub email now (fresh_entry user_sub k))) as Hen.
  { apply enrolled_in; [done| |].
    - unfold l'. rewrite active_add_new, <- (active_length _ Hl) by done. by rewrite list_lookup_middle.
    - assert (pe_user_sub (PairedList.enrolled (plist d) user_sub email now (fresh_entry user_sub k)) = copy_field 41 user_sub) as ->
        by (unfold PairedList.enrolled; by case_bool_decide).
      rewrite sub_eq_copy_field. apply strncmp_eq_refl. }
  destruct (is_ok err) eqn:Eo; [left|right].
  - destruct (refresh_announces (set_world w (set_plist l' d))) as (txt & Ht & Er). rewrite Er in Ea.
    exists (pb_count (plist d)), (PairedList.enrolled (plist d) user_sub email now (fresh_entry user_sub k)), w, txt, l'.
    split_and!; try done.
    + rewrite Ea. unfold PairedList.enrolled. by case_bool_decide.
    + intros j e' Hj _. unfold l'. rewrite active_add_new by done. by apply lookup_app_l_Some.
  - exists k, w, (unclaim user_sub (plist d)). split; [done|]. split; [apply active_unclaim|].
    right. exists l'. do 2 eexists. split; [exact Hen|]. rewrite Est. by apply is_ok_false.
Qed.

Lemma add_cases user_sub email k now d :
  list_ok (plist d) -> user_sub <> [] -> cstr user_sub <> [] -> length k = PAIRED_KEY_LEN ->
  added user_sub email k now d \/ not_added user_sub email k now d.
Proof.
  intros Hl Hne Hcne Hk. destruct (decide (0 <= find_locked (plist d) user_sub)%Z) as [Hf|Hf]; [by apply add_known_cases|].
  destruct (decide (pb_count (plist d) < PAIRED_LIST_MAX)) as [Hr|Hr]; [apply add_new_cases; done || lia|right].
  exists k, (world d), (unclaim user_sub (plist d)). rewrite add_full_run by (done || lia). split; [by destruct d|].
  split; [apply active_unclaim|]. left. unfold has_room. lia.
Qed.



(** ** The answer under the key *)

Context {GL : GcmLaws P}.








(** ** From the receive task *)






(** ** All or nothing *)

(** Why an ENROLL line changes nothing. *)
Definition enrol_refused (s : local_session_t) (line : bytes) (d : Dev) : Prop :=
  ls_state s <> LS_PAKE_OK \/ ls_rx_encrypted s = false \/ parse_enroll line = None \/
  exists user_sub email, parse_enroll line = Some (user_sub, email) /\
    add_refused user_sub (exec (io (esp_fill_random PAIRED_KEY_LEN)) d).

(** What an ENROLL line may do to the accounts and to its session [s]. *)
Definition enrol_outcome (si : nat) (s : local_session_t) (line : bytes) (d d' : Dev) : Prop :=
  exists s', pool d' !! si = Some s' /\
    ((exists user_sub email ix e, parse_enroll line = Some (user_sub, email) /\ ls_state s = LS_PAKE_OK /\ ls_rx_encrypted s = true /\
        list_ok (plist d') /\ enrolled (plist d') user_sub ix e /\ others_kept (plist d) (plist d') user_sub /\
        ls_core s' = Core LS_PAKE_OK (role_of (pe_role e)) (Z.of_nat ix) (ls_srp s) (ls_key s)) \/
     (active (plist d') = active (plist d) /\ ls_core s' = ls_core s /\ enrol_refused s line d)).

Lemma refusal_outcome si s line d d0 sock c :
  pool d0 !! si = Some s -> active (plist d0) = active (plist d) -> enrol_refused s line d ->
  enrol_outcome si s line d (exec (send_err sock c) d0).
Proof.
  intros Hp Ha Hr. pose proof (calm_send_err sock c d0) as Hc.
  destruct (same_core_lookup _ _ _ _ Hc Hp) as (s' & Hs' & _ & _ & Hcore). exists s'. split; [done|]. right.
  destruct Hc as [-> _]. done.
Qed.

(** C6: ENROLL is all or nothing, whatever the line, the session and the flash.
    Either the account is in the list under its name, the other accounts are where
    they were and the session is bound to it with its role; or not one account has
    changed and the session is what it was, and then the session had not proved the
    password, the line was not encrypted or malformed, the list was full, or the
    new list could not be stored. *)
Theorem enrolment_all_or_nothing si s line d :
  list_ok (plist d) -> pool d !! si = Some s -> enrol_outcome si s line d (exec (handle_enroll si line) d).
Proof.
  intros Hl Hs. unfold handle_enroll. rewrite exec_bind, eval_gets, exec_gets, (sess_lookup _ _ _ Hs). cbv zeta.
  destruct (decide (ls_state s = LS_PAKE_OK)) as [Hst|Hst].
  2:{ rewrite bool_decide_eq_true_2 by done. cbn [orb]. apply refusal_outcome; [done..|by left]. }
  rewrite (bool_decide_eq_false_2 (ls_state s <> _)) by (intros Hn; by apply Hn). cbn [orb].
  destruct (ls_rx_encrypted s) eqn:Ee; cbn [negb]; [|apply refusal_outcome; [done..|right; by left]].
  destruct (parse_enroll line) as [[user_sub email]|] eqn:Ep; [|apply refusal_outcome; [done..|right; right; by left]].
  destruct (parse_enroll_Some _ _ _ Ep) as (Hne & Hcne & _). rewrite exec_bind.
  pose proof (random_eval_length PAIRED_KEY_LEN d) as Hrl. set (k := eval (io (esp_fill_random PAIRED_KEY_LEN)) d) in *.
  set (d1 := exec (io (esp_fill_random PAIRED_KEY_LEN)) d) in *.
  assert (plist d1 = plist d /\ pool d1 = pool d) as [E1 E2] by (subst d1; unfold io, exec; by destruct (esp_fill_random _ _)).
  rewrite exec_bind. change (exec (ask now_unix) d1) with d1. set (now := eval (ask now_unix) d1).
  destruct (add_cases user_sub email k now d1) as [(ix & e & w & txt & l' & Ea & _ & Hl' & He & Ho)|(k' & w & l' & Ea & Ha & Hr)];
    [by rewrite E1|done..| |]; rewrite (exec_to _ _ _ _ _ Ea); cbv iota.
  2:{ rewrite bool_decide_eq_true_2 by lia. apply refusal_outcome; [cbn; by rewrite E2|cbn; by rewrite Ha, E1|].
      right; right; right. by exists user_sub, email. }
  rewrite bool_decide_eq_false_2 by lia. set (d2 := set_out _ _). rewrite !exec_bind.
  set (d3 := exec (upd_sess si (set_ls_role (role_of (pe_role e)))) (exec (upd_sess si (set_ls_paired_index (Z.of_nat ix))) d2)).
  assert (pool d3 !! si = Some (set_ls_role (role_of (pe_role e)) (set_ls_paired_index (Z.of_nat ix) s))) as H3.
  { change (pool d3) with (alter (set_ls_role (role_of (pe_role e))) si (alter (set_ls_paired_index (Z.of_nat ix)) si (pool d1))).
    by rewrite !list_lookup_alter_eq, E2, Hs. }
  assert (plist d3 = l') as E3 by done. clearbody d3.
  pose proof (same_core_trans _ _ _ (calm_security_send_line (ls_sock s) (enrolled_line (pe_key e) (pe_role e)) d3)
                (calm_event_push (str "paired") user_sub (role_text (pe_role e)) _)) as Hc.
  destruct (same_core_lookup _ _ _ _ Hc H3) as (s' & Hs' & _ & _ & Hcore). destruct Hc as [Hc _].
  exists s'. split; [exact Hs'|]. left. exists user_sub, email, ix, e. rewrite Hc, E3. rewrite E1 in Ho.
  split_and!; try done. rewrite Hcore. unfold ls_core. cbn. by rewrite Hst.
Qed.

End Enrol.

(** A session that has proved the password. *)
Definition sim_proved : local_session_t := set_ls_rx_encrypted true (sim_session true LS_PAKE_OK LS_ROLE_NONE (-1)).

Lemma enrolment_all_or_nothing_witness :
  let d := set_plist two_accounts (sim_with true sim_proved blank) in
  enrol_outcome 0 sim_proved (enroll_line (str "carol") (str "c@d.e")) d
    (exec (handle_enroll 0 (enroll_line (str "carol") (str "c@d.e"))) d).
Proof. intros d. apply (enrolment_all_or_nothing 0); [apply two_accounts_ok|reflexivity]. Defined.


