(* ===== verification/PasswordProps.v ===== *)
(** * PasswordProps: guessing the password is slow

    Theorems about the lock-out of [security/device_password.c] and the check
    that [security/pake_handler.c] makes of it. *)

From S2P Require Import Prelude Platform State LocalSession Mdns EncFrame DevicePassword PakeHandler.
From S2P Require Import TcpServer Invariant AuthProps ListProps SimPlatform.
From stdpp Require Import base list strings numbers.
From Stdlib Require Import ZArith Lia.

Local Open Scope cything_scope.

Section Locks.
Context {P : Platform} {C : Config}.

(** the n-th failure past the threshold locks for 60 s doubled n times,
    never longer than an hour, and below the threshold there is no lock; the
    32-bit product never wraps, whatever the 8-bit counters hold. *)
Theorem lock_seconds_formula fails threshold :
  (0 <= threshold <= 255)%Z -> (0 <= fails <= 255)%Z ->
  lock_seconds fails threshold
  = if bool_decide (fails < threshold)%Z then 0%Z
    else Z.min DEVICE_PW_LOCK_MAX_S (DEVICE_PW_LOCK_BASE_S * 2 ^ (fails - threshold)).
Proof.
  intros Ht Hf. case_bool_decide as H; [by apply lock_seconds_zero; lia|].
  apply lock_seconds_spec; lia.
Qed.

(** *** The specification: how long a run of failures locks *)








Lemma slot_failure_ip now s : ip_ip (slot_failure now s) = ip_ip s.
Proof. done. Qed.
















Lemma lock_pos f threshold :
  (0 <= threshold <= f)%Z -> (f <= 255)%Z -> (DEVICE_PW_LOCK_BASE_S <= lock_seconds f threshold <= DEVICE_PW_LOCK_MAX_S)%Z.
Proof.
  intros Ht Hf. rewrite lock_seconds_spec by lia.
  pose proof (Z.pow_pos_nonneg 2 (f - threshold) ltac:(lia) ltac:(lia)).
  unfold DEVICE_PW_LOCK_BASE_S, DEVICE_PW_LOCK_MAX_S. lia.
Qed.

Lemma pake1_locked si line d s :
  let d1 := exec (local_session_reset_handshake si) d in
  pool d1 !! si = Some s -> (0 < eval (device_password_lock_remaining_s (ls_peer_ip s)) d1)%Z ->
  exec (handle_pake1 si line) d
  = exec (send_err (ls_sock s) (snprintf_s 24 (str "LOCKED," ++
            dec_u (eval (device_password_lock_remaining_s (ls_peer_ip s)) d1)))) d1.
Proof.
  intros d1 Hs Hlock. unfold handle_pake1. rewrite exec_bind. fold d1.
  rewrite exec_bind, eval_gets, exec_gets, (sess_lookup _ _ _ Hs). cbv zeta.
  rewrite exec_bind.
  assert (exec (device_password_lock_remaining_s (ls_peer_ip s)) d1 = d1) as ->.
  { unfold device_password_lock_remaining_s. rewrite exec_bind, eval_gets, exec_gets.
    by destruct (device_password_is_set d1). }
  by rewrite bool_decide_eq_true_2.
Qed.


(** wrong passwords add up: after n failures in a row from one address, from
    any state of the table of addresses, its count is at least n (255 at most),
    and the count over all addresses has grown by n. *)
Theorem failures_accumulate d ip n :
  device_password_is_set d = true -> 0 < n ->
  0 < length (pw_ip (pw d)) -> Forall (fun s => 0 <= ip_fails s <= 255)%Z (pw_ip (pw d)) ->
  (0 <= pw_global_fails (pw d) <= 255)%Z ->
  let p' := pw (exec (failures (replicate n ip)) d) in
  (exists f, (Z.min 255 (Z.of_nat n) <= f <= 255)%Z /\ charged ip f p') /\
  pw_global_fails p' = Z.min 255 (pw_global_fails (pw d) + Z.of_nat n).
Proof.
  intros Hset Hn Hl Hb Hg p'. split.
  2:{ unfold p'. by rewrite failures_global, length_replicate by done. }
  destruct n as [|n]; [lia|]. unfold p', failures. cbn [replicate]. rewrite exec_for_each_cons.
  destruct (note_failure_run d ip Hset) as (w & E).
  destruct (fail_charges (esp_timer_get_time (world d)) ip (pw d) Hl Hb) as (f & Hf & Hc).
  set (d1 := exec (device_password_note_failure ip) d) in *.
  assert (charged ip f (pw d1)) as Hc1 by (by rewrite E).
  exists (Z.min 255 (f + Z.of_nat n)). split; [lia|]. apply failures_charged; [|lia|done].
  unfold d1. by rewrite note_failure_is_set.
Qed.

Lemma lock_remaining_global d ip :
  device_password_is_set d = true ->
  (remaining_s (pw_global_until_us (pw d)) (esp_timer_get_time (world d))
   <= eval (device_password_lock_remaining_s ip) d)%Z.
Proof.
  intros Hset. unfold device_password_lock_remaining_s. rewrite eval_bind, eval_gets, exec_gets, Hset. cbn [negb].
  rewrite eval_bind, eval_gets, exec_gets, eval_bind. change (exec (ask esp_timer_get_time) d) with d.
  change (eval (ask esp_timer_get_time) d) with (esp_timer_get_time (world d)).
  change (eval (ret ?x) d) with x. case_bool_decide; lia.
Qed.

(** the twentieth failure in a row, from whatever addresses, locks every
    address for the time the formula gives, and so does every further one. *)
Theorem global_lock_after_failures d ip ip' :
  device_password_is_set d = true ->
  (DEVICE_PW_GLOBAL_MAX_FAILS - 1 <= pw_global_fails (pw d) <= 255)%Z ->
  let d' := exec (device_password_note_failure ip) d in
  let until := (esp_timer_get_time (world d)
                + lock_seconds (sat_inc (pw_global_fails (pw d))) DEVICE_PW_GLOBAL_MAX_FAILS * 1000000)%Z in
  forall w, (esp_timer_get_time (world d) <= esp_timer_get_time w < until)%Z ->
    (0 < eval (device_password_lock_remaining_s ip') (set_world w d'))%Z /\
    (until <= esp_timer_get_time w + eval (device_password_lock_remaining_s ip') (set_world w d') * 1000000)%Z.
Proof.
  intros Hset Hg d' until w Hw. destruct (note_failure_run d ip Hset) as (w0 & E).
  assert (pw d' = fail_pw (esp_timer_get_time (world d)) ip (pw d)) as Epw by (unfold d'; by rewrite E).
  assert (sat_inc (pw_global_fails (pw d)) = Z.min 255 (pw_global_fails (pw d) + 1)) as Hsat
    by (unfold sat_inc; case_bool_decide; lia).
  assert (DEVICE_PW_GLOBAL_MAX_FAILS = 20%Z) as H20 by done.
  pose proof (lock_pos (sat_inc (pw_global_fails (pw d))) DEVICE_PW_GLOBAL_MAX_FAILS ltac:(lia) ltac:(lia)) as Hlp.
  unfold DEVICE_PW_LOCK_MAX_S, DEVICE_PW_LOCK_BASE_S in Hlp.
  assert (device_password_is_set (set_world w d') = true) as Hset'.
  { change (device_password_is_set (set_world w d')) with (device_password_is_set d').
    unfold d'. by rewrite note_failure_is_set. }
  pose proof (lock_remaining_global (set_world w d') ip' Hset') as Hle.
  change (world (set_world w d')) with w in Hle. change (pw (set_world w d')) with (pw d') in Hle.
  assert (pw_global_until_us (pw d') = until) as Hu.
  { rewrite Epw. unfold fail_pw. destruct (ip_slot ip (pw_ip (pw d))). cbn [pw_global_until_us].
    by rewrite bool_decide_eq_false_2 by lia. }
  rewrite Hu in Hle. destruct (remaining_s_pos until (esp_timer_get_time w) ltac:(lia) ltac:(unfold until; lia)). lia.
Qed.

(** while an address is locked out, PAKE1 gets no further than abandoning
    the socket's handshake and answering ERR:LOCKED with the seconds left: no
    password check is started. *)
Theorem locked_pake1_refused si line d s :
  let d1 := exec (local_session_reset_handshake si) d in
  pool d1 !! si = Some s -> (0 < eval (device_password_lock_remaining_s (ls_peer_ip s)) d1)%Z ->
  exec (handle_pake1 si line) d
  = exec (send_err (ls_sock s) (snprintf_s 24 (str "LOCKED," ++
            dec_u (eval (device_password_lock_remaining_s (ls_peer_ip s)) d1)))) d1.
Proof. apply pake1_locked. Qed.

(** A right password wipes the slate for the caller's address and for the
    device: nobody stays locked out by the global count, and the address's own
    slot is free again. *)
Theorem success_clears_locks d ip :
  let d' := exec (device_password_note_success ip) d in
  pw_global_fails (pw d') = 0%Z /\ pw_global_until_us (pw d') = 0%Z /\
  pw_ip (pw d') = match first_slot ip (pw_ip (pw d)) with
                  | Some (i, _) => <[i := null_ip_slot]> (pw_ip (pw d))
                  | None => pw_ip (pw d)
                  end.
Proof.
  unfold device_password_note_success, upd_pw. rewrite !exec_bind, eval_gets, exec_gets. cbv zeta.
  lazymatch goal with |- context [exec (when ?b nvs_store_lockout) ?x] => set (d1 := x); set (dirty := b) end.
  assert (pw (exec (when dirty nvs_store_lockout) d1) = pw d1) as ->.
  { destruct dirty; [|done]. cbn [when]. destruct (store_lockout_run d1) as (w & ->). done. }
  unfold d1. destruct d as [? ? [] ? ? ? ? ? ? ? ? ? ? ? ? ? ? ? ? ? ? ?]. cbn.
  by destruct (list_find _ pw_ip) as [[i s]|].
Qed.

End Locks.

(** ** On a concrete device *)

#[local] Instance simP : Platform := sim_platform true.
#[local] Instance simC : Config := sim_config true true true.

Lemma lock_seconds_formula_witness : lock_seconds 7 5 = 240%Z.
Proof. rewrite (lock_seconds_formula 7 5); [vm_compute; reflexivity|lia|lia]. Defined.

(** A device with a password where one address has failed four times, and one
    where nineteen failures were counted. *)
Definition wit_pw (fails global : Z) : pw_state :=
  Build_pw (str "saltsaltsaltsalt") (str "v") [] []
    (<[0 := Build_ip_slot 77 fails 0]> (replicate IP_SLOTS null_ip_slot)) global 0.
Definition wit_dev (fails global : Z) : Dev := set_pw (wit_pw fails global) (sim_dev true sim_world0).





Lemma failures_accumulate_witness :
  exists f, (5 <= f <= 255)%Z /\ charged 77 f (pw (exec (failures (replicate 5 77%Z)) (wit_dev 0 0))).
Proof.
  destruct (failures_accumulate (wit_dev 0 0) 77 5) as (H & _).
  - vm_compute. reflexivity.
  - lia.
  - apply (bool_decide_unpack _). vm_compute. exact I.
  - apply (bool_decide_unpack _). vm_compute. exact I.
  - split; vm_compute; discriminate.
  - exact H.
Defined.

Lemma global_lock_after_failures_witness :
  (0 < eval (device_password_lock_remaining_s 78)
         (exec (device_password_note_failure 77) (wit_dev 1 19)))%Z.
Proof.
  destruct (global_lock_after_failures (wit_dev 1 19) 77 78) with (w := world (wit_dev 1 19)) as (H & _).
  - vm_compute. reflexivity.
  - split; vm_compute; discriminate.
  - split; [apply Z.le_refl|vm_compute; reflexivity].
  - exact H.
Defined.

(** The locked-out address is the one socket 54 connects from. *)
Definition wit_locked : Dev :=
  set_pw (Build_pw (str "saltsaltsaltsalt") (str "v") [] []
            (<[0 := Build_ip_slot 167772161 5 61000000]> (replicate IP_SLOTS null_ip_slot)) 5 0)
    (sim_keyed true).

Lemma locked_pake1_refused_witness :
  exec (handle_pake1 0 (str "PAKE1:AAAA")) wit_locked
  = exec (send_err 54 (snprintf_s 24 (str "LOCKED," ++ dec_u
      (eval (device_password_lock_remaining_s 167772161) (exec (local_session_reset_handshake 0) wit_locked)))))
      (exec (local_session_reset_handshake 0) wit_locked).
Proof.
  destruct (pool (exec (local_session_reset_handshake 0) wit_locked) !! 0) as [s|] eqn:Hs;
    [|apply (f_equal (fmap ls_sock)) in Hs; vm_compute in Hs; discriminate].
  assert (ls_sock s = 54%Z /\ ls_peer_ip s = 167772161%Z) as [E1 E2].
  { assert ((fun s => (ls_sock s, ls_peer_ip s)) <$> (pool (exec (local_session_reset_handshake 0) wit_locked) !! 0)
            = Some (54, 167772161)%Z) as E by (vm_compute; reflexivity).
    rewrite Hs in E. cbn in E. injection E as E1 E2. split; assumption. }
  pose proof (locked_pake1_refused 0 (str "PAKE1:AAAA") wit_locked s Hs) as H. rewrite E1, E2 in H.
  apply H. vm_compute. reflexivity.
Defined.
