(* ===== verification/ListStore.v ===== *)
(** * ListStore: the list of accounts across a reboot

    [paired_list_init] reads back what [nvs_store] wrote, and repairs a list
    that holds an account twice. *)

From S2P Require Import Prelude Platform State Mdns PairedList Invariant SimPlatform SimDevices.
From stdpp Require Import base list strings numbers.
From Stdlib Require Import ZArith Lia.

Local Open Scope cything_scope.

Section Dedupe.
Context {P : Platform}.

(** Rows and count as any blob that was accepted has them. *)
Definition rows_ok (l : paired_blob_t) : Prop :=
  length (pb_entries l) = PAIRED_LIST_MAX /\ pb_count l <= PAIRED_LIST_MAX.

Lemma rows_active_length l : rows_ok l -> length (active l) = pb_count l.
Proof. intros [H1 H2]. unfold active. rewrite length_take. lia. Qed.

Lemma rows_remove l j : rows_ok l -> j < pb_count l ->
  rows_ok (remove_row j l) /\ active (remove_row j l) = delete j (active l).
Proof.
  intros [H1 H2] Hj. split.
  - split; cbn; [by rewrite length_insert, length_shift_down|lia].
  - unfold active, remove_row. cbn. rewrite take_insert_ge by lia. apply take_shift_down; [done|]. lia.
Qed.

(** The other entries of the same account. *)
Definition same_account (e x : paired_entry_t) : bool := sub_eq (pe_user_sub x) (pe_user_sub e).

(** Reference: of the entries of one account the first is kept. *)
Fixpoint keep_first (fuel : nat) (es : list paired_entry_t) : list paired_entry_t :=
  match fuel, es with
  | S f, e :: r => e :: keep_first f (filter (fun x => same_account e x = false) r)
  | _, _ => []
  end.

Lemma dedupe_inner_spec fuel i j l e :
  rows_ok l -> i < j -> j <= pb_count l -> pb_count l - j <= fuel -> active l !! i = Some e ->
  let l' := fst (dedupe_inner fuel i j l) in
  rows_ok l' /\ pb_owner_sub l' = pb_owner_sub l /\ pb_version l' = pb_version l /\
  active l' = take j (active l) ++ filter (fun x => same_account e x = false) (drop j (active l)).
Proof.
  revert j l. induction fuel as [|fuel IH]; intros j l Hl Hij Hj Hf He l'; subst l'; cbn [dedupe_inner].
  - split_and!; [done..|]. rewrite drop_ge, take_ge by (rewrite rows_active_length by done; lia).
    by rewrite filter_nil, app_nil_r.
  - case_bool_decide as Hc.
    2:{ cbn. split_and!; [done..|]. rewrite drop_ge, take_ge by (rewrite rows_active_length by done; lia).
        by rewrite filter_nil, app_nil_r. }
    assert (is_Some (active l !! j)) as [x Hx] by (apply lookup_lt_is_Some; by rewrite rows_active_length).
    assert (forall k y, active l !! k = Some y -> pb_entries l !!! k = y) as Hent.
    { intros k y Hk. unfold active in Hk. apply lookup_take_Some in Hk as [Hk _]. by apply list_lookup_total_correct. }
    rewrite (Hent _ _ He), (Hent _ _ Hx). fold (same_account e x).
    rewrite (drop_S _ x j Hx). rewrite filter_cons.
    destruct (same_account e x) eqn:Es.
    + destruct (rows_remove l j Hl Hc) as [Hl1 Ha1].
      destruct (dedupe_inner fuel i j (remove_row j l)) as [l2 b] eqn:E.
      specialize (IH j (remove_row j l) Hl1 Hij). cbn [fst]. rewrite E in IH. cbn [fst] in IH.
      destruct IH as (R1 & R2 & R3 & R4).
      * cbn. lia.
      * cbn. lia.
      * rewrite Ha1. by rewrite list_lookup_delete_lt.
      * split_and!; [done..|]. rewrite R4, Ha1. rewrite decide_False by done.
        rewrite delete_take_drop, drop_app_ge, take_app_le by (rewrite length_take, rows_active_length by done; lia).
        rewrite take_take, Nat.min_id, length_take_le, Nat.sub_diag by (rewrite rows_active_length by done; lia). done.
    + destruct (dedupe_inner fuel i (S j) l) as [l2 b] eqn:E.
      specialize (IH (S j) l Hl ltac:(lia) Hc ltac:(lia) He). rewrite E in IH. cbn [fst] in *.
      destruct IH as (R1 & R2 & R3 & R4). split_and!; [done..|]. rewrite R4.
      rewrite decide_True by done. rewrite (take_S_r _ _ _ Hx), <- app_assoc. done.
Qed.

Lemma dedupe_outer_spec fuel i l :
  rows_ok l -> i <= pb_count l -> pb_count l - i <= fuel ->
  let l' := fst (dedupe_outer fuel i l) in
  rows_ok l' /\ pb_owner_sub l' = pb_owner_sub l /\ pb_version l' = pb_version l /\
  active l' = take i (active l) ++ keep_first fuel (drop i (active l)).
Proof.
  revert i l. induction fuel as [|fuel IH]; intros i l Hl Hi Hf; cbn [dedupe_outer].
  - cbn. split_and!; [done..|]. by rewrite app_nil_r, take_ge by (rewrite rows_active_length by done; lia).
  - case_bool_decide as Hc.
    2:{ cbn [fst]. split_and!; [done..|]. rewrite drop_ge, take_ge by (rewrite rows_active_length by done; lia).
        by rewrite app_nil_r. }
    assert (is_Some (active l !! i)) as [e He] by (apply lookup_lt_is_Some; by rewrite rows_active_length).
    pose proof (dedupe_inner_spec (pb_count l - S i) i (S i) l e Hl ltac:(lia) ltac:(lia) ltac:(lia) He) as H.
    destruct (dedupe_inner (pb_count l - S i) i (S i) l) as [l1 c1]. cbn [fst] in H. destruct H as (R1 & R2 & R3 & R4).
    assert (length (take (S i) (active l)) = S i) as Hlen by (rewrite length_take, rows_active_length by done; lia).
    assert (S i <= pb_count l1) as Hle.
    { rewrite <- (rows_active_length l1), R4, length_app, Hlen by done. lia. }
    assert (pb_count l1 <= pb_count l) as Hle2.
    { rewrite <- (rows_active_length l1), <- (rows_active_length l), R4, length_app, Hlen by done.
      pose proof (length_filter (fun x => same_account e x = false) (drop (S i) (active l))) as Hfl.
      rewrite length_drop in Hfl. rewrite rows_active_length in * by done. lia. }
    specialize (IH (S i) l1 R1 Hle ltac:(lia)).
    destruct (dedupe_outer fuel (S i) l1) as [l2 c2]. cbn [fst] in *. destruct IH as (S1 & S2 & S3 & S4).
    split_and!; [done|congruence|congruence|]. rewrite S4, R4.
    rewrite take_app_le, take_take, Nat.min_id by lia. rewrite drop_app_ge, Hlen, Nat.sub_diag by lia.
    rewrite (drop_S _ e i He). cbn [keep_first]. rewrite (take_S_r _ _ _ He), <- app_assoc. done.
Qed.

Lemma same_account_refl e : same_account e e = true.
Proof. apply strncmp_eq_refl. Qed.
Lemma same_account_sym e x : same_account e x = same_account x e.
Proof. apply strncmp_eq_sym. Qed.
Lemma same_account_trans a b c : same_account a b = true -> same_account b c = true -> same_account a c = true.
Proof. unfold same_account, sub_eq. intros H1 H2. by eapply strncmp_eq_trans. Qed.

Lemma keep_first_sub fuel es x : x ∈ keep_first fuel es -> x ∈ es.
Proof.
  revert es. induction fuel as [|fuel IH]; intros [|e r] H; cbn in H; try (by inversion H).
  apply elem_of_cons in H as [->|H]; [by left|right]. apply IH in H. by apply list_elem_of_filter in H as [_ ?].
Qed.

Lemma keep_first_covers fuel es x :
  length es <= fuel -> x ∈ es -> exists y, y ∈ keep_first fuel es /\ same_account y x = true.
Proof.
  revert es. induction fuel as [|fuel IH]; intros [|e r] Hl H; cbn in Hl; try (by inversion H); [lia|]. cbn.
  apply elem_of_cons in H as [->|H]; [exists e; split; [by left|apply same_account_refl]|].
  destruct (same_account e x) eqn:E; [exists e; split; [by left|done]|].
  destruct (IH (filter (fun y => same_account e y = false) r)) as (y & Hy & Hyx).
  - pose proof (length_filter (fun y => same_account e y = false) r). lia.
  - by apply list_elem_of_filter.
  - exists y. split; [by right|done].
Qed.

Lemma keep_first_distinct fuel es i j a b :
  keep_first fuel es !! i = Some a -> keep_first fuel es !! j = Some b -> same_account a b = true -> i = j.
Proof.
  revert es i j. induction fuel as [|fuel IH]; intros [|e r] i j Hi Hj Hs; cbn in Hi, Hj; try done.
  assert (forall k x, keep_first fuel (filter (fun y => same_account e y = false) r) !! k = Some x ->
            same_account e x = false) as Hne.
  { intros k x Hk. apply list_elem_of_lookup_2, keep_first_sub, list_elem_of_filter in Hk. by destruct Hk. }
  destruct i as [|i], j as [|j]; cbn in Hi, Hj; simplify_eq.
  - done.
  - by rewrite (Hne _ _ Hj) in Hs.
  - rewrite same_account_sym in Hs. by rewrite (Hne _ _ Hi) in Hs.
  - f_equal. by eapply IH.
Qed.

(** the repair of a stored list keeps, of the entries of one account, the
    first, in order: no account is on the list twice afterwards, and none is
    lost; it is the same list as the reference that filters each account's
    later entries out. *)
Theorem dedupe_keeps_first d :
  length (pb_entries (plist d)) = PAIRED_LIST_MAX -> pb_count (plist d) <= PAIRED_LIST_MAX ->
  let l' := plist (exec dedupe_accounts_locked d) in
  active l' = keep_first (pb_count (plist d)) (active (plist d)) /\ distinct_subs (active l') /\
  forall e, e ∈ active (plist d) -> exists e', e' ∈ active l' /\ same_account e' e = true.
Proof.
  intros H1 H2 l'. assert (rows_ok (plist d)) as Hl by done.
  assert (active l' = keep_first (pb_count (plist d)) (active (plist d))) as Ha.
  { unfold l', dedupe_accounts_locked. rewrite exec_bind, eval_gets, exec_gets.
    pose proof (dedupe_outer_spec (pb_count (plist d)) 0 (plist d) Hl ltac:(lia) ltac:(lia)) as H.
    destruct (dedupe_outer (pb_count (plist d)) 0 (plist d)) as [l2 c]. cbn in H. by destruct H as (_ & _ & _ & ?). }
  split; [done|]. rewrite Ha. split.
  - intros i j ei ej Hi Hj E. eapply keep_first_distinct; [done..|]. rewrite same_account_sym. exact E.
  - intros e He. apply keep_first_covers; [|done]. by rewrite rows_active_length.
Qed.

Lemma filter_all {A} (Q : A -> Prop) `{!forall x, Decision (Q x)} (l : list A) : Forall Q l -> filter Q l = l.
Proof. induction 1 as [|x l Hx _ IH]; [done|]. rewrite filter_cons_True by done. by rewrite IH. Qed.

(** Nothing to repair in a list without duplicates. *)
Lemma keep_first_id fuel es :
  length es <= fuel -> distinct_subs es -> keep_first fuel es = es.
Proof.
  revert es. induction fuel as [|fuel IH]; intros [|e r] Hl Hd; cbn in Hl; try done; [lia|]. cbn.
  assert (filter (fun x => same_account e x = false) r = r) as ->.
  { apply filter_all, List.Forall_forall. intros x Hx%list_elem_of_In.
    apply list_elem_of_lookup in Hx as [k Hk]. destruct (same_account e x) eqn:E; [|done].
    rewrite same_account_sym in E. by apply (Hd 0 (S k) e x) in E. }
  f_equal. apply IH; [lia|]. intros i j a b Ha Hb E. pose proof (Hd (S i) (S j) a b Ha Hb E). lia.
Qed.

(** A list without duplicates is left alone. *)
Lemma dedupe_inner_id fuel i j l e :
  active l !! i = Some e -> i < j ->
  (forall k x, j <= k -> active l !! k = Some x -> same_account e x = false) ->
  rows_ok l -> dedupe_inner fuel i j l = (l, false).
Proof.
  intros He Hij Hno Hl. assert (forall k y, active l !! k = Some y -> pb_entries l !!! k = y) as Hent.
  { intros k y Hk. unfold active in Hk. apply lookup_take_Some in Hk as [Hk _]. by apply list_lookup_total_correct. }
  revert j Hij Hno. induction fuel as [|fuel IH]; intros j Hij Hno; [done|]. cbn [dedupe_inner].
  case_bool_decide as Hc; [|done].
  assert (is_Some (active l !! j)) as [x Hx] by (apply lookup_lt_is_Some; by rewrite rows_active_length).
  rewrite (Hent _ _ He), (Hent _ _ Hx). fold (same_account e x). rewrite (Hno j x) by done.
  apply IH; [lia|]. intros k y Hk. apply Hno. lia.
Qed.

Lemma dedupe_outer_id fuel i l : rows_ok l -> distinct_subs (active l) -> dedupe_outer fuel i l = (l, false).
Proof.
  intros Hl Hd. revert i. induction fuel as [|fuel IH]; intros i; [done|]. cbn [dedupe_outer].
  case_bool_decide as Hc; [|done].
  assert (is_Some (active l !! i)) as [e He] by (apply lookup_lt_is_Some; by rewrite rows_active_length).
  rewrite (dedupe_inner_id _ i (S i) l e He); [by rewrite IH|lia| |done].
  intros k x Hk Hx. destruct (same_account e x) eqn:E; [|done]. rewrite same_account_sym in E.
  pose proof (Hd _ _ _ _ He Hx E). lia.
Qed.

End Dedupe.

(** ** The blob in flash *)

Section Blob.
Context {P : Platform}.

Lemma slice_mid a x c off len : length a = off -> length x = len -> slice off len (a ++ x ++ c) = x.
Proof. intros <- <-. unfold slice. by rewrite drop_app_length, take_app_length. Qed.

Lemma slice_head x c len : length x = len -> slice 0 len (x ++ c) = x.
Proof. intros <-. unfold slice. by rewrite drop_0, take_app_length. Qed.

Lemma slice_skip h b off len : slice (length h + off) len (h ++ b) = slice off len b.
Proof. unfold slice. by rewrite drop_app_add. Qed.

Lemma slice_mjoin (ls : list bytes) n i x tl :
  Forall (fun y => length y = n) ls -> ls !! i = Some x -> slice (i * n) n (mjoin ls ++ tl) = x.
Proof.
  intros Hls. revert i. induction Hls as [|y ls Hy Hls IH]; intros i Hi; [done|].
  change (mjoin (y :: ls)) with (y ++ mjoin ls). rewrite <- app_assoc. destruct i as [|i]; cbn in Hi.
  - injection Hi as ->. apply (slice_mid [] x); done.
  - replace (S i * n) with (length y + i * n) by lia. rewrite slice_skip. by apply IH.
Qed.

Lemma mjoin_length (ls : list bytes) n :
  Forall (fun y => length y = n) ls -> length (mjoin ls) = length ls * n.
Proof.
  induction 1 as [|y ls Hy _ IH]; [done|]. change (mjoin (y :: ls)) with (y ++ mjoin ls).
  rewrite length_app, IH, Hy. cbn. lia.
Qed.

Lemma le32_get_le32 z : (0 <= z < 2 ^ 32)%Z -> le32_get (le32 z) = z.
Proof.
  intros Hz. unfold le32_get, le32, wrap. rewrite !Z.shiftr_div_pow2 by lia.
  Z.to_euclidean_division_equations. lia.
Qed.

(** The machine ranges of an entry's numbers. *)
Definition entry_fits (e : paired_entry_t) : Prop :=
  entry_wf e /\ (0 <= pe_paired_at e < 2 ^ 32)%Z /\ (0 <= pe_role e < 256)%Z.

Lemma entry_bytes_length e : entry_wf e -> length (entry_bytes e) = SIZEOF_ENTRY.
Proof.
  intros (H1 & H2 & H3 & _). unfold entry_bytes. rewrite !length_app, !zeros_length, H1, H2, H3. done.
Qed.

Lemma entry_round_trip e : entry_fits e -> entry_of_bytes (entry_bytes e) = e.
Proof.
  intros ((H1 & H2 & H3 & _) & Ht & Hr). unfold entry_of_bytes, entry_bytes.
  set (t := le32 (pe_paired_at e)). assert (length t = 4) as Hlt by done.
  assert (byte_at 144 (pe_user_sub e ++ pe_user_email e ++ pe_key e ++ zeros 2 ++ t ++ [u8 (pe_role e)] ++ zeros 3)
          = pe_role e) as ->.
  { unfold byte_at. rewrite !app_assoc, <- app_assoc.
    rewrite lookup_app_r by (rewrite !length_app, zeros_length, H1, H2, H3, Hlt; lia).
    rewrite !length_app, zeros_length, H1, H2, H3, Hlt. cbn. by rewrite wrap_small by lia. }
  rewrite (slice_head (pe_user_sub e)) by done. rewrite (slice_mid (pe_user_sub e) (pe_user_email e) _ 41 65 H1 H2).
  rewrite (app_assoc (pe_user_sub e)).
  rewrite (slice_mid (pe_user_sub e ++ pe_user_email e) (pe_key e)) by (rewrite ?length_app; lia).
  rewrite (app_assoc _ (pe_key e)), (app_assoc _ (zeros 2)).
  rewrite (slice_mid (((pe_user_sub e ++ pe_user_email e) ++ pe_key e) ++ zeros 2) t)
    by (rewrite ?length_app, ?zeros_length; lia).
  unfold t. rewrite le32_get_le32 by done. by destruct e.
Qed.

Lemma blob_bytes_length l :
  list_ok l -> length (blob_bytes l) = OFFSETOF_ENTRIES + pb_count l * SIZEOF_ENTRY.
Proof.
  intros Hl. unfold blob_bytes. rewrite !length_app, zeros_length, (ok_owner_len l Hl).
  rewrite (mjoin_length _ SIZEOF_ENTRY).
  - rewrite length_fmap, active_length by done. cbn [length]. unfold OFFSETOF_ENTRIES. lia.
  - apply Forall_fmap. eapply List.Forall_impl; [|apply (ok_entries l Hl)]. intros e. apply entry_bytes_length.
Qed.

(** The store writes a list that the load reads back as it was. *)
Lemma blob_round_trip l :
  list_ok l -> Forall entry_fits (active l) -> blob_of_bytes (blob_bytes l) = l.
Proof.
  intros Hl Hf. pose proof (blob_bytes_length l Hl) as Hlen. unfold blob_of_bytes. rewrite Hlen.
  pose proof (ok_count l Hl) as Hc. unfold blob_bytes.
  set (h := [u8 (pb_version l); u8 (Z.of_nat (pb_count l)); 0; 0]%Z).
  set (body := mjoin (entry_bytes <$> active l)). set (pad := zeros (SIZEOF_BLOB - _)).
  assert (Forall (fun y => length y = SIZEOF_ENTRY) (entry_bytes <$> active l)) as Hall.
  { apply Forall_fmap. eapply List.Forall_impl; [|apply (ok_entries l Hl)]. intros e. apply entry_bytes_length. }
  assert (((h ++ pb_owner_sub l ++ zeros 3 ++ body) ++ pad) = (h ++ pb_owner_sub l ++ zeros 3) ++ body ++ pad) as Hmem
    by (by rewrite !app_assoc).
  assert (length (h ++ pb_owner_sub l ++ zeros 3) = OFFSETOF_ENTRIES) as Hh
    by (rewrite !length_app, zeros_length, (ok_owner_len l Hl); done).
  assert (byte_at 0 ((h ++ pb_owner_sub l ++ zeros 3 ++ body) ++ pad) = pb_version l) as ->.
  { rewrite (ok_version l Hl). unfold h. by rewrite (ok_version l Hl). }
  assert (byte_at 1 ((h ++ pb_owner_sub l ++ zeros 3 ++ body) ++ pad) = Z.of_nat (pb_count l)) as ->.
  { unfold byte_at, h. cbn. unfold PAIRED_LIST_MAX in Hc. by rewrite wrap_small by lia. }
  rewrite Nat2Z.id. rewrite <- (app_assoc h), <- (app_assoc (pb_owner_sub l)).
  rewrite (slice_mid h (pb_owner_sub l)) by (done || apply Hl).
  assert (forall i, i < PAIRED_LIST_MAX ->
    entry_of_bytes (slice (OFFSETOF_ENTRIES + i * SIZEOF_ENTRY) SIZEOF_ENTRY
                      (h ++ pb_owner_sub l ++ (zeros 3 ++ body) ++ pad)) = pb_entries l !!! i) as Hrow.
  { intros i Hi. rewrite <- (app_assoc (zeros 3)), (app_assoc (pb_owner_sub l)), (app_assoc h), <- Hh, slice_skip.
    destruct (decide (i < pb_count l)) as [Hlt|Hge].
    - assert (is_Some (active l !! i)) as [e He] by (apply lookup_lt_is_Some; by rewrite active_length).
      unfold body. rewrite (slice_mjoin _ _ _ (entry_bytes e)) by (done || by rewrite list_lookup_fmap, He).
      rewrite entry_round_trip by (by eapply Forall_lookup_1). rewrite active_lookup in He by done.
      symmetry. by apply list_lookup_total_correct.
    - pose proof (ok_tail l Hl i ltac:(lia)) as Htl. apply list_lookup_total_correct in Htl. rewrite Htl.
      assert (slice (i * SIZEOF_ENTRY) SIZEOF_ENTRY (body ++ pad) = zeros SIZEOF_ENTRY) as ->; [|done].
      unfold slice. assert (length body = pb_count l * SIZEOF_ENTRY) as Hb.
      { unfold body. by rewrite (mjoin_length _ _ Hall), length_fmap, active_length. }
      rewrite drop_app_ge by (rewrite Hb; unfold SIZEOF_ENTRY; lia). rewrite Hb. unfold pad, zeros.
      rewrite drop_replicate, take_replicate. f_equal.
      unfold SIZEOF_BLOB, SIZEOF_ENTRY, OFFSETOF_ENTRIES, PAIRED_LIST_MAX in *. lia. }
  pose proof (ok_rows l Hl) as Hr. transitivity (Build_blob (pb_version l) (pb_count l) (pb_owner_sub l) (pb_entries l));
    [f_equal|by destruct l].
  apply list_eq. intros i. rewrite list_lookup_fmap. destruct (decide (i < PAIRED_LIST_MAX)) as [Hi|Hi].
  - rewrite lookup_seq_lt by done. cbn [fmap option_fmap option_map]. rewrite Nat.add_0_l, Hrow by done.
    symmetry. apply list_lookup_lookup_total_lt. lia.
  - rewrite lookup_seq_ge by lia. symmetry. apply lookup_ge_None_2. lia.
Qed.

Context {C : Config} {NRB : NvsReadsBack P}.

Lemma store_written d d1 :
  nvs_store d = (ESP_OK, d1) -> 0 < pb_count (plist d) ->
  exists w w1, nvs_set_blob NVS_NS NVS_KEY_LIST (blob_bytes (plist d)) w = (ESP_OK, w1) /\
    world d1 = nvs_close NVS_NS (snd (nvs_commit NVS_NS w1)).
Proof.
  intros E Hc. revert E. unfold nvs_store, io, io_. st_unfold.
  destruct (nvs_open NVS_NS NVS_READWRITE (world d)) as [e1 w1]. destruct e1; try (cbn; congruence).
  cbn [is_ok negb]. change (plist (set_world w1 d)) with (plist d).
  rewrite bool_decide_eq_false_2 by lia. change (world (set_world w1 d)) with w1.
  destruct (nvs_set_blob NVS_NS NVS_KEY_LIST (blob_bytes (plist d)) w1) as [e2 w2] eqn:E2.
  destruct e2; try (cbn; congruence). cbn [is_ok].
  change (world (set_world w2 (set_world w1 d))) with w2.
  destruct (nvs_commit NVS_NS w2) as [e3 w3] eqn:E3. intros E. exists w1, w2. split; [done|].
  rewrite E3. injection E as _ <-. done.
Qed.

Lemma load_runs d l :
  list_ok l -> Forall entry_fits (active l) ->
  fst (nvs_open NVS_NS NVS_READONLY (world d)) = ESP_OK ->
  nvs_get_blob NVS_NS NVS_KEY_LIST SIZEOF_BLOB (snd (nvs_open NVS_NS NVS_READONLY (world d))) = (ESP_OK, blob_bytes l) ->
  exists w, nvs_load d = (false, set_world w (set_plist l d)).
Proof.
  intros Hl Hf Ho Hg. pose proof (blob_round_trip l Hl Hf) as Hrt. pose proof (blob_bytes_length l Hl) as Hlen.
  pose proof (ok_count l Hl) as Hc. pose proof (ok_version l Hl) as Hv.
  unfold nvs_load, io, io_, ask. st_unfold. change (world (set_plist empty_list d)) with (world d).
  destruct (nvs_open NVS_NS NVS_READONLY (world d)) as [e1 w1]. cbn [fst snd] in Ho, Hg. subst e1. cbn [is_ok negb].
  change (world (set_world w1 (set_plist empty_list d))) with w1. rewrite Hg. cbn [is_ok when]. st_unfold.
  rewrite Hrt. cbn -[Nat.mul]. rewrite Hv.
  repeat (rewrite bool_decide_eq_false_2 by done). cbn -[Nat.mul]. rewrite Hv.
  rewrite (bool_decide_eq_true_2 (BLOB_VERSION = BLOB_VERSION)) by done.
  rewrite (bool_decide_eq_false_2 (PAIRED_LIST_MAX < _)) by lia.
  rewrite (bool_decide_eq_true_2 (length (blob_bytes l) = _)) by done. cbn. by exists (nvs_close NVS_NS w1).
Qed.

(** C32: a list that was stored comes back after a reboot, entry by entry, with
    its keys, its owner and its order, and the repair finds nothing to do. *)
Theorem reboot_restores_list d d1 d0 :
  list_ok (plist d) -> Forall entry_fits (active (plist d)) -> 0 < pb_count (plist d) ->
  nvs_store d = (ESP_OK, d1) ->
  plist (exec paired_list_init (set_world (world d1) d0)) = plist d.
Proof.
  intros Hl Hf Hc E. destruct (store_written d d1 E Hc) as (w & w1 & Hset & Hw).
  set (l := plist d) in *.
  assert (length (blob_bytes l) <= SIZEOF_BLOB) as Hle.
  { rewrite blob_bytes_length by done. pose proof (ok_count l Hl). unfold SIZEOF_BLOB, SIZEOF_ENTRY. lia. }
  destruct (nvs_reads_back _ _ _ SIZEOF_BLOB _ _ Hset Hle) as [Ho Hg]. rewrite <- Hw in Ho, Hg.
  destruct (load_runs (set_world (world d1) d0) l Hl Hf Ho Hg) as (w2 & Hload).
  unfold paired_list_init. rewrite exec_bind. unfold exec at 2, eval at 1. rewrite Hload. cbn [fst snd].
  set (d2 := set_world w2 (set_plist l _)). rewrite exec_bind.
  assert (dedupe_accounts_locked d2 = (false, d2)) as Hdd.
  { unfold dedupe_accounts_locked. st_unfold. change (plist d2) with l.
    rewrite dedupe_outer_id; [|split; [apply Hl|apply Hl]|apply Hl]. done. }
  unfold exec at 2, eval at 1. rewrite Hdd. done.
Qed.

End Blob.

(** ** Enrolling *)

Section Enroll.
Context {P : Platform} {C : Config}.

(** enrolling an account either fails and leaves accounts, keys and
    ownership as they were, or answers the index, key and role of the account's
    one entry; an account that was on the list keeps its key, a new one gets the
    fresh key in a new last entry, and no other entry changes. *)
Theorem add_outcome d sub email key at_ :
  list_ok (plist d) -> sub <> [] -> cstr sub <> [] -> length key = 32 ->
  let r := eval (paired_list_add sub email key at_) d in
  let l := plist d in
  let l' := plist (exec (paired_list_add sub email key at_) d) in
  list_ok l' /\
  ((fst r = (-1)%Z /\ active l' = active l /\ unowned l' = unowned l) \/
   exists i e, fst r = Z.of_nat i /\ active l' !! i = Some e /\ snd r = (pe_key e, pe_role e) /\
     sub_eq (pe_user_sub e) sub = true /\ pe_paired_at e = at_ /\
     (forall j, j <> i -> active l' !! j = active l !! j) /\
     match active l !! i with
     | Some e0 => pe_key e = pe_key e0
     | None => pe_key e = key /\ i = pb_count l
     end).
Proof.
  intros Hl Hs Hc Hk. unfold eval, exec.
  assert (unowned (unclaim sub (plist d)) = unowned (plist d) /\ active (unclaim sub (plist d)) = active (plist d)) as [U1 U2].
  { unfold unclaim, claim. destruct (unowned (plist d)) eqn:E; [|done]. split; [|done].
    unfold clear_owner, unowned. cbn. apply bool_decide_eq_true_2. unfold byte_at. by destruct (copy_field 41 sub). }
  assert (forall l, plist (exec mdns_discovery_refresh l) = plist l) as Hr.
  { intros l. pose proof (refresh_frame l) as H. unfold same_but_out in H. by rewrite H. }
  destruct (decide (0 <= find_locked (plist d) sub)%Z) as [Hf|Hf].
  - destruct (find_locked_Some (plist d) sub Hf) as (e & He & Hse). destruct (Z_of_nat_complete _ Hf) as [i Hfi].
    rewrite Hfi, Nat2Z.id in *. pose proof (lookup_lt_Some _ _ _ He) as Hi. rewrite active_length in Hi by done.
    pose proof He as Ha. rewrite active_lookup in He by done.
    destruct (add_known_run d sub email key at_ e i Hs Hfi He) as (err & w & _ & ->).
    destruct (is_ok err); cbn [fst snd]; [|split; [by apply unclaim_ok|by left]].
    rewrite Hr. cbn [plist set_world set_plist]. split; [by apply add_known_ok|]. right.
    exists i, (enrolled (plist d) sub email at_ e). rewrite active_add_known by done. rewrite Ha.
    rewrite list_lookup_alter_eq, Ha, sub_of_enrolled, key_of_enrolled, role_of_enrolled.
    split_and!; try done. intros j Hj. by rewrite list_lookup_alter_ne.
  - destruct (decide (pb_count (plist d) < PAIRED_LIST_MAX)) as [Hlt|Hge].
    + destruct (add_new_run d sub email key at_ Hs Hl ltac:(lia) Hlt) as (err & w & _ & ->).
      destruct (is_ok err); cbn [fst snd]; [|split; [by apply unclaim_ok|by left]].
      rewrite Hr. cbn [plist set_world set_plist]. split; [apply add_new_ok; done || lia|]. right.
      exists (pb_count (plist d)), (enrolled (plist d) sub email at_ (fresh_entry sub key)).
      rewrite active_add_new by done.
      rewrite (list_lookup_middle (active (plist d)) [] _ (pb_count (plist d))) by (by rewrite active_length).
      rewrite sub_of_enrolled, key_of_enrolled, role_of_enrolled.
      rewrite (lookup_ge_None_2 (active (plist d))) by (rewrite active_length by done; lia).
      split_and!; try done.
      * cbn. rewrite sub_eq_copy_field. apply strncmp_eq_refl.
      * intros j Hj. destruct (decide (j < pb_count (plist d))).
        -- by rewrite lookup_app_l by (by rewrite active_length).
        -- rewrite !lookup_ge_None_2; [done|rewrite active_length by done; lia|].
           rewrite length_app, active_length by done. cbn. lia.
    + rewrite add_full_run by (done || lia). cbn [fst snd]. split; [by apply unclaim_ok|by left].
Qed.

(** With working flash, enrolling fails only for a new account on a full
    list. *)
Theorem add_succeeds d sub email key at_ :
  NvsReliable P -> list_ok (plist d) -> sub <> [] ->
  (fst (eval (paired_list_add sub email key at_) d) < 0)%Z <->
  (find_locked (plist d) sub < 0)%Z /\ PAIRED_LIST_MAX <= pb_count (plist d).
Proof.
  intros NR Hl Hs. unfold eval. split.
  - intros H. destruct (decide (0 <= find_locked (plist d) sub)%Z) as [Hf|Hf].
    + exfalso. destruct (find_locked_Some (plist d) sub Hf) as (e & He & _). destruct (Z_of_nat_complete _ Hf) as [i Hfi].
      rewrite Hfi, Nat2Z.id in *. pose proof (lookup_lt_Some _ _ _ He) as Hi. rewrite active_length in Hi by done.
      rewrite active_lookup in He by done.
      destruct (add_known_run d sub email key at_ e i Hs Hfi He) as (err & w & Hst & E). rewrite E in H.
      destruct (nvs_store_ok (set_plist (add_known sub email at_ i (plist d)) d)) as (w' & E').
      assert (err = ESP_OK) as -> by congruence. cbn in H. lia.
    + split; [lia|]. destruct (decide (pb_count (plist d) < PAIRED_LIST_MAX)) as [Hlt|]; [|lia]. exfalso.
      destruct (add_new_run d sub email key at_ Hs Hl ltac:(lia) Hlt) as (err & w & Hst & E). rewrite E in H.
      destruct (nvs_store_ok (set_plist (add_new sub email key at_ (plist d)) d)) as (w' & E').
      assert (err = ESP_OK) as -> by congruence. cbn in H. lia.
  - intros [Hf Hc]. by rewrite add_full_run.
Qed.

End Enroll.

(** ** On a concrete device *)

Definition twice : paired_blob_t :=
  set_pb_entries (<[1 := pb_entries two_accounts !!! 0]> (pb_entries two_accounts)) two_accounts.

Lemma dedupe_keeps_first_witness :
  distinct_subs (active (plist (exec dedupe_accounts_locked (set_plist twice blank)))).
Proof.
  destruct (dedupe_keeps_first (set_plist twice blank)) as (_ & H & _).
  - vm_compute. reflexivity.
  - apply (bool_decide_unpack _). vm_compute. exact I.
  - exact H.
Defined.

Lemma two_accounts_fit : Forall entry_fits (active two_accounts).
Proof.
  assert (active two_accounts = [pb_entries two_accounts !!! 0; pb_entries two_accounts !!! 1]) as -> by (vm_compute; reflexivity).
  pose proof (ok_entries _ (proj1 two_accounts_ok)) as H.
  assert (active two_accounts = [pb_entries two_accounts !!! 0; pb_entries two_accounts !!! 1]) as E by (vm_compute; reflexivity).
  rewrite E in H. inversion H as [|? ? H1 H2]; subst. inversion H2; subst.
  repeat constructor; try done; try apply H1; try apply H4; try (vm_compute; discriminate); vm_compute; reflexivity.
Qed.

Lemma reboot_restores_list_witness :
  plist (exec paired_list_init (set_world (world (exec nvs_store sim_home)) blank)) = plist sim_home.
Proof.
  apply (reboot_restores_list sim_home).
  - apply two_accounts_ok.
  - exact two_accounts_fit.
  - apply (bool_decide_unpack _). vm_compute. exact I.
  - unfold exec. destruct (nvs_store_ok sim_home) as (w & E). rewrite E. reflexivity.
Defined.

Lemma add_outcome_witness :
  exists i, fst (eval (paired_list_add (str "carol") (str "c@x") (replicate 32 6%Z) 0) sim_home) = Z.of_nat i.
Proof.
  destruct (add_outcome sim_home (str "carol") (str "c@x") (replicate 32 6%Z) 0) as (_ & [(H & _)|(i & e & H & _)]).
  - apply two_accounts_ok.
  - discriminate.
  - vm_compute. discriminate.
  - vm_compute. reflexivity.
  - exfalso. vm_compute in H. discriminate.
  - exists i. exact H.
Defined.

Lemma add_succeeds_witness :
  ~ (fst (eval (paired_list_add (str "carol") (str "c@x") (replicate 32 6%Z) 0) sim_home) < 0)%Z.
Proof.
  intros H. apply (add_succeeds sim_home (str "carol") (str "c@x") (replicate 32 6%Z) 0 _) in H.
  - destruct H as [_ H]. apply (bool_decide_pack _) in H. vm_compute in H. exact H.
  - apply two_accounts_ok.
  - discriminate.
Defined.
