(* ===== verification/QueueProps.v ===== *)
(** * QueueProps: what is queued arrives, in order

    The persistent queue of pairing events, the byte FIFO of outgoing lines,
    and the way from a reply to the socket it is for. *)

From S2P Require Import Prelude Platform State LocalSession Mdns EncFrame PairingEvents AccessPolicy.
From S2P Require Import ResponseFifo ClientList Invariant System SimPlatform SimDevices.
From stdpp Require Import base list sets strings numbers.
From Stdlib Require Import ZArith Lia.

Local Open Scope cything_scope.

Section Queues.
Context {P : Platform} {C : Config}.

(** The time stamp of an event. *)
Definition stamp (w : World) : Z := let t := time_now w in if bool_decide (1600000000 < t)%Z then u32 t else 0%Z.

Lemma stamp_range w : (0 <= stamp w < 2 ^ 32)%Z.
Proof. unfold stamp. case_bool_decide; [|lia]. unfold wrap. apply Z.mod_pos_bound. lia. Qed.

Lemma event_push_run event user_sub role d :
  exists w, exec (pairing_events_push event user_sub role) d
  = set_world w (set_evq (push_row (event_json event user_sub role (stamp (world d))) (evq d)) d).
Proof.
  unfold pairing_events_push. rewrite exec_bind. cbv zeta. rewrite exec_bind.
  lazymatch goal with |- context [exec PairingEvents.nvs_store ?x] => destruct (PairingEvents.nvs_store_frame x) as (w & ->) end.
  by exists w.
Qed.

(** an event is appended whole, as the JSON text of its fields, to the queue
    that survives reboots; a full queue gives up its oldest event, and only
    that one. *)
Theorem event_push_appends event user_sub role d :
  queue_ok (evq d) ->
  let d' := exec (pairing_events_push event user_sub role) d in
  queue_ok (evq d') /\
  events (evq d')
  = (if bool_decide (PAIRING_EVENTS_MAX <= q_count (evq d)) then tail (events (evq d)) else events (evq d))
    ++ [event_json event user_sub role (stamp (world d))].
Proof.
  intros Hq d'. destruct (event_push_run event user_sub role d) as (w & E). unfold d'. rewrite E.
  pose proof (stamp_range (world d)). apply push_row_ok; [done|by apply event_json_length|apply event_json_nonzero; lia].
Qed.

Lemma events_head q : queue_ok q -> 0 < q_count q -> head (events q) = Some (cstr (default [] (q_json q !! 0))).
Proof.
  intros (Hl & Hc & _) Hp. unfold events. destruct (q_json q) as [|r rows]; [done|].
  by destruct (q_count q) as [|n]; [lia|].
Qed.

(** peek answers the oldest event and leaves the queue as it is; pop takes
    exactly that one off. *)
Theorem event_pop_takes_oldest d e rest :
  queue_ok (evq d) -> events (evq d) = e :: rest ->
  pairing_events_peek PAIRING_EVENT_JSON_MAX d = (Some (take (PAIRING_EVENT_JSON_MAX - 1) e), d) /\
  let d' := exec pairing_events_pop d in
  queue_ok (evq d') /\ events (evq d') = rest.
Proof.
  intros Hq He. assert (0 < q_count (evq d)) as Hp.
  { apply (f_equal length) in He. unfold events in He. rewrite length_fmap, length_take in He. cbn in He. lia. }
  split.
  - unfold pairing_events_peek, gets. rewrite bool_decide_eq_true_2 by done.
    pose proof (events_head _ Hq Hp) as Hh. rewrite He in Hh. injection Hh as ->. done.
  - unfold pairing_events_pop. rewrite exec_bind, eval_gets, exec_gets, bool_decide_eq_true_2 by done.
    rewrite exec_bind.
    lazymatch goal with |- context [exec PairingEvents.nvs_store ?x] => destruct (PairingEvents.nvs_store_frame x) as (w & ->) end.
    destruct (pop_row_ok (evq d) Hq Hp) as [H1 H2]. split; [done|]. change (events (pop_row (evq d)) = rest). by rewrite H2, He.
Qed.

(** the account name in an event reads back as the account it was written
    for, whatever characters it holds, as long as it is an account name the
    device enrolls (at most 40 bytes). *)
Theorem event_sub_round_trip user_sub :
  length (cstr user_sub) <= PAIRED_SUB_MAX -> json_unescape (json_escape user_sub 81) = cstr user_sub.
Proof. intros H. apply json_unescape_escape_from. unfold PAIRED_SUB_MAX in H. lia. Qed.

(** a push puts exactly the line, ended by one newline, behind what is
    queued; on a full FIFO it is refused and nothing changes, or (with the
    overwrite policy) whole lines are given up from the front, never part of
    one. The FIFO's array keeps its size and its free part is zero. *)
Theorem fifo_push_appends data f :
  fifo_ok f ->
  let '(ok, f') := response_fifo_push data f in
  fifo_ok f' /\
  (if ok then exists k, contents f' = drop k (contents f) ++ stored data /\
       (f_len f + length (stored data) <= RESPONSE_FIFO_SIZE -> k = 0) /\
       (k = length (contents f) \/ whole_lines (take k (contents f)))
   else f' = f /\ RESPONSE_FIFO_SIZE < f_len f + length (stored data)).
Proof.
  intros Hf. pose proof (push_spec data f Hf) as H. cbv zeta in H.
  destruct (response_fifo_push data f) as [ok f'] eqn:E. destruct H as (H1 & Hok & H2). split; [done|].
  destruct ok.
  - destruct H2 as (k & Hk & _ & Hfit & Hw). exists k. split_and!; [done| |done].
    intros Hle. apply Hfit. by apply bool_decide_eq_true_2.
  - symmetry in Hok. apply orb_false_iff in Hok as [Hok _]. apply bool_decide_eq_false in Hok. split; [|lia].
    revert E. unfold response_fifo_push. cbv zeta. repeat case_bool_decide; cbn; repeat case_match; congruence.
Qed.

(** ** The send task *)

Lemma drain_all f : fifo_ok f -> exists f', response_fifo_drain RESPONSE_FIFO_SIZE f = (contents f, f') /\
  fifo_ok f' /\ contents f' = [].
Proof.
  intros Hf. pose proof (drain_spec RESPONSE_FIFO_SIZE f Hf) as H. destruct (response_fifo_drain RESPONSE_FIFO_SIZE f) as [data f'].
  destruct H as (H1 & H2 & H3). destruct Hf as (Hl & Hn & _).
  assert (length (contents f) = f_len f) as Hc by (unfold contents; rewrite length_take; lia).
  assert (contents f' = []) as E.
  { apply length_zero_iff_nil. apply (f_equal length) in H2. rewrite length_app in H2. lia. }
  exists f'. rewrite E, app_nil_r in H2. rewrite H2. done.
Qed.

(** one turn of the send task empties the FIFO and routes its lines one by
    one, whole and in the order they were queued. *)
Theorem send_task_routes_lines ls d :
  fifo_ok (tcp_fifo d) -> Forall (fun l => ~ NL ∈ l) ls ->
  contents (tcp_fifo d) = mjoin ((fun l => l ++ [NL]) <$> ls) ->
  exists f', fifo_ok f' /\ contents f' = [] /\
    exec tcp_response_send_step d = exec (for_each ((fun l => l ++ [NL]) <$> ls) route_line) (set_tcp_fifo f' d).
Proof.
  intros Hf Hls Hc. destruct (drain_all _ Hf) as (f' & E & H1 & H2). exists f'. split_and!; [done..|].
  unfold tcp_response_send_step. rewrite exec_bind. unfold exec at 2, eval at 1. rewrite E. cbn [fst snd].
  by rewrite Hc, lines_from_mjoin.
Qed.

Lemma lines_from_one l : ~ NL ∈ l -> lines_from [] (l ++ [NL]) = [l ++ [NL]].
Proof. intros H. pose proof (lines_from_mjoin [l] ltac:(by repeat constructor)) as E. cbn in E. by rewrite app_nil_r in E. Qed.

Lemma dec_no_newline z : ~ NL ∈ dec z.
Proof.
  assert (forall n, (0 <= n)%Z -> ~ NL ∈ dec_u n) as Hu.
  { intros n Hn Hin. pose proof (digits_all_digits (S (Z.to_nat (Z.log2 n))) n Hn) as HF.
    rewrite List.Forall_forall in HF. apply list_elem_of_In in Hin. specialize (HF _ Hin).
    unfold is_digit, NL in HF. bool_hyps. lia. }
  unfold dec. case_bool_decide; [|apply Hu; lia].
  intros Hin. apply elem_of_cons in Hin as [?|?]; [done|]. eapply Hu; [|done]. lia.
Qed.

(** The only line in the FIFO is routed by the next turn of the send task. *)
Lemma queued_line_routed line d :
  fifo_ok (tcp_fifo d) -> contents (tcp_fifo d) = [] -> ~ NL ∈ line -> length (line ++ [NL]) < RESPONSE_LINE_MAX ->
  exists f', fifo_ok f' /\ contents f' = [] /\
    exec tcp_response_send_step (exec (push_tcp_line (line ++ [NL])) d) = exec (route_line (line ++ [NL])) (set_tcp_fifo f' d).
Proof.
  intros Hf Hc Hno Hlen. set (d1 := exec (push_tcp_line (line ++ [NL])) d).
  assert (d1 = set_tcp_fifo (snd (response_fifo_push (line ++ [NL]) (tcp_fifo d))) d) as Ed1.
  { unfold d1, push_tcp_line, tcp_line. by rewrite bool_decide_eq_false_2 by lia. }
  assert (f_len (tcp_fifo d) = 0) as H0.
  { apply (f_equal length) in Hc. unfold contents in Hc. destruct Hf as (Hl & Hn & _).
    rewrite length_take in Hc. cbn in Hc. unfold RESPONSE_FIFO_SIZE in *. lia. }
  assert (stored (line ++ [NL]) = line ++ [NL]) as Hst by (unfold stored; by rewrite ends_nl_app).
  pose proof (push_spec (line ++ [NL]) (tcp_fifo d) Hf) as Hp. cbv zeta in Hp.
  destruct (response_fifo_push (line ++ [NL]) (tcp_fifo d)) as [ok f1]. cbn [snd] in Ed1. rewrite Hst, H0 in Hp.
  assert (length (line ++ [NL]) <= RESPONSE_FIFO_SIZE) as Hfit by (unfold RESPONSE_LINE_MAX, RESPONSE_FIFO_SIZE in *; lia).
  rewrite (bool_decide_eq_true_2 (0 + _ <= _)) in Hp by lia.
  destruct Hp as (Hf1 & -> & k & Hc1 & _). cbn [orb] in *. rewrite Hc, drop_nil in Hc1. cbn [app] in Hc1.
  destruct (drain_all f1 Hf1) as (f' & E & H1 & H2). exists f'. split_and!; [done..|].
  unfold tcp_response_send_step. rewrite exec_bind. unfold exec at 2, eval at 1. rewrite Ed1. cbn [tcp_fifo set_tcp_fifo].
  rewrite E. cbn [fst snd]. rewrite Hc1, lines_from_one by done. by destruct d.
Qed.

(** a reply queued for a socket reaches it as the text and a newline, in a
    frame if the socket holds a key, and reaches no other; a reply to a socket
    that is gone is dropped by the send task. *)
Theorem raw_reply_arrives sock text d :
  fifo_ok (tcp_fifo d) -> contents (tcp_fifo d) = [] -> ~ NL ∈ text ->
  sock <> RESPONSE_TARGET_ALL -> sock <> RESPONSE_TARGET_EVERYONE ->
  length (dec sock ++ [COLON] ++ text ++ [NL]) < RESPONSE_LINE_MAX ->
  exists f', fifo_ok f' /\ contents f' = [] /\
    exec tcp_response_send_step (exec (send_raw_to_client sock text) d)
    = (if is_client_connected sock d then exec (enc_frame_send sock (text ++ [NL])) (set_tcp_fifo f' d)
       else set_tcp_fifo f' d).
Proof.
  intros Hf Hc Hnl Ha He Hlen. set (line := dec sock ++ [COLON] ++ text).
  assert (dec sock ++ [COLON] ++ text ++ [NL] = line ++ [NL]) as Hline by (unfold line; by rewrite <- !app_assoc).
  assert (~ NL ∈ line) as Hno.
  { unfold line. rewrite !elem_of_app, list_elem_of_singleton. pose proof (dec_no_newline sock). naive_solver. }
  rewrite Hline in Hlen. destruct (queued_line_routed line d Hf Hc Hno Hlen) as (f' & H1 & H2 & E). exists f'. split_and!; [done..|].
  unfold send_raw_to_client. rewrite Hline, exec_bind, exec_ret, E. unfold route_line.
  rewrite <- Hline, parse_target_dec, !bool_decide_eq_false_2 by done. cbn [orb].
  rewrite exec_bind, eval_gets, exec_gets. by destruct d; cbn; destruct (is_client_connected _ _).
Qed.

(** ** Broadcasts *)

Lemma send_out dst payload d :
  exists evs, out (exec (enc_frame_send dst payload) d) = out d ++ evs /\ Forall (fun e => exists x, e = EvSend dst x) evs.
Proof.
  assert (forall d, (forall si, slot_for dst d = Some si -> session_keyed (sess si d) = false) ->
    exists evs, out (exec (enc_frame_send dst payload) d) = out d ++ evs /\ Forall (fun e => exists x, e = EvSend dst x) evs) as Hun.
  { intros d0 H. unfold exec. rewrite (send_unkeyed dst payload d0 H). cbn. exists [EvSend dst payload].
    split; [done|]. repeat constructor. by exists payload. }
  destruct (slot_for dst d) as [si|] eqn:Es; [|apply Hun; intros; congruence].
  destruct (session_keyed (sess si d)) eqn:Ek; [|apply Hun; intros; congruence].
  destruct (send_keyed dst payload d si Es Ek) as [[_ ->]|[_ [->|(fr & _ & ->)]]].
  - exists []. by rewrite app_nil_r.
  - exists []. cbn. by rewrite app_nil_r.
  - exists [EvSend dst fr]. cbn. split; [done|]. repeat constructor. by exists fr.
Qed.

Lemma sock_authenticated_run k d :
  access_policy_sock_authenticated k d
  = (match slot_for k d with Some si => authenticated (sess si d) | None => false end, d).
Proof.
  unfold access_policy_sock_authenticated, bind, gets, ret. rewrite find_run. fold (slot_for k d).
  by destruct (slot_for k d).
Qed.

(** Whether a socket is authenticated does not change when others are sent to. *)
Lemma same_core_authenticated k d d' :
  same_core d d' -> eval (access_policy_sock_authenticated k) d' = eval (access_policy_sock_authenticated k) d.
Proof.
  intros Hc. unfold eval. rewrite !sock_authenticated_run. cbn [fst].
  assert (slot_for k d' = slot_for k d) as -> by (unfold slot_for; by rewrite (same_core_slot_of k _ _ Hc)).
  destruct (slot_for k d) as [si|] eqn:Es; [|done]. destruct (slot_for_Some _ _ _ Es) as (s & Hs & Ess & _).
  destruct (same_core_lookup _ _ _ _ Hc Hs) as (s' & Hs' & _ & _ & [= E1 _ E3 _ _]).
  rewrite (sess_lookup _ _ _ Hs), (sess_lookup _ _ _ Hs'). unfold authenticated. by rewrite E1, E3.
Qed.

Lemma enc_send_frame dst payload d :
  accounts (exec (enc_frame_send dst payload) d) = accounts d /\ pw (exec (enc_frame_send dst payload) d) = pw d.
Proof.
  assert (forall d, (forall si, slot_for dst d = Some si -> session_keyed (sess si d) = false) ->
    accounts (exec (enc_frame_send dst payload) d) = accounts d /\ pw (exec (enc_frame_send dst payload) d) = pw d) as Hun.
  { intros d0 H. unfold exec. by rewrite (send_unkeyed dst payload d0 H). }
  destruct (slot_for dst d) as [si|] eqn:Es; [|apply Hun; intros; congruence].
  destruct (session_keyed (sess si d)) eqn:Ek; [|apply Hun; intros; congruence].
  by destruct (send_keyed dst payload d si Es Ek) as [[_ ->]|[_ [->|(fr & _ & ->)]]].
Qed.

Definition only_to_authenticated (d : Dev) (evs : list event) : Prop :=
  Forall (fun e => exists dst x, e = EvSend dst x /\ dst ∈ connected (accounts d) /\
                     eval (access_policy_sock_authenticated dst) d = true) evs.

Lemma broadcast_loop payload l d0 d :
  local_auth_enforce = true -> device_password_is_set d = true -> same_core d0 d ->
  (forall k, k ∈ l -> k ∈ connected (accounts d0)) ->
  exists evs, out (exec (for_each l (send_one RESPONSE_TARGET_ALL payload)) d) = out d ++ evs /\
    only_to_authenticated d0 evs.
Proof.
  intros He. revert d. induction l as [|k l IH]; intros d Hset Hc Hl.
  { exists []. rewrite app_nil_r. split; [done|constructor]. }
  change (exec (for_each (k :: l) ?f) d) with (exec (for_each l f) (exec (f k) d)).
  assert (exec (send_one RESPONSE_TARGET_ALL payload k) d
          = (if eval (access_policy_sock_authenticated k) d then exec (enc_frame_send k payload) d else d)) as ->.
  { unfold send_one. rewrite exec_bind, eval_gets, exec_gets, exec_bind, He, Hset.
    assert (exec (access_policy_sock_authenticated k) d = d) as -> by (unfold exec; by rewrite sock_authenticated_run).
    rewrite bool_decide_eq_true_2 by done. by destruct (eval (access_policy_sock_authenticated k) d). }
  destruct (eval (access_policy_sock_authenticated k) d) eqn:Ea.
  - destruct (send_out k payload d) as (e1 & E1 & F1). destruct (enc_send_frame k payload d) as [_ Hpw].
    pose proof (calm_enc_frame_send k payload d) as Hc1. set (d1 := exec (enc_frame_send k payload) d) in *.
    destruct (IH d1) as (e2 & E2 & F2).
    + unfold device_password_is_set in *. by rewrite Hpw.
    + by eapply same_core_trans.
    + intros j Hj. apply Hl. by right.
    + exists (e1 ++ e2). rewrite E2, E1, app_assoc. split; [done|]. apply Forall_app. split; [|done].
      eapply List.Forall_impl; [|exact F1]. intros e (x & ->). exists k, x. split_and!; [done|apply Hl; by left|].
      by rewrite <- (same_core_authenticated k _ _ Hc).
  - apply IH; [done..|]. intros j Hj. apply Hl. by right.
Qed.

(** while the device has a password, a broadcast for paired phones is sent
    to connected sockets whose session is authenticated, and to no other. *)
Theorem broadcast_only_to_authenticated payload d :
  local_auth_enforce = true -> device_password_is_set d = true ->
  exists evs, out (exec (route_line (dec RESPONSE_TARGET_ALL ++ [COLON] ++ payload)) d) = out d ++ evs /\
    only_to_authenticated d evs.
Proof.
  intros He Hset. unfold route_line. rewrite parse_target_dec, bool_decide_eq_true_2 by done. cbn [orb].
  rewrite exec_bind, eval_gets, exec_gets. by apply broadcast_loop; [..|apply same_core_refl|].
Qed.

(** Response ids count up from 11 to 254 and start again at 10, so they are
    never 0..9 or 255, and two calls in a row never get the same. *)
Theorem response_ids_cycle d :
  (10 <= response_id d <= 254)%Z ->
  let id := eval update_response_id d in
  (10 <= id <= 254)%Z /\ exec update_response_id d = set_response_id id d /\ id <> response_id d /\
  id = (if bool_decide (response_id d = 254) then 10 else response_id d + 1)%Z.
Proof. apply update_response_id_range. Qed.

(** The registry of connected sockets is a bounded list: a socket is added
    at its end unless the list is full, and removing one takes it out and keeps
    the others. *)
Theorem registry_is_a_list sock d :
  accounts_ok (accounts d) -> NoDup (connected (accounts d)) ->
  (let d1 := exec (add_account sock) d in
   if eval (add_account sock) d
   then accounts_ok (accounts d1) /\ connected (accounts d1) = connected (accounts d) ++ [sock]
   else d1 = d /\ ac_size (accounts d) = ACCOUNT_MAX) /\
  (let a := accounts (exec (remove_account sock) d) in
   accounts_ok a /\ NoDup (connected a) /\
   forall s, s ∈ connected a <-> s ∈ connected (accounts d) /\ s <> sock).
Proof. intros H1 H2. split; [by apply add_account_spec|by apply remove_account_spec]. Qed.

End Queues.

(** ** On a concrete device *)

Definition full_events : queue_t :=
  Build_queue 8 (replicate PAIRING_EVENTS_MAX (row_write (zeros PAIRING_EVENT_JSON_MAX) (str "{}"))).

Lemma full_events_ok : queue_ok full_events.
Proof. split; [reflexivity|split; [apply (bool_decide_unpack _); vm_compute; exact I|]]. apply Forall_replicate. reflexivity. Qed.

Lemma event_push_appends_witness :
  queue_ok (evq (exec (pairing_events_push (str "paired") (str "alice") (str "owner")) (set_evq full_events blank))).
Proof. exact (proj1 (event_push_appends (str "paired") (str "alice") (str "owner") (set_evq full_events blank) full_events_ok)). Defined.

Lemma event_pop_takes_oldest_witness :
  events (evq (exec pairing_events_pop (set_evq full_events blank))) = replicate 7 (str "{}").
Proof.
  apply (event_pop_takes_oldest (set_evq full_events blank) (str "{}") (replicate 7 (str "{}"))).
  - apply full_events_ok.
  - vm_compute. reflexivity.
Defined.

Lemma event_sub_round_trip_witness : json_unescape (json_escape (str "a\b") 81) = str "a\b".
Proof. apply (event_sub_round_trip (str "a\b")). apply (bool_decide_unpack _). vm_compute. exact I. Defined.

Lemma empty_fifo_ok : fifo_ok (tcp_fifo blank).
Proof. apply fifo_init_ok. Qed.

Lemma fifo_push_appends_witness : fifo_ok (snd (response_fifo_push (str "ACK") (tcp_fifo blank))).
Proof.
  pose proof (fifo_push_appends (str "ACK") (tcp_fifo blank) empty_fifo_ok) as H.
  destruct (response_fifo_push (str "ACK") (tcp_fifo blank)) as [ok f']. exact (proj1 H).
Defined.

Lemma send_task_routes_lines_witness :
  exists f', fifo_ok f' /\ contents f' = [] /\ exec tcp_response_send_step blank = set_tcp_fifo f' blank.
Proof.
  apply (send_task_routes_lines [] blank).
  - apply empty_fifo_ok.
  - constructor.
  - vm_compute. reflexivity.
Defined.

(** Socket 54 is connected and holds no key. *)
Definition wit_connected : Dev := exec (add_account 54) blank.

Lemma raw_reply_arrives_witness :
  exists f', fifo_ok f' /\ contents f' = [] /\
    exec tcp_response_send_step (exec (send_raw_to_client 54 (str "ACK")) wit_connected)
    = exec (enc_frame_send 54 (str "ACK" ++ [NL])) (set_tcp_fifo f' wit_connected).
Proof.
  destruct (raw_reply_arrives 54 (str "ACK") wit_connected) as (f' & H1 & H2 & H3).
  - apply empty_fifo_ok.
  - vm_compute. reflexivity.
  - apply (bool_decide_unpack _). vm_compute. exact I.
  - discriminate.
  - discriminate.
  - apply (bool_decide_unpack _). vm_compute. exact I.
  - exists f'. split; [exact H1|split; [exact H2|]]. exact H3.
Defined.

(** One authenticated and one anonymous socket on a device with a password. *)
Definition wit_party : Dev :=
  exec (add_account 55) (exec (add_account 54)
    (set_pw (Build_pw (str "saltsaltsaltsalt") (str "v") [] [] (replicate IP_SLOTS null_ip_slot) 0 0) sim_home)).

Lemma broadcast_only_to_authenticated_witness :
  exists evs, out (exec (route_line (dec RESPONSE_TARGET_ALL ++ [COLON] ++ str "11:on" ++ [NL])) wit_party) = out wit_party ++ evs /\
    only_to_authenticated wit_party evs.
Proof. apply broadcast_only_to_authenticated; vm_compute; reflexivity. Defined.

Lemma response_ids_cycle_witness : eval update_response_id (set_response_id 254 blank) = 10%Z.
Proof.
  destruct (response_ids_cycle (set_response_id 254 blank)) as (_ & _ & _ & H).
  - split; discriminate.
  - exact H.
Defined.

Lemma registry_is_a_list_witness : 54%Z ∈ connected (accounts wit_connected) /\
  ~ 54%Z ∈ connected (accounts (exec (remove_account 54) wit_connected)).
Proof.
  destruct (registry_is_a_list 54 wit_connected) as [_ (_ & _ & H)].
  - split; [vm_compute; reflexivity|]. apply (bool_decide_unpack _). vm_compute. exact I.
  - apply (bool_decide_unpack _). vm_compute. exact I.
  - split; [apply (bool_decide_unpack _); vm_compute; exact I|]. intros Hin. apply H in Hin. destruct Hin as [_ Hn]. apply Hn. reflexivity.
Defined.
