(* ===== verification/BroadcastProps.v ===== *)
(** * BroadcastProps: what a broadcast puts on the wire

    From [send_data_to_clients] through the FIFO, the send task and the
    encrypted link: what each connected socket is sent, in order: a frame under
    its own session's key, the line in the clear, or nothing. *)

From S2P Require Import Prelude Platform State LocalSession Mdns EncFrame PairingEvents AccessPolicy.
From S2P Require Import ResponseFifo ClientList Invariant System LoginProps QueueProps SimPlatform SimDevices.
From stdpp Require Import base list sets strings numbers.
From Stdlib Require Import ZArith Lia.

Local Open Scope cything_scope.

Section Broadcast.
Context {P : Platform} {C : Config} {GL : GcmLaws P}.




















End Broadcast.

(** ** On a concrete device *)

