(* ===== verification/FifoProps.v ===== *)
(** * FifoProps: the response FIFO is a queue of lines

    [common/response_fifo.c] is an array of bytes with a fill level. What its
    users rely on is a queue of lines with bounded total size, which under the
    overwrite policy gives up just as many of its oldest lines as a new one
    needs. The array is shown to refine that queue, for every sequence of pushes
    and of turns of the send task. *)

From S2P Require Import Prelude Platform State ResponseFifo ClientList SimPlatform SimDevices.
From Stdlib Require Import ZArith Lia.
From stdpp Require Import base list sets strings numbers.

Local Open Scope cything_scope.

Section Fifo.
Context {P : Platform} {C : Config}.

(** ** The queue *)

(** Lines are kept without their newline. *)
Definition text (q : list bytes) : bytes := mjoin ((fun l => l ++ [NL]) <$> q).

Fixpoint split_lines (l : bytes) : list bytes :=
  match l with
  | [] => []
  | c :: l' => if bool_decide (c = NL) then [] :: split_lines l'
               else match split_lines l' with [] => [[c]] | x :: r => (c :: x) :: r end
  end.

(** The newest lines that leave room for [need] bytes. *)
Fixpoint make_room (need : nat) (q : list bytes) : list bytes :=
  match q with
  | [] => []
  | _ :: r => if bool_decide (RESPONSE_FIFO_SIZE < length (text q) + need) then make_room need r else q
  end.

Inductive fifo_op := Push (data : bytes) | Drain.

(** What the caller of a push is told, and the lines the send task goes through. *)
Inductive fifo_answer := Pushed (ok : bool) | Drained (lines : list bytes).

Definition queue_step (q : list bytes) (op : fifo_op) : fifo_answer * list bytes :=
  match op with
  | Push data =>
      let ls := split_lines (stored data) in
      let need := length (text ls) in
      if bool_decide (RESPONSE_FIFO_SIZE < need) then (Pushed false, q)
      else if bool_decide (length (text q) + need <= RESPONSE_FIFO_SIZE) then (Pushed true, q ++ ls)
      else if response_fifo_overwrite_oldest then (Pushed true, make_room need q ++ ls)
      else (Pushed false, q)
  | Drain => (Drained ((fun l => l ++ [NL]) <$> q), [])
  end.

(** The FIFO and the first half of [tcp_response_send_step]. *)
Definition fifo_step (f : response_fifo_t) (op : fifo_op) : fifo_answer * response_fifo_t :=
  match op with
  | Push data => let '(ok, f') := response_fifo_push data f in (Pushed ok, f')
  | Drain => let '(data, f') := response_fifo_drain RESPONSE_FIFO_SIZE f in (Drained (lines_from [] data), f')
  end.

Fixpoint answers {S} (step : S -> fifo_op -> fifo_answer * S) (s : S) (ops : list fifo_op) : list fifo_answer :=
  match ops with
  | [] => []
  | op :: ops => let '(a, s') := step s op in a :: answers step s' ops
  end.

(** ** Lines and their text *)

Lemma text_app q r : text (q ++ r) = text q ++ text r.
Proof. unfold text. by rewrite fmap_app, join_app. Qed.

Lemma text_cons l q : text (l :: q) = l ++ NL :: text q.
Proof. unfold text. cbn. by rewrite <- (assoc_L (++)). Qed.

Lemma ends_nl_cons c l : l <> [] -> ends_nl (c :: l) = ends_nl l.
Proof.
  intros Hl. unfold ends_nl. cbn [rev]. destruct (rev l) as [|x r] eqn:E; [|done].
  apply (f_equal (@rev Z)) in E. rewrite rev_involutive in E. by subst.
Qed.

Lemma split_lines_text l : l = [] \/ ends_nl l = true -> text (split_lines l) = l.
Proof.
  induction l as [|c l IH]; [done|]. intros [|He]; [done|]. cbn [split_lines]. destruct (decide (l = [])) as [->|Hl].
  - unfold ends_nl in He. cbn in He. apply bool_decide_eq_true_1 in He. subst c. by rewrite bool_decide_eq_true_2.
  - rewrite ends_nl_cons in He by done. specialize (IH (or_intror He)). case_bool_decide as Hc.
    + subst c. rewrite text_cons. cbn. by rewrite IH.
    + destruct (split_lines l) as [|x r]; [by cbn in IH; subst|]. rewrite text_cons in IH |- *. cbn. by rewrite IH.
Qed.

Lemma split_lines_clean l : Forall (fun x => ~ NL ∈ x) (split_lines l).
Proof.
  induction l as [|c l IH]; [constructor|]. cbn [split_lines]. case_bool_decide as Hc.
  - constructor; [set_solver|done].
  - destruct (split_lines l) as [|x r]; [constructor; [set_solver|constructor]|].
    apply list.Forall_cons in IH as [Hx Hr]. constructor; [set_solver|done].
Qed.

Lemma split_stored data : text (split_lines (stored data)) = stored data.
Proof. apply split_lines_text. right. apply stored_ends. Qed.

(** ** Making room *)

Lemma make_room_suffix need q : exists p, q = p ++ make_room need q.
Proof.
  induction q as [|l q [p IH]]; [by exists []|]. cbn [make_room]. case_bool_decide; [|by exists []].
  exists (l :: p). cbn. by rewrite <- IH.
Qed.

Lemma make_room_fits need q : need <= RESPONSE_FIFO_SIZE -> length (text (make_room need q)) + need <= RESPONSE_FIFO_SIZE.
Proof.
  intros Hn. induction q as [|l q IH]; [done|]. cbn [make_room]. case_bool_decide; [done|lia].
Qed.

(** What a FIFO holds. *)
Definition holds_lines (f : response_fifo_t) (q : list bytes) : Prop :=
  fifo_ok f /\ Forall (fun l => ~ NL ∈ l) q /\ contents f = text q.

Lemma contents_length f : fifo_ok f -> length (contents f) = f_len f.
Proof. intros (Hl & Hn & _). unfold contents. rewrite length_take. lia. Qed.

(** The discard loop stops at the first line that may stay. *)
Lemma discard_make_room fuel need f pre q :
  holds_lines f (pre ++ q) -> length q <= fuel ->
  drop (discard_loop fuel (length (text pre)) need f) (contents f) = text (make_room need q).
Proof.
  revert pre q. induction fuel as [|fuel IH]; intros pre q (Hf & Hc & Ht) Hq; cbn [discard_loop].
  { destruct q; [|cbn in Hq; lia]. cbn. rewrite Ht, app_nil_r. by rewrite drop_all. }
  pose proof (contents_length _ Hf) as Hl. rewrite Ht, text_app, length_app in Hl.
  destruct q as [|l q].
  { cbn [length text] in Hl. cbn in Hl. rewrite (bool_decide_eq_false_2 (_ < f_len f)) by lia. rewrite andb_false_r. cbn.
    by rewrite Ht, app_nil_r, drop_all. }
  assert (f_len f - length (text pre) = length (text (l :: q))) as -> by lia.
  assert (take (length (text (l :: q))) (drop (length (text pre)) (f_buf f)) = text (l :: q)) as Ep.
  { assert (drop (length (text pre)) (contents f) = text (l :: q)) as E by by rewrite Ht, text_app, drop_app_length.
    rewrite <- E at 2. unfold contents. rewrite take_drop_commute. do 2 f_equal. lia. }
  rewrite Ep. assert (split_at NL (text (l :: q)) = Some (l, text q)) as ->.
  { rewrite text_cons. apply split_at_app. apply list.Forall_app in Hc as [_ Hc]. by apply list.Forall_cons in Hc as [? _]. }
  assert (length (text (l :: q)) = length l + 1 + length (text q)) as El by (rewrite text_cons, length_app; cbn; lia).
  rewrite (bool_decide_eq_true_2 (_ < f_len f)) by lia. rewrite andb_true_r.
  cbn [make_room]. destruct (bool_decide (RESPONSE_FIFO_SIZE - length (text (l :: q)) < need)) eqn:Eb; bool_hyps.
  - rewrite (bool_decide_eq_true_2 (RESPONSE_FIFO_SIZE < _)) by lia.
    replace (length (text pre) + length l + 1) with (length (text (pre ++ [l]))) by (rewrite text_app, length_app; cbn; rewrite app_nil_r, length_app; cbn; lia).
    apply IH; [|cbn in Hq; lia]. rewrite <- (assoc_L (++)). by split_and!.
  - destruct Hf as (_ & Hn & _). rewrite (bool_decide_eq_false_2 (RESPONSE_FIFO_SIZE < _)) by lia.
    by rewrite Ht, text_app, drop_app_length.
Qed.

(** ** Each operation *)

Lemma text_ends q : text q = [] \/ ends_nl (text q) = true.
Proof.
  destruct q as [|l q _] using rev_ind; [by left|]. right. rewrite text_app, text_cons. cbn.
  rewrite (assoc_L (++)). apply ends_nl_app.
Qed.

Lemma lines_from_text q : Forall (fun l => ~ NL ∈ l) q -> lines_from [] (text q) = (fun l => l ++ [NL]) <$> q.
Proof. apply lines_from_mjoin. Qed.

Lemma length_le_text q : length q <= length (text q).
Proof. induction q as [|l q IH]; [done|]. rewrite text_cons, length_app. cbn. lia. Qed.

(** Storing what fits. *)
Lemma store_lines f q data :
  holds_lines f q -> length (text q) + length (stored data) <= RESPONSE_FIFO_SIZE ->
  holds_lines (if negb (ends_nl data)
               then Build_fifo (blit (f_len f + length data) [NL] (blit (f_len f) data (f_buf f))) (S (f_len f + length data)) true
               else Build_fifo (blit (f_len f) data (f_buf f)) (f_len f + length data) true)
    (q ++ split_lines (stored data)).
Proof.
  intros (Hf & Hc & Ht) Hl. pose proof (contents_length _ Hf) as Hn. rewrite Ht in Hn.
  destruct (store_ok f data Hf) as [H1 H2]; [lia|]. split; [exact H1|]. split.
  - apply list.Forall_app. split; [done|apply split_lines_clean].
  - rewrite H2, Ht, text_app. by rewrite split_stored.
Qed.

Lemma fifo_step_refines f q op :
  holds_lines f q -> let '(a, f') := fifo_step f op in let '(b, q') := queue_step q op in a = b /\ holds_lines f' q'.
Proof.
  intros H. pose proof H as (Hf & Hc & Ht). pose proof (contents_length _ Hf) as Hn. rewrite Ht in Hn.
  pose proof Hf as (Hb & Hm & _). destruct op as [data|]; cbn [fifo_step queue_step].
  - rewrite split_stored. unfold response_fifo_push.
    assert (length data + (if negb (ends_nl data) then 1 else 0) = length (stored data)) as ->
      by (rewrite length_stored; by destruct (ends_nl data)).
    destruct (bool_decide (RESPONSE_FIFO_SIZE < length (stored data))) eqn:E1; bool_hyps; [done|].
    rewrite <- Hn. destruct (decide (f_len f + length (stored data) <= RESPONSE_FIFO_SIZE)) as [Hfit|Hfull].
    + rewrite (bool_decide_eq_true_2 (_ + _ <= _)) by lia. rewrite Hn. rewrite (bool_decide_eq_false_2 (_ < _ + _)) by lia. cbn [andb].
      pose proof (store_lines f q data H ltac:(lia)) as Hs. destruct (ends_nl data); cbn [negb] in *; done.
    + rewrite (bool_decide_eq_false_2 (_ + _ <= _)) by lia. rewrite (bool_decide_eq_true_2 (_ < _ + _)) by lia. cbn [andb].
      destruct response_fifo_overwrite_oldest; cbn [negb]; [|done].
      pose proof (discard_make_room (f_len f) (length (stored data)) f [] q H ltac:(pose proof (length_le_text q); lia)) as Hd.
      destruct (discard_loop_spec (f_len f) 0 (length (stored data)) f) as (R1 & R2 & _); [lia..|]. cbn [text length] in Hd.
      unfold discard_oldest. change (length (text [])) with 0 in Hd. set (k := discard_loop (f_len f) 0 _ f) in *.
      rewrite (bool_decide_eq_true_2 (0 < k)) by lia. destruct (drop_head_ok f k Hf) as [H1 H2]; [lia|].
      assert (holds_lines (drop_head k f) (make_room (length (stored data)) q)) as Hk.
      { split; [done|]. split; [|by rewrite H2]. destruct (make_room_suffix (length (stored data)) q) as (p & Ep).
        rewrite Ep in Hc. by apply list.Forall_app in Hc as [_ Hc]. }
      pose proof (store_lines _ _ data Hk ltac:(pose proof (make_room_fits (length (stored data)) q); lia)) as Hs.
      destruct (ends_nl data); cbn [negb] in *; done.
  - pose proof (drain_spec RESPONSE_FIFO_SIZE f Hf) as Hd. destruct (response_fifo_drain RESPONSE_FIFO_SIZE f) as [data f'].
    destruct Hd as (H1 & H2 & H3). rewrite Ht in H2.
    assert (contents f' = []) as E by (apply length_zero_iff_nil; apply (f_equal length) in H2; rewrite length_app in H2; lia).
    rewrite E, app_nil_r in H2. rewrite <- H2, lines_from_text by done. split; [done|]. split; [done|]. by split; [constructor|].
Qed.

(** C33: The FIFO refines the queue of lines. Whatever is pushed, and whenever the
    send task drains it, callers are told the same and the task goes through the
    same lines as over a queue that holds at most 5 KiB of whole lines: no
    line is torn or reordered, none is lost on a FIFO that has room, a line that
    could never fit is refused, and a full FIFO refuses the new line or, with the
    overwrite policy, gives up its oldest lines, not one more than needed. *)
Theorem fifo_refines_line_queue ops : answers fifo_step response_fifo_init ops = answers queue_step [] ops.
Proof.
  assert (holds_lines response_fifo_init []) as H by (destruct fifo_init_ok as [H1 H2]; split; [done|]; split; [constructor|done]).
  revert H. generalize response_fifo_init as f, (@nil bytes) as q. induction ops as [|op ops IH]; intros f q H; [done|].
  cbn [answers]. pose proof (fifo_step_refines f q op H) as Hs. destruct (fifo_step f op) as [a f'], (queue_step q op) as [b q'].
  destruct Hs as [-> Hs]. f_equal. by apply IH.
Qed.

End Fifo.
