(* ===== verification/ChainProps.v ===== *)
(** * ChainProps: the order of the dispatch chain

    Each handler of [tcp_dispatch_line] looks for words of its own at the start
    of the line. When no word of one is the beginning of a word of another, at
    most one handler has anything to do with a line, and the chain may be in any
    order; the shipped configuration is such a one. *)

From S2P Require Import Prelude Platform Radio State LocalSession Mdns EncFrame PairedList PairingEvents.
From S2P Require Import DevicePassword Discovery AccessPolicy PakeHandler LocalAuth OwnerCommands.
From S2P Require Import ResponseFifo ClientList Flash WifiPairing Provisioning TcpServer Application DeviceConfig.
From S2P Require Import SimPlatform SimDevices.
From Stdlib Require Import ZArith Lia.
From stdpp Require Import base list strings numbers.

Local Open Scope cything_scope.

(** ** Words at the start of a line *)

(** Neither is the beginning of the other. *)
Definition apart (v w : bytes) : bool := negb (memcmp_eq v w) && negb (memcmp_eq w v).

Lemma apart_start buf v w : memcmp_eq buf v = true -> memcmp_eq buf w = true -> apart v w = false.
Proof.
  unfold memcmp_eq, apart. intros Hv%bool_decide_eq_true_1 Hw%bool_decide_eq_true_1. apply andb_false_iff.
  destruct (decide (length v <= length w)) as [H|H]; [right|left]; apply negb_false_iff, bool_decide_eq_true_2.
  - rewrite <- Hw, take_take, Nat.min_l by done. exact Hv.
  - rewrite <- Hv, take_take, Nat.min_l by lia. exact Hw.
Qed.

Section Chain.
Context {P : Platform} {C : Config}.

(** A handler, and the words it looks for in the receive buffer. *)
Record handler := Build_handler {
  h_words : list bytes;
  h_run : bytes -> Z -> M bool;
}.

Definition starts (line : bytes) (h : handler) : bool := existsb (memcmp_eq (cbuf line)) (h_words h).

(** It leaves every other line alone. *)
Definition skips (h : handler) : Prop := forall line sock d, starts line h = false -> h_run h line sock d = (false, d).

Fixpoint chain (hs : list handler) (line : bytes) (sock : Z) : M unit :=
  match hs with
  | [] => let* _ := app_command line sock in ret tt
  | h :: hs => let* handled := h_run h line sock in if handled then ret tt else chain hs line sock
  end.

(** The policy, the chain, the application. *)
Definition dispatch_with (hs : list handler) (line : bytes) (sock : Z) : M unit :=
  let* ok := access_policy_allow line sock in
  if negb ok then ret tt else chain hs line sock.

Lemma chain_skip h hs line sock d : skips h -> starts line h = false -> chain (h :: hs) line sock d = chain hs line sock d.
Proof. intros Hk Hs. cbn. unfold bind. by rewrite Hk. Qed.

Lemma chain_cons h hs hs' line sock d :
  (forall d, chain hs line sock d = chain hs' line sock d) -> chain (h :: hs) line sock d = chain (h :: hs') line sock d.
Proof. intros H. cbn. unfold bind. destruct (h_run h line sock d) as [[] d1]; [done|apply H]. Qed.

Lemma chain_perm hs hs' line sock :
  hs ≡ₚ hs' -> Forall skips hs -> length (filter (fun h => starts line h = true) hs) <= 1 ->
  forall d, chain hs line sock d = chain hs' line sock d.
Proof.
  induction 1 as [|h hs hs' _ IH|x y hs|hs hs2 hs3 E1 IH1 E2 IH2]; intros Hk Hc d; [done|..].
  - apply chain_cons, IH; [by inversion Hk|]. rewrite list.filter_cons in Hc. destruct (decide _); cbn in Hc; lia.
  - inversion Hk as [|? ? Hx Hk']; subst. inversion Hk' as [|? ? Hy _]; subst.
    destruct (starts line x) eqn:Ex; [destruct (starts line y) eqn:Ey|].
    + rewrite !list.filter_cons, !decide_True in Hc by done. cbn in Hc. lia.
    + rewrite (chain_skip y) by done. apply chain_cons. intros d1. by rewrite chain_skip.
    + rewrite (chain_skip x (y :: hs)) by done. apply chain_cons. intros d1. by rewrite chain_skip.
  - rewrite IH1 by done. apply IH2; [by rewrite <- E1|by rewrite <- E1].
Qed.

(** Past all of them a line reaches the application. *)
Lemma chain_unclaimed hs line sock d :
  Forall skips hs -> existsb (starts line) hs = false -> exec (chain hs line sock) d = exec (app_command line sock) d.
Proof.
  induction hs as [|h hs IH]; intros Hk Hs; [cbn [chain]; by rewrite exec_bind|]. inversion Hk; subst. cbn [existsb] in Hs.
  apply orb_false_iff in Hs as [Hh Hs]. unfold exec. rewrite chain_skip by done. by apply IH.
Qed.

(** ** Disjoint words *)

Fixpoint disjoint_words (hs : list handler) : bool :=
  match hs with
  | [] => true
  | h :: hs => forallb (fun h' => forallb (fun v => forallb (apart v) (h_words h')) (h_words h)) hs && disjoint_words hs
  end.

Lemma at_most_one hs line : disjoint_words hs = true -> length (filter (fun h => starts line h = true) hs) <= 1.
Proof.
  induction hs as [|h hs IH]; cbn [disjoint_words]; [cbn; lia|]. intros [Hh Ht]%andb_true_iff. rewrite list.filter_cons.
  destruct (decide _) as [Hs|_]; [|by apply IH]. cbn. destruct (filter _ hs) as [|h' l] eqn:E; [cbn; lia|]. exfalso.
  assert (h' ∈ filter (fun h => starts line h = true) hs) as [Hs' Hin]%list_elem_of_filter by (rewrite E; left).
  rewrite forallb_forall in Hh. specialize (Hh h' (proj1 (list_elem_of_In _ _) Hin)).
  apply existsb_exists in Hs as (v & Hv & Hv'). apply existsb_exists in Hs' as (w & Hw & Hw').
  rewrite forallb_forall in Hh. specialize (Hh v Hv). rewrite forallb_forall in Hh. specialize (Hh w Hw).
  by rewrite (apart_start (cbuf line)) in Hh.
Qed.
End Chain.

(** ** The handlers of the firmware *)

Section Handlers.
Context {P : Platform} {C : Config}.

Definition handlers : list handler := [
  Build_handler [PAKE1_PREFIX; PAKE3_PREFIX] pake_handle_line;
  Build_handler [ENROLL_PREFIX; AUTH1_PREFIX; AUTH3_PREFIX] local_auth_handle_line;
  Build_handler [str "LIST" ++ [NL]; str "REVOKE:"; str "PWSET:"; str "PWCLEAR" ++ [NL]; str "RESET" ++ [NL];
                 str "DISCOVERYMODE:"; str "DISCOVERYMODE?" ++ [NL]; str "UNPAIR" ++ [NL]] owner_commands_handle_line;
  Build_handler [str "REQID:"; str "PROV:"; str "CSRREQ"; str "DEVID:"; str "CERT:"; str "PFIN"] provisioning_handle_tcp_line;
  Build_handler [fst (updateFirmwareSteps UPDATE_FW_START); fst (updateFirmwareSteps UPDATE_FW_CREDENTIAL);
                 fst (updateFirmwareSteps UPDATE_FW_UPDATING)] ota_handle_line;
  Build_handler [START_PAIRING; FINISH_PAIRING; cy_router_ssid_prefix; cy_router_pass_prefix] pairing_handle_line
].

(** The chain of the source is the chain of this list. *)
Lemma dispatch_is_chain line sock : tcp_dispatch_line line sock = dispatch_with handlers line sock.
Proof. reflexivity. Qed.

(** How the handlers compare a line. *)
Lemma prefix_starts line w : memcmp_eq (cbuf line) w = false -> has_prefix line w = false.
Proof.
  intros H. apply not_true_iff_false. intros [r ->]%has_prefix_spec. revert H. unfold memcmp_eq, cbuf.
  rewrite <- app_assoc, take_app_length. by rewrite bool_decide_eq_true_2.
Qed.
Lemma exact_starts line w : memcmp_eq (cbuf line) (w ++ [NL]) = false -> is_exact line w = false.
Proof.
  intros H. apply bool_decide_eq_false_2. intros ->. revert H. unfold memcmp_eq, cbuf.
  change (w ++ [NL; NUL]) with (w ++ [NL] ++ [NUL]). rewrite app_assoc, take_app_length. by rewrite bool_decide_eq_true_2.
Qed.
Lemma cstr_start l : exists r, l = cstr l ++ r.
Proof.
  induction l as [|c l [r IH]]; [by exists []|].
  change (cstr (c :: l)) with (if bool_decide (c = 0%Z) then [] else c :: cstr l).
  case_bool_decide; [by exists (c :: l)|]. exists r. cbn [app]. by rewrite <- IH.
Qed.
Lemma pairing_starts line w : memcmp_eq (cbuf line) w = false -> is_pairing_command_valid (cstr (cbuf line)) w SET_ROUTER_SUFFIX = false.
Proof.
  intros H. unfold is_pairing_command_valid. case_bool_decide as Hl; [done|]. apply andb_false_iff. left.
  apply not_true_iff_false. intros E%bool_decide_eq_true_1. revert H. apply not_false_iff_true, bool_decide_eq_true_2.
  destruct (cstr_start (cbuf line)) as [r ->]. rewrite take_app_le; [done|]. lia.
Qed.

Lemma handlers_skip : Forall skips handlers.
Proof.
  repeat constructor; intros line sock d; unfold starts; cbn [existsb h_words h_run]; rewrite !orb_false_iff; intros H;
    decompose [and] H; clear H.
  - unfold pake_handle_line. by rewrite !prefix_starts.
  - unfold local_auth_handle_line. by rewrite !prefix_starts.
  - unfold owner_commands_handle_line. by rewrite !prefix_starts, !exact_starts.
  - unfold provisioning_handle_tcp_line, is_provisioning_line.
    repeat match goal with E : memcmp_eq _ _ = false |- _ => rewrite E; clear E end. done.
  - unfold ota_handle_line. repeat match goal with E : memcmp_eq _ _ = false |- _ => rewrite E; clear E end. done.
  - unfold pairing_handle_line, bind, gets. rewrite !pairing_starts by done.
    repeat match goal with E : memcmp_eq _ _ = false |- _ => rewrite E; clear E end. done.
Qed.

Lemma dispatch_unclaimed line sock d :
  access_policy_allow line sock d = (true, d) -> existsb (starts line) handlers = false ->
  exec (tcp_dispatch_line line sock) d = exec (app_command line sock) d.
Proof.
  intros Ha Hs. rewrite dispatch_is_chain. unfold dispatch_with. rewrite exec_bind. unfold exec at 2, eval. rewrite Ha.
  by apply chain_unclaimed; [apply handlers_skip|].
Qed.
End Handlers.

Section Shipped.
Context {P : Platform} (a : application).

#[local] Instance shipped : Config := default_config a.

(** C13: as shipped, the dispatcher does not depend on the order of its chain.
    Whatever the line, the socket, the device and the application, calling the
    six handlers in any order behind the policy and before the application has
    the effect [tcp_dispatch_line] has: no handler can take another's line. *)
Theorem chain_order_free hs line sock d :
  hs ≡ₚ handlers -> exec (dispatch_with hs line sock) d = exec (tcp_dispatch_line line sock) d.
Proof.
  intros Hp. rewrite dispatch_is_chain. unfold dispatch_with. rewrite !exec_bind. destruct (negb _); [done|]. unfold exec.
  rewrite (chain_perm handlers hs); [done|done|apply handlers_skip|]. apply at_most_one. vm_compute. reflexivity.
Qed.
End Shipped.

(** Pairing first, the handshakes last. *)
Lemma chain_order_free_witness :
  exec (@dispatch_with _ (default_config AppMain.hooks) (rev (@handlers _ (default_config AppMain.hooks))) (str "LIST") 54) sim_home =
  exec (@tcp_dispatch_line _ (default_config AppMain.hooks) (str "LIST") 54) sim_home.
Proof. apply chain_order_free. symmetry. apply Permutation_rev. Defined.
