(* ===== verification/AppProps.v ===== *)
(** * AppProps: the application's commands

    For the application [on_off_pin], what switches the pin and what does not:
    a line that no handler of the library claims ([ChainProps]) reaches the
    application's hook with the device as the link left it. *)

From S2P Require Import Prelude Platform Radio State LocalSession Mdns EncFrame PairedList PairingEvents.
From S2P Require Import DevicePassword Discovery AccessPolicy PakeHandler LocalAuth OwnerCommands.
From S2P Require Import ResponseFifo ClientList Flash WifiPairing Provisioning TcpServer UdpScan AwsIot Boot Application ChainProps.
From S2P Require Import Invariant AuthProps LinkProps LoginProps SimPlatform SimDevices.
From Stdlib Require Import ZArith Lia.
From stdpp Require Import base list strings numbers.

Local Open Scope cything_scope.

(** ** The policy *)

Lemma admitted_allowed {P : Platform} {C : Config} line sock d :
  admitted sock d = true -> access_policy_allow line sock d = (true, d).
Proof.
  intros Ha. unfold access_policy_allow, bind, gets, ret. destruct (is_handshake line || is_public line d); [done|].
  unfold access_policy_sock_authenticated, bind, gets, ret. rewrite !find_run. fold (slot_for sock d).
  unfold admitted in Ha. destruct (slot_for sock d) as [si|]; [|done]. by rewrite Ha.
Qed.

(** ** The pin *)

Section OnOff.
Context {P : Platform} {C0 : Config} {G : Gpio}.

#[local] Instance on_off_firmware : Config := with_application OnOffPin.hooks C0.

Definition command (on : bool) : bytes := if on then str "on_cmd" else str "off_cmd".
Definition reply (on : bool) : bytes := (if on then str "on_res" else str "off_res") ++ [NL].

(** The pin is driven and the new state goes to everyone. *)
Definition switched (on : bool) (d : Dev) : Dev :=
  exec (send_data_to_clients SEND_TO_ALL (reply on))
       (set_world (gpio_set_level OnOffPin.LED_PIN (if on then 1 else 0)%Z (world d)) d).

Definition is_eol (c : Z) : bool := bool_decide (c = NL) || bool_decide (c = CR).

Lemma trim_eol_skip text n k :
  (forall i, i < k -> exists c, text !! (n + i) = Some c /\ is_eol c = true) ->
  OnOffPin.trim_eol text (n + k) = OnOffPin.trim_eol text n.
Proof.
  induction k as [|k IH]; intros H; [by rewrite Nat.add_0_r|]. rewrite Nat.add_succ_r. cbn.
  destruct (H k) as (c & -> & Hc); [lia|]. unfold is_eol in Hc. rewrite Hc. apply IH. intros i Hi. apply H. lia.
Qed.

(** The command, with whatever ends the line behind it. *)
Lemma handle_command on eol w :
  Forall (fun c => is_eol c = true) eol ->
  OnOffPin.handle_on_off (command on ++ eol) (length (command on ++ eol)) w =
  ((true, [SendData SEND_TO_ALL (reply on)]), gpio_set_level OnOffPin.LED_PIN (if on then 1 else 0)%Z w).
Proof.
  intros He. assert (OnOffPin.trim_eol (command on ++ eol) (length (command on ++ eol)) = length (command on)) as Ht.
  { rewrite length_app, trim_eol_skip; [by destruct on|]. intros i Hi.
    destruct (lookup_lt_is_Some_2 eol i Hi) as [c Hc]. exists c. split; [by rewrite lookup_app_r, Nat.add_comm, Nat.add_sub by lia|].
    by eapply (Forall_lookup_1 _ _ _ _ He). }
  unfold OnOffPin.handle_on_off. rewrite Ht. unfold memcmp_eq. by destruct on.
Qed.

Lemma app_command_switches on sock d : exec (app_command (command on) sock) d = switched on d.
Proof.
  pose proof (handle_command on [] (world d) (list.Forall_nil_2 _)) as H. rewrite app_nil_r in H.
  unfold app_command, exec, bind, io. cbn [app_command_handle_line on_off_firmware with_application ap_handle_line OnOffPin.hooks].
  unfold OnOffPin.app_command_handle_line. rewrite H. done.
Qed.

Lemma command_unclaimed on :
  memcmp_eq (cbuf (command on)) cy_router_ssid_prefix = false ->
  memcmp_eq (cbuf (command on)) cy_router_pass_prefix = false -> existsb (starts (command on)) handlers = false.
Proof. intros H1 H2. unfold starts. cbn [existsb handlers h_words]. rewrite H1, H2. by destruct on. Qed.

(** The session a line arrived on, as the link leaves it. *)
Lemma admitted_alter sock d si f :
  slot_for sock d = Some si -> (forall s, ls_sock (f s) = ls_sock s) ->
  admitted sock (set_pool (alter f si (pool d)) d) = authenticated (f (sess si d)) && ls_rx_encrypted (f (sess si d)).
Proof.
  intros Hs Hf. destruct (slot_for_Some _ _ _ Hs) as (s & Hl & E & _).
  assert (slot_for sock (set_pool (alter f si (pool d)) d) = Some si) as Hs'.
  { unfold slot_for in *. case_bool_decide; [done|]. rewrite <- Hs. by eapply slot_of_alter. }
  unfold admitted. rewrite Hs', (sess_lookup _ _ (f s)), E; [done|]. cbn. by rewrite list_lookup_alter_eq, Hl.
Qed.

Context {B : Base64Laws P} {GL : GcmLaws P}.

(** C39: a phone in an authenticated session switches the pin with one
    encrypted line. The frame it builds for the command, with a fresh counter,
    is decrypted, admitted by the policy, claimed by no handler of the library
    and handed to the application, which drives the pin and queues the new state
    for every client; the only other change is to the session's frame counter
    and its flag. *)
Theorem phone_switches_pin on sock d si ctr ct tag :
  slot_for sock d = Some si -> session_keyed (sess si d) = true -> length (ls_key (sess si d)) = 32 ->
  authenticated (sess si d) = true -> (ls_rx_ctr (sess si d) < ctr)%Z -> (0 <= ctr < 2 ^ 64)%Z ->
  memcmp_eq (cbuf (command on)) cy_router_ssid_prefix = false ->
  memcmp_eq (cbuf (command on)) cy_router_pass_prefix = false ->
  gcm_crypt_and_tag (ls_key (sess si d)) (dev_nonce ctr) (command on) = (0%Z, (ct, tag)) ->
  exec (recv_line (phone_frame (dev_nonce ctr) (ct ++ tag)) sock) d =
  switched on (set_pool (alter (accepted_frame ctr) si (pool d)) d).
Proof.
  intros Hs Hk Hlen Ha Hlt Hr H1 H2 E. unfold recv_line. rewrite exec_bind.
  assert (enc_frame_unwrap (phone_frame (dev_nonce ctr) (ct ++ tag)) sock TCP_RECEIVE_DATA_LENGTH d =
    (Some (command on), set_pool (alter (accepted_frame ctr) si (pool d)) d)) as Hu.
  { apply unwrap_opens; [apply is_enc_phone_frame|done|done|].
    apply phone_frame_opens; try done; destruct on; try (vm_compute; lia); repeat constructor; vm_compute; discriminate. }
  unfold exec at 2, eval. rewrite Hu. cbn [fst snd].
  rewrite dispatch_unclaimed; [apply app_command_switches| |by apply command_unclaimed].
  apply admitted_allowed. rewrite admitted_alter by done. cbn. unfold authenticated in *. cbn. by rewrite Ha.
Qed.

(** ** The broker's side *)

Context {A0 : AwsConfig} {N : NetworkTransport.EspTls}.

#[local] Instance on_off_aws : AwsConfig := with_aws_application OnOffPin.hooks A0.

#[local] Transparent MqttCore.pbind MqttCore.pret.

(** A message on the command topic does the same, also with line ends behind
    the command and whatever is in the buffer behind the message. *)
Lemma broker_switches_pin fuel on eol rest s :
  Forall (fun c => is_eol c = true) eol ->
  process_aws_iot_command fuel (Some (command on ++ eol ++ rest)) (Z.of_nat (length (command on ++ eol))) s =
  MqttCore.Done (tt, set_s_command_mqtt_context false (set_aw_dev (switched on (aw_dev s)) (set_s_command_mqtt_context true s))).
Proof.
  intros He. unfold process_aws_iot_command. rewrite Nat2Z.id. cbn [from_option id]. rewrite app_assoc, take_app_length.
  pose proof (handle_command on eol (world (aw_dev s)) He) as H.
  unfold MqttCore.pbind, upd, on_dev, io.
  cbn [app_mqtt_command_handle on_off_aws with_aws_application ap_mqtt_handle OnOffPin.hooks aw_dev set_s_command_mqtt_context].
  unfold OnOffPin.app_mqtt_command_handle. rewrite Nat2Z.id, H. cbn [run_hook_calls run_app_call].
  unfold MqttCore.pbind, MqttCore.pret, on_dev, switched, exec. cbn [aw_dev set_aw_dev].
  by destruct (send_data_to_clients _ _ _) as [[] d].
Qed.
End OnOff.

(** ** Strangers *)

Section Strangers.
Context {P : Platform} {C0 : Config} {G : Gpio}.

Definition with_pin : Config := with_application OnOffPin.hooks C0.
Definition without : Config := with_application AppMain.hooks C0.

Lemma trim_eol_spec text n :
  n <= length text ->
  exists k, n = OnOffPin.trim_eol text n + k /\
    forall i, i < k -> exists c, text !! (OnOffPin.trim_eol text n + i) = Some c /\ is_eol c = true.
Proof.
  induction n as [|n IH]; intros Hn; cbn; [exists 0; split; [lia|intros; lia]|].
  destruct (lookup_lt_is_Some_2 text n) as [c Hc]; [lia|]. rewrite Hc.
  destruct (bool_decide (c = NL) || bool_decide (c = CR)) eqn:E; [|exists 0; split; [lia|intros; lia]].
  destruct IH as (k & Ek & Hk); [lia|]. exists (S k). split; [lia|]. intros i Hi.
  destruct (decide (i = k)) as [->|]; [exists c; by rewrite <- Ek|apply Hk; lia].
Qed.

(** Only the two commands are taken. *)
Lemma only_commands line w :
  OnOffPin.handle_on_off line (length line) w = ((false, []), w) \/
  exists on eol, line = command on ++ eol /\ Forall (fun c => is_eol c = true) eol.
Proof.
  destruct (trim_eol_spec line (length line)) as (k & Ek & Hk); [done|]. unfold OnOffPin.handle_on_off.
  set (n := OnOffPin.trim_eol line (length line)) in *.
  assert (forall on, n = length (command on) -> memcmp_eq line (command on) = true ->
    exists on eol, line = command on ++ eol /\ Forall (fun c => is_eol c = true) eol) as H.
  { intros on Hn Hm. exists on, (drop n line). apply bool_decide_eq_true_1 in Hm. rewrite <- Hn in Hm. split.
    - by rewrite <- Hm, take_drop.
    - apply Forall_lookup. intros i c Hc. pose proof (lookup_lt_Some _ _ _ Hc) as Hi. rewrite length_drop in Hi.
      rewrite lookup_drop in Hc. destruct (Hk i) as (c' & Hc' & He); [lia|]. congruence. }
  destruct (bool_decide (n = 6) && memcmp_eq line (str "on_cmd")) eqn:E1.
  { right. apply andb_true_iff in E1 as [E1 E2]. apply bool_decide_eq_true_1 in E1. by apply (H true). }
  destruct (bool_decide (n = 7) && memcmp_eq line (str "off_cmd")) eqn:E2; [|by left].
  right. apply andb_true_iff in E2 as [E2 E3]. apply bool_decide_eq_true_1 in E2. by apply (H false).
Qed.

Lemma bind_same {A B} (m m' : M A) (k k' : A -> M B) d :
  m d = m' d -> (forall a d, k a d = k' a d) -> bind m k d = bind m' k' d.
Proof. intros E H. unfold bind. rewrite E. destruct (m' d). apply H. Qed.

(** The handlers that answer through the client list. *)
Lemma fifo_push_same t f : @response_fifo_push P with_pin t f = @response_fifo_push P without t f.
Proof. reflexivity. Qed.
Lemma send_raw_same sock t d : @send_raw_to_client P with_pin sock t d = @send_raw_to_client P without sock t d.
Proof. apply bind_same; [|done]. apply bind_same; [|done]. unfold modify. by rewrite fifo_push_same. Qed.

Lemma when_same b (m m' : M unit) d : m d = m' d -> when b m d = when b m' d.
Proof. by destruct b. Qed.

Ltac same_solve := repeat lazymatch goal with
  | |- bind _ _ _ = _ => apply bind_same; [|intros ? ?]
  | |- when _ _ _ = _ => apply when_same
  | |- ack _ _ = _ => apply send_raw_same
  | |- send_raw_to_client _ _ _ = _ => apply send_raw_same
  | |- (if ?b then _ else _) _ = _ => destruct b
  | |- _ => reflexivity
  end.

Lemma ota_same line sock d : @ota_handle_line P with_pin line sock d = @ota_handle_line P without line sock d.
Proof. unfold ota_handle_line. cbv zeta. same_solve. Qed.
Lemma pairing_same line sock d : @pairing_handle_line P with_pin line sock d = @pairing_handle_line P without line sock d.
Proof.
  unfold pairing_handle_line. cbv zeta.
  change (@cy_router_ssid_prefix P with_pin) with (@cy_router_ssid_prefix P without).
  change (@cy_router_pass_prefix P with_pin) with (@cy_router_pass_prefix P without). same_solve.
Qed.

(** A line that is no command is the same line to both. *)
Lemma dispatch_other line sock d :
  (forall w, OnOffPin.handle_on_off line (length line) w = ((false, []), w)) ->
  exec (@tcp_dispatch_line P with_pin line sock) d = exec (@tcp_dispatch_line P without line sock) d.
Proof.
  intros H. assert (forall d, @app_command P with_pin line sock d = @app_command P without line sock d) as Ha.
  { intros d0. unfold app_command, bind, io. cbn [app_command_handle_line with_pin without with_application ap_handle_line
      OnOffPin.hooks AppMain.hooks]. unfold OnOffPin.app_command_handle_line. by rewrite H. }
  unfold exec. f_equal. unfold tcp_dispatch_line.
  apply bind_same; [reflexivity|intros [|] ?; cbn [negb]; [|reflexivity]].
  do 4 (apply bind_same; [reflexivity|intros [|] ?; [reflexivity|]]).
  apply bind_same; [apply ota_same|intros [|] ?; [reflexivity|]].
  apply bind_same; [apply pairing_same|intros [|] ?; [reflexivity|]].
  apply bind_same; [apply Ha|reflexivity].
Qed.

(** A line the policy refuses is refused to both. *)
Lemma dispatch_stranger line sock d :
  @local_auth_enforce P C0 = true -> device_password_is_set d = true ->
  (exists c l, @cy_scan_command P C0 = c :: l /\ c <> 111%Z) -> admitted sock d = false ->
  exec (@tcp_dispatch_line P with_pin line sock) d = exec (@tcp_dispatch_line P without line sock) d.
Proof.
  intros He Hp (c & l & Hs & Hc) Ha. destruct (only_commands line (world d)) as [H|(on & eol & -> & _)].
  { apply dispatch_other. intros w. pose proof (only_commands line w) as [?|(on & eol & -> & Hl)]; [done|].
    by rewrite handle_command in H. }
  assert (forall p c0, head p = Some c0 -> c0 <> 111%Z -> has_prefix (command on ++ eol) p = false) as Hother.
  { intros [|c0 p] ? [= <-] Hc0. apply not_true_iff_false. intros (r & E)%has_prefix_spec.
    assert (head (command on ++ eol) = Some 111%Z) as E1 by by destruct on. rewrite E in E1. cbn in E1. congruence. }
  assert (has_prefix (command on ++ eol) (@cy_scan_command P C0) = false) as Hn by (rewrite Hs; by eapply Hother).
  assert (forall C, (C = with_pin \/ C = without) -> @is_public P C (command on ++ eol) d = false) as Hpub.
  { intros C [-> | ->]; unfold is_public; cbn [cy_scan_command app_command_is_public with_pin without with_application]; by rewrite Hn, Hp. }
  assert (is_handshake (command on ++ eol) = false) as Hh.
  { unfold is_handshake. repeat (erewrite Hother; [|reflexivity|done]). done. }
  destruct (@allow_cases P with_pin (command on ++ eol) sock d Hh (Hpub _ (or_introl eq_refl)) He)
    as [[E _]|(_ & code & _ & E)]; [congruence|].
  unfold tcp_dispatch_line. rewrite !exec_bind. unfold exec at 2 4, eval.
  change (@access_policy_allow P without (command on ++ eol) sock d) with (@access_policy_allow P with_pin (command on ++ eol) sock d).
  by rewrite E.
Qed.

(** C23: nobody but a phone in an authenticated session reaches the
    application. With LOCAL_AUTH_ENFORCE on and a password set, a line that
    came in the clear, or on a socket whose session is not authenticated, does
    to the device with the pin exactly what it does to the firmware that has no
    application at all, the frames it is answered with included. *)
Theorem strangers_reach_no_application line sock d :
  @local_auth_enforce P C0 = true -> device_password_is_set d = true ->
  (exists c l, @cy_scan_command P C0 = c :: l /\ c <> 111%Z) ->
  (is_enc line = false \/ forall si, slot_for sock d = Some si -> authenticated (sess si d) = false) ->
  exec (@recv_line P with_pin line sock) d = exec (@recv_line P without line sock) d.
Proof.
  intros He Hp Hs Ha. unfold recv_line. rewrite !exec_bind.
  destruct (unwrap_cases line sock TCP_RECEIVE_DATA_LENGTH d) as [[Ee E]|[[Ee E]|(Ee & si & pl & ctr & Hsi & _ & _ & E)]];
    unfold exec at 2 4, eval; rewrite E; cbn [fst snd]; [|done|].
  - apply dispatch_stranger; try done; destruct (slot_for sock d) as [si|] eqn:Hsi; cbn [clear_rx]; try done.
    + rewrite admitted_alter by done. cbn. by rewrite andb_false_r.
    + unfold admitted. by rewrite Hsi.
  - apply dispatch_stranger; try done. rewrite admitted_alter by done. destruct Ha as [Ha|Ha]; [congruence|].
    specialize (Ha si Hsi). unfold authenticated in *. cbn. by rewrite Ha.
Qed.
End Strangers.

(** ** The properties at a concrete device *)

#[local] Instance sim_gpio : @Gpio simP := {|
  gpio_reset_pin := fun _ w => w;
  gpio_set_direction := fun _ _ w => w;
  gpio_set_level := fun pin level w => sim_log (pin, 0%Z) 0 [level] w;
|}.

Definition wit_switch : bytes :=
  let c := snd (sim_encrypt (replicate 32 9%Z) (dev_nonce 8) (str "on_cmd")) in
  phone_frame (dev_nonce 8) (fst c ++ snd c).

Lemma phone_switches_pin_witness :
  sw_flash (world (exec (@recv_line _ (with_application OnOffPin.hooks simC) wit_switch 54) sim_home))
  = [((2%Z, 0%Z), 0%Z, [1%Z])].
Proof.
  assert (exec (@recv_line _ (with_application OnOffPin.hooks simC) wit_switch 54) sim_home =
    @switched _ simC sim_gpio true (set_pool (alter (accepted_frame 8) 0 (pool sim_home)) sim_home)) as ->.
  - apply (@phone_switches_pin _ simC sim_gpio _ _ true 54 sim_home 0 8
             (fst (snd (sim_encrypt (replicate 32 9%Z) (dev_nonce 8) (str "on_cmd"))))
             (snd (snd (sim_encrypt (replicate 32 9%Z) (dev_nonce 8) (str "on_cmd"))))).
    + vm_compute. reflexivity.
    + vm_compute. reflexivity.
    + vm_compute. reflexivity.
    + vm_compute. reflexivity.
    + vm_compute. reflexivity.
    + split; vm_compute; [discriminate|reflexivity].
    + vm_compute. reflexivity.
    + vm_compute. reflexivity.
    + vm_compute. reflexivity.
  - vm_compute. reflexivity.
Defined.

Lemma strangers_reach_no_application_witness :
  exec (@recv_line _ (@with_pin _ simC _) (str "on_cmd") 54) wit_guarded = exec (@recv_line _ (@without _ simC) (str "on_cmd") 54) wit_guarded.
Proof.
  apply (@strangers_reach_no_application _ simC sim_gpio).
  - reflexivity.
  - vm_compute. reflexivity.
  - exists 71%Z, (str "ET_INFO"). split; [vm_compute; reflexivity|discriminate].
  - left. vm_compute. reflexivity.
Defined.
