(* ===== verification/ConnProps.v ===== *)
(** * ConnProps: every connection's socket is accounted for

    A socket that [accept] handed out is either the socket of one session and
    one row of the client registry, or it has been closed, once. *)

From S2P Require Import Prelude Platform State LocalSession Mdns EncFrame PairedList PairingEvents.
From S2P Require Import DevicePassword Discovery AccessPolicy PakeHandler LocalAuth OwnerCommands.
From S2P Require Import ResponseFifo ClientList Flash WifiPairing Provisioning TcpServer UdpScan Invariant System.
From S2P Require Import SimPlatform SimDevices BleProps.
From Stdlib Require Import ZArith Lia.
From stdpp Require Import base list sets strings numbers.

Local Open Scope cything_scope.

(** ** What the handlers leave alone *)

Section View.
Context {P : Platform} {C : Config}.

(** The sockets closed so far. *)
Definition closes (l : list event) : list Z := omap (fun e => match e with EvClose s => Some s | _ => None end) l.

(** The sockets of the slots, the registry, what was closed. *)
Definition conns (d : Dev) := (ls_sock <$> pool d, accounts d, closes (out d)).

Lemma closes_app l l' : closes (l ++ l') = closes l ++ closes l'.
Proof. apply omap_app. Qed.

Lemma conns_emit e : (forall s, e <> EvClose s) -> frames conns (emit e).
Proof.
  intros He d. unfold conns. cbn. rewrite closes_app. cbn. destruct e; try by rewrite app_nil_r. by destruct (He sock).
Qed.
Lemma conns_upd_sess si f : (forall s, ls_sock (f s) = ls_sock s) -> frames conns (upd_sess si f).
Proof.
  intros Hf d. unfold conns. cbn. f_equal. f_equal. revert si. generalize (pool d) as l.
  induction l as [|s l IH]; intros [|si]; cbn; [done..|by rewrite Hf|by rewrite IH].
Qed.
Lemma conns_for_each {A} (l : list A) f : (forall a, frames conns (f a)) -> frames conns (for_each l f).
Proof. intros H d. by apply (for_each_frame conns), H. Qed.
End View.

Create HintDb conns.
Ltac conns_step :=
  lazymatch goal with
  | |- frames _ (bind _ _) => apply frames_bind; [|intros ?]
  | |- frames _ (when _ _) => unfold when
  | |- frames _ (for_each _ _) => apply conns_for_each; intros ?
  | |- frames _ (match ?x with _ => _ end) => destruct x
  | |- frames _ (upd_sess _ _) => by apply conns_upd_sess
  | |- frames _ (emit _) => by apply conns_emit
  | |- frames _ (io _) => by apply frames_io
  | |- frames _ _ => first [solve [eauto 2 with conns] | intros ?; reflexivity]
  end.
Ltac conns_solve := repeat first [progress cbv zeta | conns_step].

Section Handlers.
Context {P : Platform} {C : Config}.

Lemma conns_free_srp si : frames conns (free_srp si).
Proof. unfold free_srp. conns_solve. Qed.
#[local] Hint Resolve conns_free_srp : conns.
Lemma conns_reset_handshake si : frames conns (local_session_reset_handshake si).
Proof. unfold local_session_reset_handshake. conns_solve. Qed.
Lemma conns_find sock : frames conns (local_session_find sock).
Proof. unfold local_session_find. conns_solve. Qed.
Lemma conns_drop_auth si : frames conns (drop_auth si).
Proof. unfold drop_auth. conns_solve. Qed.
#[local] Hint Resolve conns_reset_handshake conns_find conns_drop_auth : conns.
Lemma conns_removed i : frames conns (local_session_on_paired_removed i).
Proof. unfold local_session_on_paired_removed. conns_solve. Qed.
Lemma conns_drop_all : frames conns local_session_drop_all_auth.
Proof. unfold local_session_drop_all_auth. conns_solve. Qed.
Lemma conns_enc_send sock b : frames conns (enc_frame_send sock b).
Proof. unfold enc_frame_send, send. conns_solve. Qed.
#[local] Hint Resolve conns_removed conns_drop_all conns_enc_send : conns.
Lemma conns_send_line sock t : frames conns (security_send_line sock t).
Proof. unfold security_send_line, send. conns_solve. Qed.
#[local] Hint Resolve conns_send_line : conns.
Lemma conns_send_err sock c : frames conns (send_err sock c).
Proof. apply conns_send_line. Qed.
Lemma conns_unwrap line sock cap : frames conns (enc_frame_unwrap line sock cap).
Proof. unfold enc_frame_unwrap, send_plain_err, send. conns_solve. Qed.
#[local] Hint Resolve conns_send_err conns_unwrap : conns.

(** ** Accounts, password, events *)

Lemma conns_refresh : frames conns mdns_discovery_refresh.
Proof. unfold mdns_discovery_refresh. conns_solve. Qed.
Lemma conns_list_store : frames conns PairedList.nvs_store.
Proof. unfold PairedList.nvs_store. conns_solve. Qed.
#[local] Hint Resolve conns_refresh conns_list_store : conns.
Lemma conns_add a b k t : frames conns (paired_list_add a b k t).
Proof. unfold paired_list_add. conns_solve. Qed.
Lemma conns_remove i : frames conns (paired_list_remove i).
Proof. unfold paired_list_remove. conns_solve. Qed.
Lemma conns_clear_list : frames conns paired_list_clear.
Proof. unfold paired_list_clear. conns_solve. Qed.
Lemma conns_rotate : frames conns paired_list_rotate_owner_key.
Proof. unfold paired_list_rotate_owner_key. conns_solve. Qed.
Lemma conns_push e u r : frames conns (pairing_events_push e u r).
Proof. unfold pairing_events_push, PairingEvents.nvs_store. conns_solve. Qed.
#[local] Hint Resolve conns_add conns_remove conns_clear_list conns_rotate conns_push : conns.
Lemma conns_pw_set w : frames conns (device_password_set w).
Proof. unfold device_password_set, nvs_store_pair. conns_solve. Qed.
Lemma conns_pw_clear : frames conns device_password_clear.
Proof. unfold device_password_clear, nvs_store_pair. conns_solve. Qed.
Lemma conns_pw_get : frames conns device_password_get.
Proof. unfold device_password_get, derive_initial_locked. conns_solve. Qed.
Lemma conns_lock_remaining ip : frames conns (device_password_lock_remaining_s ip).
Proof. unfold device_password_lock_remaining_s. conns_solve. Qed.
Lemma conns_note_failure ip : frames conns (device_password_note_failure ip).
Proof. unfold device_password_note_failure, nvs_store_lockout. conns_solve. Qed.
Lemma conns_note_success ip : frames conns (device_password_note_success ip).
Proof. unfold device_password_note_success, nvs_store_lockout. conns_solve. Qed.
#[local] Hint Resolve conns_pw_set conns_pw_clear conns_pw_get conns_lock_remaining conns_note_failure conns_note_success : conns.

(** ** Discovery and the FIFOs *)

Lemma conns_set_mode m : frames conns (discovery_mode_set m).
Proof. unfold discovery_mode_set. conns_solve. Qed.
Lemma conns_stop_adv : frames conns stop_advertising_locked.
Proof. unfold stop_advertising_locked. conns_solve. Qed.
#[local] Hint Resolve conns_set_mode conns_stop_adv : conns.
Lemma conns_start_adv : frames conns start_advertising_locked.
Proof. unfold start_advertising_locked. conns_solve. Qed.
#[local] Hint Resolve conns_start_adv : conns.
Lemma conns_apply_mode : frames conns ble_beacon_apply_discovery_mode.
Proof. unfold ble_beacon_apply_discovery_mode. conns_solve. Qed.
Lemma conns_send_raw sock t : frames conns (send_raw_to_client sock t).
Proof. by intros d. Qed.
Lemma conns_response_id : frames conns update_response_id.
Proof. unfold update_response_id. conns_solve. Qed.
#[local] Hint Resolve conns_apply_mode conns_send_raw conns_response_id : conns.
Lemma conns_send_data sock t : frames conns (send_data_to_clients sock t).
Proof. unfold send_data_to_clients, push_tcp_line. conns_solve. Qed.
Lemma conns_sock_authed sock : frames conns (access_policy_sock_authenticated sock).
Proof. unfold access_policy_sock_authenticated. conns_solve. Qed.
#[local] Hint Resolve conns_send_data conns_sock_authed : conns.
Lemma conns_send_one t p dst : frames conns (send_one t p dst).
Proof. unfold send_one. conns_solve. Qed.
#[local] Hint Resolve conns_send_one : conns.
Lemma conns_route l : frames conns (route_line l).
Proof. unfold route_line. conns_solve. Qed.
#[local] Hint Resolve conns_route : conns.
Lemma conns_send_task : frames conns tcp_response_send_step.
Proof. unfold tcp_response_send_step. conns_solve. Qed.

(** ** The handlers *)

Lemma conns_allow line sock : frames conns (access_policy_allow line sock).
Proof. unfold access_policy_allow, send_plain, send. conns_solve. Qed.
Lemma conns_pake1 si line : frames conns (handle_pake1 si line).
Proof. unfold handle_pake1, srp_setup. conns_solve. Qed.
Lemma conns_pake3 si line : frames conns (handle_pake3 si line).
Proof. unfold handle_pake3, abort_pake. conns_solve. Qed.
#[local] Hint Resolve conns_pake1 conns_pake3 : conns.
Lemma conns_pake line sock : frames conns (pake_handle_line line sock).
Proof. unfold pake_handle_line. conns_solve. Qed.
Lemma conns_auth line sock : frames conns (local_auth_handle_line line sock).
Proof. unfold local_auth_handle_line, handle_enroll, handle_auth1, handle_auth3, paired_list_find, paired_list_get. conns_solve. Qed.
Lemma conns_list_loop sock n i : frames conns (list_loop sock n i).
Proof. revert i. induction n as [|n IH]; intros i; cbn [list_loop]; conns_solve; apply IH. Qed.
Lemma conns_revoke_loop n i : frames conns (revoke_loop n i).
Proof. revert i. induction n as [|n IH]; intros i; cbn [revoke_loop]; conns_solve; apply IH. Qed.
#[local] Hint Resolve conns_list_loop conns_revoke_loop : conns.
Lemma conns_owner line sock : frames conns (owner_commands_handle_line line sock).
Proof.
  unfold owner_commands_handle_line, handle_unpair, handle_list, handle_revoke, handle_pwset, handle_pwclear, handle_reset,
    handle_discoverymode, handle_discoverymode_get, revoke_all_non_owner.
  conns_solve.
Qed.
Lemma conns_prov line sock : frames conns (provisioning_handle_tcp_line line sock).
Proof.
  unfold provisioning_handle_tcp_line, handle_reqid, handle_prov, handle_csrreq, handle_devid, handle_cert, handle_pfin, build_csr_base64,
    load_or_generate_keypair, persist_identity, nvs_set_string, nvs_get_string, reset_handshake, send_line, reboot_after_ms, send, ask.
  conns_solve.
Qed.
Lemma conns_ota line sock : frames conns (ota_handle_line line sock).
Proof. unfold ota_handle_line. conns_solve. Qed.
Lemma conns_app line sock : frames conns (app_command line sock).
Proof. unfold app_command, run_app_call. conns_solve. Qed.
Lemma conns_pairing line sock : frames conns (pairing_handle_line line sock).
Proof.
  unfold pairing_handle_line, pairing_touch, pairing_done, ack, pairing_commit, flash_store_wifi_router_info, flash_read_wifi_router_info,
    ota_set_new_erase_partition, ota_set_new_write_partition, ota_set_new_read_partition, ota_erase, ota_write, ota_read, reboot_after_ms.
  conns_solve.
Qed.
#[local] Hint Resolve conns_allow conns_pake conns_auth conns_owner conns_prov conns_ota conns_app conns_pairing : conns.

(** A line, whatever it is, opens and closes nothing. *)
Lemma conns_dispatch line sock : frames conns (tcp_dispatch_line line sock).
Proof. unfold tcp_dispatch_line. conns_solve. Qed.
#[local] Hint Resolve conns_dispatch : conns.
Lemma conns_recv si sock ev rx : frames conns (recv_step si sock ev rx).
Proof. unfold recv_step, recv_line. conns_solve. Qed.
Lemma conns_timeout : frames conns pairing_timeout_cb.
Proof. by intros d. Qed.
End Handlers.

(** ** Sockets coming and going *)

Section Sockets.
Context {P : Platform} {C : Config}.

(** The sockets of the sessions. *)
Definition live (d : Dev) : list Z := filter (fun k => k <> (-1)%Z) (ls_sock <$> pool d).

Lemma conns_live d d' : conns d' = conns d -> live d' = live d /\ accounts d' = accounts d /\ closes (out d') = closes (out d).
Proof. unfold conns, live. intros [= -> -> ->]. done. Qed.

Lemma slot_of_live sock d : sock <> (-1)%Z -> (exists si, slot_of sock (pool d) = Some si) <-> sock ∈ live d.
Proof.
  intros Hs. unfold live. rewrite list_elem_of_filter, list_elem_of_fmap. split.
  - intros [si H]. destruct (slot_of_Some _ _ _ H) as (s & Hl & E). split; [done|]. exists s. split; [done|]. by eapply list_elem_of_lookup_2.
  - intros (_ & s & E & Hin). destruct (slot_of sock (pool d)) as [si|] eqn:Hn; [by exists si|]. exfalso. revert Hn. unfold slot_of.
    destruct (list_find _ _) eqn:Hf; [done|]. intros _. apply list_find_None in Hf. by apply (proj1 (list.Forall_forall _ _) Hf s Hin).
Qed.

(** One slot changes its socket. *)
Lemma conns_set_sock d si v : conns (exec (upd_sess si (set_ls_sock v)) d) = (<[si := v]> (ls_sock <$> pool d), accounts d, closes (out d)).
Proof.
  unfold conns. cbn. f_equal. f_equal. revert si. induction (pool d) as [|s l IH]; intros [|si]; cbn; [done..|by rewrite IH].
Qed.

Lemma occupy (ks : list Z) si v : ks !! si = Some (-1)%Z -> v <> (-1)%Z ->
  filter (fun k => k <> (-1)%Z) (<[si := v]> ks) ≡ₚ v :: filter (fun k => k <> (-1)%Z) ks.
Proof.
  intros Hk Hv. rewrite <- (take_drop_middle _ _ _ Hk) at 2. rewrite insert_take_drop by (by eapply lookup_lt_Some).
  rewrite !list.filter_app, !list.filter_cons. rewrite decide_True by done. rewrite (decide_False (P := (-1)%Z <> (-1)%Z)) by tauto.
  by rewrite Permutation_middle.
Qed.
Lemma vacate (ks : list Z) si v : ks !! si = Some v -> v <> (-1)%Z ->
  v :: filter (fun k => k <> (-1)%Z) (<[si := (-1)%Z]> ks) ≡ₚ filter (fun k => k <> (-1)%Z) ks.
Proof.
  intros Hk Hv. pose proof (lookup_lt_Some _ _ _ Hk) as Hlt.
  rewrite <- (occupy (<[si := (-1)%Z]> ks) si v) by (try apply list_lookup_insert_eq; done).
  by rewrite list_insert_insert, decide_True, list_insert_id.
Qed.

(** [wipe], up to the socket. *)
Lemma wipe_conns si d : conns (exec (wipe si) d) = (<[si := (-1)%Z]> (ls_sock <$> pool d), accounts d, closes (out d)).
Proof.
  assert (exists d', exec (wipe si) d = exec (upd_sess si (set_ls_sock (-1))) d' /\ conns d' = conns d) as (d' & -> & E).
  { eexists. split; [unfold wipe; rewrite !exec_bind; reflexivity|].
    repeat (etransitivity; [apply conns_upd_sess; done|]). apply conns_free_srp. }
  rewrite conns_set_sock. unfold conns in E. by injection E as -> -> ->.
Qed.

Lemma acquire_live sock ip d :
  (0 <= sock)%Z ->
  match eval (local_session_acquire sock ip) d with
  | Some _ => live (exec (local_session_acquire sock ip) d) ≡ₚ sock :: live d /\
      accounts (exec (local_session_acquire sock ip) d) = accounts d /\
      closes (out (exec (local_session_acquire sock ip) d)) = closes (out d) /\
      length (pool (exec (local_session_acquire sock ip) d)) = length (pool d)
  | None => exec (local_session_acquire sock ip) d = d
  end.
Proof.
  intros Hs. unfold local_session_acquire. rewrite eval_bind, exec_bind, eval_gets, exec_gets.
  destruct (slot_of (-1) (pool d)) as [si|] eqn:Ho; [|done]. rewrite !eval_bind. cbn beta iota. rewrite !exec_bind.
  destruct (slot_of_Some _ _ _ Ho) as (s & Hl & E).
  assert (forall d1, conns d1 = (<[si := sock]> (ls_sock <$> pool d), accounts d, closes (out d)) ->
    live d1 ≡ₚ sock :: live d /\ accounts d1 = accounts d /\ closes (out d1) = closes (out d) /\ length (pool d1) = length (pool d)) as H.
  { intros d1. unfold conns, live. intros [= E1 -> ->]. rewrite E1. split_and!; [|done..|].
    - apply occupy; [by rewrite list_lookup_fmap, Hl; cbn; rewrite E|lia].
    - apply (f_equal length) in E1. by rewrite length_insert, !length_fmap in E1. }
  apply H. etransitivity; [by apply (conns_upd_sess si (set_ls_peer_ip ip))|]. rewrite conns_set_sock. pose proof (wipe_conns si d) as Hw. unfold conns in Hw.
  injection Hw as -> -> ->. by rewrite list_insert_insert, decide_True.
Qed.

Lemma release_live sock d :
  (0 <= sock)%Z -> sock ∈ live d ->
  sock :: live (exec (local_session_release sock) d) ≡ₚ live d /\
  accounts (exec (local_session_release sock) d) = accounts d /\
  closes (out (exec (local_session_release sock) d)) = closes (out d) /\
  length (pool (exec (local_session_release sock) d)) = length (pool d).
Proof.
  intros Hs Hin. apply slot_of_live in Hin as [si Ho]; [|lia]. unfold local_session_release.
  rewrite exec_bind, eval_gets, exec_gets, Ho. destruct (slot_of_Some _ _ _ Ho) as (s & Hl & E).
  pose proof (wipe_conns si d) as Hw. unfold conns in Hw. injection Hw as E1 -> ->. unfold live. split_and!; [|done..|].
  - rewrite E1. apply vacate; [by rewrite list_lookup_fmap, Hl; cbn; rewrite E|lia].
  - apply (f_equal length) in E1. by rewrite length_insert, !length_fmap in E1.
Qed.
End Sockets.

(** ** The whole life of the connections *)

Section Life.
Context {P : Platform} {C : Config} {U : UdpSockets}.

(** Before the first connection. *)
Record booted (d : Dev) : Prop := {
  bt_pool : pool d = replicate LOCAL_SESSION_MAX null_session;
  bt_accounts : accounts d = Build_accounts (replicate ACCOUNT_MAX 0%Z) 0;
  bt_out : closes (out d) = [];
}.

(** The socket the discovery server holds, and the one a turn of it opens. *)
Definition held (p : udp_phase) : list Z := match p with Creating => [] | Receiving sock => [sock] end.
Definition udp_opens (p : udp_phase) (d : Dev) : list Z :=
  match p with
  | Creating => let sock := fst (udp_socket (world d)) in if bool_decide (0 <= sock)%Z then [sock] else []
  | Receiving _ => []
  end.

(** The steps of [System.step] and the turns of the discovery server, with the
    sockets opened so far: those [accept] handed out and those the server
    created. [accept] answers a descriptor no live connection uses; a receive
    task ends once, on its own socket. *)
Inductive history : list Z -> udp_phase -> Dev -> Prop :=
  | history_boot d : booted d -> history [] Creating d
  | history_accept opened p d sock ip :
      history opened p d -> (0 <= sock)%Z -> slot_of sock (pool d) = None ->
      history (sock :: opened) p (exec (tcp_accept sock ip) d)
  | history_recv opened p d si s ev rx :
      history opened p d -> pool d !! si = Some s -> (0 <= ls_sock s)%Z ->
      history opened p (exec (recv_step si (ls_sock s) ev rx) d)
  | history_exit opened p d sock si :
      history opened p d -> (0 <= sock)%Z -> slot_of sock (pool d) = Some si ->
      history opened p (exec (recv_exit sock) d)
  | history_send opened p d : history opened p d -> history opened p (exec tcp_response_send_step d)
  | history_timeout opened p d :
      history opened p d -> wp_timer (wpair d) = true -> history opened p (exec pairing_timeout_cb d)
  | history_udp opened p d :
      history opened p d ->
      history (udp_opens p d ++ opened) (eval (udp_server_task_step p) d) (exec (udp_server_task_step p) d).

(** [mine]: the sockets that are neither a session's nor closed. *)
Record accounted (opened mine : list Z) (d : Dev) : Prop := {
  ac_all : opened ≡ₚ live d ++ mine ++ closes (out d);
  ac_rows : connected (accounts d) ≡ₚ live d;
  ac_nodup : NoDup (live d);
  ac_slots : length (pool d) = LOCAL_SESSION_MAX;
  ac_table : accounts_ok (accounts d);
}.

(** Only the sockets matter. *)
Lemma accounted_conns opened mine d d' : conns d' = conns d -> accounted opened mine d -> accounted opened mine d'.
Proof.
  intros E [H1 H2 H3 H4 H5]. destruct (conns_live _ _ E) as (E1 & E2 & E3). split; rewrite ?E1, ?E2, ?E3; try done.
  unfold conns in E. injection E as E _ _. apply (f_equal length) in E. rewrite !length_fmap in E. congruence.
Qed.

(** A socket that is turned away is closed. *)
Lemma accounted_reject opened mine sock d : accounted opened mine d -> accounted (sock :: opened) mine (exec (reject sock) d).
Proof.
  intros [H1 H2 H3 H4 H5]. unfold reject. rewrite exec_bind. split; try done.
  cbn. rewrite !closes_app, app_nil_r. cbn. rewrite H1, !app_assoc. apply Permutation_cons_append.
Qed.

Lemma not_live sock d : (0 <= sock)%Z -> slot_of sock (pool d) = None -> ~ sock ∈ live d.
Proof. intros Hs Hn Hin. apply slot_of_live in Hin as [si E]; [congruence|lia]. Qed.

(** Out of the registry again. *)
Lemma remove_row sock d l :
  accounts_ok (accounts d) -> NoDup (sock :: l) -> connected (accounts d) ≡ₚ sock :: l ->
  accounts_ok (accounts (exec (remove_account sock) d)) /\ connected (accounts (exec (remove_account sock) d)) ≡ₚ l.
Proof.
  intros Hok Hnd Hp. assert (NoDup (connected (accounts d))) as Hd by by rewrite Hp.
  destruct (remove_account_spec sock d Hok Hd) as (R1 & R2 & R3). split; [done|]. apply NoDup_Permutation; [done|by inversion Hnd|].
  intros x. rewrite R3, Hp. inversion Hnd; subst. set_solver.
Qed.

Lemma accounted_exit opened mine sock d :
  accounted opened mine d -> (0 <= sock)%Z -> sock ∈ live d -> accounted opened mine (exec (recv_exit sock) d).
Proof.
  intros [H1 H2 H3 H4 H5] Hs Hin. unfold recv_exit. rewrite exec_bind.
  destruct (release_live sock d Hs Hin) as (R1 & R2 & R3 & R4). set (d1 := exec (local_session_release sock) d) in *.
  rewrite exec_bind. destruct (remove_row sock d1 (live d1)) as [R5 R6]; [by rewrite R2|by rewrite R1|by rewrite R2, R1|].
  set (d2 := exec (remove_account sock) d1) in *. rewrite exec_bind. split.
  - change (live _) with (live d1). cbn. rewrite !closes_app. cbn. change (out d2) with (out d1). rewrite R3, app_nil_r.
    rewrite H1, <- R1, !app_assoc. by rewrite <- Permutation_cons_append.
  - exact R6.
  - change (NoDup (live d1)). rewrite <- R1 in H3. by inversion H3.
  - change (length (pool d1) = LOCAL_SESSION_MAX). congruence.
  - exact R5.
Qed.

(** A connection that got its row and its slot, or only its row. *)
Lemma row_added sock d :
  accounts_ok (accounts d) ->
  conns (exec (add_account sock) d) = (ls_sock <$> pool d, accounts (exec (add_account sock) d), closes (out d)).
Proof. intros _. unfold add_account. rewrite exec_bind, eval_gets, exec_gets. by case_bool_decide. Qed.

Lemma accounted_undo opened mine sock d :
  accounted opened mine d -> forall d1, accounts_ok (accounts d1) -> connected (accounts d1) ≡ₚ sock :: live d -> ~ sock ∈ live d ->
  live d1 ≡ₚ live d -> closes (out d1) = closes (out d) -> length (pool d1) = length (pool d) ->
  accounted (sock :: opened) mine (exec (remove_account sock ;; reject sock) d1).
Proof.
  intros [H1 H2 H3 H4 H5] d1 Hok Hp Hn El Ec Ep. rewrite exec_bind. apply accounted_reject.
  destruct (remove_row sock d1 (live d) Hok) as [R5 R6]; [by constructor|done|].
  split; [|by change (live _) with (live d1); rewrite El|change (NoDup (live d1)); by rewrite El|cbn; congruence|done].
  change (live _) with (live d1). change (out _) with (out d1). by rewrite El, Ec.
Qed.

Lemma accounted_accept opened mine sock ip d :
  accounted opened mine d -> (0 <= sock)%Z -> slot_of sock (pool d) = None ->
  accounted (sock :: opened) mine (exec (tcp_accept sock ip) d).
Proof.
  intros Ha Hs Hn. unfold tcp_accept. rewrite exec_bind. change (exec local_session_count d) with d.
  rewrite exec_bind. set (m1 := if bool_decide _ then _ else _).
  assert (frames conns m1) as Hm.
  { assert (forall l, frames conns (shutdown_matching ip l)) as Hl.
    { induction l as [|s l IH]; cbn [shutdown_matching]; conns_solve; exact IH. }
    unfold m1, local_session_shutdown_peer. conns_solve; apply Hl. }
  specialize (Hm d). set (d1 := exec m1 d) in *. pose proof (accounted_conns _ _ _ _ Hm Ha) as Ha1.
  assert (~ sock ∈ live d1) as Hn1 by (rewrite (proj1 (conns_live _ _ Hm)); by apply not_live).
  destruct (eval m1 d); [rewrite exec_bind; by apply accounted_reject|]. rewrite exec_bind.
  pose proof (row_added sock d1 (ac_table _ _ _ Ha1)) as Er. pose proof (add_account_spec sock d1 (ac_table _ _ _ Ha1)) as Hadd.
  destruct (eval (add_account sock) d1); cbn [negb]; [|destruct Hadd as [-> _]; rewrite exec_bind; by apply accounted_reject].
  destruct Hadd as [Hok2 Hc2]. set (d2 := exec (add_account sock) d1) in *.
  assert (live d2 = live d1) as El2 by (unfold conns in Er; injection Er as Er _; unfold live; by rewrite Er).
  assert (closes (out d2) = closes (out d1)) as Ec2 by (unfold conns in Er; by injection Er).
  assert (length (pool d2) = length (pool d1)) as Ep2.
  { unfold conns in Er. injection Er as Er _. apply (f_equal length) in Er. by rewrite !length_fmap in Er. }
  assert (connected (accounts d2) ≡ₚ sock :: live d1) as Hc2' by (rewrite Hc2, (ac_rows _ _ _ Ha1); symmetry; apply Permutation_cons_append).
  clearbody d2 d1. clear Er Hc2 Hm m1. rewrite exec_bind. pose proof (acquire_live sock ip d2 Hs) as Hacq.
  destruct (eval (local_session_acquire sock ip) d2) as [si|].
  2:{ rewrite Hacq. apply (accounted_undo opened mine sock d1 Ha1 d2); [done..|by rewrite El2|done|done]. }
  destruct Hacq as (A1 & A2 & A3 & A4). set (d3 := exec (local_session_acquire sock ip) d2) in *. clearbody d3.
  rewrite exec_bind. change (exec (ask ?f) d3) with d3. destruct (eval _ d3).
  - rewrite exec_bind. apply (accounted_conns _ _ d3); [apply conns_emit; done|]. destruct Ha1 as [H1 H2 H3 H4 H5].
    split; [by rewrite A1, A3, El2, Ec2, H1|by rewrite A2, A1, El2|rewrite A1, El2; by constructor|congruence|by rewrite A2].
  - rewrite exec_bind. destruct (release_live sock d3 Hs) as (R1 & R2 & R3 & R4); [rewrite A1; left|].
    set (d4 := exec (local_session_release sock) d3) in *. clearbody d4.
    assert (live d4 ≡ₚ live d1) as El4 by (apply (Permutation_cons_inv (a := sock)); by rewrite R1, A1, El2).
    apply (accounted_undo opened mine sock d1 Ha1 d4); [by rewrite R2, A2|by rewrite R2, A2|done|done|congruence|congruence].
Qed.

(** Where the discovery server holds a socket, it is one. *)
Definition holds_socket (p : udp_phase) : Prop := match p with Creating => True | Receiving sock => sock <> (-1)%Z end.

Context {UL : UdpSocketLaws}.

(** The discovery server closes what it opened before it opens another. *)
Lemma udp_step_sockets p d :
  holds_socket p ->
  let d' := exec (udp_server_task_step p) d in let p' := eval (udp_server_task_step p) d in
  ls_sock <$> pool d' = ls_sock <$> pool d /\ accounts d' = accounts d /\ holds_socket p' /\
  held p' ++ closes (out d') ≡ₚ udp_opens p d ++ held p ++ closes (out d).
Proof.
  assert (forall s l, closes (l ++ [EvClose s]) ≡ₚ s :: closes l) as Hclose.
  { intros s l. rewrite closes_app. symmetry. apply Permutation_cons_append. }
  intros Hp. destruct p as [|sock]; cbn [udp_server_task_step udp_opens held].
  - pose proof (udp_socket_range (world d)) as Hs. unfold create_udp_socket, exec, eval, bind, io. cbv zeta.
    destruct (udp_socket (world d)) as [sock w]. cbn [fst] in Hs |- *.
    destruct (decide (sock < 0)%Z) as [Hneg|Hpos].
    + assert (sock = (-1)%Z) as -> by lia. by split_and!.
    + rewrite (bool_decide_eq_false_2 (sock < 0)%Z), (bool_decide_eq_true_2 (0 <= sock)%Z) by lia.
      destruct (udp_bind sock cy_udp_port (world _)) as [err w2]. destruct (bool_decide (err < 0)%Z) eqn:Ee; cbn [andb].
      * rewrite bool_decide_eq_true_2 by lia. cbn. rewrite Ee. split_and!; try done. apply Hclose.
      * unfold ret. rewrite Ee. split_and!; [done|done|cbn; lia|done].
  - assert (frames conns (udp_receive sock)) as Hr by (unfold udp_receive; conns_solve).
    specialize (Hr d). rewrite exec_bind, eval_bind. set (d1 := exec (udp_receive sock) d) in *.
    unfold conns in Hr. injection Hr as E1 E2 E3. destruct (eval (udp_receive sock) d).
    + rewrite exec_ret, eval_ret. cbn [held app]. by rewrite E1, E2, E3.
    + unfold udp_restart. rewrite (bool_decide_eq_true_2 (sock <> -1)%Z) by done. split_and!; [exact E1|exact E2|done|].
      cbn. rewrite <- app_assoc, closes_app. cbn. rewrite E3. symmetry. apply Permutation_cons_append.
Qed.

(** C12: no socket is lost and none is closed twice. However connections, bytes,
    timeouts, the ends of receive tasks, the send task, the timer and the
    discovery server interleave, and whatever the lines and datagrams say, the
    sockets opened so far are, one for one, those of the sessions, the one the
    discovery server holds, and those that were closed; the registry holds the
    sessions' sockets and no others; no two sessions share one, and there are
    never more than the pool has slots. *)
Theorem no_socket_leak opened p d :
  history opened p d ->
  opened ≡ₚ live d ++ held p ++ closes (out d) /\ connected (accounts d) ≡ₚ live d /\ NoDup (live d) /\
  length (live d) <= LOCAL_SESSION_MAX.
Proof.
  intros H. assert (holds_socket p /\ accounted opened (held p) d) as [_ [H1 H2 H3 H4 H5]].
  { induction H as [d []|? p d sock ip _ [IHp IH] Hs Hn|? p d si s ev rx _ [IHp IH] Hl Hs|? p d sock si _ [IHp IH] Hs Ho|
      ? p d _ [IHp IH]|? p d _ [IHp IH] _|? p d _ [IHp IH]].
    - split; [done|]. split; unfold live; rewrite ?bt_pool0, ?bt_accounts0, ?bt_out0; [done|done|constructor|done|split; [done|cbn; lia]].
    - split; [done|]. by apply accounted_accept.
    - split; [done|]. eapply accounted_conns; [apply conns_recv|done].
    - split; [done|]. apply accounted_exit; [done..|]. apply slot_of_live; [lia|by exists si].
    - split; [done|]. eapply accounted_conns; [apply conns_send_task|done].
    - split; [done|]. eapply accounted_conns; [apply conns_timeout|done].
    - destruct (udp_step_sockets p d IHp) as (E1 & E2 & Hp' & E3). split; [done|]. destruct IH as [H1 H2 H3 H4 H5].
      split; unfold live; rewrite ?E1, ?E2; try done.
      + fold (live d). rewrite E3, H1. apply Permutation_app_swap_app.
      + apply (f_equal length) in E1. rewrite !length_fmap in E1. congruence. }
  split_and!; [done..|]. unfold live. rewrite <- H4, <- (length_fmap ls_sock). apply length_filter.
Qed.
End Life.

(** ** On a concrete device *)

(** A network that hands out descriptor 50 and has no datagrams. *)
#[local] Instance quiet_net : UdpSockets := {|
  udp_socket := fun w => (50%Z, w);
  udp_bind := fun _ _ w => (0%Z, w);
  recvfrom := fun _ _ w => (None, w);
  sendto := fun _ _ _ w => (0%Z, w);
|}.
#[local] Instance quiet_net_laws : UdpSocketLaws.
Proof. split. intros w. discriminate. Defined.

(** The discovery server starts, two phones connect, the first one leaves. *)
Lemma no_socket_leak_witness :
  exists d, history [61%Z; 60%Z; 50%Z] (Receiving 50) d /\ live d = [61%Z] /\
    [61%Z; 60%Z; 50%Z] ≡ₚ live d ++ [50%Z] ++ closes (out d).
Proof.
  set (d0 := exec (udp_server_task_step Creating) blank).
  set (d1 := exec (tcp_accept 60 167772162) d0). set (d2 := exec (tcp_accept 61 167772163) d1).
  assert (history [61%Z; 60%Z; 50%Z] (Receiving 50) (exec (recv_exit 60) d2)) as Hh.
  { eapply (history_exit _ _ _ 60 0); [|discriminate|vm_compute; reflexivity].
    apply (history_accept [60%Z; 50%Z] (Receiving 50) d1 61 167772163); [|discriminate|vm_compute; reflexivity].
    apply (history_accept [50%Z] (Receiving 50) d0 60 167772162); [|discriminate|vm_compute; reflexivity].
    assert (udp_opens Creating blank ++ [] = [50%Z]) as E1 by (vm_compute; reflexivity).
    assert (eval (udp_server_task_step Creating) blank = Receiving 50) as E2 by (vm_compute; reflexivity).
    rewrite <- E1, <- E2. apply (history_udp [] Creating blank), history_boot. split; reflexivity. }
  exists (exec (recv_exit 60) d2). split; [exact Hh|]. split; [vm_compute; reflexivity|].
  exact (proj1 (no_socket_leak _ _ _ Hh)).
Defined.
