(* ===== verification/AwsSession.v ===== *)
(** * AwsSession: the traffic of the broker task

    Publishing through the table of outgoing messages, the two queues that are
    drained to the broker, deadlines, and the number of attempts. *)

From S2P Require Import Prelude Platform Radio State LocalSession Mdns Provisioning PairingEvents ResponseFifo ClientList TcpServer UdpScan Backoff.
From S2P Require Import MqttTypes MqttState MqttSerializer MqttCore NetworkTransport AwsIot.
From S2P Require Import MqttStateProps MqttWire MqttCoreProps MqttFrame MqttClient AwsFrame QueueProps.
From Stdlib Require Import ZArith Lia.
From stdpp Require Import base list strings numbers.

Local Open Scope cything_scope.

Section Traffic.
Context {P : Platform} {C : Config} {A : AwsConfig} {N : EspTls} {TL : EspTlsLaws} (fuel : nat).

(** ** Publishing *)





#[local] Instance dev_aside : Aside aw_dev.
Proof. done. Qed.



(** ** The callback is one the client's theorems allow *)

(** What is neither the context nor the connection may change. *)
Lemma mindful_aside (m : aws -> aws) : (forall s, aw_ctx (m s) = aw_ctx s /\ aw_net (m s) = aw_net s) -> moves mindful (upd m).
Proof. intros H s Hf. unfold handled, arrived. cbn. destruct (H s) as [-> ->]. done. Qed.
Lemma mindful_dev {X} (m : M X) : moves mindful (on_dev m).
Proof. intros s. unfold on_dev. destruct (m (aw_dev s)). intros Hf. done. Qed.
Lemma mindful_get {X} (g : aws -> X) : moves mindful (get g).
Proof. intros s Hf. done. Qed.

Lemma mindful_delay t : moves mindful (on_net_ (vTaskDelay t)).
Proof. intros s Hf. unfold handled, arrived. cbn. by rewrite delay_wire. Qed.

#[local] Hint Resolve mindful_delay mindful_dev mindful_get mindful_id mindful_publish : moves.
#[local] Hint Extern 2 (moves mindful (upd _)) => (apply mindful_aside; done) : moves.

(** Whatever the broker sends and whatever the application's hook does. *)
#[export] Instance aws_app_laws : MqttAppLaws (A := aws_app fuel).
Proof.
  split. intros pk d s s' u Hf E. revert Hf. fold (mindful s s'). change (appCallback pk d) with (eventCallback fuel pk d) in E.
  refine (moves_done (eventCallback fuel pk d) s u s' _ E). clear s s' u E.
  assert (forall t m, moves mindful (publishToTopic fuel t m)) as Hpub.
  { intros t m. unfold publishToTopic, set_packet, cleanupOutgoingPublishAt. moves_solve. }
  assert (forall cs, moves mindful (run_hook_calls fuel cs)) as Hcalls.
  { induction cs as [|c cs IH]; cbn [run_hook_calls]; unfold mqtt_publish_response; moves_solve. }
  unfold eventCallback, handleIncomingPublish, updateSubAckStatus, cleanupOutgoingPublishWithPacketID, cleanupOutgoingPublishAt,
    process_aws_iot_command, process_aws_iot_get_info_command, process_aws_iot_update_fw_response, topic_is, memcmp_at, calloc, require.
  moves_solve.
Qed.

(** ** The pairing events *)

(** Time passes; nothing else. *)
Definition same_but_time (s s' : aws) : Prop := exists w, s' = set_aw_net w s /\ tls_wire w = tls_wire (aw_net s).

Lemma same_but_time_refl s : same_but_time s s.
Proof. exists (aw_net s). by destruct s. Qed.







(** ** The responses *)

(** The response FIFO is emptied before the message is handed over, and the
    result of handing it over is not looked at: when no row of the table is free
    the lines are lost, nothing having been sent. *)
Theorem full_table_loses_responses s :
  getNextFreeIndexForOutgoingPublishes (outgoingPublishPackets s) = None ->
  is_connected_to_server s = true ->
  (u32 ((xTaskGetTickCount (aw_net s)).1 - mqtt_last_send_tick s) >= pdMS_TO_TICKS (mqtt_period (aw_dev s)))%Z ->
  fifo_ok (mqtt_fifo (aw_dev s)) -> contents (mqtt_fifo (aw_dev s)) <> [] ->
  exists s', drain_responses fuel s = Done (tt, s') /\ contents (mqtt_fifo (aw_dev s')) = [] /\ wire s' = wire s.
Proof.
  intros Hfull Hc Hdue Hf Hne. pose proof (ticks_wire (aw_net s)) as Hw.
  unfold drain_responses, period_over, mqtt_response_get_period_ms, publishToTopic.
  #[local] Transparent pbind pret run access.
  unfold pbind, get, on_net, upd, on_dev, modify, pret. rewrite Hc. cbn [negb].
  destruct (xTaskGetTickCount (aw_net s)) as [now w]. cbn [fst snd] in *. rewrite bool_decide_eq_true_2 by done. cbn [negb].
  change (mqtt_fifo (aw_dev (set_aw_net w s))) with (mqtt_fifo (aw_dev s)).
  assert (response_fifo_is_empty (mqtt_fifo (aw_dev s)) = false) as ->.
  { unfold response_fifo_is_empty. apply bool_decide_eq_false_2. intros E. apply Hne. unfold contents. by rewrite E. }
  destruct (drain_all _ Hf) as (f' & -> & _ & Hf'). cbn [aw_dev outgoingPublishPackets set_aw_dev set_aw_net].
  rewrite Hfull. cbn [aw_net set_aw_dev set_aw_net]. pose proof (ticks_wire w) as Hw2. destruct (xTaskGetTickCount w) as [now2 w2].
  cbn [snd] in Hw2. eexists. split; [done|]. cbn. rewrite Hf'. split; [done|]. congruence.
Qed.
(** ** Deadlines *)

(** The deadline of a wait is an absolute time of a 32-bit clock: when it
    wraps past zero, the wait for an acknowledgement gives up and the loop that
    serves the session returns before they have read anything. *)
Theorem deadlines_past_at_the_wrap id t s :
  let '(now, w) := Clock_GetTimeMs (aw_net s) in
  (2 ^ 32 <= now + t)%Z -> (0 <= t < 2 ^ 32)%Z -> id <> 0%Z ->
  waitForPacketAck fuel id t s = Done (EXIT_FAILURE, set_aw_net w (set_globalAckPacketIdentifier 0 s)) /\
  processLoopWithTimeout fuel t s = Done (MQTTSuccess, set_aw_net w s).
Proof.
  pose proof (clock_u32 s) as Hr. unfold getTime in Hr. cbn in Hr.
  destruct (Clock_GetTimeMs (aw_net s)) as [now w] eqn:E. cbn [fst] in Hr. intros H1 H2 Hid.
  assert (bool_decide (now < u32 (now + t))%Z = false) as Hd.
  { apply bool_decide_eq_false_2. replace (u32 (now + t)) with (now + t - 2 ^ 32)%Z; [lia|]. unfold u32, wrap.
    rewrite <- (Z.mod_small (now + t - 2 ^ 32) (2 ^ 32)) at 1 by lia.
    replace (now + t - 2 ^ 32)%Z with (now + t + (-1) * 2 ^ 32)%Z by lia. by rewrite Z_mod_plus_full. }
  assert (forall s', aw_net s' = aw_net s -> run getTime s' = Done (now, set_aw_net w s')) as Hclock.
  { intros s' Es. unfold run, getTime. cbn. by rewrite Es, E. }
  split.
  - unfold waitForPacketAck. unfold pbind, upd, get at 1. rewrite Hclock by done. destruct fuel; cbn [wait_loop].
    all: unfold pbind, get; rewrite Hd, andb_false_r; unfold pret; cbn [andb].
    all: change (globalAckPacketIdentifier _) with 0%Z; by rewrite bool_decide_eq_true_2, orb_true_r by done.
  - unfold processLoopWithTimeout, pbind. rewrite Hclock by done. destruct fuel; cbn [process_loop]; by rewrite Hd.
Qed.

#[local] Opaque pbind pret run access.

(** ** Attempts *)

(** The loop with [rest] where a further attempt would be. *)
Fixpoint attempts (rest : PT aws (bool * bool)) (n : nat) (params : BackoffAlgorithmContext_t) (c b : bool) : PT aws (bool * bool) :=
  match n with
  | O => rest
  | S n =>
      let! tlsStatus := on_tls xTlsConnect in
      let! (returnStatus, b) :=
        (if bool_decide (tlsStatus = TLS_TRANSPORT_SUCCESS) then
           let! (returnStatus, b) := establishMqttSession fuel (negb c) b in
           if returnStatus then pret (EXIT_SUCCESS, b) else on_tls xTlsDisconnect ;! pret (EXIT_FAILURE, b)
         else on_tls xTlsDisconnect ;! pret (EXIT_FAILURE, b)) in
      if returnStatus then pret (EXIT_SUCCESS, b) else
      let! (backoffAlgStatus, params) := next_attempt params in
      match backoffAlgStatus with
      | BackoffAlgorithmSuccess => attempts rest n params c b
      | BackoffAlgorithmRetriesExhausted => pret (EXIT_FAILURE, b)
      end
  end.

(** [k] more attempts are allowed. *)
Definition left_over (k : nat) (ps : BackoffAlgorithmContext_t) : Prop :=
  maxRetryAttempts ps = CONNECTION_RETRY_MAX_ATTEMPTS /\ attemptsDone ps = (CONNECTION_RETRY_MAX_ATTEMPTS - Z.of_nat k)%Z.

Lemma next_attempt_left k ps s :
  k <= 5 -> left_over k ps ->
  wlp (next_attempt ps)
    (fun r _ => r.1 = BackoffAlgorithmSuccess -> match k with O => False | S k => left_over k r.2 end) s.
Proof.
  intros Hk [Hm Ha]. unfold next_attempt. apply wlp_bind, wlp_any. intros r s1. unfold BackoffAlgorithm_GetNextBackoff.
  rewrite Hm, Ha. unfold CONNECTION_RETRY_MAX_ATTEMPTS. rewrite (bool_decide_eq_false_2 (5 = _)%Z) by done. cbn [orb].
  case_bool_decide as E; [|by apply wlp_pret]. apply wlp_bind, wlp_any. intros u s2. apply wlp_pret. cbn [fst snd]. intros _.
  destruct k as [|k]; [lia|]. split; [done|]. cbn [attemptsDone]. rewrite (wrap_small 32) by lia. unfold CONNECTION_RETRY_MAX_ATTEMPTS. lia.
Qed.

(** The loop of connection attempts ends after six attempts at the latest,
    whatever the network does: nothing depends on what a seventh would be. *)
Theorem at_most_six_attempts rest extra c b s :
  connect_loop fuel (6 + extra) retry_params c b s = attempts rest 6 retry_params c b s.
Proof.
  assert (left_over 5 retry_params) as Hl by done. revert Hl. generalize retry_params as ps.
  assert (forall k ps b s, k <= 5 -> left_over k ps ->
    connect_loop fuel (S k + extra) ps c b s = attempts rest (S k) ps c b s) as H; [|intros ps Hl; by apply (H 5)].
  clear b s. intros k. induction k as [|k IH]; intros ps b s Hk Hl; cbn [connect_loop attempts Nat.add].
  all: apply pbind_ext, wlp_any; intros tls s1; apply pbind_ext, wlp_any; intros [[|] br] s2; [done|].
  all: apply pbind_ext.
  - eapply wlp_mono; [by apply (next_attempt_left 0)|]. intros [[|] ps'] s3 H; [destruct (H eq_refl)|done].
  - eapply wlp_mono; [by apply (next_attempt_left (S k))|]. intros [[|] ps'] s3 H; [|done]. apply IH; [lia|by apply H].
Qed.
End Traffic.
