(* ===== verification/FlowProps.v ===== *)
(** * FlowProps: the flows that change what the device is

    Wi-Fi pairing refines a four-state machine, received bytes are cut into
    exactly the lines that were sent, and provisioning takes a certificate
    apart and puts it together again. *)

From S2P Require Import Prelude Platform State LocalSession Mdns EncFrame ResponseFifo ClientList Flash.
From S2P Require Import WifiPairing Provisioning TcpServer SimPlatform SimDevices.
From stdpp Require Import base list strings numbers.
From Stdlib Require Import ZArith Lia.

Local Open Scope cything_scope.

(** ** Wi-Fi pairing as a state machine *)

Section WifiMachine.
Context {P : Platform} {C : Config}.

Inductive pairing_input := PStart | PSsid (v : bytes) | PPass (v : bytes) | PFinish | POther.

(** What follows a prefix in a text that starts with it. *)
Fixpoint after (prefix text : bytes) : option bytes :=
  match prefix, text with
  | [], _ => Some text
  | p :: prefix, c :: text => if bool_decide (c = p) then after prefix text else None
  | _ :: _, [] => None
  end.

Definition starts (p text : bytes) : bool := match after p text with Some _ => true | None => false end.

(** The value a line carries: what stands between the prefix and the newline
    the line was sent with, at most 127 bytes of it. A NUL ends the line, and a
    line that a NUL cuts off before its newline carries nothing. *)
Definition sent_value (prefix line : bytes) : option bytes :=
  match after prefix (cstr (line ++ [NL; NUL])) with
  | Some rest => match rev rest with c :: v => if bool_decide (c = NL) then Some (take 127 (rev v)) else None | [] => None end
  | None => None
  end.

(** What a line says to the machine. *)
Definition pairing_input_of (line : bytes) : pairing_input :=
  if starts (str "StartP") line then PStart
  else match sent_value cy_router_ssid_prefix line with
  | Some v => PSsid v
  | None => match sent_value cy_router_pass_prefix line with
    | Some v => PPass v
    | None => if starts (str "FinishP") line then PFinish else POther
    end
  end.

Inductive phase := Idle | WantSsid | WantPass (ssid : bytes) | Ready (ssid pass : bytes).
Inductive reaction := Silent | Ack | Commit (ssid pass : bytes).

(** The specification: credentials are committed only by a FinishP that follows
    StartP, an SSID and a password in this order; StartP starts over. *)
Definition machine (ph : phase) (i : pairing_input) : phase * reaction :=
  match i, ph with
  | PStart, _ => (WantSsid, Ack)
  | PSsid v, WantSsid => (WantPass v, Ack)
  | PPass v, WantPass s => (Ready s v, Ack)
  | PFinish, Ready s p => (Idle, Commit s p)
  | _, _ => (ph, Silent)
  end.

Definition phase_of (p : pairing_state) : phase :=
  if bool_decide (wp_step p = SET_ROUTER_SSID_IND) then WantSsid
  else if bool_decide (wp_step p = SET_ROUTER_PASS_IND) then WantPass (wp_ssid p)
  else if bool_decide (wp_step p = FINISH_PAIRING_IND) then Ready (wp_ssid p) (wp_password p)
  else Idle.

(** The state a reaction leaves: [p'] is the new pairing state. *)
Definition reacts (r : reaction) (sock : Z) (p' : pairing_state) (d d' : Dev) : Prop :=
  match r with
  | Silent => d' = d
  | Ack => d' = exec (ack sock) (set_wpair p' d)
  | Commit s p => d' = exec (ack sock) (set_wpair p' (exec (pairing_commit s p) d))
  end.

Lemma commit_frame s p d : wpair (exec (pairing_commit s p) d) = wpair d.
Proof.
  unfold pairing_commit, flash_store_wifi_router_info, flash_read_wifi_router_info, ota_set_new_erase_partition,
    ota_set_new_write_partition, ota_set_new_read_partition, ota_erase, ota_write, ota_read, upd_flash, reboot_after_ms, io, ask.
  st_unfold. destruct d. cbn. repeat (case_match; simplify_eq; cbn in * ); done.
Qed.

Lemma ack_frame sock d : wpair (exec (ack sock) d) = wpair d.
Proof. done. Qed.

Lemma after_spec p t r : after p t = Some r <-> t = p ++ r.
Proof.
  revert t. induction p as [|x p IH]; intros [|c t]; cbn; try (split; naive_solver).
  case_bool_decide as E; [subst; rewrite IH|]; split; naive_solver.
Qed.

Lemma after_prefix p line : has_prefix line p = starts p line.
Proof.
  apply eq_true_iff_eq. rewrite has_prefix_spec. setoid_rewrite <- after_spec. unfold starts.
  destruct (after p line); split; naive_solver.
Qed.

(** The code's test and copy compute the value that was sent. *)
Lemma parser_exact p line :
  sent_value p line
  = if is_pairing_command_valid (cstr (cbuf line)) p SET_ROUTER_SUFFIX
    then Some (copy_pairing_value (cstr (cbuf line)) p SET_ROUTER_SUFFIX TEMP_SIZE) else None.
Proof.
  unfold sent_value, cbuf. set (t := cstr _). clearbody t. unfold is_pairing_command_valid, SET_ROUTER_SUFFIX. cbv zeta. cbn [length].
  destruct (after p t) as [r|] eqn:E.
  - apply after_spec in E as ->. rewrite length_app.
    destruct r as [|c v _] using rev_ind; [cbn [length rev]; rewrite bool_decide_eq_true_2 by lia; done|].
    rewrite rev_app_distr, length_app. cbn [rev app length].
    rewrite (bool_decide_eq_false_2 (_ < _)) by lia. unfold memcmp_eq. rewrite take_app_length, (bool_decide_eq_true_2 (p = p)) by done.
    replace (length p + (length v + 1) - 1) with (length (p ++ v)) by (rewrite length_app; lia).
    rewrite app_assoc, drop_app_length. cbn [length take andb].
    rewrite rev_involutive. destruct (decide (c = NL)) as [->|Hc]; [|by rewrite !bool_decide_eq_false_2 by naive_solver].
    rewrite !(bool_decide_eq_true_2 (_ = _)) by done. f_equal. unfold copy_pairing_value, TEMP_SIZE. cbv zeta.
    rewrite !length_app. cbn [length]. rewrite <- app_assoc, drop_app_length.
    case_bool_decide; rewrite take_app_le by lia; [done|]. by rewrite !firstn_all2 by lia.
  - case_bool_decide as Hl; [done|]. destruct (memcmp_eq t p) eqn:Em; [|done]. exfalso.
    assert (has_prefix t p = true) as Hh by (unfold has_prefix; rewrite Em, bool_decide_eq_true_2 by lia; done).
    rewrite after_prefix in Hh. unfold starts in Hh. rewrite E in Hh. done.
Qed.

(** A line without a NUL carries what follows its prefix. *)
Lemma sent_value_plain p v :
  Forall (fun c => c <> 0%Z) (p ++ v) -> sent_value p (p ++ v) = Some (take 127 v).
Proof.
  intros H. unfold sent_value. change [NL; NUL] with ([NL] ++ 0%Z :: []). rewrite app_assoc, cstr_app_nul.
  - rewrite <- app_assoc, (proj2 (after_spec p _ (v ++ [NL])) eq_refl), rev_app_distr. cbn. by rewrite rev_involutive.
  - apply Forall_app_2; [done|]. by repeat constructor.
Qed.

Lemma pairing_refines line sock d :
  let ph := phase_of (wpair d) in
  let i := pairing_input_of line in
  let d' := exec (pairing_handle_line line sock) d in
  exists p', reacts (snd (machine ph i)) sock p' d d' /\ phase_of (wpair d') = fst (machine ph i) /\
    eval (pairing_handle_line line sock) d = match i with POther => false | _ => true end.
Proof.
  cbv zeta. unfold pairing_handle_line, pairing_input_of. cbv zeta. rewrite exec_bind, eval_bind, eval_gets, exec_gets.
  rewrite !memcmp_cbuf by (repeat constructor; done). rewrite !after_prefix, !parser_exact.
  change (str "StartP") with START_PAIRING. change (str "FinishP") with FINISH_PAIRING.
  destruct (starts START_PAIRING line).
  { exists (set_wp_timer true (set_wp_step SET_ROUTER_SSID_IND (wpair d))). by destruct d. }
  destruct (is_pairing_command_valid _ cy_router_ssid_prefix _).
  { set (v := copy_pairing_value _ _ _ _).
    destruct (bool_decide (wp_step (wpair d) = SET_ROUTER_SSID_IND)) eqn:E.
    - exists (set_wp_timer true (set_wp_step SET_ROUTER_PASS_IND (set_wp_ssid v (wpair d)))).
      unfold phase_of at 1 3. rewrite E. by destruct d.
    - exists (wpair d). assert (machine (phase_of (wpair d)) (PSsid v) = (phase_of (wpair d), Silent)) as ->; [|done].
      unfold phase_of. rewrite E. by repeat case_bool_decide. }
  destruct (is_pairing_command_valid _ cy_router_pass_prefix _).
  { set (v := copy_pairing_value _ _ _ _).
    destruct (bool_decide (wp_step (wpair d) = SET_ROUTER_PASS_IND)) eqn:E.
    - exists (set_wp_timer true (set_wp_step FINISH_PAIRING_IND (set_wp_password v (wpair d)))).
      apply bool_decide_eq_true in E. unfold phase_of at 1 3. rewrite E. by destruct d as [? ? ? ? ? ? ? ? [] ? ? ? ? ? ? ? ? ? ? ? ? ?].
    - exists (wpair d). assert (machine (phase_of (wpair d)) (PPass v) = (phase_of (wpair d), Silent)) as ->; [|done].
      unfold phase_of. rewrite E. by repeat case_bool_decide. }
  destruct (starts FINISH_PAIRING line); [|by exists (wpair d)].
  destruct (bool_decide (wp_step (wpair d) = FINISH_PAIRING_IND)) eqn:E.
  - exists (set_wp_timer false (set_wp_step START_PAIRING_IND (wpair d))).
    assert (phase_of (wpair d) = Ready (wp_ssid (wpair d)) (wp_password (wpair d))) as ->.
    { apply bool_decide_eq_true in E. unfold phase_of. by rewrite E. }
    cbn [machine fst snd reacts when]. rewrite !exec_bind, eval_gets, exec_gets, !eval_bind.
    rewrite exec_ret, eval_ret.
    pose proof (commit_frame (wp_ssid (wpair d)) (wp_password (wpair d)) d) as Hw.
    set (d1 := exec (pairing_commit _ _) d) in *. unfold pairing_done, upd_wpair.
    assert (exec (modify (fun d => set_wpair (set_wp_timer false (wpair d)) d))
              (exec (modify (fun d => set_wpair (set_wp_step START_PAIRING_IND (wpair d)) d)) d1)
            = set_wpair (set_wp_timer false (set_wp_step START_PAIRING_IND (wpair d))) d1) as ->
      by (rewrite <- Hw; by destruct d1).
    split_and!; [done| |done]. by rewrite ack_frame.
  - exists (wpair d). assert (machine (phase_of (wpair d)) PFinish = (phase_of (wpair d), Silent)) as ->; [|done].
    unfold phase_of. rewrite E. by repeat case_bool_decide.
Qed.

(** C14: the line handler of Wi-Fi pairing implements the machine, whatever
    phase it is in and whatever line arrives: each line moves the phase as the
    machine does, answers ACK exactly where it does, and runs the commit exactly
    on the FinishP the machine commits on, with the SSID and the password the
    lines carried. What a line carries is read off its text and not through the
    code's parser: the bytes between the prefix and the newline, of which 127
    are kept (the size of the firmware's buffers), in the line up to its first
    NUL. A line the machine does not know changes nothing and is passed on. *)
Theorem wifi_pairing_refines_machine line sock d :
  let ph := phase_of (wpair d) in
  let i := pairing_input_of line in
  let d' := exec (pairing_handle_line line sock) d in
  exists p', reacts (snd (machine ph i)) sock p' d d' /\ phase_of (wpair d') = fst (machine ph i) /\
    eval (pairing_handle_line line sock) d = match i with POther => false | _ => true end.
Proof. apply pairing_refines. Qed.

(** The phases a run of lines goes through. *)
Definition run_lines (ls : list (bytes * Z)) : M unit :=
  for_each ls (fun l => pairing_handle_line (fst l) (snd l) ;; ret tt).

Lemma run_lines_phase ls d :
  phase_of (wpair (exec (run_lines ls) d))
  = foldl (fun ph l => fst (machine ph (pairing_input_of (fst l)))) (phase_of (wpair d)) ls.
Proof.
  revert d. induction ls as [|[l k] ls IH]; intros d; [done|].
  change (exec (run_lines ((l, k) :: ls)) d) with (exec (run_lines ls) (exec (pairing_handle_line l k ;; ret tt) d)).
  rewrite IH, exec_bind. change (exec (ret tt) ?x) with x. cbn [foldl fst].
  destruct (pairing_refines l k d) as (p' & _ & -> & _). done.
Qed.

(** whatever lines came before, and from whatever sockets, the credentials
    that a FinishP commits are the SSID of the last accepted ssid line and the
    password of the last accepted pass line since the last StartP. *)
Theorem commit_uses_last_sequence before ssid pass s p sock d :
  pairing_input_of ssid = PSsid s -> pairing_input_of pass = PPass p -> pairing_input_of FINISH_PAIRING = PFinish ->
  let d1 := exec (run_lines (before ++ [(START_PAIRING, sock); (ssid, sock); (pass, sock)])) d in
  exists p', exec (pairing_handle_line FINISH_PAIRING sock) d1
    = exec (ack sock) (set_wpair p' (exec (pairing_commit s p) d1)).
Proof.
  intros Hs Hp Hfin d1. pose proof (run_lines_phase (before ++ [(START_PAIRING, sock); (ssid, sock); (pass, sock)]) d) as Hph.
  fold d1 in Hph. rewrite foldl_app in Hph. cbn [foldl fst] in Hph.
  assert (pairing_input_of START_PAIRING = PStart) as Hst by done. rewrite Hst, Hs, Hp in Hph. cbn [machine fst] in Hph.
  destruct (pairing_refines FINISH_PAIRING sock d1) as (p' & Hr & _). exists p'. rewrite Hph in Hr.
  rewrite Hfin in Hr. exact Hr.
Qed.

End WifiMachine.

Definition home_ssid : bytes := cy_router_ssid_prefix ++ str "home".
Definition home_pass : bytes := cy_router_pass_prefix ++ str "secret".

Example commit_uses_last_sequence_witness :
  let d1 := exec (run_lines ([(home_ssid, 55%Z); (str "LIST", 56%Z)]
                             ++ [(START_PAIRING, 54%Z); (home_ssid, 54%Z); (home_pass, 54%Z)])) sim_home in
  exists p', exec (pairing_handle_line FINISH_PAIRING 54) d1
    = exec (ack 54) (set_wpair p' (exec (pairing_commit (str "home") (str "secret")) d1)).
Proof.
  cbv zeta. apply commit_uses_last_sequence; vm_compute; reflexivity.
Defined.

(** ** Lines out of bytes *)

Section Framing.
Context {P : Platform} {C : Config}.

(** The receive loop over bytes that arrive one after the other. *)
Fixpoint feed (si : nat) (sock : Z) (cs : bytes) (rx : bytes) : M bytes :=
  match cs with
  | [] => ret rx
  | c :: cs' => let* (rx, _) := recv_step si sock (RxByte c) rx in feed si sock cs' rx
  end.

(** The session slot with [n] bytes of a line in its buffer. *)
Definition at_rx (si n : nat) (d : Dev) : Dev := exec (upd_sess si (set_ls_rx_len n)) d.

Lemma at_rx_idem si n m d : at_rx si n (at_rx si m d) = at_rx si n d.
Proof.
  unfold at_rx, upd_sess. rewrite !exec_modify. destruct d. unfold set_pool. cbn. f_equal.
  by rewrite alter_alter.
Qed.

Lemma at_rx_same si n d s : pool d !! si = Some s -> ls_rx_len s = n -> at_rx si n d = d.
Proof.
  intros Hs Hn. unfold at_rx, upd_sess. rewrite exec_modify. destruct d as [pl]. unfold set_pool. cbn in *. f_equal.
  rewrite (alter_ext_at _ (fun x => x)); [by apply list_alter_id|].
  intros s' Hs'. rewrite Hs in Hs'. injection Hs' as <-. rewrite <- Hn. by destruct s.
Qed.

Lemma at_rx_len si n d : is_Some (pool d !! si) -> ls_rx_len (sess si (at_rx si n d)) = n.
Proof. intros [s Hs]. unfold sess, at_rx. cbn. rewrite list_lookup_total_alt, list_lookup_alter_eq, Hs. done. Qed.

Lemma recv_byte si sock c rx n d :
  is_Some (pool d !! si) -> n + 1 < TCP_RECEIVE_DATA_LENGTH -> c <> NL ->
  recv_step si sock (RxByte c) rx (at_rx si n d) = ((<[n := c]> rx, true), at_rx si (S n) d).
Proof.
  intros Hs Hn Hc. unfold recv_step. rewrite exec_eval. rewrite exec_bind, eval_bind, eval_gets, exec_gets, at_rx_len by done.
  cbv zeta. rewrite exec_bind, eval_bind. fold (at_rx si (S n) (at_rx si n d)). rewrite at_rx_idem.
  rewrite (bool_decide_eq_false_2 (TCP_RECEIVE_DATA_LENGTH <= _)) by lia. by rewrite bool_decide_eq_false_2.
Qed.

Lemma feed_prefix si sock l rx n d :
  is_Some (pool d !! si) -> ~ NL ∈ l -> n + length l < TCP_RECEIVE_DATA_LENGTH ->
  length rx = TCP_RECEIVE_DATA_LENGTH ->
  exists rx', length rx' = TCP_RECEIVE_DATA_LENGTH /\ take (n + length l) rx' = take n rx ++ l /\
    forall r, feed si sock (l ++ r) rx (at_rx si n d) = feed si sock r rx' (at_rx si (n + length l) d).
Proof.
  intros Hs. revert n rx. induction l as [|c l IH]; intros n rx Hn Hl Hrx.
  - exists rx. cbn. rewrite Nat.add_0_r, app_nil_r. done.
  - cbn [length] in Hl. apply not_elem_of_cons in Hn as [Hc Hn].
    destruct (IH (S n) (<[n := c]> rx) Hn ltac:(lia)) as (rx' & H1 & H2 & H3); [by rewrite length_insert|].
    exists rx'. split_and!; [done| |].
    + cbn [length]. rewrite Nat.add_succ_r, <- Nat.add_succ_l, H2, (take_S_r _ _ c), <- app_assoc.
      * by rewrite take_insert_ge by lia.
      * apply list_lookup_insert_eq. lia.
    + intros r. cbn [feed app length]. unfold bind at 1. rewrite recv_byte by (done || lia). rewrite H3. do 2 f_equal. lia.
Qed.

Lemma recv_newline si sock rx n d :
  is_Some (pool d !! si) -> n + 1 < TCP_RECEIVE_DATA_LENGTH ->
  recv_step si sock (RxByte NL) rx (at_rx si n d)
  = ((<[n := NL]> rx, true), exec (recv_line (take n rx) sock) (at_rx si 0 d)).
Proof.
  intros Hs Hn. unfold recv_step. rewrite exec_eval.
  rewrite exec_bind, eval_bind, eval_gets, exec_gets, at_rx_len by done.
  cbv zeta. rewrite exec_bind, eval_bind. fold (at_rx si (S n) (at_rx si n d)). rewrite at_rx_idem.
  rewrite (bool_decide_eq_false_2 (TCP_RECEIVE_DATA_LENGTH <= _)) by lia.
  rewrite (bool_decide_eq_true_2 (NL = NL)) by done.
  rewrite exec_bind, eval_bind. fold (at_rx si 0 (at_rx si (S n) d)). rewrite at_rx_idem.
  rewrite exec_bind, eval_bind, exec_ret, eval_ret. replace (S n - 1) with n by lia. by rewrite take_insert_ge by lia.
Qed.

Lemma recv_overflow si sock c rx n d :
  is_Some (pool d !! si) -> n + 1 = TCP_RECEIVE_DATA_LENGTH ->
  recv_step si sock (RxByte c) rx (at_rx si n d) = ((<[n := c]> rx, true), at_rx si 0 d).
Proof.
  intros Hs Hn. unfold recv_step. rewrite exec_eval. rewrite exec_bind, eval_bind, eval_gets, exec_gets, at_rx_len by done.
  cbv zeta. rewrite exec_bind, eval_bind. fold (at_rx si (S n) (at_rx si n d)). rewrite at_rx_idem.
  rewrite (bool_decide_eq_true_2 (TCP_RECEIVE_DATA_LENGTH <= _)) by lia.
  rewrite exec_bind, eval_bind. fold (at_rx si 0 (at_rx si (S n) d)). by rewrite at_rx_idem.
Qed.

Lemma feed_line si sock line rx d :
  is_Some (pool d !! si) -> ~ NL ∈ line -> length line + 1 < TCP_RECEIVE_DATA_LENGTH ->
  length rx = TCP_RECEIVE_DATA_LENGTH ->
  exec (feed si sock (line ++ [NL]) rx) (at_rx si 0 d) = exec (recv_line line sock) (at_rx si 0 d).
Proof.
  intros Hs Hn Hl Hrx. destruct (feed_prefix si sock line rx 0 d Hs Hn ltac:(lia) Hrx) as (rx' & H1 & H2 & H3).
  cbn [Nat.add take app] in H2, H3. unfold exec at 1. rewrite H3. cbn [feed]. unfold bind at 1.
  rewrite recv_newline by (done || lia). by rewrite H2.
Qed.

(** the bytes of a line that fits the buffer, received one by one, reach the
    decryption and the dispatcher once, whole and without the newline, whatever
    the buffer held before. *)
Theorem recv_frames_line si sock line rx d s :
  pool d !! si = Some s -> ls_rx_len s = 0 -> ~ NL ∈ line -> length line + 1 < TCP_RECEIVE_DATA_LENGTH ->
  length rx = TCP_RECEIVE_DATA_LENGTH ->
  exec (feed si sock (line ++ [NL]) rx) d = exec (recv_line line sock) d.
Proof.
  intros Hs H0 Hn Hl Hrx. rewrite <- (at_rx_same si 0 d s Hs H0). by apply feed_line.
Qed.

(** a line that does not fit the buffer is not dropped up to its newline:
    the part behind the first 5120 bytes is taken for a line of its own and
    dispatched. *)
Theorem oversized_line_tail_is_dispatched si sock big tl rx d s :
  pool d !! si = Some s -> ls_rx_len s = 0 -> ~ NL ∈ big ++ tl ->
  length big = TCP_RECEIVE_DATA_LENGTH -> length tl + 1 < TCP_RECEIVE_DATA_LENGTH ->
  length rx = TCP_RECEIVE_DATA_LENGTH ->
  exec (feed si sock (big ++ tl ++ [NL]) rx) d = exec (recv_line tl sock) d.
Proof.
  intros Hs H0 Hn Hb Ht Hrx. apply not_elem_of_app in Hn as [Hnb Hnt]. rewrite <- (at_rx_same si 0 d s Hs H0).
  assert (is_Some (pool d !! si)) as His by eauto.
  destruct (rev big) as [|c r] eqn:Er.
  { apply (f_equal length) in Er. rewrite length_rev, Hb in Er. unfold TCP_RECEIVE_DATA_LENGTH in Er. discriminate. }
  assert (big = rev r ++ [c]) as -> by (rewrite <- (rev_involutive big), Er; done).
  rewrite length_app in Hb. cbn [length] in Hb. apply not_elem_of_app in Hnb as [Hnr Hc].
  destruct (feed_prefix si sock (rev r) rx 0 d His Hnr ltac:(lia) Hrx) as (rx' & H1 & _ & H3).
  cbn [Nat.add] in H3. rewrite <- app_assoc. unfold exec at 1. rewrite H3. cbn [feed app]. unfold bind at 1.
  rewrite recv_overflow by (done || lia). apply feed_line; [done..|]. by rewrite length_insert.
Qed.

End Framing.

(** A receive buffer that holds no line yet. *)
Definition empty_rx : bytes := replicate TCP_RECEIVE_DATA_LENGTH 0%Z.

Lemma replicate_no_newline n c : c <> NL -> ~ NL ∈ replicate n c.
Proof. intros H Hin. by apply elem_of_replicate in Hin as [E _]. Qed.

Lemma home_session : exists s, pool sim_home !! 0 = Some s /\ ls_rx_len s = 0.
Proof. by eexists. Qed.

Example recv_frames_line_witness :
  exec (feed 0 54 (str "LIST" ++ [NL]) empty_rx) sim_home = exec (recv_line (str "LIST") 54) sim_home.
Proof.
  destruct home_session as (s & Hs & H0). apply (recv_frames_line 0 54 (str "LIST") empty_rx sim_home s Hs H0).
  - apply (bool_decide_unpack _). vm_compute. exact I.
  - apply (bool_decide_unpack _). vm_compute. exact I.
  - apply length_replicate.
Defined.

Example oversized_line_tail_is_dispatched_witness :
  exec (feed 0 54 (replicate TCP_RECEIVE_DATA_LENGTH 65%Z ++ str "LIST" ++ [NL]) empty_rx) sim_home
  = exec (recv_line (str "LIST") 54) sim_home.
Proof.
  destruct home_session as (s & Hs & H0).
  apply (oversized_line_tail_is_dispatched 0 54 (replicate TCP_RECEIVE_DATA_LENGTH 65%Z) (str "LIST") empty_rx
           sim_home s Hs H0).
  - intros [H|H]%elem_of_app; [by apply replicate_no_newline in H|]. revert H.
    apply (bool_decide_unpack _). vm_compute. exact I.
  - apply length_replicate.
  - apply (bool_decide_unpack _). vm_compute. exact I.
  - apply length_replicate.
Defined.
