(* ===== verification/ProvProps.v ===== *)
(** * ProvProps: provisioning keeps its buffers and its identity

    Theorems about [aws/provisioning.c]: no line overruns a buffer, only PFIN
    changes who the device is, and a certificate that arrives in chunks is put
    together as it was. *)

From S2P Require Import Prelude Platform State Flash Provisioning ClientList SimPlatform SimDevices.
From stdpp Require Import base list strings numbers.
From Stdlib Require Import ZArith Lia.

Local Open Scope cything_scope.

Section Keeps.
Context {P : Platform} {C : Config} (Q : prov_state -> Prop).

(** [m] keeps [Q] of the provisioning state. *)
Definition prov_keeps {A} (m : M A) : Prop := forall d, Q (prov d) -> Q (prov (exec m d)).

Lemma pk_frame {A} (m : M A) : (forall d, prov (exec m d) = prov d) -> prov_keeps m.
Proof. intros H d Hd. by rewrite H. Qed.
Lemma pk_bind {A B} (m : M A) (k : A -> M B) : prov_keeps m -> (forall a, prov_keeps (k a)) -> prov_keeps (bind m k).
Proof. intros Hm Hk d Hd. rewrite exec_bind. by apply Hk, Hm. Qed.
Lemma pk_upd f : (forall p, Q p -> Q (f p)) -> prov_keeps (upd_prov f).
Proof. intros Hf d Hd. by apply Hf. Qed.
Lemma pk_io {A} (f : World -> A * World) : prov_keeps (io f).
Proof. apply pk_frame. intros d. unfold io, exec. by destruct (f (world d)). Qed.

End Keeps.

Ltac pk_step :=
  lazymatch goal with
  | |- prov_keeps _ (bind _ _) => apply pk_bind; [|intros ?]
  | |- prov_keeps _ (upd_prov _) => apply pk_upd; intros ?
  | |- prov_keeps _ (when _ _) => unfold when
  | |- prov_keeps _ (io _) => apply pk_io
  | |- prov_keeps _ (gets _) => by apply pk_frame
  | |- prov_keeps _ (ask _) => by apply pk_frame
  | |- prov_keeps _ (io_ _) => by apply pk_frame
  | |- prov_keeps _ (ret _) => by apply pk_frame
  | |- prov_keeps _ (emit _) => by apply pk_frame
  | |- prov_keeps _ (send _ _) => by apply pk_frame
  | |- prov_keeps _ (nvs_set_string _ _) => unfold nvs_set_string
  | |- prov_keeps _ (nvs_get_string _ _) => unfold nvs_get_string
  | |- prov_keeps _ (send_line _ _) => unfold send_line
  | |- prov_keeps _ reset_handshake => unfold reset_handshake
  | |- prov_keeps _ (reboot_after_ms _) => unfold reboot_after_ms
  | |- prov_keeps _ (match ?x with _ => _ end) => destruct x eqn:?
  end.
Ltac pk_solve := repeat pk_step.

Section Bounds.
Context {P : Platform} {C : Config}.

(** Each string fits its buffer with its NUL. *)
Record prov_bounds (p : prov_state) : Prop := {
  b_device_id : length (pr_device_id p) < PROV_DEVICE_ID_MAX;
  b_source : length (pr_source_terminal_id p) < PROV_SOURCE_TERMINAL_ID_MAX;
  b_endpoint : length (pr_iot_endpoint p) < PROV_ENDPOINT_MAX;
  b_cert : length (pr_cert_pem p) < PROV_CERT_PEM_MAX;
  b_pending_source : length (pr_pending_source p) < PROV_SOURCE_TERMINAL_ID_MAX;
  b_pending_endpoint : length (pr_pending_endpoint p) < PROV_ENDPOINT_MAX;
  b_pending_device_id : length (pr_pending_device_id p) < PROV_DEVICE_ID_MAX;
  b_cert_b64 : length (pr_cert_b64 p) < CERT_B64_BUF_LEN;
}.

Lemma snprintf_lt n s : 0 < n -> length (snprintf_s n s) < n.
Proof. intros H. unfold snprintf_s. rewrite length_take. lia. Qed.

Ltac bounds_tac :=
  intros; match goal with H : prov_bounds _ |- _ => destruct H end;
  constructor; cbn; try done;
  first [apply snprintf_lt | rewrite length_take | idtac]; unfold PROV_DEVICE_ID_MAX, PROV_SOURCE_TERMINAL_ID_MAX,
    PROV_ENDPOINT_MAX, CERT_B64_BUF_LEN; lia.

Lemma bounds_reqid t sock : prov_keeps prov_bounds (handle_reqid t sock).
Proof. unfold handle_reqid. pk_solve. Qed.
Lemma bounds_prov t sock : prov_keeps prov_bounds (handle_prov t sock).
Proof. unfold handle_prov. pk_solve; bounds_tac. Qed.
Lemma bounds_csrreq sock : prov_keeps prov_bounds (handle_csrreq sock).
Proof. unfold handle_csrreq, build_csr_base64, load_or_generate_keypair. pk_solve; bounds_tac. Qed.
Lemma bounds_devid t sock : prov_keeps prov_bounds (handle_devid t sock).
Proof. unfold handle_devid. pk_solve; bounds_tac. Qed.
Lemma bounds_reset : prov_keeps prov_bounds reset_handshake.
Proof. pk_solve; bounds_tac. Qed.
Lemma bounds_send sock t : prov_keeps prov_bounds (send_line sock t).
Proof. pk_solve. Qed.
Lemma bounds_pfin sock : prov_keeps prov_bounds (handle_pfin sock).
Proof. unfold handle_pfin, persist_identity. pk_solve; bounds_tac. Qed.

Context {B : Base64Laws P}.

Lemma bounds_cert t sock : prov_keeps prov_bounds (handle_cert t sock).
Proof.
  unfold handle_cert. destruct (parse_cert (drop 5 t)) as [[[seq total] chunk]|]; [|apply bounds_send].
  intros d Hd. rewrite exec_bind, eval_gets, exec_gets. destruct (_ || _); [by apply bounds_send|].
  rewrite exec_bind. set (d1 := exec (upd_prov (set_pr_total_chunks total)) d).
  assert (prov_bounds (prov d1) /\ pr_cert_b64 (prov d1) = pr_cert_b64 (prov d)) as [Hd1 E1] by (destruct Hd; by split).
  clearbody d1. case_bool_decide as Hlen; [apply pk_bind; [apply bounds_reset|intros ?; apply bounds_send|done]|].
  rewrite exec_bind. set (d2 := exec (upd_prov (fun p => set_pr_cert_b64 (pr_cert_b64 p ++ chunk) p)) d1).
  assert (prov_bounds (prov d2)) as Hd2.
  { destruct Hd1. constructor; cbn; try done. rewrite length_app, E1. lia. }
  clearbody d2. rewrite exec_bind. set (d3 := exec (upd_prov _) d2).
  assert (prov_bounds (prov d3)) as Hd3 by (by destruct Hd2). clearbody d3.
  case_bool_decide; [|by apply bounds_send]. rewrite exec_bind, eval_gets, exec_gets.
  destruct (base64_decode _ _) as [pem|] eqn:Eb; [|by apply pk_bind; [apply bounds_reset|intros ?; apply bounds_send|]].
  apply base64_decode_cap in Eb. rewrite exec_bind. apply bounds_send. destruct Hd3. constructor; cbn; try done.
  unfold PROV_CERT_PEM_MAX in *. lia.
Qed.

(** whatever line arrives, no string of the provisioning state outgrows its
    buffer, the reassembled certificate included. *)
Theorem provisioning_bounds line sock d :
  prov_bounds (prov d) -> prov_bounds (prov (exec (provisioning_handle_tcp_line line sock) d)).
Proof.
  revert d. change (prov_keeps prov_bounds (provisioning_handle_tcp_line line sock)).
  unfold provisioning_handle_tcp_line. cbv zeta. pk_solve;
    first [apply bounds_reqid | apply bounds_prov | apply bounds_csrreq | apply bounds_devid
          | apply bounds_cert | apply bounds_pfin].
Qed.

End Bounds.

Section Identity.
Context {P : Platform} {C : Config}.

(** Who the device is in the cloud. *)
Definition identity (p : prov_state) : bytes * bytes * bytes * bool :=
  (pr_device_id p, pr_source_terminal_id p, pr_iot_endpoint p, pr_active p).

Lemma identity_inj p q : identity p = identity q ->
  pr_device_id p = pr_device_id q /\ pr_source_terminal_id p = pr_source_terminal_id q /\
  pr_iot_endpoint p = pr_iot_endpoint q.
Proof. by intros [=]. Qed.

Lemma identity_keeps v t sock :
  prov_keeps (fun p => identity p = v) (handle_reqid t sock) /\
  prov_keeps (fun p => identity p = v) (handle_prov t sock) /\
  prov_keeps (fun p => identity p = v) (handle_csrreq sock) /\
  prov_keeps (fun p => identity p = v) (handle_devid t sock) /\
  prov_keeps (fun p => identity p = v) (handle_cert t sock).
Proof.
  unfold handle_reqid, handle_prov, handle_csrreq, handle_devid, handle_cert, build_csr_base64, load_or_generate_keypair.
  split_and!; pk_solve; done.
Qed.

(** the device id, its channel and its endpoint change only on PFIN; and
    then they are the ones announced in the handshake, cut to their buffers. *)
Theorem only_pfin_changes_identity line sock d :
  let p' := prov (exec (provisioning_handle_tcp_line line sock) d) in
  identity p' <> identity (prov d) ->
  memcmp_eq (trim_trailing_ws (cstr (cbuf line))) (str "PFIN") = true /\
  pr_source_terminal_id p' = snprintf_s PROV_SOURCE_TERMINAL_ID_MAX (pr_pending_source (prov d)) /\
  (pr_device_id p' = pr_device_id (prov d) /\ pr_iot_endpoint p' = pr_iot_endpoint (prov d) /\ pr_active (prov d) = true \/
   pr_device_id p' = snprintf_s PROV_DEVICE_ID_MAX (pr_pending_device_id (prov d)) /\
   pr_iot_endpoint p' = snprintf_s PROV_ENDPOINT_MAX (pr_pending_endpoint (prov d)) /\
   pr_state (prov d) = HS_RECEIVING_CERT /\ pr_pending_device_id (prov d) <> []).
Proof.
  cbv zeta. unfold provisioning_handle_tcp_line. cbv zeta. destruct (negb _); [done|].
  set (t := trim_trailing_ws (cstr (cbuf line))).
  destruct (identity_keeps (identity (prov d)) t sock) as (K1 & K2 & K3 & K4 & K5).
  destruct (memcmp_eq t (str "REQID:")); [intros []; rewrite exec_bind; by apply K1|].
  destruct (memcmp_eq t (str "PROV:")); [intros []; rewrite exec_bind; by apply K2|].
  destruct (memcmp_eq t (str "CSRREQ")); [intros []; rewrite exec_bind; by apply K3|].
  destruct (memcmp_eq t (str "DEVID:")); [intros []; rewrite exec_bind; by apply K4|].
  destruct (memcmp_eq t (str "CERT:")); [intros []; rewrite exec_bind; by apply K5|].
  destruct (memcmp_eq t (str "PFIN")) eqn:Ep; [|done]. rewrite exec_bind, exec_ret.
  unfold handle_pfin. rewrite exec_bind, eval_gets, exec_gets.
  assert (forall v A (m : M A) d0, prov_keeps (fun p => identity p = v) m -> identity (prov d0) = v ->
            identity (prov (exec m d0)) = v) as Hk by (intros v A m d0 H; apply H).
  destruct (_ || _ || _) eqn:Eb.
  - destruct (pr_active (prov d) && _) eqn:Ea.
    2:{ intros []. apply Hk; [pk_solve; done|done]. }
    apply andb_true_iff in Ea as [Ea _]. rewrite exec_bind.
    set (d1 := exec (upd_prov _) d). intros _. rewrite exec_bind, eval_gets, exec_gets.
    lazymatch goal with |- context [prov (exec ?m d1)] =>
      assert (identity (prov (exec m d1)) = identity (prov d1)) as Hid by (apply Hk; [pk_solve; done|done]) end.
    apply identity_inj in Hid as (I1 & I2 & I3). rewrite I1, I2, I3. split_and!; [done|done|]. by left.
  - apply orb_false_iff in Eb as [Eb E3]. apply orb_false_iff in Eb as [E1 _]. bool_hyps.
    do 3 rewrite exec_bind. set (d1 := exec (upd_prov _) (exec (upd_prov _) (exec (upd_prov _) d))). intros _.
    assert (forall b, prov_keeps (fun p => identity p = identity (prov d1))
      (if negb b then reset_handshake ;; send_line sock ACK
       else send_line sock ACK ;; reset_handshake ;; reboot_after_ms 1000)) as Hend by (intros b; pk_solve; done).
    assert (prov_keeps (fun p => identity p = identity (prov d1)) persist_identity) as Hper
      by (unfold persist_identity; pk_solve; done).
    rewrite exec_bind. lazymatch goal with |- context [prov (exec ?m (exec ?n d1))] =>
      assert (identity (prov (exec m (exec n d1))) = identity (prov d1)) as Hid by exact (Hend _ _ (Hper d1 eq_refl)) end.
    apply identity_inj in Hid as (I1 & I2 & I3). rewrite I1, I2, I3. split_and!; [done|done|]. right.
    split_and!; [done|done|by apply dec_stable|done].
Qed.

End Identity.

Section Certificate.
Context {P : Platform} {C : Config}.

(** The CERT lines, one after the other. *)
Definition feed_certs (ts : list bytes) (sock : Z) : M unit := for_each ts (fun t => handle_cert t sock).

(** The lines number the chunks from 1 and all announce [total]. *)
Fixpoint numbered (i total : Z) (ts chunks : list bytes) : Prop :=
  match ts, chunks with
  | [], [] => True
  | t :: ts, c :: cs => parse_cert (drop 5 t) = Some (i, total, c) /\ numbered (i + 1) total ts cs
  | _, _ => False
  end.

(** In the middle of a transfer: [got] is what has arrived, [i] what is due. *)
Definition receiving (i total : Z) (got : bytes) (p : prov_state) : Prop :=
  pr_state p = HS_RECEIVING_CERT /\ pr_next_seq p = i /\ pr_cert_b64 p = got /\
  (pr_total_chunks p = 0%Z \/ pr_total_chunks p = total).

Lemma cert_guard i total got p : receiving i total got p ->
  bool_decide (pr_state p <> HS_RECEIVING_CERT) || bool_decide (i <> pr_next_seq p)
  || (bool_decide (pr_total_chunks p <> 0)%Z && bool_decide (total <> pr_total_chunks p)) = false.
Proof.
  intros (-> & -> & _ & Ht). rewrite !(bool_decide_eq_false_2 (_ <> _)) by tauto.
  destruct Ht as [-> | ->]; [done|]. by rewrite (bool_decide_eq_false_2 (total <> total)), andb_false_r by tauto.
Qed.

Lemma send_line_prov sock t d : prov (exec (send_line sock t) d) = prov d.
Proof. unfold send_line. case_bool_decide; [|rewrite exec_bind]; reflexivity. Qed.

Lemma cert_chunk t sock i total chunk got d :
  parse_cert (drop 5 t) = Some (i, total, chunk) -> receiving i total got (prov d) -> i <> total ->
  length got + length chunk < CERT_B64_BUF_LEN ->
  receiving (i + 1) total (got ++ chunk) (prov (exec (handle_cert t sock) d)) /\
  identity (prov (exec (handle_cert t sock) d)) = identity (prov d) /\
  pr_pending_device_id (prov (exec (handle_cert t sock) d)) = pr_pending_device_id (prov d).
Proof.
  intros Ht Hr Hi Hl. unfold handle_cert. rewrite Ht, exec_bind, eval_gets, exec_gets, (cert_guard _ _ _ _ Hr).
  destruct Hr as (H1 & H2 & H3 & H4). rewrite exec_bind, bool_decide_eq_false_2 by (rewrite H3; lia).
  rewrite !exec_bind, (bool_decide_eq_false_2 (i = total)) by done. rewrite send_line_prov.
  unfold receiving. cbn. rewrite H1, H2, H3. split_and!; try done. by right.
Qed.

Lemma cert_last t sock i chunk got pem d :
  parse_cert (drop 5 t) = Some (i, i, chunk) -> receiving i i got (prov d) ->
  length got + length chunk < CERT_B64_BUF_LEN ->
  base64_decode (PROV_CERT_PEM_MAX - 1) (got ++ chunk) = Some pem ->
  exists d', exec (handle_cert t sock) d = exec (send_line sock (str "CERTOK")) d' /\
    pr_cert_pem (prov d') = pem /\ pr_state (prov d') = HS_RECEIVING_CERT /\
    identity (prov d') = identity (prov d) /\ pr_pending_device_id (prov d') = pr_pending_device_id (prov d).
Proof.
  intros Ht Hr Hl Hb. unfold handle_cert. rewrite Ht, exec_bind, eval_gets, exec_gets, (cert_guard _ _ _ _ Hr).
  destruct Hr as (H1 & H2 & H3 & H4). rewrite exec_bind, bool_decide_eq_false_2 by (rewrite H3; lia).
  rewrite !exec_bind, (bool_decide_eq_true_2 (i = i)) by done. rewrite exec_bind, eval_gets, exec_gets.
  set (d1 := exec (upd_prov (fun p => set_pr_next_seq _ p)) _).
  assert (pr_cert_b64 (prov d1) = got ++ chunk) as -> by (unfold d1; cbn; by rewrite H3).
  rewrite Hb, exec_bind. exists (exec (upd_prov (set_pr_cert_pem pem)) d1). split; [done|].
  unfold d1. cbn. by split_and!.
Qed.

Lemma feed_reassembles ts chunks sock i got pem d :
  numbered i (i + Z.of_nat (length chunks) - 1) ts chunks -> chunks <> [] ->
  receiving i (i + Z.of_nat (length chunks) - 1) got (prov d) ->
  length got + length (concat chunks) < CERT_B64_BUF_LEN ->
  base64_decode (PROV_CERT_PEM_MAX - 1) (got ++ concat chunks) = Some pem ->
  exists d', exec (feed_certs ts sock) d = exec (send_line sock (str "CERTOK")) d' /\
    pr_cert_pem (prov d') = pem /\ pr_state (prov d') = HS_RECEIVING_CERT /\
    identity (prov d') = identity (prov d) /\ pr_pending_device_id (prov d') = pr_pending_device_id (prov d).
Proof.
  revert ts i got d. induction chunks as [|c cs IH]; intros ts i got d Hn Hne Hr Hl Hb; [done|].
  destruct ts as [|t ts]; [done|]. destruct Hn as [Ht Hn]. cbn [concat] in Hl, Hb. rewrite length_app in Hl.
  change (exec (feed_certs (t :: ts) sock) d) with (exec (feed_certs ts sock) (exec (handle_cert t sock) d)).
  destruct cs as [|c' cs].
  - destruct ts; [|done]. cbn [length concat] in *. rewrite app_nil_r in Hb.
    replace (i + Z.of_nat 1 - 1)%Z with i in * by lia.
    destruct (cert_last t sock i c got pem d Ht Hr ltac:(lia) Hb) as (d' & E & H). exists d'. by rewrite <- E.
  - assert (i + Z.of_nat (length (c :: c' :: cs)) - 1 = (i + 1) + Z.of_nat (length (c' :: cs)) - 1)%Z as E
      by (cbn [length]; lia).
    destruct (cert_chunk t sock i _ c got d Ht Hr) as (H1 & H2 & H3); [cbn [length]; lia|lia|].
    rewrite E in Hn, H1.
    destruct (IH ts (i + 1)%Z (got ++ c) _ Hn ltac:(done) H1) as (d' & E1 & H4 & H5 & H6 & H7);
      [rewrite length_app; cbn [concat] in *; lia|by rewrite <- app_assoc|].
    exists d'. by rewrite E1, H6, H7.
Qed.

(** *** As the phone sends it *)

(** The lines of the channel: a certificate in base64, cut into numbered parts. *)
Definition devid_line (id : bytes) : bytes := str "DEVID:" ++ id.
Definition cert_line (i n : Z) (chunk : bytes) : bytes := str "CERT:" ++ dec i ++ str ":" ++ dec n ++ str ":" ++ chunk.
Fixpoint lines_of (i n : Z) (chunks : list bytes) : list bytes :=
  match chunks with
  | [] => []
  | c :: cs => cert_line i n c :: lines_of (i + 1) n cs
  end.
Definition cert_lines (chunks : list bytes) : list bytes := lines_of 1 (Z.of_nat (length chunks)) chunks.

(** They arrive one after the other. *)
Definition receive_lines (ls : list bytes) (sock : Z) : M unit :=
  for_each ls (fun l => provisioning_handle_tcp_line l sock ;; ret tt).

(** Text without white space. *)
Definition solid (l : bytes) : Prop := Forall (fun c => (32 < c)%Z) l.

Lemma solid_nonzero l : solid l -> Forall (fun c => c <> 0%Z) l.
Proof. intros H. eapply list.Forall_impl; [exact H|]. cbn. lia. Qed.

Lemma solid_dec z : solid (dec z).
Proof.
  assert (forall y, (0 <= y)%Z -> solid (dec_u y)) as Hd.
  { intros y Hy. eapply List.Forall_impl; [|apply digits_all_digits, Hy]. intros c Hc. unfold is_digit in Hc. bool_hyps. lia. }
  unfold dec. case_bool_decide; [constructor; [lia|]|]; apply Hd; lia.
Qed.

Lemma solid_line t : solid t -> trim_trailing_ws (cstr (cbuf t)) = t.
Proof.
  intros Ht. unfold cbuf. change [NL; NUL] with ([NL] ++ 0%Z :: []). rewrite app_assoc, cstr_app_nul.
  2: { apply Forall_app_2; [by apply solid_nonzero|by repeat constructor]. }
  unfold trim_trailing_ws. rewrite rev_app_distr. cbn [rev app strip_ws]. rewrite bool_decide_eq_true_2 by tauto.
  rewrite <- (rev_involutive t) at 2. f_equal.
  assert (solid (rev t)) as Hr by (by apply list.Forall_reverse in Ht; unfold reverse in Ht; rewrite <- rev_alt in Ht).
  destruct Hr as [|c r Hc _]; [done|]. cbn [strip_ws]. rewrite bool_decide_eq_false_2; [done|].
  unfold NL, CR, SP. lia.
Qed.

Lemma parse_line i n c : solid c -> parse_cert (drop 5 (cert_line i n c)) = Some (i, n, c).
Proof.
  intros Hc. unfold cert_line. change (drop 5 (str "CERT:" ++ ?x)) with x. change (str ":") with [COLON].
  unfold parse_cert. cbn [app]. rewrite split_at_app by apply dec_no_colon. rewrite split_at_app by apply dec_no_colon.
  assert (forall z r, Forall (fun x => x <> 0%Z) r -> atoi (dec z ++ COLON :: r) = z) as Ha.
  { intros z r Hr. unfold atoi. rewrite cstr_id; [by rewrite strtol_dec|].
    apply Forall_app_2; [apply solid_nonzero, solid_dec|]. by constructor. }
  rewrite !Ha; [done|by apply solid_nonzero|].
  apply Forall_app_2; [apply solid_nonzero, solid_dec|]. constructor; [done|by apply solid_nonzero].
Qed.

Lemma solid_cert_line i n c : solid c -> solid (cert_line i n c).
Proof. intros Hc. unfold cert_line. repeat apply Forall_app_2; try apply solid_dec; try done; by repeat constructor. Qed.

Lemma memcmp_differ k p q l x y :
  p !! k = Some x -> q !! k = Some y -> x <> y -> memcmp_eq (p ++ l) q = false.
Proof.
  intros Hp Hq Hne. unfold memcmp_eq. apply bool_decide_eq_false_2. intros E. pose proof (lookup_lt_Some _ _ _ Hq) as Hk.
  assert (q !! k = Some x) as H by (rewrite <- E, lookup_take_lt by done; by apply lookup_app_l_Some). congruence.
Qed.

Lemma memcmp_app p l : memcmp_eq (p ++ l) p = true.
Proof. unfold memcmp_eq. by rewrite take_app_length, bool_decide_eq_true_2. Qed.

(** Both kinds of line reach their handlers. *)
Lemma cert_line_routed i n c sock d :
  solid c -> exec (provisioning_handle_tcp_line (cert_line i n c) sock) d = exec (handle_cert (cert_line i n c) sock) d.
Proof.
  intros Hc. unfold provisioning_handle_tcp_line. cbv zeta. rewrite solid_line by by apply solid_cert_line.
  unfold is_provisioning_line, cbuf, cert_line. rewrite <- (app_assoc (str "CERT:")).
  assert (forall l, memcmp_eq (str "CERT:" ++ l) (str "REQID:") = false) as H1 by (intros l; by apply (memcmp_differ 0 _ _ _ 67 82)).
  assert (forall l, memcmp_eq (str "CERT:" ++ l) (str "PROV:") = false) as H2 by (intros l; by apply (memcmp_differ 0 _ _ _ 67 80)).
  assert (forall l, memcmp_eq (str "CERT:" ++ l) (str "DEVID:") = false) as H3 by (intros l; by apply (memcmp_differ 0 _ _ _ 67 68)).
  assert (forall l, memcmp_eq (str "CERT:" ++ l) (str "CSRREQ") = false) as H4 by (intros l; by apply (memcmp_differ 1 _ _ _ 69 83)).
  rewrite ?H1, ?H2, ?H3, ?H4, ?memcmp_app. cbn [orb negb]. by rewrite exec_bind.
Qed.

Lemma devid_line_routed id sock d :
  solid id -> exec (provisioning_handle_tcp_line (devid_line id) sock) d = exec (handle_devid (devid_line id) sock) d.
Proof.
  intros Hc. unfold provisioning_handle_tcp_line. cbv zeta.
  rewrite solid_line by (apply Forall_app_2; [by repeat constructor|done]).
  unfold is_provisioning_line, cbuf, devid_line. rewrite <- (app_assoc (str "DEVID:")).
  assert (forall l, memcmp_eq (str "DEVID:" ++ l) (str "REQID:") = false) as H1 by (intros l; by apply (memcmp_differ 0 _ _ _ 68 82)).
  assert (forall l, memcmp_eq (str "DEVID:" ++ l) (str "PROV:") = false) as H2 by (intros l; by apply (memcmp_differ 0 _ _ _ 68 80)).
  assert (forall l, memcmp_eq (str "DEVID:" ++ l) (str "CSRREQ") = false) as H3 by (intros l; by apply (memcmp_differ 0 _ _ _ 68 67)).
  rewrite ?H1, ?H2, ?H3, ?memcmp_app. cbn [orb negb]. by rewrite exec_bind.
Qed.

Lemma devid_pending id sock d :
  length id <= 39 -> pr_pending_device_id (prov (exec (handle_devid (devid_line id) sock) d)) = id.
Proof.
  intros Hl. unfold handle_devid. rewrite !exec_bind, send_line_prov.
  change (snprintf_s PROV_DEVICE_ID_MAX id = id). unfold snprintf_s. apply take_ge. unfold PROV_DEVICE_ID_MAX. lia.
Qed.

Lemma receive_cons l ls sock d :
  exec (receive_lines (l :: ls) sock) d = exec (receive_lines ls sock) (exec (provisioning_handle_tcp_line l sock) d).
Proof.
  change (exec (receive_lines ls sock) (exec (provisioning_handle_tcp_line l sock ;; ret tt) d)
    = exec (receive_lines ls sock) (exec (provisioning_handle_tcp_line l sock) d)).
  by rewrite exec_bind.
Qed.

Lemma receive_certs chunks sock i n d :
  Forall solid chunks -> exec (receive_lines (lines_of i n chunks) sock) d = exec (feed_certs (lines_of i n chunks) sock) d.
Proof.
  intros H. revert i d. induction H as [|c cs Hc _ IH]; intros i d; [done|]. cbn [lines_of]. rewrite receive_cons, cert_line_routed by done.
  rewrite IH. done.
Qed.

Lemma lines_numbered chunks i n : Forall solid chunks -> numbered i n (lines_of i n chunks) chunks.
Proof. intros H. revert i. induction H as [|c cs Hc _ IH]; intros i; [done|]. split; [by apply parse_line|apply IH]. Qed.

(** C37: A certificate arrives as it was sent. The phone announces the device id
    and sends the certificate in base64, cut into parts wherever it likes, each
    on a line of its own with its number, counted from 1, and the number of
    parts. If it fits the firmware's buffers, then what is kept behind the last
    line is exactly that certificate; CERTOK answers that line, the announced id
    is pending, and the identity in use is untouched. (The id is at most 39 bytes
    without white space; base64 text has none.) *)
Theorem certificate_reassembled {B : Base64Laws P} id pem chunks sock d :
  solid id -> length id <= 39 ->
  Forall is_byte pem -> length pem <= PROV_CERT_PEM_MAX - 1 ->
  concat chunks = base64_encode pem -> length (base64_encode pem) < CERT_B64_BUF_LEN -> solid (base64_encode pem) -> chunks <> [] ->
  exists d', exec (receive_lines (devid_line id :: cert_lines chunks) sock) d = exec (send_line sock (str "CERTOK")) d' /\
    pr_cert_pem (prov d') = pem /\ pr_state (prov d') = HS_RECEIVING_CERT /\ identity (prov d') = identity (prov d) /\
    pr_pending_device_id (prov d') = id.
Proof.
  intros Hid Hil Hpb Hpl Ec Hl Hs Hne. rewrite receive_cons, devid_line_routed by done. set (d1 := exec (handle_devid _ _) d).
  assert (Forall solid chunks) as Hsc.
  { rewrite <- Ec in Hs. clear -Hs. induction chunks as [|c cs IH]; [constructor|]. cbn [concat] in Hs.
    apply Forall_app in Hs as [? ?]. constructor; auto. }
  unfold cert_lines. rewrite receive_certs by done.
  assert (1 + Z.of_nat (length chunks) - 1 = Z.of_nat (length chunks))%Z as E by lia.
  destruct (feed_reassembles (lines_of 1 (Z.of_nat (length chunks)) chunks) chunks sock 1 [] pem d1) as (d' & E1 & H1 & H2 & H3 & H4).
  - rewrite E. by apply lines_numbered.
  - done.
  - rewrite E. unfold d1, handle_devid. rewrite !exec_bind, send_line_prov. cbn. split_and!; try done. by left.
  - cbn [length]. rewrite Ec. lia.
  - cbn [app]. rewrite Ec. by apply base64_decode_encode.
  - exists d'. rewrite E1. split_and!; [done|done|done|..].
    + rewrite H3. unfold d1, handle_devid. by rewrite !exec_bind, send_line_prov.
    + rewrite H4. unfold d1. by apply devid_pending.
Qed.

End Certificate.

(** ** Witnesses *)

(** Chunks of two and one groups of base64. *)
Definition pem_text : bytes := str "PEM-a-b-c".
Definition cert_chunks : list bytes := [str "UEVNLWEt"; str "Yi1j"].

Example certificate_reassembled_witness :
  exists d' : Dev, exec (receive_lines [str "DEVID:dev-7"; str "CERT:1:2:UEVNLWEt"; str "CERT:2:2:Yi1j"] 54) blank
           = exec (send_line 54 (str "CERTOK")) d' /\
    pr_cert_pem (prov d') = pem_text /\ pr_state (prov d') = HS_RECEIVING_CERT /\
    identity (prov d') = identity (prov blank) /\ pr_pending_device_id (prov d') = str "dev-7".
Proof.
  apply (certificate_reassembled (str "dev-7") pem_text cert_chunks 54 blank).
  - apply (bool_decide_unpack _). vm_compute. exact I.
  - apply (bool_decide_unpack _). vm_compute. exact I.
  - unfold is_byte. apply (bool_decide_unpack _). vm_compute. exact I.
  - apply (bool_decide_unpack _). vm_compute. exact I.
  - vm_compute. reflexivity.
  - apply (bool_decide_unpack _). vm_compute. exact I.
  - apply (bool_decide_unpack _). vm_compute. exact I.
  - discriminate.
Defined.

Lemma blank_bounds : prov_bounds (prov blank).
Proof. split; apply (bool_decide_unpack _); vm_compute; exact I. Qed.

Example provisioning_bounds_witness :
  prov_bounds (prov (exec (provisioning_handle_tcp_line (str "PROV:" ++ replicate 90 65%Z ++ str ",x,y") 54) blank)).
Proof. apply provisioning_bounds. apply blank_bounds. Defined.

(** A handshake that has come as far as CERTOK. *)
Definition provisioned : Dev := set_prov
  (set_pr_state HS_RECEIVING_CERT (set_pr_cert_pem pem_text (set_pr_pending_device_id (str "dev-7")
    (set_pr_pending_source (str "chan") (set_pr_pending_endpoint (str "host") (prov blank)))))) blank.

Example only_pfin_changes_identity_witness :
  let p' := prov (exec (provisioning_handle_tcp_line (str "PFIN") 54) provisioned) in
  identity p' <> identity (prov provisioned) /\
  pr_source_terminal_id p' = snprintf_s PROV_SOURCE_TERMINAL_ID_MAX (pr_pending_source (prov provisioned)).
Proof.
  cbv zeta. assert (bool_decide (identity (prov (exec (provisioning_handle_tcp_line (str "PFIN") 54) provisioned))
                      = identity (prov provisioned)) = false) as H by (vm_compute; reflexivity).
  apply bool_decide_eq_false in H. split; [exact H|].
  by destruct (only_pfin_changes_identity (str "PFIN") 54 provisioned H) as (_ & E & _).
Defined.
