(* ===== verification/TypedProps.v ===== *)
(** * TypedProps: the device stays inside its C types

    The C arrays have fixed sizes and the indices that run over them are plain
    integers. [typed] says of a device that every array has its size and every
    index, length and bounded field is in range; every step keeps it, so no
    write the handlers make through those indices leaves its array. *)

From S2P Require Import Prelude Platform State LocalSession Mdns EncFrame PairedList PairingEvents.
From S2P Require Import DevicePassword Discovery AccessPolicy PakeHandler LocalAuth OwnerCommands.
From S2P Require Import ResponseFifo ClientList Flash WifiPairing Provisioning TcpServer Invariant System.
From S2P Require Import ProvProps SimPlatform SimDevices.
From Stdlib Require Import ZArith Lia.
From stdpp Require Import base list strings numbers relations.

Local Open Scope cything_scope.

Section Types.
Context {P : Platform} {C : Config}.

(** ** The types *)

Record session_typed (s : local_session_t) : Prop := {
  ty_rx_len : ls_rx_len s < TCP_RECEIVE_DATA_LENGTH;
  ty_key : length (ls_key s) = 32;
  ty_nonce_dev : length (ls_nonce_dev s) = LOCAL_AUTH_NONCE_LEN;
  ty_nonce_phone : length (ls_nonce_phone s) = LOCAL_AUTH_NONCE_LEN;
  ty_tx_ctr : (0 <= ls_tx_ctr s < 2 ^ 64)%Z;
}.

(** [char user_sub[41]], [char user_email[65]], [uint8_t key[32]] *)
Record entry_typed (e : paired_entry_t) : Prop := {
  ty_user_sub : length (pe_user_sub e) = PAIRED_SUB_MAX + 1;
  ty_user_email : length (pe_user_email e) = PAIRED_EMAIL_MAX + 1;
  ty_entry_key : length (pe_key e) = PAIRED_KEY_LEN;
}.

Record list_typed (l : paired_blob_t) : Prop := {
  ty_rows : length (pb_entries l) = PAIRED_LIST_MAX;
  ty_count : pb_count l <= PAIRED_LIST_MAX;
  ty_entries : Forall entry_typed (pb_entries l);
  ty_owner : length (pb_owner_sub l) = PAIRED_SUB_MAX + 1;
}.

(** [uint8_t] counters, eight address slots. *)
Record pw_typed (p : pw_state) : Prop := {
  ty_ip : length (pw_ip p) = IP_SLOTS;
  ty_ip_fails : Forall (fun s => (0 <= ip_fails s <= 255)%Z) (pw_ip p);
  ty_global_fails : (0 <= pw_global_fails p <= 255)%Z;
}.

Record accounts_typed (a : account_list) : Prop := {
  ty_ac_rows : length (ac_list a) = ACCOUNT_MAX;
  ty_ac_size : ac_size a <= ACCOUNT_MAX;
}.

(** Four steps; the two texts fit their 128 bytes with a NUL. *)
Record wpair_typed (p : pairing_state) : Prop := {
  ty_step : (START_PAIRING_IND <= wp_step p <= FINISH_PAIRING_IND)%Z;
  ty_ssid : length (wp_ssid p) < TEMP_SIZE;
  ty_password : length (wp_password p) < TEMP_SIZE;
}.

Section Over.
(** The provisioning state is checked on its own. *)
Variable PR : prov_state -> Prop.

Record typed (d : Dev) : Prop := {
  ty_pool : length (pool d) = LOCAL_SESSION_MAX;
  ty_sessions : Forall session_typed (pool d);
  ty_plist : list_typed (plist d);
  ty_pw : pw_typed (pw d);
  ty_evq : queue_ok (evq d);
  ty_tcp_fifo : fifo_ok (tcp_fifo d);
  ty_mqtt_fifo : fifo_ok (mqtt_fifo d);
  ty_accounts : accounts_typed (accounts d);
  ty_response_id : (0 <= response_id d < 255)%Z;
  ty_wpair : wpair_typed (wpair d);
  ty_prov : PR (prov d);
  ty_disc_mode : (DISCOVERY_WIFI <= disc_mode d <= DISCOVERY_BOTH)%Z;
  ty_beacon : length (bc_mfg_data (beacon d)) = 7;
  ty_url : length (firmwareUrl d) < FIRMWARE_URL_SIZE;
}.

(** ** Programs that keep them *)

(** [m] keeps the device typed, and its result satisfies [R]. *)
Definition safe {A} (m : M A) (R : A -> Prop) : Prop := forall d, typed d -> typed (exec m d) /\ R (eval m d).
Definition anything {A} (_ : A) : Prop := True.

Lemma safe_ret {A} (a : A) (R : A -> Prop) : R a -> safe (ret a) R.
Proof. intros H d Hd. done. Qed.
Lemma safe_bind {A B} (m : M A) R (k : A -> M B) R' : safe m R -> (forall a, R a -> safe (k a) R') -> safe (bind m k) R'.
Proof. intros Hm Hk d Hd. rewrite exec_bind, eval_bind. destruct (Hm d Hd) as [H1 H2]. by apply Hk. Qed.
Lemma safe_weak {A} (m : M A) (R R' : A -> Prop) : safe m R -> (forall a, R a -> R' a) -> safe m R'.
Proof. intros Hm H d Hd. destruct (Hm d Hd). auto. Qed.
Lemma safe_gets {A} (f : Dev -> A) (R : A -> Prop) : (forall d, typed d -> R (f d)) -> safe (gets f) R.
Proof. intros H d Hd. split; [done|by apply H]. Qed.
Lemma safe_modify f : (forall d, typed d -> typed (f d)) -> safe (modify f) anything.
Proof. intros H d Hd. split; [by apply H|done]. Qed.
Lemma safe_io {A} (f : World -> A * World) (R : A -> Prop) : (forall w, R (f w).1) -> safe (io f) R.
Proof.
  intros H d Hd. unfold exec, eval, io. specialize (H (world d)). destruct (f (world d)). destruct Hd. split; [constructor; assumption|done].
Qed.
Lemma safe_when {R : unit -> Prop} b m : safe m anything -> R tt -> safe (when b m) R.
Proof. intros Hm HR d Hd. unfold when. destruct b; [|done]. destruct (Hm d Hd) as [H _]. split; [done|by destruct (eval m d)]. Qed.
Lemma safe_for_each {A} (l : list A) f : (forall a, safe (f a) anything) -> safe (for_each l f) anything.
Proof.
  intros Hf. induction l as [|a l IH]; intros d Hd; [done|]. destruct (Hf a d Hd) as [H1 _]. destruct (IH _ H1) as [H2 _]. done.
Qed.

(** ** Updates of one field *)

Lemma safe_upd_sess si f : (forall s, session_typed s -> session_typed (f s)) -> safe (upd_sess si f) anything.
Proof.
  intros Hf. apply safe_modify. intros d []. constructor; cbn; try assumption; [by rewrite length_alter|].
  apply Forall_alter; auto.
Qed.
Lemma safe_set_evq f : (forall q, queue_ok q -> queue_ok (f q)) -> safe (modify (fun d => set_evq (f (evq d)) d)) anything.
Proof. intros Hf. apply safe_modify. intros d []. constructor; cbn; try assumption; auto. Qed.
Lemma safe_upd_list f : (forall l, list_typed l -> list_typed (f l)) -> safe (upd_list f) anything.
Proof. intros Hf. apply safe_modify. intros d []. constructor; cbn; try assumption; auto. Qed.
Lemma safe_upd_entry i f : (forall e, entry_typed e -> entry_typed (f e)) -> safe (upd_entry i f) anything.
Proof.
  intros Hf. apply safe_modify. intros d []. constructor; cbn; try assumption. destruct ty_plist0. constructor; cbn; [by rewrite length_alter|done| |done].
  apply Forall_alter; auto.
Qed.
Lemma safe_upd_pw f : (forall p, pw_typed p -> pw_typed (f p)) -> safe (upd_pw f) anything.
Proof. intros Hf. apply safe_modify. intros d []. constructor; cbn; try assumption; auto. Qed.
Lemma safe_upd_wpair f : (forall p, wpair_typed p -> wpair_typed (f p)) -> safe (upd_wpair f) anything.
Proof. intros Hf. apply safe_modify. intros d []. constructor; cbn; try assumption; auto. Qed.
Lemma safe_upd_prov f : (forall p, PR p -> PR (f p)) -> safe (upd_prov f) anything.
Proof. intros Hf. apply safe_modify. intros d []. constructor; cbn; try assumption; auto. Qed.
Lemma safe_upd_flash f : safe (upd_flash f) anything.
Proof. apply safe_modify. intros d []. constructor; assumption. Qed.
Lemma safe_upd_beacon f : (forall b, bc_mfg_data (f b) = bc_mfg_data b) -> safe (upd_beacon f) anything.
Proof. intros Hf. apply safe_modify. intros d []. constructor; cbn; try assumption. by rewrite Hf. Qed.
Lemma safe_emit e : safe (emit e) anything.
Proof. apply safe_modify. intros d []. constructor; assumption. Qed.
Lemma safe_io_ f : safe (io_ f) anything.
Proof. apply safe_modify. intros d []. constructor; assumption. Qed.

Lemma safe_gets_any {A} (f : Dev -> A) : safe (gets f) anything.
Proof. by apply safe_gets. Qed.
Lemma safe_io_any {A} (f : World -> A * World) : safe (io f) anything.
Proof. by apply safe_io. Qed.

Lemma null_session_typed : session_typed null_session.
Proof. split; cbn; [unfold TCP_RECEIVE_DATA_LENGTH; lia|done..|lia]. Qed.
Lemma null_entry_typed : entry_typed null_entry.
Proof. by split. Qed.

Lemma safe_sess si : safe (gets (sess si)) session_typed.
Proof.
  apply safe_gets. intros d Hd. unfold sess. rewrite list_lookup_total_alt. destruct (pool d !! si) eqn:E; [|apply null_session_typed].
  exact (Forall_lookup_1 _ _ _ _ (ty_sessions d Hd) E).
Qed.
Lemma row_typed l i : list_typed l -> entry_typed (pb_entries l !!! i).
Proof.
  intros []. rewrite list_lookup_total_alt. destruct (pb_entries l !! i) eqn:E; [|apply null_entry_typed].
  exact (Forall_lookup_1 _ _ _ _ ty_entries0 E).
Qed.
Lemma safe_get i : safe (paired_list_get i) (fun o => match o with Some e => entry_typed e | None => True end).
Proof. apply safe_gets. intros d Hd. destruct (_ && _); [|done]. apply row_typed, Hd. Qed.
End Over.

Lemma safe_random PR `{!CryptoLaws P} n : safe PR (io (esp_fill_random n)) (fun b => length b = n).
Proof. apply safe_io. intros w. apply random_length. Qed.
End Types.

Create HintDb safe.
#[export] Hint Resolve safe_sess safe_get | 1 : safe.
#[export] Hint Resolve safe_gets_any safe_io_any safe_io_ safe_emit safe_upd_flash null_session_typed null_entry_typed | 5 : safe.

(** Through the handlers; what is left are the updates. *)
Ltac safe_known := solve [eauto 2 with safe | eapply safe_weak; [eauto 2 with safe|done]].
Ltac safe_step :=
  lazymatch goal with
  | |- safe _ (bind (io (esp_fill_random _)) _) _ => eapply safe_bind; [apply safe_random; typeclasses eauto|intros ? ?]
  | |- safe _ (bind _ _) _ => first [eapply safe_bind; [solve [eauto 2 with safe]|intros ? ?] | apply (safe_bind _ _ anything); [|intros ? ?]]
  | |- safe _ (ret _) _ => by apply safe_ret
  | |- safe _ (when _ _) _ => apply safe_when; [|done]
  | |- safe _ (for_each _ _) _ => apply safe_for_each; intros ?
  | |- safe _ (match ?x with _ => _ end) _ => destruct x eqn:?
  | |- safe _ (upd_sess _ _) _ => apply safe_upd_sess; intros ? []; constructor; cbn; try done; try (unfold TCP_RECEIVE_DATA_LENGTH; lia)
  | |- safe _ _ _ => safe_known
  end.
Ltac safe_solve := repeat first [progress cbv zeta | safe_step].

Section Parts.
Context {P : Platform} {C : Config} {PR : prov_state -> Prop}.
#[local] Abbreviation safe := (safe PR).

(** ** Sessions and frames *)

Lemma safe_free_srp si : safe (free_srp si) anything.
Proof. unfold free_srp. safe_solve. Qed.
#[local] Hint Resolve safe_free_srp : safe.
Lemma safe_reset_handshake si : safe (local_session_reset_handshake si) anything.
Proof. unfold local_session_reset_handshake. safe_solve. Qed.
Lemma safe_find sock : safe (local_session_find sock) anything.
Proof. unfold local_session_find. safe_solve. Qed.
Lemma safe_drop_auth si : safe (drop_auth si) anything.
Proof. unfold drop_auth. safe_solve. Qed.
#[local] Hint Resolve safe_reset_handshake safe_find safe_drop_auth : safe.
Lemma safe_removed i : safe (local_session_on_paired_removed i) anything.
Proof. unfold local_session_on_paired_removed. safe_solve. Qed.
Lemma safe_drop_all : safe local_session_drop_all_auth anything.
Proof. unfold local_session_drop_all_auth. safe_solve. Qed.
Lemma safe_wipe si : safe (wipe si) anything.
Proof. unfold wipe. safe_solve. Qed.
#[local] Hint Resolve safe_wipe : safe.
Lemma safe_acquire sock ip : safe (local_session_acquire sock ip) anything.
Proof. unfold local_session_acquire. safe_solve. Qed.
Lemma safe_release sock : safe (local_session_release sock) anything.
Proof. unfold local_session_release. safe_solve. Qed.
Lemma safe_enc_send sock b : safe (enc_frame_send sock b) anything.
Proof. unfold enc_frame_send, send. safe_solve. by apply (wrap_range 64). Qed.
#[local] Hint Resolve safe_enc_send : safe.
Lemma safe_send_line sock t : safe (security_send_line sock t) anything.
Proof. unfold security_send_line, send. safe_solve. Qed.
#[local] Hint Resolve safe_send_line : safe.
Lemma safe_send_err sock c : safe (send_err sock c) anything.
Proof. apply safe_send_line. Qed.
Lemma safe_unwrap line sock cap : safe (enc_frame_unwrap line sock cap) anything.
Proof. unfold enc_frame_unwrap, send_plain_err, send. safe_solve. Qed.
#[local] Hint Resolve safe_removed safe_drop_all safe_acquire safe_release safe_send_err safe_unwrap : safe.

(** ** Accounts, password, events *)

Lemma safe_refresh : safe mdns_discovery_refresh anything.
Proof. unfold mdns_discovery_refresh. safe_solve. Qed.
#[local] Hint Resolve safe_refresh : safe.

Lemma safe_list_store : safe PairedList.nvs_store anything.
Proof. unfold PairedList.nvs_store. safe_solve. Qed.
#[local] Hint Resolve safe_list_store : safe.

Lemma owner_typed l v : list_typed l -> length v = PAIRED_SUB_MAX + 1 -> list_typed (set_pb_owner_sub v l).
Proof. intros [] Hv. by constructor. Qed.
Lemma clear_owner_typed l : list_typed l -> list_typed (clear_owner l).
Proof. intros H. apply owner_typed; [done|]. rewrite length_insert. apply H. Qed.
Lemma Forall_shift_down {A} (Q : A -> Prop) l i n : Forall Q l -> Forall Q (shift_down l i n).
Proof.
  revert l i. induction n as [|n IH]; intros l i Hl; cbn; [done|]. apply IH. destruct (l !! S i) eqn:E; [|done].
  apply Forall_insert; [done|]. by eapply Forall_lookup_1.
Qed.
Lemma remove_row_typed j l : list_typed l -> list_typed (remove_row j l).
Proof.
  intros []. constructor; cbn; [by rewrite length_insert, length_shift_down|lia| |done].
  apply Forall_insert; [by apply Forall_shift_down|apply null_entry_typed].
Qed.

Lemma add_entry_typed k a : length k = PAIRED_KEY_LEN -> entry_typed (set_pe_key k (set_pe_user_sub (copy_field 41 a) null_entry)).
Proof. intros Hk. constructor; cbn; [by rewrite length_copy_field by lia|done|done]. Qed.

(** A row is only appended below the last one. *)
Lemma append_typed k a d :
  typed PR d -> length k = PAIRED_KEY_LEN -> pb_count (plist d) < PAIRED_LIST_MAX ->
  typed PR (exec (upd_entry (pb_count (plist d)) (fun _ => set_pe_key k (set_pe_user_sub (copy_field 41 a) null_entry)) ;;
                  upd_list (fun l => set_pb_count (S (pb_count l)) l)) d).
Proof.
  intros [] Hk Hlt. rewrite exec_bind. unfold upd_entry, upd_list. rewrite !exec_modify. constructor; cbn; try assumption.
  destruct ty_plist0. constructor; cbn; [by rewrite length_alter|lia| |done]. apply Forall_alter; [done|]. intros ? _ _. by apply add_entry_typed.
Qed.

Lemma claim_typed (b : bool) a d :
  typed PR d -> let d1 := exec (when b (upd_list (set_pb_owner_sub (copy_field 41 a)))) d in
  typed PR d1 /\ pb_count (plist d1) = pb_count (plist d).
Proof.
  intros Hd. destruct b; [|done]. split; [|done]. refine (proj1 (safe_upd_list PR _ _ d Hd)).
  intros l Hl. apply owner_typed; [done|]. by rewrite length_copy_field by lia.
Qed.

Lemma safe_add a b k t : length k = PAIRED_KEY_LEN -> safe (paired_list_add a b k t) (fun r => length (fst (snd r)) = PAIRED_KEY_LEN).
Proof.
  intros Hk. unfold paired_list_add. case_bool_decide; [by apply safe_ret|]. intros d Hd.
  rewrite exec_bind, eval_bind, exec_gets, eval_gets. cbv zeta. rewrite exec_bind, eval_bind.
  pose proof (ty_plist PR d Hd) as Hl. destruct (claim_typed (bool_decide (byte_at 0 (pb_owner_sub (plist d)) = 0)%Z) a d Hd) as [Hd1 Hc].
  set (l := plist d) in *. set (d1 := exec (when _ _) d) in *. clearbody d1. clear Hd.
  pose proof (row_typed l (if bool_decide (find_locked l a < 0)%Z then pb_count l else Z.to_nat (find_locked l a)) Hl) as Hb.
  assert (length (if bool_decide (find_locked l a < 0)%Z then k else pe_key (pb_entries l !!!
    (if bool_decide (find_locked l a < 0)%Z then pb_count l else Z.to_nat (find_locked l a)))) = PAIRED_KEY_LEN) as Hk'
    by (case_bool_decide; [done|apply Hb]).
  destruct (bool_decide (find_locked l a < 0)%Z && bool_decide (PAIRED_LIST_MAX <= pb_count l)) eqn:Eg.
  { revert d1 Hd1 Hc. intros d1 Hd1 _. revert d1 Hd1. change (safe (when (bool_decide (byte_at 0 (pb_owner_sub l) = 0)%Z) (upd_list clear_owner) ;;
      ret ((-1)%Z, (k, 0%Z))) (fun r => length (fst (snd r)) = PAIRED_KEY_LEN)).
    safe_solve; try done. apply safe_upd_list. intros. by apply clear_owner_typed. }
  rewrite exec_bind, eval_bind.
  assert (typed PR (exec (when (bool_decide (find_locked l a < 0)%Z)
    (upd_entry (if bool_decide (find_locked l a < 0)%Z then pb_count l else Z.to_nat (find_locked l a))
       (fun _ => set_pe_key k (set_pe_user_sub (copy_field 41 a) null_entry)) ;;
     upd_list (fun l => set_pb_count (S (pb_count l)) l))) d1)) as Hd2.
  { destruct (bool_decide (find_locked l a < 0)%Z); cbn [when]; [|exact Hd1]. cbn [andb] in Eg. apply bool_decide_eq_false in Eg.
    rewrite <- Hc in *. apply append_typed; [done..|lia]. }
  set (d2 := exec (when _ _) d1) in *. clearbody d2. clear Hd1 Hc d1.
  lazymatch goal with |- typed PR (exec ?m d2) /\ _ => cut (safe m (fun r => length (fst (snd r)) = PAIRED_KEY_LEN)) end; [by intros H'; apply H'|]. clear d2 Hd2.
  safe_solve; try done;
    first [ apply safe_upd_list; intros ? Ht; first [by apply clear_owner_typed|destruct Ht; by constructor; cbn; try done; lia]
          | apply safe_upd_entry; intros ? [] ].
  all: first [done | by apply add_entry_typed | constructor; cbn; first [done|by rewrite length_copy_field by lia] | apply null_entry_typed].
Qed.
#[local] Hint Resolve safe_add : safe.
Lemma safe_remove i : safe (paired_list_remove i) anything.
Proof. unfold paired_list_remove. safe_solve. apply safe_upd_list. intros. by apply remove_row_typed. Qed.
Lemma safe_clear_list : safe paired_list_clear anything.
Proof.
  unfold paired_list_clear. apply (safe_bind _ _ anything); [|intros ? _; safe_solve]. apply safe_modify. intros d [].
  constructor; cbn; try assumption. constructor; [done|cbn; lia|exact (Forall_replicate _ _ _ null_entry_typed)|done].
Qed.
Lemma safe_rotate `{!CryptoLaws P} : safe paired_list_rotate_owner_key anything.
Proof.
  unfold paired_list_rotate_owner_key. eapply safe_bind; [apply (safe_gets _ _ list_typed); intros d; apply ty_plist|intros l Hl].
  destruct (list_find _ (active l)) as [[i e]|] eqn:E; [|by apply safe_ret].
  assert (entry_typed e) as He.
  { apply list_find_Some in E as (E & _). eapply (Forall_lookup_1 entry_typed (active l)); [apply Forall_take, Hl|exact E]. }
  safe_solve; apply safe_upd_entry; intros ? []; constructor; cbn; try done. apply He.
Qed.
#[local] Hint Resolve safe_remove safe_clear_list safe_rotate : safe.

Lemma push_row_typed t q : queue_ok q -> queue_ok (push_row t q).
Proof.
  intros Hq. unfold push_row. set (q0 := if bool_decide (PAIRING_EVENTS_MAX <= q_count q) then drop_oldest q else q).
  assert (queue_ok q0 /\ q_count q0 < PAIRING_EVENTS_MAX) as [(H1 & H2 & H3) Hlt].
  { unfold q0. destruct (decide (PAIRING_EVENTS_MAX <= q_count q)) as [H|H].
    - rewrite bool_decide_eq_true_2 by done. destruct (drop_oldest_ok q Hq) as [Ho _]; [unfold PAIRING_EVENTS_MAX in H; lia|].
      split; [done|]. destruct Hq as (_ & Hc & _). cbn. unfold PAIRING_EVENTS_MAX in *. lia.
    - rewrite bool_decide_eq_false_2 by done. split; [done|lia]. }
  clearbody q0. split_and!; cbn; [by rewrite length_alter|lia|]. apply Forall_alter; [done|].
  intros row Hr Hl. assert (length (snprintf_s PAIRING_EVENT_JSON_MAX t) < PAIRING_EVENT_JSON_MAX) as Ht.
  { apply snprintf_lt. unfold PAIRING_EVENT_JSON_MAX. lia. }
  rewrite length_row_write; lia.
Qed.
Lemma safe_events_store : safe PairingEvents.nvs_store anything.
Proof. unfold PairingEvents.nvs_store. safe_solve. Qed.
Lemma safe_push e u r : safe (pairing_events_push e u r) anything.
Proof.
  unfold pairing_events_push. apply (safe_bind _ _ anything); [safe_solve|intros ? _].
  apply (safe_bind _ _ anything); [apply (safe_set_evq _ (push_row _)); apply push_row_typed|intros ? _; apply safe_events_store].
Qed.
#[local] Hint Resolve safe_push : safe.

Lemma zero_slots_typed : Forall (fun s => (0 <= ip_fails s <= 255)%Z) zero_ip_slots.
Proof. by apply Forall_replicate. Qed.
Lemma install_typed a b p : pw_typed p -> pw_typed (install_pair a b p).
Proof. intros []. constructor; cbn; [done|apply zero_slots_typed|lia]. Qed.
Lemma sat_inc_range n : (0 <= n <= 255 -> 0 <= sat_inc n <= 255)%Z.
Proof. unfold sat_inc. case_bool_decide; lia. Qed.

Lemma safe_store_pair o : safe (nvs_store_pair o) anything.
Proof. unfold nvs_store_pair. safe_solve. Qed.
Lemma safe_lockout : safe nvs_store_lockout anything.
Proof. unfold nvs_store_lockout. safe_solve. Qed.
#[local] Hint Resolve safe_store_pair safe_lockout : safe.
Lemma safe_pw_set w : safe (device_password_set w) anything.
Proof. unfold device_password_set. safe_solve. apply safe_upd_pw. intros. by apply install_typed. Qed.
Lemma safe_pw_clear : safe device_password_clear anything.
Proof. unfold device_password_clear. safe_solve. apply safe_upd_pw. intros. by apply install_typed. Qed.
Lemma safe_derive : safe derive_initial_locked anything.
Proof. unfold derive_initial_locked. safe_solve. apply safe_upd_pw. intros ? []. by constructor. Qed.
#[local] Hint Resolve safe_derive : safe.
Lemma safe_pw_get : safe device_password_get anything.
Proof. unfold device_password_get. safe_solve. Qed.
Lemma safe_lock_remaining ip : safe (device_password_lock_remaining_s ip) anything.
Proof. unfold device_password_lock_remaining_s. safe_solve. Qed.
Lemma ip_slot_typed ip tbl :
  Forall (fun s => (0 <= ip_fails s <= 255)%Z) tbl ->
  length (snd (ip_slot ip tbl)) = length tbl /\ Forall (fun s => (0 <= ip_fails s <= 255)%Z) (snd (ip_slot ip tbl)).
Proof.
  intros H. unfold ip_slot. destruct (ip_scan ip tbl tbl 0 0); cbn; [done|]. split; [apply length_insert|]. by apply Forall_insert.
Qed.
Lemma safe_note_failure ip : safe (device_password_note_failure ip) anything.
Proof.
  unfold device_password_note_failure. safe_solve; apply safe_upd_pw; intros ? [].
  - destruct (ip_slot_typed ip (pw_ip p) ty_ip_fails0) as [H1 H2]. destruct (ip_slot ip (pw_ip p)) as [i tbl]. cbn in *.
    constructor; cbn; [by rewrite length_alter, H1| |done]. apply Forall_alter; [done|]. intros x _ Hx. by apply sat_inc_range.
  - case_bool_decide; constructor; cbn; try done; by apply sat_inc_range.
Qed.
Lemma safe_note_success ip : safe (device_password_note_success ip) anything.
Proof.
  unfold device_password_note_success. safe_solve; apply safe_upd_pw; intros q Hp.
  - destruct (first_slot ip (pw_ip q)) as [[i ?]|]; [|done]. destruct Hp. constructor; cbn; [by rewrite length_insert| |done].
    by apply Forall_insert.
  - destruct Hp. constructor; cbn; [done..|lia].
Qed.
#[local] Hint Resolve safe_pw_set safe_pw_clear safe_pw_get safe_lock_remaining safe_note_failure safe_note_success : safe.

(** ** Discovery, the FIFOs and the registry *)

Lemma safe_set_mode m : safe (discovery_mode_set m) anything.
Proof.
  unfold discovery_mode_set. destruct (_ || _) eqn:E; [by apply safe_ret|]. apply orb_false_iff in E as [E1 E2]. bool_hyps.
  safe_solve. apply safe_modify. intros d []. constructor; cbn; try assumption. lia.
Qed.
Lemma safe_upd_beacon_any f : (forall b, bc_mfg_data (f b) = bc_mfg_data b) -> safe (upd_beacon f) anything.
Proof. apply safe_upd_beacon. Qed.
Lemma safe_stop_adv : safe stop_advertising_locked anything.
Proof. unfold stop_advertising_locked. safe_solve; by apply safe_upd_beacon_any. Qed.
#[local] Hint Resolve safe_set_mode safe_stop_adv : safe.
Lemma safe_start_adv : safe start_advertising_locked anything.
Proof. unfold start_advertising_locked. safe_solve; by apply safe_upd_beacon_any. Qed.
#[local] Hint Resolve safe_start_adv : safe.
Lemma safe_apply_mode : safe ble_beacon_apply_discovery_mode anything.
Proof. unfold ble_beacon_apply_discovery_mode. safe_solve. Qed.
#[local] Hint Resolve safe_apply_mode : safe.

Lemma push_fifo data f : fifo_ok f -> fifo_ok (snd (response_fifo_push data f)).
Proof. intros Hf. pose proof (push_spec data f Hf) as H. cbv zeta in H. destruct (response_fifo_push data f). apply H. Qed.
Lemma safe_push_tcp t : safe (push_tcp_line t) anything.
Proof.
  unfold push_tcp_line. apply (safe_bind _ _ anything); [|by intros ? ?; apply safe_ret]. apply safe_modify. intros d [].
  constructor; cbn; try assumption. by apply push_fifo.
Qed.
#[local] Hint Resolve safe_push_tcp : safe.
Lemma safe_send_raw sock t : safe (send_raw_to_client sock t) anything.
Proof. unfold send_raw_to_client. safe_solve. Qed.
Lemma safe_response_id : safe update_response_id anything.
Proof.
  intros d Hd. split; [|done]. unfold update_response_id. rewrite exec_bind. change (exec (modify ?f) d) with (f d). rewrite exec_bind, eval_gets, exec_gets.
  rewrite exec_bind. destruct Hd. unfold when. cbn [response_id set_response_id]. case_bool_decide; constructor; cbn; try assumption; lia.
Qed.
#[local] Hint Resolve safe_send_raw safe_response_id : safe.
Lemma safe_send_data sock t : safe (send_data_to_clients sock t) anything.
Proof.
  unfold send_data_to_clients. safe_solve. apply safe_modify. intros d []. constructor; cbn; try assumption. by apply push_fifo.
Qed.
Lemma safe_sock_authed sock : safe (access_policy_sock_authenticated sock) anything.
Proof. unfold access_policy_sock_authenticated. safe_solve. Qed.
#[local] Hint Resolve safe_send_data safe_sock_authed : safe.
Lemma safe_send_one t p dst : safe (send_one t p dst) anything.
Proof. unfold send_one. safe_solve. Qed.
#[local] Hint Resolve safe_send_one : safe.
Lemma safe_route l : safe (route_line l) anything.
Proof. unfold route_line. safe_solve. Qed.
Lemma safe_send_task : safe tcp_response_send_step anything.
Proof.
  unfold tcp_response_send_step. apply (safe_bind _ _ anything); [|intros ? _; safe_solve; apply safe_route].
  intros d []. unfold exec. destruct (response_fifo_drain _ _) as [data f] eqn:E. split; [|done]. cbn.
  pose proof (drain_spec RESPONSE_FIFO_SIZE (tcp_fifo d) ty_tcp_fifo0) as H. rewrite E in H. constructor; cbn; try assumption. apply H.
Qed.
Lemma safe_add_account sock : safe (add_account sock) anything.
Proof.
  intros d Hd. split; [|done]. unfold add_account. rewrite exec_bind, eval_gets, exec_gets. case_bool_decide; [done|].
  rewrite exec_bind, exec_ret. destruct Hd, ty_accounts0. constructor; cbn; try assumption. constructor; cbn; [by rewrite length_insert|lia].
Qed.
Lemma safe_remove_account sock : safe (remove_account sock) anything.
Proof.
  apply safe_modify. intros d []. constructor; cbn; try assumption. destruct ty_accounts0. unfold drop_account.
  destruct (list_find _ _) as [[i ?]|]; [|by constructor]. constructor; cbn; [by rewrite length_shift_down|lia].
Qed.
#[local] Hint Resolve safe_send_task safe_add_account safe_remove_account : safe.

(** ** The handlers *)

Lemma safe_allow line sock : safe (access_policy_allow line sock) anything.
Proof. unfold access_policy_allow, send_plain, send. safe_solve. Qed.
Lemma safe_srp_setup h a b c : safe (srp_setup h a b c) anything.
Proof. unfold srp_setup. safe_solve. Qed.
Lemma safe_abort si : safe (abort_pake si) anything.
Proof. unfold abort_pake. safe_solve. Qed.
#[local] Hint Resolve safe_allow safe_srp_setup safe_abort : safe.
Lemma safe_pake1 si line : safe (handle_pake1 si line) anything.
Proof. unfold handle_pake1. safe_solve. rewrite length_take. bool_hyps. lia. Qed.
Lemma safe_pake3 si line : safe (handle_pake3 si line) anything.
Proof. unfold handle_pake3. safe_solve. Qed.
#[local] Hint Resolve safe_pake1 safe_pake3 : safe.
Lemma safe_pake line sock : safe (pake_handle_line line sock) anything.
Proof. unfold pake_handle_line. safe_solve. Qed.

Context `{!CryptoLaws P}.

Lemma safe_enroll si line : safe (handle_enroll si line) anything.
Proof.
  unfold handle_enroll. safe_solve.
Qed.
Lemma parse_auth1_nonce line sub np : parse_auth1 line = Some (sub, np) -> length np = LOCAL_AUTH_NONCE_LEN.
Proof. unfold parse_auth1. repeat case_match; intros; simplify_eq; by bool_hyps. Qed.
Definition some_entry_typed (o : option paired_entry_t) : Prop := match o with Some e => entry_typed e | None => True end.
Lemma safe_get_if (b : bool) i : safe (if b then ret None else paired_list_get i) some_entry_typed.
Proof. destruct b; [by apply safe_ret|apply safe_get]. Qed.
#[local] Hint Resolve safe_get_if | 0 : safe.
Lemma safe_auth1 si line : safe (handle_auth1 si line) anything.
Proof.
  unfold handle_auth1. safe_solve; subst; [by eapply parse_auth1_nonce|].
  match goal with H : some_entry_typed _ |- _ => apply H end.
Qed.
Lemma safe_auth3 si line : safe (handle_auth3 si line) anything.
Proof. unfold handle_auth3. safe_solve. apply hmac_length. Qed.
#[local] Hint Resolve safe_enroll safe_auth1 safe_auth3 : safe.
Lemma safe_auth line sock : safe (local_auth_handle_line line sock) anything.
Proof. unfold local_auth_handle_line. safe_solve. Qed.

Lemma safe_list_loop sock n i : safe (list_loop sock n i) anything.
Proof. revert i. induction n as [|n IH]; intros i; cbn [list_loop]; safe_solve. Qed.
Lemma safe_revoke_loop n i : safe (revoke_loop n i) anything.
Proof. revert i. induction n as [|n IH]; intros i; cbn [revoke_loop]; safe_solve. Qed.
#[local] Hint Resolve safe_list_loop safe_revoke_loop : safe.
Lemma safe_owner line sock : safe (owner_commands_handle_line line sock) anything.
Proof.
  unfold owner_commands_handle_line, handle_unpair, handle_list, handle_revoke, handle_pwset, handle_pwclear, handle_reset,
    handle_discoverymode, handle_discoverymode_get, revoke_all_non_owner.
  safe_solve.
Qed.

Lemma safe_ota line sock : safe (ota_handle_line line sock) anything.
Proof.
  unfold ota_handle_line. safe_solve. apply safe_modify. intros d []. constructor; cbn; try assumption.
  rewrite length_take. case_bool_decide; unfold FIRMWARE_URL_SIZE in *; lia.
Qed.
Lemma safe_app_call c : safe (run_app_call c) anything.
Proof. unfold run_app_call. safe_solve. Qed.
#[local] Hint Resolve safe_app_call : safe.
Lemma safe_app line sock : safe (app_command line sock) anything.
Proof. unfold app_command. safe_solve. Qed.

Lemma safe_read_wifi : safe flash_read_wifi_router_info anything.
Proof. unfold flash_read_wifi_router_info, ota_set_new_read_partition, ota_read, ask. safe_solve. Qed.
#[local] Hint Resolve safe_read_wifi : safe.
Lemma safe_commit a b : safe (pairing_commit a b) anything.
Proof.
  unfold pairing_commit, flash_store_wifi_router_info, ota_set_new_erase_partition, ota_set_new_write_partition, ota_erase, ota_write, reboot_after_ms.
  safe_solve.
Qed.
#[local] Hint Resolve safe_commit : safe.
Lemma copied_length line a b n : 0 < n -> length (copy_pairing_value line a b n) < n.
Proof. intros Hn. unfold copy_pairing_value. cbv zeta. rewrite length_take. case_bool_decide; lia. Qed.
Lemma safe_pairing line sock : safe (pairing_handle_line line sock) anything.
Proof.
  unfold pairing_handle_line, ack, pairing_touch, pairing_done. safe_solve;
    apply safe_upd_wpair; intros p []; constructor; cbn; try done; apply copied_length; unfold TEMP_SIZE; lia.
Qed.
#[local] Hint Resolve safe_pake safe_auth safe_owner safe_ota safe_app safe_pairing : safe.
End Parts.

(** ** Provisioning, and the whole dispatcher *)

Section Dispatch.
Context {P : Platform} {C : Config} {CL : CryptoLaws P} {B : Base64Laws P}.

Lemma typed_split PR d : typed PR d <-> typed anything d /\ PR (prov d).
Proof. split; [intros []; split; [by constructor|done]|intros [[] ?]; by constructor]. Qed.

Lemma safe_prov_rest line sock : safe anything (provisioning_handle_tcp_line line sock) anything.
Proof.
  assert (forall f, safe anything (upd_prov f) anything) as Hu by (intros f; by apply safe_upd_prov).
  unfold provisioning_handle_tcp_line, handle_reqid, handle_prov, handle_csrreq, handle_devid, handle_cert, handle_pfin, build_csr_base64,
    load_or_generate_keypair, persist_identity, nvs_set_string, nvs_get_string, reset_handshake, send_line, reboot_after_ms, send, ask.
  safe_solve.
Qed.

Lemma safe_prov line sock : safe prov_bounds (provisioning_handle_tcp_line line sock) anything.
Proof.
  intros d [Hr Hp]%typed_split. split; [|done]. apply typed_split. split; [by apply safe_prov_rest|by apply provisioning_bounds].
Qed.

Lemma safe_dispatch line sock : safe prov_bounds (tcp_dispatch_line line sock) anything.
Proof.
  unfold tcp_dispatch_line.
  safe_solve; eauto using safe_allow, safe_pake, safe_auth, safe_owner, safe_prov, safe_ota, safe_app, safe_pairing.
Qed.

Lemma safe_recv_line line sock : safe prov_bounds (recv_line line sock) anything.
Proof. unfold recv_line. safe_solve; eauto using safe_unwrap, safe_dispatch. Qed.

(** The byte goes into [rx_buffer] at an index below its size; when that was the
    last one, the length is put back before anybody sees it. *)
Lemma safe_recv si sock ev rx : safe prov_bounds (recv_step si sock ev rx) anything.
Proof.
  unfold recv_step. destruct ev as [c| | |]; [|safe_solve..].
  eapply safe_bind; [apply safe_sess|intros s Hs]. cbv zeta. case_bool_decide as Hfull.
  - intros d Hd. split; [|done]. rewrite !exec_bind, exec_ret.
    assert (exec (upd_sess si (set_ls_rx_len 0)) (exec (upd_sess si (set_ls_rx_len (S (ls_rx_len s)))) d)
            = exec (upd_sess si (set_ls_rx_len 0)) d) as ->.
    { unfold upd_sess. rewrite !exec_modify. cbn. by rewrite alter_alter. }
    refine (proj1 (safe_upd_sess _ si _ _ d Hd)). intros x []. constructor; cbn; try done. unfold TCP_RECEIVE_DATA_LENGTH. lia.
  - safe_solve; [unfold TCP_RECEIVE_DATA_LENGTH in *; lia|apply safe_recv_line].
Qed.

Lemma safe_accept sock ip : safe prov_bounds (tcp_accept sock ip) anything.
Proof.
  assert (forall l, safe prov_bounds (shutdown_matching ip l) anything) as Hs.
  { induction l as [|s l IH]; cbn [shutdown_matching]; safe_solve. }
  assert (safe prov_bounds (local_session_shutdown_peer ip) anything) as Hp.
  { unfold local_session_shutdown_peer. safe_solve. }
  unfold tcp_accept, reject, local_session_count, ask. safe_solve;
    eauto using safe_add_account, safe_remove_account, safe_acquire, safe_release with safe.
Qed.

Lemma safe_exit sock : safe prov_bounds (recv_exit sock) anything.
Proof. unfold recv_exit. safe_solve; eauto using safe_release, safe_remove_account. Qed.

Lemma safe_timeout : safe prov_bounds pairing_timeout_cb anything.
Proof.
  apply safe_upd_wpair. intros p []. unfold START_PAIRING_IND, FINISH_PAIRING_IND in *. case_bool_decide; constructor; cbn; done || lia.
Qed.

Lemma step_typed d d' : typed prov_bounds d -> step d d' -> typed prov_bounds d'.
Proof.
  intros Hd Hst. destruct Hst.
  - by apply safe_accept.
  - by apply safe_recv.
  - by apply safe_exit.
  - by apply safe_send_task.
  - by apply safe_timeout.
Qed.

(** C2: the device stays inside its C types. In every state the tasks can reach,
    however connections, bytes, timeouts, the send task and the timer
    interleave, every array has its declared size and every length and index
    that is used to write into one is in range: the receive index of each
    session, its key and nonces, the number of accounts and their rows, lockout slots, events and
    sockets, both FIFOs, the strings of pairing, provisioning and OTA, and the
    counters that are kept in a byte. *)
Theorem reachable_typed d0 d : typed prov_bounds d0 -> reachable d0 d -> typed prov_bounds d.
Proof. intros H0 Hr. induction Hr as [|x y z Hst _ IH]; [done|]. apply IH. by eapply step_typed. Qed.

End Dispatch.

(** ** On a concrete device *)

Lemma blank_typed : typed prov_bounds blank.
Proof.
  constructor; try done.
  - apply Forall_replicate, null_session_typed.
  - constructor; [done|apply Nat.leb_le; reflexivity|exact (Forall_replicate _ _ _ null_entry_typed)|done].
  - constructor; [done|exact zero_slots_typed|done].
  - split_and!; [done|apply Nat.leb_le; reflexivity|by apply Forall_replicate].
  - split_and!; [done|apply Nat.leb_le; reflexivity|done].
  - split_and!; [done|apply Nat.leb_le; reflexivity|done].
  - constructor; [done|apply Nat.leb_le; reflexivity].
  - constructor; [done|apply Nat.ltb_lt; reflexivity..].
  - constructor; apply Nat.ltb_lt; reflexivity.
  - apply Nat.ltb_lt; reflexivity.
Qed.

Lemma reachable_typed_witness : exists d, reachable blank d /\ typed prov_bounds d.
Proof.
  set (d1 := exec (tcp_accept 60 167772162) blank).
  exists (exec (recv_exit 60) d1). assert (reachable blank (exec (recv_exit 60) d1)) as Hr.
  { eapply rtc_l; [apply (step_accept blank 60 167772162); [discriminate|vm_compute; reflexivity]|].
    apply rtc_once. apply step_exit. discriminate. }
  split; [exact Hr|]. exact (reachable_typed blank _ blank_typed Hr).
Defined.
