(* ===== verification/AwsTopics.v ===== *)
(** * AwsTopics: the device's topics, and what a message on each does *)

From S2P Require Import Prelude Platform Radio State LocalSession Mdns Provisioning PairingEvents ResponseFifo ClientList TcpServer UdpScan.
From S2P Require Import MqttTypes MqttState MqttSerializer MqttCore NetworkTransport AwsIot.
From S2P Require Import MqttStateProps MqttWire MqttCoreProps MqttFrame MqttClient AwsFrame ProvProps.
From Stdlib Require Import ZArith Lia.
From stdpp Require Import base list strings numbers.

Local Open Scope cything_scope.

Section Topics.
Context {P : Platform} {C : Config} {A : AwsConfig} {N : EspTls} (fuel : nat).

(** ** The identity *)

Definition device_base (d : Dev) : bytes :=
  pr_source_terminal_id (prov d) ++ [47]%Z ++ cy_device_type ++ [47]%Z ++ pr_device_id (prov d).

Definition topic_text (d : Dev) (suffix : bytes) : bytes := device_base d ++ [47]%Z ++ suffix.

(** Room for the device type between two identifiers of the largest size. *)
Definition type_fits : Prop := length cy_device_type <= 47.

Lemma base_whole d : prov_bounds (prov d) -> type_fits -> topic_base d = device_base d /\ length (device_base d) <= 127.
Proof.
  intros [H1 H2 _ _ _ _ _ _] H3. unfold type_fits, PROV_DEVICE_ID_MAX, PROV_SOURCE_TERMINAL_ID_MAX in *.
  assert (length (device_base d) <= 127) as Hl by (unfold device_base; rewrite !length_app; cbn [length]; lia).
  split; [|done]. unfold topic_base, snprintf_s. fold (device_base d). apply take_ge. lia.
Qed.

(** A topic on the base that is kept. *)
Definition topic_on (base suffix : bytes) : topic_t :=
  Build_topic (base ++ [47]%Z ++ suffix) (Z.of_nat (length (base ++ [47]%Z ++ suffix))).

Lemma topic_on_base d suffix : length suffix <= 16 -> set_topic (topic_base d) suffix = topic_on (take 127 (device_base d)) suffix.
Proof.
  intros Hs. change (topic_base d) with (take 127 (device_base d)). unfold set_topic, topic_on, snprintf_s, TOPIC_SIZE.
  set (base := take 127 (device_base d)). assert (length base <= 127) as Hl by (unfold base; rewrite length_take; lia).
  assert (0 < length (base ++ [47]%Z ++ suffix) <= 144) as Hn by (rewrite !length_app; cbn [length]; lia).
  rewrite take_ge by lia. rewrite !(bool_decide_eq_true_2 _) by lia. cbn [andb]. by rewrite (wrap_small 16) by lia.
Qed.

Lemma topic_whole d suffix :
  prov_bounds (prov d) -> type_fits -> length suffix <= 16 ->
  set_topic (topic_base d) suffix = Build_topic (topic_text d suffix) (Z.of_nat (length (topic_text d suffix))).
Proof.
  intros Hb Ht Hs. destruct (base_whole d Hb Ht) as [_ Hl]. rewrite topic_on_base by done. by rewrite take_ge by lia.
Qed.


(** ** Routing *)

Lemma cstr_full t : length (cstr t) = length t -> cstr t = t.
Proof.
  induction t as [|c t IH]; [done|]. change (cstr (c :: t)) with (if bool_decide (c = 0%Z) then [] else c :: cstr t).
  case_bool_decide as E0; cbn [length]; [lia|]. intros [= H].
  by rewrite IH.
Qed.

Lemma topic_is_exact text p t s :
  Forall (fun c => c <> 0%Z) text -> (0 <= topicNameLength p)%Z -> field (pTopicName p) (topicNameLength p) = Some t ->
  topic_is (Build_topic text (Z.of_nat (length text))) p s = Done (bool_decide (t = text), s).
Proof.
  intros Hz Hn Hf. pose proof (field_length _ _ _ Hf) as Hl. unfold topic_is. cbn [t_len t_text].
  case_bool_decide as E.
  - unfold field in Hf. destruct (pTopicName p) as [src|]; [|done]. cbn in Hf |- *. rewrite Hf. cbn.
    #[local] Transparent access pret pbind.
    unfold access. do 2 f_equal. rewrite take_ge by lia. apply bool_decide_ext. split; [|intros ->; by apply cstr_id].
    intros Et. assert (length (cstr t) = length t) as Ec by (rewrite Et; lia). rewrite <- Et. symmetry.
    apply cstr_full. done.
  - unfold pret. do 2 f_equal. symmetry. apply bool_decide_eq_false_2. intros ->. apply E. lia.
Qed.
(** The identity is the provisioned one, of C strings. *)
Record identified (s : aws) : Prop := {
  id_bounds : prov_bounds (prov (aw_dev s));
  id_type : type_fits;
  id_text : Forall (fun c => c <> 0%Z) (device_base (aw_dev s));
  id_built : g_mqtt_identity s = identity_of (aw_dev s);
}.

Lemma subscription_is d suffix p t s :
  prov_bounds (prov d) -> type_fits -> Forall (fun c => c <> 0%Z) (device_base d) ->
  length (str suffix) <= 16 -> Forall (fun c => c <> 0%Z) (str suffix) ->
  (0 <= topicNameLength p)%Z -> field (pTopicName p) (topicNameLength p) = Some t ->
  topic_is (set_topic (topic_base d) (str suffix)) p s = Done (bool_decide (t = topic_text d (str suffix)), s).
Proof.
  intros Hb Ht Hz Hl Hs Hn Hf. rewrite (topic_whole d _ Hb Ht Hl). apply topic_is_exact; [|done|done].
  unfold topic_text. apply Forall_app. split; [done|]. constructor; [done|done].
Qed.

Lemma texts_differ d x y : bool_decide (str x = str y) = false -> topic_text d (str x) <> topic_text d (str y).
Proof. intros H E. apply bool_decide_eq_false_1 in H. apply H. by apply app_inv_head, app_inv_head in E. Qed.

(** What a message on topic [t] is for. *)
Definition handler_of (d : Dev) (t : bytes) (p : MQTTPublishInfo_t) : PT aws unit :=
  if bool_decide (t = topic_text d (str "command")) then process_aws_iot_command fuel (pPayload p) (payloadLength p)
  else if bool_decide (t = topic_text d (str "getInfoCommand")) then process_aws_iot_get_info_command fuel (pPayload p)
  else if bool_decide (t = topic_text d (str "updateFwCommand"))
  then process_aws_iot_update_fw_response fuel (pPayload p) (payloadLength p)
  else pret tt.

Lemma routed s p t :
  identified s -> (0 <= topicNameLength p)%Z -> field (pTopicName p) (topicNameLength p) = Some t ->
  handleIncomingPublish fuel p s = handler_of (aw_dev s) t p s.
Proof.
  intros [Hb Ht Hz Hid] Hn Hf. unfold handleIncomingPublish, handler_of. unfold pbind at 1, get. rewrite Hid.
  cbn [command_topic get_info_command_topic update_fw_command_topic identity_of].
  assert (forall x, length (str x) <= 16 -> Forall (fun c => c <> 0%Z) (str x) ->
    topic_is (set_topic (topic_base (aw_dev s)) (str x)) p s = Done (bool_decide (t = topic_text (aw_dev s) (str x)), s)) as H.
  { intros x Hx1 Hx2. by apply subscription_is. }
  unfold pbind at 1. rewrite H by (vm_compute; first [lia|by repeat constructor]). destruct (bool_decide _); [done|].
  unfold pbind at 1. rewrite H by (vm_compute; first [lia|by repeat constructor]). destruct (bool_decide _); [done|].
  unfold pbind at 1. rewrite H by (vm_compute; first [lia|by repeat constructor]). by destruct (bool_decide _).
Qed.

(** C29: On a device whose identity was built from its provisioned one (a device
    type of at most 47 bytes, so that no topic is cut), a message is handled by
    its topic and by nothing else, compared byte for byte: the three command topics of this device's own base reach their
    handlers; a message on any other topic changes nothing at all. *)
Theorem commands_are_routed s pk id p t st :
  identified s -> Z.land (pk_type pk) 240 = MQTT_PACKET_TYPE_PUBLISH ->
  (0 <= topicNameLength p)%Z -> field (pTopicName p) (topicNameLength p) = Some t ->
  eventCallback fuel pk (Build_deserialized id (Some p) st) s = handler_of (aw_dev s) t p s /\
  (t <> topic_text (aw_dev s) (str "command") -> t <> topic_text (aw_dev s) (str "getInfoCommand") ->
   t <> topic_text (aw_dev s) (str "updateFwCommand") -> eventCallback fuel pk (Build_deserialized id (Some p) st) s = Done (tt, s)).
Proof.
  intros Hi Hpk Hn Hf.
  assert (eventCallback fuel pk (Build_deserialized id (Some p) st) s = handler_of (aw_dev s) t p s) as ->.
  { unfold eventCallback. rewrite bool_decide_eq_true_2 by done. cbn [pPublishInfo access pbind]. unfold pbind, access. by apply routed. }
  split; [done|]. intros H1 H2 H3. unfold handler_of. by rewrite !bool_decide_eq_false_2.
Qed.

(** C31: A QoS 0 message without a payload on one of the two command topics that
    are matched against fixed texts stops the device: the payload pointer is
    NULL, and is compared with the text. *)
Theorem empty_command_stops_the_device s pk id p t :
  identified s -> carries pk id p -> pub_qos p = MQTTQoS0 -> pPayload p = None ->
  Z.land (pk_type pk) 240 = MQTT_PACKET_TYPE_PUBLISH ->
  (0 <= topicNameLength p)%Z -> field (pTopicName p) (topicNameLength p) = Some t ->
  t = topic_text (aw_dev s) (str "getInfoCommand") \/ t = topic_text (aw_dev s) (str "updateFwCommand") ->
  MqttCore.handleIncomingPublish (A := aws_app fuel) fuel pk s = Fault.
Proof.
  intros Hi Hc Hq Hp Hpk Hn Hf Ht.
  assert (forall st, eventCallback fuel pk (Build_deserialized id (Some p) st) (set_aw_ctx (ctx s) s) = Fault) as Hcb.
  { intros st. unfold eventCallback. rewrite bool_decide_eq_true_2 by done. unfold pbind, access. cbn [pPublishInfo].
    rewrite (routed _ p t) by (done || by destruct Hi). unfold handler_of.
    change (aw_dev (set_aw_ctx _ _)) with (aw_dev s). rewrite Hp.
    destruct Ht as [-> | ->]; rewrite (bool_decide_eq_false_2 (_ = topic_text _ (str "command"))) by apply texts_differ, eq_refl.
    - rewrite bool_decide_eq_true_2 by done. done.
    - rewrite bool_decide_eq_false_2 by (apply texts_differ, eq_refl). rewrite bool_decide_eq_true_2 by done. done. }
  unfold MqttCore.handleIncomingPublish. unfold carries in Hc. rewrite Hc.
  unfold pbind at 1, access. cbn [fst snd]. unfold pbind at 1, getctx.
  change (default 0%Z (Some id)) with id. change (default uninit_publish (Some p)) with p. rewrite Hq.
  rewrite (bool_decide_eq_false_2 (MQTTQoS0 <> MQTTQoS0)) by auto. rewrite andb_false_r. change (mqtt_ok MQTTSuccess) with true. cbn [negb].
  unfold pbind at 1, onctx. change (MQTT_UpdateStatePublish _ _ _ MQTTQoS0) with (MQTTSuccess, Some MQTTPublishDone, ctx s). cbv iota.
  rewrite (bool_decide_eq_false_2 (MQTTSuccess = _)) by done. change (mqtt_ok MQTTSuccess) with true. cbv iota.
  unfold pbind. change (appCallback pk ?d) with (eventCallback fuel pk d). change (set_ctx (ctx s) s) with (set_aw_ctx (ctx s) s).
  by rewrite Hcb.
Qed.
End Topics.
