(* ===== verification/AwsRig.v ===== *)
(** * AwsRig: the broker task against a scripted broker

    A TLS connection that delivers a script or refuses to connect, over a
    provisioned device: the hypotheses of the theorems about the task hold of
    it. *)

From S2P Require Import Prelude Platform State LocalSession Mdns Provisioning PairingEvents ResponseFifo ClientList Backoff.
From S2P Require Import MqttTypes MqttState MqttSerializer MqttCore NetworkTransport AwsIot.
From S2P Require Import MqttStateProps MqttWire MqttCoreProps MqttFrame MqttClient SimPlatform SimDevices.
From S2P Require Import AwsFrame AwsProps QueueProps AwsSession ProvProps AwsTopics.
From Stdlib Require Import ZArith Lia.
From stdpp Require Import base list strings numbers.

Local Open Scope cything_scope.

Record net := Net {
  n_up : bool;
  n_in : list bytes;
  n_out : bytes;
  n_got : bytes;
  n_ms : Z;
}.

Definition net_read (n : nat) (w : net) : Z * bytes * net :=
  match n_in w with
  | [] => ((-26880)%Z, [], w)
  | chunk :: rest =>
      let data := u8 <$> take n chunk in
      let left := drop n chunk in
      (Z.of_nat (length data), data,
       Net (n_up w) (if bool_decide (left = []) then rest else left :: rest) (n_out w) (n_got w ++ data) (n_ms w))
  end.

Definition net_wait (ms : Z) (w : net) : net := Net (n_up w) (n_in w) (n_out w) (n_got w) (n_ms w + ms).

#[export] Instance rig_tls : EspTls := {|
  NetWorld := net;
  esp_tls_t := unit;
  esp_tls_init := fun w => (Some tt, w);
  esp_tls_conn_new_sync := fun _ _ _ _ w => ((if n_up w then 1 else -1)%Z, w);
  esp_tls_conn_destroy := fun _ w => (0%Z, w);
  esp_tls_conn_write := fun _ b w =>
    (Z.of_nat (length b), Net (n_up w) (n_in w) (n_out w ++ b) (n_got w) (n_ms w));
  esp_tls_conn_read := fun _ n w => net_read n w;
  ESP_TLS_ERR_SSL_WANT_READ := -26880;
  ESP_TLS_ERR_SSL_WANT_WRITE := -26752;
  esp_timer_us := fun w => ((n_ms w * 1000)%Z, net_wait 100 w);
  xTaskGetTickCount := fun w => (n_ms w, w);
  pdMS_TO_TICKS := fun ms => ms;
  vTaskDelay := net_wait;
  sleep := fun s w => net_wait (1000 * s) w;
  rand := fun w => (4%Z, w);
|}.

#[export] Program Instance rig_tls_laws : EspTlsLaws := {| tls_wire := fun w : net => (n_out w, n_got w) |}.
Next Obligation. intros h b w. cbn. split; [lia|]. by rewrite Nat2Z.id, firstn_all. Qed.
Next Obligation.
  intros h n w. cbn. unfold net_read. destruct (n_in w) as [|chunk rest].
  - split_and!; [lia|done|constructor|]. by rewrite app_nil_r.
  - split_and!; [rewrite length_fmap, length_take; lia|lia| |done]. apply list.Forall_fmap, list.Forall_forall. intros x _. apply wrap_range. lia.
Qed.
Next Obligation. done. Qed.
Next Obligation. done. Qed.
Next Obligation. done. Qed.
Next Obligation. done. Qed.

#[export] Instance rig_config : AwsConfig := {|
  app_mqtt_command_handle := fun c _ w => ((true, [PublishResponse c]), w);
  METRICS_STRING := str "?SDK=FreeRTOS";
  root_cert_auth_pem := str "CA";
|}.

(** ** A provisioned device that is on the Wi-Fi *)

Definition rig_prov : prov_state :=
  Build_prov (str "dev1") (str "term1") (str "broker.example") (str "cert") (str "key") true HS_IDLE [] [] [] [] 0 1.

Definition rig_dev : Dev :=
  set_evq full_events (set_prov rig_prov (set_station (Build_station true 0 true (str "home") [] 1 true) sim_home)).

Definition rig_aws (up : bool) (script : list bytes) (ms : Z) : aws :=
  Build_aws rig_dev (Build_context [] [] [] 1 MQTTNotConnected 0 0 false 0 0 0 false) null_network (Net up script [] [] ms)
    (replicate MAX_OUTGOING_PUBLISHES null_packet) (replicate SUBSCRIBE_TOPICS_SIZE null_subscription)
    0 0 0 128 false 0 0 (identity_of sim_home) [] false.

(** CONNACK; a SUBACK for packet 1. *)
Definition rig_script : list bytes := [[32; 2; 0; 0]; [144; 5; 0; 1; 1; 1; 1]]%Z.

(** Whether a run returned, and where. *)
Definition ended {X} (o : outcome (X * aws)) (f : X -> aws -> bool) : bool := match o with Done (x, s) => f x s | _ => false end.

Lemma broker_cannot_touch_local_side_witness :
  exists p s', aws_iot_task 100 3 (rig_aws true rig_script 5000) = Done (p, s') /\
    local_side (aw_dev s') = local_side rig_dev /\ tcp_fifo (aw_dev s') = tcp_fifo rig_dev.
Proof.
  assert (ended (aws_iot_task 100 3 (rig_aws true rig_script 5000)) (fun _ _ => true) = true) as E by (vm_compute; reflexivity).
  pose proof (broker_cannot_touch_local_side 100 3 (rig_aws true rig_script 5000)) as H.
  destruct (aws_iot_task 100 3 (rig_aws true rig_script 5000)) as [[p s']| |]; [|discriminate..].
  exists p, s'. split; [reflexivity|]. destruct (H p s' eq_refl) as [H1 H2]. split; [exact H1|]. apply H2.
  intros c n w. apply Forall_singleton. exists c. reflexivity.
Defined.

(** The task's state in front of its first connection. *)
Definition rig_client : MQTTContext_t :=
  Build_context (replicate 10 null_record) (replicate 10 null_record) (zeros 64) 1 MQTTNotConnected 0 0 false 0 0 0 false.

Definition rig_ready : aws := set_g_mqtt_identity (identity_of rig_dev)
  (set_subscribeTopics [(Some (str "c"), 1%Z); (Some (str "g"), 1%Z); (Some (str "u"), 1%Z)]
  (set_aw_ctx rig_client (rig_aws true rig_script 5000))).

Lemma running_is_subscribed_witness :
  exists s', connecting 100 false false rig_ready = Done (Running, s') /\ is_connected_to_server s' = true /\ subscribed s'.
Proof.
  assert (ended (connecting 100 false false rig_ready) (fun p _ => match p with Running => true | _ => false end) = true)
    as E by (vm_compute; reflexivity).
  pose proof (running_is_subscribed 100 false false rig_ready) as H.
  destruct (connecting 100 false false rig_ready) as [[[|c b|] s']| |]; try discriminate.
  exists s'. split; [reflexivity|]. exact (H s' eq_refl).
Defined.

(** ** The queues *)

(** In the session, with a full queue of events. *)
Definition rig_session : aws := set_aw_nc (set_pxTls (Some tt) null_network) (set_is_connected_to_server true rig_ready).




(** Five messages wait for their PUBACK, and a line for the broker. *)
Definition rig_busy : aws :=
  set_aw_dev (set_mqtt_fifo (snd (response_fifo_push (str "10:on") response_fifo_init)) rig_dev)
    (set_outgoingPublishPackets ((fun i => Build_packets i (publish_info (str "t") (str "m"))) <$> [1; 2; 3; 4; 5]%Z) rig_session).

Lemma rig_fifo_ok : fifo_ok (mqtt_fifo (aw_dev rig_busy)).
Proof.
  pose proof (push_spec (str "10:on") response_fifo_init (proj1 fifo_init_ok)) as H. cbv zeta in H.
  change (mqtt_fifo (aw_dev rig_busy)) with (snd (response_fifo_push (str "10:on") response_fifo_init)).
  destruct (response_fifo_push (str "10:on") response_fifo_init) as [ok f]. exact (proj1 H).
Qed.

Lemma full_table_loses_responses_witness :
  exists s', drain_responses 100 rig_busy = Done (tt, s') /\ contents (mqtt_fifo (aw_dev s')) = [] /\ wire s' = wire rig_busy.
Proof.
  apply (full_table_loses_responses 100 rig_busy).
  - vm_compute. reflexivity.
  - reflexivity.
  - apply (bool_decide_unpack _). vm_compute. exact I.
  - exact rig_fifo_ok.
  - apply (bool_decide_unpack _). vm_compute. exact I.
Defined.

Lemma deadlines_past_at_the_wrap_witness :
  waitForPacketAck 100 1 5000 (rig_aws true rig_script 4294966000)
    = Done (EXIT_FAILURE, set_aw_net (net_wait 100 (aw_net (rig_aws true rig_script 4294966000)))
        (set_globalAckPacketIdentifier 0 (rig_aws true rig_script 4294966000))).
Proof.
  pose proof (deadlines_past_at_the_wrap 100 1 5000 (rig_aws true rig_script 4294966000)) as H. 
  assert (Clock_GetTimeMs (aw_net (rig_aws true rig_script 4294966000))
    = (4294966000%Z, net_wait 100 (aw_net (rig_aws true rig_script 4294966000)))) as E by (vm_compute; reflexivity).
  rewrite E in H. refine (proj1 (H _ _ _)); [discriminate|split; [discriminate|reflexivity]|discriminate].
Defined.

(** ** The topics *)

Lemma rig_bounds : prov_bounds (prov rig_dev).
Proof. split; apply (bool_decide_unpack _); vm_compute; exact I. Qed.

Lemma rig_type : type_fits.
Proof. unfold type_fits. apply (bool_decide_unpack _). vm_compute. exact I. Qed.


Lemma rig_identified : identified rig_session.
Proof. split; [exact rig_bounds|exact rig_type| |reflexivity]. apply (bool_decide_unpack _). vm_compute. exact I. Qed.

(** A message for somebody else, and an empty one for this device. *)
Definition rig_stranger : MQTTPublishInfo_t := publish_info (str "x/command") (str "on").

Lemma commands_are_routed_witness :
  eventCallback 100 (Build_packet_info 48 None 0 0) (Build_deserialized 0 (Some rig_stranger) MQTTSuccess) rig_session
    = Done (tt, rig_session).
Proof.
  apply (commands_are_routed 100 rig_session (Build_packet_info 48 None 0 0) 0 rig_stranger (str "x/command") MQTTSuccess).
  - exact rig_identified.
  - reflexivity.
  - discriminate.
  - reflexivity.
  - apply (bool_decide_unpack _). vm_compute. exact I.
  - apply (bool_decide_unpack _). vm_compute. exact I.
  - apply (bool_decide_unpack _). vm_compute. exact I.
Defined.

Definition rig_topic : bytes := topic_text rig_dev (str "getInfoCommand").

(** The packet as it lies in the buffer: the topic and nothing behind it. *)
Definition rig_empty : MQTTPacketInfo_t :=
  Build_packet_info 48 (Some ([0; 30]%Z ++ rig_topic ++ zeros 20)) (2 + Z.of_nat (length rig_topic)) 2.

Lemma empty_command_stops_the_device_witness :
  MqttCore.handleIncomingPublish (A := aws_app 100) 100 rig_empty rig_session = Fault.
Proof.
  refine (empty_command_stops_the_device 100 rig_session rig_empty 0
    (Build_publish_info MQTTQoS0 false false (Some (rig_topic ++ zeros 20)) (Z.of_nat (length rig_topic)) None 0) rig_topic
    rig_identified _ _ _ _ _ _ _).
  - vm_compute. reflexivity.
  - reflexivity.
  - reflexivity.
  - reflexivity.
  - discriminate.
  - vm_compute. reflexivity.
  - left. reflexivity.
Defined.
